(* ===== verification/_CoqProject ===== *)
-Q . S2P
Prelude.v
TSQueue.v
Common.v
Broker.v
Component.v
Frames.v
Session.v
FileTransfer.v
ReceivedFile.v
PartialIO.v
Terminal.v
ConnectionManager.v
SessionIds.v
Offers.v
ConsoleClient.v
Peers.v
Links.v
Group.v
LostConnection.v
Conversation.v
Redial.v
LinkedList.v
Discovery.v
Bonjour.v
Avahi.v
Service.v
GuiClient.v
Wiring.v
ChatCore.v
Announcement.v
