(* ===== verification/Prelude.v ===== *)
(** * LocalChat: a verification library

    LocalChat is a peer-to-peer chat for the local network.  A machine
    announces itself with DNS-SD (Bonjour or Avahi), discovers its peers, dials
    them or accepts their connections, and exchanges chat lines and files over
    TCP sessions.  Inside one machine, components with mailboxes exchange
    messages through a broker.  This library translates that program into
    executable definitions and proves what it does, its faults included.

    ** Parts, and the files that model them

    Shared: this file has the outcomes of C++ computations ([result]: a value
    or a [fault]), fixed-width integers as [Z] with explicit wrap-around,
    characters and buffers with checked loads and stores, ordered maps,
    reflexive-transitive closure, and the tactics and hint databases.
    [Common] has the data of include/BV.hpp, BVEvent.hpp, BVTCPCommon.hpp,
    BVService.hpp and api_common.h: statuses, events, messages, records that
    components and machines exchange, the chat log.

    Messaging inside a machine:
    - [TSQueue] (include/threadsafequeue.hpp): the linked queue on a heap of
      nodes, with [push] and the two halves of a pop as atomic sections.  The
      class [FifoQueue] with its laws is what the others rely on.
    - [Broker] (include/BVBroker.hpp, src/BVBroker.cpp): [Attach], [Detach],
      [Subscribe], [Unsubscribe], [Route] and the [Run] loop.  [mail] is the
      store of queue objects and of message objects, both shared.
    - [Component] (include/BVComponent.hpp): the handler table and the loop
      [ListenToMail]; [data_p] is moved out of the shared message.

    Between machines:
    - [Frames] (the codecs of include/BVTCPSession.hpp): the two frame formats
      as stores and loads in buffers.
    - [Session] (include/BVTCPSession.hpp, src/BVTCPSession.cpp): buffers,
      reads, writes, frame handlers and completion callbacks of one
      connection, against the class [SessionManager].
    - [PartialIO] (include/BVTCPSession.hpp): transfers in parts, which nothing
      in the program starts.
    - [FileTransfer] (include/BVFileTransferContext.hpp) and [ReceivedFile]
      (include/BVReceivedFile.hpp): sending and assembling a file.
    - [ConnectionManager] (include/BVTCPConnectionManager.hpp,
      src/BVTCPConnectionManager.cpp): sessions as shared objects, who dials
      whom, identification, offers; it is an instance of [SessionManager].
    - [SessionIds]: the counter that names the sessions, before and after it
      wraps around.
    - [Offers]: the counter that names the file offers, and what becomes of an
      offer.

    Finding peers:
    - [LinkedList] (src/linked_list.c): the C list on an explicit heap.
    - [Discovery] (include/BVDiscovery.hpp and the record both daemons'
      callbacks build), [Bonjour] (src/BVDiscovery_Bonjour.cpp,
      src/bonjour_api.c) and [Avahi] (src/BVDiscovery_Avahi.cpp,
      src/avahi_api.c).
    - [Service] (include/BVService.hpp, src/BVService_Bonjour.cpp,
      src/BVService_Avahi.cpp): registering this machine.

    Applications:
    - [ConsoleClient] (include/BVApp.hpp, include/BVApp_ConsoleClient.hpp,
      src/BVApp_ConsoleClient.cpp): the user interface as a state machine,
      what it draws, and the mailbox handlers.
    - [GuiClient] (mac-gui/BVApp_GuiClient.hpp): the overrides on top of it.
    - [Terminal] (BVTerminal of include/BVApp_ConsoleClient.hpp): the modes of
      the terminal, and what is put back.
    - [Wiring] (src/main.cpp): attaching, subscribing, and the end of the
      program.
    - [ChatCore] (mac-gui/BVChatCore.hpp): the facade of the GUI, its [start],
      its [stop] and what it forwards.

    Compositions: [Peers] joins two machines by a connection; [Links] has one
    machine with any number of sessions, each of its operations as an event on
    at most one of them; [Group] lets any number of machines run, keys, event
    loops, mailbox loops and sockets interleaved freely, against a
    specification of two channels per link, and grows by the handshake;
    [LostConnection] has one machine of a group lose a connection;
    [Conversation] is the group of two; [Redial] has one of two machines dial
    again on top of an open connection; [Announcement] follows a service from
    the daemon's reply to the dial; [Wiring] runs the broker between the two
    components.

    ** State and steps

    An object is a record, a member function a function on it.  Objects the
    program shares by pointer (queues, messages, sessions, list elements) live
    in explicit stores and are referred to by address.  A handler that the
    event loop calls later (a completed read, accept, connection, timer, a
    posted action) is a function of its own, so handlers, keys, mailbox
    messages and worker iterations interleave as steps.  Undefined behaviour
    and uncaught exceptions are values of [fault].  What is not part of the
    repository is an argument: the socket ([asio] says whether an operation
    moves bytes at once or on completion), the name resolver, the clock and
    [ctime], indeterminate memory, the daemons' answers, the file system's
    permissions; [env] also says how a blocking write ends, whether a file can
    be opened and whether the peer of a socket is gone.  The connects a manager
    has under way complete in any order.  A call that throws where nothing
    catches ([remote_endpoint] on a reset socket, [cancel] on a descriptor that
    [Browse] has not assigned) is a fault of the handler that makes it.

    ** What the theorems show

    - End to end ([Group], [Conversation], [Peers], [Announcement], [Wiring]):
      the handshake completes and links two machines of a group; under every
      interleaving of all machines each link is two FIFO channels whose ends
      may close, nothing faults, and every line is heard once, in order, by the
      peer it was said to, if its end is open, and by nobody else; a file arrives as sent; an announced service is
      dialled; every message reaches exactly the component with a handler for
      it; quitting ends every loop, once browsing has started.
    - Invariants: the broker's tables in every reachable state
      ([broker_reachable_invariant]), one session per peer
      ([one_session_per_peer]), one session per identifier until the counter
      wraps around ([session_id_for_one_session]), an unused key for every offer
      and one answer to it ([file_offer_answered_once]), browsing that does not
      stall ([bonjour_keeps_browsing]).
    - Refinement and equivalence: a group refines its channels; the heap
      queue is a FIFO queue, also when producers and consumers interleave; the
      C list is a list; the GUI's handlers refine the console's, and its texts
      are the console's chat lines.
    - Round trips and bounds of the frames, of offers and of the browse record.
    - Delivery: the broker's and the mailbox loops, the chat stream, received
      transfers, sent files, written files, the batch of browse replies.
    - Faults: each theorem states the circumstances exactly: the read armed too
      early, the write buffer used twice, the deaf session, the lost connection, the line among
      a file's packets, the empty and the shrinking file, the second offer, the
      second dial, transfers under one key, the identifier used again, the lost
      wakeup, the event loop that stays stopped, the text sent twice, the wrong
      reference deallocated, the dial that is never repeated, errors that end
      the process.

    ** Fuel

    Loops that are not structural take fuel and report its exhaustion apart
    from their result ([OutOfFuel], [Ok None], [None]).  The theorems give the
    fuel: one more than the number of waiting messages for [Run] and
    [ListenToMail], the length of the chain for the C list (discovery passes
    the size of its heap and one more), one iteration for [BEGIN] and one for
    each packet of the file for the transfer worker ([iterations], which is
    exact).  [shrunk_file_spins] and [pause_protocol_hangs] show loops that no
    fuel is enough for.

    ** Not modelled

    include/dns_sd.h is vendored.  Logging (BVLoggable, spdlog, SetupLogger) is
    output only.  BVChatBridge and the Swift code convert and forward.
    Starting and joining threads is where the loops modelled here begin and
    end; that discovery's worker thread may run late is a step of [ChatCore].  BVGUI, BVFSM, BVChat and BVSimplePollManager_Avahi have no code.
    Mutexes guard whole operations, which are single steps here; the queue,
    whose operations take a lock twice, and the pause flag of Avahi, which is
    not guarded, are modelled at the finer grain.  In a group writes complete
    and reads may fail; a write that fails part of the way, a connect, an offer
    and the removal of a session are steps of one machine's connection manager
    ([mstep]) and not of a group. *)

From Stdlib Require Import ZArith Lia Ascii String.
From stdpp Require Export gmap strings list fin_maps.
#[global] Open Scope Z_scope.

(** ** C++ outcomes *)

(** What ends a C++ computation abnormally.  The first four are undefined
    behaviour, [AssertionFailed] is a failed [assert], the next two are
    exceptions that leave the function uncaught, and [Nontermination] is a
    loop that never ends. *)
Inductive fault : Type :=
  | OutOfBounds
  | NullDereference
  | UseAfterFree
  | UninitialisedRead
  | AssertionFailed
  | Std_out_of_range
  | Std_runtime_error
  | Nontermination.

Inductive result (A : Type) : Type :=
  | Ok (a : A)
  | Err (e : fault).
Arguments Ok {A} _.
Arguments Err {A} _.

#[export] Instance result_ret : MRet result := fun A a => Ok a.
#[export] Instance result_bind : MBind result :=
  fun A B f r => match r with Ok a => f a | Err e => Err e end.

Declare Scope bv_scope.
Delimit Scope bv_scope with bv.
Notation "'let!' x ':=' c 'in' k" := (mbind (M := result) (fun x => k) c)
  (at level 10, x name, c at level 100, k at level 200) : bv_scope.
Notation "'let!' ' p ':=' c 'in' k" := (mbind (M := result) (fun x => match x with p => k end) c)
  (at level 10, p strict pattern, c at level 100, k at level 200) : bv_scope.
#[global] Open Scope bv_scope.

Definition is_Ok {A} (r : result A) : bool :=
  match r with Ok _ => true | Err _ => false end.

(** [std::map::at] and the checked read of a pointer. *)
Definition from_option_err {A} (e : fault) (o : option A) : result A :=
  match o with Some a => Ok a | None => Err e end.

(** ** Fixed-width unsigned integers, as [Z] with explicit wrap-around *)

Definition wrap (w : Z) (z : Z) : Z := z mod 2 ^ w.
Definition u8 (z : Z) : Z := wrap 8 z.
Definition u16 (z : Z) : Z := wrap 16 z.
Definition u32 (z : Z) : Z := wrap 32 z.
Definition u64 (z : Z) : Z := wrap 64 z.

(** ** Characters and buffers: [char] is [ascii] *)

Definition uchar (c : ascii) : Z := Z.of_N (N_of_ascii c).
Definition char_of (z : Z) : ascii := ascii_of_N (Z.to_N (u8 z)).
Definition NUL : ascii := Ascii.zero.

Definition chars (s : string) : list ascii := list_ascii_of_string s.
Definition str (l : list ascii) : string := string_of_list_ascii l.

(** Little-endian image of an [n]-byte unsigned integer ([std::memcpy] of the
    integer into a buffer on the little-endian hosts the program targets). *)
Fixpoint le_bytes (n : nat) (z : Z) : list ascii :=
  match n with
  | O => []
  | S n => char_of z :: le_bytes n (z / 256)
  end.

Fixpoint le_val (l : list ascii) : Z :=
  match l with
  | [] => 0
  | c :: l => uchar c + 256 * le_val l
  end.

(** [std::memcpy (buf + off, src, |src|)] into a buffer of [length buf] chars. *)
Definition memcpy_to (buf : list ascii) (off : nat) (src : list ascii) : result (list ascii) :=
  if decide (off + length src <= length buf)%nat
  then Ok (take off buf ++ src ++ drop (off + length src) buf)
  else Err OutOfBounds.

(** Read of [n] chars at [buf + off]. *)
Definition load (buf : list ascii) (off n : nat) : result (list ascii) :=
  if decide (off + n <= length buf)%nat
  then Ok (take n (drop off buf))
  else Err OutOfBounds.

Definition zeros (n : nat) : list ascii := replicate n NUL.

(** [std::string::find (c)]: position of the first occurrence. *)
Fixpoint find_char (c : ascii) (l : list ascii) : option nat :=
  match l with
  | [] => None
  | d :: l => if decide (d = c) then Some O else S <$> find_char c l
  end.

(** The characters before the first NUL, [None] when there is none in [l]
    (a C scan would run past the end). *)
Fixpoint until_nul (l : list ascii) : option (list ascii) :=
  match l with
  | [] => None
  | c :: l => if decide (c = NUL) then Some [] else cons c <$> until_nul l
  end.

(** [std::string < std::string]: lexicographic on unsigned chars. *)
Definition str_lt (a b : string) : bool := String.ltb a b.

(** ** [std::map] with integer keys, iterated in key order *)

Fixpoint smap_insert {A} (k : Z) (v : A) (l : list (Z * A)) : list (Z * A) :=
  match l with
  | [] => [(k, v)]
  | (k', v') :: t =>
      if k <? k' then (k, v) :: l
      else if k =? k' then (k, v) :: t
      else (k', v') :: smap_insert k v t
  end.

Fixpoint smap_find {A} (k : Z) (l : list (Z * A)) : option A :=
  match l with
  | [] => None
  | (k', v) :: t => if k =? k' then Some v else smap_find k t
  end.

Definition smap_erase {A} (k : Z) (l : list (Z * A)) : list (Z * A) :=
  filter (fun kv => kv.1 <> k) l.

(** Keys in strictly increasing order. *)
Fixpoint smap_sorted {A} (l : list (Z * A)) : Prop :=
  match l with
  | [] => True
  | (k, _) :: t => Forall (fun kv => k < kv.1) t /\ smap_sorted t
  end.

(** Reflexive-transitive closure of a step relation. *)
Inductive star {S : Type} (step : S -> S -> Prop) : S -> S -> Prop :=
  | star_refl s : star step s s
  | star_step s1 s2 s3 : step s1 s2 -> star step s2 s3 -> star step s1 s3.

(** ** Lemmas *)

Create HintDb bv.
Create Rewrite HintDb bv_len.

Ltac inv_result :=
  repeat match goal with
  | H : Ok _ = Ok _ |- _ => injection H as H; subst
  | H : Err _ = Err _ |- _ => injection H as H; subst
  | H : Ok _ = Err _ |- _ => discriminate H
  | H : Err _ = Ok _ |- _ => discriminate H
  end.

Ltac case_if :=
  match goal with
  | |- context [if ?b then _ else _] => destruct b eqn:?
  | H : context [if ?b then _ else _] |- _ => destruct b eqn:?
  end.

(** Arithmetic with the wrap-around operators in scope. *)
Ltac wrap_lia :=
  unfold u8, u16, u32, u64, wrap in *;
  change (2 ^ 8) with 256 in *; change (2 ^ 16) with 65536 in *;
  change (2 ^ 32) with 4294967296 in *; change (2 ^ 64) with 18446744073709551616 in *;
  Z.div_mod_to_equations; lia.

Lemma from_option_ok {A} e (o : option A) a : from_option_err e o = Ok a -> o = Some a.
Proof. destruct o; cbn; congruence. Qed.

Lemma bind_ok {A B} (r : result A) (f : A -> result B) b :
  mbind f r = Ok b <-> exists a, r = Ok a /\ f a = Ok b.
Proof.
  destruct r as [a|e]; simpl; split.
  - intros Hf. by exists a.
  - by intros (a' & [= ->] & Hf).
  - done.
  - by intros (a' & ? & _).
Qed.

(** One step of the inversion of a computation that returned. *)
Ltac ok_step :=
  match goal with
  | H : Ok _ = Ok _ |- _ => injection H as H; subst
  | H : (_, _) = (_, _) |- _ => injection H as H; subst
  | H : Err _ = Ok _ |- _ => discriminate H
  | H : None = Some _ |- _ => discriminate H
  | H : Some _ = Some _ |- _ => injection H as H; subst
  | H : mbind _ _ = Ok _ |- _ => apply bind_ok in H as (? & ? & H)
  | H : (let '(_, _) := ?x in _) = Ok _ |- _ => destruct x eqn:?
  | H : match ?x with Some _ => _ | None => _ end = Ok _ |- _ => destruct x eqn:?
  | H : match ?x with Some _ => _ | None => _ end = (_, _) |- _ => destruct x eqn:?
  | H : match ?x with [] => _ | _ :: _ => _ end = Ok _ |- _ => destruct x eqn:?
  | H : (if ?b then _ else _) = Ok _ |- _ => destruct b eqn:?
  end.
Ltac ok_steps := repeat ok_step.

Lemma star_trans {S} (step : S -> S -> Prop) s1 s2 s3 :
  star step s1 s2 -> star step s2 s3 -> star step s1 s3.
Proof. induction 1; eauto using @star. Qed.

Lemma star_invariant {S} (step : S -> S -> Prop) (I : S -> Prop) s s' :
  (forall a b, I a -> step a b -> I b) -> I s -> star step s s' -> I s'.
Proof. intros Hstep HI Hstar. induction Hstar; eauto. Qed.

Lemma wrap_small w z : 0 <= z < 2 ^ w -> wrap w z = z.
Proof. intros. unfold wrap. by apply Z.mod_small. Qed.

Lemma uchar_bound c : 0 <= uchar c < 256.
Proof.
  unfold uchar. pose proof (N_ascii_bounded c). lia.
Qed.

Lemma uchar_char_of z : uchar (char_of z) = u8 z.
Proof.
  unfold uchar, char_of. rewrite N_ascii_embedding; wrap_lia.
Qed.

Lemma char_of_uchar c : char_of (uchar c) = c.
Proof.
  unfold char_of, uchar. pose proof (N_ascii_bounded c).
  unfold u8. rewrite wrap_small by lia. rewrite N2Z.id. apply ascii_N_embedding.
Qed.

Lemma uchar_inj c d : uchar c = uchar d -> c = d.
Proof. intros H. rewrite <- (char_of_uchar c), <- (char_of_uchar d). by rewrite H. Qed.

Lemma chars_str l : chars (str l) = l.
Proof. apply list_ascii_of_string_of_list_ascii. Qed.

Lemma str_chars s : str (chars s) = s.
Proof. apply string_of_list_ascii_of_string. Qed.

Lemma chars_inj s t : chars s = chars t -> s = t.
Proof. intros H. rewrite <- (str_chars s), <- (str_chars t). by rewrite H. Qed.

Lemma length_chars s : length (chars s) = String.length s.
Proof. induction s; simpl; auto. Qed.

Lemma chars_app s t : chars (s +:+ t) = chars s ++ chars t.
Proof. induction s; simpl; f_equal; auto. Qed.

Lemma length_le_bytes n z : length (le_bytes n z) = n.
Proof. revert z; induction n; simpl; intros; auto. Qed.

Lemma le_val_bytes n z : 0 <= z < 256 ^ Z.of_nat n -> le_val (le_bytes n z) = z.
Proof.
  revert z; induction n as [|n IH]; intros z Hz.
  - simpl in *. change (256 ^ Z.of_nat 0) with 1 in Hz. lia.
  - cbn [le_bytes le_val]. rewrite Nat2Z.inj_succ, Z.pow_succ_r in Hz by lia.
    rewrite uchar_char_of, IH; wrap_lia.
Qed.

Lemma le_val_bound l : 0 <= le_val l < 256 ^ Z.of_nat (length l).
Proof.
  induction l as [|c l IH]; simpl length; [simpl; lia|].
  cbn [le_val]. rewrite Nat2Z.inj_succ, Z.pow_succ_r by lia.
  pose proof (uchar_bound c). lia.
Qed.

Lemma le_bytes_val l : le_bytes (length l) (le_val l) = l.
Proof.
  induction l as [|c l IH]; simpl; auto. pose proof (uchar_bound c). f_equal.
  - rewrite <- (char_of_uchar c) at 2. unfold char_of. do 2 f_equal. wrap_lia.
  - replace ((uchar c + 256 * le_val l) / 256) with (le_val l); [done|].
    Z.div_mod_to_equations; lia.
Qed.

Lemma memcpy_to_length buf off src buf' :
  memcpy_to buf off src = Ok buf' -> length buf' = length buf.
Proof.
  unfold memcpy_to. case_decide; [|done]. intros ?; inv_result.
  rewrite !length_app, length_take, length_drop. lia.
Qed.

Lemma memcpy_to_ok buf off src :
  (off + length src <= length buf)%nat ->
  memcpy_to buf off src = Ok (take off buf ++ src ++ drop (off + length src) buf).
Proof. intros. unfold memcpy_to. by rewrite decide_True. Qed.

Lemma load_ok buf off n :
  (off + n <= length buf)%nat -> load buf off n = Ok (take n (drop off buf)).
Proof. intros. unfold load. by rewrite decide_True. Qed.

Lemma length_zeros n : length (zeros n) = n.
Proof. apply length_replicate. Qed.

Lemma until_nul_app l r : NUL ∉ l -> until_nul (l ++ NUL :: r) = Some l.
Proof.
  induction l as [|c l IH]; simpl; intros Hl.
  - done.
  - rewrite decide_False by set_solver. rewrite IH by set_solver. done.
Qed.

Lemma until_nul_None l : NUL ∉ l -> until_nul l = None.
Proof.
  induction l as [|c l IH]; simpl; intros Hl; auto.
  rewrite decide_False by set_solver. rewrite IH by set_solver. done.
Qed.

Lemma find_char_app c l r : c ∉ l -> find_char c (l ++ c :: r) = Some (length l).
Proof.
  induction l as [|d l IH]; simpl; intros Hl.
  - by rewrite decide_True.
  - rewrite decide_False by set_solver. rewrite IH by set_solver. done.
Qed.

Lemma find_char_None c l : c ∉ l -> find_char c l = None.
Proof.
  induction l as [|d l IH]; simpl; intros Hl; auto.
  rewrite decide_False by set_solver. rewrite IH by set_solver. done.
Qed.

Lemma smap_find_insert {A} k (v : A) l : smap_find k (smap_insert k v l) = Some v.
Proof.
  induction l as [|[k' v'] l IH]; cbn [smap_insert]; [simpl; by rewrite Z.eqb_refl|].
  destruct (k <? k') eqn:E1; [simpl; by rewrite Z.eqb_refl|].
  destruct (k =? k') eqn:E2; simpl; [by rewrite Z.eqb_refl|by rewrite E2].
Qed.

Lemma smap_find_insert_ne {A} k k' (v : A) l :
  k <> k' -> smap_find k' (smap_insert k v l) = smap_find k' l.
Proof.
  intros Hne. induction l as [|[k2 v2] l IH]; cbn [smap_insert].
  - simpl. destruct (k' =? k) eqn:E; [apply Z.eqb_eq in E; congruence|done].
  - destruct (k <? k2) eqn:E1; [|destruct (k =? k2) eqn:E2].
    + simpl. destruct (k' =? k) eqn:E; [apply Z.eqb_eq in E; congruence|done].
    + apply Z.eqb_eq in E2 as <-. simpl.
      destruct (k' =? k) eqn:E; [apply Z.eqb_eq in E; congruence|done].
    + simpl. by rewrite IH.
Qed.

Lemma smap_insert_elem {A} k (v : A) l x : x ∈ smap_insert k v l -> x = (k, v) \/ x ∈ l.
Proof.
  induction l as [|[k' v'] l IH]; cbn [smap_insert]; [set_solver|].
  destruct (k <? k'); [set_solver|]. destruct (k =? k'); set_solver.
Qed.

Lemma smap_erase_id {A} k (l : list (Z * A)) :
  Forall (fun kv => k < kv.1) l -> smap_erase k l = l.
Proof.
  unfold smap_erase. induction 1 as [|[k' v'] l Hk Hl IH]; [done|]. simpl in Hk.
  rewrite filter_cons_True by (simpl; lia). by rewrite IH.
Qed.

(** Inserting replaces the pair with the same key. *)
Lemma smap_insert_perm {A} k (v : A) l :
  smap_sorted l -> smap_insert k v l ≡ₚ (k, v) :: smap_erase k l.
Proof.
  induction l as [|[k' v'] l IH]; cbn [smap_insert smap_sorted]; [done|]. intros [Hk Hs].
  destruct (k <? k') eqn:E1; [|destruct (k =? k') eqn:E2].
  - apply Z.ltb_lt in E1. rewrite smap_erase_id; [done|]. constructor; [done|].
    eapply Forall_impl; [exact Hk|]. simpl. lia.
  - apply Z.eqb_eq in E2 as <-. unfold smap_erase. rewrite filter_cons_False by naive_solver.
    fold (smap_erase k l). by rewrite smap_erase_id.
  - apply Z.eqb_neq in E2. unfold smap_erase. rewrite filter_cons_True by done.
    rewrite IH by done. apply Permutation_swap.
Qed.

Lemma smap_insert_sorted {A} k (v : A) l : smap_sorted l -> smap_sorted (smap_insert k v l).
Proof.
  induction l as [|[k' v'] l IH]; cbn [smap_insert smap_sorted]; [done|]. intros [Hk Hs].
  destruct (k <? k') eqn:E1; [|destruct (k =? k') eqn:E2]; cbn [smap_sorted].
  - apply Z.ltb_lt in E1. split; [|done]. constructor; [done|].
    eapply Forall_impl; [exact Hk|]. simpl. lia.
  - apply Z.eqb_eq in E2 as <-. done.
  - apply Z.eqb_neq in E2. apply Z.ltb_ge in E1. split; [|by apply IH].
    apply Forall_forall. intros x [->|Hx]%smap_insert_elem; [simpl; lia|].
    by apply (proj1 (Forall_forall _ _) Hk).
Qed.

Lemma smap_erase_sorted {A} k (l : list (Z * A)) : smap_sorted l -> smap_sorted (smap_erase k l).
Proof.
  unfold smap_erase. induction l as [|[k' v'] l IH]; [done|]. intros [Hk Hs].
  rewrite filter_cons. destruct (decide _); [|by apply IH]. split; [|by apply IH].
  apply Forall_forall. intros x [_ Hx]%list_elem_of_filter. by apply (proj1 (Forall_forall _ _) Hk).
Qed.

Lemma smap_find_erase {A} k (l : list (Z * A)) : smap_find k (smap_erase k l) = None.
Proof.
  unfold smap_erase. induction l as [|[k' v'] l IH]; [done|].
  rewrite filter_cons. destruct (decide _) as [Hne|]; [|done]. simpl in *.
  destruct (k =? k') eqn:E; [apply Z.eqb_eq in E; congruence|done].
Qed.

Lemma smap_find_perm {A} k (v : A) l :
  smap_sorted l -> smap_find k l = Some v -> l ≡ₚ (k, v) :: smap_erase k l.
Proof.
  induction l as [|[k' v'] l IH]; cbn [smap_find smap_sorted]; [done|]. intros [Hk Hs] Hf.
  unfold smap_erase. destruct (k =? k') eqn:E.
  - apply Z.eqb_eq in E as <-. injection Hf as ->. rewrite filter_cons_False by naive_solver.
    fold (smap_erase k l). by rewrite smap_erase_id.
  - apply Z.eqb_neq in E. rewrite filter_cons_True by done. fold (smap_erase k l).
    rewrite Permutation_swap, <- IH by done. done.
Qed.

Lemma smap_find_elem {A} k (v : A) l : smap_find k l = Some v -> (k, v) ∈ l.
Proof.
  induction l as [|[k' v'] l IH]; simpl; [done|]. destruct (k =? k') eqn:E.
  - apply Z.eqb_eq in E as <-. intros [= ->]. set_solver.
  - intros Hf. apply IH in Hf. set_solver.
Qed.

Lemma smap_find_is_Some {A} k (v : A) l : (k, v) ∈ l -> is_Some (smap_find k l).
Proof.
  induction l as [|[k' v'] l IH]; simpl; [set_solver|]. intros [[= -> ->]|Hin]%elem_of_cons; [by rewrite Z.eqb_refl|].
  destruct (k =? k'); [done|by apply IH].
Qed.

Lemma smap_elem_find {A} k (v : A) l : smap_sorted l -> (k, v) ∈ l -> smap_find k l = Some v.
Proof.
  induction l as [|[k' v'] l IH]; cbn [smap_sorted smap_find]; [by intros _ ?%elem_of_nil|].
  intros [Hk Hs] [[= -> ->]|Hin]%elem_of_cons; [by rewrite Z.eqb_refl|].
  pose proof (proj1 (Forall_forall _ _) Hk _ Hin) as Hlt. cbn in Hlt.
  destruct (k =? k') eqn:E; [apply Z.eqb_eq in E; lia|by apply IH].
Qed.

Lemma smap_singleton {A} k (v : A) l :
  smap_sorted l -> smap_find k l = Some v -> (forall k', k' <> k -> smap_find k' l = None) -> l = [(k, v)].
Proof.
  intros Hs Hf Hn. apply Permutation_singleton_r. rewrite (smap_find_perm k v l Hs Hf) at 1. f_equiv.
  destruct (smap_erase k l) as [|[k2 v2] r] eqn:E; [done|].
  assert (Hin : (k2, v2) ∈ smap_erase k l) by (rewrite E; left).
  apply list_elem_of_filter in Hin as [Hne Hin]. apply smap_find_is_Some in Hin as [? Hx].
  by rewrite Hn in Hx by (cbn in Hne; congruence).
Qed.

Lemma omap_sublist {A B} (f : A -> option B) l1 l2 :
  l1 `sublist_of` l2 -> omap f l1 `sublist_of` omap f l2.
Proof.
  induction 1 as [|x l1 l2 Hs IH|x l1 l2 Hs IH]; simpl; [done| |].
  - destruct (f x); [by apply sublist_skip|done].
  - destruct (f x); [by apply sublist_cons|done].
Qed.

Lemma omap_ext_in {A B} (f g : A -> option B) (l : list A) :
  (forall x, x ∈ l -> f x = g x) -> omap f l = omap g l.
Proof.
  induction l as [|x l IH]; intros Hfg; simpl; [done|]. rewrite (Hfg x) by set_solver.
  destruct (g x); [f_equal|]; apply IH; intros; apply Hfg; set_solver.
Qed.

Lemma str_lt_irrefl a : str_lt a a = false.
Proof.
  unfold str_lt, String.ltb.
  destruct (String.compare a a) eqn:E; auto.
  pose proof (String.compare_antisym a a) as Ha. by rewrite E in Ha.
Qed.

(** Two different names are ordered one way and not the other. *)
Lemma str_lt_total a b : a <> b -> str_lt a b = negb (str_lt b a).
Proof.
  unfold str_lt, String.ltb. intros Hne.
  pose proof (String.compare_antisym a b) as Hab.
  destruct (String.compare a b) eqn:E, (String.compare b a) eqn:F; try done;
    by apply String.compare_eq_iff in E.
Qed.

#[export] Hint Rewrite @length_app @length_take @length_drop length_le_bytes length_zeros
  @length_replicate length_chars : bv_len.
#[export] Hint Resolve uchar_bound : bv.

(** Lengths of buffer expressions. *)
Ltac len := autorewrite with bv_len; simpl; try lia.
