(* ===== verification/TSQueue.v ===== *)
(** * The mailbox queue ([include/threadsafequeue.hpp])

    [threadsafe_queue<T>] is a singly linked list with a dummy tail node and
    two mutexes.  The model keeps the nodes in a heap; a [push] is one atomic
    section under [tail_mutex]; a pop holds [head_mutex] but reads [tail] and
    later unlinks the head in two separate atomic sections, so pushes may run
    in between.  [FifoQueue] is the interface the broker and the components
    are verified against; the heap queue implements it. *)

From Stdlib Require Import ZArith.
From S2P Require Import Prelude.
#[local] Open Scope nat_scope.

(** ** Interface *)

(** What the program relies on: a queue created empty, [push] and [try_pop]
    (which returns [None] on an empty queue). *)
Class FifoQueue (Q : Type -> Type) : Type := {
  q_new : forall {T}, Q T;
  q_push : forall {T}, Q T -> T -> result (Q T);
  q_pop : forall {T}, Q T -> result (option (T * Q T))
}.

(** The contract: the queue represents a list, pushes go to its end, pops
    take its front, and neither faults. *)
Class FifoQueueLaws (Q : Type -> Type) `{FifoQueue Q} : Type := {
  q_repr : forall {T}, Q T -> list T -> Prop;
  q_new_repr : forall T, q_repr (@q_new Q _ T) [];
  q_push_repr : forall T (q : Q T) l x,
    q_repr q l -> exists q', q_push q x = Ok q' /\ q_repr q' (l ++ [x]);
  q_pop_nil : forall T (q : Q T), q_repr q [] -> q_pop q = Ok None;
  q_pop_cons : forall T (q : Q T) x l,
    q_repr q (x :: l) -> exists q', q_pop q = Ok (Some (x, q')) /\ q_repr q' l
}.

(** A queue represents one list: what it pops, in order. *)
Lemma q_repr_fun {Q : Type -> Type} `{FifoQueueLaws Q} {T} (q : Q T) l l' : q_repr q l -> q_repr q l' -> l = l'.
Proof.
  revert q l'. induction l as [|x l IH]; intros q [|y l'] Hl Hl'; [done|..].
  - destruct (q_pop_cons _ _ _ _ Hl') as (q' & Hp & _). by rewrite (q_pop_nil _ _ Hl) in Hp.
  - destruct (q_pop_cons _ _ _ _ Hl) as (q' & Hp & _). by rewrite (q_pop_nil _ _ Hl') in Hp.
  - destruct (q_pop_cons _ _ _ _ Hl) as (q1 & Hp1 & H1), (q_pop_cons _ _ _ _ Hl') as (q2 & Hp2 & H2).
    rewrite Hp1 in Hp2. injection Hp2 as -> ->. f_equal. by apply (IH q2).
Qed.

(** ** The linked implementation *)

Definition loc : Type := nat.

Record node (T : Type) : Type := Node {
  data : option T;      (* std::shared_ptr<T>; [None] is a null pointer *)
  next : option loc     (* std::unique_ptr<node> *)
}.
Arguments Node {T} _ _.
Arguments data {T} _.
Arguments next {T} _.

Record threadsafe_queue (T : Type) : Type := TSQueue {
  heap : gmap loc (node T);
  head : option loc;    (* std::unique_ptr<node>; null after being moved from *)
  tail : loc            (* raw pointer *)
}.
Arguments TSQueue {T} _ _ _.
Arguments heap {T} _.
Arguments head {T} _.
Arguments tail {T} _.

Definition empty_node {T} : node T := Node None None.

(** [threadsafe_queue ()]: one dummy node, both ends on it. *)
Definition queue_new {T} : threadsafe_queue T := TSQueue {[ 0 := empty_node ]} (Some 0) 0.

Definition get_tail {T} (q : threadsafe_queue T) : loc := tail q.

(** [pop_head]: moves [head] out, then [head = old_head->next]; the caller
    becomes the owner of the unlinked node. *)
Definition pop_head {T} (q : threadsafe_queue T) : result (node T * threadsafe_queue T) :=
  let! h := from_option_err NullDereference (head q) in
  let! old_head := from_option_err UseAfterFree (heap q !! h) in
  Ok (old_head, TSQueue (delete h (heap q)) (next old_head) (tail q)).

(** The predicate of [data_cond.wait]: [head.get () != get_tail ()]. *)
Definition has_data {T} (q : threadsafe_queue T) : bool :=
  bool_decide (head q <> Some (get_tail q)).

(** [try_pop_head ()]: a null pointer when the queue is empty. *)
Definition try_pop_head {T} (q : threadsafe_queue T)
    : result (option (node T) * threadsafe_queue T) :=
  if bool_decide (head q = Some (get_tail q)) then Ok (None, q)
  else let! '(old_head, q') := pop_head q in Ok (Some old_head, q').

(** [try_pop ()]: [old_head ? old_head->data : shared_ptr ()]. *)
Definition try_pop {T} (q : threadsafe_queue T) : result (option T * threadsafe_queue T) :=
  let! '(o, q') := try_pop_head q in
  match o with
  | Some old_head => Ok (data old_head, q')
  | None => Ok (None, q')
  end.

(** [wait_and_pop ()]: [Ok None] is a caller still blocked in
    [data_cond.wait]; otherwise the popped node's data. *)
Definition wait_and_pop {T} (q : threadsafe_queue T)
    : result (option (option T * threadsafe_queue T)) :=
  if has_data q
  then let! '(old_head, q') := pop_head q in Ok (Some (data old_head, q'))
  else Ok None.

(** [push]: the value goes into the current tail node, a fresh node becomes
    the new tail. *)
Definition push {T} (q : threadsafe_queue T) (new_data : T) : result (threadsafe_queue T) :=
  let p := fresh (dom (heap q)) in
  let h0 := <[ p := empty_node ]> (heap q) in
  match h0 !! tail q with
  | None => Err UseAfterFree
  | Some _ => Ok (TSQueue (<[ tail q := Node (Some new_data) (Some p) ]> h0) (head q) p)
  end.

(** [empty ()] *)
Definition empty {T} (q : threadsafe_queue T) : bool :=
  bool_decide (head q = Some (get_tail q)).

#[export] Instance tsq_queue : FifoQueue threadsafe_queue := {|
  q_new T := queue_new;
  q_push T := push;
  q_pop T q :=
    let! o := wait_and_pop q in
    match o with
    | Some (Some x, q') => Ok (Some (x, q'))
    | Some (None, _) => Err NullDereference
    | None => Ok None
    end
|}.

(** ** Interleavings of producers and consumers *)

(** [head_lock] records the consumer that holds [head_mutex] after it has
    read [tail] under [tail_mutex] and before it unlinks the head: it holds
    the tail it saw.  [pushed] and [popped] are histories. *)
Record qsys (T : Type) : Type := QSys {
  queue : threadsafe_queue T;
  head_lock : option loc;
  pushed : list T;
  popped : list T
}.
Arguments QSys {T} _ _ _ _.
Arguments queue {T} _.
Arguments head_lock {T} _.
Arguments pushed {T} _.
Arguments popped {T} _.

Definition qsys_init {T} : qsys T := QSys queue_new None [] [].

Inductive qstep {T} : qsys T -> qsys T -> Prop :=
  | step_push s x q' :
      (* any producer, at any moment: only tail_mutex is needed *)
      push (queue s) x = Ok q' ->
      qstep s (QSys q' (head_lock s) (pushed s ++ [x]) (popped s))
  | step_observe s :
      (* a consumer takes head_mutex and reads the tail *)
      head_lock s = None ->
      qstep s (QSys (queue s) (Some (get_tail (queue s))) (pushed s) (popped s))
  | step_empty s t :
      (* head == observed tail: release head_mutex, nothing popped *)
      head_lock s = Some t -> head (queue s) = Some t ->
      qstep s (QSys (queue s) None (pushed s) (popped s))
  | step_pop s t old_head x q' :
      (* head != observed tail: unlink the head node *)
      head_lock s = Some t -> head (queue s) <> Some t ->
      pop_head (queue s) = Ok (old_head, q') -> data old_head = Some x ->
      qstep s (QSys q' None (pushed s) (popped s ++ [x])).

(** ** Representation *)

(** [chain h a l t]: from [a], the heap holds the nodes of [l] and then the
    dummy node [t]. *)
Fixpoint chain {T} (h : gmap loc (node T)) (a : loc) (l : list T) (t : loc) : Prop :=
  match l with
  | [] => a = t /\ h !! a = Some empty_node
  | x :: l => a <> t /\ exists b, h !! a = Some (Node (Some x) (Some b)) /\ chain (delete a h) b l t
  end.

Definition tsq_repr {T} (q : threadsafe_queue T) (l : list T) : Prop :=
  exists a, head q = Some a /\ chain (heap q) a l (tail q).

(** ** Lemmas *)

Lemma chain_tail_in {T} (h : gmap loc (node T)) a l t :
  chain h a l t -> h !! t = Some empty_node.
Proof.
  revert h a; induction l as [|x l IH]; simpl; intros h a.
  - by intros [-> ?].
  - intros (Hne & b & _ & Hc). apply IH in Hc. by apply lookup_delete_Some in Hc as [? ?].
Qed.

Lemma chain_push {T} (h : gmap loc (node T)) a l t p x :
  chain h a l t -> h !! p = None ->
  chain (<[ t := Node (Some x) (Some p) ]> (<[ p := empty_node ]> h)) a (l ++ [x]) p.
Proof.
  revert h a; induction l as [|y l IH]; simpl; intros h a.
  - intros [-> Ht] Hp. assert (t <> p) by congruence. split; [done|].
    exists p. rewrite lookup_insert_eq. split; [done|].
    rewrite delete_insert_eq, lookup_delete_ne, lookup_insert_eq by done. done.
  - intros (Hne & b & Ha & Hc) Hp.
    assert (a <> p) by congruence. split; [done|]. exists b.
    rewrite !lookup_insert_ne by done. split; [done|].
    rewrite !delete_insert_ne by done.
    apply IH; [done|]. rewrite lookup_delete_ne by done. done.
Qed.

Lemma queue_new_repr {T} : tsq_repr (@queue_new T) [].
Proof. exists 0. simpl. by rewrite lookup_singleton_eq. Qed.

Lemma push_repr {T} (q : threadsafe_queue T) l x :
  tsq_repr q l -> exists q', push q x = Ok q' /\ tsq_repr q' (l ++ [x]) /\ head q' = head q.
Proof.
  intros (a & Hh & Hc).
  pose proof (is_fresh (dom (heap q))) as Hf. apply not_elem_of_dom in Hf.
  pose proof (chain_tail_in _ _ _ _ Hc) as Ht.
  unfold push. rewrite lookup_insert_ne by congruence. rewrite Ht.
  eexists; split; [done|]. split; [|done]. exists a. split; [done|]. simpl.
  by apply chain_push.
Qed.

Lemma pop_head_repr {T} (q : threadsafe_queue T) x l :
  tsq_repr q (x :: l) ->
  exists n q', pop_head q = Ok (n, q') /\ data n = Some x /\ tsq_repr q' l /\ tail q' = tail q.
Proof.
  intros (a & Hh & Hne & b & Ha & Hc). unfold pop_head.
  rewrite Hh. simpl. rewrite Ha. simpl.
  do 2 eexists. split; [done|]. split; [done|]. split; [|done]. by exists b.
Qed.

Lemma repr_empty {T} (q : threadsafe_queue T) l :
  tsq_repr q l -> (head q = Some (get_tail q) <-> l = []).
Proof.
  intros (a & Hh & Hc). rewrite Hh. unfold get_tail. destruct l as [|x l]; simpl in Hc.
  - destruct Hc as [-> _]. done.
  - destruct Hc as [Hne _]. split; [intros [= ->]; done | done].
Qed.

Lemma wait_and_pop_nil {T} (q : threadsafe_queue T) :
  tsq_repr q [] -> wait_and_pop q = Ok None.
Proof.
  intros Hr. unfold wait_and_pop, has_data. rewrite bool_decide_false; [done|].
  intros Hd. apply Hd. by apply (repr_empty q []).
Qed.

Lemma wait_and_pop_cons {T} (q : threadsafe_queue T) x l :
  tsq_repr q (x :: l) ->
  exists q', wait_and_pop q = Ok (Some (Some x, q')) /\ tsq_repr q' l.
Proof.
  intros Hr. destruct (pop_head_repr _ _ _ Hr) as (n & q' & Hp & Hd & Hr' & _).
  exists q'. split; [|done]. unfold wait_and_pop, has_data.
  rewrite bool_decide_true by (intros He; by apply (repr_empty _ _ Hr) in He).
  rewrite Hp. simpl. by rewrite Hd.
Qed.

#[export] Instance tsq_queue_laws : FifoQueueLaws threadsafe_queue.
Proof.
  refine {| q_repr T := tsq_repr |}.
  - intros T. apply queue_new_repr.
  - intros T q l x Hr. destruct (push_repr q l x Hr) as (q' & ? & ? & _). eauto.
  - intros T q Hr. simpl. by rewrite wait_and_pop_nil.
  - intros T q x l Hr. destruct (wait_and_pop_cons q x l Hr) as (q' & Hp & ?).
    exists q'. simpl. by rewrite Hp.
Defined.

(** What every interleaving preserves: the queue holds exactly the pushed
    values that have not been popped, and a consumer that observed a tail
    different from the head still finds a value at the head. *)
Definition qsys_inv {T} (s : qsys T) : Prop :=
  exists l, tsq_repr (queue s) l /\ pushed s = popped s ++ l /\
    forall t, head_lock s = Some t -> head (queue s) <> Some t -> l <> [].

Lemma qsys_init_inv {T} : qsys_inv (@qsys_init T).
Proof. exists []. split; [apply queue_new_repr|]. by split. Qed.

Lemma qstep_inv {T} (s s' : qsys T) : qsys_inv s -> qstep s s' -> qsys_inv s'.
Proof.
  intros (l & Hr & Hh & Hl) Hstep. destruct Hstep as
    [s x q' Hp | s Hn | s t Ht He | s t n x q' Ht Hne Hp Hd]; simpl in *.
  - destruct (push_repr _ _ x Hr) as (q'' & Hp' & Hr' & _).
    assert (q'' = q') as -> by congruence.
    exists (l ++ [x]). split; [done|]. split; [by rewrite Hh, (assoc_L (++))|].
    intros. by destruct l.
  - exists l. split; [done|]. split; [done|]. simpl. intros t [= <-] Hne ->.
    apply Hne. by apply (repr_empty _ []).
  - exists l. split; [done|]. by split.
  - specialize (Hl t Ht Hne). destruct l as [|y l]; [done|].
    destruct (pop_head_repr _ _ _ Hr) as (n' & q'' & Hp' & Hd' & Hr' & _).
    rewrite Hp in Hp'. injection Hp' as <- <-. rewrite Hd in Hd'. injection Hd' as <-.
    exists l. split; [done|]. split; [|done]. simpl. by rewrite Hh, <- (assoc_L (++)).
Qed.

(** ** Properties *)

(** C14.  [push] and [try_pop] on the linked nodes implement a FIFO queue: a
    sequence of pushes starting from an empty queue never faults and leaves a
    queue from which [try_pop] returns the first pushed value, keeps the
    others in order, and reports an empty queue with a null pointer. *)
Theorem threadsafe_queue_refines_fifo {T} (q : threadsafe_queue T) (l : list T) :
  tsq_repr q l ->
  (forall x, exists q', push q x = Ok q' /\ tsq_repr q' (l ++ [x])) /\
  (exists q', try_pop q = Ok (hd_error l, q') /\ tsq_repr q' (tl l)) /\
  empty q = bool_decide (l = []).
Proof.
  intros Hr. split; [|split].
  - intros x. destruct (push_repr q l x Hr) as (q' & ? & ? & _). eauto.
  - unfold try_pop, try_pop_head. pose proof (repr_empty q l Hr) as He. destruct l as [|x l].
    + rewrite bool_decide_true by by apply He. by exists q.
    + rewrite bool_decide_false by (intros Hx; by apply He in Hx).
      destruct (pop_head_repr _ _ _ Hr) as (n & q' & Hp & Hd & Hr' & _).
      rewrite Hp. simpl. rewrite Hd. by exists q'.
  - unfold empty. apply bool_decide_ext. by apply repr_empty.
Qed.

Lemma threadsafe_queue_refines_fifo_witness :
  exists q : threadsafe_queue Z, tsq_repr q [7%Z; 9%Z] /\
    (exists q', try_pop q = Ok (Some 7%Z, q')).
Proof.
  destruct (push_repr _ [] 7%Z queue_new_repr) as (q1 & _ & H1 & _).
  destruct (push_repr q1 [7%Z] 9%Z H1) as (q2 & _ & H2 & _).
  exists q2. split; [exact H2|].
  destruct (threadsafe_queue_refines_fifo q2 [7%Z; 9%Z] H2) as (_ & (q' & Hq & _) & _).
  exists q'. exact Hq.
Defined.

(** C15.  In every interleaving of producers with consumers that read the tail
    and unlink the head in two separate atomic sections, no value is lost,
    duplicated or reordered, and a consumer that saw a non-empty queue can
    always unlink a head carrying data, whatever was pushed meanwhile. *)
Theorem threadsafe_queue_linearizable {T} (s : qsys T) :
  star qstep qsys_init s ->
  (exists l, tsq_repr (queue s) l /\ pushed s = popped s ++ l) /\
  (forall t, head_lock s = Some t -> head (queue s) <> Some t ->
     exists n x q', pop_head (queue s) = Ok (n, q') /\ data n = Some x).
Proof.
  intros Hs. apply (star_invariant _ qsys_inv) in Hs as (l & Hr & Hh & Hl);
    [|by eauto using qstep_inv|by apply qsys_init_inv].
  split; [by exists l|]. intros t Ht Hne. specialize (Hl t Ht Hne).
  destruct l as [|x l]; [done|].
  destruct (pop_head_repr _ _ _ Hr) as (n & q' & ? & ? & _). eauto.
Qed.

Lemma threadsafe_queue_linearizable_witness :
  exists s : qsys Z, star qstep qsys_init s /\ pushed s = [5%Z] /\
    exists n x q', pop_head (queue s) = Ok (n, q') /\ data n = Some x.
Proof.
  pose (q1 := TSQueue {[ 0 := Node (Some 5%Z) (Some 1); 1 := empty_node ]} (Some 0) 1).
  pose (s := QSys q1 (Some 1) [5%Z] []).
  assert (Hs : star qstep qsys_init s).
  { eapply star_step; [apply (step_push _ 5%Z q1); vm_compute; reflexivity|].
    eapply star_step; [apply step_observe; reflexivity|]. apply star_refl. }
  exists s. split; [exact Hs|]. split; [reflexivity|].
  apply (proj2 (threadsafe_queue_linearizable s Hs) 1); [reflexivity|done].
Defined.
