(* ===== verification/Common.v ===== *)
(** * Shared data types

    [include/BV.hpp], [include/BVEvent.hpp], [include/const.h],
    [include/api_common.h], [include/BVService.hpp] and
    [include/BVTCPCommon.hpp]: statuses, event types, the records exchanged
    between components and between hosts, their constructors, and the chat
    message log.  Members whose type belongs to Boost.Asio (a node's endpoint,
    address and resolver results, a session's socket object) carry nothing the
    program computes with and are left out of the records. *)

From Stdlib Require Import ZArith Lia Ascii String.
From S2P Require Import Prelude.

(** ** Statuses and events *)

Inductive BVStatus : Type :=
  | BVSTATUS_OK
  | BVSTATUS_NOK
  | BVSTATUS_IN_PROGRESS
  | BVSTATUS_FATAL_ERROR
  | BVSTATUS_DEAD
  | BVSTATUS_MAX_COMPONENTS.

#[export] Instance BVStatus_eq_dec : EqDecision BVStatus.
Proof. solve_decision. Defined.

Inductive BVEventType : Type :=
  | BVEVENTTYPE_DISCOVERY_REQUEST_START
  | BVEVENTTYPE_DISCOVERY_REQUEST_PAUSE
  | BVEVENTTYPE_DISCOVERY_REQUEST_RESUME
  | BVEVENTTYPE_DISCOVERY_REQUEST_SHUTDOWN
  | BVEVENTTYPE_DISCOVERY_REQUEST_RESTART
  | BVEVENTTYPE_DISCOVERY_REQUEST_RESOLVE
  | BVEVENTTYPE_APP_PUBLISHED_SERVICE
  | BVEVENTTYPE_APP_DEREGISTERED_SERVICE
  | BVEVENTTYPE_APP_DISCOVERY_RESUMED
  | BVEVENTTYPE_APP_DISCOVERY_PAUSED
  | BVEVENTTYPE_APP_DISCOVERY_SERVICE_RESOLVED
  | BVEVENTTYPE_SERVICE_REQUEST_START
  | BVEVENTTYPE_SERVICE_REQUEST_SHUTDOWN
  | BVEVENTTYPE_TERMINATE_ALL
  | REDUNDANT_BVEVENTTYPE_APP_SERVICE_DEREGISTERED
  | BVEVENTTYPE_APP_MESSAGE_INCOMING
  | BVEVENTTYPE_APP_FILE_OFFER
  | BVEVENTTYPE_APP_FILE_TRANSFER_BEGIN
  | BVEVENTTYPE_APP_FILE_TRANSFER_CHUNK_SENT
  | BVEVENTTYPE_APP_FILE_TRANSFER_END
  | BVEVENTTYPE_APP_FILE_TRANSFER_CANCELLED
  | BVEVENTTYPE_TEST_ECHO
  | BVEVENTTYPE_TEST_HEARTBEAT
  | BVEVENTTYPE_TEST_HEARTBEAT_ACK
  | BVEVENTTYPE_TEST_HEARTBEAT_NACK
  | BVEVENTTYPE_TEST_REQUEST_START
  | BVEVENTTYPE_TEST_REQUEST_PAUSE
  | BVEVENTTYPE_TEST_REQUEST_RESUME
  | BVEVENTTYPE_TEST_REQUEST_SHUTDOWN
  | BVEVENTTYPE_TEST_REQUEST_RESTART
  | BVEVENTTYPE_TEST_APP_ANNOUNCE_SERVICES.

#[export] Instance BVEventType_eq_dec : EqDecision BVEventType.
Proof. solve_decision. Defined.

(** All enumerators, in declaration order: the position is the value of the
    enumerator, the key order of the [std::map]s over events. *)
Definition all_events : list BVEventType :=
  [BVEVENTTYPE_DISCOVERY_REQUEST_START; BVEVENTTYPE_DISCOVERY_REQUEST_PAUSE;
   BVEVENTTYPE_DISCOVERY_REQUEST_RESUME; BVEVENTTYPE_DISCOVERY_REQUEST_SHUTDOWN;
   BVEVENTTYPE_DISCOVERY_REQUEST_RESTART; BVEVENTTYPE_DISCOVERY_REQUEST_RESOLVE;
   BVEVENTTYPE_APP_PUBLISHED_SERVICE; BVEVENTTYPE_APP_DEREGISTERED_SERVICE;
   BVEVENTTYPE_APP_DISCOVERY_RESUMED; BVEVENTTYPE_APP_DISCOVERY_PAUSED;
   BVEVENTTYPE_APP_DISCOVERY_SERVICE_RESOLVED; BVEVENTTYPE_SERVICE_REQUEST_START;
   BVEVENTTYPE_SERVICE_REQUEST_SHUTDOWN; BVEVENTTYPE_TERMINATE_ALL;
   REDUNDANT_BVEVENTTYPE_APP_SERVICE_DEREGISTERED; BVEVENTTYPE_APP_MESSAGE_INCOMING;
   BVEVENTTYPE_APP_FILE_OFFER; BVEVENTTYPE_APP_FILE_TRANSFER_BEGIN;
   BVEVENTTYPE_APP_FILE_TRANSFER_CHUNK_SENT; BVEVENTTYPE_APP_FILE_TRANSFER_END;
   BVEVENTTYPE_APP_FILE_TRANSFER_CANCELLED; BVEVENTTYPE_TEST_ECHO;
   BVEVENTTYPE_TEST_HEARTBEAT; BVEVENTTYPE_TEST_HEARTBEAT_ACK;
   BVEVENTTYPE_TEST_HEARTBEAT_NACK; BVEVENTTYPE_TEST_REQUEST_START;
   BVEVENTTYPE_TEST_REQUEST_PAUSE; BVEVENTTYPE_TEST_REQUEST_RESUME;
   BVEVENTTYPE_TEST_REQUEST_SHUTDOWN; BVEVENTTYPE_TEST_REQUEST_RESTART;
   BVEVENTTYPE_TEST_APP_ANNOUNCE_SERVICES].

Definition event_code (e : BVEventType) : nat :=
  default O (fst <$> list_find (eq e) all_events).

#[export] Instance BVEventType_countable : Countable BVEventType.
Proof.
  refine (inj_countable event_code (fun n => all_events !! n) _). by intros [].
Defined.

(** ** Constants ([const.h]) *)

Definition N_BYTES_SERVNAME_MAX : nat := 24.
Definition N_BYTES_REGTYPE_MAX : nat := 24.
Definition N_BYTES_REPLDOMN_MAX : nat := 16.
Definition N_BYTES_SERVICE_STR_TOTAL : nat :=
  N_BYTES_SERVNAME_MAX + N_BYTES_REGTYPE_MAX + N_BYTES_REPLDOMN_MAX.
Definition UINT8_MAX : Z := 255.
Definition N_SERVICES_MAX : Z := UINT8_MAX.
Definition SERVICETYPE_STR : string := "_localchathost._tcp.".
Definition PORT : Z := 50001.
Definition MAX_TEXT_DATA_MSG_BYTES : nat := 128.

(** ** Discovery records *)

Record BVServiceBrowseInstance : Type := BrowseInstance {
  bi_serviceName : string;
  bi_regType : string;
  bi_replyDomain : string
}.

#[export] Instance BVServiceBrowseInstance_eq_dec : EqDecision BVServiceBrowseInstance.
Proof. solve_decision. Defined.

(** [operator==] of [BVServiceBrowseInstance]. *)
Definition bi_eqb (a b : BVServiceBrowseInstance) : bool :=
  (String.eqb (bi_serviceName a) (bi_serviceName b) &&
   String.eqb (bi_regType a) (bi_regType b) &&
   String.eqb (bi_replyDomain a) (bi_replyDomain b))%bool.

(** [DNSResolutionResult]: fixed-size C character arrays. *)
Record DNSResolutionResult : Type := {
  res_fullname : list ascii;      (* char[256] *)
  res_hosttarget : list ascii;    (* char[256] *)
  res_port : Z;                   (* uint16_t *)
  res_txtLen : Z;                 (* uint16_t *)
  res_txtRecord : list ascii;     (* unsigned char[256] *)
  res_serviceName : list ascii;   (* char[24] *)
  res_regType : list ascii;       (* char[24] *)
  res_replyDomain : list ascii    (* char[16] *)
}.

(** The host's own service ([BVServiceData]). *)
Record BVServiceData : Type := {
  sd_port : Z;
  sd_hostname : string;
  sd_domain : string;
  sd_regtype : string
}.

(** ** TCP constants and enumerations ([BVTCPCommon.hpp]) *)

Definition MESSAGE_FRAME_SIZE_BYTES : nat := 138.
Definition HEADER_SIZE_BYTES : nat := 10.
Definition PAYLOAD_SIZE_BYTES : nat := 128.
Definition MAX_MESSAGE_SIZE_BYTES : nat := 256.
Definition TEN_LAST_MESSAGES : nat := 10.
Definition FILE_HEADER_SIZE_BYTES : nat := 21.   (* 4 + 8 + 1 + 8 *)

Definition MAX_FILE_CHUNK_SIZE_BYTES_1MB : Z := 1048676.
Definition FILE_CHUNK_SIZE_BYTES_512KB : Z := 524288.
Definition FILE_CHUNK_SIZE_BYTES_64KB : Z := 65536.
Definition FILE_CHUNK_SIZE_BYTES_32KB : Z := 32768.
Definition FILE_CHUNK_SIZE_BYTES_4KB : Z := 4096.
Definition FILE_CHUNK_SIZE_BYTES_1KB : Z := 1024.
Definition FILE_CHUNK_SIZE_BYTES_512B : Z := 512.
Definition MIN_FILE_CHUNK_SIZE_BYTES_256B : Z := 256.
Definition FILE_SIZE_BYTES_1KB : Z := 1000.
Definition FILE_SIZE_BYTES_8KB : Z := 8000.
Definition FILE_SIZE_BYTES_64KB : Z := 64000.
Definition FILE_SIZE_BYTES_256KB : Z := 256000.
Definition FILE_SIZE_BYTES_1MB : Z := 1000000.
Definition FILE_SIZE_BYTES_5MB : Z := 5000000.
Definition FILE_SIZE_BYTES_2GB : Z := 2000000000.

Inductive BVSessionState : Type :=
  | BVSESSIONSTATE_UNPREPARED
  | BVSESSIONSTATE_ESTABLISHED
  | BVSESSIONSTATE_CLOSED.

#[export] Instance BVSessionState_eq_dec : EqDecision BVSessionState.
Proof. solve_decision. Defined.

Inductive BVSessionOrigin : Type :=
  | BVSESSIONORIGIN_INGOING
  | BVSESSIONORIGIN_OUTGOING.

(** [namespace BVTCPMessageType]: the wire values of the message types. *)
Definition BVSESSIONCONTROLMESSAGETYPE_HELLO : Z := 0.
Definition BVSESSIONCONTROLMESSAGETYPE_HELLOBACK : Z := 1.
Definition BVSESSIONCONTROLMESSAGETYPE_CONFIRM_ESTABLISHED : Z := 3.
Definition BVSESSIONREGULARMESSAGETYPE_CHATMESSAGE : Z := 5.
Definition BVSESSIONREGULARMESSAGETYPE_FILE_TRANSFER_BEGIN : Z := 6.
Definition BVSESSIONREGULARMESSAGETYPE_FILE_TRANSFER_CHUNK_SENT : Z := 7.
Definition BVSESSIONREGULARMESSAGETYPE_FILE_TRANSFER_END : Z := 8.
Definition BVSESSIONREGULARMESSAGETYPE_FILE_OFFER : Z := 9.
Definition BVSESSIONREGULARMESSAGETYPE_FILE_ACCEPT : Z := 10.
Definition BVSESSIONREGULARMESSAGETYPE_FILE_REJECT : Z := 11.

(** ** Nodes, frames, chat messages *)

(** [BVNode]; the [NodeID] (uint8_t) is not set by any constructor. *)
Record BVNode : Type := MkBVNode {
  nd_id : option Z;
  nd_serviceName : string;
  nd_hostname : string;
  nd_port : option Z
}.

(** [BVNode () = default] and the constructor from a resolved service. *)
Definition BVNode_default : BVNode := MkBVNode None "" "" None.
Definition BVNode_make (serviceName hostname : string) (port : Z) : BVNode :=
  MkBVNode None serviceName hostname (Some port).

Record BVTCPFileHeader : Type := {
  fh_correlationKey : Z;   (* uint32_t *)
  fh_timestamp : Z;        (* uint64_t *)
  fh_msgType : Z;          (* uint8_t *)
  fh_metadata : Z          (* uint64_t *)
}.

Record BVTCPFileChunk : Type := {
  fc_header : BVTCPFileHeader;
  fc_payload : list ascii
}.

Record BVTCPFileData : Type := {
  fd_correlationKey : Z;
  fd_csize : Z;
  fd_fsize : Z;
  fd_fdata : list ascii
}.

Record BVTCPMessageHeader : Type := {
  mh_dataLen : Z;          (* uint8_t *)
  mh_timestamp : Z;        (* uint64_t *)
  mh_msgType : Z           (* uint8_t *)
}.

(** [BVTCPMessage<PayloadType>]; every payload type the program sends is an
    array of [char], kept here as its characters. *)
Record BVTCPMessage : Type := {
  msg_header : BVTCPMessageHeader;
  msg_payload : list ascii
}.

Record BVChatMessage : Type := {
  cm_textData : string;
  cm_sender : string;
  cm_timestamp : Z
}.

Record BVChatMessageLog : Type := {
  log_serviceName : string;
  logV : list BVChatMessage
}.

(** ** Header and message construction; [now] is the [system_clock] reading
    in milliseconds *)

Definition ConstructFileHeader (now : Z) (msgType correlationKey metadata : Z) : BVTCPFileHeader :=
  {| fh_correlationKey := correlationKey; fh_timestamp := u64 now;
     fh_msgType := msgType; fh_metadata := metadata |}.

(** [dataLen] is left uninitialised by the code: [junk] is its indeterminate value. *)
Definition ConstructMessageHeader (now junk : Z) (msgType : Z) : BVTCPMessageHeader :=
  {| mh_dataLen := junk; mh_timestamp := u64 now; mh_msgType := msgType |}.

(** [header.dataLen = sizeof (msg.payload)], truncated to a byte. *)
Definition ConstructMessage (header : BVTCPMessageHeader) (payload : list ascii) : BVTCPMessage :=
  {| msg_header := {| mh_dataLen := u8 (Z.of_nat (length payload));
                      mh_timestamp := mh_timestamp header;
                      mh_msgType := mh_msgType header |};
     msg_payload := payload |}.

Definition ConstructFileChunk (header : BVTCPFileHeader) (payload : list ascii) : BVTCPFileChunk :=
  {| fc_header := header; fc_payload := payload |}.

(** ** The chat log *)

Definition AddMessage (log : BVChatMessageLog) (msg : BVChatMessage) : BVChatMessageLog :=
  {| log_serviceName := log_serviceName log; logV := logV log ++ [msg] |}.

Definition BVChatMessageLog_make (serviceName : string) (msg : BVChatMessage) : BVChatMessageLog :=
  AddMessage {| log_serviceName := serviceName; logV := [] |} msg.

Definition ReturnNLastMessages (log : BVChatMessageLog) (n : nat) : list BVChatMessage :=
  let count := Nat.min n (length (logV log)) in
  drop (length (logV log) - count) (logV log).

Definition ClearLog (log : BVChatMessageLog) : BVChatMessageLog :=
  {| log_serviceName := log_serviceName log; logV := [] |}.

(** [dateStr.substr (4, dateStr.length () - 8 - 5)]: [substr] throws when the
    start is past the end, the length is an unsigned subtraction, and the
    count is clipped to what is left. *)
Definition FormatDate (dateStr : list ascii) : result (list ascii) :=
  if decide (length dateStr < 4)%nat then Err Std_out_of_range
  else Ok (take (Z.to_nat (u64 (Z.of_nat (length dateStr) - 8 - 5))) (drop 4 dateStr)).

(** One printed line: date, sender, text.  The code copies the message's
    timestamp into a [time_t] and then overwrites it with [time (&timestamp)],
    so the date printed is that of [now].  [ctime] is the C library's. *)
Definition print_line (ctime : Z -> list ascii) (now : Z) (msg : BVChatMessage)
    : result (list ascii * string * string) :=
  let timestamp := cm_timestamp msg in
  let timestamp := now in
  let! d := FormatDate (ctime timestamp) in
  Ok (d, cm_sender msg, cm_textData msg).

Fixpoint print_lines (ctime : Z -> list ascii) (now : Z) (messages : list BVChatMessage)
    : result (list (list ascii * string * string)) :=
  match messages with
  | [] => Ok []
  | m :: ms => let! x := print_line ctime now m in
               let! xs := print_lines ctime now ms in Ok (x :: xs)
  end.

Definition PrintNLastMessages (ctime : Z -> list ascii) (now : Z) (log : BVChatMessageLog) (n : nat)
    : result (list (list ascii * string * string)) :=
  print_lines ctime now (ReturnNLastMessages log n).

(** ** Messages between components ([BVMessage.hpp]) *)

(** The types the program stores in a [std::any]. *)
Inductive any : Type :=
  | any_BrowseList (l : list BVServiceBrowseInstance)
  | any_BrowseInstance (bI : BVServiceBrowseInstance)
  | any_Resolution (res : DNSResolutionResult)   (* DNSResolutionResult* *)
  | any_ChatMessage (m : BVChatMessage)
  | any_FileData (d : BVTCPFileData).

Record BVMessage : Type := MkBVMessage {
  event_t : BVEventType;
  data_p : option any          (* std::unique_ptr<std::any> *)
}.

(** ** Service registration data ([BVService.hpp]) *)

(** [htons] on a little-endian host. *)
Definition htons (p : Z) : Z := (u16 p mod 256) * 256 + u16 p / 256.
Definition ntohs (p : Z) : Z := htons p.

(** The [BVService] constructor and [GetHostData]: the port is truncated to
    16 bits and stored in network byte order. *)
Definition BVService_host_data (hostname domain : string) (port : Z) : BVServiceData :=
  {| sd_port := htons (u16 port); sd_hostname := hostname; sd_domain := domain;
     sd_regtype := SERVICETYPE_STR |}.

(** ** Lemmas *)

Lemma bi_eqb_spec a b : bi_eqb a b = true <-> a = b.
Proof.
  unfold bi_eqb. rewrite !andb_true_iff, !String.eqb_eq.
  destruct a, b; simpl; split; [intros [[-> ->] ->]; done | by intros [= -> -> ->]].
Qed.

Lemma htons_htons p : 0 <= p < 65536 -> ntohs (htons p) = p.
Proof.
  intros Hp. unfold ntohs, htons, u16. rewrite !(wrap_small 16 p) by lia.
  assert (0 <= p mod 256 * 256 + p / 256 < 2 ^ 16) by wrap_lia.
  rewrite !wrap_small by lia. Z.div_mod_to_equations; lia.
Qed.

Lemma ReturnNLastMessages_suffix log n :
  exists pre, logV log = pre ++ ReturnNLastMessages log n /\
    length (ReturnNLastMessages log n) = Nat.min n (length (logV log)).
Proof.
  exists (take (length (logV log) - Nat.min n (length (logV log))) (logV log)).
  unfold ReturnNLastMessages. split; [by rewrite take_drop|]. rewrite length_drop. lia.
Qed.
