(* ===== verification/Broker.v ===== *)
(** * The message broker ([include/BVBroker.hpp], [src/BVBroker.cpp])

    Mailboxes are queues of [shared_ptr<BVMessage>]: the queue objects are
    shared between the broker and the components, and a routed message is
    shared between every mailbox it was pushed to.  [mail] is that shared
    store.  The broker is verified against the [FifoQueue] interface. *)

From Stdlib Require Import ZArith Lia.
From S2P Require Import Prelude TSQueue Common.

Abbreviation mref := nat (only parsing).        (* std::shared_ptr<BVMessage> *)
Abbreviation qref := nat (only parsing).        (* std::shared_ptr<threadsafe_queue<BVMessage>> *)
Abbreviation SubscriberID := Z (only parsing).  (* uint8_t *)

Record mail (Q : Type -> Type) : Type := Mail {
  boxes : gmap nat (Q mref);
  msgs : gmap nat BVMessage
}.
Arguments Mail {Q} _ _.
Arguments boxes {Q} _.
Arguments msgs {Q} _.

(** The part of [BVComponent] the broker writes when attaching. *)
Record BVComponent : Type := MkComponent {
  outMailBox_p : qref;
  inMailBox_p : qref;
  comp_id : SubscriberID
}.

Record BVBroker : Type := MkBroker {
  mailbox_m : gmap Z (option qref);
  subs_m : gmap BVEventType (list SubscriberID);
  broker_inMailBox_p : qref;
  numOfSubscribersRegistered : Z;   (* uint8_t *)
  currentSubscriberId : SubscriberID;
  isRunning : bool
}.

Definition set_mailbox_m (b : BVBroker) (m : gmap Z (option qref)) : BVBroker :=
  MkBroker m (subs_m b) (broker_inMailBox_p b) (numOfSubscribersRegistered b)
    (currentSubscriberId b) (isRunning b).
Definition set_subs_m (b : BVBroker) (s : gmap BVEventType (list SubscriberID)) : BVBroker :=
  MkBroker (mailbox_m b) s (broker_inMailBox_p b) (numOfSubscribersRegistered b)
    (currentSubscriberId b) (isRunning b).
Definition set_num (b : BVBroker) (n : Z) : BVBroker :=
  MkBroker (mailbox_m b) (subs_m b) (broker_inMailBox_p b) n
    (currentSubscriberId b) (isRunning b).
Definition set_current (b : BVBroker) (c : SubscriberID) : BVBroker :=
  MkBroker (mailbox_m b) (subs_m b) (broker_inMailBox_p b) (numOfSubscribersRegistered b)
    c (isRunning b).
Definition set_running (b : BVBroker) (r : bool) : BVBroker :=
  MkBroker (mailbox_m b) (subs_m b) (broker_inMailBox_p b) (numOfSubscribersRegistered b)
    (currentSubscriberId b) r.

(** How a loop that reads a mailbox ends: left by its own condition, waiting
    in [wait_and_pop], or cut by the fuel of the model. *)
Inductive loop_end : Type :=
  | Returned
  | Blocked
  | OutOfFuel.

Section Broker.
Context {Q : Type -> Type} `{FifoQueue Q}.

(** ** Mailboxes *)

(** [std::make_shared<threadsafe_queue<BVMessage>> ()] *)
Definition make_box (m : mail Q) : qref * mail Q :=
  let r := fresh (dom (boxes m)) in (r, Mail (<[ r := q_new ]> (boxes m)) (msgs m)).

(** [push (std::shared_ptr<T>)] *)
Definition push_ref (m : mail Q) (q : qref) (r : mref) : result (mail Q) :=
  let! box := from_option_err NullDereference (boxes m !! q) in
  let! box' := q_push box r in
  Ok (Mail (<[ q := box' ]> (boxes m)) (msgs m)).

(** [push (T)]: [std::make_shared] of the moved message, then push. *)
Definition push_msg (m : mail Q) (q : qref) (msg : BVMessage) : result (mail Q) :=
  let r := fresh (dom (msgs m)) in
  push_ref (Mail (boxes m) (<[ r := msg ]> (msgs m))) q r.

(** [wait_and_pop ()]; [Ok None] when the caller blocks. *)
Definition pop_ref (m : mail Q) (q : qref) : result (option (mref * mail Q)) :=
  let! box := from_option_err NullDereference (boxes m !! q) in
  let! o := q_pop box in
  match o with
  | Some (r, box') => Ok (Some (r, Mail (<[ q := box' ]> (boxes m)) (msgs m)))
  | None => Ok None
  end.

(** ** The broker's operations *)

(** The constructor: slots 0 to 254 empty. *)
Definition BVBroker_make (inbox : qref) : BVBroker :=
  MkBroker (list_to_map (map (fun i => (Z.of_nat i, None)) (seq 0 255))) ∅ inbox 0 0 true.

Definition GetOutMailBoxAtSubId (b : BVBroker) (sid : SubscriberID) : option qref :=
  match mailbox_m b !! sid with Some q => q | None => None end.

Definition GetSubscriberIDVectorFromEventType (b : BVBroker) (et : BVEventType)
    : list SubscriberID :=
  default [] (subs_m b !! et).

(** The body of the loop of [Route]. *)
Definition route_to (b : BVBroker) (r : mref) (sid : SubscriberID) (m : mail Q)
    : result (mail Q) :=
  match mailbox_m b !! sid with
  | Some (Some q) => push_ref m q r
  | _ => Ok m                       (* stale subscription *)
  end.

Fixpoint route_loop (b : BVBroker) (r : mref) (v : list SubscriberID) (m : mail Q)
    : result (mail Q) :=
  match v with
  | [] => Ok m
  | sid :: v => let! m' := route_to b r sid m in route_loop b r v m'
  end.

Definition Route (b : BVBroker) (r : mref) (m : mail Q) : result (BVStatus * mail Q) :=
  let! msg := from_option_err NullDereference (msgs m !! r) in
  match subs_m b !! event_t msg with
  | None | Some [] => Ok (BVSTATUS_OK, m)
  | Some subscribers_v =>
      let! m' := route_loop b r subscribers_v m in Ok (BVSTATUS_OK, m')
  end.

(** [Run]: route messages while running; [isRunning] is cleared before the
    terminating message itself is routed. *)
Fixpoint Run (fuel : nat) (b : BVBroker) (m : mail Q)
    : result (loop_end * BVBroker * mail Q) :=
  if isRunning b then
    match fuel with
    | O => Ok (OutOfFuel, b, m)
    | S fuel =>
        let! o := pop_ref m (broker_inMailBox_p b) in
        match o with
        | None => Ok (Blocked, b, m)
        | Some (r, m) =>
            let! msg := from_option_err NullDereference (msgs m !! r) in
            let b := if decide (event_t msg = BVEVENTTYPE_TERMINATE_ALL)
                     then set_running b false else b in
            let! '(_, m) := Route b r m in
            Run fuel b m
        end
    end
  else Ok (Returned, b, m).

(** [Stop] *)
Definition Stop (b : BVBroker) : BVStatus * BVBroker :=
  (BVSTATUS_OK, set_subs_m (set_mailbox_m b ∅) ∅).

(** [mailbox_m[id]]: a missing entry is created with a null pointer. *)
Definition mailbox_at (b : BVBroker) (id : SubscriberID) : option qref * BVBroker :=
  match mailbox_m b !! id with
  | Some q => (q, b)
  | None => (None, set_mailbox_m b (<[ id := None ]> (mailbox_m b)))
  end.

Fixpoint cycle_loop (n : nat) (start i : Z) (b : BVBroker) : bool * BVBroker :=
  match n with
  | O => (false, b)
  | S n =>
      let id := u8 ((start + 1 + i) mod (UINT8_MAX + 1)) in
      let '(slot, b) := mailbox_at (set_current b id) id in
      match slot with
      | None => (true, b)
      | Some _ => cycle_loop n start (i + 1) b
      end
  end.

(** [CycleCurrentSubscriberId]: [i] runs from 0 to [UINT8_MAX] inclusive. *)
Definition CycleCurrentSubscriberId (b : BVBroker) : bool * BVBroker :=
  cycle_loop 256 (currentSubscriberId b) 0 b.

(** [Attach], after the slot has been chosen. *)
Definition attach_at (b : BVBroker) (m : mail Q)
    : BVStatus * BVBroker * mail Q * BVComponent :=
  let '(q, m) := make_box m in
  let sid := currentSubscriberId b in
  let component := MkComponent (broker_inMailBox_p b) q sid in
  let b := set_mailbox_m b (<[ sid := Some q ]> (mailbox_m b)) in
  let b := set_num b (u8 (numOfSubscribersRegistered b + 1)) in
  let '(_, b) := CycleCurrentSubscriberId b in
  (BVSTATUS_OK, b, m, component).

Definition Attach (b : BVBroker) (component : BVComponent) (m : mail Q)
    : BVStatus * BVBroker * mail Q * BVComponent :=
  if numOfSubscribersRegistered b >=? UINT8_MAX + 1
  then (BVSTATUS_MAX_COMPONENTS, b, m, component)
  else
    match mailbox_m b !! currentSubscriberId b with
    | Some (Some _) =>
        let '(found, b) := CycleCurrentSubscriberId b in
        if found then attach_at b m
        else (BVSTATUS_MAX_COMPONENTS, b, m, component)
    | _ => attach_at b m
    end.

(** [vec.erase (std::remove (vec.begin (), vec.end (), sid), vec.end ())] *)
Definition remove_sid (sid : SubscriberID) (vec : list SubscriberID) : list SubscriberID :=
  filter (fun s => s <> sid) vec.

Definition erase_sid (sid : SubscriberID) (vec : list SubscriberID)
    : option (list SubscriberID) :=
  match remove_sid sid vec with
  | [] => None
  | vec => Some vec
  end.

Definition Detach (b : BVBroker) (sid : SubscriberID) : BVStatus * BVBroker :=
  match mailbox_m b !! sid with
  | Some (Some _) =>
      let b := set_mailbox_m b (<[ sid := None ]> (mailbox_m b)) in
      let b := set_num b (u8 (numOfSubscribersRegistered b - 1)) in
      (BVSTATUS_OK, set_subs_m b (omap (erase_sid sid) (subs_m b)))
  | _ => (BVSTATUS_FATAL_ERROR, b)
  end.

(** [subs_m[event]], and [push_back] unless [sid] is already there. *)
Definition add_sub (sid : SubscriberID) (subs : gmap BVEventType (list SubscriberID))
    (event : BVEventType) : gmap BVEventType (list SubscriberID) :=
  let vec := default [] (subs !! event) in
  <[ event := if bool_decide (sid ∈ vec) then vec else vec ++ [sid] ]> subs.

Definition Subscribe (b : BVBroker) (sid : SubscriberID) (event : BVEventType)
    : BVStatus * BVBroker :=
  match mailbox_m b !! sid with
  | Some (Some _) => (BVSTATUS_OK, set_subs_m b (add_sub sid (subs_m b) event))
  | _ => (BVSTATUS_FATAL_ERROR, b)
  end.

Definition Subscribe_all (b : BVBroker) (sid : SubscriberID) (events_v : list BVEventType)
    : BVStatus * BVBroker :=
  match mailbox_m b !! sid with
  | Some (Some _) =>
      (BVSTATUS_OK, set_subs_m b (fold_left (add_sub sid) events_v (subs_m b)))
  | _ => (BVSTATUS_FATAL_ERROR, b)
  end.

Definition remove_sub (sid : SubscriberID) (subs : gmap BVEventType (list SubscriberID))
    (event : BVEventType) : gmap BVEventType (list SubscriberID) :=
  match subs !! event with
  | None => subs
  | Some vec =>
      match remove_sid sid vec with
      | [] => delete event subs
      | vec => <[ event := vec ]> subs
      end
  end.

Definition Unsubscribe (b : BVBroker) (sid : SubscriberID) (event : BVEventType)
    : BVStatus * BVBroker :=
  (BVSTATUS_OK, set_subs_m b (remove_sub sid (subs_m b) event)).

Definition Unsubscribe_all (b : BVBroker) (sid : SubscriberID) (events_v : list BVEventType)
    : BVStatus * BVBroker :=
  (BVSTATUS_OK, set_subs_m b (fold_left (remove_sub sid) events_v (subs_m b))).

(** ** Specification vocabulary *)

Definition live (b : BVBroker) (sid : SubscriberID) (q : qref) : Prop :=
  mailbox_m b !! sid = Some (Some q).

(** Subscriptions name attached components only, without duplicates, and no
    event keeps an empty vector. *)
Definition subs_ok (b : BVBroker) : Prop :=
  forall e v, subs_m b !! e = Some v ->
    v <> [] /\ NoDup v /\ forall sid, sid ∈ v -> exists q, live b sid q.

Definition subscribed (b : BVBroker) (sid : SubscriberID) (e : BVEventType) : Prop :=
  sid ∈ GetSubscriberIDVectorFromEventType b e.

#[export] Instance subscribed_dec b sid e : Decision (subscribed b sid e).
Proof. unfold subscribed. apply _. Defined.

Definition live_count (b : BVBroker) : nat :=
  size (filter (fun kv : Z * option qref => is_Some kv.2) (mailbox_m b)).

(** The subscriber count is the number of attached components, modulo 256. *)
Definition num_ok (b : BVBroker) : Prop :=
  numOfSubscribersRegistered b = u8 (Z.of_nat (live_count b)).

(** The two brokers differ in the cursor and in null slots only. *)
Record same_slots (b b' : BVBroker) : Prop := {
  ss_live : forall sid q, live b' sid q <-> live b sid q;
  ss_subs : subs_m b' = subs_m b;
  ss_inbox : broker_inMailBox_p b' = broker_inMailBox_p b;
  ss_num : numOfSubscribersRegistered b' = numOfSubscribersRegistered b;
  ss_count : live_count b' = live_count b;
  ss_run : isRunning b' = isRunning b;
  ss_range : (forall sid q, mailbox_m b !! sid = Some q -> 0 <= sid < 256) ->
             forall sid q, mailbox_m b' !! sid = Some q -> 0 <= sid < 256
}.

(** What [Run] lets through: everything up to and including the first
    [TERMINATE_ALL]. *)
Fixpoint until_terminate (l : list (mref * BVEventType)) : list (mref * BVEventType) :=
  match l with
  | [] => []
  | (r, e) :: l => (r, e) :: (if decide (e = BVEVENTTYPE_TERMINATE_ALL) then [] else until_terminate l)
  end.

End Broker.

Section BrokerLaws.
Context {Q : Type -> Type} `{FifoQueueLaws Q}.

(** The mailbox behind [q] holds the references [l]. *)
Definition box_holds (m : mail Q) (q : qref) (l : list mref) : Prop :=
  exists box, boxes m !! q = Some box /\ q_repr box l.

(** Slots are byte-sized, live slots own different queues of the store, none
    of them the broker's own inbox, and the cursor is a byte. *)
Record slots_ok (b : BVBroker) (m : mail Q) : Prop := {
  slots_range : forall sid q, mailbox_m b !! sid = Some q -> 0 <= sid < 256;
  slots_box : forall sid q, live b sid q -> exists l, box_holds m q l;
  slots_inj : forall s1 s2 q, live b s1 q -> live b s2 q -> s1 = s2;
  slots_inbox : forall sid, ~ live b sid (broker_inMailBox_p b);
  slots_inbox_box : exists l, box_holds m (broker_inMailBox_p b) l;
  slots_current : 0 <= currentSubscriberId b < 256
}.

(** [m'] is [m] with [f q] appended to every mailbox [q]. *)
Definition appended (m m' : mail Q) (f : qref -> list mref) : Prop :=
  msgs m' = msgs m /\ forall q l, box_holds m q l -> box_holds m' q (l ++ f q).

Definition events_of (m : mail Q) (l : list mref) : list (option BVEventType) :=
  map (fun r => event_t <$> msgs m !! r) l.

(** ** Lemmas on mailboxes *)

Lemma push_ref_ok (m : mail Q) q r :
  (exists l, box_holds m q l) ->
  exists m', push_ref m q r = Ok m' /\
    appended m m' (fun q' => if decide (q' = q) then [r] else []).
Proof.
  intros (l & box & Hb & Hr). destruct (q_push_repr _ box l r Hr) as (box' & Hp & _).
  unfold push_ref. rewrite Hb. simpl. rewrite Hp. simpl.
  eexists; split; [done|]. split; [done|]. intros q' l' (bx & Hbx & Hrx). case_decide; subst.
  - assert (bx = box) as -> by congruence.
    destruct (q_push_repr _ box l' r Hrx) as (box'' & Hp' & Hr').
    exists box''. simpl. rewrite lookup_insert_eq. split; congruence.
  - rewrite app_nil_r. exists bx. simpl. by rewrite lookup_insert_ne.
Qed.

Lemma pop_ref_nil (m : mail Q) q : box_holds m q [] -> pop_ref m q = Ok None.
Proof.
  intros (box & Hb & Hr). unfold pop_ref. rewrite Hb. simpl. by rewrite q_pop_nil.
Qed.

Lemma pop_ref_cons (m : mail Q) q r l :
  box_holds m q (r :: l) ->
  exists m', pop_ref m q = Ok (Some (r, m')) /\ box_holds m' q l /\ msgs m' = msgs m /\
    (forall q' l', q' <> q -> box_holds m q' l' -> box_holds m' q' l').
Proof.
  intros (box & Hb & Hr). destruct (q_pop_cons _ box r l Hr) as (box' & Hp & Hr').
  unfold pop_ref. rewrite Hb. simpl. rewrite Hp. simpl.
  eexists; split; [done|]. split; [|split; [done|]].
  - exists box'. simpl. by rewrite lookup_insert_eq.
  - intros q' l' Hne (bx & Hbx & Hrx). exists bx. simpl. by rewrite lookup_insert_ne.
Qed.

(** ** Lemmas on the subscription table *)

Lemma add_sub_lookup sid subs ev e :
  add_sub sid subs ev !! e =
    if decide (e = ev) then
      Some (let vec := default [] (subs !! ev) in
            if bool_decide (sid ∈ vec) then vec else vec ++ [sid])
    else subs !! e.
Proof.
  unfold add_sub. case_decide; subst; [by rewrite lookup_insert_eq | by rewrite lookup_insert_ne].
Qed.

Lemma add_sub_idem sid subs e : add_sub sid (add_sub sid subs e) e = add_sub sid subs e.
Proof.
  apply map_eq. intros e'. rewrite !add_sub_lookup. case_decide; [|done].
  rewrite decide_True by done. cbn [default]. do 2 f_equal.
  destruct (decide (sid ∈ default [] (subs !! e))) as [Hin|Hin].
  - rewrite !(bool_decide_true (sid ∈ default [] (subs !! e))) by done. simpl.
    by rewrite bool_decide_true.
  - rewrite !(bool_decide_false (sid ∈ default [] (subs !! e))) by done. simpl.
    by rewrite bool_decide_true by set_solver.
Qed.

Lemma remove_sid_elem sid v s : s ∈ remove_sid sid v <-> s <> sid /\ s ∈ v.
Proof. unfold remove_sid. by rewrite list_elem_of_filter. Qed.

Lemma remove_sid_notin sid v : sid ∉ v -> remove_sid sid v = v.
Proof.
  unfold remove_sid. induction v as [|s v IH]; intros Hn; [done|].
  rewrite filter_cons_True by set_solver. by rewrite IH by set_solver.
Qed.

Lemma remove_sub_lookup sid subs ev e :
  remove_sub sid subs ev !! e =
    if decide (e = ev) then subs !! ev ≫= erase_sid sid else subs !! e.
Proof.
  unfold remove_sub, erase_sid. case_decide; subst.
  - destruct (subs !! ev) as [v|] eqn:E; simpl; [|by rewrite E].
    destruct (remove_sid sid v); [by rewrite lookup_delete_eq | by rewrite lookup_insert_eq].
  - destruct (subs !! ev) as [v|] eqn:E; [|done].
    destruct (remove_sid sid v); [by rewrite lookup_delete_ne | by rewrite lookup_insert_ne].
Qed.

Lemma erase_sid_Some sid v v' :
  erase_sid sid v = Some v' -> v' <> [] /\ v' = remove_sid sid v.
Proof. unfold erase_sid. destruct (remove_sid sid v) eqn:E; [done|]. by intros [= <-]. Qed.


(** ** Lemmas on the slot table *)

Lemma same_slots_refl b : same_slots b b.
Proof. by constructor. Qed.

Lemma same_slots_trans b1 b2 b3 : same_slots b1 b2 -> same_slots b2 b3 -> same_slots b1 b3.
Proof.
  intros H1 H2. destruct H1, H2. constructor; try congruence; [|by eauto].
  intros sid q. by rewrite ss_live1.
Qed.

Lemma live_count_insert_None b sid :
  mailbox_m b !! sid = None ->
  live_count (set_mailbox_m b (<[ sid := None ]> (mailbox_m b))) = live_count b.
Proof.
  intros Hn. unfold live_count. simpl. rewrite map_filter_insert_False; [|by intros [? ?]].
  by rewrite delete_id.
Qed.

Lemma mailbox_at_same b id :
  0 <= id < 256 -> same_slots b (set_current (mailbox_at b id).2 id) /\
  (mailbox_at b id).1 = GetOutMailBoxAtSubId b id.
Proof.
  intros Hid. unfold mailbox_at, GetOutMailBoxAtSubId. destruct (mailbox_m b !! id) as [q|] eqn:E; simpl.
  - split; [|done]. by constructor.
  - split; [|done]. constructor; simpl; try done.
    + intros sid q. unfold live. simpl. destruct (decide (sid = id)) as [->|Hne].
      * rewrite lookup_insert_eq, E. split; by intros ?.
      * by rewrite lookup_insert_ne.
    + apply live_count_insert_None in E. exact E.
    + intros Hr sid q. destruct (decide (sid = id)) as [->|Hne]; [done|].
      rewrite lookup_insert_ne by done. apply Hr.
Qed.

Lemma set_current_mailbox_at b c id :
  mailbox_at (set_current b c) id = ((mailbox_at b id).1, set_current (mailbox_at b id).2 c).
Proof. unfold mailbox_at. simpl. by destruct (mailbox_m b !! id). Qed.

Lemma GetOutMailBoxAtSubId_None b sid :
  GetOutMailBoxAtSubId b sid = None <-> forall q, ~ live b sid q.
Proof.
  unfold GetOutMailBoxAtSubId, live. destruct (mailbox_m b !! sid) as [[q|]|]; split; try done.
  intros Hq. by destruct (Hq q).
Qed.

Lemma same_slots_get b b' sid :
  same_slots b b' -> GetOutMailBoxAtSubId b' sid = None <-> GetOutMailBoxAtSubId b sid = None.
Proof.
  intros [Hl _ _ _ _ _ _]. rewrite !GetOutMailBoxAtSubId_None. by setoid_rewrite Hl.
Qed.

Lemma cycle_loop_spec n start i b found b' :
  cycle_loop n start i b = (found, b') -> 0 <= currentSubscriberId b < 256 ->
  same_slots b b' /\ 0 <= currentSubscriberId b' < 256 /\
  (found = true -> GetOutMailBoxAtSubId b' (currentSubscriberId b') = None) /\
  (found = false -> forall j, i <= j < i + Z.of_nat n ->
     GetOutMailBoxAtSubId b ((start + 1 + j) mod 256) <> None).
Proof.
  revert i b. induction n as [|n IH]; intros i b; cbn [cycle_loop].
  - intros [= <- <-] Hc. split; [apply same_slots_refl|]. do 2 (split; [done|]). intros _ j Hj. lia.
  - unfold UINT8_MAX. change (255 + 1) with 256.
    set (id := u8 ((start + 1 + i) mod 256)).
    assert (Hid : id = (start + 1 + i) mod 256) by (unfold id; wrap_lia).
    assert (Hr : 0 <= id < 256) by (unfold id; wrap_lia).
    rewrite set_current_mailbox_at.
    destruct (mailbox_at_same b id Hr) as [Hss Hslot]. rewrite Hslot.
    set (b1 := set_current (mailbox_at b id).2 id) in *.
    destruct (GetOutMailBoxAtSubId b id) as [q|] eqn:E; intros Heq Hc.
    + apply IH in Heq as (Hss' & Hc' & Hf & Hnf); [|done].
      split; [by eapply same_slots_trans|]. split; [done|]. split; [done|].
      intros Hfl j Hj. destruct (decide (j = i)) as [->|Hne]; [by rewrite <- Hid, E|].
      specialize (Hnf Hfl j ltac:(lia)). by rewrite (same_slots_get b b1) in Hnf.
    + injection Heq as <- <-. split; [done|]. split; [done|]. split; [|done].
      intros _. apply (same_slots_get b b1 id Hss). exact E.
Qed.

(** The cursor scan covers every identifier. *)
Lemma Cycle_spec b found b' :
  CycleCurrentSubscriberId b = (found, b') -> 0 <= currentSubscriberId b < 256 ->
  same_slots b b' /\ 0 <= currentSubscriberId b' < 256 /\
  (found = true -> GetOutMailBoxAtSubId b' (currentSubscriberId b') = None) /\
  (found = false -> forall sid, 0 <= sid < 256 -> GetOutMailBoxAtSubId b sid <> None).
Proof.
  unfold CycleCurrentSubscriberId. intros Heq Hc.
  destruct (cycle_loop_spec _ _ _ _ _ _ Heq Hc) as (Hss & Hc' & Hf & Hnf).
  split; [done|]. split; [done|]. split; [done|]. intros Hfl sid Hsid.
  specialize (Hnf Hfl ((sid - currentSubscriberId b - 1) mod 256)).
  replace ((currentSubscriberId b + 1 + (sid - currentSubscriberId b - 1) mod 256) mod 256)
    with sid in Hnf by (Z.div_mod_to_equations; lia).
  apply Hnf. Z.div_mod_to_equations; lia.
Qed.

Lemma live_count_attach b sid q :
  (forall q', ~ live b sid q') ->
  live_count (set_mailbox_m b (<[ sid := Some q ]> (mailbox_m b))) = S (live_count b).
Proof.
  intros Hn. unfold live_count. simpl. rewrite map_filter_insert_True by by eexists.
  apply map_size_insert_None. apply map_lookup_filter_None. right. intros x Hx [y Hy].
  apply (Hn y). unfold live. simpl in Hy. by rewrite Hx, Hy.
Qed.

Lemma live_count_detach b sid q :
  live b sid q ->
  live_count b = S (live_count (set_mailbox_m b (<[ sid := None ]> (mailbox_m b)))).
Proof.
  intros Hl. rewrite <- (live_count_attach _ sid q).
  - unfold live_count. simpl. rewrite insert_insert_eq. by rewrite insert_id.
  - intros q'. unfold live. simpl. by rewrite lookup_insert_eq.
Qed.


Lemma box_holds_make (m : mail Q) q m' :
  make_box m = (q, m') ->
  boxes m !! q = None /\ box_holds m' q [] /\
  (forall q' l, box_holds m q' l -> q' <> q /\ box_holds m' q' l).
Proof.
  unfold make_box. intros [= <- <-].
  assert (Hf : boxes m !! fresh (dom (boxes m)) = None)
    by (apply not_elem_of_dom, is_fresh).
  split; [done|]. split.
  - exists q_new. simpl. rewrite lookup_insert_eq. split; [done|]. apply q_new_repr.
  - intros q' l (bx & Hb & Hr). assert (q' <> fresh (dom (boxes m))) by congruence.
    split; [done|]. exists bx. simpl. by rewrite lookup_insert_ne.
Qed.

(** The effect of attaching to a free slot. *)
Record attached (b : BVBroker) (m : mail Q) (b' : BVBroker) (m' : mail Q)
    (c' : BVComponent) : Prop := {
  att_range : 0 <= comp_id c' < 256;
  att_free : forall q, ~ live b (comp_id c') q;
  att_live : forall sid q, live b' sid q <->
    (sid = comp_id c' /\ q = inMailBox_p c') \/ (sid <> comp_id c' /\ live b sid q);
  att_fresh : boxes m !! inMailBox_p c' = None;
  att_box : box_holds m' (inMailBox_p c') [];
  att_out : outMailBox_p c' = broker_inMailBox_p b;
  att_old : forall q l, box_holds m q l -> box_holds m' q l;
  att_subs : subs_m b' = subs_m b;
  att_inbox : broker_inMailBox_p b' = broker_inMailBox_p b;
  att_cursor : 0 <= currentSubscriberId b' < 256;
  att_num : num_ok b -> num_ok b';
  att_slots : (forall sid q, mailbox_m b !! sid = Some q -> 0 <= sid < 256) ->
              forall sid q, mailbox_m b' !! sid = Some q -> 0 <= sid < 256
}.

Lemma attach_at_spec b m b' m' st c' :
  0 <= currentSubscriberId b < 256 -> (forall q, ~ live b (currentSubscriberId b) q) ->
  attach_at b m = (st, b', m', c') -> st = BVSTATUS_OK /\ attached b m b' m' c'.
Proof.
  intros Hc Hfree. unfold attach_at. destruct (make_box m) as [q m1] eqn:Em.
  destruct (box_holds_make _ _ _ Em) as (Hq & Hbox & Hold).
  set (b1 := set_num _ _). destruct (CycleCurrentSubscriberId b1) as [f b2] eqn:Ec.
  intros [= <- <- <- <-]. split; [done|].
  destruct (Cycle_spec b1 f b2 Ec Hc) as ([Hl Hs Hi Hn Hct _ Hr] & Hc2 & _).
  constructor; simpl; auto.
  - intros sid q'. rewrite Hl. unfold live. simpl. destruct (decide (sid = currentSubscriberId b)) as [->|Hne].
    + rewrite lookup_insert_eq. naive_solver.
    + rewrite lookup_insert_ne by done. naive_solver.
  - intros q' l Hb. by apply Hold.
  - unfold num_ok. intros Hnum. rewrite Hn, Hct. simpl.
    change (live_count b1) with
      (live_count (set_mailbox_m b (<[ currentSubscriberId b := Some q ]> (mailbox_m b)))).
    rewrite live_count_attach by done. rewrite Hnum. wrap_lia.
  - intros Hr0. apply Hr. simpl. intros sid q' Hlk.
    destruct (decide (sid = currentSubscriberId b)) as [->|Hne]; [done|].
    rewrite lookup_insert_ne in Hlk by done. eauto.
Qed.

Lemma attached_same b b1 m b' m' c' :
  same_slots b b1 -> attached b1 m b' m' c' -> attached b m b' m' c'.
Proof.
  intros [Hl Hs Hi Hn Hct _ Hr] [? Hf Hlv ? ? ? ? ? ? ? Hnum Hsl]. constructor; auto; try congruence.
  - intros q Hq. apply (Hf q). by apply Hl.
  - intros sid q. rewrite Hlv. by rewrite Hl.
  - intros Hno. apply Hnum. unfold num_ok in *. congruence.
  - intros Hr0. apply Hsl. by apply Hr.
Qed.

(** [Attach] never stops at its subscriber-count guard: the count is a byte. *)
Lemma Attach_spec b c m st b' m' c' :
  slots_ok b m -> num_ok b -> Attach b c m = (st, b', m', c') ->
  (st = BVSTATUS_OK /\ attached b m b' m' c') \/
  (st = BVSTATUS_MAX_COMPONENTS /\ same_slots b b' /\ 0 <= currentSubscriberId b' < 256 /\
   m' = m /\ c' = c /\ forall sid, 0 <= sid < 256 -> exists q, live b sid q).
Proof.
  intros Hok Hnum. unfold Attach.
  destruct (numOfSubscribersRegistered b >=? UINT8_MAX + 1) eqn:E.
  { exfalso. rewrite Hnum in E. unfold UINT8_MAX in E. apply Z.geb_le in E. wrap_lia. }
  pose proof (slots_current _ _ Hok) as Hc.
  destruct (GetOutMailBoxAtSubId b (currentSubscriberId b)) as [q0|] eqn:Eslot.
  - assert (mailbox_m b !! currentSubscriberId b = Some (Some q0)) as ->.
    { unfold GetOutMailBoxAtSubId in Eslot. destruct (mailbox_m b !! _); congruence. }
    destruct (CycleCurrentSubscriberId b) as [found b1] eqn:Ec.
    destruct (Cycle_spec _ _ _ Ec Hc) as (Hss & Hc1 & Hf & Hnf). destruct found; intros Heq.
    + left. apply attach_at_spec in Heq as [-> Hatt]; [|done|].
      * split; [done|]. by eapply attached_same.
      * by apply GetOutMailBoxAtSubId_None, Hf.
    + right. injection Heq as <- <- <- <-. split; [done|]. split; [done|]. split; [done|].
      do 2 (split; [done|]). intros sid Hsid. specialize (Hnf eq_refl sid Hsid).
      unfold GetOutMailBoxAtSubId in Hnf. unfold live.
      destruct (mailbox_m b !! sid) as [[q|]|]; [by exists q|done|done].
  - intros Heq. left.
    assert (attach_at b m = (st, b', m', c')) as Ha.
    { unfold GetOutMailBoxAtSubId in Eslot.
      destruct (mailbox_m b !! currentSubscriberId b) as [[q|]|]; congruence. }
    apply attach_at_spec in Ha; [done|done|]. by apply GetOutMailBoxAtSubId_None.
Qed.

(** ** Lemmas on routing *)

Lemma appended_trans m1 m2 m3 f g :
  appended m1 m2 f -> appended m2 m3 g -> appended m1 m3 (fun q => f q ++ g q).
Proof.
  intros [Hm1 H1] [Hm2 H2]. split; [congruence|]. intros q l Hl.
  rewrite (assoc_L (++)). by apply H2, H1.
Qed.

Lemma appended_nil (m : mail Q) : appended m m (fun _ => []).
Proof. split; [done|]. intros q l Hq. by rewrite app_nil_r. Qed.

Lemma appended_ext (m m' : mail Q) f g :
  (forall q, f q = g q) -> appended m m' f -> appended m m' g.
Proof. intros Hfg [Hm Ha]. split; [done|]. intros q l Hq. rewrite <- Hfg. by apply Ha. Qed.

Lemma appended_slots_ok b (m m' : mail Q) f : slots_ok b m -> appended m m' f -> slots_ok b m'.
Proof.
  intros [? Hb ? ? [l Hi] ?] [_ Ha]. constructor; eauto.
  intros sid q Hq. destruct (Hb sid q Hq) as [l' Hl']. eauto.
Qed.

Lemma route_to_appended b (m : mail Q) r sid :
  slots_ok b m ->
  exists m', route_to b r sid m = Ok m' /\
    appended m m' (fun q => if decide (mailbox_m b !! sid = Some (Some q)) then [r] else []).
Proof.
  intros Hok. unfold route_to. destruct (mailbox_m b !! sid) as [[q|]|] eqn:E.
  - destruct (push_ref_ok m q r (slots_box _ _ Hok sid q E)) as (m' & -> & Ha). exists m'.
    split; [done|]. eapply appended_ext; [|exact Ha]. intros q'. simpl.
    repeat case_decide; congruence.
  - exists m. split; [done|]. eapply appended_ext; [|apply appended_nil]. intros q. by case_decide.
  - exists m. split; [done|]. eapply appended_ext; [|apply appended_nil]. intros q. by case_decide.
Qed.

(** How many times [route_loop] pushes into the mailbox [q]. *)
Definition copies (b : BVBroker) (r : mref) (v : list SubscriberID) (q : qref) : list mref :=
  v ≫= (fun sid => if decide (mailbox_m b !! sid = Some (Some q)) then [r] else []).

Lemma route_loop_appended b (m : mail Q) r v :
  slots_ok b m -> exists m', route_loop b r v m = Ok m' /\ appended m m' (copies b r v).
Proof.
  revert m. induction v as [|sid v IH]; intros m Hok; simpl.
  - exists m. split; [done|]. apply appended_nil.
  - destruct (route_to_appended b m r sid Hok) as (m1 & -> & Ha). simpl.
    destruct (IH m1 (appended_slots_ok _ _ _ _ Hok Ha)) as (m2 & -> & Ha2). exists m2. split; [done|].
    eapply appended_ext; [|eapply appended_trans; eauto]. done.
Qed.

Lemma copies_live b (m : mail Q) r v q sid :
  slots_ok b m -> NoDup v -> live b sid q ->
  copies b r v q = if decide (sid ∈ v) then [r] else [].
Proof.
  intros Hok Hnd Hl. unfold copies. induction v as [|s v IH].
  { rewrite decide_False; [done|]. set_solver. }
  rewrite bind_cons. apply NoDup_cons in Hnd as [Hs Hnd]. rewrite (IH Hnd). destruct (decide (s = sid)) as [->|Hne].
  - rewrite (decide_True _ _ Hl), (decide_False _ _ Hs). by rewrite decide_True by set_solver.
  - rewrite (decide_False (P := mailbox_m b !! s = Some (Some q))).
    + apply decide_ext. set_solver.
    + intros Hs'. apply Hne. by apply (slots_inj _ _ Hok s sid q).
Qed.

Lemma copies_nonlive b r v q :
  (forall sid, ~ live b sid q) -> copies b r v q = [].
Proof.
  intros Hn. unfold copies. induction v as [|s v IH]; simpl; [done|].
  rewrite decide_False by apply Hn. done.
Qed.

(** What routing the message [r] appends to the mailbox [q]. *)
Lemma Route_spec b (m : mail Q) r msg :
  slots_ok b m -> subs_ok b -> msgs m !! r = Some msg ->
  exists m', Route b r m = Ok (BVSTATUS_OK, m') /\ slots_ok b m' /\
    appended m m' (copies b r (GetSubscriberIDVectorFromEventType b (event_t msg))).
Proof.
  intros Hok Hsub Hr. unfold Route, GetSubscriberIDVectorFromEventType. rewrite Hr. simpl.
  destruct (subs_m b !! event_t msg) as [[|s v]|] eqn:E.
  - by destruct (Hsub _ _ E) as [? _].
  - destruct (route_loop_appended b m r (s :: v) Hok) as (m' & -> & Ha). exists m'.
    split; [done|]. split; [by eapply appended_slots_ok|done].
  - exists m. split; [done|]. split; [done|]. apply appended_nil.
Qed.


Definition routed (b : BVBroker) (sid : SubscriberID) (es : list (mref * BVEventType))
    : list mref :=
  fst <$> filter (fun re => subscribed b sid re.2) (until_terminate es).

Definition msgs_are (m : mail Q) (es : list (mref * BVEventType)) : Prop :=
  Forall (fun re => event_t <$> msgs m !! re.1 = Some re.2) es.

Lemma routed_cons b sid r e es :
  routed b sid ((r, e) :: es) =
    (if decide (subscribed b sid e) then [r] else []) ++
    (if decide (e = BVEVENTTYPE_TERMINATE_ALL) then [] else routed b sid es).
Proof.
  unfold routed. cbn [until_terminate]. rewrite filter_cons. simpl.
  destruct (decide (subscribed b sid e)), (decide (e = BVEVENTTYPE_TERMINATE_ALL)); done.
Qed.

Lemma until_terminate_length r e es :
  length (until_terminate ((r, e) :: es)) =
    S (if decide (e = BVEVENTTYPE_TERMINATE_ALL) then 0%nat else length (until_terminate es)).
Proof. simpl. by case_decide. Qed.

Lemma slots_ok_running b (m : mail Q) x : slots_ok b m -> slots_ok (set_running b x) m.
Proof. intros [Ha Hb Hc Hd He Hf]. by constructor. Qed.

Lemma pop_ref_spec (m : mail Q) q r l :
  box_holds m q (r :: l) ->
  exists m', pop_ref m q = Ok (Some (r, m')) /\ box_holds m' q l /\ msgs m' = msgs m /\
    (forall q' l', q' <> q -> box_holds m q' l' -> box_holds m' q' l').
Proof. apply pop_ref_cons. Qed.

(** One iteration of [Run] on a non-empty inbox. *)
Lemma Run_iteration b (m : mail Q) r e es fuel :
  slots_ok b m -> subs_ok b -> isRunning b = true ->
  msgs_are m ((r, e) :: es) -> box_holds m (broker_inMailBox_p b) (r :: (fst <$> es)) ->
  exists m2,
    Run (S fuel) b m =
      Run fuel (if decide (e = BVEVENTTYPE_TERMINATE_ALL) then set_running b false else b) m2 /\
    slots_ok b m2 /\ msgs_are m2 es /\ box_holds m2 (broker_inMailBox_p b) (fst <$> es) /\
    (forall sid q l0, live b sid q -> box_holds m q l0 ->
      box_holds m2 q (l0 ++ if decide (subscribed b sid e) then [r] else [])).
Proof.
  intros Hok Hsub Hrun Hms Hbox. apply Forall_cons in Hms as [Hr Hms]. simpl in Hr.
  destruct (msgs m !! r) as [msg|] eqn:Emsg; [|done]. injection Hr as He.
  destruct (pop_ref_cons m _ r _ Hbox) as (m1 & Hp & Hb1 & Hm1 & Ho1).
  assert (Hok1 : slots_ok b m1).
  { destruct Hok as [Ha Hb Hc Hd He' Hf']. constructor; eauto.
    intros sid q Hl. destruct (Hb sid q Hl) as [l' Hl']. exists l'. apply Ho1; [|done].
    intros ->. by apply (Hd sid). }
  set (b1 := if decide (e = BVEVENTTYPE_TERMINATE_ALL) then set_running b false else b).
  destruct (Route_spec b1 m1 r msg) as (m2 & HR & Hok2 & Ha2).
  { unfold b1. case_decide; [by apply slots_ok_running|done]. }
  { unfold b1. by case_decide. }
  { by rewrite Hm1. }
  assert (Hcop : copies b1 r (GetSubscriberIDVectorFromEventType b1 (event_t msg)) =
                 copies b r (GetSubscriberIDVectorFromEventType b e))
    by (unfold b1; rewrite He; by case_decide).
  rewrite Hcop in Ha2. destruct Ha2 as [Hm2 Ha2]. exists m2. split; [|split; [|split; [|split]]].
  - cbn [Run]. rewrite Hrun, Hp. simpl. rewrite Hm1, Emsg. simpl. rewrite He. fold b1. by rewrite HR.
  - eapply appended_slots_ok; [exact Hok1|by split].
  - unfold msgs_are. by rewrite Hm2, Hm1.
  - specialize (Ha2 _ _ Hb1). rewrite copies_nonlive, app_nil_r in Ha2; [done|].
    apply (slots_inbox _ _ Hok).
  - intros sid q l0 Hl Hq.
    assert (Hcp : copies b r (GetSubscriberIDVectorFromEventType b e) q =
                  if decide (subscribed b sid e) then [r] else []).
    { rewrite (copies_live b m1 r _ q sid Hok1); [by apply decide_ext| |done].
      unfold GetSubscriberIDVectorFromEventType. destruct (subs_m b !! e) as [v|] eqn:Ev; simpl.
      - by destruct (Hsub _ _ Ev) as (_ & ? & _).
      - constructor. }
    rewrite <- Hcp. apply Ha2, Ho1; [|done]. intros ->. by apply (slots_inbox _ _ Hok sid).
Qed.

Lemma Run_spec b (m : mail Q) es fuel :
  slots_ok b m -> subs_ok b -> isRunning b = true ->
  msgs_are m es -> box_holds m (broker_inMailBox_p b) (fst <$> es) ->
  (length es < fuel)%nat ->
  exists b' m',
    Run fuel b m =
      Ok (if decide (BVEVENTTYPE_TERMINATE_ALL ∈ es.*2) then Returned else Blocked, b', m') /\
    (forall sid q l0, live b sid q -> box_holds m q l0 -> box_holds m' q (l0 ++ routed b sid es)) /\
    box_holds m' (broker_inMailBox_p b) (fst <$> drop (length (until_terminate es)) es).
Proof.
  intros Hok Hsub Hrun. revert m fuel Hok.
  induction es as [|[r e] es IH]; intros m [|fuel] Hok Hms Hbox Hf; try (simpl in Hf; lia).
  - simpl. rewrite Hrun. rewrite pop_ref_nil by done. simpl. do 2 eexists. split; [done|].
    split; [|done]. intros sid q l0 _ Hl. unfold routed. simpl. by rewrite app_nil_r.
  - simpl in Hf. destruct (Run_iteration b m r e es fuel Hok Hsub Hrun Hms Hbox)
      as (m2 & -> & Hok2 & Hms2 & Hin2 & Hdel).
    rewrite until_terminate_length.
    destruct (decide (e = BVEVENTTYPE_TERMINATE_ALL)) as [->|Hne].
    + exists (set_running b false), m2.
      split; [rewrite decide_True by set_solver; by destruct fuel|].
      split; [|done]. intros sid q l0 Hl Hq. rewrite routed_cons.
      rewrite (decide_True (P := BVEVENTTYPE_TERMINATE_ALL = BVEVENTTYPE_TERMINATE_ALL)) by done.
      rewrite app_nil_r. by apply Hdel.
    + destruct (IH m2 fuel Hok2 Hms2 Hin2 ltac:(lia)) as (b' & m' & HRun & Hd & Hi).
      exists b', m'. split; [|split].
      * rewrite HRun. repeat f_equal. apply decide_ext. set_solver.
      * intros sid q l0 Hl Hq. rewrite routed_cons. rewrite (decide_False _ _ Hne).
        rewrite (assoc_L (++)). apply (Hd sid); [done|]. by apply Hdel.
      * exact Hi.
Qed.

(** ** The reachable states of a broker *)

Inductive bstep : BVBroker * mail Q -> BVBroker * mail Q -> Prop :=
  | bstep_attach b m c st b' m' c' :
      Attach b c m = (st, b', m', c') -> bstep (b, m) (b', m')
  | bstep_detach b m sid st b' : Detach b sid = (st, b') -> bstep (b, m) (b', m)
  | bstep_subscribe b m sid e st b' : Subscribe b sid e = (st, b') -> bstep (b, m) (b', m)
  | bstep_subscribe_all b m sid es st b' :
      Subscribe_all b sid es = (st, b') -> bstep (b, m) (b', m)
  | bstep_unsubscribe b m sid e st b' : Unsubscribe b sid e = (st, b') -> bstep (b, m) (b', m)
  | bstep_unsubscribe_all b m sid es st b' :
      Unsubscribe_all b sid es = (st, b') -> bstep (b, m) (b', m)
  | bstep_route b m r st m' : Route b r m = Ok (st, m') -> bstep (b, m) (b, m').

Definition broker_inv (s : BVBroker * mail Q) : Prop :=
  slots_ok s.1 s.2 /\ subs_ok s.1 /\ num_ok s.1.

Lemma broker_inv_parts b (m : mail Q) : broker_inv (b, m) -> slots_ok b m /\ subs_ok b.
Proof. by intros (? & ? & _). Qed.

Definition broker_init : BVBroker * mail Q :=
  let '(inbox, m) := make_box (Mail ∅ ∅) in (BVBroker_make inbox, m).

(** A new broker whose mailbox exists. *)
Lemma broker_make_inv (m : mail Q) q : box_holds m q [] -> broker_inv (BVBroker_make q, m).
Proof.
  intros Hb.
  assert (Hslot : forall sid x, mailbox_m (BVBroker_make q) !! sid = Some x ->
    0 <= sid < 256 /\ x = None).
  { intros sid x. cbn [BVBroker_make mailbox_m]. intros Hx.
    apply elem_of_list_to_map_2, list_elem_of_fmap in Hx as (i & [= -> ->] & Hi).
    apply elem_of_seq in Hi. split; [lia|done]. }
  assert (Hl : forall sid x, ~ live (BVBroker_make q) sid x).
  { intros sid x Hx. by destruct (Hslot _ _ Hx). }
  split; [|split]; cbn [fst snd].
  - constructor.
    + intros sid x Hx. by destruct (Hslot _ _ Hx).
    + intros sid x Hx. by apply Hl in Hx.
    + intros s1 s2 x Hx. by apply Hl in Hx.
    + intros sid. apply Hl.
    + by exists [].
    + done.
  - intros e v. cbn [BVBroker_make subs_m]. by rewrite lookup_empty.
  - unfold num_ok. replace (live_count (BVBroker_make q)) with 0%nat; [done|].
    unfold live_count. symmetry. apply map_size_empty_iff, map_empty. intros sid.
    apply map_lookup_filter_None. right. intros x Hx [y Hy]. apply Hslot in Hx as [_ ->]. done.
Qed.

Lemma broker_init_inv : broker_inv broker_init.
Proof.
  unfold broker_init. destruct (make_box (Mail ∅ ∅)) as [q m] eqn:E.
  destruct (box_holds_make _ _ _ E) as (_ & Hb & _). exact (broker_make_inv m q Hb).
Qed.

(** Subscription tables that only name attached components. *)
Lemma add_sub_ok b sid e q :
  subs_ok b -> live b sid q -> subs_ok (set_subs_m b (add_sub sid (subs_m b) e)).
Proof.
  intros Hs Hl e' v. simpl. rewrite add_sub_lookup. case_decide as Hd; [|apply Hs]. subst.
  intros [= <-]. destruct (subs_m b !! e) as [v|] eqn:E; simpl.
  - destruct (Hs _ _ E) as (Hne & Hnd & Hlv). case_bool_decide; [done|]. split; [by destruct v|].
    split; [apply NoDup_app; set_solver by eauto using NoDup_singleton|].
    intros s [Hs'|Hs']%elem_of_app; [by apply Hlv|]. apply list_elem_of_singleton in Hs' as ->.
    by exists q.
  - split; [done|]. split; [apply NoDup_singleton|].
    intros s Hs'%list_elem_of_singleton. subst. by exists q.
Qed.

Lemma remove_sub_ok b sid e :
  subs_ok b -> subs_ok (set_subs_m b (remove_sub sid (subs_m b) e)).
Proof.
  intros Hs e' v. simpl. rewrite remove_sub_lookup. case_decide as Hd; [|apply Hs]. subst.
  destruct (subs_m b !! e) as [v0|] eqn:E; simpl; [|done].
  intros [Hne ->]%erase_sid_Some. destruct (Hs _ _ E) as (_ & Hnd & Hlv).
  split; [done|]. split; [by apply NoDup_filter|].
  intros s [_ Hin]%remove_sid_elem. by apply Hlv.
Qed.

Lemma detach_inv b (m : mail Q) sid :
  broker_inv (b, m) -> broker_inv ((Detach b sid).2, m).
Proof.
  intros (Hok & Hs & Hn). unfold Detach. destruct (mailbox_m b !! sid) as [[q|]|] eqn:E; try done.
  simpl. set (b' := set_subs_m _ _).
  assert (Hl : forall s x, live b' s x <-> s <> sid /\ live b s x).
  { intros s x. unfold live. simpl. destruct (decide (s = sid)) as [->|Hne].
    - rewrite lookup_insert_eq. naive_solver.
    - rewrite lookup_insert_ne by done. naive_solver. }
  destruct Hok as [H1 H2 H3 H4 H5 H6]. split; [|split].
  - constructor; simpl; try done.
    + intros s x. destruct (decide (s = sid)) as [->|Hne].
      * intros _. by apply (H1 sid (Some q)).
      * rewrite lookup_insert_ne by done. apply H1.
    + intros s x Hx. apply Hl in Hx as [_ Hx]. eauto.
    + intros s1 s2 x Hx1 Hx2. apply Hl in Hx1 as [_ Hx1]. apply Hl in Hx2 as [_ Hx2]. eauto.
    + intros s Hx. apply Hl in Hx as [_ Hx]. by apply (H4 s).
  - intros e v. simpl. rewrite lookup_omap. destruct (subs_m b !! e) as [v0|] eqn:Ev; simpl; [|done].
    intros [Hne ->]%erase_sid_Some. destruct (Hs _ _ Ev) as (_ & Hnd & Hlv).
    split; [done|]. split; [by apply NoDup_filter|].
    intros s [Hsn Hin]%remove_sid_elem. destruct (Hlv s Hin) as [x Hx]. exists x. by apply Hl.
  - unfold num_ok in *. simpl. simpl in Hn. rewrite Hn.
    change (live_count b') with (live_count (set_mailbox_m b (<[ sid := None ]> (mailbox_m b)))).
    rewrite (live_count_detach b sid q E). wrap_lia.
Qed.

Lemma attach_inv b (m : mail Q) c st b' m' c' :
  broker_inv (b, m) -> Attach b c m = (st, b', m', c') -> broker_inv (b', m').
Proof.
  intros (Hok & Hs & Hn) Ha.
  destruct (Attach_spec _ _ _ _ _ _ _ Hok Hn Ha) as [[_ Hatt]|(_ & Hss & Hc & -> & -> & _)].
  - destruct Hatt as [? ? Hl Hfr Hbx ? Hold Hsub Hin ? Hnum Hsl]. destruct Hok as [H1 H2 H3 H4 [l5 H5] H6].
    split; [|split]; [|intros e v; simpl; rewrite Hsub; intros Hv|by apply Hnum].
    + constructor; simpl; eauto.
      * intros sid q [[-> ->]|[_ Hq]]%Hl; [by exists []|].
        destruct (H2 _ _ Hq) as [l Hl']. exists l. by apply Hold.
      * assert (Hother : forall sid q, live b sid q -> q <> inMailBox_p c').
        { intros sid q Hq ->. destruct (H2 _ _ Hq) as (l & bx & Hbx' & _). congruence. }
        intros s1 s2 q [[-> ->]|[? Hq1]]%Hl [[-> Hq]|[? Hq2]]%Hl; eauto.
        -- by apply Hother in Hq2.
        -- subst. by apply Hother in Hq1.
      * intros sid. rewrite Hin. intros [[-> Hx]|[_ Hx]]%Hl; [|by apply (H4 sid)].
        destruct H5 as (bx & Hbx' & _). congruence.
      * rewrite Hin. exists l5. by apply Hold.
    + destruct (Hs e v Hv) as (? & ? & Hlv). split; [done|]. split; [done|].
      intros sid Hsid. destruct (Hlv sid Hsid) as [q Hq].
      destruct (decide (sid = comp_id c')) as [->|Hne]; [eexists; apply Hl; by left|].
      exists q. apply Hl. by right.
  - destruct Hss as [Hl Hsub Hin Hnum Hct Hr Hrg]. destruct Hok as [H1 H2 H3 H4 H5 H6].
    split; [|split]; simpl.
    + constructor; try rewrite Hin; eauto.
      * intros sid q Hq. apply Hl in Hq. eauto.
      * intros s1 s2 q Hq1 Hq2. apply Hl in Hq1, Hq2. eauto.
      * intros sid Hq. apply Hl in Hq. by apply (H4 sid).
    + intros e v. rewrite Hsub. intros Hv. destruct (Hs e v Hv) as (? & ? & Hlv).
      split; [done|]. split; [done|]. intros sid Hsid. destruct (Hlv sid Hsid) as [q Hq].
      exists q. by apply Hl.
    + unfold num_ok in *. simpl in *. congruence.
Qed.

Lemma subscribe_all_inv b (m : mail Q) sid q es :
  live b sid q -> broker_inv (b, m) ->
  broker_inv (set_subs_m b (fold_left (add_sub sid) es (subs_m b)), m).
Proof.
  revert b. induction es as [|e es IH]; intros b Hl Hi; simpl; [by destruct b|].
  apply (IH (set_subs_m b (add_sub sid (subs_m b) e)) Hl).
  destruct Hi as ([? ? ? ? ? ?] & ? & ?). split; [|split]; [by constructor|by eapply add_sub_ok|done].
Qed.

Lemma unsubscribe_all_inv b (m : mail Q) sid es :
  broker_inv (b, m) ->
  broker_inv (set_subs_m b (fold_left (remove_sub sid) es (subs_m b)), m).
Proof.
  revert b. induction es as [|e es IH]; intros b Hi; simpl; [by destruct b|].
  apply (IH (set_subs_m b (remove_sub sid (subs_m b) e))).
  destruct Hi as ([? ? ? ? ? ?] & ? & ?). split; [|split]; [by constructor|by apply remove_sub_ok|done].
Qed.

Lemma bstep_inv s s' : broker_inv s -> bstep s s' -> broker_inv s'.
Proof.
  intros Hi Hstep. destruct Hstep as [b m c st b' m' c' H1|b m sid st b' H1|b m sid e st b' H1
    |b m sid es st b' H1|b m sid e st b' H1|b m sid es st b' H1|b m r st m' H1].
  - by eapply attach_inv.
  - replace b' with (Detach b sid).2 by (by rewrite H1). by apply detach_inv.
  - unfold Subscribe in H1. destruct (mailbox_m b !! sid) as [[q|]|] eqn:E; injection H1 as <- <-; try done.
    by apply (subscribe_all_inv b m sid q [e] E).
  - unfold Subscribe_all in H1. destruct (mailbox_m b !! sid) as [[q|]|] eqn:E;
      injection H1 as <- <-; try done. by apply (subscribe_all_inv b m sid q es E).
  - injection H1 as <- <-. by apply (unsubscribe_all_inv b m sid [e]).
  - injection H1 as <- <-. by apply (unsubscribe_all_inv b m sid es).
  - destruct Hi as (Hok & Hs & Hn). unfold Route in H1.
    destruct (msgs m !! r) as [msg|] eqn:Em; [|done].
    destruct (Route_spec b m r msg Hok Hs Em) as (m1 & HR & Hok' & _).
    unfold Route in HR. rewrite Em in HR. rewrite HR in H1. injection H1 as <- <-. done.
Qed.

End BrokerLaws.

(** ** Properties *)

Section BrokerProperties.
Context {Q : Type -> Type} `{FifoQueueLaws Q}.

(** C12.  In every state a broker reaches by attaching, detaching, subscribing,
    unsubscribing and routing: slots are byte-sized and own distinct live
    queues, every subscription names an attached component, vectors hold no
    duplicates and are never empty, and the subscriber count is the number of
    attached components modulo 256. *)
Theorem broker_reachable_invariant (s : BVBroker * mail Q) :
  star bstep broker_init s -> broker_inv s.
Proof.
  intros Hs. eapply star_invariant; [|apply broker_init_inv|exact Hs]. apply bstep_inv.
Qed.

(** [Attach] succeeds exactly when some subscriber identifier has no
    mailbox (its [numOfSubscribersRegistered >= 256] guard never fires); on
    success the component gets a previously free identifier, a fresh empty
    mailbox registered under it, and the broker's inbox as its outbox, and
    every other slot is untouched; on failure nothing is attached. *)
Theorem Attach_iff_free_slot b c (m : mail Q) st b' m' c' :
  slots_ok b m -> num_ok b -> Attach b c m = (st, b', m', c') ->
  (st = BVSTATUS_OK <-> exists sid, 0 <= sid < 256 /\ forall q, ~ live b sid q) /\
  (st = BVSTATUS_OK ->
     (forall q, ~ live b (comp_id c') q) /\ live b' (comp_id c') (inMailBox_p c') /\
     box_holds m' (inMailBox_p c') [] /\ boxes m !! inMailBox_p c' = None /\
     outMailBox_p c' = broker_inMailBox_p b /\
     forall sid q, sid <> comp_id c' -> (live b' sid q <-> live b sid q)) /\
  (st <> BVSTATUS_OK -> m' = m /\ c' = c /\ forall sid q, live b' sid q <-> live b sid q).
Proof.
  intros Hok Hn Ha.
  destruct (Attach_spec _ _ _ _ _ _ _ Hok Hn Ha) as [[-> Hatt]|(-> & Hss & _ & -> & -> & Hall)].
  - destruct Hatt as [Hr Hf Hl Hfr Hbx Hout _ _ _ _ _ _]. split; [|split; [|done]].
    + split; [|done]. intros _. by exists (comp_id c').
    + intros _. split; [done|]. split; [apply Hl; by left|]. do 3 (split; [done|]).
      intros sid q Hne. rewrite Hl. naive_solver.
  - split; [|split; [done|]].
    + split; [done|]. intros (sid & Hr & Hno). destruct (Hall sid Hr) as [q Hq]. by apply Hno in Hq.
    + intros _. do 2 (split; [done|]). apply (ss_live _ _ Hss).
Qed.

(** C9.  [Run] processes its inbox in order: given enough fuel it returns when
    the inbox contains [TERMINATE_ALL] and otherwise waits for more mail; every
    attached component receives, after what it already had, exactly the
    messages it subscribed to, in arrival order, up to and including the
    [TERMINATE_ALL]; what was queued behind the [TERMINATE_ALL] stays in the
    broker's inbox. *)
Theorem Run_delivers_in_order b (m : mail Q) es fuel :
  slots_ok b m -> subs_ok b -> isRunning b = true ->
  msgs_are m es -> box_holds m (broker_inMailBox_p b) (fst <$> es) ->
  (length es < fuel)%nat ->
  exists b' m',
    Run fuel b m =
      Ok (if decide (BVEVENTTYPE_TERMINATE_ALL ∈ es.*2) then Returned else Blocked, b', m') /\
    (forall sid q l0, live b sid q -> box_holds m q l0 -> box_holds m' q (l0 ++ routed b sid es)) /\
    box_holds m' (broker_inMailBox_p b) (fst <$> drop (length (until_terminate es)) es).
Proof. apply Run_spec. Qed.

(** [Detach] of an attached component frees its slot, removes it from
    every subscription and leaves the other subscriptions unchanged; detaching
    an identifier without a mailbox is a fatal error that changes nothing. *)
Theorem Detach_removes_component (b : BVBroker) (m : mail Q) sid st b' :
  broker_inv (b, m) -> Detach b sid = (st, b') ->
  (st = BVSTATUS_OK <-> exists q, live b sid q) /\
  (st = BVSTATUS_OK ->
     (forall q, ~ live b' sid q) /\
     forall s e, subscribed b' s e <-> s <> sid /\ subscribed b s e) /\
  (st <> BVSTATUS_OK -> st = BVSTATUS_FATAL_ERROR /\ b' = b).
Proof.
  intros Hi. unfold Detach, live. destruct (mailbox_m b !! sid) as [[q|]|] eqn:E; intros [= <- <-].
  - split; [by split; eauto|]. split; [|done]. intros _. split.
    + intros x. simpl. by rewrite lookup_insert_eq.
    + intros s e. unfold subscribed, GetSubscriberIDVectorFromEventType. simpl. rewrite lookup_omap.
      destruct (subs_m b !! e) as [v|]; simpl; [|set_solver].
      unfold erase_sid. rewrite <- (remove_sid_elem sid v s). by destruct (remove_sid sid v).
  - split; [split; [done|by intros (x & ?)]|]. by split.
  - split; [split; [done|by intros (x & ?)]|]. by split.
Qed.

(** Subscribing an attached component to an event it does not follow and
    unsubscribing it again restores the subscription table exactly; a second
    subscription changes nothing. *)
Theorem Subscribe_Unsubscribe_roundtrip (b : BVBroker) (m : mail Q) sid q e :
  broker_inv (b, m) -> live b sid q ->
  (Subscribe b sid e).1 = BVSTATUS_OK /\
  subscribed (Subscribe b sid e).2 sid e /\
  Subscribe (Subscribe b sid e).2 sid e = Subscribe b sid e /\
  (~ subscribed b sid e ->
   subs_m (Unsubscribe (Subscribe b sid e).2 sid e).2 = subs_m b).
Proof.
  intros (_ & Hs & _) Hl.
  assert (ES : forall subs, Subscribe (set_subs_m b subs) sid e =
    (BVSTATUS_OK, set_subs_m b (add_sub sid subs e))).
  { intros subs. unfold Subscribe. simpl. by rewrite Hl. }
  replace b with (set_subs_m b (subs_m b)) by by destruct b. rewrite ES. cbn [fst snd]. rewrite ES.
  split; [done|]. split; [|split].
  - unfold subscribed, GetSubscriberIDVectorFromEventType. simpl. rewrite add_sub_lookup.
    rewrite decide_True by done. simpl. case_bool_decide; [done|]. set_solver.
  - by rewrite add_sub_idem.
  - unfold subscribed, GetSubscriberIDVectorFromEventType. intros Hn. apply map_eq. intros e'.
    cbn [Unsubscribe set_subs_m subs_m fst snd]. rewrite remove_sub_lookup, !add_sub_lookup.
    case_decide as Hd; [subst|done]. rewrite decide_True by done. simpl.
    rewrite bool_decide_false by done. unfold erase_sid, remove_sid. rewrite filter_app.
    assert (Hself : filter (fun s => s <> sid) [sid] = []) by (rewrite filter_cons_False; [done|naive_solver]).
    rewrite Hself, app_nil_r. destruct (subs_m b !! e) as [v|] eqn:E; simpl in *; [|done].
    change (filter (fun s => s <> sid) v) with (remove_sid sid v).
    rewrite E in Hn. rewrite remove_sid_notin by done. destruct (Hs _ _ E) as [Hne _]. by destruct v.
Qed.

End BrokerProperties.

(** ** Concrete instances of the properties, on the linked queue *)

Section BrokerWitnesses.

(** One component attached to a fresh broker, subscribed to two events; three
    messages wait in the broker's inbox. *)
Definition ex_msgs : gmap nat BVMessage :=
  {[ 0%nat := MkBVMessage BVEVENTTYPE_DISCOVERY_REQUEST_PAUSE None;
     1%nat := MkBVMessage BVEVENTTYPE_TERMINATE_ALL None;
     2%nat := MkBVMessage BVEVENTTYPE_DISCOVERY_REQUEST_PAUSE None ]}.

Definition ex_attach : BVStatus * BVBroker * mail threadsafe_queue * BVComponent :=
  Attach broker_init.1 (MkComponent 0 0 7) broker_init.2.

Definition ex_broker : BVBroker :=
  (Subscribe_all ex_attach.1.1.2 0
     [BVEVENTTYPE_DISCOVERY_REQUEST_PAUSE; BVEVENTTYPE_TERMINATE_ALL]).2.

Definition ex_mail : mail threadsafe_queue :=
  let m := Mail (boxes ex_attach.1.2) ex_msgs in
  match (let! m := push_ref m 0 0 in let! m := push_ref m 0 1 in push_ref m 0 2) with
  | Ok m => m
  | Err _ => m
  end.

Lemma slots_ok_msgs b (m : mail threadsafe_queue) ms :
  slots_ok b m -> slots_ok b (Mail (boxes m) ms).
Proof. intros [Ha Hb Hc Hd He Hf]. by constructor. Qed.

Lemma Subscribe_all_live (b : BVBroker) sid q es :
  live b sid q -> (Subscribe_all b sid es).2 = set_subs_m b (fold_left (add_sub sid) es (subs_m b)).
Proof. intros Hl. unfold Subscribe_all. by rewrite Hl. Qed.

Lemma ex_attach_inv : broker_inv (ex_attach.1.1.2, ex_attach.1.2).
Proof.
  apply (attach_inv broker_init.1 broker_init.2 (MkComponent 0 0 7) ex_attach.1.1.1 _ _ ex_attach.2);
    [apply broker_init_inv|]. unfold ex_attach. by destruct (Attach _ _ _) as [[[st b] m] c].
Qed.

Lemma ex_live : live ex_attach.1.1.2 0 1%nat.
Proof. vm_compute. reflexivity. Qed.

Lemma ex_broker_inv : broker_inv (ex_broker, ex_mail).
Proof.
  pose proof ex_attach_inv as Hi.
  destruct (subscribe_all_inv _ _ 0 1%nat
    [BVEVENTTYPE_DISCOVERY_REQUEST_PAUSE; BVEVENTTYPE_TERMINATE_ALL] ex_live Hi) as (Hok & Hs & Hn).
  assert (Hb := Subscribe_all_live _ _ _
    [BVEVENTTYPE_DISCOVERY_REQUEST_PAUSE; BVEVENTTYPE_TERMINATE_ALL] ex_live).
  fold ex_broker in Hb. rewrite <- Hb in Hok, Hs, Hn. split; [|by split]. cbn [fst snd] in Hok, Hs, Hn |- *.
  apply (slots_ok_msgs _ _ ex_msgs) in Hok. unfold ex_mail.
  set (m0 := Mail _ _) in *. pose proof (slots_inbox_box _ _ Hok) as Hin.
  change (broker_inMailBox_p ex_broker) with 0%nat in Hin.
  destruct (push_ref_ok m0 0 0%nat Hin) as (m1 & -> & Ha1). simpl.
  destruct (push_ref_ok m1 0 1%nat) as (m2 & -> & Ha2).
  { destruct Hin as [l Hl]. destruct Ha1 as [_ Ha1]. eauto. } simpl.
  destruct (push_ref_ok m2 0 2%nat) as (m3 & -> & Ha3).
  { destruct Hin as [l Hl]. destruct Ha1 as [_ Ha1], Ha2 as [_ Ha2]. eauto. }
  eauto using appended_slots_ok.
Qed.

Lemma ex_inbox : box_holds ex_mail 0 [0%nat; 1%nat; 2%nat].
Proof.
  eexists. split; [vm_compute; reflexivity|]. exists 0%nat. split; [reflexivity|].
  simpl. do 3 (split; [done|]; eexists; split; [reflexivity|]). by split.
Qed.

Lemma broker_reachable_invariant_witness : broker_inv (ex_attach.1.1.2, ex_attach.1.2).
Proof.
  apply broker_reachable_invariant. eapply star_step; [|apply star_refl].
  unfold ex_attach. destruct broker_init as [b m]. simpl.
  destruct (Attach b (MkComponent 0 0 7) m) as [[[st b'] m'] c'] eqn:E. simpl.
  by eapply bstep_attach.
Defined.

Lemma Attach_iff_free_slot_witness :
  ex_attach.1.1.1 = BVSTATUS_OK /\ live ex_attach.1.1.2 0 1%nat.
Proof.
  split; [vm_compute; reflexivity|].
  destruct broker_init_inv as (Hok & _ & Hn).
  destruct (Attach_iff_free_slot broker_init.1 (MkComponent 0 0 7) broker_init.2
    ex_attach.1.1.1 ex_attach.1.1.2 ex_attach.1.2 ex_attach.2 Hok Hn
    ltac:(vm_compute; reflexivity)) as (_ & Hatt & _).
  destruct (Hatt ltac:(vm_compute; reflexivity)) as (_ & Hl & _).
  exact Hl.
Defined.

Lemma Run_delivers_in_order_witness :
  exists b' m', Run 4 ex_broker ex_mail = Ok (Returned, b', m') /\
    box_holds m' 1 [0%nat; 1%nat] /\ box_holds m' 0 [2%nat].
Proof.
  destruct ex_broker_inv as (Hok & Hs & _).
  destruct (Run_delivers_in_order ex_broker ex_mail
    [(0%nat, BVEVENTTYPE_DISCOVERY_REQUEST_PAUSE); (1%nat, BVEVENTTYPE_TERMINATE_ALL);
     (2%nat, BVEVENTTYPE_DISCOVERY_REQUEST_PAUSE)] 4 Hok Hs)
    as (b' & m' & HR & Hd & Hi).
  - reflexivity.
  - repeat constructor.
  - exact ex_inbox.
  - simpl. lia.
  - exists b', m'. split; [exact HR|]. split; [|exact Hi].
    apply (Hd 0 1%nat []); [vm_compute; reflexivity|].
    eexists. split; [vm_compute; reflexivity|]. exists 0%nat. vm_compute. auto.
Defined.

Lemma Detach_removes_component_witness :
  (Detach ex_broker 0).1 = BVSTATUS_OK /\
  ~ subscribed (Detach ex_broker 0).2 0 BVEVENTTYPE_TERMINATE_ALL.
Proof.
  destruct (Detach_removes_component ex_broker ex_mail 0 (Detach ex_broker 0).1
    (Detach ex_broker 0).2 ex_broker_inv ltac:(vm_compute; reflexivity)) as (_ & H1 & _).
  split; [vm_compute; reflexivity|].
  destruct (H1 ltac:(vm_compute; reflexivity)) as [_ Hsub]. rewrite Hsub. by intros [].
Defined.

Lemma Subscribe_Unsubscribe_roundtrip_witness :
  let b := (Subscribe ex_broker 0 BVEVENTTYPE_DISCOVERY_REQUEST_RESUME).2 in
  subs_m (Unsubscribe b 0 BVEVENTTYPE_DISCOVERY_REQUEST_RESUME).2 = subs_m ex_broker.
Proof.
  apply (Subscribe_Unsubscribe_roundtrip ex_broker ex_mail 0 1%nat _ ex_broker_inv).
  - vm_compute; reflexivity.
  - vm_compute. by inversion 1.
Defined.

End BrokerWitnesses.
