(* ===== verification/Component.v ===== *)
(** * Components ([include/BVComponent.hpp])

    A component owns a table of message handlers and a thread that reads its
    mailbox.  A handler acts on the component's own state [W] and on the
    shared mail store (it may send messages); it receives the [data_p] that
    the loop moved out of the shared message. *)

From Stdlib Require Import ZArith Lia.
From S2P Require Import Prelude TSQueue Common Broker.

(** [std::function<BVStatus (std::unique_ptr<std::any>)>] *)
Abbreviation MessageHandler Q W :=
  (option any -> W -> mail Q -> result (BVStatus * W * mail Q)) (only parsing).

Section Component.
Context {Q : Type -> Type} `{FifoQueue Q} {W : Type}.

Record Component : Type := MkComp {
  comp_base : BVComponent;                         (* mailboxes and subscriber id *)
  callback_m : gmap BVEventType (MessageHandler Q W);
  isListeningToMail : bool
}.

(** The constructor; the subscriber id is set by [SetSubscriberId] later. *)
Definition Component_make (outMbx inMbx : qref) (id : SubscriberID) : Component :=
  MkComp (MkComponent outMbx inMbx id) ∅ false.

Definition RegisterCallback (c : Component) (event_type : BVEventType)
    (msg_handler : MessageHandler Q W) : Component :=
  MkComp (comp_base c) (<[ event_type := msg_handler ]> (callback_m c)) (isListeningToMail c).

Definition SetIsListeningToMail (c : Component) (val : bool) : Component :=
  MkComp (comp_base c) (callback_m c) val.

(** [SetSubscriberId], [SetOutMailBox], [SetInMailBox]: what [Attach] calls. *)
Definition set_base (c : Component) (b : BVComponent) : Component :=
  MkComp b (callback_m c) (isListeningToMail c).

(** [SendMessage]: push on the outbox (the broker's inbox). *)
Definition SendMessage (c : Component) (msg : BVMessage) (m : mail Q)
    : result (BVStatus * mail Q) :=
  let! m' := push_msg m (outMailBox_p (comp_base c)) msg in Ok (BVSTATUS_OK, m').

(** [std::move (msg->data_p)]: the message object, shared with every other
    mailbox it was routed to, is left with a null pointer. *)
Definition take_data (m : mail Q) (r : mref) : result (option any * mail Q) :=
  let! msg := from_option_err NullDereference (msgs m !! r) in
  Ok (data_p msg, Mail (boxes m) (<[ r := MkBVMessage (event_t msg) None ]> (msgs m))).

Definition stops_listening (e : BVEventType) : bool :=
  bool_decide (e = BVEVENTTYPE_TERMINATE_ALL \/ e = BVEVENTTYPE_TEST_REQUEST_SHUTDOWN).

(** The loop body after [wait_and_pop]; [true] when the loop returns.  Both
    exceptions leave [ListenToMail], which is the body of a [std::thread]. *)
Definition dispatch (c : Component) (r : mref) (w : W) (m : mail Q)
    : result (bool * W * mail Q) :=
  let! msg := from_option_err NullDereference (msgs m !! r) in
  match callback_m c !! event_t msg with
  | None => Err Std_runtime_error
  | Some handler =>
      let! '(data, m) := take_data m r in
      let! '(callback_status, w, m) := handler data w m in
      if decide (callback_status <> BVSTATUS_OK) then Err Std_runtime_error
      else Ok (stops_listening (event_t msg), w, m)
  end.

Fixpoint ListenToMail (fuel : nat) (c : Component) (w : W) (m : mail Q)
    : result (loop_end * W * mail Q) :=
  if isListeningToMail c then
    match fuel with
    | O => Ok (OutOfFuel, w, m)
    | S fuel =>
        let! o := pop_ref m (inMailBox_p (comp_base c)) in
        match o with
        | None => Ok (Blocked, w, m)
        | Some (r, m) =>
            let! '(stop, w, m) := dispatch c r w m in
            if (stop : bool) then Ok (Returned, w, m) else ListenToMail fuel c w m
        end
    end
  else Ok (Returned, w, m).

(** ** Specification vocabulary *)

(** The messages the loop consumes: up to and including the first one that
    stops it. *)
Fixpoint until_stop {A : Type} (l : list (A * BVEventType)) : list (A * BVEventType) :=
  match l with
  | [] => []
  | (r, e) :: l => (r, e) :: if stops_listening e then [] else until_stop l
  end.

End Component.
Arguments Component Q W : clear implicits.

Section ComponentLaws.
Context {Q : Type -> Type} `{FifoQueueLaws Q} {W : Type}.

(** What a handler registered for [e] computes on the component's state, and
    that it leaves this component's unread mail alone. *)
Definition handler_spec (c : Component Q W) (e : BVEventType) (f : option any -> W -> W) : Prop :=
  exists h, callback_m c !! e = Some h /\
    forall data w m, exists m', h data w m = Ok (BVSTATUS_OK, f data w, m') /\
      (forall l, box_holds m (inMailBox_p (comp_base c)) l ->
                 box_holds m' (inMailBox_p (comp_base c)) l) /\
      (forall r msg, msgs m !! r = Some msg -> msgs m' !! r = Some msg).

Definition apply_all (f : BVEventType -> option any -> W -> W) (l : list BVMessage) (w : W) : W :=
  fold_left (fun w msg => f (event_t msg) (data_p msg) w) l w.

Lemma take_data_ok (m : mail Q) r msg :
  msgs m !! r = Some msg ->
  exists m', take_data m r = Ok (data_p msg, m') /\ boxes m' = boxes m /\
    msgs m' !! r = Some (MkBVMessage (event_t msg) None) /\
    (forall r', r' <> r -> msgs m' !! r' = msgs m !! r').
Proof.
  intros Hr. unfold take_data. rewrite Hr. simpl. eexists. split; [done|]. simpl. split; [done|].
  rewrite lookup_insert_eq. split; [done|]. intros r' Hne. by rewrite lookup_insert_ne.
Qed.

Lemma dispatch_ok (c : Component Q W) r w (m : mail Q) msg f l :
  handler_spec c (event_t msg) f -> msgs m !! r = Some msg ->
  box_holds m (inMailBox_p (comp_base c)) l ->
  exists m', dispatch c r w m = Ok (stops_listening (event_t msg), f (data_p msg) w, m') /\
    box_holds m' (inMailBox_p (comp_base c)) l /\
    (forall r' msg', r' <> r -> msgs m !! r' = Some msg' -> msgs m' !! r' = Some msg') /\
    msgs m' !! r = Some (MkBVMessage (event_t msg) None).
Proof.
  intros (h & Hh & Hspec) Hr Hbox.
  destruct (take_data_ok m r msg Hr) as (m1 & Ht & Hb & Hr1 & Ho).
  destruct (Hspec (data_p msg) w m1) as (m2 & Hc & Hbx & Hms). exists m2.
  unfold dispatch. rewrite Hr. simpl. rewrite Hh, Ht. simpl. rewrite Hc. simpl.
  split; [done|]. split; [|split].
  - apply Hbx. destruct Hbox as (bx & Hbx' & Hq). exists bx. by rewrite Hb.
  - intros r' msg' Hne Hr'. apply Hms. by rewrite Ho.
  - by apply Hms.
Qed.

Definition msgs_hold (m : mail Q) (rms : list (mref * BVMessage)) : Prop :=
  Forall (fun rm => msgs m !! rm.1 = Some rm.2) rms.

Definition stop_index (ms : list BVMessage) : list BVMessage :=
  fst <$> until_stop ((fun msg => (msg, event_t msg)) <$> ms).

Lemma stop_index_cons msg ms :
  stop_index (msg :: ms) = msg :: if stops_listening (event_t msg) then [] else stop_index ms.
Proof. unfold stop_index. simpl. by destruct (stops_listening (event_t msg)). Qed.

Lemma ListenToMail_spec (c : Component Q W) f rms w (m : mail Q) fuel :
  isListeningToMail c = true ->
  (forall rm, rm ∈ rms -> handler_spec c (event_t rm.2) (f (event_t rm.2))) ->
  NoDup rms.*1 -> msgs_hold m rms -> box_holds m (inMailBox_p (comp_base c)) rms.*1 ->
  (length rms < fuel)%nat ->
  exists m',
    ListenToMail fuel c w m =
      Ok (if existsb stops_listening (event_t <$> rms.*2) then Returned else Blocked,
          apply_all f (stop_index rms.*2) w, m') /\
    box_holds m' (inMailBox_p (comp_base c)) (drop (length (stop_index rms.*2)) rms.*1).
Proof.
  intros Hl Hh. revert w m fuel.
  induction rms as [|[r msg] rms IH]; intros w m [|fuel] Hnd Hms Hbox Hf; try (simpl in Hf; lia).
  - cbn [ListenToMail]. rewrite Hl, (pop_ref_nil _ _ Hbox). simpl. by exists m.
  - cbn [fmap list_fmap fst snd] in *. apply NoDup_cons in Hnd as [Hr Hnd].
    apply Forall_cons in Hms as [Hm Hms]. cbn [fst snd] in Hm.
    destruct (pop_ref_cons m _ r _ Hbox) as (m1 & Hp & Hb1 & Hm1 & _).
    destruct (dispatch_ok c r w m1 msg (f (event_t msg)) (fst <$> rms))
      as (m2 & Hd & Hb2 & Ho & _); [apply (Hh (r, msg)); set_solver|congruence|done|].
    rewrite stop_index_cons. cbn [ListenToMail existsb].
    rewrite Hl, Hp. simpl. rewrite Hd. simpl. destruct (stops_listening (event_t msg)); simpl.
    + by exists m2.
    + destruct (IH ltac:(intros; apply Hh; set_solver) (f (event_t msg) (data_p msg) w) m2 fuel Hnd)
        as (m' & HL & Hb'); [|done|simpl in Hf; lia|by exists m'].
      apply Forall_forall. intros [r' msg'] Hin. simpl. apply Ho.
      * intros ->. apply Hr. apply list_elem_of_fmap. by exists (r, msg').
      * simpl. rewrite Hm1. exact (proj1 (Forall_forall _ _) Hms (r', msg') Hin).
Qed.

(** The messages waiting in a mailbox, each its own object. *)
Definition mail_holds (m : mail Q) (q : qref) (l : list BVMessage) : Prop :=
  exists rs, NoDup rs /\ box_holds m q rs /\ Forall2 (fun r msg => msgs m !! r = Some msg) rs l.

Lemma mail_holds_fun (m : mail Q) q l l' : mail_holds m q l -> mail_holds m q l' -> l = l'.
Proof.
  intros (rs & _ & (b & Hb & Hr) & Hl) (rs' & _ & (b' & Hb' & Hr') & Hl'). rewrite Hb in Hb'. injection Hb' as <-.
  pose proof (q_repr_fun b rs rs' Hr Hr') as <-. clear Hr Hr' Hb. revert l' Hl'.
  induction Hl as [|r msg rs l Hm _ IH]; intros l' Hl'; inversion Hl' as [|r' msg' rs0 l0 Hm' Hl0]; subst; [done|].
  f_equal; [congruence|by apply IH].
Qed.

Lemma push_msg_holds (m : mail Q) q l msg :
  mail_holds m q l ->
  exists m', push_msg m q msg = Ok m' /\ mail_holds m' q (l ++ [msg]) /\
    (forall q' l', q' <> q -> mail_holds m q' l' -> mail_holds m' q' l').
Proof.
  intros (rs & Hnd & (box & Hb & Hr) & Hl). unfold push_msg.
  set (r := fresh (dom (msgs m))). set (m0 := Mail _ _).
  assert (Hbox : box_holds m0 q rs) by by exists box.
  destruct (push_ref_ok m0 q r (ex_intro _ rs Hbox)) as (m' & Hp & Hms & Happ).
  assert (Hfresh : forall r' x, msgs m !! r' = Some x -> r' <> r).
  { intros r' x Hx ->. apply elem_of_dom_2 in Hx. by apply is_fresh in Hx. }
  assert (Hold : forall rs l, Forall2 (fun r msg => msgs m !! r = Some msg) rs l ->
                   Forall2 (fun r msg => msgs m' !! r = Some msg) rs l /\ r ∉ rs).
  { intros rs0 l0. induction 1 as [|r' x rs0 l0 Hx _ [IH1 IH2]]; [split; [constructor|by intros ?%elem_of_nil]|].
    pose proof (Hfresh r' x Hx) as Hne. split; [|by intros [->|?]%elem_of_cons].
    constructor; [|done]. rewrite Hms. cbn [m0 msgs]. by rewrite lookup_insert_ne by congruence. }
  destruct (Hold rs l Hl) as [Hl' Hni]. exists m'. split; [done|]. split.
  - exists (rs ++ [r]). split; [|split].
    + apply NoDup_app. split; [done|]. split; [|apply NoDup_singleton].
      intros x Hx ->%list_elem_of_singleton. done.
    + specialize (Happ _ _ Hbox). by rewrite decide_True in Happ.
    + apply Forall2_app; [done|]. constructor; [|constructor]. rewrite Hms. cbn [m0 msgs].
      by rewrite lookup_insert_eq.
  - intros q' l' Hne (rs' & Hnd' & (box' & Hb' & Hr') & Hl0). exists rs'. split; [done|].
    assert (Hbox' : box_holds m0 q' rs') by by exists box'.
    split; [|by apply Hold]. specialize (Happ _ _ Hbox'). rewrite decide_False in Happ by done.
    by rewrite app_nil_r in Happ.
Qed.

(** One iteration of the loop, as the handler sees it. *)
Lemma ListenToMail_next (c : Component Q W) (m : mail Q) msg l :
  isListeningToMail c = true -> mail_holds m (inMailBox_p (comp_base c)) (msg :: l) ->
  exists m1, mail_holds m1 (inMailBox_p (comp_base c)) l /\
    forall h w fuel, callback_m c !! event_t msg = Some h ->
      ListenToMail (S fuel) c w m =
        (let! '(st, w, m2) := h (data_p msg) w m1 in
         if decide (st <> BVSTATUS_OK) then Err Std_runtime_error
         else if stops_listening (event_t msg) then Ok (Returned, w, m2) else ListenToMail fuel c w m2).
Proof.
  intros Hli (rs & Hnd & Hb & Hl). inversion Hl as [|r x rs' l0 Hr Hl' E1 E2]; subst.
  apply NoDup_cons in Hnd as [Hni Hnd].
  destruct (pop_ref_cons m _ r _ Hb) as (m1 & Hp & Hb1 & Hm1 & _).
  destruct (take_data_ok m1 r msg ltac:(congruence)) as (m2 & Ht & Hbx & _ & Ho).
  exists m2. split.
  - exists rs'. split; [done|]. split.
    + destruct Hb1 as (box & Hb1 & Hq). exists box. by rewrite Hbx.
    + clear Hl Hb Hb1. induction Hl' as [|r' y rs' l Hy Hl' IH]; constructor.
      * rewrite Ho, Hm1; [done|]. intros ->. apply Hni. set_solver.
      * apply IH; [set_solver|by apply NoDup_cons in Hnd as [_ ?]].
  - intros h w fuel Hh. cbn [ListenToMail]. rewrite Hli, Hp. cbn [mbind result_bind].
    unfold dispatch. rewrite Hm1, Hr. cbn [from_option_err mbind result_bind]. rewrite Hh, Ht.
    cbn [mbind result_bind]. destruct (h (data_p msg) w m2) as [[[st w'] m3]|]; [|done].
    cbn [mbind result_bind]. case_decide; [done|]. cbn [mbind result_bind].
    by destruct (stops_listening (event_t msg)).
Qed.

Lemma ListenToMail_empty (c : Component Q W) w (m : mail Q) fuel :
  isListeningToMail c = true -> mail_holds m (inMailBox_p (comp_base c)) [] ->
  ListenToMail (S fuel) c w m = Ok (Blocked, w, m).
Proof.
  intros Hli (rs & _ & Hb & Hl). inversion Hl; subst. cbn [ListenToMail].
  by rewrite Hli, (pop_ref_nil _ _ Hb).
Qed.

End ComponentLaws.

(** ** Properties *)

Section ComponentProperties.
Context {Q : Type -> Type} `{FifoQueueLaws Q} {W : Type}.

(** C13.  A listening component whose handlers succeed hands the waiting
    messages to the handlers registered for them, each once, in arrival
    order and with the message's own data, up to and including the first
    [TERMINATE_ALL] or [TEST_REQUEST_SHUTDOWN]; it returns exactly when there
    is one, otherwise it waits for more mail, and what is queued behind the
    stopping message stays unread. *)
Theorem ListenToMail_in_order (c : Component Q W) f rms w (m : mail Q) fuel :
  isListeningToMail c = true ->
  (forall rm, rm ∈ rms -> handler_spec c (event_t rm.2) (f (event_t rm.2))) ->
  NoDup rms.*1 -> msgs_hold m rms -> box_holds m (inMailBox_p (comp_base c)) rms.*1 ->
  (length rms < fuel)%nat ->
  exists m',
    ListenToMail fuel c w m =
      Ok (if existsb stops_listening (event_t <$> rms.*2) then Returned else Blocked,
          apply_all f (stop_index rms.*2) w, m') /\
    box_holds m' (inMailBox_p (comp_base c)) (drop (length (stop_index rms.*2)) rms.*1).
Proof. apply ListenToMail_spec. Qed.

(** The mailbox thread dies on an exception exactly in two cases: the
    next message has no registered handler, or its handler reports any status
    other than [BVSTATUS_OK]. *)
Theorem ListenToMail_dies (c : Component Q W) r rs msg w (m : mail Q) fuel :
  isListeningToMail c = true -> box_holds m (inMailBox_p (comp_base c)) (r :: rs) ->
  msgs m !! r = Some msg ->
  (callback_m c !! event_t msg = None \/
   exists h, callback_m c !! event_t msg = Some h /\
     forall m1, exists st w' m', h (data_p msg) w m1 = Ok (st, w', m') /\ st <> BVSTATUS_OK) ->
  ListenToMail (S fuel) c w m = Err Std_runtime_error.
Proof.
  intros Hl Hb Hm Hcase. destruct (pop_ref_cons m _ r _ Hb) as (m1 & Hp & _ & Hm1 & _).
  cbn [ListenToMail]. rewrite Hl, Hp. simpl. unfold dispatch. rewrite Hm1, Hm. simpl.
  destruct Hcase as [-> | (h & -> & Hh)]; [done|].
  destruct (take_data_ok m1 r msg ltac:(congruence)) as (m2 & -> & _). simpl.
  destruct (Hh m2) as (st & w' & m' & -> & Hst). simpl. by rewrite decide_True.
Qed.

(** A message broadcast to two components is one shared object: the
    broker puts the same message in both mailboxes, and once the first
    component has dispatched it the second one's handler is called with a
    null payload, whatever the payload was. *)
Theorem broadcast_payload_reaches_one_component
    (b : BVBroker) (m : mail Q) r msg (c1 c2 : Component Q W) w1 w2 f h2 l1 l2 :
  slots_ok b m -> subs_ok b -> msgs m !! r = Some msg ->
  live b (comp_id (comp_base c1)) (inMailBox_p (comp_base c1)) ->
  live b (comp_id (comp_base c2)) (inMailBox_p (comp_base c2)) ->
  subscribed b (comp_id (comp_base c1)) (event_t msg) ->
  subscribed b (comp_id (comp_base c2)) (event_t msg) ->
  box_holds m (inMailBox_p (comp_base c1)) l1 -> box_holds m (inMailBox_p (comp_base c2)) l2 ->
  handler_spec c1 (event_t msg) f -> callback_m c2 !! event_t msg = Some h2 ->
  exists m1, Route b r m = Ok (BVSTATUS_OK, m1) /\
    box_holds m1 (inMailBox_p (comp_base c1)) (l1 ++ [r]) /\
    box_holds m1 (inMailBox_p (comp_base c2)) (l2 ++ [r]) /\
    exists m2 m3,
      dispatch c1 r w1 m1 = Ok (stops_listening (event_t msg), f (data_p msg) w1, m2) /\
      dispatch c2 r w2 m2 =
        (let! '(st, w, m4) := h2 None w2 m3 in
         if decide (st <> BVSTATUS_OK) then Err Std_runtime_error
         else Ok (stops_listening (event_t msg), w, m4)).
Proof.
  intros Hok Hs Hm Hl1 Hl2 Hs1 Hs2 Hb1 Hb2 Hf Hh2.
  destruct (Route_spec b m r msg Hok Hs Hm) as (m1 & HR & _ & Hms & Ha). exists m1. split; [done|].
  assert (Hv : NoDup (GetSubscriberIDVectorFromEventType b (event_t msg))).
  { unfold GetSubscriberIDVectorFromEventType. destruct (subs_m b !! event_t msg) as [v|] eqn:Ev.
    - by destruct (Hs _ _ Ev) as (_ & ? & _).
    - constructor. }
  assert (Hin : forall c : Component Q W, forall l,
    live b (comp_id (comp_base c)) (inMailBox_p (comp_base c)) ->
    subscribed b (comp_id (comp_base c)) (event_t msg) ->
    box_holds m (inMailBox_p (comp_base c)) l -> box_holds m1 (inMailBox_p (comp_base c)) (l ++ [r])).
  { intros c l Hlc Hsc Hbc. specialize (Ha _ _ Hbc).
    rewrite (copies_live b m r _ _ _ Hok Hv Hlc) in Ha. by rewrite decide_True in Ha. }
  split; [by apply Hin|]. split; [by apply Hin|].
  destruct (dispatch_ok c1 r w1 m1 msg f (l1 ++ [r]) Hf) as (m2 & Hd & _ & _ & Hr2);
    [congruence|by apply Hin|].
  destruct (take_data_ok m2 r _ Hr2) as (m3 & Ht & _).
  exists m2, m3. split; [done|].
  unfold dispatch. rewrite Hr2. simpl. rewrite Hh2, Ht. done.
Qed.

End ComponentProperties.

(** ** Concrete instances *)

Section ComponentWitnesses.

(** A component that counts the messages it handles. *)
Definition ex_count : MessageHandler threadsafe_queue Z :=
  fun _ w m => Ok (BVSTATUS_OK, w + 1, m).

Definition ex_comp (id : Z) (inbox : nat) : Component threadsafe_queue Z :=
  SetIsListeningToMail
    (RegisterCallback
      (RegisterCallback (Component_make 0 inbox id) BVEVENTTYPE_DISCOVERY_REQUEST_PAUSE ex_count)
      BVEVENTTYPE_TERMINATE_ALL ex_count) true.

Lemma ex_count_spec id inbox e :
  e = BVEVENTTYPE_DISCOVERY_REQUEST_PAUSE \/ e = BVEVENTTYPE_TERMINATE_ALL ->
  handler_spec (ex_comp id inbox) e (fun _ w => w + 1).
Proof.
  intros He. exists ex_count. split.
  - by destruct He as [-> | ->].
  - intros data w m. exists m. by repeat split.
Qed.

(** The broker's inbox of the broker example, read as a component's mailbox. *)
Lemma ListenToMail_in_order_witness :
  exists m', ListenToMail 4 (ex_comp 0 0) 0 ex_mail = Ok (Returned, 2, m') /\
    box_holds m' 0 [2%nat].
Proof.
  apply (ListenToMail_in_order (ex_comp 0 0) (fun _ _ w => w + 1)
    [(0%nat, MkBVMessage BVEVENTTYPE_DISCOVERY_REQUEST_PAUSE None);
     (1%nat, MkBVMessage BVEVENTTYPE_TERMINATE_ALL None);
     (2%nat, MkBVMessage BVEVENTTYPE_DISCOVERY_REQUEST_PAUSE None)]).
  - reflexivity.
  - intros rm Hrm. apply ex_count_spec. rewrite !elem_of_cons in Hrm.
    destruct Hrm as [->|[->|[->|Hrm]]]; simpl; auto. by inversion Hrm.
  - by apply (bool_decide_unpack _).
  - repeat constructor; vm_compute; reflexivity.
  - exact ex_inbox.
  - simpl. lia.
Defined.

Lemma ListenToMail_dies_witness :
  ListenToMail 1 (SetIsListeningToMail (Component_make 0 0 3) true) 0 ex_mail = Err Std_runtime_error.
Proof.
  apply (ListenToMail_dies _ 0%nat [1%nat; 2%nat]
    (MkBVMessage BVEVENTTYPE_DISCOVERY_REQUEST_PAUSE None)).
  - reflexivity.
  - exact ex_inbox.
  - vm_compute; reflexivity.
  - left. reflexivity.
Defined.

(** Two components attached to a fresh broker and subscribed to the same
    event; message 5 carries a payload. *)
Definition ex2_attach : BVStatus * BVBroker * mail threadsafe_queue * BVComponent :=
  Attach ex_attach.1.1.2 (MkComponent 0 0 7) ex_attach.1.2.

Definition ex2_broker : BVBroker :=
  (Subscribe_all (Subscribe_all ex2_attach.1.1.2 0 [BVEVENTTYPE_TERMINATE_ALL]).2 1
     [BVEVENTTYPE_TERMINATE_ALL]).2.

Definition ex2_payload : any := any_BrowseList [].

Definition ex2_mail : mail threadsafe_queue :=
  Mail (boxes ex2_attach.1.2)
    {[ 5%nat := MkBVMessage BVEVENTTYPE_TERMINATE_ALL (Some ex2_payload) ]}.

Definition ex_payload_seen : MessageHandler threadsafe_queue Z :=
  fun data w m => Ok (BVSTATUS_OK, if data is Some _ then 1 else 2, m).

Definition ex2_comp (id : Z) (inbox : nat) : Component threadsafe_queue Z :=
  RegisterCallback (Component_make 0 inbox id) BVEVENTTYPE_TERMINATE_ALL ex_payload_seen.

Lemma two_subscribers_inv (b : BVBroker) (m : mail threadsafe_queue) s1 q1 s2 q2 e ms :
  broker_inv (b, m) -> live b s1 q1 -> live (Subscribe_all b s1 [e]).2 s2 q2 ->
  broker_inv ((Subscribe_all (Subscribe_all b s1 [e]).2 s2 [e]).2, Mail (boxes m) ms).
Proof.
  intros H1 Hl1 Hl2. pose proof (subscribe_all_inv _ _ s1 q1 [e] Hl1 H1) as H2.
  rewrite <- (Subscribe_all_live _ _ _ _ Hl1) in H2.
  pose proof (subscribe_all_inv _ _ s2 q2 [e] Hl2 H2) as (Hok & Hs & Hn).
  rewrite <- (Subscribe_all_live _ _ _ _ Hl2) in Hok, Hs, Hn.
  split; [|by split]. by apply (slots_ok_msgs _ m).
Qed.

Lemma ex2_attach_inv : broker_inv (ex2_attach.1.1.2, ex2_attach.1.2).
Proof.
  apply (attach_inv _ _ (MkComponent 0 0 7) ex2_attach.1.1.1 _ _ ex2_attach.2 ex_attach_inv).
  unfold ex2_attach. by destruct (Attach _ _ _) as [[[st b] m] c].
Qed.

Lemma ex2_inv : broker_inv (ex2_broker, ex2_mail).
Proof.
  unfold ex2_broker, ex2_mail.
  apply (two_subscribers_inv _ _ 0 1%nat 1 2%nat _ _ ex2_attach_inv); vm_compute; reflexivity.
Qed.

Lemma ex2_inbox q : q = 1%nat \/ q = 2%nat -> box_holds ex2_mail q [].
Proof.
  intros [-> | ->]; (eexists; split; [vm_compute; reflexivity|]; exists 0%nat; vm_compute; auto).
Qed.

Lemma broadcast_payload_reaches_one_component_witness :
  exists m1 m2 m4, Route ex2_broker 5 ex2_mail = Ok (BVSTATUS_OK, m1) /\
    dispatch (ex2_comp 0 1) 5 0 m1 = Ok (true, 1, m2) /\
    dispatch (ex2_comp 1 2) 5 0 m2 = Ok (true, 2, m4).
Proof.
  destruct (broker_inv_parts _ _ ex2_inv) as [Hok Hs].
  destruct (broadcast_payload_reaches_one_component ex2_broker ex2_mail 5%nat
    (MkBVMessage BVEVENTTYPE_TERMINATE_ALL (Some ex2_payload)) (ex2_comp 0 1) (ex2_comp 1 2) 0 0
    (fun data _ => if data is Some _ then 1 else 2) ex_payload_seen [] [] Hok Hs)
    as (m1 & HR & _ & _ & m2 & m3 & H1 & H2).
  - vm_compute; reflexivity.
  - vm_compute; reflexivity.
  - vm_compute; reflexivity.
  - apply (bool_decide_unpack _). vm_compute. exact I.
  - apply (bool_decide_unpack _). vm_compute. exact I.
  - apply ex2_inbox. by left.
  - apply ex2_inbox. by right.
  - exists ex_payload_seen. split; [reflexivity|]. intros data w m. exists m. by repeat split.
  - reflexivity.
  - exists m1, m2, m3. split; [exact HR|]. split; [exact H1|exact H2].
Defined.

End ComponentWitnesses.
