(* ===== verification/Frames.v ===== *)
(** * Wire frames ([include/BVTCPSession.hpp], codecs)

    Two frame formats share the socket: message frames (138 bytes: length,
    timestamp, type, 128 bytes of payload) and file frames (a 21-byte header
    followed by the payload).  Encoders and decoders are written as the stores
    and loads of the code; an access outside a buffer is [OutOfBounds]. *)

From Stdlib Require Import ZArith Lia Ascii String.
From S2P Require Import Prelude Common.

(** ** Message frames *)

Definition byte_at (buf : list ascii) (i : nat) : result Z :=
  let! l := load buf i 1 in Ok (le_val l).

Definition GetMsgHeader (buf : list ascii) : result BVTCPMessageHeader :=
  let! dataLen := byte_at buf 0 in
  let! ts := load buf 1 8 in
  let! msgType := byte_at buf 9 in
  Ok {| mh_dataLen := dataLen; mh_timestamp := le_val ts; mh_msgType := msgType |}.

(** The stores of [WriteMessageFrame] into the write buffer.  [None] when the
    payload type is larger than the frame's payload: nothing is written. *)
Definition encode_message (buf : list ascii) (message : BVTCPMessage)
    : result (option (list ascii)) :=
  let headerSize := 10%nat in
  let payloadSize := (MESSAGE_FRAME_SIZE_BYTES - headerSize)%nat in
  if (payloadSize <? length (msg_payload message))%nat then Ok None
  else
    let h := msg_header message in
    let! buf := memcpy_to buf 0 (le_bytes 1 (mh_dataLen h)) in
    let! buf := memcpy_to buf 1 (le_bytes 8 (mh_timestamp h)) in
    let! buf := memcpy_to buf 9 (le_bytes 1 (mh_msgType h)) in
    let! buf := memcpy_to buf headerSize (msg_payload message) in
    Ok (Some buf).

(** [GetPayloadPtr] followed by a read of [n] chars through it. *)
Definition read_payload (buf : list ascii) (n : nat) : result (list ascii) :=
  load buf HEADER_SIZE_BYTES n.

(** [reinterpret_cast<const HelloMsg*> (readBuf)->header.msgType]: in the
    struct the timestamp is 8-aligned, so [msgType] is at offset 16. *)
Definition hello_struct_msgType (buf : list ascii) : result Z := byte_at buf 16.

(** ** File frames *)

Definition GetFileHeader (buf : list ascii) : result BVTCPFileHeader :=
  let! key := load buf 0 4 in
  let! ts := load buf 4 8 in
  let! msgType := byte_at buf 12 in
  let! metadata := load buf 13 8 in
  Ok {| fh_correlationKey := le_val key; fh_timestamp := le_val ts;
        fh_msgType := msgType; fh_metadata := le_val metadata |}.

(** [GetFileData (buf)]: from the header to the first NUL; the scan has no
    other bound. *)
Definition GetFileData (buf : list ascii) : result (list ascii) :=
  if (length buf <? FILE_HEADER_SIZE_BYTES)%nat then Err OutOfBounds
  else from_option_err OutOfBounds (until_nul (drop FILE_HEADER_SIZE_BYTES buf)).

(** [GetFileData (buf, csize)] *)
Definition GetFileData_sized (buf : list ascii) (csize : nat) : result (list ascii) :=
  load buf FILE_HEADER_SIZE_BYTES csize.

(** The four header stores shared by both chunk writers. *)
Definition store_file_header (buf : list ascii) (h : BVTCPFileHeader) : result (list ascii) :=
  let! buf := memcpy_to buf 0 (le_bytes 4 (fh_correlationKey h)) in
  let! buf := memcpy_to buf 4 (le_bytes 8 (fh_timestamp h)) in
  let! buf := memcpy_to buf 12 (le_bytes 1 (fh_msgType h)) in
  memcpy_to buf 13 (le_bytes 8 (fh_metadata h)).

Definition UINT32_MAX : Z := 4294967295.

(** The frame [WriteFileChunkSync] writes; [None] when it refuses. *)
Definition encode_file_frame (chunk : BVTCPFileChunk) (payloadBytes : nat)
    : result (option (list ascii)) :=
  if UINT32_MAX <? Z.of_nat payloadBytes then Ok None
  else
    let frameSize := (FILE_HEADER_SIZE_BYTES + payloadBytes)%nat in
    let frame := zeros frameSize in
    let! frame := store_file_header frame (fc_header chunk) in
    if (0 <? payloadBytes)%nat then
      let toCopy := if (payloadBytes <? length (fc_payload chunk))%nat
                    then payloadBytes else length (fc_payload chunk) in
      let! frame := memcpy_to frame FILE_HEADER_SIZE_BYTES (take toCopy (fc_payload chunk)) in
      Ok (Some frame)
    else Ok (Some frame).

(** The stores of [WriteFileChunk] into the resized write buffer: a payload
    shorter than [payloadBytes] is read past its end (only [BEGIN] is let
    through the size check). *)
Definition encode_file_chunk (chunk : BVTCPFileChunk) (payloadBytes : nat)
    : result (option (list ascii)) :=
  if ((length (fc_payload chunk) <? payloadBytes)%nat &&
      negb (fh_msgType (fc_header chunk) =? BVSESSIONREGULARMESSAGETYPE_FILE_TRANSFER_BEGIN))%bool
  then Ok None
  else if UINT32_MAX <? Z.of_nat payloadBytes then Ok None
  else
    let frameSize := (FILE_HEADER_SIZE_BYTES + payloadBytes)%nat in
    let! buf := store_file_header (zeros frameSize) (fc_header chunk) in
    if (0 <? payloadBytes)%nat then
      let! src := load (fc_payload chunk) 0 payloadBytes in
      let! buf := memcpy_to buf FILE_HEADER_SIZE_BYTES src in
      Ok (Some buf)
    else Ok (Some buf).

(** [SendFileOffer]: "service|name" and a NUL, in a 138-byte file frame. *)
Definition offer_chunk (now : Z) (service : string) (correlationKey fsize : Z) (name : string)
    : BVTCPFileChunk :=
  let payload := chars (service +:+ "|" +:+ name) ++ [NUL] in
  ConstructFileChunk
    (ConstructFileHeader now BVSESSIONREGULARMESSAGETYPE_FILE_OFFER correlationKey fsize) payload.

Definition SendFileOffer_frame (now : Z) (service : string) (correlationKey fsize : Z)
    (name : string) : result (option (list ascii)) :=
  encode_file_frame (offer_chunk now service correlationKey fsize name)
    (MESSAGE_FRAME_SIZE_BYTES - FILE_HEADER_SIZE_BYTES).

(** [SendFileControl]: an empty payload in the same frame size. *)
Definition SendFileControl_frame (now : Z) (correlationKey msgType : Z)
    : result (option (list ascii)) :=
  encode_file_frame
    (ConstructFileChunk (ConstructFileHeader now msgType correlationKey 0) [])
    (MESSAGE_FRAME_SIZE_BYTES - FILE_HEADER_SIZE_BYTES).

(** ** Closed forms *)

Definition message_bytes (m : BVTCPMessage) : list ascii :=
  le_bytes 1 (mh_dataLen (msg_header m)) ++ le_bytes 8 (mh_timestamp (msg_header m)) ++
  le_bytes 1 (mh_msgType (msg_header m)) ++ msg_payload m.

Definition file_header_bytes (h : BVTCPFileHeader) : list ascii :=
  le_bytes 4 (fh_correlationKey h) ++ le_bytes 8 (fh_timestamp h) ++
  le_bytes 1 (fh_msgType h) ++ le_bytes 8 (fh_metadata h).

(** A payload cut or zero-padded to [n] bytes. *)
Definition padded (n : nat) (l : list ascii) : list ascii :=
  take n l ++ zeros (n - length l).

Record header_ok (h : BVTCPMessageHeader) : Prop := {
  ho_len : 0 <= mh_dataLen h < 256;
  ho_ts : 0 <= mh_timestamp h < 2 ^ 64;
  ho_type : 0 <= mh_msgType h < 256
}.

Record file_header_ok (h : BVTCPFileHeader) : Prop := {
  fho_key : 0 <= fh_correlationKey h < 2 ^ 32;
  fho_ts : 0 <= fh_timestamp h < 2 ^ 64;
  fho_type : 0 <= fh_msgType h < 256;
  fho_meta : 0 <= fh_metadata h < 2 ^ 64
}.

(** ** Lemmas *)

(** A store that starts where the buffer's written prefix ends. *)
Lemma memcpy_append pre src n rest :
  length rest = (length src + n)%nat ->
  memcpy_to (pre ++ rest) (length pre) src = Ok (pre ++ src ++ drop (length src) rest).
Proof.
  intros Hl. rewrite memcpy_to_ok by (rewrite length_app; lia).
  rewrite take_app_length. do 3 f_equal. by rewrite drop_app_add.
Qed.

Lemma load_mid pre mid post n :
  length mid = n -> load (pre ++ mid ++ post) (length pre) n = Ok mid.
Proof.
  intros <-. rewrite load_ok by (rewrite !length_app; lia).
  rewrite drop_app_length. by rewrite take_app_length.
Qed.

Lemma byte_at_mid pre z post i :
  length pre = i -> 0 <= z < 256 -> byte_at (pre ++ le_bytes 1 z ++ post) i = Ok z.
Proof.
  intros <- Hz. unfold byte_at. rewrite (load_mid pre (le_bytes 1 z) post 1) by apply length_le_bytes.
  cbn [mbind result_bind]. rewrite le_val_bytes; [done|].
  change (256 ^ Z.of_nat 1) with 256. lia.
Qed.

(** [load] at a known offset of a concatenation, by position. *)
Lemma load_at pre mid post i n :
  length pre = i -> length mid = n -> load (pre ++ mid ++ post) i n = Ok mid.
Proof. intros <- Hn. by apply load_mid. Qed.

Lemma byte_at_0 z post : 0 <= z < 256 -> byte_at (le_bytes 1 z ++ post) 0 = Ok z.
Proof. by apply (byte_at_mid []). Qed.

Lemma load_0 mid post n : length mid = n -> load (mid ++ post) 0 n = Ok mid.
Proof. by apply (load_at []). Qed.

Lemma length_message_bytes m : length (message_bytes m) = (10 + length (msg_payload m))%nat.
Proof. unfold message_bytes. rewrite !length_app, !length_le_bytes. lia. Qed.

Lemma length_file_header_bytes h : length (file_header_bytes h) = 21%nat.
Proof. unfold file_header_bytes. by rewrite !length_app, !length_le_bytes. Qed.

Lemma length_padded n l : length (padded n l) = n.
Proof. unfold padded. rewrite length_app, length_take, length_zeros. lia. Qed.

Lemma GetMsgHeader_bytes m rest :
  header_ok (msg_header m) -> GetMsgHeader (message_bytes m ++ rest) = Ok (msg_header m).
Proof.
  intros [Hl Ht Hm]. unfold GetMsgHeader, message_bytes. rewrite <- !(assoc_L (++)).
  rewrite byte_at_0 by done. cbn [mbind result_bind].
  rewrite (load_at (le_bytes 1 _)) by apply length_le_bytes. cbn [mbind result_bind].
  rewrite !(assoc_L (++)), <- (assoc_L (++) _ (msg_payload m)), <- (assoc_L (++) _ (le_bytes 1 _)).
  rewrite byte_at_mid by (rewrite ?length_app, ?length_le_bytes; done). cbn [mbind result_bind].
  rewrite le_val_bytes by done. by destruct (msg_header m).
Qed.

Lemma encode_message_bytes buf m :
  length buf = MESSAGE_FRAME_SIZE_BYTES -> length (msg_payload m) = PAYLOAD_SIZE_BYTES ->
  encode_message buf m = Ok (Some (message_bytes m)).
Proof.
  intros Hb Hp. unfold encode_message.
  rewrite Hp. cbn -[memcpy_to le_bytes message_bytes mbind].
  unfold message_bytes. set (h := msg_header m).
  pose proof (memcpy_append [] (le_bytes 1 (mh_dataLen h)) 137 buf) as E1.
  rewrite length_le_bytes, Hb in E1. cbn [app length] in E1. rewrite E1 by done. cbn [mbind result_bind app].
  pose proof (memcpy_append (le_bytes 1 (mh_dataLen h)) (le_bytes 8 (mh_timestamp h)) 129 (drop 1 buf)) as E2.
  rewrite !length_le_bytes, length_drop, Hb in E2. rewrite E2 by done. cbn [mbind result_bind].
  pose proof (memcpy_append (le_bytes 1 (mh_dataLen h) ++ le_bytes 8 (mh_timestamp h))
    (le_bytes 1 (mh_msgType h)) 128 (drop 8 (drop 1 buf))) as E3.
  rewrite length_app, !length_le_bytes, !length_drop, Hb, <- !(assoc_L (++)) in E3.
  cbn [Nat.add] in E3. rewrite E3 by done. cbn [mbind result_bind].
  pose proof (memcpy_append (le_bytes 1 (mh_dataLen h) ++ le_bytes 8 (mh_timestamp h) ++
    le_bytes 1 (mh_msgType h)) (msg_payload m) 0 (drop 1 (drop 8 (drop 1 buf)))) as E4.
  rewrite !length_app, !length_le_bytes, !length_drop, Hb, Hp, <- !(assoc_L (++)) in E4.
  cbn [Nat.add] in E4. rewrite E4 by done. cbn [mbind result_bind]. do 6 f_equal.
  rewrite !drop_drop, drop_ge; [by rewrite app_nil_r|]. rewrite Hb. by apply leb_complete.
Qed.

Lemma GetFileHeader_bytes h rest :
  file_header_ok h -> GetFileHeader (file_header_bytes h ++ rest) = Ok h.
Proof.
  intros [Hk Ht Hm Hd]. unfold GetFileHeader, file_header_bytes. rewrite <- !(assoc_L (++)).
  rewrite load_0 by apply length_le_bytes. cbn [mbind result_bind].
  rewrite (load_at (le_bytes 4 _) (le_bytes 8 _) _ 4 8) by apply length_le_bytes. cbn [mbind result_bind].
  rewrite (assoc_L (++) (le_bytes 4 _) (le_bytes 8 _)).
  rewrite byte_at_mid by (rewrite ?length_app, ?length_le_bytes; done). cbn [mbind result_bind].
  rewrite (assoc_L (++) _ (le_bytes 1 _)).
  rewrite (load_at _ (le_bytes 8 _) _ 13 8) by (rewrite ?length_app, ?length_le_bytes; done). cbn [mbind result_bind].
  rewrite !le_val_bytes by done. by destruct h.
Qed.

Lemma store_file_header_bytes buf h n :
  length buf = (21 + n)%nat -> store_file_header buf h = Ok (file_header_bytes h ++ drop 21 buf).
Proof.
  intros Hb. unfold store_file_header, file_header_bytes.
  pose proof (memcpy_append [] (le_bytes 4 (fh_correlationKey h)) (17 + n) buf) as E1.
  rewrite length_le_bytes, Hb in E1. cbn [app length] in E1. rewrite E1 by lia. cbn [mbind result_bind app].
  pose proof (memcpy_append (le_bytes 4 (fh_correlationKey h)) (le_bytes 8 (fh_timestamp h))
    (9 + n) (drop 4 buf)) as E2.
  rewrite !length_le_bytes, length_drop, Hb in E2. rewrite E2 by lia. cbn [mbind result_bind].
  pose proof (memcpy_append (le_bytes 4 (fh_correlationKey h) ++ le_bytes 8 (fh_timestamp h))
    (le_bytes 1 (fh_msgType h)) (8 + n) (drop 8 (drop 4 buf))) as E3.
  rewrite length_app, !length_le_bytes, !length_drop, Hb, <- !(assoc_L (++)) in E3.
  change (4 + 8)%nat with 12%nat in E3. rewrite E3 by lia. cbn [mbind result_bind].
  pose proof (memcpy_append (le_bytes 4 (fh_correlationKey h) ++ le_bytes 8 (fh_timestamp h) ++
    le_bytes 1 (fh_msgType h)) (le_bytes 8 (fh_metadata h)) n (drop 1 (drop 8 (drop 4 buf)))) as E4.
  rewrite !length_app, !length_le_bytes, !length_drop, Hb, <- !(assoc_L (++)) in E4.
  change (4 + (8 + 1))%nat with 13%nat in E4. rewrite E4 by lia. by rewrite !drop_drop, <- !(assoc_L (++)).
Qed.

Lemma encode_file_frame_bytes chunk n :
  Z.of_nat n <= UINT32_MAX ->
  encode_file_frame chunk n =
    Ok (Some (file_header_bytes (fc_header chunk) ++ padded n (fc_payload chunk))).
Proof.
  intros Hn. unfold encode_file_frame.
  destruct (UINT32_MAX <? Z.of_nat n) eqn:E; [apply Z.ltb_lt in E; lia|].
  rewrite (store_file_header_bytes _ _ n) by apply length_zeros. cbn [mbind result_bind].
  unfold zeros at 1. rewrite drop_replicate. replace (FILE_HEADER_SIZE_BYTES + n - 21)%nat with n
    by (unfold FILE_HEADER_SIZE_BYTES; lia).
  destruct (0 <? n)%nat eqn:E0.
  - set (src := take _ _).
    assert (Hs : src = take n (fc_payload chunk)).
    { unfold src. destruct (n <? length (fc_payload chunk))%nat eqn:E1; [done|].
      apply Nat.ltb_ge in E1. by rewrite !take_ge by lia. }
    pose proof (memcpy_append (file_header_bytes (fc_header chunk)) src (n - length src) (replicate n NUL)) as E2.
    rewrite length_file_header_bytes, length_replicate in E2. unfold FILE_HEADER_SIZE_BYTES.
    rewrite E2 by (rewrite Hs, length_take; lia).
    cbn [mbind result_bind]. do 3 f_equal. unfold padded, zeros. rewrite Hs, drop_replicate, length_take.
    f_equal. f_equal. lia.
  - apply Nat.ltb_ge in E0. assert (n = 0%nat) as -> by lia. done.
Qed.

Lemma until_nul_padded l n : NUL ∉ l -> (length l < n)%nat -> until_nul (padded n (l ++ [NUL])) = Some l.
Proof.
  intros Hl Hn. unfold padded. rewrite take_ge by (rewrite length_app; simpl; lia).
  rewrite <- (assoc_L (++)). by apply until_nul_app.
Qed.

(** What the chat decoder sees of a file frame: byte 9 is byte 5 of the
    timestamp, which reaches 5 in the year 2144. *)
Lemma GetMsgHeader_file h rest :
  0 <= fh_timestamp h < 5 * 2 ^ 40 ->
  exists mh, GetMsgHeader (file_header_bytes h ++ rest) = Ok mh /\
    mh_msgType mh <> BVSESSIONREGULARMESSAGETYPE_CHATMESSAGE.
Proof.
  intros Hts. unfold GetMsgHeader, byte_at. set (buf := _ ++ rest).
  assert (Hlen : (21 <= length buf)%nat)
    by (unfold buf; rewrite length_app, length_file_header_bytes; lia).
  rewrite !load_ok by lia. cbn [mbind result_bind]. eexists; split; [done|]. cbn [mh_msgType].
  assert (Hb : take 1 (drop 9 buf) = take 1 (drop 5 (le_bytes 8 (fh_timestamp h)))).
  { unfold buf, file_header_bytes. rewrite <- !(assoc_L (++)). reflexivity. }
  rewrite Hb. cbn [le_bytes take drop le_val]. rewrite uchar_char_of.
  unfold BVSESSIONREGULARMESSAGETYPE_CHATMESSAGE. wrap_lia.
Qed.

(** ** Properties *)

(** C25.  A message frame decodes to what was sent: the frame written for a
    message is exactly 138 bytes, whatever the write buffer held before, its
    header is recovered by [GetMsgHeader], and its payload is read back byte
    for byte. *)
Theorem message_frame_roundtrip (buf : list ascii) (m : BVTCPMessage) :
  length buf = MESSAGE_FRAME_SIZE_BYTES -> length (msg_payload m) = PAYLOAD_SIZE_BYTES ->
  header_ok (msg_header m) ->
  exists frame, encode_message buf m = Ok (Some frame) /\
    length frame = MESSAGE_FRAME_SIZE_BYTES /\
    GetMsgHeader frame = Ok (msg_header m) /\
    read_payload frame PAYLOAD_SIZE_BYTES = Ok (msg_payload m).
Proof.
  intros Hb Hp Hh. exists (message_bytes m). split; [by apply encode_message_bytes|].
  split; [by rewrite length_message_bytes, Hp|]. split.
  - rewrite <- (app_nil_r (message_bytes m)). by apply GetMsgHeader_bytes.
  - unfold read_payload, message_bytes. rewrite !(assoc_L (++)).
    rewrite <- (app_nil_r (msg_payload m)) at 1. apply load_at; [|done].
    by rewrite !length_app, !length_le_bytes.
Qed.

(** C26.  A file frame decodes to what was sent: it is the 21-byte header
    followed by exactly [payloadBytes] bytes, the header is recovered by
    [GetFileHeader], and the sized [GetFileData] returns the payload, cut or
    zero-padded to [payloadBytes]; payloads may hold any byte, NUL included. *)
Theorem file_frame_roundtrip (chunk : BVTCPFileChunk) (payloadBytes : nat) :
  Z.of_nat payloadBytes <= UINT32_MAX -> file_header_ok (fc_header chunk) ->
  exists frame, encode_file_frame chunk payloadBytes = Ok (Some frame) /\
    length frame = (FILE_HEADER_SIZE_BYTES + payloadBytes)%nat /\
    GetFileHeader frame = Ok (fc_header chunk) /\
    GetFileData_sized frame payloadBytes =
      Ok (take payloadBytes (fc_payload chunk) ++ zeros (payloadBytes - length (fc_payload chunk))).
Proof.
  intros Hn Hh. eexists. split; [by apply encode_file_frame_bytes|]. split; [|split].
  - by rewrite length_app, length_file_header_bytes, length_padded.
  - by apply GetFileHeader_bytes.
  - unfold GetFileData_sized. rewrite <- (app_nil_r (padded _ _)).
    apply load_at; [apply length_file_header_bytes|apply length_padded].
Qed.

(** A file offer is one 138-byte frame; the receiver reads back the key,
    the size and the text "service|name" whenever that text is at most 116
    characters and holds no NUL; from 117 characters on the frame carries no
    terminator and the receiver's scan leaves the buffer. *)
Theorem SendFileOffer_bounds (now : Z) (service name : string) (key fsize : Z) :
  0 <= key < 2 ^ 32 -> 0 <= fsize < 2 ^ 32 -> NUL ∉ chars (service +:+ "|" +:+ name) ->
  exists frame, SendFileOffer_frame now service key fsize name = Ok (Some frame) /\
    length frame = MESSAGE_FRAME_SIZE_BYTES /\
    (exists h, GetFileHeader frame = Ok h /\ fh_correlationKey h = key /\ fh_metadata h = fsize /\
       fh_msgType h = BVSESSIONREGULARMESSAGETYPE_FILE_OFFER) /\
    GetFileData frame =
      if (String.length (service +:+ "|" +:+ name) <=? 116)%nat
      then Ok (chars (service +:+ "|" +:+ name)) else Err OutOfBounds.
Proof.
  intros Hk Hf Hnul. unfold SendFileOffer_frame. rewrite encode_file_frame_bytes by done.
  eexists; split; [done|].
  split; [by rewrite length_app, length_file_header_bytes, length_padded|]. split.
  - exists (fc_header (offer_chunk now service key fsize name)). split; [|done].
    apply GetFileHeader_bytes. split; cbn [offer_chunk fc_header ConstructFileChunk ConstructFileHeader fh_correlationKey
      fh_timestamp fh_msgType fh_metadata]; try lia; [wrap_lia|done].
  - unfold GetFileData. rewrite length_app, length_file_header_bytes, length_padded.
    cbn [offer_chunk fc_payload ConstructFileChunk]. set (t := chars _) in *.
    rewrite <- length_chars. fold t.
    change (21 + (MESSAGE_FRAME_SIZE_BYTES - FILE_HEADER_SIZE_BYTES) <? FILE_HEADER_SIZE_BYTES)%nat with false.
    change (MESSAGE_FRAME_SIZE_BYTES - FILE_HEADER_SIZE_BYTES)%nat with 117%nat.
    rewrite drop_app_length' by (by rewrite length_file_header_bytes).
    destruct (length t <=? 116)%nat eqn:E.
    + apply Nat.leb_le in E. by rewrite until_nul_padded by (done || lia).
    + apply Nat.leb_gt in E. unfold padded. rewrite length_app. simpl length.
      replace (117 - (length t + 1))%nat with 0%nat by lia. rewrite app_nil_r.
      rewrite take_app_le by lia. rewrite until_nul_None; [done|].
      intros Hin. apply Hnul. apply elem_of_take in Hin as (i & Hi & _). by eapply list_elem_of_lookup_2.
Qed.

(** Message frames and file frames share the socket and are told apart
    by a byte each: a file frame sent before the year 2144 is never read as a
    chat message, and a chat frame is read as a file frame exactly when the
    third character of its payload is one of the file message types. *)
Theorem frame_kinds_disjoint (h : BVTCPFileHeader) (m : BVTCPMessage) rest :
  file_header_ok h -> fh_timestamp h < 5 * 2 ^ 40 ->
  header_ok (msg_header m) -> length (msg_payload m) = PAYLOAD_SIZE_BYTES ->
  (exists mh, GetMsgHeader (file_header_bytes h ++ rest) = Ok mh /\
     mh_msgType mh <> BVSESSIONREGULARMESSAGETYPE_CHATMESSAGE) /\
  (exists fh, GetFileHeader (message_bytes m) = Ok fh /\
     Some (fh_msgType fh) = uchar <$> msg_payload m !! 2%nat).
Proof.
  intros [Hk Ht Hm Hd] Hts Hh Hp. split; [apply GetMsgHeader_file; lia|].
  unfold GetFileHeader, byte_at. rewrite !load_ok by (rewrite length_message_bytes, Hp; unfold PAYLOAD_SIZE_BYTES; lia).
  cbn [mbind result_bind]. eexists; split; [done|]. cbn [fh_msgType].
  destruct m as [mh [|a [|b [|c p]]]]; [done..|].
  assert (Hb : take 1 (drop 12 (message_bytes {| msg_header := mh; msg_payload := a :: b :: c :: p |}))
               = [c]) by reflexivity.
  rewrite Hb. cbn. f_equal. lia.
Qed.

(** ** Concrete instances *)

Section FrameWitnesses.

Definition ex_msg : BVTCPMessage :=
  {| msg_header := {| mh_dataLen := 5; mh_timestamp := 1700000000000;
                      mh_msgType := BVSESSIONREGULARMESSAGETYPE_CHATMESSAGE |};
     msg_payload := chars "hello" ++ zeros 123 |}.

Definition ex_file_chunk : BVTCPFileChunk :=
  ConstructFileChunk (ConstructFileHeader 1700000000000
    BVSESSIONREGULARMESSAGETYPE_FILE_TRANSFER_END 7 3) (chars "abc").

Lemma ex_msg_ok : header_ok (msg_header ex_msg).
Proof. by split. Qed.

Lemma ex_file_header_ok : file_header_ok (fc_header ex_file_chunk).
Proof. by split. Qed.

Lemma message_frame_roundtrip_witness :
  exists frame, encode_message (zeros 138) ex_msg = Ok (Some frame) /\
    GetMsgHeader frame = Ok (msg_header ex_msg).
Proof.
  destruct (message_frame_roundtrip (zeros 138) ex_msg eq_refl eq_refl ex_msg_ok)
    as (frame & H1 & _ & H2 & _).
  exists frame. split; [exact H1|exact H2].
Defined.

Lemma file_frame_roundtrip_witness :
  exists frame, encode_file_frame ex_file_chunk 5 = Ok (Some frame) /\
    GetFileData_sized frame 5 = Ok (chars "abc" ++ zeros 2).
Proof.
  destruct (file_frame_roundtrip ex_file_chunk 5 ltac:(vm_compute; discriminate) ex_file_header_ok)
    as (frame & H1 & _ & _ & H2).
  exists frame. split; [exact H1|exact H2].
Defined.

Lemma SendFileOffer_bounds_witness :
  exists frame, SendFileOffer_frame 0 "ann" 1 10 "x.txt" = Ok (Some frame) /\
    GetFileData frame = Ok (chars "ann|x.txt").
Proof.
  destruct (SendFileOffer_bounds 0 "ann" "x.txt" 1 10 ltac:(lia) ltac:(lia)
    ltac:(apply (bool_decide_unpack _); vm_compute; exact I)) as (frame & H1 & _ & _ & H2).
  exists frame. split; [exact H1|exact H2].
Defined.

Lemma frame_kinds_disjoint_witness :
  exists fh, GetFileHeader (message_bytes ex_msg) = Ok fh /\ fh_msgType fh = uchar "l".
Proof.
  destruct (frame_kinds_disjoint (fc_header ex_file_chunk) ex_msg [] ex_file_header_ok
    ltac:(vm_compute; reflexivity) ex_msg_ok eq_refl) as (_ & fh & H1 & H2).
  exists fh. split; [exact H1|]. injection H2 as H2. exact H2.
Defined.

End FrameWitnesses.
