(* ===== verification/Session.v ===== *)
(** * A connection session ([include/BVTCPSession.hpp], [src/BVTCPSession.cpp])

    The state of one peer-to-peer connection, its read and write operations
    on the socket, the frame handlers and the completion callbacks.  Boost.Asio
    is not part of the repository: [asio] says whether an initiated operation
    moves bytes at once (it may: the buffers belong to the operation until its
    handler runs) or only on completion.  The connection manager, which the
    handlers call back, is the interface [SessionManager]. *)

From Stdlib Require Import ZArith Lia Ascii String.
From S2P Require Import Prelude Common Broker Frames.

(** ** Interface of the connection manager towards its sessions *)

(** How a blocking write ends: with all bytes sent, or with an error after the
    first [n]. *)
Abbreviation write_error := (option nat) (only parsing).

(** What a handler finds in its environment: the clock, the previous contents of
    the stack where a payload array is declared and of the heap where session
    data is allocated, how a blocking write ends, whether a file that exists can
    be opened, and whether the socket has lost its peer, so that asking for the
    remote endpoint throws. *)
Record env : Type := Env {
  now : Z;
  stack128 : list ascii;
  heap32 : Z;
  sync_write : write_error;
  can_open : bool;
  no_endpoint : bool
}.

(** ** The socket *)

Record asio : Type := Asio {
  eager_read : bool;     (* async_read may fill its buffer when initiated *)
  eager_write : bool     (* async_write may send its buffer when initiated *)
}.

Inductive read_target : Type := FrameBuffer | FileBuffer.

(** [async_read] of [ro_len] bytes at offset [ro_off] of a buffer, [ro_done]
    of them already there. *)
Record read_op : Type := ReadOp {
  ro_target : read_target;
  ro_off : nat;
  ro_len : nat;
  ro_done : nat
}.

Inductive write_kind : Type := MessageFrame | FileFrame.

(** [async_write] of the first [wo_len] bytes of the write buffer. *)
Record write_op : Type := WriteOp {
  wo_kind : write_kind;
  wo_len : nat;
  wo_sent : bool
}.

(** Bytes received and not yet read, bytes sent, operations in flight. *)
Record socket : Type := Socket {
  rx : list ascii;
  tx : list ascii;
  reads : list read_op;
  writes : list write_op
}.

(** ** The session *)

Record BVTCPSession : Type := MkSession {
  self : nat;   (* shared_from_this () *)
  s_state : BVSessionState;
  s_origin : option BVSessionOrigin;   (* not set by the constructor *)
  sessionID : Z;   (* SessionID (uint16_t) *)
  nodeData : BVNode;
  inMailbox_set : bool;   (* inMailbox_p is not null *)
  alive : bool;
  writeStore : list ascii;   (* writeBuf: the storage ... *)
  writeSize : nat;   (* ... and the size of the string *)
  readBuf : option (list ascii);   (* unique_ptr<char[]> *)
  fileReadBuf : list ascii;
  s_fsize : Z;   (* uint32_t *)
  s_csize : Z;   (* uint32_t *)
  totalBytesWritten : nat;
  totalBytesRead : nat;
  thisMachineServiceName : string;
  sock : socket
}.

Definition set_state (s : BVTCPSession) (x0 : BVSessionState) : BVTCPSession :=
  MkSession (self s) x0 (s_origin s) (sessionID s) (nodeData s) (inMailbox_set s) (alive s)
    (writeStore s) (writeSize s) (readBuf s) (fileReadBuf s) (s_fsize s) (s_csize s)
    (totalBytesWritten s) (totalBytesRead s) (thisMachineServiceName s) (sock s).
Definition set_origin (s : BVTCPSession) (x0 : option BVSessionOrigin) : BVTCPSession :=
  MkSession (self s) (s_state s) x0 (sessionID s) (nodeData s) (inMailbox_set s) (alive s)
    (writeStore s) (writeSize s) (readBuf s) (fileReadBuf s) (s_fsize s) (s_csize s)
    (totalBytesWritten s) (totalBytesRead s) (thisMachineServiceName s) (sock s).
Definition set_nodeData (s : BVTCPSession) (x0 : BVNode) : BVTCPSession :=
  MkSession (self s) (s_state s) (s_origin s) (sessionID s) x0 (inMailbox_set s) (alive s)
    (writeStore s) (writeSize s) (readBuf s) (fileReadBuf s) (s_fsize s) (s_csize s)
    (totalBytesWritten s) (totalBytesRead s) (thisMachineServiceName s) (sock s).
Definition set_inMailbox (s : BVTCPSession) (x0 : bool) : BVTCPSession :=
  MkSession (self s) (s_state s) (s_origin s) (sessionID s) (nodeData s) x0 (alive s)
    (writeStore s) (writeSize s) (readBuf s) (fileReadBuf s) (s_fsize s) (s_csize s)
    (totalBytesWritten s) (totalBytesRead s) (thisMachineServiceName s) (sock s).
Definition set_write (s : BVTCPSession) (x0 : list ascii) (x1 : nat) : BVTCPSession :=
  MkSession (self s) (s_state s) (s_origin s) (sessionID s) (nodeData s) (inMailbox_set s)
    (alive s) x0 x1 (readBuf s) (fileReadBuf s) (s_fsize s) (s_csize s)
    (totalBytesWritten s) (totalBytesRead s) (thisMachineServiceName s) (sock s).
Definition set_readBuf (s : BVTCPSession) (x0 : option (list ascii)) : BVTCPSession :=
  MkSession (self s) (s_state s) (s_origin s) (sessionID s) (nodeData s) (inMailbox_set s)
    (alive s) (writeStore s) (writeSize s) x0 (fileReadBuf s) (s_fsize s)
    (s_csize s) (totalBytesWritten s) (totalBytesRead s) (thisMachineServiceName s)
    (sock s).
Definition set_fileReadBuf (s : BVTCPSession) (x0 : list ascii) : BVTCPSession :=
  MkSession (self s) (s_state s) (s_origin s) (sessionID s) (nodeData s) (inMailbox_set s)
    (alive s) (writeStore s) (writeSize s) (readBuf s) x0 (s_fsize s) (s_csize s)
    (totalBytesWritten s) (totalBytesRead s) (thisMachineServiceName s) (sock s).
Definition set_sizes (s : BVTCPSession) (x0 : Z) (x1 : Z) : BVTCPSession :=
  MkSession (self s) (s_state s) (s_origin s) (sessionID s) (nodeData s) (inMailbox_set s)
    (alive s) (writeStore s) (writeSize s) (readBuf s) (fileReadBuf s) x1 x0
    (totalBytesWritten s) (totalBytesRead s) (thisMachineServiceName s) (sock s).
Definition set_written (s : BVTCPSession) (x0 : nat) : BVTCPSession :=
  MkSession (self s) (s_state s) (s_origin s) (sessionID s) (nodeData s) (inMailbox_set s)
    (alive s) (writeStore s) (writeSize s) (readBuf s) (fileReadBuf s) (s_fsize s)
    (s_csize s) x0 (totalBytesRead s) (thisMachineServiceName s) (sock s).
Definition set_read (s : BVTCPSession) (x0 : nat) : BVTCPSession :=
  MkSession (self s) (s_state s) (s_origin s) (sessionID s) (nodeData s) (inMailbox_set s)
    (alive s) (writeStore s) (writeSize s) (readBuf s) (fileReadBuf s) (s_fsize s)
    (s_csize s) (totalBytesWritten s) x0 (thisMachineServiceName s) (sock s).
Definition set_sock (s : BVTCPSession) (x0 : socket) : BVTCPSession :=
  MkSession (self s) (s_state s) (s_origin s) (sessionID s) (nodeData s) (inMailbox_set s)
    (alive s) (writeStore s) (writeSize s) (readBuf s) (fileReadBuf s) (s_fsize s)
    (s_csize s) (totalBytesWritten s) (totalBytesRead s) (thisMachineServiceName s)
    x0.

(** What a session calls on its manager.  The session passed to
    [HandleSessionIdentification] is the caller itself. *)
Class SessionManager (M : Type) : Type := {
  HandleSessionIdentification :
    asio -> env -> string -> BVTCPSession -> M -> result (BVTCPSession * M);
  PutMessageIntoAppMailbox : BVMessage -> M -> result M;
  SignalFileTransfer : env -> Z -> bool -> M -> result M
}.

(** What the sessions rely on: a message put into the application's mailbox
    is appended to it. *)
Class SessionManagerLaws (M : Type) `{SessionManager M} : Type := {
  app_mail : M -> list BVMessage -> Prop;
  Put_app_mail : forall m l msg,
    app_mail m l -> exists m', PutMessageIntoAppMailbox msg m = Ok m' /\ app_mail m' (l ++ [msg])
}.

(** ** Buffers *)

Definition the_readBuf (s : BVTCPSession) : result (list ascii) :=
  from_option_err NullDereference (readBuf s).

Definition ClearReadBuffer (s : BVTCPSession) : result BVTCPSession :=
  let! buf := the_readBuf s in
  let! buf := memcpy_to buf 0 (zeros MESSAGE_FRAME_SIZE_BYTES) in
  Ok (set_read (set_readBuf s (Some buf)) 0).

(** [clear ()] then [assign (138, 0)]: the storage never shrinks. *)
Definition ClearWriteBuffer (s : BVTCPSession) : BVTCPSession :=
  set_written
    (set_write s (zeros MESSAGE_FRAME_SIZE_BYTES ++ drop MESSAGE_FRAME_SIZE_BYTES (writeStore s))
       MESSAGE_FRAME_SIZE_BYTES) 0.

Definition ClearFileBuffer (s : BVTCPSession) : BVTCPSession := set_fileReadBuf s (zeros 1).

(** [writeBuf.erase ()]: size 0, and a terminator in the first byte. *)
Definition erase_writeBuf (s : BVTCPSession) : BVTCPSession :=
  set_write s (match writeStore s with [] => [] | _ :: l => NUL :: l end) 0.

(** [Close]: pending operations are cancelled; their callbacks only log. *)
Definition Close (s : BVTCPSession) : BVTCPSession :=
  erase_writeBuf (set_readBuf (set_sock (set_state s BVSESSIONSTATE_CLOSED)
    (Socket (rx (sock s)) (tx (sock s)) [] [])) None).

(** The constructors of the session data and of the session: [fsize0] and
    [csize0] are the indeterminate initial values. *)
Definition BVTCPSession_make (ref : nat) (node : BVNode) (sid : Z) (name : string)
    (fsize0 csize0 : Z) : result BVTCPSession :=
  let s := MkSession ref BVSESSIONSTATE_UNPREPARED None sid node false true [] 0
             (Some (zeros MESSAGE_FRAME_SIZE_BYTES)) (zeros 1) fsize0 csize0 0 0 name
             (Socket [] [] [] []) in
  let! s := ClearReadBuffer s in
  Ok (ClearWriteBuffer s).

(** ** Socket operations *)

(** Bytes arriving into the buffer of a read operation. *)
Definition fill (s : BVTCPSession) (t : read_target) (off : nat) (bytes : list ascii)
    : result BVTCPSession :=
  match t with
  | FrameBuffer => let! buf := the_readBuf s in
                   let! buf := memcpy_to buf off bytes in Ok (set_readBuf s (Some buf))
  | FileBuffer => let! buf := memcpy_to (fileReadBuf s) off bytes in Ok (set_fileReadBuf s buf)
  end.

Definition with_reads (k : socket) (r : list ascii) (l : list read_op) : socket :=
  Socket r (tx k) l (writes k).
Definition with_writes (k : socket) (t : list ascii) (l : list write_op) : socket :=
  Socket (rx k) t (reads k) l.

(** [boost::asio::async_read (sock, buffer (p + off, len))] *)
Definition async_read (P : asio) (s : BVTCPSession) (t : read_target) (off len : nat)
    : result BVTCPSession :=
  let k := sock s in
  if (eager_read P && bool_decide (reads k = []))%bool then
    let now_there := take len (rx k) in
    let! s := fill s t off now_there in
    Ok (set_sock s (with_reads k (drop len (rx k)) [ReadOp t off len (length now_there)]))
  else Ok (set_sock s (with_reads k (rx k) (reads k ++ [ReadOp t off len 0]))).

(** [boost::asio::async_write (sock, buffer (writeBuf))] *)
Definition async_write (P : asio) (s : BVTCPSession) (kind : write_kind) : BVTCPSession :=
  let k := sock s in
  if (eager_write P && bool_decide (writes k = []))%bool then
    set_sock s (with_writes k (tx k ++ take (writeSize s) (writeStore s))
                  [WriteOp kind (writeSize s) true])
  else set_sock s (with_writes k (tx k) (writes k ++ [WriteOp kind (writeSize s) false])).

(** ** Starting reads *)

Definition StartReadingFrames (P : asio) (s : BVTCPSession) : result BVTCPSession :=
  let! _ := the_readBuf s in
  async_read P s FrameBuffer (totalBytesRead s)
    (MESSAGE_FRAME_SIZE_BYTES - totalBytesRead s).

Definition RequestReadingFrames := StartReadingFrames.

(** [csize] is a [uint32_t] parameter: the callers' sum is truncated. *)
Definition StartReadingChunks (P : asio) (s : BVTCPSession) (csize : Z) : result BVTCPSession :=
  let csize := u32 csize in
  if (Z.to_nat csize <? totalBytesRead s)%nat then Ok s
  else
    let remaining := (Z.to_nat csize - totalBytesRead s)%nat in
    if (remaining =? 0)%nat then Ok s
    else async_read P s FileBuffer (totalBytesRead s) remaining.

(** ** Writes *)

Definition WriteMessageFrame (P : asio) (s : BVTCPSession) (message : BVTCPMessage)
    : result BVTCPSession :=
  let s := set_written s 0 in
  let! frame := encode_message (writeStore s) message in
  match frame with
  | None => Ok s
  | Some store =>
      let s := set_write s store (writeSize s) in
      if (writeSize s =? 0)%nat then Err AssertionFailed
      else Ok (async_write P s MessageFrame)
  end.

(** [writeBuf.resize (frameSize)]: kept in the same storage. *)
Definition WriteFileChunk (P : asio) (s : BVTCPSession) (chunk : BVTCPFileChunk)
    (payloadBytes : nat) : result BVTCPSession :=
  let s := set_written s 0 in
  let! frame := encode_file_chunk chunk payloadBytes in
  match frame with
  | None => Ok s
  | Some frame =>
      let s := set_write s (frame ++ drop (length frame) (writeStore s)) (length frame) in
      Ok (async_write P s FileFrame)
  end.

(** [n] bytes of [frame] have been sent, or all of them. *)
Definition put_on_wire (s : BVTCPSession) (ec : write_error) (frame : list ascii) : BVTCPSession :=
  let k := sock s in
  set_sock s (with_writes k (tx k ++ match ec with Some n => take n frame | None => frame end) (writes k)).

(** Blocking write of a frame built in a local buffer; [ec] is the error the
    write reports. *)
Definition WriteFileChunkSync (s : BVTCPSession) (chunk : BVTCPFileChunk) (payloadBytes : nat)
    (ec : write_error) : result (bool * BVTCPSession) :=
  let! frame := encode_file_frame chunk payloadBytes in
  match frame with
  | None => Ok (false, s)
  | Some frame => Ok (match ec with Some _ => false | None => true end, put_on_wire s ec frame)
  end.

Definition SendFileOffer (e : env) (s : BVTCPSession) (correlationKey fsize : Z) (name : string)
    : result BVTCPSession :=
  let chunk := offer_chunk (now e) (thisMachineServiceName s) correlationKey fsize name in
  let! '(_, s) := WriteFileChunkSync s chunk
                    (MESSAGE_FRAME_SIZE_BYTES - FILE_HEADER_SIZE_BYTES) (sync_write e) in
  Ok s.

Definition SendFileControl (e : env) (s : BVTCPSession) (correlationKey msgType : Z)
    : result BVTCPSession :=
  let header := ConstructFileHeader (now e) msgType correlationKey 0 in
  let! '(_, s) := WriteFileChunkSync s (ConstructFileChunk header [])
                    (MESSAGE_FRAME_SIZE_BYTES - FILE_HEADER_SIZE_BYTES) (sync_write e) in
  Ok s.

(** ** Completion of writes *)

Definition WriteMessageFrameCallback (P : asio) (s : BVTCPSession) (ec : bool)
    (bytes_transferred : nat) : BVTCPSession :=
  if ec then s
  else
    let s := set_written s (totalBytesWritten s + bytes_transferred)%nat in
    if ((totalBytesWritten s =? writeSize s) || (writeSize s =? 0) ||
        (totalBytesWritten s =? MESSAGE_FRAME_SIZE_BYTES))%nat%bool
    then if decide (s_state s <> BVSESSIONSTATE_CLOSED) then ClearWriteBuffer s else s
    else async_write P s MessageFrame.

Definition WriteFileChunkCallback (s : BVTCPSession) (ec : bool) (bytes_transferred : nat)
    : BVTCPSession :=
  if ec then s else ClearWriteBuffer (set_written s bytes_transferred).

(** The oldest write completes: a deferred one sends the bytes the write
    buffer holds now. *)
Definition complete_write (P : asio) (s : BVTCPSession) : BVTCPSession :=
  let k := sock s in
  match writes k with
  | [] => s
  | op :: ops =>
      let sent := if wo_sent op then [] else take (wo_len op) (writeStore s) in
      let s := set_sock s (with_writes k (tx k ++ sent) ops) in
      match wo_kind op with
      | MessageFrame => WriteMessageFrameCallback P s false (wo_len op)
      | FileFrame => WriteFileChunkCallback s false (wo_len op)
      end
  end.

(** The oldest write fails, [n] of its bytes having left: the callback logs and
    returns. *)
Definition fail_write (P : asio) (n : nat) (s : BVTCPSession) : BVTCPSession :=
  let k := sock s in
  match writes k with
  | [] => s
  | op :: ops =>
      let sent := if wo_sent op then [] else take n (take (wo_len op) (writeStore s)) in
      let s := set_sock s (with_writes k (tx k ++ sent) ops) in
      match wo_kind op with
      | MessageFrame => WriteMessageFrameCallback P s true 0
      | FileFrame => WriteFileChunkCallback s true 0
      end
  end.

(** ** Frame handlers *)

Section Handlers.
Context {M : Type} `{SessionManager M} (P : asio) (e : env).

Definition HELLO_header (msgType : Z) : BVTCPMessageHeader :=
  ConstructMessageHeader (now e) 0 msgType.

(** [OnReceiveHelloFrame]: the name is copied into an uninitialised 128-byte
    array, and the write buffer is erased right after the write is initiated. *)
Definition OnReceiveHelloFrame (s : BVTCPSession) : result BVTCPSession :=
  let! buf := the_readBuf s in
  let! msgType := hello_struct_msgType buf in
  if negb (msgType =? BVSESSIONCONTROLMESSAGETYPE_HELLO) then Ok s
  else
    let serviceNameToCopy := chars (thisMachineServiceName s) in
    let! payloadRaw := memcpy_to (stack128 e) 0 serviceNameToCopy in
    let replyMsg := ConstructMessage (HELLO_header BVSESSIONCONTROLMESSAGETYPE_HELLOBACK) payloadRaw in
    let replyMsg := {| msg_header :=
        {| mh_dataLen := u8 (Z.of_nat (length serviceNameToCopy));
           mh_timestamp := mh_timestamp (msg_header replyMsg);
           mh_msgType := mh_msgType (msg_header replyMsg) |};
      msg_payload := msg_payload replyMsg |} in
    let! s := WriteMessageFrame P s replyMsg in
    let s := erase_writeBuf s in
    StartReadingFrames P s.

Definition OnReceiveHelloBackFrame (s : BVTCPSession) (m : M) : result (BVTCPSession * M) :=
  let! buf := the_readBuf s in
  let! header := GetMsgHeader buf in
  if negb (mh_msgType header =? BVSESSIONCONTROLMESSAGETYPE_HELLOBACK) then Ok (s, m)
  else if 128 <? mh_dataLen header then Ok (s, m)
  else
    let! payloadStr := read_payload buf (Z.to_nat (mh_dataLen header)) in
    HandleSessionIdentification P e (str payloadStr) s m.

Definition OnReceiveConfirmEstablished (s : BVTCPSession) : result BVTCPSession :=
  StartReadingFrames P (set_state s BVSESSIONSTATE_ESTABLISHED).

(** The text has [dataLen] characters of a 128-byte array: no check. *)
Definition OnReceiveChatMessageFrame (s : BVTCPSession) (m : M) : result (BVTCPSession * M) :=
  let! buf := the_readBuf s in
  let! header := GetMsgHeader buf in
  if negb (mh_msgType header =? BVSESSIONREGULARMESSAGETYPE_CHATMESSAGE) then Ok (s, m)
  else
    let! payload := read_payload buf 128 in
    let! payloadStr := load payload 0 (Z.to_nat (mh_dataLen header)) in
    let! m := PutMessageIntoAppMailbox
      (MkBVMessage BVEVENTTYPE_APP_MESSAGE_INCOMING
        (Some (any_ChatMessage {| cm_textData := str payloadStr;
                                  cm_sender := nd_serviceName (nodeData s);
                                  cm_timestamp := mh_timestamp header |}))) m in
    let! s := StartReadingFrames P s in
    Ok (s, m).

Definition OnReceiveFileOffer (s : BVTCPSession) (m : M) : result M :=
  let! buf := the_readBuf s in
  let! header := GetFileHeader buf in
  let! payload := GetFileData buf in
  let fsize := u32 (Z.land (fh_metadata header) 0xFFFFFFFF) in
  PutMessageIntoAppMailbox
    (MkBVMessage BVEVENTTYPE_APP_FILE_OFFER
      (Some (any_FileData {| fd_correlationKey := fh_correlationKey header; fd_csize := 0;
                             fd_fsize := fsize; fd_fdata := payload |}))) m.

(** The peer's chunk size sizes the file buffer. *)
Definition OnReceiveFileTransferBegin (s : BVTCPSession) (m : M) : result (BVTCPSession * M) :=
  let! buf := the_readBuf s in
  let! header := GetFileHeader buf in
  let! payload := GetFileData buf in
  if negb (fh_msgType header =? BVSESSIONREGULARMESSAGETYPE_FILE_TRANSFER_BEGIN) then Ok (s, m)
  else
    let metadata := fh_metadata header in
    let csize := u32 (Z.shiftr (Z.land metadata 0xFFFFFFFF00000000) 32) in
    let fsize := u32 (Z.land metadata 0x0000000FFFFFFFFF) in
    let s := set_sizes s csize fsize in
    let! m := PutMessageIntoAppMailbox
      (MkBVMessage BVEVENTTYPE_APP_FILE_TRANSFER_BEGIN
        (Some (any_FileData {| fd_correlationKey := fh_correlationKey header; fd_csize := csize;
                               fd_fsize := fsize; fd_fdata := payload |}))) m in
    let! s := ClearReadBuffer s in
    let s := set_fileReadBuf s (zeros (Z.to_nat csize + FILE_HEADER_SIZE_BYTES)) in
    let s := set_read s 0 in
    let! s := StartReadingChunks P s (csize + Z.of_nat FILE_HEADER_SIZE_BYTES) in
    Ok (s, m).

(** [OnReceiveFileChunkSent] and [OnReceiveFileTransferEnd] differ in the
    message type they expect and in the event they raise. *)
Definition forward_chunk (msgType : Z) (event : BVEventType) (s : BVTCPSession) (m : M)
    : result M :=
  let! header := GetFileHeader (fileReadBuf s) in
  let! payload := GetFileData_sized (fileReadBuf s) (Z.to_nat (s_csize s)) in
  if negb (fh_msgType header =? msgType) then Ok m
  else
    PutMessageIntoAppMailbox
      (MkBVMessage event
        (Some (any_FileData {| fd_correlationKey := fh_correlationKey header;
                               fd_csize := s_csize s; fd_fsize := s_fsize s;
                               fd_fdata := payload |}))) m.

Definition OnReceiveFileChunkSent (s : BVTCPSession) (m : M) : result M :=
  forward_chunk BVSESSIONREGULARMESSAGETYPE_FILE_TRANSFER_CHUNK_SENT
    BVEVENTTYPE_APP_FILE_TRANSFER_CHUNK_SENT s m.

Definition OnReceiveFileTransferEnd (s : BVTCPSession) (m : M) : result M :=
  forward_chunk BVSESSIONREGULARMESSAGETYPE_FILE_TRANSFER_END
    BVEVENTTYPE_APP_FILE_TRANSFER_END s m.

(** The frame is looked at twice: as a message frame, then as a file frame. *)
Definition OnReceiveStandardFrame (s : BVTCPSession) (m : M) : result (bool * BVTCPSession * M) :=
  let! buf := the_readBuf s in
  let! header := GetMsgHeader buf in
  let! '(s, m) := if mh_msgType header =? BVSESSIONREGULARMESSAGETYPE_CHATMESSAGE
                  then OnReceiveChatMessageFrame s m else Ok (s, m) in
  let! buf := the_readBuf s in
  let! fileHeader := GetFileHeader buf in
  let t := fh_msgType fileHeader in
  if t =? BVSESSIONREGULARMESSAGETYPE_FILE_TRANSFER_BEGIN then
    let! '(s, m) := OnReceiveFileTransferBegin s m in Ok (true, s, m)
  else if t =? BVSESSIONREGULARMESSAGETYPE_FILE_OFFER then
    let! m := OnReceiveFileOffer s m in
    let! s := StartReadingFrames P s in Ok (true, s, m)
  else if t =? BVSESSIONREGULARMESSAGETYPE_FILE_ACCEPT then
    let! m := SignalFileTransfer e (fh_correlationKey fileHeader) true m in
    let! s := StartReadingFrames P s in Ok (true, s, m)
  else if t =? BVSESSIONREGULARMESSAGETYPE_FILE_REJECT then
    let! m := SignalFileTransfer e (fh_correlationKey fileHeader) false m in
    let! s := StartReadingFrames P s in Ok (true, s, m)
  else Ok (false, s, m).

(** ** Completion of reads *)

(** The three handshake frames, tested one after the other. *)
Definition handle_unprepared (header : BVTCPMessageHeader) (s : BVTCPSession) (m : M)
    : result (BVTCPSession * M) :=
  let t := mh_msgType header in
  let! s := if t =? BVSESSIONCONTROLMESSAGETYPE_HELLO then OnReceiveHelloFrame s else Ok s in
  let! '(s, m) := if t =? BVSESSIONCONTROLMESSAGETYPE_HELLOBACK
                  then OnReceiveHelloBackFrame s m else Ok (s, m) in
  let! s := if t =? BVSESSIONCONTROLMESSAGETYPE_CONFIRM_ESTABLISHED
            then OnReceiveConfirmEstablished s else Ok s in
  Ok (s, m).

Definition ReadMessageFrameCallback (ec : bool) (bytes_transferred : nat)
    (s : BVTCPSession) (m : M) : result (BVTCPSession * M) :=
  if ec then Ok (s, m)
  else
    let s := set_read s (totalBytesRead s + bytes_transferred)%nat in
    if (totalBytesRead s =? MESSAGE_FRAME_SIZE_BYTES)%nat then
      let s := set_read s 0 in
      let! buf := the_readBuf s in
      let! header := GetMsgHeader buf in
      let! '(early, s, m) :=
        if decide (s_state s = BVSESSIONSTATE_UNPREPARED)
        then let! '(s, m) := handle_unprepared header s m in Ok (false, s, m)
        else OnReceiveStandardFrame s m in
      if (early : bool) then Ok (s, m)
      else if decide (s_state s <> BVSESSIONSTATE_CLOSED)
           then let! s := ClearReadBuffer s in Ok (s, m)
           else Ok (s, m)
    else
      let! s := async_read P s FrameBuffer (totalBytesRead s)
                  (MESSAGE_FRAME_SIZE_BYTES - totalBytesRead s) in
      Ok (s, m).

Definition ReadFileChunkCallback (ec : bool) (bytes_transferred : nat)
    (s : BVTCPSession) (m : M) : result (BVTCPSession * M) :=
  if ec then Ok (s, m)
  else
    let s := set_read s (totalBytesRead s + bytes_transferred)%nat in
    let! header := GetFileHeader (fileReadBuf s) in
    let t := fh_msgType header in
    if t =? BVSESSIONREGULARMESSAGETYPE_FILE_TRANSFER_END then
      let! m := OnReceiveFileTransferEnd s m in
      let s := ClearFileBuffer s in
      let! s := ClearReadBuffer s in
      let s := set_readBuf s (Some (zeros MESSAGE_FRAME_SIZE_BYTES)) in
      let s := set_read s 0 in
      let! s := StartReadingFrames P s in
      Ok (s, m)
    else
      let! m := if t =? BVSESSIONREGULARMESSAGETYPE_FILE_TRANSFER_CHUNK_SENT
                then OnReceiveFileChunkSent s m else Ok m in
      let s := set_read s 0 in
      let! buf := memcpy_to (fileReadBuf s) 0
                    (zeros (Z.to_nat (s_csize s) + FILE_HEADER_SIZE_BYTES)) in
      let s := set_fileReadBuf s buf in
      let! s := StartReadingChunks P s (s_csize s + Z.of_nat FILE_HEADER_SIZE_BYTES) in
      Ok (s, m).

(** Bytes arrive from the peer. *)
Definition receive (s : BVTCPSession) (bytes : list ascii) : BVTCPSession :=
  set_sock s (with_reads (sock s) (rx (sock s) ++ bytes) (reads (sock s))).

(** The oldest read completes if all its bytes are there. *)
Definition complete_read (s : BVTCPSession) (m : M) : result (option (BVTCPSession * M)) :=
  let k := sock s in
  match reads k with
  | [] => Ok None
  | op :: ops =>
      let missing := (ro_len op - ro_done op)%nat in
      if (length (rx k) <? missing)%nat then Ok None
      else
        let! s := fill s (ro_target op) (ro_off op + ro_done op) (take missing (rx k)) in
        let s := set_sock s (with_reads (sock s) (drop missing (rx k)) ops) in
        let! sm := match ro_target op with
                   | FrameBuffer => ReadMessageFrameCallback false (ro_len op) s m
                   | FileBuffer => ReadFileChunkCallback false (ro_len op) s m
                   end in
        Ok (Some sm)
  end.

(** The read fails: the callback logs and returns. *)
Definition fail_read (s : BVTCPSession) (m : M) : result (BVTCPSession * M) :=
  match reads (sock s) with
  | [] => Ok (s, m)
  | op :: ops =>
      let s := set_sock s (with_reads (sock s) (rx (sock s)) ops) in
      match ro_target op with
      | FrameBuffer => ReadMessageFrameCallback true 0 s m
      | FileBuffer => ReadFileChunkCallback true 0 s m
      end
  end.

(** Complete reads until none can. *)
Fixpoint pump (fuel : nat) (s : BVTCPSession) (m : M) : result (loop_end * BVTCPSession * M) :=
  match fuel with
  | O => Ok (OutOfFuel, s, m)
  | S fuel =>
      let! o := complete_read s m in
      match o with
      | None => Ok (Blocked, s, m)
      | Some (s, m) => pump fuel s m
      end
  end.

End Handlers.

(** ** Specification vocabulary *)

(** One frame read is pending on an empty frame buffer: the session hears. *)
Record listening (s : BVTCPSession) : Prop := {
  li_buf : exists buf, readBuf s = Some buf /\ length buf = MESSAGE_FRAME_SIZE_BYTES;
  li_total : totalBytesRead s = 0%nat;
  li_reads : reads (sock s) = [ReadOp FrameBuffer 0 MESSAGE_FRAME_SIZE_BYTES 0]
}.

(** No read is pending: nothing the peer sends is ever looked at again. *)
Definition deaf (s : BVTCPSession) : Prop := reads (sock s) = [].

(** The session after a frame has been handled and reading is armed again,
    [rest] being the bytes still unread. *)
Definition rearmed (s : BVTCPSession) (rest : list ascii) : BVTCPSession :=
  set_sock (set_read (set_readBuf s (Some (zeros MESSAGE_FRAME_SIZE_BYTES))) 0)
    (with_reads (sock s) rest [ReadOp FrameBuffer 0 MESSAGE_FRAME_SIZE_BYTES 0]).

(** A message frame is also looked at as a file frame: its third payload
    character then stands for the file message type. *)
Definition file_type_of (m : BVTCPMessage) : Z :=
  default 0 (uchar <$> msg_payload m !! 2%nat).

Definition is_file_type (t : Z) : bool :=
  ((t =? BVSESSIONREGULARMESSAGETYPE_FILE_TRANSFER_BEGIN) ||
   (t =? BVSESSIONREGULARMESSAGETYPE_FILE_OFFER) ||
   (t =? BVSESSIONREGULARMESSAGETYPE_FILE_ACCEPT) ||
   (t =? BVSESSIONREGULARMESSAGETYPE_FILE_REJECT))%bool.

(** Chat frames that no one mistakes for a file frame. *)
Record chat_ok (m : BVTCPMessage) : Prop := {
  co_header : header_ok (msg_header m);
  co_payload : length (msg_payload m) = PAYLOAD_SIZE_BYTES;
  co_type : mh_msgType (msg_header m) = BVSESSIONREGULARMESSAGETYPE_CHATMESSAGE;
  co_len : mh_dataLen (msg_header m) <= 128;
  co_plain : is_file_type (file_type_of m) = false
}.

(** What the application is told about a chat frame. *)
Definition chat_event (sender : string) (m : BVTCPMessage) : BVMessage :=
  MkBVMessage BVEVENTTYPE_APP_MESSAGE_INCOMING
    (Some (any_ChatMessage
      {| cm_textData := str (take (Z.to_nat (mh_dataLen (msg_header m))) (msg_payload m));
         cm_sender := sender; cm_timestamp := mh_timestamp (msg_header m) |})).

(** ** Lemmas *)

Lemma memcpy_to_all (buf src : list ascii) :
  length src = length buf -> memcpy_to buf 0 src = Ok src.
Proof.
  intros Hl. rewrite memcpy_to_ok by lia. simpl. rewrite drop_ge by lia. by rewrite app_nil_r.
Qed.

Lemma memcpy_to_nil (buf : list ascii) off : (off <= length buf)%nat -> memcpy_to buf off [] = Ok buf.
Proof.
  intros Hl. rewrite memcpy_to_ok by (simpl; lia). cbn [length app]. by rewrite Nat.add_0_r, take_drop.
Qed.

Lemma ClearReadBuffer_ok s buf :
  readBuf s = Some buf -> length buf = MESSAGE_FRAME_SIZE_BYTES ->
  ClearReadBuffer s = Ok (set_read (set_readBuf s (Some (zeros MESSAGE_FRAME_SIZE_BYTES))) 0).
Proof.
  intros Hb Hl. unfold ClearReadBuffer, the_readBuf. rewrite Hb. cbn [from_option_err mbind result_bind].
  by rewrite memcpy_to_all by by rewrite length_zeros, Hl.
Qed.

(** The byte where a file frame has its type, in a message frame and what
    follows it. *)
Lemma GetFileHeader_message_then m rest :
  length (msg_payload m) = PAYLOAD_SIZE_BYTES ->
  exists h, GetFileHeader (message_bytes m ++ rest) = Ok h /\ fh_msgType h = file_type_of m.
Proof.
  intros Hp. unfold GetFileHeader, byte_at.
  rewrite !load_ok by (rewrite length_app, length_message_bytes, Hp; unfold PAYLOAD_SIZE_BYTES; lia).
  cbn [mbind result_bind]. eexists. split; [done|]. cbn [fh_msgType]. unfold file_type_of.
  destruct m as [mh [|a [|b [|c p]]]]; [done..|].
  change (take 1 (drop 12 (message_bytes {| msg_header := mh; msg_payload := a :: b :: c :: p |} ++ rest))) with [c].
  cbn. lia.
Qed.

Lemma GetFileHeader_message m :
  length (msg_payload m) = PAYLOAD_SIZE_BYTES -> header_ok (msg_header m) ->
  exists h, GetFileHeader (message_bytes m) = Ok h /\ fh_msgType h = file_type_of m.
Proof. intros Hp _. rewrite <- (app_nil_r (message_bytes m)). by apply GetFileHeader_message_then. Qed.

Lemma read_payload_message m :
  length (msg_payload m) = PAYLOAD_SIZE_BYTES ->
  read_payload (message_bytes m) 128 = Ok (msg_payload m).
Proof.
  intros Hp. unfold read_payload, message_bytes. rewrite !(assoc_L (++)).
  rewrite <- (app_nil_r (msg_payload m)) at 1. apply load_at; [|done].
  by rewrite !length_app, !length_le_bytes.
Qed.

Lemma GetMsgHeader_message m :
  header_ok (msg_header m) -> GetMsgHeader (message_bytes m) = Ok (msg_header m).
Proof. intros Hh. rewrite <- (app_nil_r (message_bytes m)). by apply GetMsgHeader_bytes. Qed.

(** Completing the pending frame read of a listening session. *)
Lemma complete_read_frame {M} `{SessionManager M} P e s m frame rest :
  listening s -> length frame = MESSAGE_FRAME_SIZE_BYTES -> rx (sock s) = frame ++ rest ->
  complete_read P e s m =
    (let! sm := ReadMessageFrameCallback P e false MESSAGE_FRAME_SIZE_BYTES
       (set_sock (set_readBuf s (Some frame)) (with_reads (sock s) rest [])) m in Ok (Some sm)).
Proof.
  intros [(buf & Hb & Hl) Ht Hr] Hf Hrx. unfold complete_read. rewrite Hr.
  cbn [ro_len ro_done ro_target ro_off]. rewrite Hrx.
  change (MESSAGE_FRAME_SIZE_BYTES - 0)%nat with MESSAGE_FRAME_SIZE_BYTES.
  rewrite take_app_length', drop_app_length' by done.
  destruct (length (frame ++ rest) <? MESSAGE_FRAME_SIZE_BYTES)%nat eqn:E.
  { apply Nat.ltb_lt in E. rewrite length_app in E. lia. }
  unfold fill, the_readBuf. rewrite Hb. cbn [from_option_err mbind result_bind].
  change (0 + 0)%nat with 0%nat. by rewrite memcpy_to_all by congruence.
Qed.

(** Projections of updated sessions, and the error monad. *)
Ltac sess := cbn [self s_state s_origin sessionID nodeData inMailbox_set alive writeStore writeSize
  readBuf fileReadBuf s_fsize s_csize totalBytesWritten totalBytesRead thisMachineServiceName sock
  set_state set_origin set_nodeData set_inMailbox set_write set_readBuf set_fileReadBuf set_sizes
  set_written set_read set_sock with_reads with_writes rx tx reads writes
  mbind result_bind from_option_err negb].

(** The session with one more read operation in flight. *)
Definition reading (s : BVTCPSession) (op : read_op) : BVTCPSession :=
  set_sock s (with_reads (sock s) (rx (sock s)) (reads (sock s) ++ [op])).

(** Initiating a read moves no bytes: either the socket only moves them on
    completion, or none are there. *)
Definition calm (P : asio) (s : BVTCPSession) : Prop :=
  eager_read P = false \/ (rx (sock s) = [] /\ reads (sock s) = []).

Lemma fill_nil s t :
  (t = FrameBuffer -> exists buf, readBuf s = Some buf) -> fill s t 0 [] = Ok s.
Proof.
  intros Hb. unfold fill, the_readBuf. destruct t.
  - destruct (Hb eq_refl) as [buf E]. rewrite E. sess. rewrite memcpy_to_ok by (simpl; lia). sess.
    simpl. rewrite drop_0, <- E. by destruct s.
  - rewrite memcpy_to_ok by (simpl; lia). sess. simpl. rewrite drop_0. by destruct s.
Qed.

Lemma async_read_calm P s t len :
  calm P s -> (t = FrameBuffer -> exists buf, readBuf s = Some buf) ->
  async_read P s t 0 len = Ok (reading s (ReadOp t 0 len 0)).
Proof.
  intros [HP|[Hrx Hr]] Hb; unfold async_read, reading; [by rewrite HP|].
  rewrite Hrx, Hr. destruct (eager_read P); [|done]. rewrite bool_decide_true by done. simpl.
  rewrite take_nil, drop_nil, fill_nil by done. done.
Qed.

Lemma StartReadingFrames_calm P s buf :
  calm P s -> readBuf s = Some buf -> totalBytesRead s = 0%nat ->
  StartReadingFrames P s = Ok (reading s (ReadOp FrameBuffer 0 MESSAGE_FRAME_SIZE_BYTES 0)).
Proof.
  intros HP Hb Ht. unfold StartReadingFrames, the_readBuf. rewrite Hb, Ht. sess.
  rewrite async_read_calm by (done || (intros _; by exists buf)). done.
Qed.

Lemma length_message_frame m :
  length (msg_payload m) = PAYLOAD_SIZE_BYTES -> length (message_bytes m) = MESSAGE_FRAME_SIZE_BYTES.
Proof. intros Hp. by rewrite length_message_bytes, Hp. Qed.

(** A complete frame in the buffer of a session: what the callback does. *)
Lemma ReadMessageFrameCallback_frame {M} `{SessionManager M} P e s m frame :
  totalBytesRead s = 0%nat -> readBuf s = Some frame ->
  ReadMessageFrameCallback P e false MESSAGE_FRAME_SIZE_BYTES s m =
    (let! header := GetMsgHeader frame in
     let! '(early, s, m) :=
        if decide (s_state s = BVSESSIONSTATE_UNPREPARED)
        then let! '(s, m) := handle_unprepared P e header (set_read s 0) m in Ok (false, s, m)
        else OnReceiveStandardFrame P e (set_read s 0) m in
      if (early : bool) then Ok (s, m)
      else if decide (s_state s <> BVSESSIONSTATE_CLOSED)
           then let! s := ClearReadBuffer s in Ok (s, m)
           else Ok (s, m)).
Proof.
  intros Ht Hb. unfold ReadMessageFrameCallback, the_readBuf. sess. rewrite Ht, Hb.
  by rewrite Nat.eqb_refl.
Qed.

Lemma GetMsgHeader_zeros :
  GetMsgHeader (zeros MESSAGE_FRAME_SIZE_BYTES) =
    Ok {| mh_dataLen := 0; mh_timestamp := 0; mh_msgType := 0 |}.
Proof. vm_compute. reflexivity. Qed.

Lemma GetFileHeader_zeros :
  GetFileHeader (zeros MESSAGE_FRAME_SIZE_BYTES) =
    Ok {| fh_correlationKey := 0; fh_timestamp := 0; fh_msgType := 0; fh_metadata := 0 |}.
Proof. vm_compute. reflexivity. Qed.

Section SessionLemmas.
Context {M : Type} `{SessionManagerLaws M} (P : asio) (e : env).

Lemma OnReceiveChatMessageFrame_ok s m m' cm :
  chat_ok cm -> readBuf s = Some (message_bytes cm) ->
  PutMessageIntoAppMailbox (chat_event (nd_serviceName (nodeData s)) cm) m = Ok m' ->
  OnReceiveChatMessageFrame P s m = (let! s := StartReadingFrames P s in Ok (s, m')).
Proof.
  intros [Hh Hp Ht Hlen _] Hb Hput. unfold OnReceiveChatMessageFrame, the_readBuf. rewrite Hb. sess.
  rewrite GetMsgHeader_message by done. sess. rewrite Ht, Z.eqb_refl. sess.
  rewrite read_payload_message by done. sess.
  rewrite load_ok by (rewrite Hp; unfold PAYLOAD_SIZE_BYTES; lia). sess. rewrite drop_0.
  fold (chat_event (nd_serviceName (nodeData s)) cm). by rewrite Hput.
Qed.

(** A frame whose third payload character is no file type is not a file frame. *)
Lemma OnReceiveStandardFrame_chat s m m' cm :
  calm P s -> chat_ok cm -> readBuf s = Some (message_bytes cm) ->
  totalBytesRead s = 0%nat ->
  PutMessageIntoAppMailbox (chat_event (nd_serviceName (nodeData s)) cm) m = Ok m' ->
  OnReceiveStandardFrame P e s m =
    Ok (false, reading s (ReadOp FrameBuffer 0 MESSAGE_FRAME_SIZE_BYTES 0), m').
Proof.
  intros HP Hc Hb Htot Hput. pose proof Hc as [Hh Hp Ht Hlen Hpl].
  unfold OnReceiveStandardFrame, the_readBuf. rewrite Hb. sess.
  rewrite GetMsgHeader_message by done. sess. rewrite Ht, Z.eqb_refl.
  rewrite (OnReceiveChatMessageFrame_ok s m m' cm) by done.
  rewrite (StartReadingFrames_calm P s (message_bytes cm)) by done. unfold reading. sess. rewrite Hb. sess.
  destruct (GetFileHeader_message cm Hp Hh) as (fh & -> & Hfh). sess. rewrite Hfh.
  unfold is_file_type in Hpl. rewrite !orb_false_iff in Hpl. by destruct Hpl as [[[-> ->] ->] ->].
Qed.

(** A chat frame on an established session, alone in the socket unless reads
    are only filled on completion. *)
Lemma chat_frame_read s m m' cm rest :
  eager_read P = false \/ rest = [] -> listening s -> s_state s = BVSESSIONSTATE_ESTABLISHED ->
  chat_ok cm -> rx (sock s) = message_bytes cm ++ rest ->
  PutMessageIntoAppMailbox (chat_event (nd_serviceName (nodeData s)) cm) m = Ok m' ->
  complete_read P e s m = Ok (Some (rearmed s rest, m')).
Proof.
  intros HP Hli Hst Hc Hrx Hput. pose proof Hc as [Hh Hp _ _ _].
  rewrite (complete_read_frame P e s m (message_bytes cm) rest) by (done || by apply length_message_frame).
  rewrite (ReadMessageFrameCallback_frame _ _ _ _ (message_bytes cm)) by (sess; done || apply Hli).
  rewrite GetMsgHeader_message by done. sess. rewrite Hst, decide_False by done.
  rewrite (OnReceiveStandardFrame_chat _ m m' cm)
    by (sess; done || apply Hli || (destruct HP as [?| ->]; [by left|by right])).
  unfold reading. sess. rewrite Hst, decide_True by done.
  erewrite ClearReadBuffer_ok; [|sess; done|by apply length_message_frame]. done.
Qed.

Lemma chat_frame_handled s m l cm rest :
  eager_read P = false \/ rest = [] -> listening s -> s_state s = BVSESSIONSTATE_ESTABLISHED ->
  chat_ok cm -> rx (sock s) = message_bytes cm ++ rest -> app_mail m l ->
  exists m', complete_read P e s m = Ok (Some (rearmed s rest, m')) /\
    app_mail m' (l ++ [chat_event (nd_serviceName (nodeData s)) cm]).
Proof.
  intros HP Hli Hst Hc Hrx Hm.
  destruct (Put_app_mail m l (chat_event (nd_serviceName (nodeData s)) cm) Hm) as (m' & Hput & Hm').
  exists m'. split; [by apply (chat_frame_read s m m' cm rest)|done].
Qed.

Lemma listening_rearmed s rest : listening (rearmed s rest).
Proof. split; sess; [|done|done]. by eexists; split; [done|apply length_zeros]. Qed.

Definition frames_of (cms : list BVTCPMessage) : list ascii := concat (map message_bytes cms).

Lemma complete_read_short s m :
  listening s -> (length (rx (sock s)) < MESSAGE_FRAME_SIZE_BYTES)%nat ->
  complete_read P e s m = Ok None.
Proof.
  intros [_ _ Hr] Hlt. unfold complete_read. rewrite Hr. cbn [ro_len ro_done].
  destruct (_ <? _)%nat eqn:E; [done|]. apply Nat.ltb_ge in E.
  change (MESSAGE_FRAME_SIZE_BYTES - 0)%nat with MESSAGE_FRAME_SIZE_BYTES in E. lia.
Qed.

Lemma chat_stream s m l cms rest fuel :
  eager_read P = false -> listening s -> s_state s = BVSESSIONSTATE_ESTABLISHED ->
  Forall chat_ok cms -> rx (sock s) = frames_of cms ++ rest ->
  (length rest < MESSAGE_FRAME_SIZE_BYTES)%nat -> app_mail m l -> (length cms < fuel)%nat ->
  exists s' m', pump P e fuel s m = Ok (Blocked, s', m') /\ listening s' /\
    s_state s' = BVSESSIONSTATE_ESTABLISHED /\ rx (sock s') = rest /\
    app_mail m' (l ++ map (chat_event (nd_serviceName (nodeData s))) cms).
Proof.
  intros HP. revert s m l fuel. induction cms as [|cm cms IH]; intros s m l [|fuel] Hli Hst Hok Hrx Hr Hm Hf;
    try (simpl in Hf; lia).
  - cbn [pump]. rewrite complete_read_short by (rewrite ?Hrx; done).
    exists s, m. simpl. by rewrite app_nil_r.
  - apply Forall_cons in Hok as [Hc Hok]. cbn [frames_of map concat] in Hrx.
    rewrite <- (assoc_L (++)) in Hrx.
    destruct (chat_frame_handled s m l cm _ (or_introl HP) Hli Hst Hc Hrx Hm) as (m1 & Hcr & Hm1).
    cbn [pump]. rewrite Hcr. sess.
    destruct (IH (rearmed s (frames_of cms ++ rest)) m1 _ fuel (listening_rearmed _ _) Hst Hok eq_refl
      Hr Hm1 ltac:(simpl in Hf; lia)) as (s' & m' & Hp & Hli' & Hst' & Hrx' & Hm').
    exists s', m'. do 4 (split; [done|]). simpl. by rewrite <- (assoc_L (++)) in Hm'.
Qed.

(** *** Frames that arrive together, reads filled when initiated *)

Lemma StartReadingFrames_eager s buf frame rest :
  eager_read P = true -> readBuf s = Some buf -> length buf = MESSAGE_FRAME_SIZE_BYTES ->
  totalBytesRead s = 0%nat -> reads (sock s) = [] ->
  rx (sock s) = frame ++ rest -> length frame = MESSAGE_FRAME_SIZE_BYTES ->
  StartReadingFrames P s =
    Ok (set_sock (set_readBuf s (Some frame)) (with_reads (sock s) rest
      [ReadOp FrameBuffer 0 MESSAGE_FRAME_SIZE_BYTES MESSAGE_FRAME_SIZE_BYTES])).
Proof.
  intros HP Hb Hl Ht Hr Hrx Hf. unfold StartReadingFrames, async_read, the_readBuf.
  rewrite Hb, Ht, HP, Hr. sess. rewrite bool_decide_true by done. cbn [andb].
  change (MESSAGE_FRAME_SIZE_BYTES - 0)%nat with MESSAGE_FRAME_SIZE_BYTES.
  rewrite Hrx, take_app_length', drop_app_length' by done.
  unfold fill, the_readBuf. rewrite Hb. sess. rewrite memcpy_to_all by congruence. sess.
  by rewrite Hf.
Qed.

(** An established session that gets a frame no branch recognises. *)
Lemma OnReceiveStandardFrame_other s m frame h fh :
  readBuf s = Some frame -> GetMsgHeader frame = Ok h -> GetFileHeader frame = Ok fh ->
  mh_msgType h <> BVSESSIONREGULARMESSAGETYPE_CHATMESSAGE -> is_file_type (fh_msgType fh) = false ->
  OnReceiveStandardFrame P e s m = Ok (false, s, m).
Proof.
  intros Hb Hh Hfh Ht Hf. unfold OnReceiveStandardFrame, the_readBuf. rewrite Hb. sess. rewrite Hh. sess.
  apply Z.eqb_neq in Ht. rewrite Ht. sess. rewrite Hb. sess. rewrite Hfh. sess.
  unfold is_file_type in Hf. rewrite !orb_false_iff in Hf. by destruct Hf as [[[-> ->] ->] ->].
Qed.

Lemma unrecognised_callback s m frame h fh :
  totalBytesRead s = 0%nat -> s_state s = BVSESSIONSTATE_ESTABLISHED ->
  readBuf s = Some frame -> length frame = MESSAGE_FRAME_SIZE_BYTES ->
  GetMsgHeader frame = Ok h -> GetFileHeader frame = Ok fh ->
  mh_msgType h <> BVSESSIONREGULARMESSAGETYPE_CHATMESSAGE -> is_file_type (fh_msgType fh) = false ->
  ReadMessageFrameCallback P e false MESSAGE_FRAME_SIZE_BYTES s m =
    Ok (set_read (set_readBuf s (Some (zeros MESSAGE_FRAME_SIZE_BYTES))) 0, m).
Proof.
  intros Ht Hst Hb Hl Hh Hfh Hc Hf.
  rewrite (ReadMessageFrameCallback_frame _ _ _ _ frame) by done. rewrite Hh. sess.
  rewrite Hst, decide_False by done.
  rewrite (OnReceiveStandardFrame_other _ m frame h fh) by done. sess.
  rewrite Hst, decide_True by done. by erewrite ClearReadBuffer_ok.
Qed.

Lemma eager_first_frame s m l cm1 cm2 :
  eager_read P = true -> listening s -> s_state s = BVSESSIONSTATE_ESTABLISHED ->
  chat_ok cm1 -> chat_ok cm2 -> rx (sock s) = message_bytes cm1 ++ message_bytes cm2 ->
  app_mail m l ->
  exists s' m', complete_read P e s m = Ok (Some (s', m')) /\
    s_state s' = BVSESSIONSTATE_ESTABLISHED /\ totalBytesRead s' = 0%nat /\
    readBuf s' = Some (zeros MESSAGE_FRAME_SIZE_BYTES) /\ rx (sock s') = [] /\
    reads (sock s') = [ReadOp FrameBuffer 0 MESSAGE_FRAME_SIZE_BYTES MESSAGE_FRAME_SIZE_BYTES] /\
    app_mail m' (l ++ [chat_event (nd_serviceName (nodeData s)) cm1]).
Proof.
  intros HP Hli Hst Hc1 Hc2 Hrx Hm. pose proof Hc1 as [Hh1 Hp1 Ht1 _ _]. pose proof Hc2 as [Hh2 Hp2 _ _ Hpl].
  destruct (Put_app_mail m l (chat_event (nd_serviceName (nodeData s)) cm1) Hm) as (m' & Hput & Hm').
  exists (set_sock (set_read (set_readBuf s (Some (zeros MESSAGE_FRAME_SIZE_BYTES))) 0)
    (with_reads (sock s) [] [ReadOp FrameBuffer 0 MESSAGE_FRAME_SIZE_BYTES MESSAGE_FRAME_SIZE_BYTES])), m'.
  split; [|split; [exact Hst|by repeat split]].
  rewrite (complete_read_frame P e s m (message_bytes cm1) (message_bytes cm2))
    by (done || by apply length_message_frame).
  rewrite (ReadMessageFrameCallback_frame _ _ _ _ (message_bytes cm1)) by (sess; done || apply Hli).
  rewrite GetMsgHeader_message by done. sess. rewrite Hst, decide_False by done.
  unfold OnReceiveStandardFrame, the_readBuf. sess. rewrite GetMsgHeader_message by done. sess.
  rewrite Ht1, Z.eqb_refl. rewrite (OnReceiveChatMessageFrame_ok _ m m' cm1) by done.
  rewrite (StartReadingFrames_eager _ (message_bytes cm1) (message_bytes cm2) [])
    by (sess; rewrite ?app_nil_r; done || by apply length_message_frame || apply Hli).
  sess. destruct (GetFileHeader_message cm2 Hp2 Hh2) as (fh & -> & Hfh). sess.
  rewrite Hfh. unfold is_file_type in Hpl. rewrite !orb_false_iff in Hpl.
  destruct Hpl as [[[-> ->] ->] ->]. sess. rewrite Hst, decide_True by done.
  erewrite ClearReadBuffer_ok; [reflexivity|sess; done|by apply length_message_frame].
Qed.

(** A read that was filled when initiated completes; its frame is dropped. *)
Lemma filled_frame_dropped s m z h fh :
  s_state s = BVSESSIONSTATE_ESTABLISHED -> readBuf s = Some z -> totalBytesRead s = 0%nat ->
  rx (sock s) = [] -> length z = MESSAGE_FRAME_SIZE_BYTES ->
  reads (sock s) = [ReadOp FrameBuffer 0 MESSAGE_FRAME_SIZE_BYTES MESSAGE_FRAME_SIZE_BYTES] ->
  GetMsgHeader z = Ok h -> GetFileHeader z = Ok fh ->
  mh_msgType h <> BVSESSIONREGULARMESSAGETYPE_CHATMESSAGE -> is_file_type (fh_msgType fh) = false ->
  exists s', complete_read P e s m = Ok (Some (s', m)) /\ deaf s' /\ rx (sock s') = [].
Proof.
  intros Hst Hb Ht Hrx Hz Hr Hh Hfh Hc Hf. unfold complete_read. rewrite Hr.
  cbn [ro_len ro_done ro_off ro_target]. rewrite Nat.sub_diag, Hrx. cbn [length Nat.ltb Nat.leb].
  rewrite take_0, drop_0. unfold fill, the_readBuf. rewrite Hb. sess.
  rewrite memcpy_to_nil by (rewrite Hz; done). sess.
  rewrite (unrecognised_callback _ m z h fh) by (sess; done). sess. by eexists.
Qed.

End SessionLemmas.

(** ** File transfers on a session *)

(** The read of one chunk frame is pending. *)
Record receiving (s : BVTCPSession) : Prop := {
  rc_csize : 0 <= s_csize s /\ s_csize s + 21 < 2 ^ 32;
  rc_file : length (fileReadBuf s) = (Z.to_nat (s_csize s) + FILE_HEADER_SIZE_BYTES)%nat;
  rc_buf : exists buf, readBuf s = Some buf /\ length buf = MESSAGE_FRAME_SIZE_BYTES;
  rc_total : totalBytesRead s = 0%nat;
  rc_reads : reads (sock s) =
    [ReadOp FileBuffer 0 (Z.to_nat (s_csize s) + FILE_HEADER_SIZE_BYTES) 0]
}.

Definition file_metadata (csize fsize : Z) : Z := Z.lor (Z.shiftl csize 32) fsize.

Definition file_event (event : BVEventType) (key csize fsize : Z) (data : list ascii) : BVMessage :=
  MkBVMessage event (Some (any_FileData
    {| fd_correlationKey := key; fd_csize := csize; fd_fsize := fsize; fd_fdata := data |})).

(** A file frame no one mistakes for a chat message (see [frame_kinds_disjoint]). *)
Record file_frame_ok (h : BVTCPFileHeader) : Prop := {
  ff_header : file_header_ok h;
  ff_time : fh_timestamp h < 5 * 2 ^ 40
}.

Definition begin_frame (h : BVTCPFileHeader) (text : list ascii) : list ascii :=
  file_header_bytes h ++ padded 117 (text ++ [NUL]).

Definition chunk_frame (h : BVTCPFileHeader) (payload : list ascii) : list ascii :=
  file_header_bytes h ++ payload.

(** The session after [BEGIN], and after each chunk. *)
Definition chunk_mode (s : BVTCPSession) (csize fsize : Z) (rest : list ascii) : BVTCPSession :=
  set_sock (set_read (set_fileReadBuf (set_readBuf (set_sizes s csize fsize)
      (Some (zeros MESSAGE_FRAME_SIZE_BYTES))) (zeros (Z.to_nat csize + FILE_HEADER_SIZE_BYTES))) 0)
    (with_reads (sock s) rest
       [ReadOp FileBuffer 0 (Z.to_nat csize + FILE_HEADER_SIZE_BYTES) 0]).

Definition next_chunk (s : BVTCPSession) (rest : list ascii) : BVTCPSession :=
  set_sock (set_read (set_fileReadBuf s (zeros (Z.to_nat (s_csize s) + FILE_HEADER_SIZE_BYTES))) 0)
    (with_reads (sock s) rest
       [ReadOp FileBuffer 0 (Z.to_nat (s_csize s) + FILE_HEADER_SIZE_BYTES) 0]).

(** What a transfer is made of on the wire: [BEGIN], chunks, [END]. *)
Definition transfer_bytes (hb : BVTCPFileHeader) (text : list ascii)
    (chunks : list (BVTCPFileHeader * list ascii)) (last : BVTCPFileHeader * list ascii)
    : list ascii :=
  begin_frame hb text ++ concat (map (fun c => chunk_frame c.1 c.2) chunks) ++
  chunk_frame last.1 last.2.

Definition chunk_ok (t : Z) (csize : Z) (c : BVTCPFileHeader * list ascii) : Prop :=
  file_header_ok c.1 /\ fh_msgType c.1 = t /\ length c.2 = Z.to_nat csize.

Definition chunk_event (event : BVEventType) (csize fsize : Z)
    (c : BVTCPFileHeader * list ascii) : BVMessage :=
  file_event event (fh_correlationKey c.1) csize fsize c.2.

Lemma metadata_fields csize fsize :
  0 <= csize < 2 ^ 32 -> 0 <= fsize < 2 ^ 32 ->
  let m := file_metadata csize fsize in
  u32 (Z.shiftr (Z.land m 0xFFFFFFFF00000000) 32) = csize /\
  u32 (Z.land m 0x0000000FFFFFFFFF) = fsize /\ 0 <= m < 2 ^ 64.
Proof.
  intros Hc Hf m. assert (Hm : m = csize * 2 ^ 32 + fsize).
  { unfold m, file_metadata. rewrite Z.shiftl_mul_pow2 by lia. symmetry. apply Z.add_nocarry_lor.
    apply Z.bits_inj'. intros n Hn. rewrite Z.land_spec, Z.bits_0.
    destruct (Z.lt_ge_cases n 32) as [Hlt|Hge].
    - rewrite Z.mul_pow2_bits_low by lia. done.
    - rewrite (Z.bits_above_log2 fsize n); [by rewrite andb_false_r|lia|].
      destruct (decide (fsize = 0)) as [->|]; [simpl; lia|].
      apply (Z.lt_le_trans _ 32); [|lia]. apply Z.log2_lt_pow2; lia. }
  split; [|split].
  - change 0xFFFFFFFF00000000 with (Z.shiftl (Z.ones 32) 32).
    rewrite Z.shiftr_land, Z.shiftr_shiftl_l by lia. change (32 - 32) with 0. rewrite Z.shiftl_0_r.
    rewrite Z.land_ones by lia. rewrite Z.shiftr_div_pow2 by lia. rewrite Hm. wrap_lia.
  - change 0x0000000FFFFFFFFF with (Z.ones 36). rewrite Z.land_ones by lia. rewrite Hm. wrap_lia.
  - rewrite Hm. lia.
Qed.

Lemma GetFileHeader_begin h text :
  file_header_ok h -> GetFileHeader (begin_frame h text) = Ok h.
Proof. apply GetFileHeader_bytes. Qed.

Lemma GetFileHeader_chunk h payload :
  file_header_ok h -> GetFileHeader (chunk_frame h payload) = Ok h.
Proof. apply GetFileHeader_bytes. Qed.

Lemma GetFileData_begin h text :
  NUL ∉ text -> (length text <= 116)%nat -> GetFileData (begin_frame h text) = Ok text.
Proof.
  intros Hn Hl. unfold GetFileData, begin_frame.
  rewrite length_app, length_file_header_bytes, length_padded.
  change (21 + 117 <? FILE_HEADER_SIZE_BYTES)%nat with false. cbv iota.
  rewrite drop_app_length' by (by rewrite length_file_header_bytes).
  by rewrite until_nul_padded by (done || lia).
Qed.

Lemma length_begin_frame h text : length (begin_frame h text) = MESSAGE_FRAME_SIZE_BYTES.
Proof. unfold begin_frame. by rewrite length_app, length_file_header_bytes, length_padded. Qed.

Section FileLemmas.
Context {M : Type} `{SessionManagerLaws M} (P : asio) (e : env).

Lemma StartReadingChunks_calm s csize :
  calm P s -> totalBytesRead s = 0%nat -> 0 <= csize -> csize + 21 < 2 ^ 32 ->
  StartReadingChunks P s (csize + Z.of_nat FILE_HEADER_SIZE_BYTES) =
    Ok (reading s (ReadOp FileBuffer 0 (Z.to_nat csize + FILE_HEADER_SIZE_BYTES) 0)).
Proof.
  intros HP Ht Hc0 Hb. unfold StartReadingChunks. rewrite Ht.
  replace (u32 (csize + Z.of_nat FILE_HEADER_SIZE_BYTES)) with (csize + 21)
    by (unfold FILE_HEADER_SIZE_BYTES; wrap_lia).
  rewrite Nat.sub_0_r. replace (Z.to_nat (csize + 21)) with (Z.to_nat csize + FILE_HEADER_SIZE_BYTES)%nat
    by (unfold FILE_HEADER_SIZE_BYTES; lia).
  destruct (_ =? 0)%nat eqn:E; [apply Nat.eqb_eq in E; unfold FILE_HEADER_SIZE_BYTES in E; lia|].
  cbn [Nat.ltb Nat.leb]. by rewrite async_read_calm.
Qed.

(** The [BEGIN] handler. *)
Lemma OnReceiveFileTransferBegin_ok s m m' h text csize fsize :
  calm P s -> file_header_ok h -> NUL ∉ text -> (length text <= 116)%nat ->
  fh_msgType h = BVSESSIONREGULARMESSAGETYPE_FILE_TRANSFER_BEGIN ->
  fh_metadata h = file_metadata csize fsize ->
  0 <= csize -> csize + 21 < 2 ^ 32 -> 0 <= fsize < 2 ^ 32 ->
  readBuf s = Some (begin_frame h text) ->
  PutMessageIntoAppMailbox
    (file_event BVEVENTTYPE_APP_FILE_TRANSFER_BEGIN (fh_correlationKey h) csize fsize text) m = Ok m' ->
  OnReceiveFileTransferBegin P s m =
    Ok (reading (set_read (set_fileReadBuf (set_readBuf (set_sizes s csize fsize)
          (Some (zeros MESSAGE_FRAME_SIZE_BYTES))) (zeros (Z.to_nat csize + FILE_HEADER_SIZE_BYTES))) 0)
        (ReadOp FileBuffer 0 (Z.to_nat csize + FILE_HEADER_SIZE_BYTES) 0), m').
Proof.
  intros HP Hh Hnul Hl Ht Hmd Hc0 Hc Hf Hb Hput.
  unfold OnReceiveFileTransferBegin, the_readBuf. rewrite Hb. sess.
  rewrite GetFileHeader_begin by done. sess.
  rewrite GetFileData_begin by done. sess. rewrite Ht, Z.eqb_refl. sess. rewrite Hmd.
  destruct (metadata_fields csize fsize ltac:(lia) Hf) as (E1 & E2 & _).
  cbv zeta in E1, E2. rewrite E1, E2. fold (file_event BVEVENTTYPE_APP_FILE_TRANSFER_BEGIN
    (fh_correlationKey h) csize fsize text). rewrite Hput. sess.
  erewrite ClearReadBuffer_ok; [|exact Hb|apply length_begin_frame]. sess.
  by rewrite StartReadingChunks_calm.
Qed.

Lemma begin_handled s m l h text csize fsize rest :
  eager_read P = false -> listening s -> s_state s = BVSESSIONSTATE_ESTABLISHED ->
  file_frame_ok h -> NUL ∉ text -> (length text <= 116)%nat ->
  fh_msgType h = BVSESSIONREGULARMESSAGETYPE_FILE_TRANSFER_BEGIN ->
  fh_metadata h = file_metadata csize fsize ->
  0 <= csize -> csize + 21 < 2 ^ 32 -> 0 <= fsize < 2 ^ 32 ->
  rx (sock s) = begin_frame h text ++ rest -> app_mail m l ->
  exists m', complete_read P e s m = Ok (Some (chunk_mode s csize fsize rest, m')) /\
    app_mail m' (l ++ [file_event BVEVENTTYPE_APP_FILE_TRANSFER_BEGIN (fh_correlationKey h)
                         csize fsize text]).
Proof.
  intros HP Hli Hst Hff Hnul Hl Ht Hmd Hc0 Hc Hf Hrx Hm. pose proof Hff as [Hh Hts].
  destruct (Put_app_mail m l (file_event BVEVENTTYPE_APP_FILE_TRANSFER_BEGIN (fh_correlationKey h)
    csize fsize text) Hm) as (m' & Hput & Hm').
  exists m'. split; [|done].
  rewrite (complete_read_frame P e s m (begin_frame h text) rest) by (done || apply length_begin_frame).
  rewrite (ReadMessageFrameCallback_frame _ _ _ _ (begin_frame h text)) by (sess; done || apply Hli).
  destruct (GetMsgHeader_file h (padded 117 (text ++ [NUL]))) as (mh & Hmh & Hnc).
  { destruct Hh. lia. }
  apply Z.eqb_neq in Hnc. fold (begin_frame h text) in Hmh. rewrite Hmh. sess. rewrite Hst, decide_False by done.
  unfold OnReceiveStandardFrame, the_readBuf. sess. rewrite Hmh. sess. rewrite Hnc. sess.
  rewrite GetFileHeader_begin by done. sess. rewrite Ht, Z.eqb_refl.
  by rewrite (OnReceiveFileTransferBegin_ok _ m m' h text csize fsize) by (sess; done || by left).
Qed.

(** Completing the pending chunk read. *)
Lemma complete_read_chunk s m frame rest :
  receiving s -> length frame = (Z.to_nat (s_csize s) + FILE_HEADER_SIZE_BYTES)%nat ->
  rx (sock s) = frame ++ rest ->
  complete_read P e s m =
    (let! sm := ReadFileChunkCallback P false (length frame)
       (set_sock (set_fileReadBuf s frame) (with_reads (sock s) rest [])) m in Ok (Some sm)).
Proof.
  intros [_ Hfl _ Ht Hr] Hf Hrx. unfold complete_read. rewrite Hr.
  cbn [ro_len ro_done ro_target ro_off]. rewrite Hrx, Nat.sub_0_r, <- Hf.
  rewrite take_app_length', drop_app_length' by done.
  destruct (length (frame ++ rest) <? length frame)%nat eqn:E.
  { apply Nat.ltb_lt in E. rewrite length_app in E. lia. }
  unfold fill. change (0 + 0)%nat with 0%nat. rewrite memcpy_to_all by congruence. done.
Qed.

Lemma forward_chunk_ok t event s m m' h payload :
  file_header_ok h -> fh_msgType h = t -> fileReadBuf s = chunk_frame h payload ->
  length payload = Z.to_nat (s_csize s) ->
  PutMessageIntoAppMailbox
    (file_event event (fh_correlationKey h) (s_csize s) (s_fsize s) payload) m = Ok m' ->
  forward_chunk t event s m = Ok m'.
Proof.
  intros Hh Ht Hb Hl Hput. unfold forward_chunk. rewrite Hb.
  rewrite GetFileHeader_chunk by done. sess. unfold GetFileData_sized, chunk_frame.
  rewrite <- (app_nil_r payload), load_at by (done || apply length_file_header_bytes). sess.
  rewrite Ht, Z.eqb_refl. sess. exact Hput.
Qed.

Lemma chunk_handled s m l h payload rest :
  eager_read P = false -> receiving s -> file_header_ok h ->
  fh_msgType h = BVSESSIONREGULARMESSAGETYPE_FILE_TRANSFER_CHUNK_SENT ->
  length payload = Z.to_nat (s_csize s) -> rx (sock s) = chunk_frame h payload ++ rest ->
  app_mail m l ->
  exists m', complete_read P e s m =
      Ok (Some (next_chunk s rest, m')) /\
    app_mail m' (l ++ [file_event BVEVENTTYPE_APP_FILE_TRANSFER_CHUNK_SENT (fh_correlationKey h)
                         (s_csize s) (s_fsize s) payload]).
Proof.
  intros HP Hrc Hh Ht Hl Hrx Hm. pose proof Hrc as [[Hc0 Hc] Hfl _ Htot _].
  destruct (Put_app_mail m l (file_event BVEVENTTYPE_APP_FILE_TRANSFER_CHUNK_SENT
    (fh_correlationKey h) (s_csize s) (s_fsize s) payload) Hm) as (m' & Hput & Hm').
  exists m'. split; [|done].
  assert (Hfr : length (chunk_frame h payload) = (Z.to_nat (s_csize s) + FILE_HEADER_SIZE_BYTES)%nat)
    by (unfold chunk_frame; rewrite length_app, length_file_header_bytes, Hl; unfold FILE_HEADER_SIZE_BYTES; lia).
  rewrite (complete_read_chunk s m (chunk_frame h payload) rest) by done.
  unfold ReadFileChunkCallback. sess. rewrite GetFileHeader_chunk by done. sess.
  rewrite Ht. cbn [Z.eqb Pos.eqb BVSESSIONREGULARMESSAGETYPE_FILE_TRANSFER_END
    BVSESSIONREGULARMESSAGETYPE_FILE_TRANSFER_CHUNK_SENT].
  unfold OnReceiveFileChunkSent. rewrite (forward_chunk_ok _ _ _ m m' h payload) by (sess; done). sess.
  rewrite memcpy_to_all by by rewrite length_zeros, Hfr. sess.
  by rewrite StartReadingChunks_calm by (sess; done || by left).
Qed.

Lemma end_handled s m l h payload rest :
  eager_read P = false -> receiving s -> file_header_ok h ->
  fh_msgType h = BVSESSIONREGULARMESSAGETYPE_FILE_TRANSFER_END ->
  length payload = Z.to_nat (s_csize s) -> rx (sock s) = chunk_frame h payload ++ rest ->
  app_mail m l ->
  exists m', complete_read P e s m = Ok (Some (rearmed (ClearFileBuffer s) rest, m')) /\
    app_mail m' (l ++ [file_event BVEVENTTYPE_APP_FILE_TRANSFER_END (fh_correlationKey h)
                         (s_csize s) (s_fsize s) payload]).
Proof.
  intros HP Hrc Hh Ht Hl Hrx Hm. pose proof Hrc as [[Hc0 Hc] Hfl (buf & Hb & Hbl) Htot _].
  destruct (Put_app_mail m l (file_event BVEVENTTYPE_APP_FILE_TRANSFER_END
    (fh_correlationKey h) (s_csize s) (s_fsize s) payload) Hm) as (m' & Hput & Hm').
  exists m'. split; [|done].
  assert (Hfr : length (chunk_frame h payload) = (Z.to_nat (s_csize s) + FILE_HEADER_SIZE_BYTES)%nat)
    by (unfold chunk_frame; rewrite length_app, length_file_header_bytes, Hl; unfold FILE_HEADER_SIZE_BYTES; lia).
  rewrite (complete_read_chunk s m (chunk_frame h payload) rest) by done.
  unfold ReadFileChunkCallback. sess. rewrite GetFileHeader_chunk by done. sess.
  rewrite Ht, Z.eqb_refl. unfold OnReceiveFileTransferEnd.
  rewrite (forward_chunk_ok _ _ _ m m' h payload) by (sess; done). sess. unfold ClearFileBuffer.
  erewrite ClearReadBuffer_ok; [|sess; exact Hb|done]. sess.
  by rewrite (StartReadingFrames_calm P _ (zeros MESSAGE_FRAME_SIZE_BYTES)) by (sess; done || by left).
Qed.

End FileLemmas.

(** ** Writing a message frame *)

(** Nothing is being written and the write buffer is as [ClearWriteBuffer]
    leaves it. *)
Record writable (s : BVTCPSession) : Prop := {
  wr_store : length (writeStore s) = MESSAGE_FRAME_SIZE_BYTES;
  wr_size : writeSize s = MESSAGE_FRAME_SIZE_BYTES;
  wr_none : writes (sock s) = []
}.

(** The session with the frame [f] handed to the socket. *)
Definition writing (P : asio) (s : BVTCPSession) (f : list ascii) : BVTCPSession :=
  set_sock (set_write (set_written s 0) f MESSAGE_FRAME_SIZE_BYTES)
    (with_writes (sock s) (tx (sock s) ++ if eager_write P then f else [])
       [WriteOp MessageFrame MESSAGE_FRAME_SIZE_BYTES (eager_write P)]).

Lemma take_frame (f : list ascii) :
  length f = MESSAGE_FRAME_SIZE_BYTES -> take MESSAGE_FRAME_SIZE_BYTES f = f.
Proof. intros Hf. apply take_ge. lia. Qed.

Lemma WriteMessageFrame_ok P s msg :
  writable s -> length (msg_payload msg) = PAYLOAD_SIZE_BYTES ->
  WriteMessageFrame P s msg = Ok (writing P s (message_bytes msg)).
Proof.
  intros [Hst Hsz Hw] Hp. unfold WriteMessageFrame, writing. sess.
  rewrite encode_message_bytes by done. sess. rewrite Hsz. cbn [Nat.eqb MESSAGE_FRAME_SIZE_BYTES].
  unfold async_write. sess. rewrite Hw, bool_decide_true, andb_true_r by done.
  destruct (eager_write P); [|by rewrite app_nil_r].
  by rewrite (take_frame _ (length_message_frame _ Hp)).
Qed.

(** When the write completes: a deferred one sends what the buffer holds. *)
Lemma complete_writing P s sent :
  writes (sock s) = [WriteOp MessageFrame MESSAGE_FRAME_SIZE_BYTES sent] ->
  totalBytesWritten s = 0%nat -> s_state s <> BVSESSIONSTATE_CLOSED ->
  complete_write P s =
    ClearWriteBuffer (set_sock s (with_writes (sock s)
      (tx (sock s) ++ if sent then [] else take MESSAGE_FRAME_SIZE_BYTES (writeStore s)) [])).
Proof.
  intros Hw Ht Hs. unfold complete_write. rewrite Hw. cbn [wo_sent wo_kind wo_len].
  unfold WriteMessageFrameCallback. sess. rewrite Ht. cbn [Nat.add].
  rewrite Nat.eqb_refl, !orb_true_r, decide_True by done. reflexivity.
Qed.

Lemma receive_listening s bytes : listening s -> listening (receive s bytes).
Proof. intros []. by split. Qed.

Lemma written_bytes P s f :
  s_state s <> BVSESSIONSTATE_CLOSED -> length f = MESSAGE_FRAME_SIZE_BYTES ->
  tx (sock (complete_write P (writing P s f))) = tx (sock s) ++ f.
Proof.
  intros Hst Hf. rewrite (complete_writing P _ (eager_write P)) by done. unfold ClearWriteBuffer, writing. sess.
  rewrite <- (assoc_L (++)), take_frame by done. by destruct (eager_write P); rewrite ?app_nil_r.
Qed.

(** Two deferred writes of the same buffer. *)
Definition overlapped (s : BVTCPSession) (f : list ascii) : BVTCPSession :=
  set_sock (set_write (set_written s 0) f MESSAGE_FRAME_SIZE_BYTES)
    (with_writes (sock s) (tx (sock s))
       [WriteOp MessageFrame MESSAGE_FRAME_SIZE_BYTES false; WriteOp MessageFrame MESSAGE_FRAME_SIZE_BYTES false]).

Lemma WriteMessageFrame_overlaps P s f msg :
  eager_write P = false -> length f = MESSAGE_FRAME_SIZE_BYTES -> length (msg_payload msg) = PAYLOAD_SIZE_BYTES ->
  WriteMessageFrame P (writing P s f) msg = Ok (overlapped s (message_bytes msg)).
Proof.
  intros HW Hf Hp. unfold WriteMessageFrame, writing. sess. rewrite encode_message_bytes by done. sess.
  cbn [Nat.eqb MESSAGE_FRAME_SIZE_BYTES]. unfold async_write. sess. by rewrite HW, app_nil_r.
Qed.

Lemma overlapped_completes P s f :
  s_state s <> BVSESSIONSTATE_CLOSED -> length f = MESSAGE_FRAME_SIZE_BYTES ->
  tx (sock (complete_write P (overlapped s f))) = tx (sock s) ++ f /\
  tx (sock (complete_write P (complete_write P (overlapped s f)))) =
    tx (sock s) ++ f ++ zeros MESSAGE_FRAME_SIZE_BYTES.
Proof.
  intros Hst Hf. pose proof (take_frame f Hf) as Ht.
  assert (H1 : complete_write P (overlapped s f) = ClearWriteBuffer (set_sock (overlapped s f)
    (with_writes (sock s) (tx (sock s) ++ f) [WriteOp MessageFrame MESSAGE_FRAME_SIZE_BYTES false]))).
  { unfold complete_write, overlapped. sess. cbn [wo_sent wo_kind wo_len]. rewrite Ht.
    unfold WriteMessageFrameCallback. sess. cbn [Nat.add]. by rewrite Nat.eqb_refl, decide_True by done. }
  rewrite H1. split; [done|]. rewrite (complete_writing P _ false) by done.
  unfold ClearWriteBuffer, overlapped. sess. by rewrite <- (assoc_L (++)).
Qed.

(** The [HELLOBACK] reply, with the service name over what the stack held. *)
Definition HELLOBACK_message (e : env) (name : string) : BVTCPMessage :=
  {| msg_header := {| mh_dataLen := u8 (Z.of_nat (String.length name)); mh_timestamp := u64 (now e);
                      mh_msgType := BVSESSIONCONTROLMESSAGETYPE_HELLOBACK |};
     msg_payload := chars name ++ drop (String.length name) (stack128 e) |}.

Definition control_message (e : env) (msgType : Z) : BVTCPMessage :=
  ConstructMessage (ConstructMessageHeader (now e) 0 msgType) (zeros PAYLOAD_SIZE_BYTES).

Record env_ok (e : env) : Prop := {
  eo_stack : length (stack128 e) = 128%nat;
  eo_now : 0 <= now e < 5 * 2 ^ 40;
  eo_endpoint : no_endpoint e = false
}.

Lemma control_message_ok e msgType :
  0 <= msgType < 256 -> header_ok (msg_header (control_message e msgType)) /\
  length (msg_payload (control_message e msgType)) = PAYLOAD_SIZE_BYTES.
Proof. intros Ht. split; [split; cbn; [wrap_lia|wrap_lia|done]|]. apply length_zeros. Qed.

Lemma HELLOBACK_ok e name :
  env_ok e -> (String.length name <= 128)%nat ->
  header_ok (msg_header (HELLOBACK_message e name)) /\
  length (msg_payload (HELLOBACK_message e name)) = PAYLOAD_SIZE_BYTES.
Proof.
  intros [Hs _ _] Hn. split; [split; cbn; [wrap_lia|wrap_lia|done]|].
  cbn [HELLOBACK_message msg_payload]. rewrite length_app, length_chars, length_drop, Hs.
  unfold PAYLOAD_SIZE_BYTES. lia.
Qed.

Lemma hello_struct_control e t :
  hello_struct_msgType (message_bytes (control_message e t)) = Ok 0.
Proof.
  unfold hello_struct_msgType, byte_at, message_bytes.
  rewrite load_ok by (rewrite !length_app, !length_le_bytes; cbn; lia). done.
Qed.

Definition zap_first (f : list ascii) : list ascii :=
  match f with [] => [] | _ :: l => NUL :: l end.

Lemma length_zap_first (f : list ascii) : length (zap_first f) = length f.
Proof. by destruct f. Qed.

Section HelloLemmas.
Context {M : Type} `{SessionManager M} (P : asio) (e : env).

Lemma OnReceiveHelloFrame_ok s :
  calm P s -> writable s -> env_ok e -> (String.length (thisMachineServiceName s) <= 128)%nat ->
  readBuf s = Some (message_bytes (control_message e BVSESSIONCONTROLMESSAGETYPE_HELLO)) ->
  totalBytesRead s = 0%nat ->
  let f := message_bytes (HELLOBACK_message e (thisMachineServiceName s)) in
  OnReceiveHelloFrame P e s =
    Ok (reading (set_write (writing P s f) (zap_first f) 0)
          (ReadOp FrameBuffer 0 MESSAGE_FRAME_SIZE_BYTES 0)).
Proof.
  intros HP Hw He Hn Hb Ht f. unfold OnReceiveHelloFrame, the_readBuf. rewrite Hb. sess.
  rewrite hello_struct_control. sess. cbn [Z.eqb BVSESSIONCONTROLMESSAGETYPE_HELLO negb].
  rewrite memcpy_to_ok by (rewrite length_chars, (eo_stack _ He); lia). sess.
  rewrite take_0. cbn [app Nat.add]. rewrite length_chars.
  cbn [ConstructMessage HELLO_header ConstructMessageHeader msg_header msg_payload mh_timestamp mh_msgType].
  fold (HELLOBACK_message e (thisMachineServiceName s)).
  rewrite WriteMessageFrame_ok by (done || by apply HELLOBACK_ok). sess. fold f.
  by rewrite (StartReadingFrames_calm P _
    (message_bytes (control_message e BVSESSIONCONTROLMESSAGETYPE_HELLO))) by done.
Qed.

End HelloLemmas.

(** ** Properties *)

Section SessionProperties.
Context {M : Type} `{SessionManagerLaws M} (P : asio) (e : env).

(** C10.  Chat messages that arrive on an established session, in whatever
    split and however many together, reach the application's mailbox complete
    and in order, each with its sender and timestamp, and the session keeps
    listening; a trailing incomplete frame stays buffered.  Stated for a socket
    that fills a read buffer on completion. *)
Theorem chat_stream_delivered s m l cms rest fuel :
  eager_read P = false -> listening s -> s_state s = BVSESSIONSTATE_ESTABLISHED ->
  Forall chat_ok cms -> rx (sock s) = frames_of cms ++ rest ->
  (length rest < MESSAGE_FRAME_SIZE_BYTES)%nat -> app_mail m l -> (length cms < fuel)%nat ->
  exists s' m', pump P e fuel s m = Ok (Blocked, s', m') /\ listening s' /\
    s_state s' = BVSESSIONSTATE_ESTABLISHED /\ rx (sock s') = rest /\
    app_mail m' (l ++ map (chat_event (nd_serviceName (nodeData s))) cms).
Proof. apply chat_stream. Qed.

(** C36.  The chat handler arms the next read and only then clears the buffer
    it reads into: on a socket that may fill the buffer when the read is
    initiated, two chat messages arriving together lose the second one and
    leave the session deaf. *)
Theorem eager_read_loses_second_message s m l cm1 cm2 fuel :
  eager_read P = true -> listening s -> s_state s = BVSESSIONSTATE_ESTABLISHED ->
  chat_ok cm1 -> chat_ok cm2 -> rx (sock s) = message_bytes cm1 ++ message_bytes cm2 ->
  app_mail m l -> (2 < fuel)%nat ->
  exists s' m', pump P e fuel s m = Ok (Blocked, s', m') /\ deaf s' /\ rx (sock s') = [] /\
    app_mail m' (l ++ [chat_event (nd_serviceName (nodeData s)) cm1]).
Proof.
  intros HP Hli Hst Hc1 Hc2 Hrx Hm Hf. destruct fuel as [|[|[|fuel]]]; try lia.
  destruct (eager_first_frame P e s m l cm1 cm2 HP Hli Hst Hc1 Hc2 Hrx Hm)
    as (s1 & m' & Hcr & Hst1 & Ht1 & Hb1 & Hrx1 & Hr1 & Hm').
  destruct (filled_frame_dropped P e s1 m' _ _ _ Hst1 Hb1 Ht1 Hrx1 (length_zeros _) Hr1
    GetMsgHeader_zeros GetFileHeader_zeros ltac:(done) eq_refl) as (s2 & Hcr2 & Hd & Hrx2).
  cbn [pump]. rewrite Hcr. sess. rewrite Hcr2. sess.
  unfold complete_read. rewrite Hd. sess. by exists s2, m'.
Qed.

(** A 138-byte frame that is neither a chat message nor one of the four
    file control frames makes an established session deaf: it is dropped and
    no read is armed again, under either socket behaviour. *)
Theorem unrecognised_frame_deafens s m frame rest h fh :
  listening s -> s_state s = BVSESSIONSTATE_ESTABLISHED ->
  length frame = MESSAGE_FRAME_SIZE_BYTES -> rx (sock s) = frame ++ rest ->
  GetMsgHeader frame = Ok h -> GetFileHeader frame = Ok fh ->
  mh_msgType h <> BVSESSIONREGULARMESSAGETYPE_CHATMESSAGE -> is_file_type (fh_msgType fh) = false ->
  exists s', complete_read P e s m = Ok (Some (s', m)) /\ deaf s' /\
    s_state s' = BVSESSIONSTATE_ESTABLISHED /\ rx (sock s') = rest /\
    complete_read P e s' m = Ok None.
Proof.
  intros Hli Hst Hl Hrx Hh Hfh Hc Hf.
  rewrite (complete_read_frame P e s m frame rest) by done.
  rewrite (unrecognised_callback P e _ m frame h fh) by (sess; done || apply Hli). sess.
  by eexists.
Qed.

Lemma zero_frame_deafens s m l cm fuel :
  eager_read P = false -> listening s -> s_state s = BVSESSIONSTATE_ESTABLISHED -> chat_ok cm ->
  rx (sock s) = message_bytes cm ++ zeros MESSAGE_FRAME_SIZE_BYTES -> app_mail m l -> (2 < fuel)%nat ->
  exists s' m', pump P e fuel s m = Ok (Blocked, s', m') /\ deaf s' /\
    app_mail m' (l ++ [chat_event (nd_serviceName (nodeData s)) cm]).
Proof.
  intros HP Hli Hst Hcm Hrx Hm Hf.
  destruct (chat_frame_handled P e s m l cm (zeros MESSAGE_FRAME_SIZE_BYTES)) as (m' & Hr & Hm'); [by left|done..|].
  assert (Hz : exists z, z = zeros MESSAGE_FRAME_SIZE_BYTES /\ length z = MESSAGE_FRAME_SIZE_BYTES)
    by (eexists; split; [done|apply length_zeros]).
  pose proof GetMsgHeader_zeros as Hh. pose proof GetFileHeader_zeros as Hfh.
  destruct Hz as (z & Hz & Hlz). rewrite <- Hz in *. clear Hz.
  destruct (unrecognised_frame_deafens (rearmed s z) m' z [] _ _ (listening_rearmed _ _) Hst
    Hlz (eq_sym (app_nil_r _)) Hh Hfh ltac:(done) eq_refl) as (s3 & Hr3 & Hd & _ & _ & Hb).
  exists s3, m'. split; [|done]. destruct fuel as [|[|[|fuel]]]; [lia..|]. cbn [pump]. rewrite Hr. cbn [mbind result_bind].
  rewrite Hr3. cbn [mbind result_bind]. by rewrite Hb.
Qed.

(** C37.  A second line while the first is still being written: they share the
    buffer, so the second line leaves in the first one's place, and after the
    first write's callback has cleared the buffer, a frame of zeros leaves in
    the second one's; from these bytes the receiver gets the second line alone
    and is deaf from then on. *)
Theorem overlapping_lines_lost s s2 cm1 cm2 m l fuel :
  eager_write P = false -> writable s -> s_state s <> BVSESSIONSTATE_CLOSED ->
  length (msg_payload cm1) = PAYLOAD_SIZE_BYTES -> chat_ok cm2 ->
  let bytes := message_bytes cm2 ++ zeros MESSAGE_FRAME_SIZE_BYTES in
  eager_read P = false -> listening s2 -> s_state s2 = BVSESSIONSTATE_ESTABLISHED -> rx (sock s2) = bytes ->
  app_mail m l -> (2 < fuel)%nat ->
  exists s1 s1', WriteMessageFrame P s cm1 = Ok s1 /\ WriteMessageFrame P s1 cm2 = Ok s1' /\
    tx (sock (complete_write P s1')) = tx (sock s) ++ message_bytes cm2 /\
    tx (sock (complete_write P (complete_write P s1'))) = tx (sock s) ++ bytes /\
    exists s2' m', pump P e fuel s2 m = Ok (Blocked, s2', m') /\ deaf s2' /\
      app_mail m' (l ++ [chat_event (nd_serviceName (nodeData s2)) cm2]).
Proof.
  intros HW Hw Hst Hp1 Hcm bytes HP Hli Hst2 Hrx Hm Hf.
  pose proof (length_message_frame _ (co_payload _ Hcm)) as Hlen.
  exists (writing P s (message_bytes cm1)), (overlapped s (message_bytes cm2)).
  split; [by apply WriteMessageFrame_ok|].
  split; [apply WriteMessageFrame_overlaps; [done|by apply length_message_frame|apply Hcm]|].
  destruct (overlapped_completes P s (message_bytes cm2) Hst Hlen) as [-> ->]. split; [done|]. split; [done|].
  by apply zero_frame_deafens.
Qed.

Lemma receiving_next s rest : receiving s -> receiving (next_chunk s rest).
Proof. intros []. split; sess; [done|apply length_zeros|done|done|done]. Qed.

Lemma receiving_chunk_mode s csize fsize rest :
  0 <= csize -> csize + 21 < 2 ^ 32 -> receiving (chunk_mode s csize fsize rest).
Proof.
  intros Hc0 Hc. split; sess; [by split|apply length_zeros| |done|done]. by eexists; split; [done|apply length_zeros].
Qed.

(** A packet of no known type is dropped. *)
Lemma unknown_packet_dropped s m packet rest h :
  eager_read P = false -> receiving s -> length packet = (Z.to_nat (s_csize s) + FILE_HEADER_SIZE_BYTES)%nat ->
  rx (sock s) = packet ++ rest -> GetFileHeader packet = Ok h ->
  fh_msgType h <> BVSESSIONREGULARMESSAGETYPE_FILE_TRANSFER_CHUNK_SENT ->
  fh_msgType h <> BVSESSIONREGULARMESSAGETYPE_FILE_TRANSFER_END ->
  complete_read P e s m = Ok (Some (next_chunk s rest, m)).
Proof.
  intros HP Hrc Hl Hrx Hh Hn1 Hn2. pose proof Hrc as [[Hc0 Hc] Hfl _ Htot _].
  rewrite (complete_read_chunk P e s m packet rest) by done. unfold ReadFileChunkCallback. sess. rewrite Hh. sess.
  apply Z.eqb_neq in Hn1 as ->. apply Z.eqb_neq in Hn2 as ->. sess.
  rewrite memcpy_to_all by by rewrite length_zeros, Hl. sess.
  by rewrite StartReadingChunks_calm by (sess; done || by left).
Qed.

Lemma complete_read_packet_short s m :
  receiving s -> (length (rx (sock s)) < Z.to_nat (s_csize s) + FILE_HEADER_SIZE_BYTES)%nat ->
  complete_read P e s m = Ok None.
Proof.
  intros [_ _ _ _ Hr] Hlt. unfold complete_read. rewrite Hr. cbn [ro_len ro_done]. rewrite Nat.sub_0_r.
  destruct (_ <? _)%nat eqn:E; [done|]. apply Nat.ltb_ge in E. lia.
Qed.

(** Chunk frames are handed over, one by one. *)
Lemma chunks_passed s m l chunks rest fuel :
  eager_read P = false -> receiving s ->
  Forall (chunk_ok BVSESSIONREGULARMESSAGETYPE_FILE_TRANSFER_CHUNK_SENT (s_csize s)) chunks ->
  rx (sock s) = concat (map (fun c => chunk_frame c.1 c.2) chunks) ++ rest -> app_mail m l ->
  exists s' m', pump P e (length chunks + fuel) s m = pump P e fuel s' m' /\ receiving s' /\
    rx (sock s') = rest /\ s_csize s' = s_csize s /\ s_fsize s' = s_fsize s /\
    s_state s' = s_state s /\ nodeData s' = nodeData s /\
    app_mail m' (l ++ map (chunk_event BVEVENTTYPE_APP_FILE_TRANSFER_CHUNK_SENT (s_csize s) (s_fsize s)) chunks).
Proof.
  intros HP. revert s m l. induction chunks as [|c chunks IH]; intros s m l Hrc Hok Hrx Hm.
  { exists s, m. cbn [length map Nat.add]. by rewrite app_nil_r. }
  apply Forall_cons in Hok as [(Hch & Hct & Hcl) Hok]. cbn [map concat] in Hrx. rewrite <- (assoc_L (++)) in Hrx.
  destruct (chunk_handled P e s m l c.1 c.2 _ HP Hrc Hch Hct Hcl Hrx Hm) as (m1 & Hcr & Hm1).
  destruct (IH _ m1 _ (receiving_next s _ Hrc) Hok eq_refl Hm1) as (s' & m' & Hp & Hrc' & Hrx' & H1 & H2 & H3 & H4 & Hm').
  exists s', m'. cbn [length Nat.add pump]. rewrite Hcr. split; [exact Hp|]. do 6 (split; [done|]).
  cbn [map]. by rewrite <- (assoc_L (++)) in Hm'.
Qed.

Lemma chunks_received s m l chunks last fuel :
  eager_read P = false -> receiving s ->
  Forall (chunk_ok BVSESSIONREGULARMESSAGETYPE_FILE_TRANSFER_CHUNK_SENT (s_csize s)) chunks ->
  chunk_ok BVSESSIONREGULARMESSAGETYPE_FILE_TRANSFER_END (s_csize s) last ->
  rx (sock s) = concat (map (fun c => chunk_frame c.1 c.2) chunks) ++ chunk_frame last.1 last.2 ->
  app_mail m l -> (length chunks + 1 < fuel)%nat ->
  exists s' m', pump P e fuel s m = Ok (Blocked, s', m') /\ listening s' /\
    s_state s' = s_state s /\ nodeData s' = nodeData s /\ rx (sock s') = [] /\
    app_mail m' (l ++
      map (chunk_event BVEVENTTYPE_APP_FILE_TRANSFER_CHUNK_SENT (s_csize s) (s_fsize s)) chunks ++
      [chunk_event BVEVENTTYPE_APP_FILE_TRANSFER_END (s_csize s) (s_fsize s) last]).
Proof.
  intros HP Hrc Hok (Hlh & Hlt & Hll) Hrx Hm Hf.
  replace fuel with (length chunks + S (S (fuel - length chunks - 2)))%nat by lia.
  destruct (chunks_passed s m l chunks _ (S (S (fuel - length chunks - 2))) HP Hrc Hok Hrx Hm)
    as (s1 & m1 & Hp & Hrc1 & Hrx1 & Hcs & Hfs & Hst & Hnd & Hm1).
  rewrite <- (app_nil_r (chunk_frame _ _)) in Hrx1. rewrite <- Hcs in Hll.
  destruct (end_handled P e s1 m1 _ last.1 last.2 [] HP Hrc1 Hlh Hlt Hll Hrx1 Hm1) as (m2 & Hcr & Hm2).
  exists (rearmed (ClearFileBuffer s1) []), m2. rewrite Hp. cbn [pump]. rewrite Hcr. sess.
  rewrite complete_read_short; [|apply listening_rearmed|sess; cbn; unfold MESSAGE_FRAME_SIZE_BYTES; lia].
  split; [done|]. split; [apply listening_rearmed|]. split; [exact Hst|]. split; [exact Hnd|]. split; [done|].
  rewrite Hcs, Hfs in Hm2. by rewrite <- (assoc_L (++)) in Hm2.
Qed.

Lemma transfer_received s m l hb text csize fsize chunks last fuel :
  eager_read P = false -> listening s -> s_state s = BVSESSIONSTATE_ESTABLISHED ->
  file_frame_ok hb -> NUL ∉ text -> (length text <= 116)%nat ->
  fh_msgType hb = BVSESSIONREGULARMESSAGETYPE_FILE_TRANSFER_BEGIN ->
  fh_metadata hb = file_metadata csize fsize ->
  0 <= csize -> csize + 21 < 2 ^ 32 -> 0 <= fsize < 2 ^ 32 ->
  Forall (chunk_ok BVSESSIONREGULARMESSAGETYPE_FILE_TRANSFER_CHUNK_SENT csize) chunks ->
  chunk_ok BVSESSIONREGULARMESSAGETYPE_FILE_TRANSFER_END csize last ->
  rx (sock s) = transfer_bytes hb text chunks last -> app_mail m l ->
  (length chunks + 2 < fuel)%nat ->
  exists s' m', pump P e fuel s m = Ok (Blocked, s', m') /\ listening s' /\
    s_state s' = BVSESSIONSTATE_ESTABLISHED /\ rx (sock s') = [] /\
    app_mail m' (l ++
      [file_event BVEVENTTYPE_APP_FILE_TRANSFER_BEGIN (fh_correlationKey hb) csize fsize text] ++
      map (chunk_event BVEVENTTYPE_APP_FILE_TRANSFER_CHUNK_SENT csize fsize) chunks ++
      [chunk_event BVEVENTTYPE_APP_FILE_TRANSFER_END csize fsize last]).
Proof.
  intros HP Hli Hst Hff Hnul Hl Ht Hmd Hc0 Hc Hf Hok Hlast Hrx Hm Hfu.
  destruct fuel as [|fuel]; [lia|].
  destruct (begin_handled P e s m l hb text csize fsize _ HP Hli Hst Hff Hnul Hl Ht Hmd Hc0 Hc Hf Hrx Hm)
    as (m1 & Hcr & Hm1).
  cbn [pump]. rewrite Hcr. sess.
  pose proof (receiving_chunk_mode s csize fsize
    (concat (map (fun c => chunk_frame c.1 c.2) chunks) ++ chunk_frame last.1 last.2) Hc0 Hc) as Hrc.
  destruct (chunks_received _ m1 _ chunks last fuel HP Hrc Hok Hlast eq_refl Hm1 ltac:(lia))
    as (s' & m' & Hp & Hli' & Hs1 & Hs2 & Hs3 & Hm').
  exists s', m'. do 2 (split; [done|]). split; [by rewrite Hs1|]. split; [done|].
  by rewrite <- (assoc_L (++)) in Hm'.
Qed.

(** A message frame among the packets of a transfer, before the last: it and
    the start of the last packet are taken for one packet of no known type, and
    what is left of the last one is waited on. *)
Lemma message_in_transfer s m l hb text csize fsize chunks cm last fuel :
  eager_read P = false -> listening s -> s_state s = BVSESSIONSTATE_ESTABLISHED ->
  file_frame_ok hb -> NUL ∉ text -> (length text <= 116)%nat ->
  fh_msgType hb = BVSESSIONREGULARMESSAGETYPE_FILE_TRANSFER_BEGIN ->
  fh_metadata hb = file_metadata csize fsize ->
  117 < csize -> csize + 21 < 2 ^ 32 -> 0 <= fsize < 2 ^ 32 ->
  Forall (chunk_ok BVSESSIONREGULARMESSAGETYPE_FILE_TRANSFER_CHUNK_SENT csize) chunks ->
  length (chunk_frame last.1 last.2) = (Z.to_nat csize + FILE_HEADER_SIZE_BYTES)%nat ->
  length (msg_payload cm) = PAYLOAD_SIZE_BYTES ->
  file_type_of cm <> BVSESSIONREGULARMESSAGETYPE_FILE_TRANSFER_CHUNK_SENT ->
  file_type_of cm <> BVSESSIONREGULARMESSAGETYPE_FILE_TRANSFER_END ->
  rx (sock s) = begin_frame hb text ++ concat (map (fun c => chunk_frame c.1 c.2) chunks) ++
    message_bytes cm ++ chunk_frame last.1 last.2 ->
  app_mail m l -> (length chunks + 2 < fuel)%nat ->
  exists s' m', pump P e fuel s m = Ok (Blocked, s', m') /\ receiving s' /\
    length (rx (sock s')) = MESSAGE_FRAME_SIZE_BYTES /\
    app_mail m' (l ++
      [file_event BVEVENTTYPE_APP_FILE_TRANSFER_BEGIN (fh_correlationKey hb) csize fsize text] ++
      map (chunk_event BVEVENTTYPE_APP_FILE_TRANSFER_CHUNK_SENT csize fsize) chunks).
Proof.
  intros HP Hli Hst Hff Hnul Hl Ht Hmd Hc0 Hc Hf Hok Hlast Hp Hn1 Hn2 Hrx Hm Hfu.
  pose proof (length_message_frame cm Hp) as Hlm.
  replace fuel with (S (length chunks + S (S (fuel - length chunks - 3)))) by lia.
  destruct (begin_handled P e s m l hb text csize fsize _ HP Hli Hst Hff Hnul Hl Ht Hmd ltac:(lia) Hc Hf Hrx Hm)
    as (m1 & Hcr & Hm1). cbn [pump]. rewrite Hcr. sess.
  destruct (chunks_passed _ m1 _ chunks _ (S (S (fuel - length chunks - 3))) HP
    (receiving_chunk_mode s csize fsize (concat (map (fun c => chunk_frame c.1 c.2) chunks) ++
      message_bytes cm ++ chunk_frame last.1 last.2) ltac:(lia) Hc) Hok eq_refl Hm1)
    as (s1 & m2 & -> & Hrc1 & Hrx1 & Hcs & Hfs & _ & _ & Hm2). change (s_csize s1 = csize) in Hcs.
  set (frame := chunk_frame last.1 last.2) in *. set (n := (Z.to_nat csize - 117)%nat).
  destruct (GetFileHeader_message_then cm (take n frame) Hp) as (h & Hh & Hty).
  rewrite <- (take_drop n frame), (assoc_L (++)) in Hrx1.
  assert (Hlp : length (message_bytes cm ++ take n frame) = (Z.to_nat (s_csize s1) + FILE_HEADER_SIZE_BYTES)%nat).
  { rewrite length_app, Hlm, length_take, Hlast, Hcs. unfold n, MESSAGE_FRAME_SIZE_BYTES, FILE_HEADER_SIZE_BYTES. lia. }
  exists (next_chunk s1 (drop n frame)), m2. cbn [pump].
  rewrite (unknown_packet_dropped s1 m2 _ _ h HP Hrc1 Hlp Hrx1 Hh) by congruence. sess.
  assert (Hlr : length (drop n frame) = MESSAGE_FRAME_SIZE_BYTES).
  { rewrite length_drop, Hlast. unfold n, MESSAGE_FRAME_SIZE_BYTES, FILE_HEADER_SIZE_BYTES. lia. }
  rewrite complete_read_packet_short; [|by apply receiving_next|].
  2:{ change (length (drop n frame) < Z.to_nat (s_csize s1) + FILE_HEADER_SIZE_BYTES)%nat. rewrite Hlr, Hcs.
      unfold MESSAGE_FRAME_SIZE_BYTES, FILE_HEADER_SIZE_BYTES. lia. }
  split; [done|]. split; [by apply receiving_next|]. split; [exact Hlr|].
  by rewrite <- (assoc_L (++)) in Hm2.
Qed.

(** C16.  A file transfer on an established session: [BEGIN] tells the
    application the sender's text and the chunk and file sizes, every chunk
    frame is handed over in order with exactly [csize] payload bytes (whatever
    bytes they hold), and after [END] the session is back to listening for
    message frames. *)
Theorem file_transfer_received s m l hb text csize fsize chunks last fuel :
  eager_read P = false -> listening s -> s_state s = BVSESSIONSTATE_ESTABLISHED ->
  file_frame_ok hb -> NUL ∉ text -> (length text <= 116)%nat ->
  fh_msgType hb = BVSESSIONREGULARMESSAGETYPE_FILE_TRANSFER_BEGIN ->
  fh_metadata hb = file_metadata csize fsize ->
  0 <= csize -> csize + 21 < 2 ^ 32 -> 0 <= fsize < 2 ^ 32 ->
  Forall (chunk_ok BVSESSIONREGULARMESSAGETYPE_FILE_TRANSFER_CHUNK_SENT csize) chunks ->
  chunk_ok BVSESSIONREGULARMESSAGETYPE_FILE_TRANSFER_END csize last ->
  rx (sock s) = transfer_bytes hb text chunks last -> app_mail m l ->
  (length chunks + 2 < fuel)%nat ->
  exists s' m', pump P e fuel s m = Ok (Blocked, s', m') /\ listening s' /\
    s_state s' = BVSESSIONSTATE_ESTABLISHED /\ rx (sock s') = [] /\
    app_mail m' (l ++
      [file_event BVEVENTTYPE_APP_FILE_TRANSFER_BEGIN (fh_correlationKey hb) csize fsize text] ++
      map (chunk_event BVEVENTTYPE_APP_FILE_TRANSFER_CHUNK_SENT csize fsize) chunks ++
      [chunk_event BVEVENTTYPE_APP_FILE_TRANSFER_END csize fsize last]).
Proof. apply transfer_received. Qed.

(** The peer's chunk size is used unchecked: [csize + 21] is truncated to
    32 bits when the read is started, so a [BEGIN] with a chunk size of
    [2^32 - 21] or more starts a read shorter than a chunk frame, and with
    exactly [2^32 - 21] no read at all: the session is deaf. *)
Theorem begin_chunk_size_truncated s m l h text csize fsize :
  eager_read P = false -> listening s -> s_state s = BVSESSIONSTATE_ESTABLISHED ->
  file_frame_ok h -> NUL ∉ text -> (length text <= 116)%nat ->
  fh_msgType h = BVSESSIONREGULARMESSAGETYPE_FILE_TRANSFER_BEGIN ->
  fh_metadata h = file_metadata csize fsize ->
  2 ^ 32 - 21 <= csize < 2 ^ 32 -> 0 <= fsize < 2 ^ 32 ->
  rx (sock s) = begin_frame h text -> app_mail m l ->
  exists s' m', complete_read P e s m = Ok (Some (s', m')) /\
    reads (sock s') = (if decide (csize = 2 ^ 32 - 21) then []
                       else [ReadOp FileBuffer 0 (Z.to_nat (csize + 21 - 2 ^ 32)) 0]).
Proof.
  intros HP Hli Hst Hff Hnul Hl Ht Hmd Hc Hf Hrx Hm. pose proof Hff as [Hh Hts].
  destruct (Put_app_mail m l (file_event BVEVENTTYPE_APP_FILE_TRANSFER_BEGIN (fh_correlationKey h)
    csize fsize text) Hm) as (m' & Hput & _).
  rewrite <- (app_nil_r (begin_frame _ _)) in Hrx.
  rewrite (complete_read_frame P e s m (begin_frame h text) []) by (done || apply length_begin_frame).
  rewrite (ReadMessageFrameCallback_frame _ _ _ _ (begin_frame h text)) by (sess; done || apply Hli).
  destruct (GetMsgHeader_file h (padded 117 (text ++ [NUL]))) as (mh & Hmh & Hnc); [destruct Hh; lia|].
  apply Z.eqb_neq in Hnc. fold (begin_frame h text) in Hmh. rewrite Hmh. sess.
  rewrite Hst, decide_False by done.
  unfold OnReceiveStandardFrame, the_readBuf. sess. rewrite Hmh. sess. rewrite Hnc. sess.
  rewrite GetFileHeader_begin by done. sess. rewrite Ht, Z.eqb_refl.
  unfold OnReceiveFileTransferBegin, the_readBuf. sess.
  rewrite GetFileHeader_begin by done. sess. rewrite GetFileData_begin by done. sess.
  rewrite Ht, Z.eqb_refl. sess. rewrite Hmd.
  destruct (metadata_fields csize fsize ltac:(lia) Hf) as (E1 & E2 & _).
  cbv zeta in E1, E2. rewrite E1, E2. unfold file_event in Hput. rewrite Hput. sess.
  erewrite ClearReadBuffer_ok; [|sess; done|apply length_begin_frame]. sess.
  unfold StartReadingChunks. sess.
  replace (u32 (csize + Z.of_nat FILE_HEADER_SIZE_BYTES)) with (csize + 21 - 2 ^ 32)
    by (unfold FILE_HEADER_SIZE_BYTES; wrap_lia).
  cbn [Nat.ltb Nat.leb]. rewrite Nat.sub_0_r. case_decide as Hd.
  - rewrite Hd. sess. by eexists _, m'.
  - destruct (Z.to_nat (csize + 21 - 2 ^ 32) =? 0)%nat eqn:E0; [apply Nat.eqb_eq in E0; lia|].
    rewrite async_read_calm by (done || by left). sess. by eexists _, m'.
Qed.

Lemma hello_handled s m :
  listening s -> s_state s = BVSESSIONSTATE_UNPREPARED -> writable s -> env_ok e ->
  (String.length (thisMachineServiceName s) <= 128)%nat ->
  rx (sock s) = message_bytes (control_message e BVSESSIONCONTROLMESSAGETYPE_HELLO) ->
  let f := message_bytes (HELLOBACK_message e (thisMachineServiceName s)) in
  exists s', complete_read P e s m = Ok (Some (s', m)) /\ listening s' /\
    s_state s' = BVSESSIONSTATE_UNPREPARED /\
    tx (sock (complete_write P s')) = tx (sock s) ++ (if eager_write P then f else zap_first f) /\
    writable (complete_write P s') /\ rx (sock s') = [] /\
    self s' = self s /\ sessionID s' = sessionID s /\ nodeData s' = nodeData s.
Proof.
  intros Hli Hst Hw He Hn Hrx f. rewrite <- (app_nil_r (message_bytes _)) in Hrx.
  destruct (control_message_ok e BVSESSIONCONTROLMESSAGETYPE_HELLO) as [Hho Hpl]; [done|].
  rewrite (complete_read_frame P e s m _ [] Hli (length_message_frame _ Hpl) Hrx).
  rewrite (ReadMessageFrameCallback_frame _ _ _ _
    (message_bytes (control_message e BVSESSIONCONTROLMESSAGETYPE_HELLO))) by (sess; done || apply Hli).
  rewrite GetMsgHeader_message by done. sess. rewrite Hst, decide_True by done.
  unfold handle_unprepared. cbn [control_message ConstructMessage ConstructMessageHeader msg_header
    mh_msgType Z.eqb BVSESSIONCONTROLMESSAGETYPE_HELLO BVSESSIONCONTROLMESSAGETYPE_HELLOBACK
    BVSESSIONCONTROLMESSAGETYPE_CONFIRM_ESTABLISHED].
  set (s0 := set_read _ 0).
  assert (Hw0 : writable s0) by (destruct Hw; by split).
  rewrite (OnReceiveHelloFrame_ok P e s0) by (done || by right). sess.
  change (thisMachineServiceName s0) with (thisMachineServiceName s). fold f.
  assert (Hf : length f = MESSAGE_FRAME_SIZE_BYTES)
    by (apply length_message_frame; by apply HELLOBACK_ok).
  unfold reading, writing, s0. sess. rewrite Hst, decide_True by done.
  erewrite ClearReadBuffer_ok; [|sess; reflexivity|apply (length_message_frame _ Hpl)]. sess.
  eexists. split; [reflexivity|]. split; [split; sess; [|done|done]|].
  { by eexists; split; [done|apply length_zeros]. }
  split; [exact Hst|].
  erewrite complete_writing; [|sess; reflexivity|done|sess; by rewrite Hst].
  unfold ClearWriteBuffer. sess. rewrite take_frame by by rewrite length_zap_first.
  split; [rewrite <- (assoc_L (++)); by destruct (eager_write P); rewrite ?app_nil_r|].
  split; [|done]. split; sess; [|done|done].
  rewrite length_app, length_zeros, length_drop, length_zap_first, Hf. lia.
Qed.

(** Answering [HELLO]: the session replies [HELLOBACK] with its own
    service name and listens for the verdict; the reply that leaves the
    machine is intact when the socket sends at once, but when the send is
    deferred its length byte has been zeroed by the [erase] that follows the
    write, and the peer reads an empty name. *)
Theorem hello_answered s m :
  listening s -> s_state s = BVSESSIONSTATE_UNPREPARED -> writable s -> env_ok e ->
  (String.length (thisMachineServiceName s) <= 128)%nat ->
  rx (sock s) = message_bytes (control_message e BVSESSIONCONTROLMESSAGETYPE_HELLO) ->
  let f := message_bytes (HELLOBACK_message e (thisMachineServiceName s)) in
  exists s', complete_read P e s m = Ok (Some (s', m)) /\ listening s' /\
    s_state s' = BVSESSIONSTATE_UNPREPARED /\
    tx (sock (complete_write P s')) = tx (sock s) ++ (if eager_write P then f else zap_first f) /\
    writable (complete_write P s').
Proof.
  intros Hli Hst Hw He Hn Hrx f.
  destruct (hello_handled s m Hli Hst Hw He Hn Hrx) as (s' & Hc & Hl & Hs & Ht & Hw' & _). by exists s'.
Qed.

End SessionProperties.

(** ** Concrete instances: a manager that keeps the application's mail *)

Section SessionWitnesses.

#[local] Instance ex_manager : SessionManager (list BVMessage) := {|
  HandleSessionIdentification := fun _ _ _ s m => Ok (s, m);
  PutMessageIntoAppMailbox := fun msg m => Ok (m ++ [msg]);
  SignalFileTransfer := fun _ _ _ m => Ok m
|}.

#[local] Instance ex_manager_laws : SessionManagerLaws (list BVMessage).
Proof.
  refine {| app_mail := fun m l => m = l |}. intros m l msg ->. by eexists.
Defined.

Lemma ex_mail_nil : app_mail ([] : list BVMessage) [].
Proof. exact (@eq_refl (list BVMessage) []). Qed.

Definition ex_env : env := Env 1700000000000 (zeros 128) 0 None true false.
Definition ex_lazy : asio := Asio false true.
Definition ex_eager : asio := Asio true false.
Definition ex_deferred : asio := Asio false false.

Definition ex_session (st : BVSessionState) (bytes : list ascii) : BVTCPSession :=
  MkSession 0 st (Some BVSESSIONORIGIN_OUTGOING) 1 (BVNode_make "bob" "bob" 50001) true true
    (zeros 138) 138 (Some (zeros 138)) (zeros 1) 0 0 0 0 "ann"
    (Socket bytes [] [ReadOp FrameBuffer 0 MESSAGE_FRAME_SIZE_BYTES 0] []).

Lemma ex_session_listening st bytes : listening (ex_session st bytes).
Proof. split; [|done|done]. by exists (zeros 138). Qed.

Definition ex_chat (text : string) : BVTCPMessage :=
  {| msg_header := {| mh_dataLen := Z.of_nat (String.length text); mh_timestamp := 1700000000000;
                      mh_msgType := BVSESSIONREGULARMESSAGETYPE_CHATMESSAGE |};
     msg_payload := chars text ++ zeros (128 - String.length text) |}.

Lemma ex_chat_ok : chat_ok (ex_chat "hello") /\ chat_ok (ex_chat "world").
Proof. by split; (split; [split|..]). Qed.

Lemma chat_stream_delivered_witness :
  exists s' m', pump ex_lazy ex_env 3 (ex_session BVSESSIONSTATE_ESTABLISHED
      (frames_of [ex_chat "hello"; ex_chat "world"] ++ zeros 5)) ([] : list BVMessage) =
    Ok (Blocked, s', m') /\
    m' = [chat_event "bob" (ex_chat "hello"); chat_event "bob" (ex_chat "world")].
Proof.
  destruct ex_chat_ok as [H1 H2].
  destruct (chat_stream_delivered ex_lazy ex_env (ex_session BVSESSIONSTATE_ESTABLISHED
      (frames_of [ex_chat "hello"; ex_chat "world"] ++ zeros 5)) [] []
      [ex_chat "hello"; ex_chat "world"] (zeros 5) 3 eq_refl (ex_session_listening _ _) eq_refl)
    as (s' & m' & Hp & _ & _ & _ & Hm).
  - by repeat constructor.
  - reflexivity.
  - vm_compute. lia.
  - exact ex_mail_nil.
  - simpl. lia.
  - exists s', m'. split; [exact Hp|exact Hm].
Defined.

Lemma eager_read_loses_second_message_witness :
  exists s' m', pump ex_eager ex_env 3 (ex_session BVSESSIONSTATE_ESTABLISHED
      (message_bytes (ex_chat "hello") ++ message_bytes (ex_chat "world"))) ([] : list BVMessage) =
    Ok (Blocked, s', m') /\ deaf s' /\ m' = [chat_event "bob" (ex_chat "hello")].
Proof.
  destruct ex_chat_ok as [H1 H2].
  destruct (eager_read_loses_second_message ex_eager ex_env (ex_session BVSESSIONSTATE_ESTABLISHED
      (message_bytes (ex_chat "hello") ++ message_bytes (ex_chat "world"))) [] []
      (ex_chat "hello") (ex_chat "world") 3 eq_refl (ex_session_listening _ _) eq_refl H1 H2
      eq_refl ex_mail_nil ltac:(lia)) as (s' & m' & Hp & Hd & _ & Hm).
  exists s', m'. split; [exact Hp|]. split; [exact Hd|exact Hm].
Defined.

Lemma unrecognised_frame_deafens_witness :
  exists s', complete_read ex_lazy ex_env (ex_session BVSESSIONSTATE_ESTABLISHED (zeros 138))
      ([] : list BVMessage) = Ok (Some (s', [])) /\ deaf s'.
Proof.
  destruct (unrecognised_frame_deafens ex_lazy ex_env (ex_session BVSESSIONSTATE_ESTABLISHED (zeros 138))
      [] (zeros 138) [] _ _ (ex_session_listening _ _) eq_refl eq_refl eq_refl
      GetMsgHeader_zeros GetFileHeader_zeros ltac:(done) eq_refl) as (s' & Hc & Hd & _).
  exists s'. split; [exact Hc|exact Hd].
Defined.

Lemma overlapping_lines_lost_witness :
  exists s1 s1', WriteMessageFrame ex_deferred (ex_session BVSESSIONSTATE_ESTABLISHED []) (ex_chat "hello") = Ok s1 /\
    WriteMessageFrame ex_deferred s1 (ex_chat "world") = Ok s1' /\
    tx (sock (complete_write ex_deferred (complete_write ex_deferred s1'))) =
      message_bytes (ex_chat "world") ++ zeros MESSAGE_FRAME_SIZE_BYTES /\
    exists s2 m', pump ex_deferred ex_env 3 (ex_session BVSESSIONSTATE_ESTABLISHED
        (message_bytes (ex_chat "world") ++ zeros MESSAGE_FRAME_SIZE_BYTES)) ([] : list BVMessage) =
      Ok (Blocked, s2, m') /\ deaf s2 /\ m' = [chat_event "bob" (ex_chat "world")].
Proof.
  destruct ex_chat_ok as [H1 H2].
  destruct (overlapping_lines_lost ex_deferred ex_env (ex_session BVSESSIONSTATE_ESTABLISHED []) (ex_session BVSESSIONSTATE_ESTABLISHED
      (message_bytes (ex_chat "world") ++ zeros MESSAGE_FRAME_SIZE_BYTES)) (ex_chat "hello") (ex_chat "world") [] [] 3
    eq_refl ltac:(by split) ltac:(discriminate) (co_payload _ H1) H2 eq_refl (ex_session_listening _ _) eq_refl
    eq_refl ex_mail_nil ltac:(lia)) as (s1 & s1' & Hw1 & Hw2 & _ & Ht & s2' & m' & Hp & Hd & Hm).
  exists s1, s1'. split; [exact Hw1|]. split; [exact Hw2|]. split; [exact Ht|].
  exists s2', m'. split; [exact Hp|]. split; [exact Hd|exact Hm].
Defined.

Definition ex_file_header (t meta : Z) : BVTCPFileHeader := ConstructFileHeader 1700000000000 t 7 meta.

Lemma ex_file_header_frame_ok t meta :
  0 <= t < 256 -> 0 <= meta < 2 ^ 64 -> file_frame_ok (ex_file_header t meta).
Proof. intros. split; [by split|done]. Qed.

Lemma ex_text_ok : NUL ∉ chars "bob|x.txt".
Proof. apply (bool_decide_unpack _). vm_compute. exact I. Qed.

Definition ex_begin : BVTCPFileHeader :=
  ex_file_header BVSESSIONREGULARMESSAGETYPE_FILE_TRANSFER_BEGIN (file_metadata 4 6).
Definition ex_chunk : BVTCPFileHeader * list ascii :=
  (ex_file_header BVSESSIONREGULARMESSAGETYPE_FILE_TRANSFER_CHUNK_SENT 0, chars "abcd").
Definition ex_end : BVTCPFileHeader * list ascii :=
  (ex_file_header BVSESSIONREGULARMESSAGETYPE_FILE_TRANSFER_END 0, chars "ef" ++ zeros 2).

Lemma file_transfer_received_witness :
  exists s' m', pump ex_lazy ex_env 4 (ex_session BVSESSIONSTATE_ESTABLISHED
      (transfer_bytes ex_begin (chars "bob|x.txt") [ex_chunk] ex_end)) ([] : list BVMessage) =
    Ok (Blocked, s', m') /\
    m' = [file_event BVEVENTTYPE_APP_FILE_TRANSFER_BEGIN 7 4 6 (chars "bob|x.txt");
          file_event BVEVENTTYPE_APP_FILE_TRANSFER_CHUNK_SENT 7 4 6 (chars "abcd");
          file_event BVEVENTTYPE_APP_FILE_TRANSFER_END 7 4 6 (chars "ef" ++ zeros 2)].
Proof.
  destruct (file_transfer_received ex_lazy ex_env (ex_session BVSESSIONSTATE_ESTABLISHED
      (transfer_bytes ex_begin (chars "bob|x.txt") [ex_chunk] ex_end)) [] [] ex_begin
      (chars "bob|x.txt") 4 6 [ex_chunk] ex_end 4 eq_refl (ex_session_listening _ _) eq_refl)
    as (s' & m' & Hp & _ & _ & _ & Hm).
  - by apply ex_file_header_frame_ok.
  - exact ex_text_ok.
  - vm_compute. lia.
  - reflexivity.
  - reflexivity.
  - lia.
  - lia.
  - lia.
  - repeat constructor; apply ex_file_header_frame_ok; done.
  - repeat constructor; apply ex_file_header_frame_ok; done.
  - reflexivity.
  - exact ex_mail_nil.
  - simpl. lia.
  - exists s', m'. split; [exact Hp|exact Hm].
Defined.

Lemma begin_chunk_size_truncated_witness :
  let h := ex_file_header BVSESSIONREGULARMESSAGETYPE_FILE_TRANSFER_BEGIN
             (file_metadata (2 ^ 32 - 21) 6) in
  exists s' m', complete_read ex_lazy ex_env
      (ex_session BVSESSIONSTATE_ESTABLISHED (begin_frame h (chars "bob|x.txt")))
      ([] : list BVMessage) = Ok (Some (s', m')) /\ deaf s'.
Proof.
  intros h.
  destruct (begin_chunk_size_truncated ex_lazy ex_env (ex_session BVSESSIONSTATE_ESTABLISHED
      (begin_frame h (chars "bob|x.txt"))) [] [] h (chars "bob|x.txt") (2 ^ 32 - 21) 6
      eq_refl (ex_session_listening _ _) eq_refl) as (s' & m' & Hc & Hr).
  - by apply ex_file_header_frame_ok.
  - exact ex_text_ok.
  - vm_compute. lia.
  - reflexivity.
  - reflexivity.
  - lia.
  - lia.
  - reflexivity.
  - exact ex_mail_nil.
  - exists s', m'. split; [exact Hc|]. rewrite decide_True in Hr by reflexivity. exact Hr.
Defined.

Lemma hello_answered_witness :
  exists s', complete_read ex_lazy ex_env (ex_session BVSESSIONSTATE_UNPREPARED
      (message_bytes (control_message ex_env BVSESSIONCONTROLMESSAGETYPE_HELLO)))
      ([] : list BVMessage) = Ok (Some (s', [])) /\
    tx (sock (complete_write ex_lazy s')) = message_bytes (HELLOBACK_message ex_env "ann").
Proof.
  destruct (hello_answered ex_lazy ex_env (ex_session BVSESSIONSTATE_UNPREPARED
      (message_bytes (control_message ex_env BVSESSIONCONTROLMESSAGETYPE_HELLO))) []
      (ex_session_listening _ _) eq_refl) as (s' & Hc & _ & _ & Ht & _).
  - by split.
  - by split.
  - vm_compute. lia.
  - reflexivity.
  - exists s'. split; [exact Hc|exact Ht].
Defined.

End SessionWitnesses.
