(* ===== verification/FileTransfer.v ===== *)
(** * Outgoing file transfers ([include/BVFileTransferContext.hpp])

    A transfer context owns an open file and a worker thread that sends
    [BEGIN] and then one chunk frame per iteration until the last one.  Files
    are their contents; the C++ stream state (position, fail bit) is kept. *)

From Stdlib Require Import ZArith Lia Ascii String.
From S2P Require Import Prelude Common Broker Frames Session.

(** ** Files and paths *)

(** An input [std::fstream]. *)
Record fstream : Type := FStream {
  f_open : bool;
  f_data : list ascii;
  f_pos : nat;
  f_fail : bool
}.

(** [fhandle.read (buf, n)]: what was read; a short read sets the fail bit. *)
Definition f_read (f : fstream) (n : nat) : list ascii * fstream :=
  if f_fail f then ([], f)
  else
    let got := take n (drop (f_pos f) (f_data f)) in
    (got, FStream (f_open f) (f_data f) (f_pos f + length got) (length got <? n)%nat).

(** [std::filesystem::path::filename]: what follows the last separator. *)
Fixpoint after_last_slash (l cur : list ascii) : list ascii :=
  match l with
  | [] => cur
  | c :: l => if Ascii.eqb c "/" then after_last_slash l [] else after_last_slash l (cur ++ [c])
  end.
Definition filename (p : string) : string := str (after_last_slash (chars p) []).

(** The files of the machine: [None] where there is none. *)
Abbreviation filesystem := (gmap string (list ascii)) (only parsing).

(** ** The context *)

Inductive FileTransferState : Type :=
  | FILETRANSFERSTATE_FIRST_CHUNK
  | FILETRANSFERSTATE_ONGOING
  | FILETRANSFERSTATE_LAST_CHUNK.

#[export] Instance FileTransferState_eq_dec : EqDecision FileTransferState.
Proof. solve_decision. Defined.

Record BVFileTransferContext : Type := MkFTC {
  fhandle : fstream;
  ft_fsize : Z;               (* uint32_t *)
  ftcid : Z;
  ft_fname : string;
  ft_session : nat;           (* session_p *)
  ft_state : FileTransferState;
  ft_csize : Z;               (* uint32_t *)
  bytesSent : Z;              (* uint32_t *)
  ft_isRunning : bool;
  ft_progress : option (Z * Z * string)   (* last call of progress_F *)
}.

Definition DetermineChunkSize (fsize : Z) : Z :=
  if fsize <? MIN_FILE_CHUNK_SIZE_BYTES_256B then 64
  else if fsize <? FILE_SIZE_BYTES_1KB then MIN_FILE_CHUNK_SIZE_BYTES_256B
  else if ((fsize >? FILE_CHUNK_SIZE_BYTES_1KB) && (fsize <? FILE_SIZE_BYTES_8KB))%bool
    then FILE_CHUNK_SIZE_BYTES_512B
  else if ((fsize >? FILE_SIZE_BYTES_8KB) && (fsize <? FILE_SIZE_BYTES_64KB))%bool
    then FILE_CHUNK_SIZE_BYTES_4KB
  else if ((fsize >? FILE_SIZE_BYTES_64KB) && (fsize <? FILE_SIZE_BYTES_256KB))%bool
    then FILE_CHUNK_SIZE_BYTES_32KB
  else if ((fsize >? FILE_SIZE_BYTES_256KB) && (fsize <? FILE_SIZE_BYTES_1MB))%bool
    then FILE_CHUNK_SIZE_BYTES_64KB
  else if ((fsize >? FILE_SIZE_BYTES_1MB) && (fsize <? FILE_SIZE_BYTES_5MB))%bool
    then FILE_CHUNK_SIZE_BYTES_512KB
  else MAX_FILE_CHUNK_SIZE_BYTES_1MB.

(** A stream on an opened file; one whose file could not be opened has failed. *)
Definition open_stream (opens : bool) (data : list ascii) : fstream :=
  if opens then FStream true data 0 false else FStream false [] 0 true.

(** The constructor: [file_size] throws when the file is missing; the size is
    truncated to 32 bits.  The worker is launched when the file opened; of a
    context whose file did not, only the failed stream remains, and no
    [worker_step] does anything for it. *)
Definition BVFileTransferContext_make (opens : bool) (fs : filesystem) (session_p : nat) (fpath : string)
    (id : Z) : result BVFileTransferContext :=
  let! data := from_option_err Std_runtime_error (fs !! fpath) in
  let fsize := u32 (Z.of_nat (length data)) in
  Ok (MkFTC (open_stream opens data) fsize id (filename fpath) session_p
        FILETRANSFERSTATE_FIRST_CHUNK (DetermineChunkSize fsize) 0 true None).

(** ** One iteration of the worker *)

Definition ft_update (c : BVFileTransferContext) (h : fstream) (st : FileTransferState)
    (sent : Z) (run : bool) (p : option (Z * Z * string)) : BVFileTransferContext :=
  MkFTC h (ft_fsize c) (ftcid c) (ft_fname c) (ft_session c) st (ft_csize c) sent run p.

(** The first iteration: [BEGIN] with "service|name", chunk and file size. *)
Definition TransferBegin (now : Z) (ec : write_error) (c : BVFileTransferContext) (s : BVTCPSession)
    : result (BVFileTransferContext * BVTCPSession) :=
  let payload := chars (thisMachineServiceName s +:+ "|" +:+ ft_fname c) ++ [NUL] in
  let metadata := Z.lor (Z.shiftl (ft_csize c) 32) (ft_fsize c) in
  let header := ConstructFileHeader now BVSESSIONREGULARMESSAGETYPE_FILE_TRANSFER_BEGIN
                  (ftcid c) metadata in
  let! '(_, s) := WriteFileChunkSync s (ConstructFileChunk header payload)
                    (MESSAGE_FRAME_SIZE_BYTES - FILE_HEADER_SIZE_BYTES) ec in
  Ok (ft_update c (fhandle c) FILETRANSFERSTATE_ONGOING (bytesSent c) (ft_isRunning c)
        (ft_progress c), s).

(** [ec]: the error the blocking write reports; its result is not looked at. *)
Definition TransferNextChunk (now : Z) (ec : write_error) (c : BVFileTransferContext) (s : BVTCPSession)
    : result (BVFileTransferContext * BVTCPSession) :=
  if decide (ft_state c = FILETRANSFERSTATE_FIRST_CHUNK) then TransferBegin now ec c s
  else
    let '(got, h) := f_read (fhandle c) (Z.to_nat (ft_csize c)) in
    let dataToTransferBuffer := got ++ zeros (Z.to_nat (ft_csize c) - length got) in
    let bytesRead := Z.of_nat (length got) in
    if 0 <? bytesRead then
      let last := (u32 (bytesSent c + ft_csize c) >=? ft_fsize c) in
      let msgType := if last then BVSESSIONREGULARMESSAGETYPE_FILE_TRANSFER_END
                     else BVSESSIONREGULARMESSAGETYPE_FILE_TRANSFER_CHUNK_SENT in
      let header := ConstructFileHeader now msgType (ftcid c) 0 in
      let! '(_, s) := WriteFileChunkSync s (ConstructFileChunk header dataToTransferBuffer)
                        (Z.to_nat (ft_csize c)) ec in
      let sent := u32 (bytesSent c + bytesRead) in
      Ok (ft_update c h FILETRANSFERSTATE_ONGOING sent
            (if last then false else ft_isRunning c) (Some (sent, ft_fsize c, ft_fname c)), s)
    else Ok (ft_update c h (ft_state c) (bytesSent c) false (ft_progress c), s).

(** [LaunchFileTransfer]: the body of the worker thread.  [clock] gives the
    time of each iteration, [errs] how its write ends.  While the stream has
    failed but the flag is still set the loop spins. *)
Fixpoint LaunchFileTransfer (fuel : nat) (clock : nat -> Z) (errs : nat -> write_error)
    (c : BVFileTransferContext)
    (s : BVTCPSession) : result (loop_end * BVFileTransferContext * BVTCPSession) :=
  if ft_isRunning c then
    match fuel with
    | O => Ok (OutOfFuel, c, s)
    | S fuel =>
        if f_fail (fhandle c) then LaunchFileTransfer fuel clock errs c s
        else
          let! '(c, s) := TransferNextChunk (clock fuel) (errs fuel) c s in
          LaunchFileTransfer fuel clock errs c s
    end
  else Ok (Returned, c, s).

Definition CancelFileTransfer (c : BVFileTransferContext) : BVFileTransferContext :=
  let h := fhandle c in
  ft_update c (FStream false (f_data h) (f_pos h) (f_fail h)) (ft_state c) (bytesSent c) false
    (ft_progress c).

(** ** Specification vocabulary *)

Definition transfer_clock_ok (clock : nat -> Z) : Prop :=
  forall n, 0 <= clock n < 5 * 2 ^ 40.

(** What has been put on the wire. *)
Definition sent_on (s : BVTCPSession) (bytes : list ascii) : BVTCPSession :=
  set_sock s (with_writes (sock s) (tx (sock s) ++ bytes) (writes (sock s))).

(** ** Lemmas *)

Lemma DetermineChunkSize_bounds fsize :
  64 <= DetermineChunkSize fsize <= MAX_FILE_CHUNK_SIZE_BYTES_1MB.
Proof.
  unfold DetermineChunkSize. repeat case_if; unfold MIN_FILE_CHUNK_SIZE_BYTES_256B,
    FILE_CHUNK_SIZE_BYTES_512B, FILE_CHUNK_SIZE_BYTES_4KB, FILE_CHUNK_SIZE_BYTES_32KB,
    FILE_CHUNK_SIZE_BYTES_64KB, FILE_CHUNK_SIZE_BYTES_512KB, MAX_FILE_CHUNK_SIZE_BYTES_1MB; lia.
Qed.

Lemma WriteFileChunkSync_ok s chunk n ec :
  Z.of_nat n <= UINT32_MAX -> length (fc_payload chunk) = n ->
  exists b, WriteFileChunkSync s chunk n ec =
    Ok (b, put_on_wire s ec (chunk_frame (fc_header chunk) (fc_payload chunk))).
Proof.
  intros Hn Hl. unfold WriteFileChunkSync. rewrite encode_file_frame_bytes by done. sess.
  unfold chunk_frame, padded. rewrite take_ge, Hl, Nat.sub_diag by lia.
  cbn [zeros replicate]. rewrite app_nil_r. by eexists.
Qed.

Lemma sent_on_app s a b : sent_on (sent_on s a) b = sent_on s (a ++ b).
Proof. unfold sent_on. sess. by rewrite (assoc_L (++)). Qed.

(** The chunk frames of a transfer in progress. *)
Definition chunk_of (c : BVFileTransferContext) (now : Z) (t : Z) (data : list ascii)
    : BVTCPFileHeader * list ascii :=
  (ConstructFileHeader now t (ftcid c) 0, data).

Lemma chunk_of_ok c now t data csize :
  0 <= now < 5 * 2 ^ 40 -> 0 <= ftcid c < 2 ^ 32 -> 0 <= t < 256 ->
  length data = Z.to_nat csize -> chunk_ok t csize (chunk_of c now t data).
Proof. intros Hn Hk Ht Hl. split; [split; cbn; wrap_lia|done]. Qed.

(** A context that has sent [bytesSent] bytes of its file and has more. *)
Record ongoing (c : BVFileTransferContext) : Prop := {
  og_state : ft_state c = FILETRANSFERSTATE_ONGOING;
  og_run : ft_isRunning c = true;
  og_fail : f_fail (fhandle c) = false;
  og_pos : bytesSent c = Z.of_nat (f_pos (fhandle c));
  og_size : ft_fsize c = Z.of_nat (length (f_data (fhandle c)));
  og_more : bytesSent c < ft_fsize c;
  og_csize : 0 < ft_csize c;
  og_bound : ft_fsize c + ft_csize c < 2 ^ 32;
  og_key : 0 <= ftcid c < 2 ^ 32
}.

Definition rest_of (c : BVFileTransferContext) : list ascii :=
  drop (f_pos (fhandle c)) (f_data (fhandle c)).

Lemma length_rest_of c :
  ongoing c -> Z.of_nat (length (rest_of c)) = ft_fsize c - bytesSent c.
Proof. intros [_ _ _ Hp Hs Hm _ _ _]. unfold rest_of. rewrite length_drop. lia. Qed.

(** A full chunk that is not the last one. *)
Lemma TransferNextChunk_middle now ec c s :
  0 <= now < 5 * 2 ^ 40 -> ongoing c -> bytesSent c + ft_csize c < ft_fsize c ->
  let data := take (Z.to_nat (ft_csize c)) (rest_of c) in
  exists c', TransferNextChunk now ec c s =
      Ok (c', put_on_wire s ec (chunk_frame (chunk_of c now
        BVSESSIONREGULARMESSAGETYPE_FILE_TRANSFER_CHUNK_SENT data).1 data)) /\
    ongoing c' /\ rest_of c' = drop (Z.to_nat (ft_csize c)) (rest_of c) /\
    ft_csize c' = ft_csize c /\ ft_fsize c' = ft_fsize c /\ ftcid c' = ftcid c /\
    length data = Z.to_nat (ft_csize c).
Proof.
  intros Hn Hog Hlt data. pose proof (length_rest_of c Hog) as Hlr.
  destruct Hog as [Hst Hrun Hfail Hpos Hsz Hmore Hcs Hb Hk].
  assert (Hld : length data = Z.to_nat (ft_csize c)) by (unfold data; rewrite length_take; lia).
  unfold TransferNextChunk, f_read. rewrite Hst, Hfail, decide_False by done. fold (rest_of c). fold data.
  rewrite Hld, Nat.sub_diag, Nat.ltb_irrefl. cbn [zeros replicate]. rewrite app_nil_r.
  rewrite Z2Nat.id by lia. destruct (0 <? ft_csize c) eqn:E0; [|apply Z.ltb_ge in E0; lia].
  replace (u32 (bytesSent c + ft_csize c)) with (bytesSent c + ft_csize c) by wrap_lia.
  destruct (_ >=? _) eqn:E; [apply Z.geb_le in E; lia|].
  match goal with |- context [WriteFileChunkSync s ?ch ?n ec] =>
    destruct (WriteFileChunkSync_ok s ch n ec) as [b ->]; [unfold UINT32_MAX; lia|done|] end. sess. eexists. split; [done|].
  cbn [rest_of fhandle ft_update f_pos f_data ft_csize ft_fsize ftcid].
  split; [|split; [|done]].
  - split; cbn [ft_state ft_isRunning fhandle ft_update bytesSent ft_fsize ft_csize ftcid f_fail
      f_pos f_data]; try done; try lia.
  - unfold rest_of. cbn [fhandle ft_update f_pos f_data]. by rewrite drop_drop.
Qed.

(** The last chunk: zero-padded, and the worker stops. *)
Lemma TransferNextChunk_last now ec c s :
  0 <= now < 5 * 2 ^ 40 -> ongoing c -> ft_fsize c <= bytesSent c + ft_csize c ->
  let data := rest_of c ++ zeros (Z.to_nat (ft_csize c) - length (rest_of c)) in
  exists c', TransferNextChunk now ec c s =
      Ok (c', put_on_wire s ec (chunk_frame (chunk_of c now
        BVSESSIONREGULARMESSAGETYPE_FILE_TRANSFER_END data).1 data)) /\
    ft_isRunning c' = false /\ bytesSent c' = ft_fsize c /\
    length data = Z.to_nat (ft_csize c).
Proof.
  intros Hn Hog Hle data. pose proof (length_rest_of c Hog) as Hlr.
  destruct Hog as [Hst Hrun Hfail Hpos Hsz Hmore Hcs Hb Hk].
  assert (Hld : length data = Z.to_nat (ft_csize c))
    by (unfold data; rewrite length_app, length_zeros; lia).
  unfold TransferNextChunk, f_read. rewrite Hst, Hfail, decide_False by done. fold (rest_of c).
  rewrite (take_ge (rest_of c)) by lia. fold data.
  destruct (0 <? Z.of_nat (length (rest_of c))) eqn:E0; [|apply Z.ltb_ge in E0; lia].
  replace (u32 (bytesSent c + ft_csize c)) with (bytesSent c + ft_csize c) by wrap_lia.
  destruct (_ >=? _) eqn:E; [|rewrite Z.geb_leb in E; apply Z.leb_gt in E; lia].
  match goal with |- context [WriteFileChunkSync s ?ch ?n ec] =>
    destruct (WriteFileChunkSync_ok s ch n ec) as [b ->]; [unfold UINT32_MAX; lia|done|] end. sess. eexists. split; [done|].
  cbn [ft_isRunning ft_update bytesSent]. split; [done|]. split; [|done]. wrap_lia.
Qed.

(** How many packets carry [len] bytes, [csize] in each. *)
Definition packets (len csize : Z) : nat := Z.to_nat ((len + csize - 1) / csize).

Lemma packets_unique len csize n :
  0 < csize -> Z.of_nat n * csize < len <= (Z.of_nat n + 1) * csize -> packets len csize = S n.
Proof.
  intros Hc Hl. unfold packets. assert ((len + csize - 1) / csize = Z.of_nat n + 1) as ->; [|lia].
  symmetry. apply (Z.div_unique_pos _ _ _ (len + csize - 1 - csize * (Z.of_nat n + 1))); lia.
Qed.

Lemma packets_one len csize : 0 < len <= csize -> packets len csize = 1%nat.
Proof. intros Hl. apply packets_unique; lia. Qed.

Lemma packets_more len csize : 0 < csize < len -> packets len csize = S (packets (len - csize) csize).
Proof.
  intros Hl. pose proof (Z.div_pos (len - csize + csize - 1) csize ltac:(lia) ltac:(lia)) as Hd. unfold packets.
  replace (len + csize - 1) with (len - csize + csize - 1 + 1 * csize) by lia. rewrite Z.div_add by lia. lia.
Qed.

Lemma packets_le len csize : 0 < csize -> 0 < len -> (packets len csize <= Z.to_nat len)%nat.
Proof.
  intros Hc Hl. unfold packets. apply Z2Nat.inj_le; [apply Z.div_pos; lia|lia|].
  apply Z.div_le_upper_bound; [lia|]. nia.
Qed.

(** The iterations of the worker's loop, however its writes end. *)
Lemma worker_iterations clock errs fuel c s :
  transfer_clock_ok clock -> ongoing c ->
  let n := packets (Z.of_nat (length (rest_of c))) (ft_csize c) in
  exists c' s', LaunchFileTransfer fuel clock errs c s =
    Ok (if (n <=? fuel)%nat then Returned else OutOfFuel, c', s').
Proof.
  intros Hclk. revert c s. induction fuel as [|fuel IH]; intros c s Hog n;
    pose proof Hog as [_ Hrun Hfail _ _ Hmore Hcs _ _]; pose proof (length_rest_of c Hog) as Hlr.
  { cbn [LaunchFileTransfer]. rewrite Hrun. exists c, s.
    destruct (Z.lt_ge_cases (ft_csize c) (Z.of_nat (length (rest_of c)))); unfold n; [by rewrite packets_more by lia|].
    by rewrite packets_one by lia. }
  cbn [LaunchFileTransfer]. rewrite Hrun, Hfail.
  destruct (Z.lt_ge_cases (bytesSent c + ft_csize c) (ft_fsize c)) as [Hlt|Hge].
  - destruct (TransferNextChunk_middle (clock fuel) (errs fuel) c s (Hclk fuel) Hog Hlt)
      as (c1 & HT & Hog1 & Hr1 & Hc1 & _). rewrite HT. sess.
    match goal with |- context [LaunchFileTransfer fuel clock errs c1 ?x] => destruct (IH c1 x Hog1) as (c' & s' & ->) end. exists c', s'. do 2 f_equal. f_equal.
    unfold n. rewrite (packets_more _ (ft_csize c)) by lia. rewrite Hc1, Hr1, length_drop.
    replace (Z.of_nat (length (rest_of c) - Z.to_nat (ft_csize c))) with (Z.of_nat (length (rest_of c)) - ft_csize c) by lia.
    reflexivity.
  - destruct (TransferNextChunk_last (clock fuel) (errs fuel) c s (Hclk fuel) Hog Hge) as (c1 & HT & Hr1 & _). rewrite HT. sess.
    exists c1. eexists. unfold n. rewrite packets_one by lia. destruct fuel; cbn [LaunchFileTransfer]; by rewrite Hr1.
Qed.

(** The chunks of the worker's loop, from a context in progress. *)
Lemma worker_chunks fuel clock c s :
  transfer_clock_ok clock -> ongoing c -> (packets (Z.of_nat (length (rest_of c))) (ft_csize c) <= fuel)%nat ->
  exists c' chunks last,
    LaunchFileTransfer fuel clock (fun _ => None) c s =
      Ok (Returned, c', sent_on s (concat (map (fun x => chunk_frame x.1 x.2) chunks) ++
                                   chunk_frame last.1 last.2)) /\
    Forall (chunk_ok BVSESSIONREGULARMESSAGETYPE_FILE_TRANSFER_CHUNK_SENT (ft_csize c)) chunks /\
    chunk_ok BVSESSIONREGULARMESSAGETYPE_FILE_TRANSFER_END (ft_csize c) last /\
    Forall (fun x => fh_correlationKey x.1 = ftcid c) (chunks ++ [last]) /\
    take (length (rest_of c)) (concat (map snd chunks) ++ last.2) = rest_of c /\
    bytesSent c' = ft_fsize c /\
    length (chunks ++ [last]) = packets (Z.of_nat (length (rest_of c))) (ft_csize c).
Proof.
  intros Hclk. revert c s. induction fuel as [|fuel IH]; intros c s Hog Hf;
    pose proof Hog as [_ Hrun Hfail _ _ Hmore Hcs Hb Hk]; pose proof (length_rest_of c Hog) as Hlr.
  { destruct (Z.lt_ge_cases (ft_csize c) (Z.of_nat (length (rest_of c))));
      [rewrite packets_more in Hf by lia|rewrite packets_one in Hf by lia]; lia. }
  cbn [LaunchFileTransfer]. rewrite Hrun, Hfail.
  destruct (Z.lt_ge_cases (bytesSent c + ft_csize c) (ft_fsize c)) as [Hlt|Hge].
  - destruct (TransferNextChunk_middle (clock fuel) None c s (Hclk fuel) Hog Hlt)
      as (c1 & HT & Hog1 & Hr1 & Hc1 & Hf1 & Hk1 & Hld). cbv zeta in HT, Hld. rewrite HT. sess.
    set (data := take _ (rest_of c)) in *. set (fr := chunk_frame _ data). change (put_on_wire s None fr) with (sent_on s fr).
    assert (Hp : packets (Z.of_nat (length (rest_of c))) (ft_csize c) = S (packets (Z.of_nat (length (rest_of c1))) (ft_csize c1))).
    { rewrite packets_more, Hc1, Hr1, length_drop by lia. f_equal. f_equal. lia. }
    destruct (IH c1 (sent_on s fr) Hog1) as (c' & chunks & last & HL & Hch & Hlast & Hkeys & Hdata & Hsent & Hnum); [lia|].
    rewrite HL, sent_on_app, Hp, <- Hnum.
    exists c', (chunk_of c (clock fuel) BVSESSIONREGULARMESSAGETYPE_FILE_TRANSFER_CHUNK_SENT data :: chunks), last.
    cbn [map concat]. rewrite <- !(assoc_L (++)). rewrite Hc1, Hf1, Hk1, Hr1 in *.
    split; [done|]. split; [constructor; [by apply chunk_of_ok|done]|]. split; [done|].
    split; [by constructor|]. split; [|done].
    cbn [chunk_of snd]. rewrite take_app_ge by lia. rewrite Hld.
    rewrite length_drop in Hdata. rewrite Hdata. unfold data. apply take_drop.
  - destruct (TransferNextChunk_last (clock fuel) None c s (Hclk fuel) Hog Hge) as (c1 & HT & Hr1 & Hb1 & Hld).
    cbv zeta in HT, Hld. rewrite HT. sess.
    exists c1, [], (chunk_of c (clock fuel) BVSESSIONREGULARMESSAGETYPE_FILE_TRANSFER_END
      (rest_of c ++ zeros (Z.to_nat (ft_csize c) - length (rest_of c)))).
    cbn [map concat app]. split; [destruct fuel; cbn [LaunchFileTransfer]; by rewrite Hr1|].
    split; [constructor|]. split; [by apply chunk_of_ok|]. split; [by repeat constructor|].
    split; [|split; [done|by rewrite packets_one by lia]]. cbn [chunk_of snd]. by rewrite take_app_length.
Qed.

(** The header of the [BEGIN] frame of a context. *)
Definition begin_header (c : BVFileTransferContext) (now : Z) : BVTCPFileHeader :=
  ConstructFileHeader now BVSESSIONREGULARMESSAGETYPE_FILE_TRANSFER_BEGIN (ftcid c)
    (file_metadata (ft_csize c) (ft_fsize c)).

Definition begin_text (c : BVFileTransferContext) (s : BVTCPSession) : list ascii :=
  chars (thisMachineServiceName s +:+ "|" +:+ ft_fname c).

Lemma TransferBegin_ok now ec c s :
  TransferBegin now ec c s =
    Ok (ft_update c (fhandle c) FILETRANSFERSTATE_ONGOING (bytesSent c) (ft_isRunning c)
          (ft_progress c),
        put_on_wire s ec (begin_frame (begin_header c now) (begin_text c s))).
Proof.
  unfold TransferBegin, WriteFileChunkSync. rewrite encode_file_frame_bytes by done. reflexivity.
Qed.

Lemma begin_header_ok c now :
  0 <= now < 5 * 2 ^ 40 -> 0 <= ftcid c < 2 ^ 32 -> 0 <= ft_csize c < 2 ^ 32 ->
  0 <= ft_fsize c < 2 ^ 32 -> file_frame_ok (begin_header c now).
Proof.
  intros Hn Hk Hc Hf. destruct (metadata_fields _ _ Hc Hf) as (_ & _ & Hm).
  split; [split|]; cbn [begin_header ConstructFileHeader fh_correlationKey fh_timestamp fh_msgType
    fh_metadata]; try done; wrap_lia.
Qed.

(** A context made for a file of less than 4 GB minus one chunk, right after
    [BEGIN]. *)
Lemma made_ongoing fs ref path id c :
  BVFileTransferContext_make true fs ref path id = Ok c ->
  (forall data, fs !! path = Some data ->
     0 < Z.of_nat (length data) < 2 ^ 32 - MAX_FILE_CHUNK_SIZE_BYTES_1MB) ->
  0 <= id < 2 ^ 32 ->
  exists data, fs !! path = Some data /\ ft_fsize c = Z.of_nat (length data) /\ ftcid c = id /\
    ft_fname c = filename path /\ ft_isRunning c = true /\ f_fail (fhandle c) = false /\
    ft_state c = FILETRANSFERSTATE_FIRST_CHUNK /\ ft_csize c = DetermineChunkSize (ft_fsize c) /\
    let c1 := ft_update c (fhandle c) FILETRANSFERSTATE_ONGOING (bytesSent c) (ft_isRunning c)
                (ft_progress c) in
    ongoing c1 /\ rest_of c1 = data.
Proof.
  intros Hmk Hsz Hid. unfold BVFileTransferContext_make in Hmk.
  destruct (fs !! path) as [data|] eqn:E; [|done]. injection Hmk as <-. exists data.
  specialize (Hsz data eq_refl). unfold MAX_FILE_CHUNK_SIZE_BYTES_1MB in Hsz.
  set (n := Z.of_nat (length data)) in *.
  pose proof (DetermineChunkSize_bounds n) as Hb. unfold MAX_FILE_CHUNK_SIZE_BYTES_1MB in Hb.
  assert (Hu : u32 n = n) by wrap_lia.
  cbn -[DetermineChunkSize u32]. fold n. rewrite Hu.
  do 8 (split; [done|]). split; [|done].
  split; cbn -[DetermineChunkSize]; try done; fold n; lia.
Qed.

(** A worker whose file has nothing to read: [BEGIN], and it stops. *)
Lemma empty_run fuel clock c s :
  ft_state c = FILETRANSFERSTATE_FIRST_CHUNK -> ft_isRunning c = true ->
  f_fail (fhandle c) = false -> rest_of c = [] -> 0 < ft_csize c ->
  exists c', LaunchFileTransfer (S (S (S fuel))) clock (fun _ => None) c s =
    Ok (Returned, c', sent_on s (begin_frame (begin_header c (clock (S (S fuel)))) (begin_text c s))).
Proof.
  intros Hst Hrun Hfail Hrest Hc. cbn [LaunchFileTransfer]. rewrite Hrun, Hfail.
  unfold TransferNextChunk, f_read. rewrite Hst, decide_True by done. rewrite TransferBegin_ok. sess.
  cbn [ft_isRunning ft_update fhandle ft_state ft_csize]. rewrite Hrun, Hfail.
  rewrite decide_False by done. fold (rest_of c). rewrite Hrest, take_nil. cbn [length Z.of_nat Z.ltb Z.compare].
  sess. cbn [ft_isRunning ft_update]. by eexists.
Qed.

(** ** Properties *)

(** All iterations of the worker for one file: [BEGIN] and the packets. *)
Definition iterations (data : list ascii) (c : BVFileTransferContext) : nat :=
  S (packets (Z.of_nat (length data)) (ft_csize c)).

Lemma iterations_le data c : (0 < length data)%nat -> 0 < ft_csize c -> (iterations data c <= length data + 1)%nat.
Proof.
  intros Hd Hc. unfold iterations. pose proof (packets_le (Z.of_nat (length data)) (ft_csize c) Hc ltac:(lia)) as Hp. lia.
Qed.

Lemma made_iterations fs ref path id c data :
  BVFileTransferContext_make true fs ref path id = Ok c -> fs !! path = Some data ->
  0 < Z.of_nat (length data) < 2 ^ 32 - MAX_FILE_CHUNK_SIZE_BYTES_1MB -> 0 <= id < 2 ^ 32 ->
  (iterations data c <= length data + 1)%nat.
Proof.
  intros Hmk Hfs Hsz Hid. destruct (made_ongoing fs ref path id c Hmk) as (d & Hd & Ho); [|done|].
  { intros d Hd. rewrite Hfs in Hd. by injection Hd as <-. }
  destruct Ho as (_ & _ & _ & _ & _ & _ & _ & Hog & _). apply iterations_le; [lia|].
  pose proof (og_csize _ Hog) as Hc. exact Hc.
Qed.

Lemma worker_stops fs ref path id c data s clock errs fuel :
  BVFileTransferContext_make true fs ref path id = Ok c -> fs !! path = Some data ->
  0 < Z.of_nat (length data) < 2 ^ 32 - MAX_FILE_CHUNK_SIZE_BYTES_1MB -> 0 <= id < 2 ^ 32 ->
  transfer_clock_ok clock ->
  exists c' s', LaunchFileTransfer fuel clock errs c s =
    Ok (if (iterations data c <=? fuel)%nat then Returned else OutOfFuel, c', s').
Proof.
  intros Hmk Hfs Hsz Hid Hclk.
  destruct (made_ongoing fs ref path id c Hmk) as (d & Hd & _ & _ & _ & Hrun & Hfail & Hst & _ & Hog & Hrest); [|done|].
  { intros d Hd. rewrite Hfs in Hd. by injection Hd as <-. }
  assert (d = data) as -> by congruence. destruct fuel as [|fuel]; cbn [LaunchFileTransfer]; rewrite Hrun; [by exists c, s|].
  rewrite Hfail. unfold TransferNextChunk. rewrite Hst, decide_True by done. rewrite TransferBegin_ok. sess. rewrite Hrun in *.
  match goal with |- context [LaunchFileTransfer fuel clock errs ?x ?y] =>
    destruct (worker_iterations clock errs fuel x y Hclk Hog) as (c' & s' & ->) end.
  exists c', s'. by rewrite Hrest.
Qed.

Lemma worker_sends_file fs ref path id c data s clock fuel :
  BVFileTransferContext_make true fs ref path id = Ok c -> fs !! path = Some data ->
  0 < Z.of_nat (length data) < 2 ^ 32 - MAX_FILE_CHUNK_SIZE_BYTES_1MB -> 0 <= id < 2 ^ 32 ->
  transfer_clock_ok clock -> (iterations data c <= fuel)%nat ->
  exists c' hb chunks last,
    LaunchFileTransfer fuel clock (fun _ => None) c s =
      Ok (Returned, c', sent_on s (transfer_bytes hb
        (chars (thisMachineServiceName s +:+ "|" +:+ filename path)) chunks last)) /\
    file_frame_ok hb /\ fh_msgType hb = BVSESSIONREGULARMESSAGETYPE_FILE_TRANSFER_BEGIN /\
    fh_metadata hb = file_metadata (ft_csize c) (Z.of_nat (length data)) /\
    Forall (chunk_ok BVSESSIONREGULARMESSAGETYPE_FILE_TRANSFER_CHUNK_SENT (ft_csize c)) chunks /\
    chunk_ok BVSESSIONREGULARMESSAGETYPE_FILE_TRANSFER_END (ft_csize c) last /\
    fh_correlationKey hb = id /\ Forall (fun x => fh_correlationKey x.1 = id) (chunks ++ [last]) /\
    take (length data) (concat (map snd chunks) ++ last.2) = data /\
    bytesSent c' = Z.of_nat (length data) /\
    S (length (chunks ++ [last])) = iterations data c.
Proof.
  intros Hmk Hfs Hsz Hid Hclk Hf. unfold iterations in *. destruct fuel as [|fuel]; [lia|].
  destruct (made_ongoing fs ref path id c Hmk) as
    (d & Hd & Hfsz & Hk & Hnm & Hrun & Hfail & Hst & _ & Hog & Hrest); [|done|].
  { intros d Hd. rewrite Hfs in Hd. by injection Hd as <-. }
  assert (d = data) as -> by congruence. cbn [LaunchFileTransfer]. rewrite Hrun, Hfail.
  unfold TransferNextChunk. rewrite Hst, decide_True by done. rewrite TransferBegin_ok. sess.
  rewrite Hrun in *. change (put_on_wire s None ?f) with (sent_on s f).
  destruct (worker_chunks fuel clock _ (sent_on s (begin_frame (begin_header c (clock fuel)) (begin_text c s)))
    Hclk Hog) as (c' & chunks & last & HL & Hch & Hlast & Hkeys & Hdata & Hsent & Hnum); [rewrite Hrest; cbn [ft_csize ft_update]; lia|].
  rewrite HL, sent_on_app. exists c', (begin_header c (clock fuel)), chunks, last.
  unfold transfer_bytes, begin_text. rewrite Hnm. split; [done|].
  cbn [ft_csize ft_update ftcid ft_fsize] in *. rewrite Hrest in Hdata, Hnum. rewrite Hk in *.
  pose proof (og_csize _ Hog) as Hc0. pose proof (og_bound _ Hog) as Hcb.
  cbn [ft_csize ft_update ft_fsize] in Hc0, Hcb.
  split; [apply begin_header_ok; [apply Hclk|lia..]|]. split; [done|].
  split; [unfold begin_header; cbn; by rewrite Hfsz|].
  do 2 (split; [done|]). split; [exact Hk|]. do 2 (split; [done|]). split; [congruence|]. by rewrite Hnum.
Qed.

(** C11.  Sending a non-empty file that can be opened, of less than 4 GB minus a
    chunk, with timestamps that fit their field.  However the blocking writes end, the worker stops after exactly one
    iteration for [BEGIN] and one for each packet of the chosen chunk size that
    the file takes ([iterations]), no sooner and no later.  When the writes
    succeed, exactly one complete transfer is on the wire: [BEGIN] with the
    sender's name, the file name and both sizes, then one frame per packet of
    exactly the announced chunk size under the offer's key, the last of them an
    [END]; their payloads, cut to the announced size, are the file. *)
Theorem transfer_sends_whole_file fs ref path id c data s clock :
  BVFileTransferContext_make true fs ref path id = Ok c -> fs !! path = Some data ->
  0 < Z.of_nat (length data) < 2 ^ 32 - MAX_FILE_CHUNK_SIZE_BYTES_1MB -> 0 <= id < 2 ^ 32 ->
  transfer_clock_ok clock ->
  (forall errs fuel, exists c' s', LaunchFileTransfer fuel clock errs c s =
     Ok (if (iterations data c <=? fuel)%nat then Returned else OutOfFuel, c', s')) /\
  forall fuel, (iterations data c <= fuel)%nat ->
  exists c' hb chunks last,
    LaunchFileTransfer fuel clock (fun _ => None) c s =
      Ok (Returned, c', sent_on s (transfer_bytes hb
        (chars (thisMachineServiceName s +:+ "|" +:+ filename path)) chunks last)) /\
    file_frame_ok hb /\ fh_msgType hb = BVSESSIONREGULARMESSAGETYPE_FILE_TRANSFER_BEGIN /\
    fh_metadata hb = file_metadata (ft_csize c) (Z.of_nat (length data)) /\
    Forall (chunk_ok BVSESSIONREGULARMESSAGETYPE_FILE_TRANSFER_CHUNK_SENT (ft_csize c)) chunks /\
    chunk_ok BVSESSIONREGULARMESSAGETYPE_FILE_TRANSFER_END (ft_csize c) last /\
    fh_correlationKey hb = id /\ Forall (fun x => fh_correlationKey x.1 = id) (chunks ++ [last]) /\
    take (length data) (concat (map snd chunks) ++ last.2) = data /\
    bytesSent c' = Z.of_nat (length data) /\
    S (length (chunks ++ [last])) = iterations data c.
Proof.
  intros Hmk Hfs Hsz Hid Hclk. split; [intros errs fuel; by apply (worker_stops fs ref path id)|].
  intros fuel. by apply (worker_sends_file fs ref path id).
Qed.

(** An empty file is announced but never finished: the worker sends
    [BEGIN] and stops without an [END]; a receiver that handled that [BEGIN]
    has left frame mode and waits for a chunk frame that never comes, so the
    bytes of the next messages are taken for chunk data. *)
Theorem empty_file_strands_receiver fs ref path id c s clock fuel {M} `{SessionManagerLaws M}
    P e (r : BVTCPSession) (m : M) l :
  BVFileTransferContext_make true fs ref path id = Ok c -> fs !! path = Some [] ->
  0 <= id < 2 ^ 32 -> transfer_clock_ok clock -> (2 < fuel)%nat ->
  (length (begin_text c s) <= 116)%nat -> NUL ∉ begin_text c s ->
  eager_read P = false -> listening r -> s_state r = BVSESSIONSTATE_ESTABLISHED ->
  rx (sock r) = [] -> app_mail m l ->
  exists c' bytes r' m',
    LaunchFileTransfer fuel clock (fun _ => None) c s = Ok (Returned, c', sent_on s bytes) /\
    complete_read P e (receive r bytes) m = Ok (Some (r', m')) /\ receiving r' /\
    forall more, (length more < 64 + 21)%nat -> complete_read P e (receive r' more) m' = Ok None.
Proof.
  intros Hmk Hfs Hid Hclk Hf Ht Hn HP Hli Hst Hrx Hm.
  unfold BVFileTransferContext_make in Hmk. rewrite Hfs in Hmk. injection Hmk as <-.
  destruct fuel as [|[|[|fuel]]]; try lia. set (c := MkFTC _ _ _ _ _ _ _ _ _ _) in *.
  destruct (empty_run fuel clock c s eq_refl eq_refl eq_refl eq_refl ltac:(vm_compute; reflexivity)) as (c' & HL).
  exists c', (begin_frame (begin_header c (clock (S (S fuel)))) (begin_text c s)).
  set (bytes := begin_frame _ _).
  destruct (begin_handled P e (receive r bytes) m l (begin_header c (clock (S (S fuel)))) (begin_text c s)
      64 0 []) as (m' & Hcr & _).
  - exact HP.
  - destruct Hli as [H1 H2 H3]. by split.
  - exact Hst.
  - by apply begin_header_ok.
  - exact Hn.
  - exact Ht.
  - reflexivity.
  - reflexivity.
  - lia.
  - lia.
  - lia.
  - unfold receive. sess. by rewrite Hrx, app_nil_r.
  - exact Hm.
  - exists (chunk_mode (receive r bytes) 64 0 []), m'. split.
    { exact HL. }
    split; [exact Hcr|]. split.
    + split; unfold chunk_mode; sess; [lia|apply length_zeros| |done|done].
      by eexists; split; [done|apply length_zeros].
    + intros more Hl. unfold complete_read, receive, chunk_mode. sess. cbn [ro_len ro_done app].
      destruct (_ <? _)%nat eqn:E; [done|]. apply Nat.ltb_ge in E. change (Z.to_nat 64) with 64%nat in E.
      unfold FILE_HEADER_SIZE_BYTES in E. lia.
Qed.

(** The chunk size is between 64 bytes and one (mistyped) megabyte; the
    largest size is not only chosen for files of 5 MB and more but also for
    the sizes the comparisons leave out: 1000 to 1024 bytes and exactly 8000,
    64000, 256000 and 1000000 bytes. *)
Theorem DetermineChunkSize_largest fsize :
  64 <= DetermineChunkSize fsize <= MAX_FILE_CHUNK_SIZE_BYTES_1MB /\
  (DetermineChunkSize fsize = MAX_FILE_CHUNK_SIZE_BYTES_1MB <->
   1000 <= fsize <= 1024 \/ fsize = 8000 \/ fsize = 64000 \/ fsize = 256000 \/
   fsize = 1000000 \/ 5000000 <= fsize).
Proof.
  split; [apply DetermineChunkSize_bounds|].
  unfold DetermineChunkSize, MIN_FILE_CHUNK_SIZE_BYTES_256B, FILE_SIZE_BYTES_1KB,
    FILE_CHUNK_SIZE_BYTES_1KB, FILE_SIZE_BYTES_8KB, FILE_SIZE_BYTES_64KB, FILE_SIZE_BYTES_256KB,
    FILE_SIZE_BYTES_1MB, FILE_SIZE_BYTES_5MB, FILE_CHUNK_SIZE_BYTES_512B, FILE_CHUNK_SIZE_BYTES_4KB,
    FILE_CHUNK_SIZE_BYTES_32KB, FILE_CHUNK_SIZE_BYTES_64KB, FILE_CHUNK_SIZE_BYTES_512KB,
    MAX_FILE_CHUNK_SIZE_BYTES_1MB.
  destruct (fsize <? 256) eqn:E1; [lia|]. destruct (fsize <? 1000) eqn:E2; [lia|].
  destruct (fsize >? 1024) eqn:E3, (fsize <? 8000) eqn:E4; cbn [andb]; try lia;
  destruct (fsize >? 8000) eqn:E5, (fsize <? 64000) eqn:E6; cbn [andb]; try lia;
  destruct (fsize >? 64000) eqn:E7, (fsize <? 256000) eqn:E8; cbn [andb]; try lia;
  destruct (fsize >? 256000) eqn:E9, (fsize <? 1000000) eqn:E10; cbn [andb]; try lia;
  destruct (fsize >? 1000000) eqn:E11, (fsize <? 5000000) eqn:E12; cbn [andb]; lia.
Qed.

(** A file that became shorter than the size read at the start makes the
    worker spin for ever: after the short read the stream has failed, the
    running flag is still set, and no [END] is ever sent. *)
Theorem shrunk_file_spins clock errs c s fuel :
  ft_state c = FILETRANSFERSTATE_ONGOING -> ft_isRunning c = true -> f_fail (fhandle c) = false ->
  0 < Z.of_nat (length (rest_of c)) < ft_csize c -> ft_csize c <= UINT32_MAX ->
  u32 (bytesSent c + ft_csize c) < ft_fsize c ->
  exists c' s', LaunchFileTransfer fuel clock errs c s = Ok (OutOfFuel, c', s') /\
    ft_isRunning c' = true.
Proof.
  intros Hst Hrun Hfail Hl Hc Hb. destruct fuel as [|fuel]; cbn [LaunchFileTransfer].
  { rewrite Hrun. by exists c, s. }
  rewrite Hrun, Hfail. unfold TransferNextChunk, f_read.
  rewrite Hst, decide_False, Hfail by done. fold (rest_of c). rewrite (take_ge (rest_of c)) by lia.
  destruct (0 <? _) eqn:E0; [|apply Z.ltb_ge in E0; lia].
  destruct (_ >=? _) eqn:E; [apply Z.geb_le in E; lia|].
  unfold WriteFileChunkSync. rewrite encode_file_frame_bytes by (unfold UINT32_MAX in *; lia). sess.
  assert (Hspin : forall n c1 s1, ft_isRunning c1 = true -> f_fail (fhandle c1) = true ->
    LaunchFileTransfer n clock errs c1 s1 = Ok (OutOfFuel, c1, s1)).
  { intros n c1 s1 H1 H2. induction n as [|n IH]; cbn [LaunchFileTransfer]; by rewrite H1, ?H2. }
  assert (Hff : (length (rest_of c) <? Z.to_nat (ft_csize c))%nat = true) by (apply Nat.ltb_lt; lia).
  destruct (errs fuel); sess; rewrite Hspin by done; by eexists _, _.
Qed.

(** C38.  A chat line sent while the worker is between two packets of a file:
    the frames cross on the connection, each whole, and when the line leaves
    before the last packet the receiver takes it for the start of a packet: it
    hears nothing of the line, never sees the end of the file, and waits for a
    rest that does not come.  For chunks longer than a message frame, and a
    line whose third character is no packet type, such as any printable one. *)
Theorem line_in_transfer_loses_both P now c s cm hb text fsize chunks :
  ongoing c -> ft_fsize c <= bytesSent c + ft_csize c -> 0 <= now < 5 * 2 ^ 40 -> 117 < ft_csize c < 2 ^ 32 - 21 ->
  writable s -> s_state s <> BVSESSIONSTATE_CLOSED -> length (msg_payload cm) = PAYLOAD_SIZE_BYTES ->
  file_type_of cm <> BVSESSIONREGULARMESSAGETYPE_FILE_TRANSFER_CHUNK_SENT ->
  file_type_of cm <> BVSESSIONREGULARMESSAGETYPE_FILE_TRANSFER_END ->
  file_frame_ok hb -> NUL ∉ text -> (length text <= 116)%nat ->
  fh_msgType hb = BVSESSIONREGULARMESSAGETYPE_FILE_TRANSFER_BEGIN ->
  fh_metadata hb = file_metadata (ft_csize c) fsize -> 0 <= fsize < 2 ^ 32 ->
  Forall (chunk_ok BVSESSIONREGULARMESSAGETYPE_FILE_TRANSFER_CHUNK_SENT (ft_csize c)) chunks ->
  tx (sock s) = begin_frame hb text ++ concat (map (fun x => chunk_frame x.1 x.2) chunks) ->
  exists s1 c' s2, WriteMessageFrame P s cm = Ok s1 /\
    TransferNextChunk now None c (complete_write P s1) = Ok (c', s2) /\ ft_isRunning c' = false /\
    forall M (HM : SessionManager M) (HL : SessionManagerLaws M) e r (m : M) l fuel,
      eager_read P = false -> listening r -> s_state r = BVSESSIONSTATE_ESTABLISHED ->
      rx (sock r) = tx (sock s2) -> app_mail m l -> (length chunks + 2 < fuel)%nat ->
      exists r' m', pump P e fuel r m = Ok (Blocked, r', m') /\ receiving r' /\
        length (rx (sock r')) = MESSAGE_FRAME_SIZE_BYTES /\
        app_mail m' (l ++
          [file_event BVEVENTTYPE_APP_FILE_TRANSFER_BEGIN (fh_correlationKey hb) (ft_csize c) fsize text] ++
          map (chunk_event BVEVENTTYPE_APP_FILE_TRANSFER_CHUNK_SENT (ft_csize c) fsize) chunks).
Proof.
  intros Hog Hle Hn Hcs Hw Hst Hp Hn1 Hn2 Hff Hnul Hl Ht Hmd Hf Hok Htx.
  destruct (TransferNextChunk_last now None c (complete_write P (writing P s (message_bytes cm))) Hn Hog Hle)
    as (c' & HT & Hrun & _ & Hld).
  set (data := rest_of c ++ _) in *. set (h := (chunk_of c now _ data).1) in *.
  eexists _, c', _. split; [by apply WriteMessageFrame_ok|]. split; [exact HT|]. split; [exact Hrun|].
  intros M HM HL e r m l fuel HP Hli Hstr Hrx Hm Hfu.
  apply (message_in_transfer P e r m l hb text (ft_csize c) fsize chunks cm (h, data) fuel);
    try done; [lia|lia| |].
  { cbn [fst snd]. unfold chunk_frame. rewrite length_app, length_file_header_bytes, Hld.
    unfold FILE_HEADER_SIZE_BYTES. lia. }
  cbn [fst snd]. rewrite Hrx. unfold put_on_wire. sess. rewrite (written_bytes P s _ Hst (length_message_frame _ Hp)), Htx.
  by rewrite <- !(assoc_L (++)).
Qed.

(** ** Concrete instances *)

Section TransferWitnesses.

#[local] Existing Instance ex_manager.
#[local] Existing Instance ex_manager_laws.

Definition ex_fs : filesystem := {[ "/tmp/x.txt" := chars "hello, world"; "/tmp/e" := [] ]}.
Definition ex_clock : nat -> Z := fun n => 1700000000000 + 0 * Z.of_nat n.

Lemma ex_clock_ok : transfer_clock_ok ex_clock.
Proof. intros n. unfold ex_clock. lia. Qed.

Definition ex_ctx : BVFileTransferContext :=
  match BVFileTransferContext_make true ex_fs 0 "/tmp/x.txt" 7 with
  | Ok c => c
  | Err _ => MkFTC (FStream false [] 0 true) 0 0 "" 0 FILETRANSFERSTATE_FIRST_CHUNK 0 0 false None
  end.

Definition ex_sender : BVTCPSession := ex_session BVSESSIONSTATE_ESTABLISHED [].

Lemma transfer_sends_whole_file_witness :
  (exists c' s', LaunchFileTransfer 1 ex_clock (fun _ => Some 3%nat) ex_ctx ex_sender = Ok (OutOfFuel, c', s')) /\
  exists c' hb chunks last,
    LaunchFileTransfer 2 ex_clock (fun _ => None) ex_ctx ex_sender =
      Ok (Returned, c', sent_on ex_sender (transfer_bytes hb (chars "ann|x.txt") chunks last)) /\
    take 12 (concat (map snd chunks) ++ last.2) = chars "hello, world".
Proof.
  destruct (transfer_sends_whole_file ex_fs 0 "/tmp/x.txt" 7 ex_ctx (chars "hello, world") ex_sender
    ex_clock ltac:(vm_compute; reflexivity) ltac:(vm_compute; reflexivity)
    ltac:(vm_compute; split; reflexivity) ltac:(lia) ex_clock_ok) as [Hn Hs].
  split; [exact (Hn (fun _ => Some 3%nat) 1%nat)|].
  destruct (Hs 2%nat) as (c' & hb & chunks & last & HL & _ & _ & _ & _ & _ & _ & _ & Hd & _);
    [apply leb_complete; vm_compute; reflexivity|].
  exists c', hb, chunks, last. split; [exact HL|exact Hd].
Defined.

Definition ex_empty_ctx : BVFileTransferContext :=
  MkFTC (FStream true [] 0 false) 0 7 "e" 0 FILETRANSFERSTATE_FIRST_CHUNK 64 0 true None.

Lemma ex_begin_text_ok : NUL ∉ begin_text ex_empty_ctx ex_sender.
Proof. apply (bool_decide_unpack _). vm_compute. exact I. Qed.

Lemma empty_file_strands_receiver_witness :
  exists c' bytes r' m',
    LaunchFileTransfer 3 ex_clock (fun _ => None) ex_empty_ctx ex_sender =
      Ok (Returned, c', sent_on ex_sender bytes) /\
    complete_read ex_lazy ex_env (receive ex_sender bytes) ([] : list BVMessage) = Ok (Some (r', m')) /\
    complete_read ex_lazy ex_env (receive r' (zeros 84)) m' = Ok None.
Proof.
  destruct (empty_file_strands_receiver ex_fs 0 "/tmp/e" 7 ex_empty_ctx ex_sender ex_clock 3
    ex_lazy ex_env ex_sender ([] : list BVMessage) [] ltac:(vm_compute; reflexivity)
    ltac:(vm_compute; reflexivity) ltac:(lia) ex_clock_ok ltac:(lia) ltac:(vm_compute; lia)
    ex_begin_text_ok eq_refl (ex_session_listening _ _) eq_refl eq_refl ex_mail_nil)
    as (c' & bytes & r' & m' & H1 & H2 & _ & H3).
  exists c', bytes, r', m'. split; [exact H1|]. split; [exact H2|]. apply H3. apply leb_complete.
  vm_compute. reflexivity.
Defined.

Definition ex_shrunk : BVFileTransferContext :=
  MkFTC (FStream true (chars "abc") 0 false) 200 7 "x" 0 FILETRANSFERSTATE_ONGOING 64 0 true None.

Lemma shrunk_file_spins_witness :
  exists c' s', LaunchFileTransfer 9 ex_clock (fun _ => None) ex_shrunk ex_sender =
    Ok (OutOfFuel, c', s').
Proof.
  destruct (shrunk_file_spins ex_clock (fun _ => None) ex_shrunk ex_sender 9 eq_refl eq_refl eq_refl
    ltac:(vm_compute; split; reflexivity) ltac:(vm_compute; discriminate) ltac:(vm_compute; reflexivity))
    as (c' & s' & HL & _).
  exists c', s'. exact HL.
Defined.

Definition ex_packet_ctx : BVFileTransferContext :=
  MkFTC (FStream true (zeros 200) 0 false) 200 7 "x" 0 FILETRANSFERSTATE_ONGOING 256 0 true None.

Definition ex_begun : BVTCPSession :=
  sent_on ex_sender (begin_frame (begin_header ex_packet_ctx 1700000000000) (begin_text ex_packet_ctx ex_sender)).

Lemma line_in_transfer_loses_both_witness :
  exists s1 c' s2, WriteMessageFrame ex_lazy ex_begun (ex_chat "hello") = Ok s1 /\
    TransferNextChunk 1700000000000 None ex_packet_ctx (complete_write ex_lazy s1) = Ok (c', s2) /\
    exists r' m', pump ex_lazy ex_env 3 (receive ex_sender (tx (sock s2))) ([] : list BVMessage) = Ok (Blocked, r', m') /\
      receiving r' /\
      m' = [file_event BVEVENTTYPE_APP_FILE_TRANSFER_BEGIN 7 256 200 (begin_text ex_packet_ctx ex_sender)].
Proof.
  assert (Hog : ongoing ex_packet_ctx) by (split; vm_compute; (reflexivity || (split; [discriminate|reflexivity]))).
  destruct (line_in_transfer_loses_both ex_lazy 1700000000000 ex_packet_ctx ex_begun (ex_chat "hello")
    (begin_header ex_packet_ctx 1700000000000) (begin_text ex_packet_ctx ex_sender) 200 [] Hog
    ltac:(vm_compute; discriminate) ltac:(lia) ltac:(vm_compute; split; reflexivity) ltac:(by split) ltac:(discriminate)
    eq_refl ltac:(vm_compute; discriminate) ltac:(vm_compute; discriminate)
    (begin_header_ok ex_packet_ctx 1700000000000 ltac:(lia) ltac:(vm_compute; split; [discriminate|reflexivity])
      ltac:(vm_compute; split; [discriminate|reflexivity]) ltac:(vm_compute; split; [discriminate|reflexivity]))
    ltac:(apply (bool_decide_unpack _); vm_compute; exact I) ltac:(vm_compute; lia) eq_refl eq_refl ltac:(lia)
    (Forall_nil_2 _) ltac:(vm_compute; reflexivity)) as (s1 & c' & s2 & H1 & H2 & _ & H3).
  exists s1, c', s2. split; [exact H1|]. split; [exact H2|].
  destruct (H3 _ _ _ ex_env (receive ex_sender (tx (sock s2))) [] [] 3%nat eq_refl
    ltac:(apply receive_listening, ex_session_listening) eq_refl eq_refl ex_mail_nil ltac:(simpl; lia))
    as (r' & m' & Hp & Hr & _ & Hm).
  exists r', m'. split; [exact Hp|]. split; [exact Hr|exact Hm].
Defined.

End TransferWitnesses.
