(* ===== verification/ReceivedFile.v ===== *)
(** * Assembling a received file ([include/BVReceivedFile.hpp])

    The file system is its regular files, keyed by the path string the
    program opens; whether the operating system lets a path be created or a
    directory be made is a parameter of it. *)

From Stdlib Require Import ZArith Lia Ascii String.
From S2P Require Import Prelude Common.

Record FileSystem : Type := MkFS {
  files : gmap string (list ascii);
  can_open : string -> bool;      (* an output stream on the path opens *)
  can_mkdir : string -> bool;     (* create_directories reports no error *)
  can_write : string -> bool      (* writes on an open stream succeed *)
}.

Definition set_file (fs : FileSystem) (p : string) (l : list ascii) : FileSystem :=
  MkFS (<[ p := l ]> (files fs)) (can_open fs) (can_mkdir fs) (can_write fs).

(** ** Paths *)

Definition is_absolute (p : string) : bool :=
  match p with String "/" _ => true | _ => false end.

Fixpoint ends_with_slash (l : list ascii) : bool :=
  match l with
  | [] => true                       (* the empty path has no filename either *)
  | [c] => Ascii.eqb c "/"
  | _ :: l => ends_with_slash l
  end.

(** [std::filesystem::path::operator/]: an absolute right operand replaces
    the left one; a separator is added when the left one has a filename. *)
Definition path_div (a b : string) : string :=
  if is_absolute b then b
  else if ends_with_slash (chars a) then a +:+ b
  else a +:+ "/" +:+ b.

Definition DirFor (root serviceName : string) : string :=
  path_div (path_div root "data") serviceName.

Definition PathFor (root serviceName fname : string) : string :=
  path_div (DirFor root serviceName) fname.

(** ** Operations *)

(** [Begin]: make the directory, start the file empty. *)
Definition Begin (fs : FileSystem) (root serviceName fname : string) : BVStatus * FileSystem :=
  let dirpath := DirFor root serviceName in
  let filepath := PathFor root serviceName fname in
  if negb (can_mkdir fs dirpath) then (BVSTATUS_FATAL_ERROR, fs)
  else if negb (can_open fs filepath) then (BVSTATUS_FATAL_ERROR, fs)
  else (BVSTATUS_OK, set_file fs filepath []).

(** Opening in append mode creates a missing file; a failing write leaves
    what was there. *)
Definition append (fs : FileSystem) (p : string) (data : list ascii) : bool * FileSystem :=
  let old := default [] (files fs !! p) in
  if can_write fs p then (true, set_file fs p (old ++ data)) else (false, set_file fs p old).

Definition AppendChunk (fs : FileSystem) (root serviceName fname : string) (data : list ascii)
    : BVStatus * FileSystem :=
  let p := PathFor root serviceName fname in
  if negb (can_open fs p) then (BVSTATUS_FATAL_ERROR, fs)
  else let '(ok, fs) := append fs p data in
       (if ok then BVSTATUS_OK else BVSTATUS_NOK, fs).

(** [std::filesystem::resize_file]: cut, or extend with zeros; an error when
    there is no such file. *)
Definition resize_file (fs : FileSystem) (p : string) (n : nat) : bool * FileSystem :=
  match files fs !! p with
  | None => (false, fs)
  | Some l => (true, set_file fs p (take n l ++ zeros (n - length l)))
  end.

(** [Finish]: append the last chunk, then trim to the advertised size.  The
    state of the write is not looked at. *)
Definition Finish (fs : FileSystem) (root serviceName fname : string) (finalData : list ascii)
    (fsize : nat) : BVStatus * FileSystem :=
  let p := PathFor root serviceName fname in
  if negb (can_open fs p) then (BVSTATUS_FATAL_ERROR, fs)
  else
    let '(_, fs) := append fs p finalData in
    let '(ok, fs) := resize_file fs p fsize in
    (if ok then BVSTATUS_OK else BVSTATUS_NOK, fs).

(** A whole reception, stopping at the first status that is not OK. *)
Fixpoint AppendAll (fs : FileSystem) (root serviceName fname : string) (chunks : list (list ascii))
    : BVStatus * FileSystem :=
  match chunks with
  | [] => (BVSTATUS_OK, fs)
  | c :: chunks =>
      let '(st, fs) := AppendChunk fs root serviceName fname c in
      if decide (st = BVSTATUS_OK) then AppendAll fs root serviceName fname chunks else (st, fs)
  end.

Definition Receive (fs : FileSystem) (root serviceName fname : string)
    (chunks : list (list ascii)) (finalData : list ascii) (fsize : nat) : BVStatus * FileSystem :=
  let '(st, fs) := Begin fs root serviceName fname in
  if decide (st <> BVSTATUS_OK) then (st, fs) else
  let '(st, fs) := AppendAll fs root serviceName fname chunks in
  if decide (st <> BVSTATUS_OK) then (st, fs) else
  Finish fs root serviceName fname finalData fsize.

(** ** Lemmas *)

(** The operating system lets the file be received. *)
Record receivable (fs : FileSystem) (root serviceName fname : string) : Prop := {
  rv_dir : can_mkdir fs (DirFor root serviceName) = true;
  rv_open : can_open fs (PathFor root serviceName fname) = true;
  rv_write : can_write fs (PathFor root serviceName fname) = true
}.

Lemma receivable_set fs root s f p l : receivable fs root s f -> receivable (set_file fs p l) root s f.
Proof. intros [? ? ?]. by split. Qed.

Lemma Begin_ok fs root s f :
  receivable fs root s f ->
  Begin fs root s f = (BVSTATUS_OK, set_file fs (PathFor root s f) []).
Proof. intros [Hd Ho _]. unfold Begin. by rewrite Hd, Ho. Qed.

Lemma AppendChunk_ok fs root s f l data :
  receivable fs root s f -> files fs !! PathFor root s f = Some l ->
  AppendChunk fs root s f data = (BVSTATUS_OK, set_file fs (PathFor root s f) (l ++ data)).
Proof. intros [_ Ho Hw] Hl. unfold AppendChunk, append. by rewrite Ho, Hw, Hl. Qed.

Lemma set_file_twice fs p l l' : set_file (set_file fs p l) p l' = set_file fs p l'.
Proof. unfold set_file. simpl. by rewrite insert_insert_eq. Qed.

Lemma set_file_lookup fs p l : files (set_file fs p l) !! p = Some l.
Proof. simpl. by rewrite lookup_insert_eq. Qed.

Lemma AppendAll_ok fs root s f l chunks :
  receivable fs root s f ->
  AppendAll (set_file fs (PathFor root s f) l) root s f chunks =
    (BVSTATUS_OK, set_file fs (PathFor root s f) (l ++ concat chunks)).
Proof.
  intros Hr. revert l. induction chunks as [|c chunks IH]; intros l; cbn [AppendAll concat].
  - by rewrite app_nil_r.
  - rewrite (AppendChunk_ok _ _ _ _ l) by (done || apply set_file_lookup || by apply receivable_set).
    rewrite decide_True by done. rewrite set_file_twice, IH. by rewrite (assoc_L (++)).
Qed.

Lemma Finish_ok fs root s f l data n :
  receivable fs root s f ->
  Finish (set_file fs (PathFor root s f) l) root s f data n =
    (BVSTATUS_OK, set_file fs (PathFor root s f)
       (take n (l ++ data) ++ zeros (n - length (l ++ data)))).
Proof.
  intros [_ Ho Hw]. unfold Finish, append. cbn [can_open can_write set_file]. rewrite Ho, Hw.
  cbn [negb]. fold (set_file fs (PathFor root s f) l). rewrite set_file_lookup. cbn [default].
  unfold resize_file. rewrite set_file_lookup. by rewrite !set_file_twice.
Qed.

(** ** Properties *)

(** C17.  Receiving a file writes exactly the transmitted data: whatever was at
    the destination before, after [Begin], the chunks and [Finish] the file is
    the concatenation of the payloads cut to the advertised size, and no other
    file has changed. *)
Theorem Receive_writes_exactly fs root s f chunks finalData fsize :
  receivable fs root s f -> (fsize <= length (concat chunks ++ finalData))%nat ->
  let r := Receive fs root s f chunks finalData fsize in
  r.1 = BVSTATUS_OK /\
  files r.2 !! PathFor root s f = Some (take fsize (concat chunks ++ finalData)) /\
  forall p, p <> PathFor root s f -> files r.2 !! p = files fs !! p.
Proof.
  intros Hr Hn. unfold Receive. rewrite Begin_ok by done. rewrite decide_False by tauto.
  rewrite AppendAll_ok by done. rewrite decide_False by tauto.
  rewrite Finish_ok by done. cbn [app fst snd]. split; [done|]. split.
  - rewrite set_file_lookup. replace (fsize - _)%nat with 0%nat by lia. by rewrite app_nil_r.
  - intros p Hp. simpl. by rewrite lookup_insert_ne.
Qed.

(** The file name sent by the peer is used as it is: an absolute name
    leaves the per-sender directory and the root altogether, and [Begin] then
    truncates that file. *)
Theorem peer_name_escapes_root fs root s fname :
  is_absolute fname = true ->
  PathFor root s fname = fname /\
  (can_mkdir fs (DirFor root s) = true -> can_open fs fname = true ->
   files (Begin fs root s fname).2 !! fname = Some []).
Proof.
  intros Ha. assert (Hp : PathFor root s fname = fname) by (unfold PathFor, path_div; by rewrite Ha).
  split; [done|]. intros Hd Ho. unfold Begin. rewrite Hp, Hd, Ho. apply set_file_lookup.
Qed.

(** ** Concrete instances *)

Definition ex_os : FileSystem :=
  MkFS {[ "/srv/data/bob/x" := chars "old" ]} (fun _ => true) (fun _ => true) (fun _ => true).

Lemma Receive_writes_exactly_witness :
  files (Receive ex_os "/srv" "bob" "x" [chars "ab"; chars "cd"] (chars "ef" ++ zeros 3) 6).2
    !! "/srv/data/bob/x" = Some (chars "abcdef").
Proof.
  exact (proj1 (proj2 (Receive_writes_exactly ex_os "/srv" "bob" "x" [chars "ab"; chars "cd"]
    (chars "ef" ++ zeros 3) 6 ltac:(by split) ltac:(simpl; lia)))).
Defined.

Lemma peer_name_escapes_root_witness :
  PathFor "/srv" "bob" "/etc/passwd" = "/etc/passwd" /\
  files (Begin ex_os "/srv" "bob" "/etc/passwd").2 !! "/etc/passwd" = Some [].
Proof.
  destruct (peer_name_escapes_root ex_os "/srv" "bob" "/etc/passwd" eq_refl) as [H1 H2].
  split; [exact H1|]. by apply H2.
Defined.
