(* ===== verification/PartialIO.v ===== *)
(** * Partial transfers on a session ([include/BVTCPSession.hpp], [src/BVTCPSession.cpp])

    [RequestSomeWrite] and the two callbacks that go on after a part of a
    buffer has been moved.  Nothing in the program calls them; they are the
    session's interface for texts that are not frames.  [async_write_some] and
    [async_read_some] move as many bytes as the system pleases, which is an
    argument: every completion names them.  The bytes move when the operation
    completes. *)

From Stdlib Require Import ZArith Lia Ascii String.
From S2P Require Import Prelude Common Frames Session.

(** The bytes [async_write_some] was given: the write buffer from its start. *)
Definition WriteSome (s : BVTCPSession) : nat := writeSize s.

(** [writeBuf = data] and the first operation. *)
Definition RequestSomeWrite (s : BVTCPSession) (data : list ascii) : BVTCPSession * nat :=
  let s := set_write s (data ++ drop (length data) (writeStore s)) (length data) in
  (s, WriteSome s).

(** The next operation, unless an error or the count ended the sequence. *)
Definition WriteSomeCallback (s : BVTCPSession) (ec : bool) (bytes_transferred : nat) : BVTCPSession * option nat :=
  if ec then (s, None)
  else
    let s := set_written s (totalBytesWritten s + bytes_transferred)%nat in
    if (totalBytesWritten s =? writeSize s)%nat then (ClearWriteBuffer s, None)
    else (s, Some (writeSize s)).

(** The operation of [len] bytes completes, having moved at most [n]. *)
Definition complete_write_some (s : BVTCPSession) (len : nat) (ec : bool) (n : nat) : BVTCPSession * option nat :=
  if ec then WriteSomeCallback s true 0
  else
    let sent := take (Nat.min n len) (writeStore s) in
    WriteSomeCallback (set_sock s (with_writes (sock s) (tx (sock s) ++ sent) (writes (sock s)))) false (Nat.min n len).

(** A sequence of completions; the operation under way at the end. *)
Fixpoint write_some_loop (s : BVTCPSession) (len : nat) (ns : list nat) : BVTCPSession * option nat :=
  match ns with
  | [] => (s, Some len)
  | n :: ns =>
      match complete_write_some s len false n with
      | (s, Some len) => write_some_loop s len ns
      | (s, None) => (s, None)
      end
  end.

(** The next read: where it writes in [readBuf], and how many bytes it may. *)
Definition ReadSomeCallback (s : BVTCPSession) (ec : bool) (bytes_transferred : nat)
    : result (BVTCPSession * option (nat * nat)) :=
  if ec then Ok (s, None)
  else
    let s := set_read s (totalBytesRead s + bytes_transferred)%nat in
    if (totalBytesRead s =? MAX_MESSAGE_SIZE_BYTES)%nat
    then let! s := ClearReadBuffer s in Ok (s, None)
    else Ok (s, Some (totalBytesRead s, (MAX_MESSAGE_SIZE_BYTES - totalBytesRead s)%nat)).

(** A read of at most [len] bytes at [off] completes with [bytes]. *)
Definition complete_read_some (s : BVTCPSession) (off len : nat) (bytes : list ascii)
    : result (BVTCPSession * option (nat * nat)) :=
  let bytes := take len bytes in
  let! s := fill s FrameBuffer off bytes in
  ReadSomeCallback s false (length bytes).

Fixpoint read_some_loop (s : BVTCPSession) (off len : nat) (arrivals : list (list ascii))
    : result (BVTCPSession * option (nat * nat)) :=
  match arrivals with
  | [] => Ok (s, Some (off, len))
  | bytes :: arrivals =>
      let! '(s, next) := complete_read_some s off len bytes in
      match next with
      | Some (off, len) => read_some_loop s off len arrivals
      | None => Ok (s, None)
      end
  end.

(** ** Lemmas *)

Definition total (ns : list nat) : nat := foldr Nat.add 0%nat ns.

(** A write goes on while the counted bytes are not exactly the length. *)
Lemma write_some_loop_on s data ns :
  take (length data) (writeStore s) = data -> writeSize s = length data ->
  Forall (fun n => (n <= length data)%nat) ns ->
  (forall k, (0 < k <= length ns)%nat -> (totalBytesWritten s + total (take k ns))%nat <> length data) ->
  exists s', write_some_loop s (length data) ns = (s', Some (length data)) /\
    tx (sock s') = tx (sock s) ++ concat (map (fun n => take n data) ns) /\
    writeStore s' = writeStore s /\ writeSize s' = length data /\
    totalBytesWritten s' = (totalBytesWritten s + total ns)%nat.
Proof.
  revert s. induction ns as [|n ns IH]; intros s Hst Hsz Hns Hk; cbn [write_some_loop].
  - exists s. cbn. by rewrite app_nil_r, Nat.add_0_r.
  - apply Forall_cons in Hns as [Hn Hns]. unfold complete_write_some, WriteSomeCallback.
    rewrite Nat.min_l by done. cbn [totalBytesWritten set_written set_sock writeSize writeStore].
    pose proof (Hk 1%nat ltac:(cbn; lia)) as Hk1. cbn [take total foldr] in Hk1. rewrite Nat.add_0_r in Hk1.
    rewrite Hsz, (proj2 (Nat.eqb_neq _ _) Hk1).
    match goal with |- context [write_some_loop ?x] => destruct (IH x) as (s' & Hl & Ht & H1 & H2 & H3); [done..| |] end.
    { intros k Hk'. cbn [set_written set_sock totalBytesWritten].
      specialize (Hk (S k) ltac:(cbn; lia)). cbn [take total foldr] in Hk. unfold total. lia. }
    exists s'. split; [exact Hl|]. split; [|split; [done|split; [done|]]].
    + rewrite Ht. cbn [set_written set_sock sock with_writes tx map concat]. rewrite <- Hst at 1.
      rewrite take_take, Nat.min_l by done. by rewrite (assoc_L (++)).
    + rewrite H3. cbn [set_written set_sock totalBytesWritten total foldr]. unfold total. lia.
Qed.

(** The completion with which the count is exact. *)
Lemma write_some_last s data n :
  take (length data) (writeStore s) = data -> writeSize s = length data -> (n <= length data)%nat ->
  (totalBytesWritten s + n)%nat = length data ->
  exists s', write_some_loop s (length data) [n] = (s', None) /\ tx (sock s') = tx (sock s) ++ take n data /\
    totalBytesWritten s' = 0%nat.
Proof.
  intros Hst Hsz Hn Ht. cbn [write_some_loop]. unfold complete_write_some, WriteSomeCallback.
  rewrite Nat.min_l by done. cbn [totalBytesWritten set_written set_sock writeSize writeStore].
  rewrite Hsz, Ht, Nat.eqb_refl. eexists. split; [reflexivity|]. split; [|done].
  cbn [ClearWriteBuffer set_written set_write set_sock sock with_writes tx]. f_equal. rewrite <- Hst at 1.
  by rewrite take_take, Nat.min_l.
Qed.

Lemma write_some_loop_app s len ns ns' s' len' :
  write_some_loop s len ns = (s', Some len') -> write_some_loop s len (ns ++ ns') = write_some_loop s' len' ns'.
Proof.
  revert s len. induction ns as [|n ns IH]; intros s len; cbn [write_some_loop app]; [by intros [= -> ->]|].
  destruct (complete_write_some s len false n) as [s1 [len1|]]; [|done]. apply IH.
Qed.

(** ** Properties *)

(** A text is sent as given exactly when the system takes it in one piece: the
    operation for the rest starts again at the beginning of the buffer, so a
    text taken in two parts arrives as two of its own prefixes, and when the
    second operation takes more than the rest, the count has passed the length
    and the text is sent again for ever. *)
Theorem some_write_resends s data n :
  totalBytesWritten s = 0%nat -> (0 < n < length data)%nat ->
  let '(s1, len) := RequestSomeWrite s data in
  (exists s2, write_some_loop s1 len [length data] = (s2, None) /\ tx (sock s2) = tx (sock s) ++ data) /\
  (exists s2, write_some_loop s1 len [n; (length data - n)%nat] = (s2, None) /\
     tx (sock s2) = tx (sock s) ++ take n data ++ take (length data - n) data) /\
  forall ns, Forall (fun n => (n <= length data)%nat) ns ->
    exists s2, write_some_loop s1 len (n :: length data :: ns) = (s2, Some (length data)) /\
      tx (sock s2) = tx (sock s) ++ take n data ++ data ++ concat (map (fun n => take n data) ns).
Proof.
  intros Ht Hn. unfold RequestSomeWrite, WriteSome. cbn [set_write writeSize].
  set (s1 := set_write _ _ _). assert (Hst : take (length data) (writeStore s1) = data) by apply take_app_length.
  assert (Ht1 : totalBytesWritten s1 = 0%nat) by exact Ht. assert (Hsz : writeSize s1 = length data) by reflexivity.
  assert (Htx : tx (sock s1) = tx (sock s)) by reflexivity. clearbody s1. split; [|split].
  - destruct (write_some_last s1 data (length data)) as (s2 & H2 & H3 & _); [done..|lia|]. exists s2.
    rewrite firstn_all in H3. by rewrite H3, Htx.
  - destruct (write_some_loop_on s1 data [n]) as (s2 & H2 & H3 & H4 & H5 & H6); [done..|by repeat constructor; lia| |].
    { intros [|[|k]]; cbn; lia. }
    destruct (write_some_last s2 data (length data - n)) as (s3 & H7 & H8 & _);
      [by rewrite H4|done|lia|rewrite H6, Ht1; cbn; lia|]. exists s3.
    change [n; (length data - n)%nat] with ([n] ++ [(length data - n)%nat]). rewrite (write_some_loop_app _ _ _ _ _ _ H2).
    split; [exact H7|]. rewrite H8, H3, Htx. cbn [map concat]. by rewrite app_nil_r, (assoc_L (++)).
  - intros ns Hns. destruct (write_some_loop_on s1 data (n :: length data :: ns)) as (s2 & H2 & H3 & _); [done..| | |].
    + apply Forall_cons; split; [lia|]. apply Forall_cons; split; [lia|done].
    + intros [|[|k]] Hk; cbn [take total foldr]; rewrite Ht1; lia.
    + exists s2. split; [exact H2|]. rewrite H3, Htx. cbn [map concat]. by rewrite firstn_all.
Qed.

(** The reads ask for 256 bytes of a buffer of 138: what arrives is put there
    in order as long as it fits; the first byte past the frame size is written
    behind the buffer, and so a sequence of reads never completes. *)
Theorem some_read_overruns s buf arrivals :
  readBuf s = Some buf -> length buf = MESSAGE_FRAME_SIZE_BYTES -> totalBytesRead s = 0%nat ->
  let got := length (concat arrivals) in
  if decide (got <= MESSAGE_FRAME_SIZE_BYTES)%nat
  then exists s', read_some_loop s 0 MAX_MESSAGE_SIZE_BYTES arrivals = Ok (s', Some (got, (MAX_MESSAGE_SIZE_BYTES - got)%nat)) /\
         readBuf s' = Some (concat arrivals ++ drop got buf)
  else read_some_loop s 0 MAX_MESSAGE_SIZE_BYTES arrivals = Err OutOfBounds.
Proof.
  intros Hb Hl Ht.
  assert (H : forall done_ s, readBuf s = Some (done_ ++ drop (length done_) buf) -> totalBytesRead s = length done_ ->
    (length done_ <= MESSAGE_FRAME_SIZE_BYTES)%nat ->
    let got := (length done_ + length (concat arrivals))%nat in
    if decide (got <= MESSAGE_FRAME_SIZE_BYTES)%nat
    then exists s', read_some_loop s (length done_) (MAX_MESSAGE_SIZE_BYTES - length done_) arrivals =
           Ok (s', Some (got, (MAX_MESSAGE_SIZE_BYTES - got)%nat)) /\ readBuf s' = Some (done_ ++ concat arrivals ++ drop got buf)
    else read_some_loop s (length done_) (MAX_MESSAGE_SIZE_BYTES - length done_) arrivals = Err OutOfBounds).
  { clear s Hb Ht. induction arrivals as [|bytes arrivals IH]; intros d s Hb Ht Hd; cbn [read_some_loop concat length].
    - rewrite Nat.add_0_r. rewrite decide_True by done. exists s. by split.
    - rewrite length_app. unfold complete_read_some, fill, the_readBuf. rewrite Hb. cbn [from_option_err mbind result_bind].
      set (piece := take _ bytes). unfold memcpy_to. rewrite length_app, length_drop.
      replace (length d + (length buf - length d))%nat with MESSAGE_FRAME_SIZE_BYTES by lia.
      assert (Hp : length piece = Nat.min (MAX_MESSAGE_SIZE_BYTES - length d) (length bytes)) by apply length_take.
      unfold MAX_MESSAGE_SIZE_BYTES, MESSAGE_FRAME_SIZE_BYTES in *.
      destruct (decide (length d + length piece <= 138)%nat) as [Hc|Hc].
      + assert (Hpb : piece = bytes) by (apply take_ge; lia). clearbody piece. subst piece.
        cbn [mbind result_bind]. unfold ReadSomeCallback. cbn [set_read set_readBuf totalBytesRead].
        rewrite Ht. unfold MAX_MESSAGE_SIZE_BYTES. rewrite (proj2 (Nat.eqb_neq _ _)) by lia. cbn [mbind result_bind].
        match goal with |- context [read_some_loop ?x] => specialize (IH (d ++ bytes) x) end.
        rewrite length_app in IH. rewrite <- (Nat.add_assoc (length d)) in IH. cbn zeta in IH.
        assert (Hgoal : forall rest, (d ++ bytes) ++ concat arrivals ++ rest = d ++ (bytes ++ concat arrivals) ++ rest)
          by (intros rest; by rewrite <- !(assoc_L (++))).
        match type of IH with ?A -> ?B -> _ => assert (HA : A); [|assert (HB : B) by done] end.
        { cbn [set_read set_readBuf readBuf]. f_equal. rewrite take_app_length, drop_app_ge, drop_drop by lia.
          rewrite <- (assoc_L (++)). do 3 f_equal. lia. }
        specialize (IH HA HB ltac:(lia)). case_decide; [|exact IH]. destruct IH as (s' & IH1 & IH2). exists s'.
        split; [exact IH1|]. by rewrite IH2, Hgoal.
      + rewrite decide_False by lia. done. }
  specialize (H [] s). cbn [length app Nat.add] in H. rewrite Nat.sub_0_r in H. apply H; [done|done|lia].
Qed.
