(* ===== verification/Terminal.v ===== *)
(** * The terminal ([include/BVApp_ConsoleClient.hpp], [BVTerminal])

    The console application switches its terminal to reading single keys and
    back.  The terminal's attributes belong to the system; the flags
    [ICANON] and [ECHO] are its constants.  Every system call's answer is an
    argument. *)

From Stdlib Require Import ZArith Lia Ascii String.
From S2P Require Import Prelude.

(** [termios]: the local flags, the two control characters the program sets,
    and the rest. *)
Record termios : Type := MkTermios {
  c_lflag : Z;
  c_vmin : Z;
  c_vtime : Z;
  c_rest : Z
}.

Inductive InputMode : Type := Canonical | NonCanonical.
#[export] Instance InputMode_eq_dec : EqDecision InputMode.
Proof. solve_decision. Defined.

Record Config : Type := MkConfig {
  cfg_mode : InputMode;
  cfg_echo : bool;
  cfg_vmin : Z;
  cfg_vtime : Z
}.

(** The object, and the attributes the terminal has. *)
Record BVTerminal : Type := MkTerminal {
  originalTerminal : termios;
  currentTerminal : termios;
  tty : termios
}.

Section Terminal.
Context (ICANON ECHO : Z).

(** [flags |= bit] and [flags &= ~bit] *)
Definition set_flag (t : termios) (bit : Z) (on : bool) : termios :=
  MkTermios (if on then Z.lor (c_lflag t) bit else Z.land (c_lflag t) (Z.lnot bit)) (c_vmin t) (c_vtime t) (c_rest t).

(** The constructor: a terminal whose attributes can be read; only an
    initialised object exists. *)
Definition BVTerminal_make (isatty getattr_fails : bool) (t : termios) : result BVTerminal :=
  if negb isatty then Err Std_runtime_error
  else if getattr_fails then Err Std_runtime_error
  else Ok (MkTerminal t t t).

Definition configured (cfg : Config) (t : termios) : termios :=
  let t := match cfg_mode cfg with
           | Canonical => set_flag t ICANON true
           | NonCanonical => let t := set_flag t ICANON false in MkTermios (c_lflag t) (cfg_vmin cfg) (cfg_vtime cfg) (c_rest t)
           end in
  set_flag t ECHO (cfg_echo cfg).

(** Every configuration starts from the original attributes. *)
Definition Apply (cfg : Config) (fails : bool) (b : BVTerminal) : result BVTerminal :=
  let t := configured cfg (originalTerminal b) in
  if fails then Err Std_runtime_error else Ok (MkTerminal (originalTerminal b) t t).

Definition SetCanonicalMode (echo fails : bool) : BVTerminal -> result BVTerminal :=
  Apply (MkConfig Canonical echo 1 0) fails.
Definition SetNonCanonicalMode (echo : bool) (vmin vtime : Z) (fails : bool) : BVTerminal -> result BVTerminal :=
  Apply (MkConfig NonCanonical echo vmin vtime) fails.

Definition Restore (fails : bool) (b : BVTerminal) : BVTerminal :=
  if fails then b else MkTerminal (originalTerminal b) (currentTerminal b) (originalTerminal b).

Definition FlushInput (fails : bool) (b : BVTerminal) : result BVTerminal :=
  if fails then Err Std_runtime_error else Ok b.

(** [read] of one byte: how many were read, and the byte; an error returns
    the NUL the variable was set to. *)
Definition ReadChar (n : Z) (c : ascii) : result ascii :=
  if n =? 0 then Err Std_runtime_error else if n <? 0 then Ok NUL else Ok c.

(** [TerminalModeGuard]: canonical mode with echo around [body], which may
    throw; the attributes found are put back in any case. *)
Definition guarded {A} (getattr_fails setattr_fails restore_fails : bool) (b : BVTerminal)
    (body : BVTerminal -> result A) : result A * BVTerminal :=
  if getattr_fails then (Err Std_runtime_error, b)
  else if setattr_fails then (Err Std_runtime_error, b)
  else
    let inside := MkTerminal (originalTerminal b) (currentTerminal b) (set_flag (set_flag (tty b) ICANON true) ECHO true) in
    (body inside, if restore_fails then inside else b).

Definition ReadLine (line : option string) : result string :=
  match line with Some l => Ok l | None => Err Std_runtime_error end.

(** The two prompts: a failed [getline] leaves an empty text or throws. *)
Definition GetStringFromSTDIN (g s r : bool) (line : option string) (b : BVTerminal) : result string * BVTerminal :=
  guarded g s r b (fun _ => Ok (default EmptyString line)).
Definition PromptLine (g s r : bool) (line : option string) (b : BVTerminal) : result string * BVTerminal :=
  guarded g s r b (fun _ => ReadLine line).

(** ** What the console does with it *)

Inductive term_step : BVTerminal -> BVTerminal -> Prop :=
  | ts_apply cfg fails b b' : Apply cfg fails b = Ok b' -> term_step b b'
  | ts_restore fails b : term_step b (Restore fails b)
  | ts_prompt g s line b : term_step b (PromptLine g s false line b).2
  | ts_string g s line b : term_step b (GetStringFromSTDIN g s false line b).2.

Lemma testbit_flag i k : 0 <= i -> 0 <= k -> Z.testbit (2 ^ i) k = (i =? k).
Proof.
  intros Hi Hk. destruct (Z.eqb_spec i k) as [->|Hne]; [by apply Z.pow2_bits_true|by apply Z.pow2_bits_false].
Qed.

Lemma set_flag_testbit t i b k :
  0 <= i -> 0 <= k ->
  Z.testbit (c_lflag (set_flag t (2 ^ i) b)) k = if i =? k then b else Z.testbit (c_lflag t) k.
Proof.
  intros Hi Hk. unfold set_flag. cbn [c_lflag]. destruct b.
  - rewrite Z.lor_spec, testbit_flag by done. destruct (i =? k); [by rewrite orb_true_r|by rewrite orb_false_r].
  - rewrite Z.land_spec, Z.lnot_spec, testbit_flag by done.
    destruct (i =? k); [by rewrite andb_false_r|by rewrite andb_true_r].
Qed.

(** The terminal comes back as it was: a configuration sets the two flags as
    asked and leaves every other flag as it was found; and whatever modes and
    prompts the program goes through, putting the attributes back puts back
    exactly those the terminal had when the object was made. *)
Theorem terminal_restored i j t b b' cfg :
  0 <= i -> 0 <= j -> i <> j -> ICANON = 2 ^ i -> ECHO = 2 ^ j ->
  BVTerminal_make true false t = Ok b -> star term_step b b' ->
  tty (Restore false b') = t /\
  exists b2, Apply cfg false b' = Ok b2 /\
    Z.testbit (c_lflag (tty b2)) i = bool_decide (cfg_mode cfg = Canonical) /\
    Z.testbit (c_lflag (tty b2)) j = cfg_echo cfg /\
    c_rest (tty b2) = c_rest t /\
    forall k, 0 <= k -> k <> i -> k <> j -> Z.testbit (c_lflag (tty b2)) k = Z.testbit (c_lflag t) k.
Proof.
  intros Hi Hj Hne HI HE [= <-] Hs.
  assert (Ho : originalTerminal b' = t).
  { refine (star_invariant term_step (fun x => originalTerminal x = t) _ _ _ _ Hs); [|done].
    intros x y Hx Hxy. destruct Hxy as [c f x y Ha|f x|g s l x|g s l x].
    - unfold Apply in Ha. destruct f; [done|]. by injection Ha as <-.
    - by destruct f.
    - unfold PromptLine, guarded. destruct g; [done|]. by destruct s.
    - unfold GetStringFromSTDIN, guarded. destruct g; [done|]. by destruct s. }
  split; [exact Ho|]. eexists. split; [reflexivity|]. cbn [tty]. rewrite Ho. unfold configured. rewrite HI, HE.
  assert (Hc : forall k, 0 <= k -> Z.testbit (c_lflag (match cfg_mode cfg with
      | Canonical => set_flag t (2 ^ i) true
      | NonCanonical => let t := set_flag t (2 ^ i) false in MkTermios (c_lflag t) (cfg_vmin cfg) (cfg_vtime cfg) (c_rest t)
      end)) k = if i =? k then bool_decide (cfg_mode cfg = Canonical) else Z.testbit (c_lflag t) k).
  { intros k Hk. destruct (cfg_mode cfg); cbn zeta; cbn [c_lflag]; by rewrite <- (set_flag_testbit t i _ k Hi Hk). }
  split; [|split; [|split]].
  - rewrite set_flag_testbit, Hc, Z.eqb_refl by done. by rewrite (proj2 (Z.eqb_neq j i)).
  - rewrite set_flag_testbit by done. by rewrite Z.eqb_refl.
  - by destruct (cfg_mode cfg).
  - intros k Hk Hki Hkj. rewrite set_flag_testbit, Hc by done.
    by rewrite (proj2 (Z.eqb_neq j k)), (proj2 (Z.eqb_neq i k)) by congruence.
Qed.

End Terminal.
