(* ===== verification/ConnectionManager.v ===== *)
(** * The connection manager ([include/BVTCPConnectionManager.hpp],
    [src/BVTCPConnectionManager.cpp])

    The sessions with the other nodes, who dials whom, the identification
    handshake on the accepting side, and the offers and transfers of files.
    Session objects are shared: [objs] holds them, the maps hold references.
    The manager implements the interface its sessions call it through. *)

From Stdlib Require Import ZArith Lia Ascii String.
From stdpp Require Import pretty.
From S2P Require Import Prelude TSQueue Common Broker Component Frames Session FileTransfer.

Section Manager.
Context {Q : Type -> Type} `{FifoQueue Q}.

Record Manager : Type := MkManager {
  currentSessionID : Z;   (* uint16_t *)
  thisMachineServiceData : BVServiceData;
  objs : gmap nat BVTCPSession;   (* the session objects *)
  sessions_m : list (Z * nat);   (* SessionID -> session, in key order *)
  service_sessionid_m : gmap string Z;
  nodesM : gmap string BVNode;
  outMailboxes_p : gmap Z (option qref);
  pendingOutgoing_m : gmap Z (Z * string);   (* key -> session, path *)
  fileTransferContext_m : gmap Z BVFileTransferContext;
  outProgress : string * Z * Z;   (* name, sent, total *)
  static_node_id : Z;   (* current_id of StartCommunicationSessionWithNode *)
  static_ftcid : Z;   (* ftcid of InitiateFileTransferWithSession *)
  accepting : option Z;   (* session id of the pending async_accept *)
  connecting : list (Z * BVNode);   (* session data of the pending async_connects *)
  mailbox : qref;   (* what mailbox_F returns *)
  mgr_mail : mail Q;
  mgr_files : filesystem
}.

Definition m_counter (m : Manager) (x0 : Z) : Manager :=
  MkManager x0 (thisMachineServiceData m) (objs m) (sessions_m m) (service_sessionid_m m)
    (nodesM m) (outMailboxes_p m) (pendingOutgoing_m m) (fileTransferContext_m m)
    (outProgress m) (static_node_id m) (static_ftcid m) (accepting m)
    (connecting m) (mailbox m) (mgr_mail m) (mgr_files m).
Definition m_objs (m : Manager) (x0 : gmap nat BVTCPSession) : Manager :=
  MkManager (currentSessionID m) (thisMachineServiceData m) x0 (sessions_m m)
    (service_sessionid_m m) (nodesM m) (outMailboxes_p m) (pendingOutgoing_m m)
    (fileTransferContext_m m) (outProgress m) (static_node_id m) (static_ftcid m)
    (accepting m) (connecting m) (mailbox m) (mgr_mail m) (mgr_files m).
Definition m_sessions (m : Manager) (x0 : list (Z * nat)) (x1 : gmap string Z) : Manager :=
  MkManager (currentSessionID m) (thisMachineServiceData m) (objs m) x0 x1 (nodesM m)
    (outMailboxes_p m) (pendingOutgoing_m m) (fileTransferContext_m m)
    (outProgress m) (static_node_id m) (static_ftcid m) (accepting m)
    (connecting m) (mailbox m) (mgr_mail m) (mgr_files m).
Definition m_nodes (m : Manager) (x0 : gmap string BVNode) : Manager :=
  MkManager (currentSessionID m) (thisMachineServiceData m) (objs m) (sessions_m m)
    (service_sessionid_m m) x0 (outMailboxes_p m) (pendingOutgoing_m m)
    (fileTransferContext_m m) (outProgress m) (static_node_id m) (static_ftcid m)
    (accepting m) (connecting m) (mailbox m) (mgr_mail m) (mgr_files m).
Definition m_pending (m : Manager) (x0 : gmap Z (Z * string)) : Manager :=
  MkManager (currentSessionID m) (thisMachineServiceData m) (objs m) (sessions_m m)
    (service_sessionid_m m) (nodesM m) (outMailboxes_p m) x0
    (fileTransferContext_m m) (outProgress m) (static_node_id m) (static_ftcid m)
    (accepting m) (connecting m) (mailbox m) (mgr_mail m) (mgr_files m).
Definition m_contexts (m : Manager) (x0 : gmap Z BVFileTransferContext) : Manager :=
  MkManager (currentSessionID m) (thisMachineServiceData m) (objs m) (sessions_m m)
    (service_sessionid_m m) (nodesM m) (outMailboxes_p m) (pendingOutgoing_m m) x0
    (outProgress m) (static_node_id m) (static_ftcid m) (accepting m)
    (connecting m) (mailbox m) (mgr_mail m) (mgr_files m).
Definition m_progress (m : Manager) (x0 : string * Z * Z) : Manager :=
  MkManager (currentSessionID m) (thisMachineServiceData m) (objs m) (sessions_m m)
    (service_sessionid_m m) (nodesM m) (outMailboxes_p m) (pendingOutgoing_m m)
    (fileTransferContext_m m) x0 (static_node_id m) (static_ftcid m) (accepting m)
    (connecting m) (mailbox m) (mgr_mail m) (mgr_files m).
Definition m_node_id (m : Manager) (x0 : Z) : Manager :=
  MkManager (currentSessionID m) (thisMachineServiceData m) (objs m) (sessions_m m)
    (service_sessionid_m m) (nodesM m) (outMailboxes_p m) (pendingOutgoing_m m)
    (fileTransferContext_m m) (outProgress m) x0 (static_ftcid m) (accepting m)
    (connecting m) (mailbox m) (mgr_mail m) (mgr_files m).
Definition m_ftcid (m : Manager) (x0 : Z) : Manager :=
  MkManager (currentSessionID m) (thisMachineServiceData m) (objs m) (sessions_m m)
    (service_sessionid_m m) (nodesM m) (outMailboxes_p m) (pendingOutgoing_m m)
    (fileTransferContext_m m) (outProgress m) (static_node_id m) x0 (accepting m)
    (connecting m) (mailbox m) (mgr_mail m) (mgr_files m).
Definition m_accepting (m : Manager) (x0 : option Z) : Manager :=
  MkManager (currentSessionID m) (thisMachineServiceData m) (objs m) (sessions_m m)
    (service_sessionid_m m) (nodesM m) (outMailboxes_p m) (pendingOutgoing_m m)
    (fileTransferContext_m m) (outProgress m) (static_node_id m) (static_ftcid m)
    x0 (connecting m) (mailbox m) (mgr_mail m) (mgr_files m).
Definition m_connecting (m : Manager) (x0 : list (Z * BVNode)) : Manager :=
  MkManager (currentSessionID m) (thisMachineServiceData m) (objs m) (sessions_m m)
    (service_sessionid_m m) (nodesM m) (outMailboxes_p m) (pendingOutgoing_m m)
    (fileTransferContext_m m) (outProgress m) (static_node_id m) (static_ftcid m)
    (accepting m) x0 (mailbox m) (mgr_mail m) (mgr_files m).
Definition m_mail (m : Manager) (x0 : mail Q) : Manager :=
  MkManager (currentSessionID m) (thisMachineServiceData m) (objs m) (sessions_m m)
    (service_sessionid_m m) (nodesM m) (outMailboxes_p m) (pendingOutgoing_m m)
    (fileTransferContext_m m) (outProgress m) (static_node_id m) (static_ftcid m)
    (accepting m) (connecting m) (mailbox m) x0 (mgr_files m).
Definition m_files (m : Manager) (x0 : filesystem) : Manager :=
  MkManager (currentSessionID m) (thisMachineServiceData m) (objs m) (sessions_m m)
    (service_sessionid_m m) (nodesM m) (outMailboxes_p m) (pendingOutgoing_m m)
    (fileTransferContext_m m) (outProgress m) (static_node_id m) (static_ftcid m)
    (accepting m) (connecting m) (mailbox m) (mgr_mail m) x0.

(** [thisMachineHostData.serviceName]: the host name of the own service. *)
Definition thisName (m : Manager) : string := sd_hostname (thisMachineServiceData m).

(** The constructor: every node mailbox slot null, nothing connected. *)
Definition BVTCPConnectionManager_make (data : BVServiceData) (mbx : qref) (ml : mail Q)
    (fs : filesystem) : Manager :=
  MkManager 0 data ∅ [] ∅ ∅ (list_to_map (map (fun i => (Z.of_nat i, None)) (seq 0 255)))
    ∅ ∅ (EmptyString, 0, 0) 0 0 None [] mbx ml fs.

(** ** Node identifiers *)

(** The search for an empty mailbox slot, [_id] from [id] on. *)
Fixpoint find_slot (n : nat) (id : Z) (slots : gmap Z (option qref)) : result bool :=
  match n with
  | O => Ok false
  | S n =>
      let! slot := from_option_err Std_out_of_range (slots !! id) in
      match slot with
      | None => Ok true
      | Some _ => find_slot n (id + 1) slots
      end
  end.

(** The node of the caller gets an identifier and a fresh mailbox. *)
Definition StartCommunicationSessionWithNode (m : Manager) : result (BVStatus * Z * bool * Manager) :=
  let! foundEmpty := find_slot (Z.to_nat N_SERVICES_MAX) 0 (outMailboxes_p m) in
  let status := if foundEmpty : bool then BVSTATUS_OK else BVSTATUS_NOK in
  let nid := static_node_id m in
  let m := m_node_id m (u8 (static_node_id m mod N_SERVICES_MAX + 1)) in
  Ok (status, nid, foundEmpty, m).

Definition with_id (n : BVNode) (id : Z) : BVNode :=
  MkBVNode (Some id) (nd_serviceName n) (nd_hostname n) (nd_port n).

Definition with_name (n : BVNode) (name : string) : BVNode :=
  MkBVNode (nd_id n) name (nd_hostname n) (nd_port n).

(** ** Looking sessions up *)

Definition session_name (m : Manager) (ref : nat) : option string :=
  nd_serviceName ∘ nodeData <$> objs m !! ref.

(** [GetSessionServiceNamesInDisplayOrder] *)
Definition session_names (m : Manager) : list string :=
  omap (fun kv => session_name m kv.2) (sessions_m m).

Definition IsSessionAlreadyPresent (m : Manager) (name : string) : bool :=
  existsb (String.eqb name) (session_names m).

(** The session's key is the node id handed out (truncated to a byte). *)
Fixpoint find_by_name (m : Manager) (name : string) (l : list (Z * nat)) : option Z :=
  match l with
  | [] => None
  | (k, ref) :: l =>
      if decide (session_name m ref = Some name) then Some k else find_by_name m name l
  end.

Definition GetNodeIDByServiceName (m : Manager) (name : string) : BVStatus * Z :=
  match find_by_name m name (sessions_m m) with
  | Some k => (BVSTATUS_OK, u8 k)
  | None => (BVSTATUS_NOK, 0)
  end.

Definition GetSessionIDFromServiceName (m : Manager) (name : string) : BVStatus * option Z :=
  match service_sessionid_m m !! name with
  | Some sid => (BVSTATUS_OK, Some sid)
  | None => (BVSTATUS_NOK, None)
  end.

Definition AddNodeToNodesM (m : Manager) (name : string) (n : BVNode) : BVStatus * Manager :=
  match nodesM m !! name with
  | Some _ => (BVSTATUS_NOK, m)
  | None => (BVSTATUS_OK, m_nodes m (<[ name := n ]> (nodesM m)))
  end.

Definition RemoveSession (m : Manager) (name : string) : BVStatus * Manager :=
  match service_sessionid_m m !! name with
  | None => (BVSTATUS_NOK, m)
  | Some id =>
      match smap_find id (sessions_m m) with
      | None => (BVSTATUS_NOK, m_sessions m (sessions_m m) (delete name (service_sessionid_m m)))
      | Some _ => (BVSTATUS_OK, m_sessions m (smap_erase id (sessions_m m))
                                  (delete name (service_sessionid_m m)))
      end
  end.

(** ** Dialling *)

(** [async_connect] is initiated for the session data of [node]. *)
Definition InitiateSessionWithNode (m : Manager) (node : BVNode) : result (BVStatus * Manager) :=
  if negb (str_lt (thisName m) (nd_serviceName node)) then Ok (BVSTATUS_OK, m)
  else if IsSessionAlreadyPresent m (nd_serviceName node) then Ok (BVSTATUS_OK, m)
  else
    let sid := currentSessionID m in
    let m := m_counter m (u16 (currentSessionID m + 1)) in
    let! '(registerStatus, nid, _, m) := StartCommunicationSessionWithNode m in
    if decide (registerStatus = BVSTATUS_NOK) then Ok (registerStatus, m)
    else Ok (BVSTATUS_OK, m_connecting m (connecting m ++ [(sid, with_id node nid)])).

Definition fresh_obj (m : Manager) : nat := fresh (dom (objs m)).

(** [ConnectHandler] of the [k]-th connect in flight: connects complete in any
    order, each for the session data it was started with. *)
Definition ConnectHandler (P : asio) (e : env) (k : nat) (error : bool) (m : Manager) : result Manager :=
  match connecting m !! k with
  | None => Ok m
  | Some (sid, node) =>
      let m := m_connecting m (delete k (connecting m)) in
      if error then Ok m
      else if IsSessionAlreadyPresent m (nd_serviceName node) then Ok m
      else
        let ref := fresh_obj m in
        let! session := BVTCPSession_make ref node sid (thisName m) (heap32 e) (heap32 e) in
        let! '(_, nid, mbx, m) := StartCommunicationSessionWithNode m in
        let session := set_inMailbox (set_nodeData session (with_id (nodeData session) nid)) mbx in
        let session := set_state session BVSESSIONSTATE_UNPREPARED in
        let session := set_origin session (Some BVSESSIONORIGIN_OUTGOING) in
        let m := m_sessions m (smap_insert sid ref (sessions_m m))
                   (<[ nd_serviceName node := sid ]> (service_sessionid_m m)) in
        let! session := RequestReadingFrames P session in
        Ok (m_objs m (<[ ref := session ]> (objs m)))
  end.

(** ** Accepting *)

(** [Accept]: new session data, and [async_accept] on its socket. *)
Definition Accept (m : Manager) : Manager :=
  let sid := currentSessionID m in
  m_accepting (m_counter m (u16 (currentSessionID m + 1))) (Some sid).

(** The port of the acceptor socket, in host byte order. *)
Definition acceptor_port (m : Manager) : Z := ntohs (sd_port (thisMachineServiceData m)).

(** [StartAcceptingConnections]; the errors of opening the socket, its two
    options, binding and listening.  The port listened on, and the manager
    with an accept under way. *)
Definition StartAcceptingConnections (open reuse v6_only bind listen : bool) (m : Manager)
    : result (BVStatus * Z * Manager) :=
  if open then Err Std_runtime_error
  else if reuse then Err Std_runtime_error
  else if v6_only then Err Std_runtime_error
  else if bind then Err Std_runtime_error
  else if listen then Err Std_runtime_error
  else Ok (BVSTATUS_OK, acceptor_port m, Accept m).

(** The handler given to [async_accept]: on an error it accepts no more. *)
Definition Accept_handler (P : asio) (e : env) (error : bool) (m : Manager) : result Manager :=
  match accepting m with
  | None => Ok m
  | Some sid =>
      let m := m_accepting m None in
      if error then Ok m
      else
        let ref := fresh_obj m in
        let! session := BVTCPSession_make ref BVNode_default sid (thisName m) (heap32 e) (heap32 e) in
        let helloMsg := control_message e BVSESSIONCONTROLMESSAGETYPE_HELLO in
        let session := set_state session BVSESSIONSTATE_UNPREPARED in
        let! session := WriteMessageFrame P session helloMsg in
        let session := set_origin session (Some BVSESSIONORIGIN_INGOING) in
        let! session := RequestReadingFrames P session in
        Ok (Accept (m_objs m (<[ ref := session ]> (objs m))))
  end.

(** A handler works on its session; the maps share that object. *)
Definition put_back (m : Manager) (s : BVTCPSession) : Manager :=
  m_objs m (<[ self s := s ]> (objs m)).

(** [HandleSessionIdentification]: the accepted peer has told its name.  Asking
    the socket for its remote endpoint throws, out of the event loop, when the
    peer is gone. *)
Definition mgr_HandleSessionIdentification (P : asio) (e : env) (serviceName : string)
    (caller : BVTCPSession) (m : Manager) : result (BVTCPSession * Manager) :=
  let m := put_back m caller in
  if negb (IsSessionAlreadyPresent m serviceName) then
    let caller := set_state caller BVSESSIONSTATE_ESTABLISHED in
    let! '(_, nid, mbx, m) := StartCommunicationSessionWithNode m in
    let node := with_name (with_id (nodeData caller) nid) serviceName in
    let caller := set_inMailbox (set_nodeData caller node) mbx in
    if no_endpoint e then Err Std_runtime_error
    else
    let m := m_sessions m (smap_insert (sessionID caller) (self caller) (sessions_m m))
               (<[ serviceName := sessionID caller ]> (service_sessionid_m m)) in
    let '(_, m) := AddNodeToNodesM m serviceName node in
    let! caller := WriteMessageFrame P caller
      (control_message e BVSESSIONCONTROLMESSAGETYPE_CONFIRM_ESTABLISHED) in
    let! caller := RequestReadingFrames P caller in
    Ok (caller, put_back m caller)
  else let caller := Close caller in Ok (caller, put_back m caller).

(** ** Messages to peers *)

Definition write_to (P : asio) (m : Manager) (ref : nat) (msg : BVTCPMessage) : result Manager :=
  let! s := from_option_err NullDereference (objs m !! ref) in
  let! s := WriteMessageFrame P s msg in
  Ok (m_objs m (<[ ref := s ]> (objs m))).

Definition SendDataToNode (P : asio) (m : Manager) (msg : BVTCPMessage) (sid : Z)
    : result (BVStatus * Manager) :=
  match smap_find sid (sessions_m m) with
  | None => Ok (BVSTATUS_FATAL_ERROR, m)
  | Some ref => let! m := write_to P m ref msg in Ok (BVSTATUS_OK, m)
  end.

Fixpoint write_to_all (P : asio) (l : list (Z * nat)) (msg : BVTCPMessage) (m : Manager)
    : result Manager :=
  match l with
  | [] => Ok m
  | (_, ref) :: l => let! m := write_to P m ref msg in write_to_all P l msg m
  end.

Definition SendDataToEveryone (P : asio) (m : Manager) (msg : BVTCPMessage)
    : result (BVStatus * Manager) :=
  let! m := write_to_all P (sessions_m m) msg m in Ok (BVSTATUS_OK, m).

Definition mgr_PutMessageIntoAppMailbox (msg : BVMessage) (m : Manager) : result Manager :=
  let! ml := push_msg (mgr_mail m) (mailbox m) msg in Ok (m_mail m ml).

(** ** Files *)

(** "Sending name... 45%", empty when nothing is being sent. *)
Definition CurrentOutgoingTransferStatus (m : Manager) : string :=
  let '(name, sent, total) := outProgress m in
  if ((total =? 0) || (sent >=? total))%bool then EmptyString
  else
    let pct := u32 (sent * 100 / total) in
    "Sending " +:+ name +:+ str [char_of 226; char_of 128; char_of 166] +:+ " " +:+
    pretty pct +:+ "%".

(** [file_size (path, ec)] returns [uintmax_t (-1)] when there is no file. *)
Definition file_size_or_max (m : Manager) (path : string) : Z :=
  match mgr_files m !! path with
  | Some data => Z.of_nat (length data)
  | None => 2 ^ 64 - 1
  end.

(** [sessions_m.at (sid)] throws when there is no such session; the pending
    offer has already been recorded by then. *)
Definition InitiateFileTransferWithSession (e : env) (m : Manager) (sid : Z) (path : string)
    : result (BVStatus * Manager) :=
  let key := static_ftcid m in
  let m := m_ftcid m (u32 (static_ftcid m + 1)) in
  let fsize := u32 (file_size_or_max m path) in
  let name := filename path in
  let m := m_pending m (<[ key := (sid, path) ]> (pendingOutgoing_m m)) in
  let! ref := from_option_err Std_out_of_range (smap_find sid (sessions_m m)) in
  let! s := from_option_err NullDereference (objs m !! ref) in
  let! s := SendFileOffer e s key fsize name in
  Ok (BVSTATUS_OK, m_objs m (<[ ref := s ]> (objs m))).

Definition RemoveFileTransferContext (m : Manager) (key : Z) : BVStatus * Manager :=
  (BVSTATUS_OK, m_contexts m (delete key (fileTransferContext_m m))).

(** The peer's verdict: on acceptance the transfer context is created, and
    its worker started. *)
Definition mgr_SignalFileTransfer (e : env) (key : Z) (accept : bool) (m : Manager)
    : result Manager :=
  match pendingOutgoing_m m !! key with
  | None => Ok m
  | Some (sid, fpath) =>
      let m := m_pending m (delete key (pendingOutgoing_m m)) in
      if negb accept then Ok m
      else
        let! ref := from_option_err Std_out_of_range (smap_find sid (sessions_m m)) in
        let! ftcp := BVFileTransferContext_make (can_open e) (mgr_files m) ref fpath key in
        let '(_, m) := RemoveFileTransferContext m key in
        Ok (m_contexts m (<[ key := ftcp ]> (fileTransferContext_m m)))
  end.

Definition RespondToFileOffer (e : env) (m : Manager) (serviceName : string) (key : Z)
    (accept : bool) : result Manager :=
  match GetSessionIDFromServiceName m serviceName with
  | (BVSTATUS_OK, Some sid) =>
      match smap_find sid (sessions_m m) with
      | None => Ok m
      | Some ref =>
          let! s := from_option_err NullDereference (objs m !! ref) in
          let! s := SendFileControl e s key
            (if accept then BVSESSIONREGULARMESSAGETYPE_FILE_ACCEPT
             else BVSESSIONREGULARMESSAGETYPE_FILE_REJECT) in
          Ok (m_objs m (<[ ref := s ]> (objs m)))
      end
  | _ => Ok m
  end.

(** One iteration of a transfer's worker thread, with its progress callback. *)
Definition worker_step (e : env) (ec : write_error) (key : Z) (m : Manager) : result Manager :=
  match fileTransferContext_m m !! key with
  | None => Ok m
  | Some c =>
      if negb (ft_isRunning c) || f_fail (fhandle c) then Ok m
      else
        let! s := from_option_err NullDereference (objs m !! ft_session c) in
        let! '(c, s) := TransferNextChunk (now e) ec c s in
        let m := m_objs m (<[ ft_session c := s ]> (objs m)) in
        let m := m_contexts m (<[ key := c ]> (fileTransferContext_m m)) in
        match ft_progress c with
        | Some (sent, total, nm) => Ok (m_progress m (nm, sent, total))
        | None => Ok m
        end
  end.

#[export] Instance manager_interface : SessionManager Manager := {|
  HandleSessionIdentification := mgr_HandleSessionIdentification;
  PutMessageIntoAppMailbox := mgr_PutMessageIntoAppMailbox;
  SignalFileTransfer := mgr_SignalFileTransfer
|}.

(** A completed read on the session [ref]: its handlers call the manager. *)
Definition on_readable (P : asio) (e : env) (ref : nat) (m : Manager) : result (option Manager) :=
  let! s := from_option_err NullDereference (objs m !! ref) in
  let! o := complete_read P e s m in
  match o with
  | None => Ok None
  | Some (s, m) => Ok (Some (put_back m s))
  end.

(** A read of the session at [ref] fails. *)
Definition on_read_error (P : asio) (e : env) (ref : nat) (m : Manager) : result Manager :=
  let! s := from_option_err NullDereference (objs m !! ref) in
  let! '(s, m) := fail_read P e s m in
  Ok (put_back m s).

End Manager.
Arguments Manager Q : clear implicits.

(** ** What a session's handlers may do to the manager *)

(** The identity of a session: what its handlers leave alone. *)
Record same_id (s s' : BVTCPSession) : Prop := {
  sm_self : self s' = self s;
  sm_sid : sessionID s' = sessionID s;
  sm_node : nodeData s' = nodeData s
}.

#[export] Instance same_id_refl : Reflexive same_id.
Proof. by intros s. Qed.
#[export] Instance same_id_trans : Transitive same_id.
Proof. intros a b c [? ? ?] [? ? ?]. split; congruence. Qed.

Create HintDb frame.

(** Break a successful computation into its steps. *)
Ltac ok_steps :=
  repeat first [ok_step
    | match goal with
      | H : match ?x with FrameBuffer => _ | FileBuffer => _ end = Ok _ |- _ => destruct x eqn:?
      end].

Lemma fill_same s t off l s' : fill s t off l = Ok s' -> same_id s s'.
Proof. unfold fill. intros Hf. destruct t; ok_steps; done. Qed.

Lemma async_read_same P s t off len s' : async_read P s t off len = Ok s' -> same_id s s'.
Proof.
  unfold async_read. intros Hf. ok_steps; [|done].
  match goal with Hx : fill _ _ _ _ = Ok _ |- _ => apply fill_same in Hx as [? ? ?] end.
  by split.
Qed.

Lemma async_write_same P s k : same_id s (async_write P s k).
Proof. unfold async_write. by destruct (_ && _)%bool. Qed.

Lemma StartReadingFrames_same P s s' : StartReadingFrames P s = Ok s' -> same_id s s'.
Proof. unfold StartReadingFrames. intros Hf. ok_steps. by eapply async_read_same. Qed.

Lemma StartReadingChunks_same P s c s' : StartReadingChunks P s c = Ok s' -> same_id s s'.
Proof. unfold StartReadingChunks. intros Hf. ok_steps; try done. by eapply async_read_same. Qed.

Lemma ClearReadBuffer_same s s' : ClearReadBuffer s = Ok s' -> same_id s s'.
Proof. unfold ClearReadBuffer. intros Hf. ok_steps. done. Qed.

Lemma WriteMessageFrame_same P s msg s' : WriteMessageFrame P s msg = Ok s' -> same_id s s'.
Proof.
  unfold WriteMessageFrame. intros Hf. ok_steps; try done.
  etransitivity; [|apply async_write_same]. done.
Qed.

Lemma OnReceiveHelloFrame_same P e s s' : OnReceiveHelloFrame P e s = Ok s' -> same_id s s'.
Proof.
  unfold OnReceiveHelloFrame. intros Hf. ok_steps; try done.
  repeat match goal with
  | Hx : WriteMessageFrame _ _ _ = Ok _ |- _ => apply WriteMessageFrame_same in Hx as [? ? ?]
  | Hx : StartReadingFrames _ _ = Ok _ |- _ => apply StartReadingFrames_same in Hx as [? ? ?]
  end. split; etransitivity; eassumption.
Qed.

Section SessionSteps.
Context {M : Type} `{SessionManager M} (P : asio) (e : env).

(** One thing a handler does: work on the session itself, or a call to the
    manager. *)
Inductive sess_step : BVTCPSession * M -> BVTCPSession * M -> Prop :=
  | ss_local s s' m : same_id s s' -> sess_step (s, m) (s', m)
  | ss_put msg s m m' : PutMessageIntoAppMailbox msg m = Ok m' -> sess_step (s, m) (s, m')
  | ss_signal key acc s m m' : SignalFileTransfer e key acc m = Ok m' -> sess_step (s, m) (s, m')
  | ss_identify name s m s' m' :
      HandleSessionIdentification P e name s m = Ok (s', m') -> sess_step (s, m) (s', m').

Definition sess_steps := star sess_step.

Lemma steps_local s s' m : same_id s s' -> sess_steps (s, m) (s', m).
Proof. intros Hs. eapply star_step; [by apply ss_local|apply star_refl]. Qed.

Lemma steps_one a b : sess_step a b -> sess_steps a b.
Proof. intros Hs. eapply star_step; [exact Hs|apply star_refl]. Qed.

Lemma steps_trans a b c : sess_steps a b -> sess_steps b c -> sess_steps a c.
Proof. apply star_trans. Qed.

(** Turn the recorded calls into steps of the pair. *)
Ltac as_steps :=
  repeat match goal with
  | Hx : StartReadingFrames _ _ = Ok _ |- _ => apply StartReadingFrames_same in Hx
  | Hx : StartReadingChunks _ _ _ = Ok _ |- _ => apply StartReadingChunks_same in Hx
  | Hx : ClearReadBuffer _ = Ok _ |- _ => apply ClearReadBuffer_same in Hx
  | Hx : OnReceiveHelloFrame _ _ _ = Ok _ |- _ => apply OnReceiveHelloFrame_same in Hx
  | Hx : async_read _ _ _ _ _ = Ok _ |- _ => apply async_read_same in Hx
  | Hx : fill _ _ _ _ = Ok _ |- _ => apply fill_same in Hx
  end.

Lemma chat_steps s m s' m' :
  OnReceiveChatMessageFrame P s m = Ok (s', m') -> sess_steps (s, m) (s', m').
Proof.
  unfold OnReceiveChatMessageFrame. intros Hf. ok_steps; as_steps; [by apply steps_local|].
  eapply steps_trans; [apply steps_one; eapply ss_put; eassumption|by apply steps_local].
Qed.

Lemma begin_steps s m s' m' :
  OnReceiveFileTransferBegin P s m = Ok (s', m') -> sess_steps (s, m) (s', m').
Proof.
  unfold OnReceiveFileTransferBegin. intros Hf. ok_steps; as_steps; [by apply steps_local|].
  eapply steps_trans; [apply steps_one; eapply ss_put; eassumption|apply steps_local].
  repeat match goal with Hx : same_id _ _ |- _ => destruct Hx as [? ? ?] end.
  split; etransitivity; eassumption.
Qed.

Lemma forward_steps t ev s m m' :
  forward_chunk t ev s m = Ok m' -> sess_steps (s, m) (s, m').
Proof.
  unfold forward_chunk. intros Hf. ok_steps; [by apply steps_local|].
  apply steps_one. eapply ss_put. eassumption.
Qed.

Lemma offer_steps s m m' : OnReceiveFileOffer s m = Ok m' -> sess_steps (s, m) (s, m').
Proof.
  unfold OnReceiveFileOffer. intros Hf. ok_steps. apply steps_one. eapply ss_put. eassumption.
Qed.

Lemma helloback_steps s m s' m' :
  OnReceiveHelloBackFrame P e s m = Ok (s', m') -> sess_steps (s, m) (s', m').
Proof.
  unfold OnReceiveHelloBackFrame. intros Hf. ok_steps; try by apply steps_local.
  apply steps_one. eapply ss_identify. eassumption.
Qed.

Lemma standard_steps s m b s' m' :
  OnReceiveStandardFrame P e s m = Ok (b, s', m') -> sess_steps (s, m) (s', m').
Proof.
  unfold OnReceiveStandardFrame. intros Hf.
  apply bind_ok in Hf as (buf & Hb & Hf). apply bind_ok in Hf as (h & Hh & Hf).
  apply bind_ok in Hf as ([s1 m1] & H1 & Hf).
  assert (Hs1 : sess_steps (s, m) (s1, m1)).
  { destruct (_ =? _); [by apply chat_steps|]. injection H1 as <- <-. by apply steps_local. }
  eapply steps_trans; [exact Hs1|]. clear H1 Hs1. ok_steps; as_steps; try (by apply steps_local).
  - by apply begin_steps.
  - eapply steps_trans; [eapply offer_steps; eassumption|by apply steps_local].
  - eapply steps_trans; [apply steps_one; eapply ss_signal; eassumption|by apply steps_local].
  - eapply steps_trans; [apply steps_one; eapply ss_signal; eassumption|by apply steps_local].
Qed.

Lemma unprepared_steps h s m s' m' :
  handle_unprepared P e h s m = Ok (s', m') -> sess_steps (s, m) (s', m').
Proof.
  unfold handle_unprepared. intros Hf. apply bind_ok in Hf as (s1 & H1 & Hf).
  apply bind_ok in Hf as ([s2 m2] & H2 & Hf). apply bind_ok in Hf as (s3 & H3 & Hf).
  injection Hf as <- <-. eapply steps_trans; [|eapply steps_trans].
  - apply (steps_local s s1). destruct (_ =? _); [by eapply OnReceiveHelloFrame_same|by injection H1 as <-].
  - destruct (mh_msgType h =? BVSESSIONCONTROLMESSAGETYPE_HELLOBACK);
      [apply helloback_steps; exact H2|injection H2 as <- <-; by apply steps_local].
  - apply steps_local. destruct (_ =? BVSESSIONCONTROLMESSAGETYPE_CONFIRM_ESTABLISHED);
      [|by injection H3 as <-].
    unfold OnReceiveConfirmEstablished in H3. apply StartReadingFrames_same in H3 as [? ? ?]. by split.
Qed.

Lemma frame_callback_steps ec n s m s' m' :
  ReadMessageFrameCallback P e ec n s m = Ok (s', m') -> sess_steps (s, m) (s', m').
Proof.
  unfold ReadMessageFrameCallback. intros Hf. destruct ec; [injection Hf as <- <-; by apply steps_local|].
  eapply steps_trans; [apply (steps_local s (set_read s 0)); by split|].
  destruct (_ =? MESSAGE_FRAME_SIZE_BYTES)%nat.
  - apply bind_ok in Hf as (buf & Hb & Hf). apply bind_ok in Hf as (h & Hh & Hf).
    apply bind_ok in Hf as ([[early s1] m1] & H1 & Hf).
    assert (Hs1 : sess_steps (set_read s 0, m) (s1, m1)).
    { clear Hf. case_decide; [|exact (standard_steps _ _ _ _ _ H1)].
      apply bind_ok in H1 as ([s2 m2] & H2 & H1). injection H1 as <- <- <-. exact (unprepared_steps _ _ _ _ _ H2). }
    eapply steps_trans; [exact Hs1|]. clear H1 Hs1. ok_steps; as_steps; by apply steps_local.
  - ok_steps; as_steps. apply steps_local. match goal with Hx : same_id _ _ |- _ => destruct Hx end. by split.
Qed.

Lemma file_callback_steps ec n s m s' m' :
  ReadFileChunkCallback P ec n s m = Ok (s', m') -> sess_steps (s, m) (s', m').
Proof.
  unfold ReadFileChunkCallback. intros Hf. destruct ec; [injection Hf as <- <-; by apply steps_local|].
  set (s0 := set_read s _) in *.
  eapply steps_trans; [apply (steps_local s s0); by split|].
  apply bind_ok in Hf as (h & Hh & Hf).
  destruct (_ =? BVSESSIONREGULARMESSAGETYPE_FILE_TRANSFER_END).
  - apply bind_ok in Hf as (m1 & H1 & Hf). eapply steps_trans; [eapply forward_steps; exact H1|].
    ok_steps; as_steps. apply steps_local.
    repeat match goal with Hx : same_id _ _ |- _ => destruct Hx as [? ? ?] end.
    split; etransitivity; eassumption.
  - apply bind_ok in Hf as (m1 & H1 & Hf).
    apply (steps_trans _ (s0, m1)).
    { destruct (_ =? _); [eapply forward_steps; exact H1|]. injection H1 as <-. by apply steps_local. }
    clear H1. ok_steps; as_steps. apply steps_local. match goal with Hx : same_id _ _ |- _ => destruct Hx end. by split.
Qed.

(** Everything a completed read does is a sequence of such steps. *)
Lemma complete_read_steps s m s' m' :
  complete_read P e s m = Ok (Some (s', m')) -> sess_steps (s, m) (s', m').
Proof.
  unfold complete_read. intros Hf. destruct (reads (sock s)) as [|op ops]; [done|].
  destruct (_ <? _)%nat; [done|]. apply bind_ok in Hf as (s1 & H1 & Hf). apply fill_same in H1.
  apply bind_ok in Hf as ([s2 m2] & H2 & Hf). injection Hf as <- <-.
  eapply steps_trans; [apply (steps_local s (set_sock s1 (with_reads (sock s1)
    (drop (ro_len op - ro_done op) (rx (sock s))) ops))); destruct H1 as [? ? ?]; by split|].
  destruct (ro_target op); [by eapply frame_callback_steps|by eapply file_callback_steps].
Qed.

End SessionSteps.

(** ** Invariant *)

Section ManagerInvariant.
Context {Q : Type -> Type} `{FifoQueue Q}.

(** Keys are ordered and are their session's identifier, references are
    valid, and no two sessions are with the same service. *)
Record mgr_inv (m : Manager Q) : Prop := {
  mi_sorted : smap_sorted (sessions_m m);
  mi_self : forall ref s, objs m !! ref = Some s -> self s = ref;
  mi_ref : forall k ref, (k, ref) ∈ sessions_m m -> exists s, objs m !! ref = Some s /\ sessionID s = k;
  mi_names : NoDup (session_names m);
  mi_slots : outMailboxes_p m !! 0 = Some None
}.

(** What the invariant looks at. *)
Definition same_maps (m m' : Manager Q) : Prop :=
  objs m' = objs m /\ sessions_m m' = sessions_m m /\ outMailboxes_p m' = outMailboxes_p m.

Lemma session_names_same m m' : same_maps m m' -> session_names m' = session_names m.
Proof. intros (Ho & Hs & _). unfold session_names, session_name. by rewrite Ho, Hs. Qed.

Lemma mgr_inv_same m m' : same_maps m m' -> mgr_inv m -> mgr_inv m'.
Proof.
  intros Hsm [H1 H2 H3 H4 H5]. pose proof (session_names_same m m' Hsm) as Hn.
  destruct Hsm as (Ho & Hs & Hm). split; rewrite ?Ho, ?Hs, ?Hn, ?Hm; done.
Qed.

Lemma same_maps_put_back m m' s : same_maps m m' -> same_maps (put_back m s) (put_back m' s).
Proof. intros (Ho & Hs & Hm). unfold put_back. split; [|split]; cbn; by rewrite ?Ho. Qed.

Lemma IsSessionAlreadyPresent_spec (m : Manager Q) name :
  IsSessionAlreadyPresent m name = true <-> name ∈ session_names m.
Proof.
  unfold IsSessionAlreadyPresent. rewrite existsb_exists. split.
  - intros (x & Hx & E%String.eqb_eq). subst. by apply list_elem_of_In.
  - intros Hn. exists name. split; [by apply list_elem_of_In|by apply String.eqb_eq].
Qed.

Lemma StartCommunication_ok (m : Manager Q) :
  outMailboxes_p m !! 0 = Some None ->
  StartCommunicationSessionWithNode m =
    Ok (BVSTATUS_OK, static_node_id m, true,
        m_node_id m (u8 (static_node_id m mod N_SERVICES_MAX + 1))).
Proof.
  intros Hs. unfold StartCommunicationSessionWithNode.
  change (Z.to_nat N_SERVICES_MAX) with 255%nat. cbn [find_slot]. by rewrite Hs.
Qed.

(** A session added, or renamed, under its own key. *)
Lemma mgr_inv_register (m : Manager Q) s old :
  smap_sorted (sessions_m m) -> outMailboxes_p m !! 0 = Some None ->
  (forall ref x, objs m !! ref = Some x -> self x = ref) ->
  (forall k ref, (k, ref) ∈ sessions_m m -> exists x, objs m !! ref = Some x /\ sessionID x = k) ->
  NoDup (session_names m) -> nd_serviceName (nodeData s) ∉ session_names m ->
  objs m !! self s = old -> (forall x, old = Some x -> sessionID x = sessionID s) ->
  mgr_inv (put_back (m_sessions m (smap_insert (sessionID s) (self s) (sessions_m m))
             (service_sessionid_m m)) s).
Proof.
  intros Hso Hsl Hse Hre Hnd Hni Hold Hid. set (m' := put_back _ _).
  assert (Herase : forall k ref, (k, ref) ∈ smap_erase (sessionID s) (sessions_m m) -> ref <> self s).
  { intros k ref [Hk Hin]%list_elem_of_filter ->. simpl in Hk.
    destruct (Hre _ _ Hin) as (x & Hx & Hkx). apply Hk. rewrite <- Hkx. apply Hid. congruence. }
  assert (Hnm : forall ref, ref <> self s -> session_name m' ref = session_name m ref).
  { intros ref Hne. unfold session_name, m'. cbn. by rewrite lookup_insert_ne by done. }
  assert (Hperm : session_names m' ≡ₚ nd_serviceName (nodeData s) ::
    omap (fun kv => session_name m kv.2) (smap_erase (sessionID s) (sessions_m m))).
  { unfold session_names. cbn [m' put_back m_objs m_sessions sessions_m].
    rewrite smap_insert_perm by done. cbn [omap list_omap snd].
    replace (session_name m' (self s)) with (Some (nd_serviceName (nodeData s)))
      by (unfold session_name, m'; cbn; by rewrite lookup_insert_eq).
    apply perm_skip. erewrite omap_ext_in; [done|]. intros [k ref] Hin. apply Hnm. by eapply Herase. }
  assert (Hsub : omap (fun kv => session_name m kv.2) (smap_erase (sessionID s) (sessions_m m))
                   `sublist_of` session_names m) by (apply omap_sublist, sublist_filter).
  split; cbn [m' put_back m_objs m_sessions sessions_m outMailboxes_p objs].
  - by apply smap_insert_sorted.
  - intros ref x. destruct (decide (ref = self s)) as [->|Hne].
    + rewrite lookup_insert_eq. by intros [= ->].
    + rewrite lookup_insert_ne by done. apply Hse.
  - intros k ref [[= -> ->]|Hin]%smap_insert_elem; [exists s; by rewrite lookup_insert_eq|].
    destruct (decide (ref = self s)) as [->|Hne].
    + exists s. rewrite lookup_insert_eq. split; [done|]. destruct (Hre _ _ Hin) as (x & Hx & <-).
      symmetry. apply Hid. congruence.
    + rewrite lookup_insert_ne by done. by apply Hre.
  - rewrite Hperm. apply NoDup_cons. split; [|by eapply sublist_NoDup].
    intros Hin. apply Hni. by eapply elem_of_sublist.
  - done.
Qed.

(** An update of a session that keeps its identity. *)
Lemma mgr_inv_local m s s' : same_id s s' -> mgr_inv (put_back m s) -> mgr_inv (put_back m s').
Proof.
  intros [Hs Hi Hn] [H1 H2 H3 H4 H5].
  assert (Hnm : forall ref, session_name (put_back m s') ref = session_name (put_back m s) ref).
  { intros ref. unfold session_name, put_back. cbn. rewrite Hs.
    destruct (decide (ref = self s)) as [->|Hne];
      [rewrite !lookup_insert_eq; cbn; by rewrite Hn|by rewrite !lookup_insert_ne]. }
  split; try done.
  - intros ref x. unfold put_back. cbn. rewrite Hs. destruct (decide (ref = self s)) as [->|Hne].
    + rewrite lookup_insert_eq. intros [= <-]. done.
    + rewrite lookup_insert_ne by done. intros Hx. apply (H2 ref). cbn. by rewrite lookup_insert_ne.
  - intros k ref Hin. destruct (H3 k ref Hin) as (x & Hx & Hk). unfold put_back in *. cbn in *.
    rewrite Hs. destruct (decide (ref = self s)) as [->|Hne].
    + exists s'. rewrite lookup_insert_eq in Hx |- *. injection Hx as <-. split; [done|congruence].
    + exists x. by rewrite lookup_insert_ne in Hx |- *.
  - replace (session_names (put_back m s')) with (session_names (put_back m s)); [done|].
    unfold session_names. cbn. apply omap_ext_in. intros x _. symmetry. apply Hnm.
Qed.

Lemma names_put_back_id (m : Manager Q) s x :
  objs m !! self s = Some x -> nodeData x = nodeData s ->
  session_names (put_back m s) = session_names m.
Proof.
  intros Hx Hn. unfold session_names. cbn. apply omap_ext_in. intros kv _.
  unfold session_name, put_back. cbn. destruct (decide (kv.2 = self s)) as [->|Hne].
  - rewrite lookup_insert_eq, Hx. cbn. by rewrite Hn.
  - by rewrite lookup_insert_ne.
Qed.

Lemma put_back_idem (m : Manager Q) s s' :
  self s' = self s -> same_maps (put_back m s') (put_back (put_back m s) s').
Proof. intros Hs. unfold same_maps, put_back. cbn. rewrite Hs, insert_insert_eq. done. Qed.

Lemma identify_inv P e name s m s' m' :
  mgr_inv (put_back m s) -> mgr_HandleSessionIdentification P e name s m = Ok (s', m') ->
  mgr_inv (put_back m' s') /\ self s' = self s.
Proof.
  intros Hi. unfold mgr_HandleSessionIdentification.
  destruct (IsSessionAlreadyPresent (put_back m s) name) eqn:E; cbn [negb].
  - intros [= <- <-]. split; [|done].
    apply (mgr_inv_same (put_back m (Close s))); [|apply (mgr_inv_local _ s); [done|exact Hi]].
    unfold same_maps, put_back. cbn. by rewrite !insert_insert_eq.
  - rewrite StartCommunication_ok by apply Hi. cbn [mbind result_bind].
    destruct (no_endpoint e); [done|].
    set (s1 := set_inMailbox _ _). destruct (AddNodeToNodesM _ _ _) as [st m2] eqn:Ea. intros Hf.
    apply bind_ok in Hf as (s2 & Hw & Hf). apply bind_ok in Hf as (s3 & Hr & Hf). injection Hf as <- <-.
    apply WriteMessageFrame_same in Hw. apply StartReadingFrames_same in Hr.
    assert (Hid : same_id s1 s3) by by transitivity s2. pose proof Hid as [Hs _ _].
    split; [|rewrite Hs; done]. destruct Hi as [H1 H2 H3 H4 H5].
    apply (mgr_inv_same (put_back m2 s3)); [by apply put_back_idem|].
    apply (mgr_inv_local m2 s1 s3 Hid).
    apply (mgr_inv_same (put_back (m_sessions (put_back m s)
      (smap_insert (sessionID s1) (self s1) (sessions_m (put_back m s)))
      (service_sessionid_m (put_back m s))) s1)).
    { unfold AddNodeToNodesM in Ea. destruct (nodesM _ !! name); injection Ea as _ <-; by split. }
    apply (mgr_inv_register (put_back m s) s1 (Some s)); try done.
    + intros Hin. apply (IsSessionAlreadyPresent_spec (put_back m s)) in Hin.
      change (nd_serviceName (nodeData s1)) with name in Hin. congruence.
    + unfold put_back. cbn. by rewrite lookup_insert_eq.
    + by intros x [= <-].
Qed.

Lemma signal_same e key acc (m m' : Manager Q) :
  mgr_SignalFileTransfer e key acc m = Ok m' -> same_maps m m'.
Proof.
  unfold mgr_SignalFileTransfer. intros Hf. destruct (pendingOutgoing_m m !! key) as [[sid fp]|];
    [|by injection Hf as <-]. destruct acc; cbn [negb] in Hf; [|by injection Hf as <-].
  apply bind_ok in Hf as (ref & _ & Hf). apply bind_ok in Hf as (c & _ & Hf).
  cbn in Hf. by injection Hf as <-.
Qed.

Lemma put_same msg (m m' : Manager Q) :
  mgr_PutMessageIntoAppMailbox msg m = Ok m' -> same_maps m m'.
Proof.
  unfold mgr_PutMessageIntoAppMailbox. intros Hf. apply bind_ok in Hf as (ml & _ & Hf).
  by injection Hf as <-.
Qed.

(** Whatever a session does while it handles a read keeps the invariant. *)
Lemma sess_steps_inv P e x y :
  sess_steps P e x y -> mgr_inv (put_back x.2 x.1) ->
  mgr_inv (put_back y.2 y.1) /\ self y.1 = self x.1.
Proof.
  induction 1 as [x|x y z Hs _ IH]; [done|]. intros Hi.
  assert (Hy : mgr_inv (put_back y.2 y.1) /\ self y.1 = self x.1).
  { destruct Hs as [s s' m Hid|msg s m m' Hp|key acc s m m' Hp|name s m s' m' Hp]; cbn [fst snd] in *.
    - split; [by apply (mgr_inv_local m s)|apply Hid].
    - split; [|done]. eapply mgr_inv_same; [|exact Hi]. apply same_maps_put_back. exact (put_same _ _ _ Hp).
    - split; [|done]. eapply mgr_inv_same; [|exact Hi]. apply same_maps_put_back. exact (signal_same _ _ _ _ _ Hp).
    - exact (identify_inv _ _ _ _ _ _ _ Hi Hp). }
  destruct Hy as [Hy1 Hy2]. destruct (IH Hy1) as [Hz1 Hz2]. split; [done|congruence].
Qed.

End ManagerInvariant.

(** ** The manager at work *)

Section ManagerSteps.
Context {Q : Type -> Type} `{FifoQueue Q} (P : asio).

(** One thing that happens: a call by the application or the discovery, or
    the completion of an operation. *)
Inductive mstep : Manager Q -> Manager Q -> Prop :=
  | ms_initiate node st m m' : InitiateSessionWithNode m node = Ok (st, m') -> mstep m m'
  | ms_connected e k error m m' : ConnectHandler P e k error m = Ok m' -> mstep m m'
  | ms_accept m : mstep m (Accept m)
  | ms_accepted e error m m' : Accept_handler P e error m = Ok m' -> mstep m m'
  | ms_receive ref s bytes m : objs m !! ref = Some s -> mstep m (put_back m (receive s bytes))
  | ms_readable e ref m m' : on_readable P e ref m = Ok (Some m') -> mstep m m'
  | ms_read_failed e ref m m' : on_read_error P e ref m = Ok m' -> mstep m m'
  | ms_written ref s m : objs m !! ref = Some s -> mstep m (put_back m (complete_write P s))
  | ms_write_failed n ref s m : objs m !! ref = Some s -> mstep m (put_back m (fail_write P n s))
  | ms_send msg sid st m m' : SendDataToNode P m msg sid = Ok (st, m') -> mstep m m'
  | ms_send_all msg st m m' : SendDataToEveryone P m msg = Ok (st, m') -> mstep m m'
  | ms_remove name st m m' : RemoveSession m name = (st, m') -> mstep m m'
  | ms_offer e sid path st m m' :
      InitiateFileTransferWithSession e m sid path = Ok (st, m') -> mstep m m'
  | ms_respond e name key acc m m' : RespondToFileOffer e m name key acc = Ok m' -> mstep m m'
  | ms_worker e ec key m m' : worker_step e ec key m = Ok m' -> mstep m m'.

Lemma mgr_inv_put (m : Manager Q) ref s s' :
  mgr_inv m -> objs m !! ref = Some s -> same_id s s' -> mgr_inv (put_back m s').
Proof.
  intros Hi Hs Hid. apply (mgr_inv_local m s); [done|].
  apply (mgr_inv_same m); [|done]. pose proof (mi_self m Hi ref s Hs) as <-.
  unfold same_maps, put_back. cbn. by rewrite insert_id.
Qed.

Lemma mgr_inv_put_ref (m : Manager Q) ref s s' :
  mgr_inv m -> objs m !! ref = Some s -> same_id s s' -> mgr_inv (m_objs m (<[ ref := s' ]> (objs m))).
Proof.
  intros Hi Hs Hid. pose proof (mi_self m Hi ref s Hs) as <-.
  pose proof (mgr_inv_put m (self s) s s' Hi Hs Hid) as Hp. unfold put_back in Hp.
  by rewrite (sm_self s s' Hid) in Hp.
Qed.

Lemma fresh_obj_lookup (m : Manager Q) : objs m !! fresh_obj m = None.
Proof. apply not_elem_of_dom. unfold fresh_obj. apply is_fresh. Qed.

(** A new object that is in no map. *)
Lemma mgr_inv_new (m : Manager Q) s :
  mgr_inv m -> objs m !! self s = None -> mgr_inv (put_back m s).
Proof.
  intros [H1 H2 H3 H4 H5] Hf.
  assert (Hin : forall k ref, (k, ref) ∈ sessions_m m -> ref <> self s).
  { intros k ref Hk ->. destruct (H3 _ _ Hk) as (x & Hx & _). congruence. }
  split; cbn [put_back m_objs objs sessions_m outMailboxes_p]; try done.
  - intros ref x. destruct (decide (ref = self s)) as [->|Hne].
    + rewrite lookup_insert_eq. by intros [= ->].
    + rewrite lookup_insert_ne by done. apply H2.
  - intros k ref Hk. rewrite lookup_insert_ne by (symmetry; by eapply Hin). by apply H3.
  - replace (session_names (put_back m s)) with (session_names m); [done|].
    unfold session_names. cbn. apply omap_ext_in. intros [k ref] Hk. cbn.
    unfold session_name, put_back. cbn. rewrite lookup_insert_ne by (symmetry; by eapply Hin). done.
Qed.

Lemma make_same ref node sid name f c s :
  BVTCPSession_make ref node sid name f c = Ok s ->
  self s = ref /\ sessionID s = sid /\ nodeData s = node.
Proof.
  unfold BVTCPSession_make, ClearReadBuffer. intros Hf. ok_steps. done.
Qed.

Lemma complete_write_same s : same_id s (complete_write P s).
Proof.
  unfold complete_write. destruct (writes (sock s)) as [|op ops]; [done|]. destruct (wo_kind op).
  - unfold WriteMessageFrameCallback. destruct (_ || _)%bool; [case_decide; by split|].
    etransitivity; [|apply async_write_same]. by split.
  - by split.
Qed.

Lemma WriteFileChunkSync_same s ch n ec b s' :
  WriteFileChunkSync s ch n ec = Ok (b, s') -> same_id s s'.
Proof. unfold WriteFileChunkSync. intros Hf. ok_steps; by split. Qed.

Lemma TransferNextChunk_same now ec c s c' s' :
  TransferNextChunk now ec c s = Ok (c', s') -> same_id s s' /\ ft_session c' = ft_session c.
Proof.
  unfold TransferNextChunk, TransferBegin. intros Hf. case_decide; ok_steps; try done.
  all: split; [by eapply WriteFileChunkSync_same; eassumption|done].
Qed.

Lemma mgr_inv_initiate (m : Manager Q) node st m' :
  mgr_inv m -> InitiateSessionWithNode m node = Ok (st, m') -> mgr_inv m'.
Proof.
  intros Hi. unfold InitiateSessionWithNode. destruct (negb _); [by intros [= <- <-]|].
  destruct (IsSessionAlreadyPresent _ _); [by intros [= <- <-]|].
  rewrite StartCommunication_ok by apply Hi. cbn [mbind result_bind].
  rewrite decide_False by done. intros [= <- <-]. by apply (mgr_inv_same m).
Qed.

Lemma mgr_inv_connected e k error (m m' : Manager Q) :
  mgr_inv m -> ConnectHandler P e k error m = Ok m' -> mgr_inv m'.
Proof.
  intros Hi. unfold ConnectHandler. destruct (connecting m !! k) as [[sid node]|]; [|by intros [= <-]].
  set (m0 := m_connecting m _). assert (Hi0 : mgr_inv m0) by by apply (mgr_inv_same m).
  clearbody m0. clear Hi. destruct error; [by intros [= <-]|].
  destruct (IsSessionAlreadyPresent m0 _) eqn:Ep; [by intros [= <-]|]. intros Hf.
  apply bind_ok in Hf as (s & Hs & Hf). apply make_same in Hs as (Hself & Hsid & Hnode).
  rewrite StartCommunication_ok in Hf by apply Hi0. cbn [mbind result_bind] in Hf.
  set (s1 := set_origin _ _) in Hf. apply bind_ok in Hf as (s2 & Hr & Hf). injection Hf as <-.
  apply StartReadingFrames_same in Hr. pose proof Hr as [Hs2 _ _].
  set (m1 := m_sessions _ _ _).
  apply (mgr_inv_same (put_back m1 s2)).
  { unfold same_maps, put_back. cbn. rewrite Hs2. change (self s1) with (self s). by rewrite Hself. }
  apply (mgr_inv_local m1 s1 s2 Hr).
  apply (mgr_inv_same (put_back (m_sessions m0 (smap_insert (sessionID s1) (self s1) (sessions_m m0))
    (service_sessionid_m m0)) s1)).
  { unfold same_maps, put_back. cbn. rewrite Hsid, Hself. done. }
  apply (mgr_inv_register m0 s1 None); try apply Hi0; [|change (self s1) with (self s)|done].
  - change (nodeData s1) with (with_id (nodeData s) (static_node_id m0)). rewrite Hnode. cbn.
    intros Hin. apply IsSessionAlreadyPresent_spec in Hin. congruence.
  - rewrite Hself. apply fresh_obj_lookup.
Qed.

Lemma mgr_inv_accepted e error (m m' : Manager Q) :
  mgr_inv m -> Accept_handler P e error m = Ok m' -> mgr_inv m'.
Proof.
  intros Hi. unfold Accept_handler. destruct (accepting m) as [sid|]; [|by intros [= <-]].
  set (m0 := m_accepting m None). assert (Hi0 : mgr_inv m0) by by apply (mgr_inv_same m).
  clearbody m0. clear Hi. destruct error; [by intros [= <-]|]. intros Hf.
  apply bind_ok in Hf as (s & Hs & Hf). apply make_same in Hs as (Hself & _ & _).
  apply bind_ok in Hf as (s1 & Hw & Hf). apply bind_ok in Hf as (s2 & Hr & Hf). injection Hf as <-.
  apply WriteMessageFrame_same in Hw as [Hs1 _ _]. apply StartReadingFrames_same in Hr as [Hs2 _ _].
  assert (Hs : self s2 = fresh_obj m0) by (rewrite Hs2; cbn; rewrite Hs1; cbn; done).
  apply (mgr_inv_same (put_back m0 s2)); [unfold same_maps, put_back; cbn; by rewrite Hs|].
  apply mgr_inv_new; [done|]. rewrite Hs. apply fresh_obj_lookup.
Qed.

Lemma mgr_inv_readable e ref (m m' : Manager Q) :
  mgr_inv m -> on_readable P e ref m = Ok (Some m') -> mgr_inv m'.
Proof.
  intros Hi. unfold on_readable. intros Hf. apply bind_ok in Hf as (s & Hs & Hf).
  apply from_option_ok in Hs. apply bind_ok in Hf as ([[s' m1]|] & Hc & Hf); [|done].
  injection Hf as <-. apply complete_read_steps in Hc.
  apply (sess_steps_inv P e _ _ Hc). cbn [fst snd]. by apply (mgr_inv_put m ref s).
Qed.

Lemma mgr_inv_write msg ref (m m' : Manager Q) :
  mgr_inv m -> write_to P m ref msg = Ok m' -> mgr_inv m'.
Proof.
  intros Hi Hf. unfold write_to in Hf. apply bind_ok in Hf as (s & Hs & Hf).
  apply from_option_ok in Hs. apply bind_ok in Hf as (s' & Hw & Hf). injection Hf as <-.
  apply WriteMessageFrame_same in Hw. by eapply mgr_inv_put_ref.
Qed.

Lemma mgr_inv_write_all msg l : forall (m m' : Manager Q),
  mgr_inv m -> write_to_all P l msg m = Ok m' -> mgr_inv m'.
Proof.
  induction l as [|[k ref] l IH]; cbn [write_to_all]; intros m m' Hi Hf; [by injection Hf as <-|].
  apply bind_ok in Hf as (m1 & Hw & Hf). eapply IH; [|exact Hf]. by eapply mgr_inv_write.
Qed.

Lemma mgr_inv_remove name st (m m' : Manager Q) :
  mgr_inv m -> RemoveSession m name = (st, m') -> mgr_inv m'.
Proof.
  intros Hi. unfold RemoveSession. destruct (service_sessionid_m m !! name) as [id|]; [|by intros [= <- <-]].
  destruct (smap_find id (sessions_m m)); intros [= <- <-]; [|by apply (mgr_inv_same m)].
  destruct Hi as [H1 H2 H3 H4 H5]. split; cbn [m_sessions sessions_m objs outMailboxes_p]; try done.
  - by apply smap_erase_sorted.
  - intros k ref [_ Hin]%list_elem_of_filter. by apply H3.
  - eapply sublist_NoDup; [exact H4|apply omap_sublist, sublist_filter].
Qed.

Lemma mgr_inv_offer e sid path st (m m' : Manager Q) :
  mgr_inv m -> InitiateFileTransferWithSession e m sid path = Ok (st, m') -> mgr_inv m'.
Proof.
  intros Hi Hf. unfold InitiateFileTransferWithSession in Hf. set (m0 := m_pending _ _) in Hf.
  assert (Hi0 : mgr_inv m0) by by apply (mgr_inv_same m).
  apply bind_ok in Hf as (ref & _ & Hf). apply bind_ok in Hf as (s & Hs & Hf).
  apply from_option_ok in Hs. apply bind_ok in Hf as (s' & Hw & Hf). injection Hf as _ <-.
  unfold SendFileOffer in Hw. apply bind_ok in Hw as ([b s2] & Hw & Hb). injection Hb as ->.
  apply WriteFileChunkSync_same in Hw. exact (mgr_inv_put_ref _ ref s s' Hi0 Hs Hw).
Qed.

Lemma mgr_inv_respond e name key acc (m m' : Manager Q) :
  mgr_inv m -> RespondToFileOffer e m name key acc = Ok m' -> mgr_inv m'.
Proof.
  intros Hi Hf. unfold RespondToFileOffer in Hf.
  destruct (GetSessionIDFromServiceName m name) as [[] [sid|]]; try by injection Hf as <-.
  destruct (smap_find sid (sessions_m m)); [|by injection Hf as <-].
  apply bind_ok in Hf as (s & Hs & Hf).
  apply from_option_ok in Hs. apply bind_ok in Hf as (s' & Hw & Hf). injection Hf as <-.
  unfold SendFileControl in Hw. apply bind_ok in Hw as ([b s2] & Hw & Hb). injection Hb as ->.
  apply WriteFileChunkSync_same in Hw. by eapply mgr_inv_put_ref.
Qed.

Lemma mgr_inv_worker e ec key (m m' : Manager Q) :
  mgr_inv m -> worker_step e ec key m = Ok m' -> mgr_inv m'.
Proof.
  intros Hi Hf. unfold worker_step in Hf.
  destruct (fileTransferContext_m m !! key) as [c|]; [|by injection Hf as <-].
  destruct (_ || _)%bool; [by injection Hf as <-|].
  apply bind_ok in Hf as (s & Hs & Hf). apply from_option_ok in Hs.
  apply bind_ok in Hf as ([c' s'] & Ht & Hf). apply TransferNextChunk_same in Ht as [Hid Hc].
  pose proof (mgr_inv_put_ref m (ft_session c) s s' Hi Hs Hid) as Hp.
  rewrite <- Hc in Hp at 1.
  destruct (ft_progress c') as [[[a b] n]|]; injection Hf as <-;
    (eapply mgr_inv_same; [|exact Hp]); by split.
Qed.

Lemma fail_write_same n s : same_id s (fail_write P n s).
Proof.
  unfold fail_write. destruct (writes (sock s)) as [|[k len b] ops]; [by split|]. by destruct k.
Qed.

(** A failed read takes the session's pending read and does nothing else. *)
Lemma fail_read_ok e s (m : Manager Q) :
  fail_read P e s m = Ok (set_sock s (with_reads (sock s) (rx (sock s)) (drop 1 (reads (sock s)))), m).
Proof.
  unfold fail_read. destruct (reads (sock s)) as [|op ops] eqn:E; [|by destruct (ro_target op)].
  cbn. rewrite <- E. by destruct s, sock.
Qed.

Lemma on_read_error_put e ref (m m' : Manager Q) :
  on_read_error P e ref m = Ok m' -> exists s s', objs m !! ref = Some s /\ same_id s s' /\ m' = put_back m s'.
Proof.
  unfold on_read_error. intros Hf. apply bind_ok in Hf as (s & Hs & Hf). apply from_option_ok in Hs.
  rewrite fail_read_ok in Hf. cbn [mbind result_bind] in Hf. injection Hf as <-.
  exists s. eexists. split; [done|]. split; [|reflexivity]. by split.
Qed.

Lemma mstep_inv (m m' : Manager Q) : mgr_inv m -> mstep m m' -> mgr_inv m'.
Proof.
  intros Hi Hs. destruct Hs.
  - by eapply mgr_inv_initiate.
  - by eapply mgr_inv_connected.
  - by apply (mgr_inv_same m).
  - by eapply mgr_inv_accepted.
  - eapply mgr_inv_put; [done|eassumption|by split].
  - by eapply mgr_inv_readable.
  - match goal with Hx : on_read_error _ _ _ _ = _ |- _ => apply on_read_error_put in Hx as (s & s' & Hs & Hid & ->) end.
    by eapply mgr_inv_put.
  - eapply mgr_inv_put; [done|eassumption|apply complete_write_same].
  - eapply mgr_inv_put; [done|eassumption|apply fail_write_same].
  - match goal with Hx : SendDataToNode _ _ _ _ = _ |- _ => unfold SendDataToNode in Hx end.
    destruct (smap_find sid (sessions_m m)); ok_steps; [by eapply mgr_inv_write|done].
  - match goal with Hx : SendDataToEveryone _ _ _ = _ |- _ => unfold SendDataToEveryone in Hx end.
    ok_steps. by eapply mgr_inv_write_all.
  - by eapply mgr_inv_remove.
  - by eapply mgr_inv_offer.
  - by eapply mgr_inv_respond.
  - by eapply mgr_inv_worker.
Qed.

Lemma mgr_inv_make data mbx (ml : mail Q) fs : mgr_inv (BVTCPConnectionManager_make data mbx ml fs).
Proof.
  split; cbn [BVTCPConnectionManager_make objs sessions_m outMailboxes_p]; try done.
  - intros k ref Hk. inversion Hk.
  - apply NoDup_nil_2.
Qed.

End ManagerSteps.

(** ** What the manager promises to its sessions *)

Section ManagerLaws.
Context {Q : Type -> Type} `{FifoQueueLaws Q}.

(** The messages waiting in the application's mailbox. *)
Definition mgr_app_mail (m : Manager Q) (l : list BVMessage) : Prop :=
  mail_holds (mgr_mail m) (mailbox m) l.

Lemma mgr_put_app_mail (m : Manager Q) l msg :
  mgr_app_mail m l ->
  exists m', mgr_PutMessageIntoAppMailbox msg m = Ok m' /\ mgr_app_mail m' (l ++ [msg]).
Proof.
  intros Hl. unfold mgr_PutMessageIntoAppMailbox.
  destruct (push_msg_holds _ _ _ msg Hl) as (ml & Hp & Hh & _). rewrite Hp. by exists (m_mail m ml).
Qed.

#[export] Instance manager_laws : SessionManagerLaws (Manager Q).
Proof. refine {| app_mail := mgr_app_mail |}. intros m l msg. apply mgr_put_app_mail. Defined.

(** ** The identification of an accepted peer *)

(** The maps after [caller] is known to be [name]. *)
Definition identified (m m' : Manager Q) (caller : BVTCPSession) (name : string) : Prop :=
  smap_find (sessionID caller) (sessions_m m') = Some (self caller) /\
  service_sessionid_m m' = <[ name := sessionID caller ]> (service_sessionid_m m) /\
  session_name m' (self caller) = Some name /\
  (forall k, k <> sessionID caller -> smap_find k (sessions_m m') = smap_find k (sessions_m m)) /\
  (forall r, r <> self caller -> objs m' !! r = objs m !! r) /\
  is_Some (nodesM m' !! name).

(** The frame that tells the dialer it is accepted. *)
Definition confirm_frame (e : env) : list ascii :=
  message_bytes (control_message e BVSESSIONCONTROLMESSAGETYPE_CONFIRM_ESTABLISHED).

Lemma identify_new P e name (caller : BVTCPSession) (m : Manager Q) buf :
  mgr_inv (put_back m caller) -> name ∉ session_names (put_back m caller) ->
  writable caller -> calm P caller -> reads (sock caller) = [] ->
  readBuf caller = Some buf -> length buf = MESSAGE_FRAME_SIZE_BYTES -> totalBytesRead caller = 0%nat -> no_endpoint e = false ->
  exists s' m', mgr_HandleSessionIdentification P e name caller m = Ok (s', m') /\
    objs m' !! self caller = Some s' /\ identified m m' caller name /\
    s_state s' = BVSESSIONSTATE_ESTABLISHED /\ listening s' /\ rx (sock s') = rx (sock caller) /\
    tx (sock s') = tx (sock caller) ++ (if eager_write P then confirm_frame e else []) /\
    writes (sock s') = [WriteOp MessageFrame MESSAGE_FRAME_SIZE_BYTES (eager_write P)] /\
    writeStore s' = confirm_frame e /\ totalBytesWritten s' = 0%nat /\ mgr_mail m' = mgr_mail m /\ mailbox m' = mailbox m /\
    service_sessionid_m m' = <[ name := sessionID caller ]> (service_sessionid_m m).
Proof.
  intros Hi Hn Hw HP Hr Hb Hl Ht He. unfold mgr_HandleSessionIdentification.
  destruct (IsSessionAlreadyPresent (put_back m caller) name) eqn:E;
    [by apply IsSessionAlreadyPresent_spec in E|]. cbn [negb].
  rewrite StartCommunication_ok by apply Hi. rewrite He. sess. set (node := with_name _ _).
  set (c1 := set_inMailbox _ _). set (m1 := m_sessions _ _ _).
  destruct (AddNodeToNodesM m1 name node) as [st m2] eqn:Ea.
  assert (Hm2 : is_Some (nodesM m2 !! name) /\ objs m2 = objs m1 /\ sessions_m m2 = sessions_m m1 /\
    service_sessionid_m m2 = service_sessionid_m m1 /\ mgr_mail m2 = mgr_mail m1 /\ mailbox m2 = mailbox m1).
  { unfold AddNodeToNodesM in Ea. destruct (nodesM m1 !! name) eqn:En; injection Ea as _ <-; [done|].
    cbn. by rewrite lookup_insert_eq. }
  destruct Hm2 as (Hnode & Ho & Hs & Hsv & Hml & Hmb).
  rewrite WriteMessageFrame_ok; [|destruct Hw; by split|by apply control_message_ok]. sess.
  rewrite (StartReadingFrames_calm P _ buf); [|destruct HP as [HP|HP]; [by left|right; exact HP]|exact Hb|exact Ht].
  sess. eexists _, _. split; [done|].
  unfold identified, session_name, put_back, reading, writing. sess.
  cbn [m_objs objs sessions_m service_sessionid_m nodesM mgr_mail mailbox].
  rewrite Hs, Hsv, Hml, Hmb. unfold m1. cbn [m_sessions m_objs m_node_id sessions_m service_sessionid_m put_back].
  change (self c1) with (self caller). change (sessionID (set_state caller BVSESSIONSTATE_ESTABLISHED)) with (sessionID caller).
  change (self (set_state caller BVSESSIONSTATE_ESTABLISHED)) with (self caller).
  rewrite !lookup_insert_eq. split_and!; try done.
  - apply smap_find_insert.
  - intros k Hk. by apply smap_find_insert_ne.
  - intros r Hne. change (self c1) with (self caller). rewrite Ho. unfold m1. cbn [m_sessions m_objs m_node_id put_back objs].
    by rewrite !lookup_insert_ne.
  - split; sess; [by exists buf|done|]. change (reads (sock c1)) with (reads (sock caller)). by rewrite Hr.
Qed.

End ManagerLaws.

(** ** Who accepts *)

Section Accepting.
Context {Q : Type -> Type} `{FifoQueue Q} (P : asio).

Lemma identify_accepting e name s (m : Manager Q) s' m' :
  mgr_HandleSessionIdentification P e name s m = Ok (s', m') -> accepting m' = accepting m.
Proof.
  unfold mgr_HandleSessionIdentification, StartCommunicationSessionWithNode, AddNodeToNodesM.
  intros Hf. destruct (negb _); ok_steps; done.
Qed.

Lemma sess_steps_accepting e x y :
  sess_steps (M := Manager Q) P e x y -> accepting y.2 = accepting x.2.
Proof.
  induction 1 as [x|x y z Hs _ IH]; [done|]. rewrite IH. clear IH.
  destruct Hs as [s s' m Hid|msg s m m' Hp|key acc s m m' Hp|name s m s' m' Hp]; cbn [fst snd].
  - done.
  - cbn [PutMessageIntoAppMailbox manager_interface] in Hp.
    unfold mgr_PutMessageIntoAppMailbox in Hp. ok_steps. done.
  - cbn [SignalFileTransfer manager_interface] in Hp.
    unfold mgr_SignalFileTransfer, RemoveFileTransferContext in Hp. by ok_steps.
  - exact (identify_accepting _ _ _ _ _ _ Hp).
Qed.

(** What a manager is told when it is made. *)
Definition same_place (m m' : Manager Q) : Prop := mailbox m' = mailbox m /\ thisName m' = thisName m.

Lemma sess_steps_place e x y : sess_steps (M := Manager Q) P e x y -> same_place x.2 y.2.
Proof.
  unfold same_place. induction 1 as [|x y z Hs _ [-> ->]]; [done|].
  destruct Hs as [s s' m Hid|msg s m m' Hp|key acc s m m' Hp|name s m s' m' Hp]; cbn [fst snd].
  - done.
  - cbn [PutMessageIntoAppMailbox manager_interface] in Hp.
    unfold mgr_PutMessageIntoAppMailbox in Hp. by ok_steps.
  - cbn [SignalFileTransfer manager_interface] in Hp.
    unfold mgr_SignalFileTransfer, RemoveFileTransferContext in Hp. by ok_steps.
  - cbn [HandleSessionIdentification manager_interface] in Hp.
    unfold mgr_HandleSessionIdentification, StartCommunicationSessionWithNode, AddNodeToNodesM in Hp.
    destruct (negb _); ok_steps; done.
Qed.

Lemma pump_mailbox e fuel : forall s (m : Manager Q) en s' m',
  pump P e fuel s m = Ok (en, s', m') -> mailbox m' = mailbox m.
Proof.
  induction fuel as [|fuel IH]; cbn [pump]; intros s m en s' m' Hp; [by injection Hp as _ _ <-|].
  apply bind_ok in Hp as ([[s1 m1]|] & Hc & Hp); [|by injection Hp as _ _ <-].
  apply complete_read_steps, sess_steps_place in Hc as [Hc _]. cbn [snd] in Hc. rewrite (IH _ _ _ _ _ Hp). done.
Qed.

Lemma write_all_place msg l : forall (m m' : Manager Q), write_to_all P l msg m = Ok m' -> same_place m m'.
Proof.
  induction l as [|[k ref] l IH]; cbn [write_to_all]; intros m m' Hf; [by injection Hf as <-|].
  apply bind_ok in Hf as (m1 & H1 & Hf). destruct (IH _ _ Hf) as [Hb Hn]. unfold same_place. rewrite Hb, Hn.
  unfold write_to in H1. ok_steps. done.
Qed.

Lemma mstep_place m m' : mstep P m m' -> same_place m m'.
Proof.
  intros Hs. destruct Hs as [node st m m' Hf|e k error m m' Hf|m|e error m m' Hf|ref s bytes m Ho|e ref m m' Hf|e ref m m' Hf|ref s m Ho|k ref s m Ho
    |msg sid st m m' Hf|msg st m m' Hf|name st m m' Hf|e sid path st m m' Hf|e name key acc m m' Hf|e ec key m m' Hf].
  - unfold InitiateSessionWithNode, StartCommunicationSessionWithNode in Hf. by ok_steps.
  - unfold ConnectHandler, StartCommunicationSessionWithNode in Hf. destruct (connecting m !! k) as [[sid node]|]; by ok_steps.
  - done.
  - unfold Accept_handler in Hf. by ok_steps.
  - done.
  - unfold on_readable in Hf. apply bind_ok in Hf as (s & _ & Hf). apply bind_ok in Hf as ([[s' m1]|] & Hc & Hf); [|done].
    injection Hf as <-. apply complete_read_steps, sess_steps_place in Hc. exact Hc.
  - by apply on_read_error_put in Hf as (s & s' & _ & _ & ->).
  - done.
  - done.
  - unfold SendDataToNode, write_to in Hf. by ok_steps.
  - unfold SendDataToEveryone in Hf. apply bind_ok in Hf as (m1 & H1 & Hf). injection Hf as _ <-. by eapply write_all_place.
  - unfold RemoveSession in Hf. destruct (service_sessionid_m m !! name); [destruct (smap_find _ _)|]; by injection Hf as _ <-.
  - unfold InitiateFileTransferWithSession in Hf. by ok_steps.
  - unfold RespondToFileOffer in Hf.
    destruct (GetSessionIDFromServiceName m name) as [[] [sid|]]; by ok_steps.
  - unfold worker_step in Hf. ok_steps; done.
Qed.

Lemma write_all_accepting msg l : forall (m m' : Manager Q),
  write_to_all P l msg m = Ok m' -> accepting m' = accepting m.
Proof.
  induction l as [|[k ref] l IH]; cbn [write_to_all]; intros m m' Hf; [by injection Hf as <-|].
  unfold write_to in Hf. ok_steps. match goal with Hx : write_to_all _ _ _ _ = _ |- _ => by rewrite (IH _ _ Hx) end.
Qed.

(** Only [Accept] starts accepting, and its handler calls it on success. *)
Lemma mstep_accepting (m m' : Manager Q) :
  mstep P m m' -> m' <> Accept m -> accepting m = None -> accepting m' = None.
Proof.
  intros Hs Hne Ha. destruct Hs;
    repeat match goal with
    | Hx : ConnectHandler _ _ _ _ _ = _ |- _ => unfold ConnectHandler, StartCommunicationSessionWithNode in Hx
    | Hx : InitiateSessionWithNode _ _ = _ |- _ =>
        unfold InitiateSessionWithNode, StartCommunicationSessionWithNode in Hx
    | Hx : SendDataToNode _ _ _ _ = _ |- _ => unfold SendDataToNode, write_to in Hx
    | Hx : RemoveSession _ _ = _ |- _ => unfold RemoveSession in Hx
    | Hx : InitiateFileTransferWithSession _ _ _ _ = _ |- _ => unfold InitiateFileTransferWithSession in Hx
    | Hx : RespondToFileOffer _ _ _ _ _ = _ |- _ => unfold RespondToFileOffer in Hx
    | Hx : worker_step _ _ _ _ = _ |- _ => unfold worker_step in Hx
    end; try done.
  - ok_steps; done.
  - ok_steps; done.
  - unfold Accept_handler in *. rewrite Ha in *. by ok_steps.
  - unfold on_readable in *. ok_steps. match goal with Hx : complete_read _ _ _ _ = Ok (Some _) |- _ =>
      apply complete_read_steps, sess_steps_accepting in Hx; cbn [snd] in Hx end.
    cbn [put_back m_objs accepting]. congruence.
  - match goal with Hx : on_read_error _ _ _ _ = _ |- _ => by apply on_read_error_put in Hx as (s & s' & _ & _ & ->) end.
  - ok_steps; done.
  - unfold SendDataToEveryone in *. ok_steps. etransitivity; [eapply write_all_accepting; eassumption|exact Ha].
  - destruct (service_sessionid_m m !! name); [destruct (smap_find _ _)|]; ok_steps; done.
  - ok_steps; done.
  - destruct (GetSessionIDFromServiceName m name) as [[] [sid|]]; ok_steps; done.
  - ok_steps; done.
Qed.

End Accepting.

(** ** Properties *)

Section ManagerProperties.
Context {Q : Type -> Type} `{FifoQueueLaws Q}.

(** The offer of a file on a session. *)
Lemma initiate_offer e (m : Manager Q) sid path ref s :
  smap_find sid (sessions_m m) = Some ref -> objs m !! ref = Some s ->
  exists frame,
    SendFileOffer_frame (now e) (thisMachineServiceName s) (static_ftcid m)
      (u32 (file_size_or_max m path)) (filename path) = Ok (Some frame) /\
    InitiateFileTransferWithSession e m sid path =
      Ok (BVSTATUS_OK, m_objs (m_pending (m_ftcid m (u32 (static_ftcid m + 1)))
            (<[ static_ftcid m := (sid, path) ]> (pendingOutgoing_m m)))
            (<[ ref := put_on_wire s (sync_write e) frame ]> (objs m))).
Proof.
  intros Hf Hs. eexists. split; [unfold SendFileOffer_frame; by rewrite encode_file_frame_bytes|].
  unfold InitiateFileTransferWithSession. cbn [m_pending m_ftcid sessions_m objs pendingOutgoing_m].
  rewrite Hf. sess. rewrite Hs. sess.
  unfold SendFileOffer, WriteFileChunkSync. rewrite encode_file_frame_bytes by done. sess. reflexivity.
Qed.

Lemma signal_unknown e key acc (m : Manager Q) :
  pendingOutgoing_m m !! key = None -> mgr_SignalFileTransfer e key acc m = Ok m.
Proof. intros Hp. unfold mgr_SignalFileTransfer. by rewrite Hp. Qed.

Lemma signal_refused e key (m : Manager Q) sid path :
  pendingOutgoing_m m !! key = Some (sid, path) ->
  mgr_SignalFileTransfer e key false m = Ok (m_pending m (delete key (pendingOutgoing_m m))).
Proof. intros Hp. unfold mgr_SignalFileTransfer. by rewrite Hp. Qed.

Lemma signal_accepted e key (m : Manager Q) sid path ref data :
  pendingOutgoing_m m !! key = Some (sid, path) -> smap_find sid (sessions_m m) = Some ref ->
  mgr_files m !! path = Some data ->
  let size := u32 (Z.of_nat (length data)) in
  mgr_SignalFileTransfer e key true m =
    Ok (m_contexts (m_pending m (delete key (pendingOutgoing_m m)))
         (<[ key := MkFTC (open_stream (can_open e) data) size key (filename path) ref
                      FILETRANSFERSTATE_FIRST_CHUNK (DetermineChunkSize size) 0 true None ]>
           (delete key (fileTransferContext_m m)))).
Proof.
  intros Hp Hf Hd size. unfold mgr_SignalFileTransfer. rewrite Hp. cbn [negb].
  cbn [m_pending sessions_m mgr_files]. rewrite Hf. sess.
  unfold BVFileTransferContext_make. rewrite Hd. reflexivity.
Qed.

(** C7.  Whatever sequence of dials, connects (which complete or fail in any
    order), accepts, identifications, messages, offers and removals the manager
    goes through, it never holds two sessions
    with the same service name, its session table is keyed by the sessions'
    identifiers in increasing order, and no entry dangles. *)
Theorem one_session_per_peer P data mbx (ml : mail Q) fs m :
  star (mstep P) (BVTCPConnectionManager_make data mbx ml fs) m ->
  NoDup (session_names m) /\ smap_sorted (sessions_m m) /\
  (forall k ref, (k, ref) ∈ sessions_m m -> exists s, objs m !! ref = Some s /\ sessionID s = k).
Proof.
  intros Hs. assert (Hi : mgr_inv m); [|by split; [apply Hi|split; apply Hi]].
  eapply (star_invariant (mstep P) mgr_inv); [|apply mgr_inv_make|exact Hs].
  intros a b. apply mstep_inv.
Qed.

(** A machine that does not know the node dials exactly when its own name is
    the smaller one. *)
Lemma initiate_ok (x : Manager Q) n :
  mgr_inv x -> nd_serviceName n ∉ session_names x ->
  exists x', InitiateSessionWithNode x n = Ok (BVSTATUS_OK, x') /\
    if str_lt (thisName x) (nd_serviceName n)
    then connecting x' = connecting x ++ [(currentSessionID x, with_id n (static_node_id x))] else x' = x.
Proof.
  intros Hx Hp. unfold InitiateSessionWithNode.
  destruct (str_lt (thisName x) (nd_serviceName n)); cbn [negb]; [|by eexists].
  destruct (IsSessionAlreadyPresent x (nd_serviceName n)) eqn:E; [by apply IsSessionAlreadyPresent_spec in E|].
  rewrite StartCommunication_ok by apply Hx. sess. rewrite decide_False by done. by eexists.
Qed.

(** C20.  Glare avoidance: when two machines with different names discover
    each other and neither has a session with the other, exactly one of them
    dials, whoever discovers first. *)
Theorem glare_exactly_one_dials (a b : Manager Q) na nb :
  nd_serviceName nb = thisName b -> nd_serviceName na = thisName a -> thisName a <> thisName b ->
  mgr_inv a -> mgr_inv b -> thisName b ∉ session_names a -> thisName a ∉ session_names b ->
  exists a' b', InitiateSessionWithNode a nb = Ok (BVSTATUS_OK, a') /\
    InitiateSessionWithNode b na = Ok (BVSTATUS_OK, b') /\
    ((connecting a' = connecting a ++ [(currentSessionID a, with_id nb (static_node_id a))] /\ b' = b) \/
     (a' = a /\ connecting b' = connecting b ++ [(currentSessionID b, with_id na (static_node_id b))])).
Proof.
  intros Hnb Hna Hne Ha Hb Hpa Hpb.
  destruct (initiate_ok a nb Ha) as (a' & Hea & Hca); [by rewrite Hnb|].
  destruct (initiate_ok b na Hb) as (b' & Heb & Hcb); [by rewrite Hna|]. rewrite Hnb in Hca. rewrite Hna in Hcb.
  exists a', b'. split; [done|]. split; [done|]. rewrite (str_lt_total _ _ Hne) in Hca.
  destruct (str_lt (thisName b) (thisName a)); cbn [negb] in Hca; [right|left]; done.
Qed.

(** C21.  The accepting side decides: a peer that names itself and is not yet
    known gets its session registered under that name, established, confirmed
    and listening; a name that already has a session gets the new one closed,
    and the tables stay as they are.  When the unknown peer is gone by then,
    asking for its endpoint throws out of the event loop. *)
Theorem HandleSessionIdentification_decides P e name (caller : BVTCPSession) (m : Manager Q) buf :
  mgr_inv (put_back m caller) -> writable caller -> calm P caller -> reads (sock caller) = [] ->
  readBuf caller = Some buf -> length buf = MESSAGE_FRAME_SIZE_BYTES -> totalBytesRead caller = 0%nat ->
  if decide (name ∉ session_names (put_back m caller) /\ no_endpoint e = true)
  then mgr_HandleSessionIdentification P e name caller m = Err Std_runtime_error
  else exists s' m', mgr_HandleSessionIdentification P e name caller m = Ok (s', m') /\
    objs m' !! self caller = Some s' /\
    if decide (name ∈ session_names (put_back m caller))
    then s_state s' = BVSESSIONSTATE_CLOSED /\ deaf s' /\ tx (sock s') = tx (sock caller) /\
         sessions_m m' = sessions_m m /\ service_sessionid_m m' = service_sessionid_m m
    else identified m m' caller name /\ s_state s' = BVSESSIONSTATE_ESTABLISHED /\ listening s' /\
         tx (sock (complete_write P s')) = tx (sock caller) ++ confirm_frame e.
Proof.
  intros Hi Hw HP Hr Hb Hl Ht. case_decide as Hgone.
  { destruct Hgone as [Hn He]. unfold mgr_HandleSessionIdentification.
    destruct (IsSessionAlreadyPresent (put_back m caller) name) eqn:E; [by apply IsSessionAlreadyPresent_spec in E|].
    cbn [negb]. rewrite StartCommunication_ok by apply Hi. by rewrite He. }
  destruct (decide (name ∈ session_names (put_back m caller))) as [Hin|Hin].
  - unfold mgr_HandleSessionIdentification.
    rewrite (proj2 (IsSessionAlreadyPresent_spec (put_back m caller) name) Hin). cbn [negb].
    eexists _, _. split; [done|]. cbn [put_back m_objs objs]. by rewrite lookup_insert_eq.
  - destruct (no_endpoint e) eqn:He; [by destruct Hgone|].
    destruct (identify_new P e name caller m buf Hi Hin Hw HP Hr Hb Hl Ht He) as
      (s' & m' & Hh & Ho & Hid & Hst & Hli & _ & Htx & Hwr & Hws & Htw & _).
    exists s', m'. do 5 (split; [done|]).
    rewrite (complete_writing P s' (eager_write P)) by (rewrite ?Hst; done). unfold ClearWriteBuffer. sess.
    rewrite Htx, Hws. destruct (eager_write P); rewrite ?app_nil_r, ?take_frame by
      (apply length_message_frame, length_zeros); done.
Qed.

(** One failed accept ends accepting for good: its handler starts no
    other, and nothing else the manager does is an accept. *)
Theorem failed_accept_final P e (m m1 m2 : Manager Q) :
  Accept_handler P e true m = Ok m1 ->
  star (fun a b => mstep P a b /\ b <> Accept a) m1 m2 ->
  accepting m2 = None /\ forall e', Accept_handler P e' false m2 = Ok m2.
Proof.
  intros Ha Hs. assert (H1 : accepting m1 = None).
  { unfold Accept_handler in Ha. destruct (accepting m) eqn:E; injection Ha as <-; done. }
  assert (H2 : accepting m2 = None).
  { eapply (star_invariant _ (fun m => accepting m = None)); [|exact H1|exact Hs].
    intros a b Hn [Hab Hne]. by eapply mstep_accepting. }
  split; [done|]. intros e'. unfold Accept_handler. by rewrite H2.
Qed.

(** Removing a peer's session forgets it: the name has no session
    identifier and no session any more, every other session stays, and the
    peer may be dialled or identified again; an unknown name changes
    nothing. *)
Theorem RemoveSession_frees_peer (m : Manager Q) name st m' :
  mgr_inv m -> RemoveSession m name = (st, m') ->
  service_sessionid_m m' !! name = None /\
  match service_sessionid_m m !! name with
  | None => st = BVSTATUS_NOK /\ m' = m
  | Some sid =>
      match smap_find sid (sessions_m m) with
      | None => st = BVSTATUS_NOK /\ sessions_m m' = sessions_m m
      | Some ref =>
          st = BVSTATUS_OK /\ smap_find sid (sessions_m m') = None /\
          session_names m ≡ₚ default EmptyString (session_name m ref) :: session_names m' /\
          (session_name m ref = Some name -> IsSessionAlreadyPresent m' name = false)
      end
  end.
Proof.
  intros Hi. unfold RemoveSession. destruct (service_sessionid_m m !! name) as [sid|] eqn:E;
    [|by intros [= <- <-]].
  destruct (smap_find sid (sessions_m m)) as [ref|] eqn:Ef; intros [= <- <-];
    cbn [m_sessions service_sessionid_m sessions_m]; (split; [apply lookup_delete_eq|]); [|done].
  split; [done|]. split; [apply smap_find_erase|].
  destruct (mi_ref m Hi sid ref (smap_find_elem _ _ _ Ef)) as (s & Hs & _).
  assert (Hp : session_names m ≡ₚ nd_serviceName (nodeData s) ::
    session_names (m_sessions m (smap_erase sid (sessions_m m)) (delete name (service_sessionid_m m)))).
  { unfold session_names. rewrite (smap_find_perm sid ref (sessions_m m)) at 1 by (done || apply Hi).
    cbn [omap list_omap snd m_sessions sessions_m]. unfold session_name at 1. by rewrite Hs. }
  unfold session_name at 1 2. rewrite Hs. cbn [fmap option_fmap option_map compose default]. split; [exact Hp|].
  intros [= Hn]. apply not_true_iff_false. rewrite IsSessionAlreadyPresent_spec.
  pose proof (mi_names m Hi) as Hnd. rewrite Hp in Hnd. apply NoDup_cons in Hnd as [Hni _]. by rewrite Hn in Hni.
Qed.

End ManagerProperties.

(** ** Concrete managers *)

Section ManagerWitnesses.

Definition ex_mbx : mail threadsafe_queue := (make_box (Mail ∅ ∅)).2.

(** A machine of the given name that has one file. *)
Definition ex_machine (name : string) : Manager threadsafe_queue :=
  BVTCPConnectionManager_make (BVService_host_data name "local." PORT)
    0 ex_mbx ex_fs.

Definition ex_peer (name : string) : BVNode := BVNode_make name name 50001.

(** [ann] has dialled [bob], and the connection has been made. *)
Definition ex_ann1 : Manager threadsafe_queue :=
  match InitiateSessionWithNode (ex_machine "ann") (ex_peer "bob") with
  | Ok (_, m) => m | Err _ => ex_machine "ann" end.
Definition ex_ann2 : Manager threadsafe_queue :=
  match ConnectHandler ex_lazy ex_env 0 false ex_ann1 with
  | Ok m => m | Err _ => ex_ann1 end.

Lemma ex_ann_steps :
  star (mstep ex_lazy)
    (BVTCPConnectionManager_make (BVService_host_data "ann" "local." PORT) 0 ex_mbx ex_fs) ex_ann2.
Proof.
  eapply (star_step _ _ ex_ann1).
  - eapply (ms_initiate _ (ex_peer "bob") BVSTATUS_OK). vm_compute. reflexivity.
  - eapply (star_step _ _ ex_ann2); [|apply star_refl].
    eapply (ms_connected _ ex_env 0 false). vm_compute. reflexivity.
Qed.

Lemma ex_machine_inv name : mgr_inv (ex_machine name).
Proof. apply mgr_inv_make. Qed.

Lemma ex_ann2_inv : mgr_inv ex_ann2.
Proof.
  eapply (star_invariant (mstep ex_lazy) mgr_inv); [|apply mgr_inv_make|exact ex_ann_steps].
  intros a b. apply mstep_inv.
Qed.

Lemma one_session_per_peer_witness :
  session_names ex_ann2 = ["bob"%string] /\ NoDup (session_names ex_ann2).
Proof.
  split; [vm_compute; reflexivity|].
  exact (proj1 (one_session_per_peer ex_lazy (BVService_host_data "ann" "local." PORT)
    0 ex_mbx ex_fs ex_ann2 ex_ann_steps)).
Defined.

Lemma glare_exactly_one_dials_witness :
  exists a' b', InitiateSessionWithNode (ex_machine "ann") (ex_peer "bob") = Ok (BVSTATUS_OK, a') /\
    InitiateSessionWithNode (ex_machine "bob") (ex_peer "ann") = Ok (BVSTATUS_OK, b').
Proof.
  destruct (glare_exactly_one_dials (ex_machine "ann") (ex_machine "bob") (ex_peer "ann") (ex_peer "bob"))
    as (a' & b' & Ha & Hb & _).
  - reflexivity.
  - reflexivity.
  - intros Hx. discriminate Hx.
  - apply ex_machine_inv.
  - apply ex_machine_inv.
  - intros Hx. inversion Hx.
  - intros Hx. inversion Hx.
  - exists a', b'. split; [exact Ha|exact Hb].
Defined.

(** A peer that has connected and whose [HELLOBACK] is being handled. *)
Definition ex_caller : BVTCPSession :=
  MkSession 0 BVSESSIONSTATE_UNPREPARED (Some BVSESSIONORIGIN_INGOING) 0 BVNode_default false true
    (zeros 138) 138 (Some (zeros 138)) (zeros 1) 0 0 0 0 "bob" (Socket [] [] [] []).

Lemma HandleSessionIdentification_decides_witness :
  exists s' m', mgr_HandleSessionIdentification ex_lazy ex_env "ann" ex_caller (ex_machine "bob") =
      Ok (s', m') /\ identified (ex_machine "bob") m' ex_caller "ann" /\ listening s'.
Proof.
  assert (Hd := HandleSessionIdentification_decides ex_lazy ex_env "ann" ex_caller (ex_machine "bob")
    (zeros 138)).
  rewrite decide_False in Hd by (intros [_ Hx]; discriminate Hx).
  destruct Hd as (s' & m' & Hh & _ & Hd).
  - apply mgr_inv_new; [apply ex_machine_inv|reflexivity].
  - by split.
  - by left.
  - reflexivity.
  - reflexivity.
  - reflexivity.
  - reflexivity.
  - exists s', m'. split; [exact Hh|]. rewrite decide_False in Hd by (intros Hx; inversion Hx).
    destruct Hd as (Hi & _ & Hl & _). split; [exact Hi|exact Hl].
Defined.

Lemma failed_accept_final_witness :
  accepting (Accept (ex_machine "bob")) = Some 0 /\
  exists m, Accept_handler ex_lazy ex_env true (Accept (ex_machine "bob")) = Ok m /\ accepting m = None.
Proof.
  split; [reflexivity|]. exists (m_accepting (Accept (ex_machine "bob")) None). split; [reflexivity|].
  apply (failed_accept_final ex_lazy ex_env (Accept (ex_machine "bob"))
    (m_accepting (Accept (ex_machine "bob")) None) _ eq_refl (star_refl _ _)).
Defined.

Lemma RemoveSession_frees_peer_witness :
  exists m', RemoveSession ex_ann2 "bob" = (BVSTATUS_OK, m') /\ IsSessionAlreadyPresent m' "bob" = false.
Proof.
  destruct (RemoveSession ex_ann2 "bob") as [st m'] eqn:E.
  destruct (RemoveSession_frees_peer ex_ann2 "bob" st m' ex_ann2_inv E) as [_ Hb].
  assert (H1 : service_sessionid_m ex_ann2 !! "bob"%string = Some 0) by (vm_compute; reflexivity).
  assert (H2 : smap_find 0 (sessions_m ex_ann2) = Some 0%nat) by (vm_compute; reflexivity).
  assert (H3 : session_name ex_ann2 0%nat = Some "bob"%string) by (vm_compute; reflexivity).
  rewrite H1, H2 in Hb. destruct Hb as (-> & _ & _ & Hp).
  exists m'. split; [reflexivity|]. apply Hp. exact H3.
Defined.

End ManagerWitnesses.
