(* ===== verification/SessionIds.v ===== *)
(** * Session identifiers ([include/BVTCPConnectionManager.hpp],
    [src/BVTCPConnectionManager.cpp])

    Every dial and every accept takes the next value of a 16-bit counter for its
    session, and the tables of the manager are keyed by it.  Until the counter
    wraps around, an identifier stands for one session object; afterwards a new
    session takes the place of an old one whose peer is still known by it. *)

From Stdlib Require Import ZArith Lia Ascii String.
From S2P Require Import Prelude TSQueue Common Broker Component Frames Session FileTransfer ConnectionManager.

Section SessionIds.
Context {Q : Type -> Type} `{FifoQueue Q} (P : asio).

(** What is in flight as a list. *)
Definition in_flight (o : option Z) : list Z := match o with Some k => [k] | None => [] end.

(** The identifier of each session object, and all that have been given out:
    to dials, to the accept in flight, and to objects. *)
Definition ids (m : Manager Q) : gmap nat Z := sessionID <$> objs m.
Definition used (m : Manager Q) : list Z :=
  map fst (connecting m) ++ in_flight (accepting m) ++ (map_to_list (ids m)).*2.

Record ids_ok (m : Manager Q) : Prop := {
  io_counter : 0 <= currentSessionID m < 2 ^ 16;
  io_distinct : NoDup (used m);
  io_below : Forall (fun k => 0 <= k < currentSessionID m) (used m)
}.

(** What a step does to the identifiers: at most one is given out. *)
Record ids_step (m m' : Manager Q) : Prop := {
  is_objs : ids m ⊆ ids m';
  is_used : (currentSessionID m' = currentSessionID m /\ used m' ⊆+ used m) \/
    (currentSessionID m' = u16 (currentSessionID m + 1) /\ used m' ⊆+ currentSessionID m :: used m)
}.

Definition same_ids (m m' : Manager Q) : Prop :=
  ids m' = ids m /\ connecting m' = connecting m /\ accepting m' = accepting m /\ currentSessionID m' = currentSessionID m.

Lemma same_ids_step m m' : same_ids m m' -> ids_step m m'.
Proof.
  intros (Hi & Hc & Ha & Hn). split; [by rewrite Hi|]. left. split; [done|]. unfold used. by rewrite Hi, Hc, Ha.
Qed.

Lemma same_ids_trans m1 m2 m3 : same_ids m1 m2 -> same_ids m2 m3 -> same_ids m1 m3.
Proof. intros (H1 & H2 & H3 & H4) (G1 & G2 & G3 & G4). repeat split; congruence. Qed.

Lemma same_ids_put (m : Manager Q) ref s s' :
  objs m !! ref = Some s -> sessionID s' = sessionID s -> same_ids m (m_objs m (<[ ref := s' ]> (objs m))).
Proof.
  intros Ho Hid. split; [|done]. unfold ids. cbn. rewrite fmap_insert. apply insert_id. by rewrite lookup_fmap, Ho, Hid.
Qed.

Lemma same_ids_put_back (m : Manager Q) s : ids m !! self s = Some (sessionID s) -> same_ids m (put_back m s).
Proof. intros Hi. split; [|done]. unfold ids, put_back in *. cbn. rewrite fmap_insert. by apply insert_id. Qed.

(** ** What the operations do *)

Lemma identify_ids e name s (m : Manager Q) s' m' :
  ids m !! self s = Some (sessionID s) -> mgr_HandleSessionIdentification P e name s m = Ok (s', m') ->
  same_ids m m' /\ self s' = self s /\ sessionID s' = sessionID s.
Proof.
  intros Hi Hf. unfold mgr_HandleSessionIdentification in Hf. pose proof (same_ids_put_back m s Hi) as Hput.
  destruct (negb _).
  - apply bind_ok in Hf as ([[[st nid] mbx] m1] & Hc & Hf). destruct (AddNodeToNodesM _ _ _) as [st2 m2] eqn:Ea.
    destruct (no_endpoint e); [done|].
    apply bind_ok in Hf as (s1 & Hw & Hf). apply bind_ok in Hf as (s2 & Hr & Hf). injection Hf as <- <-.
    apply WriteMessageFrame_same in Hw as [Hw1 Hw2 _]. apply StartReadingFrames_same in Hr as [Hr1 Hr2 _].
    cbn in Hw1, Hw2. split; [|by rewrite Hr1, Hr2, Hw1, Hw2]. apply (same_ids_trans _ (put_back m s) _ Hput).
    assert (H12 : same_ids (put_back m s) m2).
    { unfold StartCommunicationSessionWithNode in Hc. ok_steps. unfold AddNodeToNodesM in Ea.
      destruct (nodesM _ !! name); by injection Ea as _ <-. }
    apply (same_ids_trans _ m2 _ H12). apply same_ids_put_back. destruct H12 as (-> & _). destruct Hput as (-> & _).
    by rewrite Hr1, Hr2, Hw1, Hw2.
  - injection Hf as <- <-. split; [|done]. apply (same_ids_trans _ (put_back m s) _ Hput). apply same_ids_put_back.
    destruct Hput as (-> & _). exact Hi.
Qed.

Lemma sess_steps_ids e x y :
  sess_steps P e x y -> ids x.2 !! self x.1 = Some (sessionID x.1) ->
  same_ids x.2 y.2 /\ self y.1 = self x.1 /\ sessionID y.1 = sessionID x.1.
Proof.
  induction 1 as [x|x y z Hs _ IH]; intros Hi; [by repeat split|].
  assert (Hy : same_ids x.2 y.2 /\ self y.1 = self x.1 /\ sessionID y.1 = sessionID x.1).
  { destruct Hs as [s s' m [H1 H2 _]|msg s m m' Hp|key acc s m m' Hp|name s m s' m' Hp]; cbn [fst snd] in *.
    - by repeat split.
    - cbn [PutMessageIntoAppMailbox manager_interface] in Hp. unfold mgr_PutMessageIntoAppMailbox in Hp. by ok_steps.
    - cbn [SignalFileTransfer manager_interface] in Hp.
      unfold mgr_SignalFileTransfer, RemoveFileTransferContext in Hp. by ok_steps.
    - exact (identify_ids _ _ _ _ _ _ Hi Hp). }
  destruct Hy as (Hm & Hs1 & Hs2). destruct IH as (Hm' & Hs3 & Hs4).
  { destruct Hm as (-> & _). by rewrite Hs1, Hs2. }
  split; [by eapply same_ids_trans|]. split; congruence.
Qed.

Lemma readable_ids e ref (m m' : Manager Q) :
  mgr_inv m -> on_readable P e ref m = Ok (Some m') -> same_ids m m'.
Proof.
  intros Hi Hf. unfold on_readable in Hf. apply bind_ok in Hf as (s & Ho & Hf). apply from_option_ok in Ho.
  apply bind_ok in Hf as ([[s' m1]|] & Hc & Hf); [|done]. injection Hf as <-.
  pose proof (mi_self m Hi _ _ Ho) as Hse. apply complete_read_steps, sess_steps_ids in Hc as (Hm & H1 & H2).
  2:{ cbn [fst snd]. unfold ids. by rewrite Hse, lookup_fmap, Ho. }
  cbn [fst snd] in *. apply (same_ids_trans _ m1 _ Hm), same_ids_put_back. destruct Hm as (-> & _). rewrite H1, H2.
  unfold ids. by rewrite Hse, lookup_fmap, Ho.
Qed.

Lemma write_all_ids msg l : forall (m m' : Manager Q), write_to_all P l msg m = Ok m' -> same_ids m m'.
Proof.
  induction l as [|[k ref] l IH]; cbn [write_to_all]; intros m m' Hf; [by injection Hf as <-|].
  apply bind_ok in Hf as (m1 & H1 & Hf). apply (same_ids_trans _ m1); [|by apply IH].
  unfold write_to in H1. ok_steps. eapply same_ids_put; [by eapply from_option_ok|].
  by match goal with Hx : WriteMessageFrame _ _ _ = Ok _ |- _ => apply WriteMessageFrame_same in Hx as [_ -> _] end.
Qed.

(** An object that was not there. *)
Lemma ids_new (m : Manager Q) ref s :
  objs m !! ref = None ->
  let m' := m_objs m (<[ ref := s ]> (objs m)) in
  ids m ⊆ ids m' /\ (map_to_list (ids m')).*2 ≡ₚ sessionID s :: (map_to_list (ids m)).*2.
Proof.
  intros Ho m'. assert (Hn : ids m !! ref = None) by (unfold ids; by rewrite lookup_fmap, Ho).
  unfold m'. change (ids (m_objs m (<[ref:=s]> (objs m)))) with (sessionID <$> <[ref:=s]> (objs m)).
  rewrite fmap_insert. split; [by apply insert_subseteq|]. fold (ids m). by rewrite map_to_list_insert.
Qed.

Lemma initiate_ids (m : Manager Q) node st m' : InitiateSessionWithNode m node = Ok (st, m') -> ids_step m m'.
Proof.
  unfold InitiateSessionWithNode, StartCommunicationSessionWithNode. intros Hf.
  destruct (negb _); [injection Hf as _ <-; by apply same_ids_step|].
  destruct (IsSessionAlreadyPresent _ _); [injection Hf as _ <-; by apply same_ids_step|].
  apply bind_ok in Hf as ([[[st2 nid] mbx] m1] & Hc & Hf). apply bind_ok in Hc as (fnd & _ & Hc). injection Hc as _ _ _ <-.
  case_decide; injection Hf as _ <-.
  - split; [done|]. right. split; [done|]. unfold used. cbn. by apply submseteq_cons.
  - split; [done|]. right. split; [done|]. unfold used. cbn. rewrite map_app, <- (assoc_L (++)). cbn [map app fst].
    by rewrite <- Permutation_middle.
Qed.

Lemma accept_ids (m : Manager Q) : ids_step m (Accept m).
Proof.
  split; [done|]. right. split; [done|]. unfold used. cbn [Accept m_accepting m_counter connecting accepting objs in_flight app].
  change (ids (Accept m)) with (ids m). rewrite <- Permutation_middle. apply submseteq_skip, submseteq_skips_l.
  by apply submseteq_inserts_l.
Qed.

(** Taking one dial out of those in flight takes its identifier out of use. *)
Lemma used_dial (m : Manager Q) k sid node :
  connecting m !! k = Some (sid, node) -> used m ≡ₚ sid :: used (m_connecting m (delete k (connecting m))).
Proof.
  intros Hk. unfold used. cbn [m_connecting connecting accepting]. change (ids (m_connecting _ _)) with (ids m).
  by rewrite (delete_Permutation _ _ _ Hk) at 1.
Qed.

Lemma connected_ids e k error (m m' : Manager Q) : ConnectHandler P e k error m = Ok m' -> ids_step m m'.
Proof.
  unfold ConnectHandler. intros Hf. destruct (connecting m !! k) as [[sid node]|] eqn:Hc; [|injection Hf as <-; by apply same_ids_step].
  pose proof (used_dial m k sid node Hc) as Hu. set (rest := delete k (connecting m)) in *.
  assert (Hdrop : ids_step m (m_connecting m rest)).
  { split; [done|]. left. split; [done|]. rewrite Hu. by apply submseteq_cons. }
  destruct error; [by injection Hf as <-|]. destruct (IsSessionAlreadyPresent _ _); [by injection Hf as <-|].
  apply bind_ok in Hf as (s & Hs & Hf). apply make_same in Hs as (_ & Hsid & _).
  apply bind_ok in Hf as ([[[st nid] mbx] m1] & Hc1 & Hf).
  unfold StartCommunicationSessionWithNode in Hc1. apply bind_ok in Hc1 as (fnd & _ & Hc1). injection Hc1 as _ _ _ <-.
  apply bind_ok in Hf as (s2 & Hr & Hf). injection Hf as <-. apply StartReadingFrames_same in Hr as [_ Hr _].
  cbn in Hr. rewrite Hsid in Hr.
  destruct (ids_new m (fresh_obj m) s2 (fresh_obj_lookup m)) as [Hsub Hperm].
  split; [exact Hsub|]. left. split; [done|]. rewrite Hu. unfold used. cbn [m_objs m_sessions m_node_id m_connecting connecting accepting].
  change (fresh_obj (m_connecting m rest)) with (fresh_obj m).
  match goal with |- context [ids ?x] => lazymatch x with m => fail | _ =>
    change (ids x) with (ids (m_objs m (<[ fresh_obj m := s2 ]> (objs m)))) end end.
  change (ids (m_connecting m rest)) with (ids m).
  rewrite Hperm, Hr. by rewrite (assoc_L (++)), <- Permutation_middle, <- (assoc_L (++)).
Qed.

Lemma accepted_ids e error (m m' : Manager Q) : Accept_handler P e error m = Ok m' -> ids_step m m'.
Proof.
  unfold Accept_handler. intros Hf. destruct (accepting m) as [sid|] eqn:Ha; [|injection Hf as <-; by apply same_ids_step].
  destruct error.
  { injection Hf as <-. split; [done|]. left. split; [done|]. unfold used. cbn. rewrite Ha.
    apply submseteq_skips_l. by apply submseteq_cons. }
  apply bind_ok in Hf as (s & Hs & Hf). apply make_same in Hs as (_ & Hsid & _).
  apply bind_ok in Hf as (s1 & Hw & Hf). apply bind_ok in Hf as (s2 & Hr & Hf). injection Hf as <-.
  apply WriteMessageFrame_same in Hw as [_ Hw _]. apply StartReadingFrames_same in Hr as [_ Hr _].
  cbn in Hw, Hr. rewrite Hw, Hsid in Hr.
  destruct (ids_new m (fresh_obj m) s2 (fresh_obj_lookup m)) as [Hsub Hperm].
  split; [exact Hsub|]. right. split; [done|]. unfold used.
  cbn [Accept m_accepting m_counter m_objs connecting accepting in_flight currentSessionID app].
  change (fresh_obj (m_accepting m None)) with (fresh_obj m). rewrite Ha.
  match goal with |- context [ids ?x] => lazymatch x with m => fail | _ =>
    change (ids x) with (ids (m_objs m (<[ fresh_obj m := s2 ]> (objs m)))) end end.
  rewrite Hperm, Hr. cbn [in_flight app]. by rewrite <- !Permutation_middle.
Qed.

Lemma mstep_ids m m' : mgr_inv m -> mstep P m m' -> ids_step m m'.
Proof.
  intros Hi Hs. destruct Hs as [node st m m' Hf|e k error m m' Hf|m|e error m m' Hf|ref s bytes m Ho|e ref m m' Hf|e ref m m' Hf|ref s m Ho|k ref s m Ho
    |msg sid st m m' Hf|msg st m m' Hf|name st m m' Hf|e sid path st m m' Hf|e name key acc m m' Hf|e ec key m m' Hf].
  - by eapply initiate_ids.
  - by eapply connected_ids.
  - apply accept_ids.
  - by eapply accepted_ids.
  - apply same_ids_step, same_ids_put_back. unfold ids. rewrite lookup_fmap. cbn. by rewrite (mi_self m Hi _ _ Ho), Ho.
  - apply same_ids_step. by eapply readable_ids.
  - apply on_read_error_put in Hf as (s & s' & Ho & [Hse Hid _] & ->).
    apply same_ids_step, same_ids_put_back. rewrite Hse, Hid. unfold ids. by rewrite lookup_fmap, (mi_self m Hi _ _ Ho), Ho.
  - apply same_ids_step, same_ids_put_back. destruct (complete_write_same P s) as [-> -> _].
    unfold ids. by rewrite lookup_fmap, (mi_self m Hi _ _ Ho), Ho.
  - apply same_ids_step, same_ids_put_back. destruct (fail_write_same P k s) as [-> -> _].
    unfold ids. by rewrite lookup_fmap, (mi_self m Hi _ _ Ho), Ho.
  - unfold SendDataToNode in Hf. destruct (smap_find sid (sessions_m m)); [|injection Hf as _ <-; by apply same_ids_step].
    apply bind_ok in Hf as (m1 & H1 & Hf). injection Hf as _ <-. apply same_ids_step.
    apply (write_all_ids msg [(sid, n)]). cbn [write_to_all]. by rewrite H1.
  - unfold SendDataToEveryone in Hf. apply bind_ok in Hf as (m1 & H1 & Hf). injection Hf as _ <-.
    apply same_ids_step. by eapply write_all_ids.
  - apply same_ids_step. unfold RemoveSession in Hf.
    destruct (service_sessionid_m m !! name); [destruct (smap_find _ _)|]; by injection Hf as _ <-.
  - apply same_ids_step. unfold InitiateFileTransferWithSession in Hf. apply bind_ok in Hf as (ref & _ & Hf).
    apply bind_ok in Hf as (s & Ho & Hf). apply from_option_ok in Ho. apply bind_ok in Hf as (s' & Hw & Hf).
    injection Hf as _ <-. unfold SendFileOffer in Hw. apply bind_ok in Hw as ([b s2] & Hw & Hb). injection Hb as ->.
    apply WriteFileChunkSync_same in Hw as [_ Hw _]. exact (same_ids_put m ref s s' Ho Hw).
  - apply same_ids_step. unfold RespondToFileOffer in Hf.
    destruct (GetSessionIDFromServiceName m name) as [[] [sid|]]; try by injection Hf as <-.
    destruct (smap_find sid (sessions_m m)); [|by injection Hf as <-]. apply bind_ok in Hf as (s & Ho & Hf).
    apply from_option_ok in Ho. apply bind_ok in Hf as (s' & Hw & Hf). injection Hf as <-.
    unfold SendFileControl in Hw. apply bind_ok in Hw as ([b s2] & Hw & Hb). injection Hb as ->.
    apply WriteFileChunkSync_same in Hw as [_ Hw _]. by apply (same_ids_put m _ s s').
  - apply same_ids_step. unfold worker_step in Hf. destruct (fileTransferContext_m m !! key) as [c|]; [|by injection Hf as <-].
    destruct (_ || _)%bool; [by injection Hf as <-|]. apply bind_ok in Hf as (s & Ho & Hf). apply from_option_ok in Ho.
    apply bind_ok in Hf as ([c' s'] & Ht & Hf). apply TransferNextChunk_same in Ht as [[_ Hid _] Hc].
    rewrite <- Hc in Ho. pose proof (same_ids_put m _ s s' Ho Hid) as Hm.
    destruct (ft_progress c') as [[[a b] n]|]; injection Hf as <-; exact Hm.
Qed.

(** ** Until the counter wraps around *)

(** A step that does not take the last identifier. *)
Definition counting (m m' : Manager Q) : Prop :=
  mstep P m m' /\ (currentSessionID m + 1 < 2 ^ 16 \/ currentSessionID m' = currentSessionID m).

Lemma submseteq_keeps {A} (R : A -> Prop) (l k : list A) : l ⊆+ k -> NoDup k /\ Forall R k -> NoDup l /\ Forall R l.
Proof.
  intros (k' & Hp)%submseteq_Permutation. rewrite Hp, NoDup_app, Forall_app. tauto.
Qed.

Lemma ids_ok_step m m' :
  0 <= currentSessionID m < 2 ^ 16 -> ids_step m m' ->
  (currentSessionID m + 1 < 2 ^ 16 \/ currentSessionID m' = currentSessionID m) -> ids_ok m -> ids_ok m'.
Proof.
  intros Hc [_ [[Hn Hu]|[Hn Hu]]] Hlt [_ Hd Hb].
  - destruct (submseteq_keeps _ _ _ Hu (conj Hd Hb)). split; [by rewrite Hn|done|by rewrite Hn].
  - assert (Hlt' : currentSessionID m + 1 < 2 ^ 16).
    { destruct Hlt as [Hlt|He]; [exact Hlt|]. rewrite Hn in He. unfold u16, wrap in He.
      destruct (Z.lt_ge_cases (currentSessionID m + 1) (2 ^ 16)) as [?|Hge]; [done|].
      replace (currentSessionID m + 1) with (2 ^ 16) in He by lia. rewrite Z.mod_same in He by lia. lia. }
    assert (Hn' : currentSessionID m' = currentSessionID m + 1).
    { rewrite Hn. unfold u16. apply wrap_small. lia. }
    destruct (submseteq_keeps (fun k => 0 <= k < currentSessionID m + 1) _ _ Hu) as [Hd' Hb'].
    { split; [|constructor; [lia|]]; [|eapply Forall_impl; [exact Hb|]; cbn; intros k Hk; lia].
      apply NoDup_cons. split; [|exact Hd]. intros Hin. rewrite Forall_forall in Hb. specialize (Hb _ Hin). lia. }
    split; [rewrite Hn'; lia|exact Hd'|by rewrite Hn'].
Qed.

Lemma counting_ok m m' :
  mgr_inv m /\ ids_ok m -> star counting m m' -> mgr_inv m' /\ ids_ok m' /\ ids m ⊆ ids m'.
Proof.
  intros Hi Hs. revert Hi. induction Hs as [m|m1 m2 m3 [Hst Hc] _ IH]; intros [Hi Hok]; [done|].
  pose proof (mstep_ids _ _ Hi Hst) as Hids.
  assert (Hok2 : ids_ok m2) by (eapply ids_ok_step; [apply Hok|exact Hids|exact Hc|exact Hok]).
  destruct IH as (H1 & H2 & H3); [split; [by eapply mstep_inv|exact Hok2]|].
  split; [exact H1|]. split; [exact H2|]. etransitivity; [apply Hids|exact H3].
Qed.

Lemma ids_distinct m r1 r2 k : ids_ok m -> ids m !! r1 = Some k -> ids m !! r2 = Some k -> r1 = r2.
Proof.
  intros [_ Hd _] H1 H2. unfold used in Hd. apply NoDup_app in Hd as (_ & _ & Hd). apply NoDup_app in Hd as (_ & _ & Hd).
  apply elem_of_map_to_list in H1, H2. apply list_elem_of_lookup in H1 as [i1 H1]. apply list_elem_of_lookup in H2 as [i2 H2].
  assert (Hi : i1 = i2).
  { eapply NoDup_lookup; [exact Hd| |]; by rewrite list_lookup_fmap, ?H1, ?H2. }
  subst. rewrite H1 in H2. by injection H2.
Qed.

Lemma find_id m k r : mgr_inv m -> smap_find k (sessions_m m) = Some r -> ids m !! r = Some k.
Proof.
  intros Hi Hf. destruct (mi_ref m Hi _ _ (smap_find_elem _ _ _ Hf)) as (s & Ho & Hs).
  unfold ids. by rewrite lookup_fmap, Ho, <- Hs.
Qed.

Lemma ids_ok_make data mbx ml fs : ids_ok (BVTCPConnectionManager_make (Q := Q) data mbx ml fs).
Proof.
  assert (Hu : used (BVTCPConnectionManager_make (Q := Q) data mbx ml fs) = []).
  { unfold used, ids. cbn. by rewrite fmap_empty, map_to_list_empty. }
  split; [done|rewrite Hu; constructor|rewrite Hu; constructor].
Qed.

Lemma one_session_of_id m m' k r r' :
  mgr_inv m /\ ids_ok m -> star counting m m' ->
  smap_find k (sessions_m m) = Some r -> smap_find k (sessions_m m') = Some r' -> r = r'.
Proof.
  intros Hi Hs Hf Hf'. destruct (counting_ok m m' Hi Hs) as (Hi' & Hok' & Hsub).
  apply (ids_distinct m' r r' k Hok'); [|by apply find_id].
  eapply lookup_weaken; [|exact Hsub]. apply find_id; [apply Hi|exact Hf].
Qed.

End SessionIds.

(** ** Properties *)

Section IdProperties.
Context {Q : Type -> Type} `{FifoQueueLaws Q} (P : asio).

(** C22.  As long as the counter has not wrapped around, a session identifier
    means the same session object at all times: whatever happens on a machine,
    connects completing in any order included, the table never has an identifier stand for another session later, so what
    is sent to it does not reach anyone else. *)
Theorem session_id_for_one_session data mbx ml fs (m m' : Manager Q) k r r' :
  star (counting P) (BVTCPConnectionManager_make data mbx ml fs) m -> star (counting P) m m' ->
  smap_find k (sessions_m m) = Some r -> smap_find k (sessions_m m') = Some r' -> r = r'.
Proof.
  intros H1 H2 Hf Hf'. pose proof (conj (mgr_inv_make (Q := Q) data mbx ml fs) (ids_ok_make data mbx ml fs)) as Hi.
  destruct (counting_ok P _ _ Hi H1) as (Hi1 & Hok1 & _).
  exact (one_session_of_id P m m' k r r' (conj Hi1 Hok1) H2 Hf Hf').
Qed.

(** After the counter has wrapped around: an accepted peer that is given an
    identifier still in use takes over the place of its session, and what is
    sent to the old peer goes to the new one. *)
Theorem reused_id_misroutes e name (caller : BVTCPSession) (m : Manager Q) buf peer old :
  mgr_inv (put_back m caller) -> name ∉ session_names (put_back m caller) ->
  writable caller -> calm P caller -> reads (sock caller) = [] ->
  readBuf caller = Some buf -> length buf = MESSAGE_FRAME_SIZE_BYTES -> totalBytesRead caller = 0%nat ->
  service_sessionid_m m !! peer = Some (sessionID caller) -> peer <> name ->
  smap_find (sessionID caller) (sessions_m m) = Some old -> old <> self caller -> no_endpoint e = false ->
  exists s' m', mgr_HandleSessionIdentification P e name caller m = Ok (s', m') /\
    GetSessionIDFromServiceName m' peer = (BVSTATUS_OK, Some (sessionID caller)) /\
    smap_find (sessionID caller) (sessions_m m') = Some (self caller) /\ session_name m' (self caller) = Some name /\
    forall msg, SendDataToNode P m' msg (sessionID caller) =
      (let! m'' := write_to P m' (self caller) msg in Ok (BVSTATUS_OK, m'')).
Proof.
  intros Hi Hn Hw HP Hr Hb Hl Ht Hsv Hne Hf Hold Hep.
  destruct (identify_new P e name caller m buf Hi Hn Hw HP Hr Hb Hl Ht Hep)
    as (s' & m' & He & _ & (Hfind & _ & Hnm & _) & _ & _ & _ & _ & _ & _ & _ & _ & _ & Hsv').
  exists s', m'. split; [exact He|]. split; [|split; [exact Hfind|split; [exact Hnm|]]].
  - unfold GetSessionIDFromServiceName. by rewrite Hsv', lookup_insert_ne, Hsv by done.
  - intros msg. unfold SendDataToNode. by rewrite Hfind.
Qed.

End IdProperties.

(** ** Concrete managers *)

Section IdWitnesses.

Lemma ex_ann_counts :
  star (counting ex_lazy) (BVTCPConnectionManager_make (BVService_host_data "ann" "local." PORT) 0 ex_mbx ex_fs) ex_ann2.
Proof.
  eapply (star_step _ _ ex_ann1).
  - split; [|left; vm_compute; reflexivity]. eapply (ms_initiate _ (ex_peer "bob") BVSTATUS_OK). vm_compute. reflexivity.
  - eapply (star_step _ _ ex_ann2); [|apply star_refl]. split; [|left; vm_compute; reflexivity].
    eapply (ms_connected _ ex_env 0 false). vm_compute. reflexivity.
Qed.

Lemma session_id_for_one_session_witness :
  smap_find 0 (sessions_m ex_ann2) = Some 0%nat /\
  forall r, smap_find 0 (sessions_m (Accept ex_ann2)) = Some r -> 0%nat = r.
Proof.
  assert (H0 : smap_find 0 (sessions_m ex_ann2) = Some 0%nat) by (vm_compute; reflexivity). split; [exact H0|].
  intros r Hr. apply (session_id_for_one_session ex_lazy (BVService_host_data "ann" "local." PORT) 0 ex_mbx ex_fs
    ex_ann2 (Accept ex_ann2) 0 0 r); [exact ex_ann_counts| |exact H0|exact Hr].
  eapply star_step; [|apply star_refl]. split; [apply ms_accept|left; vm_compute; reflexivity].
Defined.

(** An accepted session that has been given the identifier of [bob]'s. *)
Definition ex_reused : BVTCPSession :=
  MkSession 1 BVSESSIONSTATE_UNPREPARED (Some BVSESSIONORIGIN_INGOING) 0 BVNode_default false true
    (zeros 138) 138 (Some (zeros 138)) (zeros 1) 0 0 0 0 "ann" (Socket [] [] [] []).

Lemma reused_id_misroutes_witness :
  exists s' m', mgr_HandleSessionIdentification ex_lazy ex_env "carol" ex_reused ex_ann2 = Ok (s', m') /\
    GetSessionIDFromServiceName m' "bob" = (BVSTATUS_OK, Some 0) /\ session_name m' 1%nat = Some "carol"%string.
Proof.
  assert (Hn : objs ex_ann2 !! 1%nat = None) by (vm_compute; reflexivity).
  assert (Hnames : session_names (put_back ex_ann2 ex_reused) = ["bob"%string]) by (vm_compute; reflexivity).
  destruct (reused_id_misroutes ex_lazy ex_env "carol" ex_reused ex_ann2 (zeros 138) "bob" 0%nat)
    as (s' & m' & H1 & H2 & _ & H3 & _).
  - apply mgr_inv_new; [exact ex_ann2_inv|exact Hn].
  - rewrite Hnames. intros Hx%list_elem_of_singleton; discriminate Hx.
  - by split.
  - by left.
  - reflexivity.
  - reflexivity.
  - apply length_zeros.
  - reflexivity.
  - vm_compute. reflexivity.
  - discriminate.
  - vm_compute. reflexivity.
  - discriminate.
  - reflexivity.
  - exists s', m'. split; [exact H1|]. split; [exact H2|exact H3].
Defined.

End IdWitnesses.
