(* ===== verification/Offers.v ===== *)
(** * File offers ([include/BVTCPConnectionManager.hpp])

    Every offer takes the next value of a 32-bit counter for its key, and is
    pending under that key until the peer's verdict arrives
    ([InitiateFileTransferWithSession], [SignalFileTransfer]).  Until the counter
    wraps around, a key stands for one offer: it has not been used before, and
    once it has been answered it is never pending again. *)

From Stdlib Require Import ZArith Lia Ascii String.
From S2P Require Import Prelude TSQueue Common Broker Component Frames Session FileTransfer ConnectionManager.
From S2P Require Import SessionIds.

Section OfferSteps.
Context {Q : Type -> Type} `{FifoQueue Q} (P : asio).

(** What everything but an offer does to the tables: offers are only taken,
    and a transfer appears under a key only when its offer is taken. *)
Record offers_kept (m m' : Manager Q) : Prop := {
  ok_counter : static_ftcid m' = static_ftcid m;
  ok_pending : pendingOutgoing_m m' ⊆ pendingOutgoing_m m;
  ok_running k : is_Some (fileTransferContext_m m' !! k) ->
    is_Some (fileTransferContext_m m !! k) \/
    (is_Some (pendingOutgoing_m m !! k) /\ pendingOutgoing_m m' !! k = None)
}.

(** An offer is recorded under the counter, which moves on. *)
Definition offer_made (sid : Z) (path : string) (m m' : Manager Q) : Prop :=
  static_ftcid m' = u32 (static_ftcid m + 1) /\
  pendingOutgoing_m m' = <[ static_ftcid m := (sid, path) ]> (pendingOutgoing_m m) /\
  fileTransferContext_m m' = fileTransferContext_m m.

Definition same_offers (m m' : Manager Q) : Prop :=
  static_ftcid m' = static_ftcid m /\ pendingOutgoing_m m' = pendingOutgoing_m m /\
  fileTransferContext_m m' = fileTransferContext_m m.

Lemma same_offers_kept m m' : same_offers m m' -> offers_kept m m'.
Proof. intros (Hc & Hp & Hf). split; [done|by rewrite Hp|]. intros k. rewrite Hf. by left. Qed.

Lemma offers_kept_trans m1 m2 m3 : offers_kept m1 m2 -> offers_kept m2 m3 -> offers_kept m1 m3.
Proof.
  intros [Hc1 Hp1 Hr1] [Hc2 Hp2 Hr2]. split; [congruence|by transitivity (pendingOutgoing_m m2)|].
  intros k [Hk|[Hk Hn]]%Hr2; [destruct (Hr1 k Hk) as [?|[? Hn]]; [by left|]|]; right; (split; [|]); try done.
  - destruct (pendingOutgoing_m m3 !! k) eqn:E; [|done]. by rewrite (lookup_weaken _ _ _ _ E Hp2) in Hn.
  - destruct Hk as [x Hx]. exists x. by eapply lookup_weaken.
Qed.

(** A verdict takes the offer it is about. *)
Lemma signal_kept e key acc (m m' : Manager Q) :
  mgr_SignalFileTransfer e key acc m = Ok m' -> offers_kept m m' /\ pendingOutgoing_m m' !! key = None.
Proof.
  unfold mgr_SignalFileTransfer. intros Hf. destruct (pendingOutgoing_m m !! key) as [[sid path]|] eqn:Hp.
  2:{ injection Hf as <-. by split; [apply same_offers_kept|]. }
  destruct (negb acc).
  { injection Hf as <-. cbn. rewrite lookup_delete_eq. split; [|done]. split; cbn; [done|apply delete_subseteq|by left]. }
  apply bind_ok in Hf as (ref & _ & Hf). apply bind_ok in Hf as (c & _ & Hf). injection Hf as <-.
  cbn. rewrite lookup_delete_eq. split; [|done]. split; cbn; [done|apply delete_subseteq|].
  intros k Hk. destruct (decide (k = key)) as [->|Hne]; [right; rewrite Hp, lookup_delete_eq; by split|].
  left. by rewrite lookup_insert_ne, lookup_delete_ne in Hk by done.
Qed.

Lemma identify_offers e name s (m : Manager Q) s' m' :
  mgr_HandleSessionIdentification P e name s m = Ok (s', m') -> same_offers m m'.
Proof.
  unfold mgr_HandleSessionIdentification, StartCommunicationSessionWithNode, AddNodeToNodesM. intros Hf.
  destruct (negb _); [|by injection Hf as _ <-]. by ok_steps.
Qed.

Lemma sess_steps_offers e x y : sess_steps (M := Manager Q) P e x y -> offers_kept x.2 y.2.
Proof.
  induction 1 as [x|x y z Hs _ IH]; [by apply same_offers_kept|]. refine (offers_kept_trans _ _ _ _ IH).
  destruct Hs as [s s' m Hs|msg s m m' Hp|key acc s m m' Hp|name s m s' m' Hp]; cbn [fst snd] in *.
  - by apply same_offers_kept.
  - cbn [PutMessageIntoAppMailbox manager_interface] in Hp. unfold mgr_PutMessageIntoAppMailbox in Hp.
    apply same_offers_kept. by ok_steps.
  - cbn [SignalFileTransfer manager_interface] in Hp. exact (proj1 (signal_kept _ _ _ _ _ Hp)).
  - apply same_offers_kept. exact (identify_offers _ _ _ _ _ _ Hp).
Qed.

Lemma write_all_offers msg l : forall (m m' : Manager Q), write_to_all P l msg m = Ok m' -> same_offers m m'.
Proof.
  induction l as [|[k ref] l IH]; cbn [write_to_all]; intros m m' Hf; [by injection Hf as <-|].
  unfold write_to in Hf. ok_steps. match goal with Hx : write_to_all _ _ _ _ = _ |- _ => apply (IH _ _ Hx) end.
Qed.

Lemma offer_recorded e (m : Manager Q) sid path st m' :
  InitiateFileTransferWithSession e m sid path = Ok (st, m') -> offer_made sid path m m'.
Proof. unfold InitiateFileTransferWithSession. intros Hf. by ok_steps. Qed.

Lemma offer_keeps e (m : Manager Q) sid path st m' :
  InitiateFileTransferWithSession e m sid path = Ok (st, m') ->
  sessions_m m' = sessions_m m /\ mgr_files m' = mgr_files m.
Proof. unfold InitiateFileTransferWithSession. intros Hf. by ok_steps. Qed.

Lemma worker_offers e ec key (m m' : Manager Q) : worker_step e ec key m = Ok m' -> offers_kept m m'.
Proof.
  unfold worker_step. intros Hf. destruct (fileTransferContext_m m !! key) as [c|] eqn:Hk;
    [|injection Hf as <-; by apply same_offers_kept].
  destruct (_ || _)%bool; [injection Hf as <-; by apply same_offers_kept|].
  apply bind_ok in Hf as (s & _ & Hf). apply bind_ok in Hf as ([c' s'] & _ & Hf).
  assert (Hr : forall k, is_Some (<[ key := c' ]> (fileTransferContext_m m) !! k) -> is_Some (fileTransferContext_m m !! k)).
  { intros k. destruct (decide (k = key)) as [->|Hne]; [by rewrite Hk|by rewrite lookup_insert_ne]. }
  destruct (ft_progress c') as [[[a b] n]|]; injection Hf as <-; (split; cbn; [done|done|]); intros k Hx; left; by apply Hr.
Qed.

(** One step of the manager. *)
Lemma mstep_offers (m m' : Manager Q) :
  mstep P m m' -> offers_kept m m' \/ exists sid path, offer_made sid path m m'.
Proof.
  intros Hs. destruct Hs as [node st m m' Hf|e k error m m' Hf|m|e error m m' Hf|ref s bytes m Ho|e ref m m' Hf|e ref m m' Hf|ref s m Ho|k ref s m Ho
    |msg sid st m m' Hf|msg st m m' Hf|name st m m' Hf|e sid path st m m' Hf|e name key acc m m' Hf|e ec key m m' Hf];
    try (left; by apply same_offers_kept).
  - left. apply same_offers_kept. unfold InitiateSessionWithNode, StartCommunicationSessionWithNode in Hf. by ok_steps.
  - left. apply same_offers_kept. unfold ConnectHandler, StartCommunicationSessionWithNode in Hf.
    destruct (connecting m !! k) as [[sid node]|]; by ok_steps.
  - left. apply same_offers_kept. unfold Accept_handler in Hf. by ok_steps.
  - left. unfold on_readable in Hf. apply bind_ok in Hf as (s & _ & Hf). apply bind_ok in Hf as ([[s' m1]|] & Hc & Hf); [|done].
    injection Hf as <-. apply complete_read_steps, sess_steps_offers in Hc. cbn [snd] in Hc.
    refine (offers_kept_trans _ _ _ Hc _). by apply same_offers_kept.
  - left. apply same_offers_kept. by apply on_read_error_put in Hf as (s & s' & _ & _ & ->).
  - left. apply same_offers_kept. unfold SendDataToNode, write_to in Hf. by ok_steps.
  - left. apply same_offers_kept. unfold SendDataToEveryone in Hf. apply bind_ok in Hf as (m1 & H1 & Hf). injection Hf as _ <-.
    by eapply write_all_offers.
  - left. apply same_offers_kept. unfold RemoveSession in Hf.
    destruct (service_sessionid_m m !! name); [destruct (smap_find _ _)|]; by injection Hf as _ <-.
  - right. exists sid, path. by eapply offer_recorded.
  - left. apply same_offers_kept. unfold RespondToFileOffer in Hf.
    destruct (GetSessionIDFromServiceName m name) as [[] [sid|]]; by ok_steps.
  - left. by eapply worker_offers.
Qed.

End OfferSteps.

(** ** Until the counter wraps around *)

Section Offering.
Context {Q : Type -> Type} `{FifoQueueLaws Q} (P : asio).

(** A step that takes neither the last session identifier nor the last key. *)
Definition offering (m m' : Manager Q) : Prop :=
  counting P m m' /\ (static_ftcid m + 1 < 2 ^ 32 \/ static_ftcid m' = static_ftcid m).

(** Every key in use has been given out, and a transfer runs under a key whose
    offer is not pending any more. *)
Record offers_ok (m : Manager Q) : Prop := {
  of_counter : 0 <= static_ftcid m < 2 ^ 32;
  of_pending k : is_Some (pendingOutgoing_m m !! k) -> 0 <= k < static_ftcid m;
  of_running k : is_Some (fileTransferContext_m m !! k) ->
    0 <= k < static_ftcid m /\ pendingOutgoing_m m !! k = None
}.

(** A key that has been given out is pending for nothing but [offer]. *)
Definition for_only (offer : option (Z * string)) (key : Z) (m : Manager Q) : Prop :=
  key < static_ftcid m /\ forall x, pendingOutgoing_m m !! key = Some x -> offer = Some x.

Lemma offering_counter m m' sid path :
  0 <= static_ftcid m < 2 ^ 32 -> offering m m' -> offer_made sid path m m' ->
  static_ftcid m' = static_ftcid m + 1 /\ 0 <= static_ftcid m' < 2 ^ 32.
Proof.
  intros Hc [_ Hlt] [Hn _]. destruct (Z.lt_ge_cases (static_ftcid m + 1) (2 ^ 32)) as [Hs|Hs].
  - unfold u32 in Hn. rewrite wrap_small in Hn by lia. lia.
  - destruct Hlt as [Hlt|Hlt]; [lia|]. exfalso. rewrite Hn in Hlt.
    replace (static_ftcid m + 1) with (2 ^ 32) in Hlt by lia. change (u32 (2 ^ 32)) with 0 in Hlt. lia.
Qed.

Lemma offers_ok_kept m m' : offers_ok m -> offers_kept m m' -> offers_ok m'.
Proof.
  intros [Hc Hp Hr] [Hn Hs Hk]. split; [by rewrite Hn| |]; intros k; rewrite Hn.
  - intros [x Hx]. apply Hp. exists x. by eapply lookup_weaken.
  - intros [Hx|[Hx Hx']]%Hk; [|split; [by apply Hp|done]]. destruct (Hr k Hx) as [Hb Hx']. split; [done|].
    destruct (pendingOutgoing_m m' !! k) eqn:E; [|done]. by rewrite (lookup_weaken _ _ _ _ E Hs) in Hx'.
Qed.

Lemma offers_ok_step m m' : offers_ok m -> offering m m' -> offers_ok m'.
Proof.
  intros Hok Hst. destruct (mstep_offers P m m' (proj1 (proj1 Hst))) as [Hk|(sid & path & Hm)];
    [by eapply offers_ok_kept|destruct Hok as [Hc Hp Hr]].
  - destruct (offering_counter m m' sid path Hc Hst Hm) as [Hn Hc']. destruct Hm as (_ & Hpm & Hrm).
    split; [done| |]; intros k; rewrite ?Hpm, ?Hrm, Hn.
    + destruct (decide (k = static_ftcid m)) as [->|Hne]; [lia|]. rewrite lookup_insert_ne by done.
      intros Hx%Hp. lia.
    + intros Hx. destruct (Hr k Hx) as [Hb Hx']. split; [lia|]. rewrite lookup_insert_ne by lia. exact Hx'.
Qed.

Lemma for_only_step o key m m' : offers_ok m -> offering m m' -> for_only o key m -> for_only o key m'.
Proof.
  intros Hok Hst [Hlt Ho]. destruct (mstep_offers P m m' (proj1 (proj1 Hst))) as [[Hn Hs _]|(sid & path & Hm)].
  - split; [lia|]. intros x Hx. apply Ho. by eapply lookup_weaken.
  - destruct (offering_counter m m' sid path (of_counter m Hok) Hst Hm) as [Hn _]. destruct Hm as (_ & Hpm & _).
    split; [lia|]. intros x. rewrite Hpm, lookup_insert_ne by lia. apply Ho.
Qed.

Lemma offering_run o key m m' :
  offers_ok m -> for_only o key m -> star offering m m' -> offers_ok m' /\ for_only o key m'.
Proof.
  intros Hok Ho. apply (star_invariant offering (fun m => offers_ok m /\ for_only o key m)); [|done].
  intros a b [Ha Hf] Hst. split; [by eapply offers_ok_step|by eapply for_only_step].
Qed.

Lemma offering_counts m m' : star offering m m' -> star (counting P) m m'.
Proof. induction 1 as [|a b c [Hab _] _ IH]; [apply star_refl|by eapply star_step]. Qed.

Lemma offers_ok_make data mbx ml fs : offers_ok (BVTCPConnectionManager_make data mbx ml fs).
Proof. split; [done| |]; intros k [x Hx]; discriminate Hx. Qed.

Lemma for_only_none key m e acc : for_only None key m -> mgr_SignalFileTransfer e key acc m = Ok m.
Proof.
  intros [_ Ho]. apply signal_unknown. destruct (pendingOutgoing_m m !! key) as [x|] eqn:E; [|done].
  discriminate (Ho x eq_refl).
Qed.

(** ** What an answer does *)

(** The transfer started for an accepted offer, on the session [ref]: from the
    beginning of the file, or, when it could not be opened, from nowhere. *)
Definition transfer_of (opens : bool) (key : Z) (path : string) (ref : nat) (data : list ascii)
    (c : BVFileTransferContext) : Prop :=
  ftcid c = key /\ ft_session c = ref /\ ft_fname c = filename path /\
  ft_fsize c = u32 (Z.of_nat (length data)) /\ ft_state c = FILETRANSFERSTATE_FIRST_CHUNK /\
  ft_isRunning c = true /\ fhandle c = open_stream opens data.

(** [m'] is [m] after the verdict [acc] on the offer of [path], made on the
    session [ref], that is pending under [key]. *)
Record offer_answered (e : env) (key : Z) (path : string) (ref : nat) (acc : bool) (m m' : Manager Q) : Prop := {
  oa_taken : m' = m_contexts (m_pending m (delete key (pendingOutgoing_m m))) (fileTransferContext_m m');
  oa_started : if acc
    then exists c data, mgr_files m !! path = Some data /\ transfer_of (can_open e) key path ref data c /\
      fileTransferContext_m m' = <[ key := c ]> (fileTransferContext_m m)
    else fileTransferContext_m m' = fileTransferContext_m m
}.

(** What an acceptance needs: the session is still there, and the file. *)
Definition answerable (sid : Z) (path : string) (m : Manager Q) : Prop :=
  is_Some (smap_find sid (sessions_m m)) /\ is_Some (mgr_files m !! path).

Lemma verdict_taken e key sid path ref acc (m : Manager Q) :
  pendingOutgoing_m m !! key = Some (sid, path) -> (acc = true -> answerable sid path m) ->
  (forall r, smap_find sid (sessions_m m) = Some r -> r = ref) ->
  exists m', mgr_SignalFileTransfer e key acc m = Ok m' /\ offer_answered e key path ref acc m m'.
Proof.
  intros Hp Ha Hr. destruct acc.
  - destruct (Ha eq_refl) as [[r Hf] [data Hd]]. pose proof (Hr r Hf) as ->.
    rewrite (signal_accepted e key m sid path ref data Hp Hf Hd).
    eexists. split; [reflexivity|]. split; [done|]. eexists _, data. split; [done|].
    split; [|cbn; by rewrite insert_delete_eq]. by repeat split.
  - rewrite (signal_refused e key m sid path Hp). eexists. by split; [|split].
Qed.

Lemma verdict_lost e key sid path (m : Manager Q) :
  pendingOutgoing_m m !! key = Some (sid, path) -> ~ answerable sid path m ->
  exists x, mgr_SignalFileTransfer e key true m = Err x.
Proof.
  intros Hp Ha. unfold mgr_SignalFileTransfer. rewrite Hp. cbn [negb m_pending sessions_m mgr_files].
  destruct (smap_find sid (sessions_m m)) as [ref|] eqn:Hf; [|by eexists]. sess. unfold BVFileTransferContext_make.
  destruct (mgr_files m !! path) as [data|] eqn:Hd; [|by eexists]. destruct Ha. by split; eexists.
Qed.

(** After a verdict on a key, nothing is pending under it again. *)
Lemma verdict_final e key acc m m' m'' :
  offers_ok m -> key < static_ftcid m -> mgr_SignalFileTransfer e key acc m = Ok m' -> star offering m' m'' ->
  forall e' acc', mgr_SignalFileTransfer e' key acc' m'' = Ok m''.
Proof.
  intros Hok Hk Hv Hs e' acc'. destruct (signal_kept e key acc m m' Hv) as [Hkept Hn].
  apply for_only_none. apply (offering_run None key m' m''); [by eapply offers_ok_kept| |done].
  destruct Hkept as [Hc _ _]. split; [by rewrite Hc|]. intros x Hx. congruence.
Qed.

(** A worker whose file could not be opened does nothing. *)
Lemma unopened_idle e ec key path ref data c (m : Manager Q) :
  fileTransferContext_m m !! key = Some c -> transfer_of false key path ref data c -> worker_step e ec key m = Ok m.
Proof.
  intros Hk (_ & _ & _ & _ & _ & _ & Hh). unfold worker_step. by rewrite Hk, Hh, orb_true_r.
Qed.

(** C23.  A file offer is answered once.  However the machine got here, as long
    as neither of its two counters has wrapped around, offering a file on a live
    session takes a key that is neither pending nor the key of a transfer,
    records the file under it and writes one offer frame (as much of it as the
    blocking write lets through).  At any later time the key is never given out
    again, and the peer's verdict on it is either ignored, or it takes this very
    offer: a refusal changes nothing else; an acceptance starts one transfer, of
    that file, on the session object it was offered on (when the file cannot be
    opened its worker does nothing), or throws when the session or the file is
    gone.  Every verdict on the key after that one is ignored. *)
Theorem file_offer_answered_once data mbx ml fs (m : Manager Q) e sid path ref s :
  star offering (BVTCPConnectionManager_make data mbx ml fs) m -> static_ftcid m + 1 < 2 ^ 32 ->
  smap_find sid (sessions_m m) = Some ref -> objs m !! ref = Some s ->
  let key := static_ftcid m in
  pendingOutgoing_m m !! key = None /\ fileTransferContext_m m !! key = None /\
  exists m1 frame, InitiateFileTransferWithSession e m sid path = Ok (BVSTATUS_OK, m1) /\
    offer_made sid path m m1 /\
    SendFileOffer_frame (now e) (thisMachineServiceName s) key (u32 (file_size_or_max m path))
      (filename path) = Ok (Some frame) /\
    tx ∘ sock <$> objs m1 !! ref =
      Some (tx (sock s) ++ match sync_write e with Some n => take n frame | None => frame end) /\
    forall m2, star offering m1 m2 -> key < static_ftcid m2 /\ forall e2 acc,
      match pendingOutgoing_m m2 !! key with
      | None => mgr_SignalFileTransfer e2 key acc m2 = Ok m2
      | Some offer => offer = (sid, path) /\ fileTransferContext_m m2 !! key = None /\
          (acc = true -> ~ answerable sid path m2 -> exists x, mgr_SignalFileTransfer e2 key true m2 = Err x) /\
          ((acc = true -> answerable sid path m2) ->
            exists m3, mgr_SignalFileTransfer e2 key acc m2 = Ok m3 /\ offer_answered e2 key path ref acc m2 m3 /\
              (can_open e2 = false -> acc = true -> forall e3 ec, worker_step e3 ec key m3 = Ok m3) /\
              forall m4, star offering m3 m4 -> forall e4 acc', mgr_SignalFileTransfer e4 key acc' m4 = Ok m4)
      end.
Proof.
  intros Hreach Hlt Hf Hs key.
  assert (Hok : offers_ok m) by (eapply star_invariant; [exact offers_ok_step|apply offers_ok_make|exact Hreach]).
  destruct (counting_ok P _ _ (conj (mgr_inv_make data mbx ml fs) (ids_ok_make data mbx ml fs))
    (offering_counts _ _ Hreach)) as (Hi & Hids & _).
  assert (Hfresh : forall k, is_Some (pendingOutgoing_m m !! k) \/ is_Some (fileTransferContext_m m !! k) -> k <> key).
  { intros k [Hk%(of_pending m Hok)|Hk%(of_running m Hok)]; unfold key; lia. }
  split; [apply eq_None_not_Some; intros Hx; by apply (Hfresh key); [left|]|].
  split; [apply eq_None_not_Some; intros Hx; by apply (Hfresh key); [right|]|].
  destruct (initiate_offer e m sid path ref s Hf Hs) as (frame & Hfr & Hin).
  set (m1 := m_objs _ _) in Hin. pose proof (offer_recorded _ _ _ _ _ _ Hin) as Hmade.
  assert (Hst : offering m m1).
  { split; [|left; exact Hlt]. split; [by eapply ms_offer|right; done]. }
  exists m1, frame. split; [exact Hin|]. split; [exact Hmade|]. split; [exact Hfr|]. split.
  { cbn [m1 m_objs objs]. rewrite lookup_insert_eq. reflexivity. }
  intros m2 Hs2. assert (Hone : for_only (Some (sid, path)) key m1).
  { destruct (offering_counter m m1 sid path (of_counter m Hok) Hst Hmade) as [Hn _]. split; [unfold key; lia|].
    intros x. cbn [m1 m_objs m_pending pendingOutgoing_m]. unfold key. by rewrite lookup_insert_eq. }
  destruct (offering_run _ key m1 m2 (offers_ok_step m m1 Hok Hst) Hone Hs2) as [Hok2 [Hlt2 Hone2]].
  split; [exact Hlt2|]. intros e2 acc. destruct (pendingOutgoing_m m2 !! key) as [x|] eqn:Hp; [|by apply signal_unknown].
  injection (Hone2 x eq_refl) as <-. split; [done|]. split; [|split].
  - apply eq_None_not_Some. intros Hx. apply (of_running m2 Hok2) in Hx as [_ Hx]. congruence.
  - intros _. by apply verdict_lost.
  - intros Ha. destruct (verdict_taken e2 key sid path ref acc m2 Hp Ha) as (m3 & Hv & Han).
    { intros r Hr. symmetry. apply (one_session_of_id P m m2 sid ref r (conj Hi Hids)); [|done|done].
      eapply star_step; [apply Hst|by apply offering_counts]. }
    exists m3. split; [exact Hv|]. split; [exact Han|]. split.
    + intros Hop -> e3 ec. destruct (oa_started _ _ _ _ _ _ _ Han) as (c & d & _ & Ht & Hc). rewrite Hop in Ht.
      apply (unopened_idle e3 ec key path ref d c); [by rewrite Hc, lookup_insert_eq|exact Ht].
    + intros m4. exact (verdict_final e2 key acc m2 m3 m4 Hok2 Hlt2 Hv).
Qed.

End Offering.

(** ** A concrete offer *)

Section OfferWitnesses.

Lemma ex_ann_offers :
  star (offering ex_lazy) (BVTCPConnectionManager_make (BVService_host_data "ann" "local." PORT) 0 ex_mbx ex_fs) ex_ann2.
Proof.
  eapply (star_step _ _ ex_ann1).
  - split; [split; [|left]|left]; [|vm_compute; reflexivity..].
    eapply (ms_initiate _ (ex_peer "bob") BVSTATUS_OK). vm_compute. reflexivity.
  - eapply (star_step _ _ ex_ann2); [|apply star_refl]. split; [split; [|left]|left]; [|vm_compute; reflexivity..].
    eapply (ms_connected _ ex_env 0 false). vm_compute. reflexivity.
Qed.

(** [ann] offers a file to [bob], who accepts it; a second verdict is ignored. *)
Lemma file_offer_answered_once_witness :
  exists m1 m2, InitiateFileTransferWithSession ex_env ex_ann2 0 "/tmp/x.txt" = Ok (BVSTATUS_OK, m1) /\
    mgr_SignalFileTransfer ex_env 0 true m1 = Ok m2 /\ is_Some (fileTransferContext_m m2 !! 0) /\
    mgr_SignalFileTransfer ex_env 0 true m2 = Ok m2.
Proof.
  destruct (objs ex_ann2 !! 0%nat) as [s|] eqn:Hs; [|vm_compute in Hs; discriminate Hs].
  assert (Hk : static_ftcid ex_ann2 = 0) by (vm_compute; reflexivity).
  destruct (file_offer_answered_once ex_lazy (BVService_host_data "ann" "local." PORT) 0 ex_mbx ex_fs ex_ann2 ex_env 0
    "/tmp/x.txt" 0 s) as (_ & _ & m1 & frame & Hi & (_ & Hp & _) & _ & _ & Hv).
  - exact ex_ann_offers.
  - rewrite Hk. lia.
  - vm_compute. reflexivity.
  - exact Hs.
  - rewrite Hk in Hp, Hv. destruct (Hv m1 (star_refl _ _)) as [_ Hv1]. specialize (Hv1 ex_env true).
    rewrite Hp, lookup_insert_eq in Hv1. destruct Hv1 as (_ & _ & _ & Hv1).
    destruct Hv1 as (m2 & H2 & [_ (c & data & _ & _ & Hc)] & _ & H4).
    { intros _. destruct (offer_keeps _ _ _ _ _ _ Hi) as [Hse Hfi]. unfold answerable. rewrite Hse, Hfi.
      split; vm_compute; by eexists. }
    exists m1, m2. split; [exact Hi|]. split; [exact H2|]. split; [|exact (H4 m2 (star_refl _ _) ex_env true)].
    rewrite Hc, lookup_insert_eq. by eexists.
Defined.

End OfferWitnesses.
