(* ===== verification/ConsoleClient.v ===== *)
(** * The console application ([include/BVApp.hpp],
    [include/BVApp_ConsoleClient.hpp], [src/BVApp_ConsoleClient.cpp])

    The event-driven user interface (main menu, chat, file offer prompt), the
    handlers of the application's mailbox, and what they ask of the connection
    manager.  Mailbox handlers run on their own thread and post what touches
    the interface to the [ioContext], so keys, posted actions and mailbox
    messages are separate steps.  The name resolver is Boost's: a parameter.
    [ctime] is the C library's. *)

From Stdlib Require Import ZArith Lia Ascii String.
From stdpp Require Import pretty.
From S2P Require Import Prelude TSQueue Common Broker Component Frames Session FileTransfer.
From S2P Require Import ReceivedFile ConnectionManager.

Inductive UIState : Type := MainMenu | Chat | FileOffer.

#[export] Instance UIState_eq_dec : EqDecision UIState.
Proof. solve_decision. Defined.

Inductive BVConsoleActionType : Type :=
  | BVCONSOLEACTION_SENDMSG
  | BVCONSOLEACTION_REPRINT
  | BVCONSOLEACTION_QUIT
  | BVCONSOLEACTION_PAUSE_DISCOVERY
  | BVCONSOLEACTION_RESUME_DISCOVERY
  | BVCONSOLEACTION_BLOCKHOST.

Record ParsingResult : Type := MkParsingResult {
  pr_type : BVConsoleActionType;
  pr_num : option Z
}.

(** An incoming file offer awaiting a y/n decision. *)
Record PendingOffer : Type := MkPendingOffer {
  po_key : Z;
  po_sender : string;
  po_fname : string;
  po_size : Z
}.

(** What mailbox handlers post to the [ioContext]. *)
Inductive posted : Type :=
  | Post_Message (sender textData : string)
  | Post_Offer (offer : PendingOffer).

(** ** Pure helpers *)

Definition tolower (c : ascii) : ascii :=
  if ((65 <=? uchar c) && (uchar c <=? 90))%bool then char_of (uchar c + 32) else c.

Definition isdigit (c : ascii) : bool := ((48 <=? uchar c) && (uchar c <=? 57))%bool.

(** [std::isprint] in the C locale. *)
Definition isprint (c : ascii) : bool := ((32 <=? uchar c) && (uchar c <=? 126))%bool.

Definition ParseConsoleActionFromKey (key : ascii) : option ParsingResult :=
  match tolower key with
  | "d"%char => Some (MkParsingResult BVCONSOLEACTION_REPRINT None)
  | "p"%char => Some (MkParsingResult BVCONSOLEACTION_PAUSE_DISCOVERY None)
  | "r"%char => Some (MkParsingResult BVCONSOLEACTION_RESUME_DISCOVERY None)
  | "q"%char => Some (MkParsingResult BVCONSOLEACTION_QUIT None)
  | "b"%char => Some (MkParsingResult BVCONSOLEACTION_BLOCKHOST None)
  | _ => if isdigit key then Some (MkParsingResult BVCONSOLEACTION_SENDMSG (Some (uchar key - 48)))
         else None
  end.

Definition isSpace (c : ascii) : bool := (Ascii.eqb c " " || Ascii.eqb c (char_of 9))%bool.

Fixpoint trim_front (l : list ascii) : list ascii :=
  match l with
  | c :: l' => if isSpace c then trim_front l' else l
  | [] => []
  end.

Definition trim_back (l : list ascii) : list ascii := rev (trim_front (rev l)).

Definition SQUOTE : ascii := char_of 39.
Definition DQUOTE : ascii := char_of 34.
Definition BACKSLASH : ascii := char_of 92.

(** One pair of matching quotes around the path is dropped. *)
Definition unquote (l : list ascii) : list ascii :=
  let quoted q := (bool_decide (l !! 0%nat = Some q) && bool_decide (l !! (length l - 1)%nat = Some q))%bool in
  if ((2 <=? length l)%nat && (quoted SQUOTE || quoted DQUOTE))%bool
  then take (length l - 2) (drop 1 l) else l.

(** A backslash right before a space is dropped. *)
Fixpoint unescape (l : list ascii) : list ascii :=
  match l with
  | c :: (c' :: _) as l' =>
      if (Ascii.eqb c BACKSLASH && Ascii.eqb c' " ")%bool then unescape l' else c :: unescape l'
  | _ => l
  end.

(** The argument of "|f ", normalised the way dragged-in paths need. *)
Definition file_argument (line : list ascii) : list ascii :=
  unescape (unquote (trim_back (trim_front (drop 3 line)))).

(** [ConstructChatMessageFromInput]: text beyond 128 characters is cut. *)
Definition ConstructChatMessageFromInput (now : Z) (inputString : list ascii) : BVTCPMessage :=
  let copyLen := Nat.min (length inputString) 128 in
  {| msg_header := {| mh_dataLen := u8 (Z.of_nat copyLen); mh_timestamp := u64 now;
                      mh_msgType := BVSESSIONREGULARMESSAGETYPE_CHATMESSAGE |};
     msg_payload := take copyLen inputString ++ zeros (128 - copyLen) |}.

Definition NL : string := String (char_of 10) EmptyString.

Section ConsoleClient.
Context {Q : Type -> Type} `{FifoQueue Q}.

Record App : Type := MkApp {
  manager : Manager Q;   (* BVTCPConnectionManager *)
  app_base : BVComponent;   (* mailboxes *)
  uiState : UIState;
  priorUiState : UIState;   (* state to return to after a file offer *)
  activeChatService : string;   (* peer of UIState::Chat *)
  inputLine : list ascii;   (* message line being typed *)
  lastNotification : string;
  pendingOffer : option PendingOffer;
  recvBytes : Z;   (* uint64_t *)
  serviceV : list BVServiceBrowseInstance;
  chatLogsM : gmap string BVChatMessageLog;
  fileTransferData : gmap Z (string * string);   (* key -> service, file *)
  app_isRunning : bool;
  io_stopped : bool;   (* ioContext.stop () was called *)
  stdin_armed : bool;   (* a read of one key is pending *)
  posted_q : list posted;   (* handlers posted to the ioContext *)
  app_fs : FileSystem;
  rootdir : string;   (* current_path () *)
  cout : list string   (* pieces written to std::cout *)
}.

Definition a_manager (a : App) (x0 : Manager Q) : App :=
  MkApp x0 (app_base a) (uiState a) (priorUiState a) (activeChatService a)
    (inputLine a) (lastNotification a) (pendingOffer a) (recvBytes a) (serviceV a)
    (chatLogsM a) (fileTransferData a) (app_isRunning a) (io_stopped a)
    (stdin_armed a) (posted_q a) (app_fs a) (rootdir a) (cout a).
Definition a_ui (a : App) (x0 : UIState) : App :=
  MkApp (manager a) (app_base a) x0 (priorUiState a) (activeChatService a)
    (inputLine a) (lastNotification a) (pendingOffer a) (recvBytes a) (serviceV a)
    (chatLogsM a) (fileTransferData a) (app_isRunning a) (io_stopped a)
    (stdin_armed a) (posted_q a) (app_fs a) (rootdir a) (cout a).
Definition a_prior (a : App) (x0 : UIState) : App :=
  MkApp (manager a) (app_base a) (uiState a) x0 (activeChatService a) (inputLine a)
    (lastNotification a) (pendingOffer a) (recvBytes a) (serviceV a) (chatLogsM a)
    (fileTransferData a) (app_isRunning a) (io_stopped a) (stdin_armed a)
    (posted_q a) (app_fs a) (rootdir a) (cout a).
Definition a_active (a : App) (x0 : string) : App :=
  MkApp (manager a) (app_base a) (uiState a) (priorUiState a) x0 (inputLine a)
    (lastNotification a) (pendingOffer a) (recvBytes a) (serviceV a) (chatLogsM a)
    (fileTransferData a) (app_isRunning a) (io_stopped a) (stdin_armed a)
    (posted_q a) (app_fs a) (rootdir a) (cout a).
Definition a_input (a : App) (x0 : list ascii) : App :=
  MkApp (manager a) (app_base a) (uiState a) (priorUiState a) (activeChatService a) x0
    (lastNotification a) (pendingOffer a) (recvBytes a) (serviceV a) (chatLogsM a)
    (fileTransferData a) (app_isRunning a) (io_stopped a) (stdin_armed a)
    (posted_q a) (app_fs a) (rootdir a) (cout a).
Definition a_notification (a : App) (x0 : string) : App :=
  MkApp (manager a) (app_base a) (uiState a) (priorUiState a) (activeChatService a)
    (inputLine a) x0 (pendingOffer a) (recvBytes a) (serviceV a) (chatLogsM a)
    (fileTransferData a) (app_isRunning a) (io_stopped a) (stdin_armed a)
    (posted_q a) (app_fs a) (rootdir a) (cout a).
Definition a_offer (a : App) (x0 : option PendingOffer) : App :=
  MkApp (manager a) (app_base a) (uiState a) (priorUiState a) (activeChatService a)
    (inputLine a) (lastNotification a) x0 (recvBytes a) (serviceV a) (chatLogsM a)
    (fileTransferData a) (app_isRunning a) (io_stopped a) (stdin_armed a)
    (posted_q a) (app_fs a) (rootdir a) (cout a).
Definition a_recv (a : App) (x0 : Z) : App :=
  MkApp (manager a) (app_base a) (uiState a) (priorUiState a) (activeChatService a)
    (inputLine a) (lastNotification a) (pendingOffer a) x0 (serviceV a)
    (chatLogsM a) (fileTransferData a) (app_isRunning a) (io_stopped a)
    (stdin_armed a) (posted_q a) (app_fs a) (rootdir a) (cout a).
Definition a_services (a : App) (x0 : list BVServiceBrowseInstance) : App :=
  MkApp (manager a) (app_base a) (uiState a) (priorUiState a) (activeChatService a)
    (inputLine a) (lastNotification a) (pendingOffer a) (recvBytes a) x0
    (chatLogsM a) (fileTransferData a) (app_isRunning a) (io_stopped a)
    (stdin_armed a) (posted_q a) (app_fs a) (rootdir a) (cout a).
Definition a_logs (a : App) (x0 : gmap string BVChatMessageLog) : App :=
  MkApp (manager a) (app_base a) (uiState a) (priorUiState a) (activeChatService a)
    (inputLine a) (lastNotification a) (pendingOffer a) (recvBytes a) (serviceV a)
    x0 (fileTransferData a) (app_isRunning a) (io_stopped a) (stdin_armed a)
    (posted_q a) (app_fs a) (rootdir a) (cout a).
Definition a_transfers (a : App) (x0 : gmap Z (string * string)) : App :=
  MkApp (manager a) (app_base a) (uiState a) (priorUiState a) (activeChatService a)
    (inputLine a) (lastNotification a) (pendingOffer a) (recvBytes a) (serviceV a)
    (chatLogsM a) x0 (app_isRunning a) (io_stopped a) (stdin_armed a) (posted_q a)
    (app_fs a) (rootdir a) (cout a).
Definition a_running (a : App) (x0 : bool) : App :=
  MkApp (manager a) (app_base a) (uiState a) (priorUiState a) (activeChatService a)
    (inputLine a) (lastNotification a) (pendingOffer a) (recvBytes a) (serviceV a)
    (chatLogsM a) (fileTransferData a) x0 (io_stopped a) (stdin_armed a)
    (posted_q a) (app_fs a) (rootdir a) (cout a).
Definition a_stopped (a : App) (x0 : bool) : App :=
  MkApp (manager a) (app_base a) (uiState a) (priorUiState a) (activeChatService a)
    (inputLine a) (lastNotification a) (pendingOffer a) (recvBytes a) (serviceV a)
    (chatLogsM a) (fileTransferData a) (app_isRunning a) x0 (stdin_armed a)
    (posted_q a) (app_fs a) (rootdir a) (cout a).
Definition a_armed (a : App) (x0 : bool) : App :=
  MkApp (manager a) (app_base a) (uiState a) (priorUiState a) (activeChatService a)
    (inputLine a) (lastNotification a) (pendingOffer a) (recvBytes a) (serviceV a)
    (chatLogsM a) (fileTransferData a) (app_isRunning a) (io_stopped a) x0
    (posted_q a) (app_fs a) (rootdir a) (cout a).
Definition a_posted (a : App) (x0 : list posted) : App :=
  MkApp (manager a) (app_base a) (uiState a) (priorUiState a) (activeChatService a)
    (inputLine a) (lastNotification a) (pendingOffer a) (recvBytes a) (serviceV a)
    (chatLogsM a) (fileTransferData a) (app_isRunning a) (io_stopped a)
    (stdin_armed a) x0 (app_fs a) (rootdir a) (cout a).
Definition a_fs (a : App) (x0 : FileSystem) (x1 : Manager Q) : App :=
  MkApp x1 (app_base a) (uiState a) (priorUiState a) (activeChatService a)
    (inputLine a) (lastNotification a) (pendingOffer a) (recvBytes a) (serviceV a)
    (chatLogsM a) (fileTransferData a) (app_isRunning a) (io_stopped a)
    (stdin_armed a) (posted_q a) x0 (rootdir a) (cout a).
Definition a_cout (a : App) (x0 : list string) : App :=
  MkApp (manager a) (app_base a) (uiState a) (priorUiState a) (activeChatService a)
    (inputLine a) (lastNotification a) (pendingOffer a) (recvBytes a) (serviceV a)
    (chatLogsM a) (fileTransferData a) (app_isRunning a) (io_stopped a)
    (stdin_armed a) (posted_q a) (app_fs a) (rootdir a) x0.

(** The constructors of [BVApp] and [BVApp_ConsoleClient]. *)
Definition App_make (m : Manager Q) (base : BVComponent) (fs : FileSystem) (cwd : string) : App :=
  MkApp (m_files m (files fs)) base MainMenu MainMenu EmptyString [] EmptyString None 0 [] ∅ ∅
    true false false [] fs cwd [].

(** Files are shared with the manager's transfers. *)
Definition set_fs (a : App) (fs : FileSystem) : App := a_fs a fs (m_files (manager a) (files fs)).

Definition print (a : App) (pieces : list string) : App := a_cout a (cout a ++ pieces).

Definition app_SendMessage (a : App) (msg : BVMessage) : result App :=
  let! ml := push_msg (mgr_mail (manager a)) (outMailBox_p (app_base a)) msg in
  Ok (a_manager a (m_mail (manager a) ml)).

Definition StopIOContext (a : App) : App := a_stopped a true.

(** ** Drawing *)

Section Drawing.
Context (ctime : Z -> list ascii) (e : env).

Definition ClearScreen : list string := replicate 200 NL.

Definition bI_print (bI : BVServiceBrowseInstance) : list string :=
  ["service name: "; bi_serviceName bI; NL; "reg type:     "; bi_regType bI; NL;
   "domain:       "; bi_replyDomain bI; NL].

Definition PrintServices (a : App) : list string :=
  (if (length (serviceV a) =? 0)%nat
   then ["None available apart from ours... :("; NL;
         sd_hostname (thisMachineServiceData (manager a)); NL] else []) ++
  concat (map (fun bI => "  - " :: bI_print bI) (serviceV a)).

(** One numbered line per session, from number [k] on. *)
Fixpoint print_sessions (m : Manager Q) (k : Z) (l : list (Z * nat)) : list string :=
  match l with
  | [] => []
  | (_, ref) :: l =>
      match objs m !! ref with
      | Some s => ["  ("; pretty k; ")  "; nd_serviceName (nodeData s); "   [session ";
                   pretty (sessionID s); ", node "; pretty (default 0 (nd_id (nodeData s))); "]"; NL]
      | None => []
      end ++ print_sessions m (k + 1) l
  end.

Definition PrintSessions (m : Manager Q) : list string :=
  (if (length (sessions_m m) =? 0)%nat then ["None."; NL] else []) ++
  print_sessions m 1 (sessions_m m).

Definition PrintAll_text (a : App) : list string :=
  ClearScreen ++
  ["LocalChat console client v0.4.0"; NL; "Re(D)raw"; NL;
   "(1-9) Chat with a session listed below"; NL; "(P)ause discovery"; NL;
   "(R)esume discovery"; NL; "(Q)uit"; NL; "-----------------------------"; NL;
   "Discovered services:"; NL] ++ PrintServices a ++
  ["-----------------------------"; NL; "Sessions  --  press the number to chat:"; NL] ++
  PrintSessions (manager a) ++
  (if String.eqb (lastNotification a) EmptyString then []
   else ["-----------------------------"; NL; ">> "; lastNotification a; NL]) ++
  ["============================="; NL].

Definition PrintAll (a : App) : App := print a (PrintAll_text a).

Definition log_text (lines : list (list ascii * string * string)) : list string :=
  ["+------+"; NL] ++
  concat (map (fun l => let '(date, sender, text) := l in [str date; " ["; sender; "]: "; text; NL]) lines) ++
  ["+------+"; NL].

Definition RenderChat (a : App) : result App :=
  let a := PrintAll a in
  let! a := match chatLogsM a !! activeChatService a with
            | Some log =>
                let! lines := PrintNLastMessages ctime (now e / 1000) log TEN_LAST_MESSAGES in
                Ok (print a (["Message log with "; activeChatService a; NL] ++ log_text lines))
            | None => Ok (print a ["No messages with "; activeChatService a; " :)"; NL])
            end in
  Ok (print a ["(|q quit chat) (|f <path> send file) (|r redraw)"; NL; ">> "; str (inputLine a)]).

Definition RenderFileOffer (a : App) : App :=
  match pendingOffer a with
  | None => a
  | Some o =>
      print a (ClearScreen ++ ["Incoming file from "; po_sender o; ":"; NL; "  "; po_fname o; " (";
                               pretty (po_size o); " bytes)"; NL; NL; "Accept? (y/n): "])
  end.

Definition Render (a : App) : result App :=
  match uiState a with
  | FileOffer => Ok (RenderFileOffer a)
  | Chat => RenderChat a
  | MainMenu => Ok (PrintAll a)
  end.

End Drawing.

(** ** Keys *)

Section Operations.
Context (ctime : Z -> list ascii) (P : asio).
(** [resolver.resolve]: error code set, number of endpoints, per attempt. *)
Context (resolve : string -> Z -> nat -> bool * nat).

Definition EnterChat (e : env) (a : App) (selection : Z) : result App :=
  let sessionNames := session_names (manager a) in
  let idx := selection - 1 in
  if ((idx <? 0) || (idx >=? Z.of_nat (length sessionNames)))%bool then Ok a
  else
    let! name := from_option_err OutOfBounds (sessionNames !! Z.to_nat idx) in
    let a := a_ui (a_active a name) Chat in
    let a := a_notification (a_input a []) EmptyString in
    RenderChat ctime e a.

Definition log_message (a : App) (peer : string) (msg : BVChatMessage) : App :=
  a_logs a (match chatLogsM a !! peer with
            | Some log => <[ peer := AddMessage log msg ]> (chatLogsM a)
            | None => <[ peer := BVChatMessageLog_make peer msg ]> (chatLogsM a)
            end).

(** [is_regular_file] *)
Definition is_regular_file (a : App) (path : string) : bool :=
  bool_decide (is_Some (files (app_fs a) !! path)).

Definition SendChatLine (e : env) (a : App) (serviceName : string) (line : list ascii) : result App :=
  match GetSessionIDFromServiceName (manager a) serviceName with
  | (BVSTATUS_OK, Some sid) =>
      if bool_decide (take 3 line = chars "|f ") then
        let path := str (file_argument line) in
        if is_regular_file a path then
          let! '(_, m) := InitiateFileTransferWithSession e (manager a) sid path in
          Ok (a_manager a m)
        else Ok a
      else
        let chatMsg := ConstructChatMessageFromInput (now e) line in
        let! '(st, m) := SendDataToNode P (manager a) chatMsg sid in
        let a := a_manager a m in
        if decide (st = BVSTATUS_FATAL_ERROR) then Ok a
        else
          Ok (log_message a serviceName
                {| cm_textData := str line; cm_sender := sd_hostname (thisMachineServiceData (manager a));
                   cm_timestamp := mh_timestamp (msg_header chatMsg) |})
  | _ => Ok a
  end.

Definition HandleChatKey (e : env) (a : App) (c : ascii) : result App :=
  if ((uchar c =? 10) || (uchar c =? 13))%bool then
    let a := print a [NL] in
    let line := inputLine a in
    let a := a_input a [] in
    if bool_decide (line = chars "|q") then
      Render ctime e (a_active (a_ui a MainMenu) EmptyString)
    else if (bool_decide (line = []) || bool_decide (line = chars "|r"))%bool then RenderChat ctime e a
    else
      let! a := SendChatLine e a (activeChatService a) line in
      RenderChat ctime e a
  else if ((uchar c =? 127) || (uchar c =? 8))%bool then
    match inputLine a with
    | [] => Ok a
    | l => Ok (print (a_input a (take (length l - 1) l)) [str [char_of 8; char_of 32; char_of 8]])
    end
  else if isprint c then Ok (print (a_input a (inputLine a ++ [c])) [str [c]])
  else Ok a.

Definition HandleFileOfferKey (e : env) (a : App) (c : ascii) : result App :=
  match pendingOffer a with
  | None => Render ctime e (a_ui a (priorUiState a))
  | Some offer =>
      let verdict := tolower c in
      if Ascii.eqb verdict "y" then
        let! m := RespondToFileOffer e (manager a) (po_sender offer) (po_key offer) true in
        let a := print (a_manager a m) [NL; "Accepted. Receiving "; po_fname offer; "..."; NL] in
        let a := a_ui (a_offer a None) (priorUiState a) in
        if decide (priorUiState a <> FileOffer) then Render ctime e a else Ok a
      else if Ascii.eqb verdict "n" then
        let! m := RespondToFileOffer e (manager a) (po_sender offer) (po_key offer) false in
        let a := print (a_manager a m) [NL; "Rejected "; po_fname offer; "."; NL] in
        let a := a_ui (a_offer a None) (priorUiState a) in
        if decide (priorUiState a <> FileOffer) then Render ctime e a else Ok a
      else Ok a
  end.

Definition HandleMainMenuKey (e : env) (a : App) (key : ascii) : result App :=
  match ParseConsoleActionFromKey key with
  | None => Ok a
  | Some action =>
      match pr_type action with
      | BVCONSOLEACTION_REPRINT => Render ctime e a
      | BVCONSOLEACTION_SENDMSG =>
          match pr_num action with Some n => EnterChat e a n | None => Ok a end
      | BVCONSOLEACTION_PAUSE_DISCOVERY =>
          app_SendMessage a (MkBVMessage BVEVENTTYPE_DISCOVERY_REQUEST_PAUSE None)
      | BVCONSOLEACTION_RESUME_DISCOVERY =>
          app_SendMessage a (MkBVMessage BVEVENTTYPE_DISCOVERY_REQUEST_RESUME None)
      | BVCONSOLEACTION_QUIT =>
          let! a := app_SendMessage a (MkBVMessage BVEVENTTYPE_TERMINATE_ALL None) in
          Ok (StopIOContext (a_running a false))
      | BVCONSOLEACTION_BLOCKHOST => Ok a
      end
  end.

Definition OnKey (e : env) (a : App) (c : ascii) : result App :=
  match uiState a with
  | FileOffer => HandleFileOfferKey e a c
  | Chat => HandleChatKey e a c
  | MainMenu => HandleMainMenuKey e a c
  end.

Definition StartStdinRead (a : App) : App := a_armed a true.

(** [Run], up to the event loop. *)
Definition Run_start (e : env) (a : App) : result App :=
  let! a := Render ctime e (a_ui a MainMenu) in Ok (StartStdinRead a).

(** A key is read: nothing runs once the [ioContext] is stopped. *)
Definition key_read (e : env) (a : App) (c : ascii) : result App :=
  if (io_stopped a || negb (stdin_armed a))%bool then Ok a
  else
    let! a := OnKey e (a_armed a false) c in
    Ok (if app_isRunning a then StartStdinRead a else a).

(** The oldest posted action runs. *)
Definition run_posted (e : env) (a : App) : result App :=
  if io_stopped a then Ok a
  else
    match posted_q a with
    | [] => Ok a
    | Post_Message sender textData :: l =>
        let a := a_posted a l in
        if decide (uiState a = Chat /\ activeChatService a = sender)
        then RenderChat ctime e (a_notification a EmptyString)
        else Render ctime e (a_notification a ("New message from " +:+ sender +:+ ": " +:+ textData))
    | Post_Offer offer :: l =>
        let a := a_posted a l in
        let a := a_prior (a_offer a (Some offer)) (uiState a) in
        Ok (RenderFileOffer (a_ui a FileOffer))
    end.

(** ** Mailbox handlers *)

Definition find_service (l : list BVServiceBrowseInstance) (x : BVServiceBrowseInstance) : bool :=
  existsb (fun y => bi_eqb y x) l.

(** Append the new services that are not ours; collect them for resolving. *)
Fixpoint add_services (own : string) (news serviceV : list BVServiceBrowseInstance)
    : list BVServiceBrowseInstance * list BVServiceBrowseInstance :=
  match news with
  | [] => (serviceV, [])
  | x :: news =>
      if find_service serviceV x then add_services own news serviceV
      else if String.eqb (bi_serviceName x) own then add_services own news serviceV
      else let '(v, r) := add_services own news (serviceV ++ [x]) in (v, x :: r)
  end.

Fixpoint request_resolve (a : App) (l : list BVServiceBrowseInstance) : result App :=
  match l with
  | [] => Ok a
  | x :: l =>
      let! a := app_SendMessage a
        (MkBVMessage BVEVENTTYPE_DISCOVERY_REQUEST_RESOLVE (Some (any_BrowseInstance x))) in
      request_resolve a l
  end.

Definition HandlePublishedServices (dp : option any) (a : App) : result (BVStatus * App) :=
  match dp with
  | Some (any_BrowseList newServicesList) =>
      let '(v, toResolve) := add_services (sd_hostname (thisMachineServiceData (manager a)))
                               newServicesList (serviceV a) in
      let! a := request_resolve (a_services a v) toResolve in
      Ok (BVSTATUS_OK, PrintAll a)
  | _ => Ok (BVSTATUS_FATAL_ERROR, a)
  end.

(** Up to five attempts; the result of the last one otherwise. *)
Fixpoint resolve_attempts (tries attempt : nat) (hosttarget : string) (port : Z)
    (last : bool * nat) : bool * nat :=
  match tries with
  | O => last
  | S tries =>
      let '(ec, n) := resolve hosttarget port attempt in
      if (negb ec && negb (n =? 0)%nat)%bool then (ec, n)
      else resolve_attempts tries (S attempt) hosttarget port (ec, n)
  end.

(** Only an error with no endpoint is reported; [results.begin ()] is
    dereferenced otherwise. *)
Definition ResolveServiceToEndpoint (hosttarget serviceName : string) (port : Z) : result BVNode :=
  let '(ec, n) := resolve_attempts 5 0 hosttarget port (false, 0%nat) in
  if (ec && (n =? 0)%nat)%bool then Ok (with_name BVNode_default "ERROR")
  else if (n =? 0)%nat then Err NullDereference
  else Ok (BVNode_make serviceName hosttarget port).

(** A C string of a fixed array. *)
Definition c_str (l : list ascii) : result string :=
  let! s := from_option_err OutOfBounds (until_nul l) in Ok (str s).

Definition HandleResolvedServices (dp : option any) (a : App) : result (BVStatus * App) :=
  match dp with
  | Some (any_Resolution res) =>
      let! hosttarget := c_str (res_hosttarget res) in
      let! serviceName := c_str (res_serviceName res) in
      let! node := ResolveServiceToEndpoint hosttarget serviceName (res_port res) in
      if String.eqb (nd_serviceName node) "ERROR" then Ok (BVSTATUS_FATAL_ERROR, a)
      else
        match nodesM (manager a) !! serviceName with
        | Some _ => Ok (BVSTATUS_OK, a)
        | None =>
            let '(_, m) := AddNodeToNodesM (manager a) serviceName node in
            let! '(status, m) := InitiateSessionWithNode m node in
            Ok (status, a_manager a m)
        end
  | _ => Ok (BVSTATUS_FATAL_ERROR, a)
  end.

Fixpoint deregister (l : list BVServiceBrowseInstance) (a : App) : App :=
  match l with
  | [] => a
  | x :: l =>
      let v := filter (fun s => bi_serviceName s <> bi_serviceName x) (serviceV a) in
      let a' := a_services a v in
      if (length v <? length (serviceV a))%nat then
        let m := m_nodes (manager a') (delete (bi_serviceName x) (nodesM (manager a'))) in
        let '(_, m) := RemoveSession m (bi_serviceName x) in
        deregister l (a_manager a' m)
      else deregister l a'
  end.

Definition HandleServiceDeregistration (dp : option any) (a : App) : result (BVStatus * App) :=
  match dp with
  | Some (any_BrowseList newServicesList) => Ok (BVSTATUS_OK, PrintAll (deregister newServicesList a))
  | _ => Ok (BVSTATUS_FATAL_ERROR, a)
  end.

Definition post (a : App) (p : posted) : App := a_posted a (posted_q a ++ [p]).

Definition HandleMessageIncoming (dp : option any) (a : App) : result (BVStatus * App) :=
  match dp with
  | Some (any_ChatMessage res) =>
      let a := log_message a (cm_sender res) res in
      Ok (BVSTATUS_OK, post a (Post_Message (cm_sender res) (cm_textData res)))
  | _ => Ok (BVSTATUS_FATAL_ERROR, a)
  end.

(** "service|name", cut at the first NUL. *)
Definition HandleFileOffer (dp : option any) (a : App) : result (BVStatus * App) :=
  match dp with
  | Some (any_FileData res) =>
      let meta := match find_char NUL (fd_fdata res) with
                  | Some z => take z (fd_fdata res) | None => fd_fdata res end in
      let '(sender, fname) := match find_char "|" meta with
                              | Some bar => (take bar meta, drop (bar + 1) meta)
                              | None => (meta, []) end in
      let offer := MkPendingOffer (fd_correlationKey res) (str sender) (str fname) (fd_fsize res) in
      Ok (BVSTATUS_OK, post a (Post_Offer offer))
  | _ => Ok (BVSTATUS_OK, a)
  end.

(** Without a separator both parts are the whole text: [npos + 1] is 0. *)
Definition split_name (fdata : list ascii) : string * string :=
  match find_char "|" fdata with
  | Some bar => (str (take bar fdata), str (drop (bar + 1) fdata))
  | None => (str fdata, str fdata)
  end.

Definition HandleFileTransferBegin (dp : option any) (a : App) : result (BVStatus * App) :=
  match dp with
  | Some (any_FileData res) =>
      let '(serviceName, fname) := split_name (fd_fdata res) in
      let '(beginStatus, fs) := Begin (app_fs a) (rootdir a) serviceName fname in
      let a := set_fs a fs in
      if decide (beginStatus <> BVSTATUS_OK) then Ok (beginStatus, a)
      else
        let a := a_transfers a (<[ fd_correlationKey res := (serviceName, fname) ]> (fileTransferData a)) in
        Ok (BVSTATUS_OK, a_recv a 0)
  | _ => Ok (BVSTATUS_FATAL_ERROR, a)
  end.

Definition HandleFileChunkSent (dp : option any) (a : App) : result (BVStatus * App) :=
  match dp with
  | Some (any_FileData res) =>
      match fileTransferData a !! fd_correlationKey res with
      | None => Ok (BVSTATUS_FATAL_ERROR, a)
      | Some (serviceName, fname) =>
          let '(appendStatus, fs) := AppendChunk (app_fs a) (rootdir a) serviceName fname (fd_fdata res) in
          let a := set_fs a fs in
          if decide (appendStatus <> BVSTATUS_OK) then Ok (appendStatus, a)
          else
            let a := a_recv a (u64 (recvBytes a + Z.of_nat (length (fd_fdata res)))) in
            let pct := if fd_fsize res >? 0 then u32 (u64 (recvBytes a * 100) / fd_fsize res) else 0 in
            Ok (BVSTATUS_OK, print a [str [char_of 13]; "Receiving "; fname; ": "; pretty pct; "%  (";
                                      pretty (recvBytes a); " / "; pretty (fd_fsize res); " bytes)"])
      end
  | _ => Ok (BVSTATUS_FATAL_ERROR, a)
  end.

Definition HandleFileTransferEnd (dp : option any) (a : App) : result (BVStatus * App) :=
  match dp with
  | Some (any_FileData res) =>
      match fileTransferData a !! fd_correlationKey res with
      | None => Ok (BVSTATUS_FATAL_ERROR, a)
      | Some (serviceName, fname) =>
          let '(finishStatus, fs) := Finish (app_fs a) (rootdir a) serviceName fname (fd_fdata res)
                                       (Z.to_nat (fd_fsize res)) in
          let a := set_fs a fs in
          if decide (finishStatus <> BVSTATUS_OK) then Ok (finishStatus, a)
          else
            let a := print a [NL; "File saved: "; fname; " ("; pretty (fd_fsize res); " bytes)"; NL] in
            Ok (BVSTATUS_OK, a_transfers a (delete (fd_correlationKey res) (fileTransferData a)))
      end
  | _ => Ok (BVSTATUS_FATAL_ERROR, a)
  end.

Definition OnShutdown (dp : option any) (a : App) : result (BVStatus * App) :=
  Ok (BVSTATUS_OK, StopIOContext a).

(** A handler as the mailbox loop calls it: the mail store is the manager's. *)
Definition as_handler (f : option any -> App -> result (BVStatus * App)) : MessageHandler Q App :=
  fun data a m =>
    let! '(st, a) := f data (a_manager a (m_mail (manager a) m)) in
    Ok (st, a, mgr_mail (manager a)).

(** The handlers the constructor registers. *)
Definition console_component (base : BVComponent) : Component Q App :=
  let c := Component_make (outMailBox_p base) (inMailBox_p base) (comp_id base) in
  let c := RegisterCallback c BVEVENTTYPE_APP_PUBLISHED_SERVICE (as_handler HandlePublishedServices) in
  let c := RegisterCallback c BVEVENTTYPE_TERMINATE_ALL (as_handler OnShutdown) in
  let c := RegisterCallback c BVEVENTTYPE_APP_DISCOVERY_SERVICE_RESOLVED (as_handler HandleResolvedServices) in
  let c := RegisterCallback c BVEVENTTYPE_APP_DEREGISTERED_SERVICE (as_handler HandleServiceDeregistration) in
  let c := RegisterCallback c BVEVENTTYPE_APP_MESSAGE_INCOMING (as_handler HandleMessageIncoming) in
  let c := RegisterCallback c BVEVENTTYPE_APP_FILE_OFFER (as_handler HandleFileOffer) in
  let c := RegisterCallback c BVEVENTTYPE_APP_FILE_TRANSFER_BEGIN (as_handler HandleFileTransferBegin) in
  let c := RegisterCallback c BVEVENTTYPE_APP_FILE_TRANSFER_CHUNK_SENT (as_handler HandleFileChunkSent) in
  RegisterCallback c BVEVENTTYPE_APP_FILE_TRANSFER_END (as_handler HandleFileTransferEnd).

End Operations.

(** ** Receiving a file *)

Section FileHandlers.
Context (resolve : string -> Z -> nat -> bool * nat).

(** A transfer in progress: where its chunks go and what has been written. *)
Record receiving_file (a : App) (key : Z) (svc fname : string) (l : list ascii) : Prop := {
  rf_entry : fileTransferData a !! key = Some (svc, fname);
  rf_os : receivable (app_fs a) (rootdir a) svc fname;
  rf_file : files (app_fs a) !! PathFor (rootdir a) svc fname = Some l
}.

Lemma split_name_ok svc fname :
  "|"%char ∉ chars svc -> split_name (chars (svc +:+ "|" +:+ fname)) = (svc, fname).
Proof.
  intros Hn. unfold split_name. rewrite !chars_app. change (chars "|") with ["|"%char]. cbn [app].
  rewrite find_char_app by done. rewrite take_app_length.
  replace (length (chars svc) + 1)%nat with (length (chars svc ++ ["|"%char])) by (rewrite length_app; done).
  replace (chars svc ++ "|"%char :: chars fname) with ((chars svc ++ ["|"%char]) ++ chars fname)
    by by rewrite <- (assoc_L (++)).
  rewrite drop_app_length. by rewrite !str_chars.
Qed.

Lemma begin_event_ok a m key csize fsize svc fname :
  "|"%char ∉ chars svc -> receivable (app_fs a) (rootdir a) svc fname ->
  exists a', as_handler HandleFileTransferBegin
      (data_p (file_event BVEVENTTYPE_APP_FILE_TRANSFER_BEGIN key csize fsize
                 (chars (svc +:+ "|" +:+ fname)))) a m = Ok (BVSTATUS_OK, a', m) /\
    receiving_file a' key svc fname [] /\ rootdir a' = rootdir a.
Proof.
  intros Hn Hr. unfold as_handler, HandleFileTransferBegin, file_event. cbn [data_p fd_fdata fd_correlationKey].
  rewrite split_name_ok by done. cbn [a_manager app_fs rootdir]. rewrite (Begin_ok _ _ _ _ Hr).
  rewrite decide_False by tauto. cbn [mbind result_bind]. eexists. split; [reflexivity|]. split; [|done].
  split; cbn [a_recv a_transfers set_fs a_fs a_manager fileTransferData app_fs rootdir].
  - by rewrite lookup_insert_eq.
  - by apply receivable_set.
  - apply set_file_lookup.
Qed.

Lemma chunk_event_ok a m key csize fsize svc fname l data :
  receiving_file a key svc fname l ->
  exists a', as_handler HandleFileChunkSent
      (data_p (file_event BVEVENTTYPE_APP_FILE_TRANSFER_CHUNK_SENT key csize fsize data)) a m =
      Ok (BVSTATUS_OK, a', m) /\
    receiving_file a' key svc fname (l ++ data) /\ rootdir a' = rootdir a.
Proof.
  intros [He Hos Hl]. unfold as_handler, HandleFileChunkSent, file_event. cbn [data_p fd_fdata fd_correlationKey].
  cbn [a_manager fileTransferData app_fs rootdir]. rewrite He, (AppendChunk_ok _ _ _ _ l) by done.
  rewrite decide_False by tauto. cbn [mbind result_bind]. eexists. split; [reflexivity|]. split; [|done].
  split; cbn [print a_cout a_recv set_fs a_fs a_manager fileTransferData app_fs rootdir]; [done| |].
  - by apply receivable_set.
  - apply set_file_lookup.
Qed.

Lemma end_event_ok a m key csize fsize svc fname l data :
  receiving_file a key svc fname l -> (Z.to_nat fsize <= length (l ++ data))%nat ->
  exists a', as_handler HandleFileTransferEnd
      (data_p (file_event BVEVENTTYPE_APP_FILE_TRANSFER_END key csize fsize data)) a m =
      Ok (BVSTATUS_OK, a', m) /\ fileTransferData a' !! key = None /\
    files (app_fs a') !! PathFor (rootdir a) svc fname = Some (take (Z.to_nat fsize) (l ++ data)).
Proof.
  intros [He Hos Hl] Hlen. unfold as_handler, HandleFileTransferEnd, file_event.
  cbn [data_p fd_fdata fd_correlationKey fd_fsize].
  cbn [a_manager fileTransferData app_fs rootdir]. rewrite He.
  assert (Hfs : app_fs a = set_file (app_fs a) (PathFor (rootdir a) svc fname) l).
  { unfold set_file. rewrite insert_id by done. by destruct (app_fs a). }
  rewrite Hfs, Finish_ok by done. rewrite decide_False by tauto. cbn [mbind result_bind].
  eexists. split; [reflexivity|]. split.
  - cbn. by rewrite lookup_delete_eq.
  - cbn [print a_cout a_transfers set_fs a_fs a_manager app_fs].
    rewrite set_file_lookup. replace (_ - _)%nat with 0%nat by lia. by rewrite app_nil_r.
Qed.

(** The handler registered for each event of a transfer. *)
Lemma console_callbacks base :
  let c := console_component resolve base in
  callback_m c !! BVEVENTTYPE_APP_FILE_TRANSFER_BEGIN = Some (as_handler HandleFileTransferBegin) /\
  callback_m c !! BVEVENTTYPE_APP_FILE_TRANSFER_CHUNK_SENT = Some (as_handler HandleFileChunkSent) /\
  callback_m c !! BVEVENTTYPE_APP_FILE_TRANSFER_END = Some (as_handler HandleFileTransferEnd) /\
  callback_m c !! BVEVENTTYPE_APP_PUBLISHED_SERVICE = Some (as_handler HandlePublishedServices) /\
  callback_m c !! BVEVENTTYPE_APP_MESSAGE_INCOMING = Some (as_handler HandleMessageIncoming).
Proof.
  unfold console_component, RegisterCallback. cbn [callback_m].
  repeat split; repeat (rewrite lookup_insert_ne by done); apply lookup_insert_eq.
Qed.

End FileHandlers.

(** ** The interface as a state machine *)

Section UI.
Context (ctime : Z -> list ascii) (P : asio) (resolve : string -> Z -> nat -> bool * nat).

(** One event: a key, a posted action, or a message of the mailbox. *)
Inductive app_step (base : BVComponent) : App -> App -> Prop :=
  | as_key e c a a' : key_read ctime P e a c = Ok a' -> app_step base a a'
  | as_posted e a a' : run_posted ctime e a = Ok a' -> app_step base a a'
  | as_mail ev h data ml st a a' ml' :
      callback_m (console_component resolve base) !! ev = Some h ->
      h data a ml = Ok (st, a', ml') -> app_step base a a'.

(** What handlers of the mailbox leave alone. *)
Definition ui_same (a a' : App) : Prop :=
  uiState a' = uiState a /\ priorUiState a' = priorUiState a /\ app_isRunning a' = app_isRunning a.

Lemma ui_same_trans a b c : ui_same a b -> ui_same b c -> ui_same a c.
Proof. intros (? & ? & ?) (? & ? & ?). repeat split; congruence. Qed.

Lemma request_resolve_ui l : forall a a', request_resolve a l = Ok a' -> ui_same a a'.
Proof.
  induction l as [|x l IH]; cbn [request_resolve]; intros a a' Hf; [by injection Hf as <-|].
  unfold app_SendMessage in Hf. apply bind_ok in Hf as (a1 & H1 & Hf).
  apply bind_ok in H1 as (ml & _ & H1). injection H1 as <-. by apply IH in Hf.
Qed.

Lemma deregister_ui l : forall a, ui_same a (deregister l a).
Proof.
  induction l as [|x l IH]; cbn [deregister]; intros a; [done|]. destruct (_ <? _)%nat.
  - destruct (RemoveSession _ _) as [st m]. eapply ui_same_trans; [|apply IH]. done.
  - eapply ui_same_trans; [|apply IH]. done.
Qed.

(** A handler of the application that leaves the interface alone. *)
Definition ui_quiet (f : option any -> App -> result (BVStatus * App)) : Prop :=
  forall data a st a', f data a = Ok (st, a') -> ui_same a a'.

Lemma handlers_quiet :
  Forall ui_quiet [HandlePublishedServices; OnShutdown; HandleResolvedServices resolve;
    HandleServiceDeregistration; HandleMessageIncoming; HandleFileOffer; HandleFileTransferBegin;
    HandleFileChunkSent; HandleFileTransferEnd].
Proof.
  repeat (apply Forall_cons; split); try apply Forall_nil_2; intros data a st a' Hf.
  - destruct data as [[]|]; cbn in Hf; try by injection Hf as _ <-.
    destruct (add_services _ _ _) as [v r]. apply bind_ok in Hf as (a1 & H1 & Hf). injection Hf as _ <-.
    by apply request_resolve_ui in H1.
  - by injection Hf as _ <-.
  - unfold HandleResolvedServices in Hf. destruct data as [[]|]; ok_steps; done.
  - destruct data as [[]|]; cbn in Hf; injection Hf as _ <-; try done. apply deregister_ui.
  - destruct data as [[]|]; cbn in Hf; injection Hf as _ <-; done.
  - unfold HandleFileOffer in Hf. destruct data as [[]|]; ok_steps; done.
  - unfold HandleFileTransferBegin in Hf. destruct data as [[]|]; ok_steps; try done.
    all: match goal with Hx : (if decide ?P then _ else _) = _ |- _ => destruct (decide P) end; ok_steps; done.
  - unfold HandleFileChunkSent in Hf. destruct data as [[]|]; ok_steps; try done.
    all: match goal with Hx : (if decide ?P then _ else _) = _ |- _ => destruct (decide P) end; ok_steps; done.
  - unfold HandleFileTransferEnd in Hf. destruct data as [[]|]; ok_steps; try done.
    all: match goal with Hx : (if decide ?P then _ else _) = _ |- _ => destruct (decide P) end; ok_steps; done.
Qed.

Lemma console_callback_quiet base ev h data a ml st a' ml' :
  callback_m (console_component resolve base) !! ev = Some h ->
  h data a ml = Ok (st, a', ml') -> ui_same a a'.
Proof.
  intros Hh Hf.
  assert (Hq : exists f, h = as_handler f /\ ui_quiet f).
  { pose proof handlers_quiet as Hall. rewrite !Forall_cons in Hall.
    destruct Hall as (H1 & H2 & H3 & H4 & H5 & H6 & H7 & H8 & H9 & _).
    unfold console_component, RegisterCallback in Hh. cbn [callback_m] in Hh.
    repeat (apply lookup_insert_Some in Hh as [[_ <-]|[_ Hh]]; [by eexists|]).
    exfalso. apply (lookup_empty_Some (M := gmap BVEventType) ev h). exact Hh. }
  destruct Hq as (f & -> & Hq). unfold as_handler in Hf.
  apply bind_ok in Hf as ([st1 a1] & H1 & Hf). injection Hf as _ <- _.
  by apply Hq in H1.
Qed.

Lemma RenderChat_ui e a a' : RenderChat ctime e a = Ok a' -> ui_same a a'.
Proof. unfold RenderChat. intros Hf. ok_steps; done. Qed.

Lemma Render_ui e a a' : Render ctime e a = Ok a' -> ui_same a a'.
Proof.
  unfold Render. destruct (uiState a); intros Hf; [by injection Hf as <-|by apply RenderChat_ui in Hf|].
  injection Hf as <-. unfold RenderFileOffer. by destruct (pendingOffer a).
Qed.

(** The prompt that returns to itself. *)
Definition wedged (a : App) : Prop := uiState a = FileOffer /\ priorUiState a = FileOffer.

Lemma wedged_same a a' : ui_same a a' -> wedged a -> wedged a' /\ app_isRunning a' = app_isRunning a.
Proof. intros (Hu & Hp & Hr) [H1 H2]. repeat split; congruence. Qed.

Lemma offer_key_wedged e a c a' :
  wedged a -> HandleFileOfferKey ctime e a c = Ok a' ->
  wedged a' /\ app_isRunning a' = app_isRunning a.
Proof.
  intros [Hu Hp] Hf. unfold HandleFileOfferKey in Hf. destruct (pendingOffer a) as [o|].
  - destruct (Ascii.eqb (tolower c) "y"); [|destruct (Ascii.eqb (tolower c) "n")].
    3: by injection Hf as <-.
    all: apply bind_ok in Hf as (m & _ & Hf); cbn in Hf; rewrite decide_False in Hf by (rewrite Hp; tauto);
      injection Hf as <-; done.
  - apply Render_ui in Hf. by apply (wedged_same (a_ui a (priorUiState a))).
Qed.

Lemma posted_wedged e a a' :
  wedged a -> run_posted ctime e a = Ok a' -> wedged a' /\ app_isRunning a' = app_isRunning a.
Proof.
  intros Hw Hf. pose proof Hw as [Hu Hp]. unfold run_posted in Hf.
  destruct (io_stopped a); [by injection Hf as <-|].
  destruct (posted_q a) as [|[sender text|o] l]; [by injection Hf as <-| |].
  - case_decide.
    + apply RenderChat_ui in Hf. eapply wedged_same; [exact Hf|done].
    + apply Render_ui in Hf. eapply wedged_same; [exact Hf|done].
  - injection Hf as <-. unfold RenderFileOffer. cbn. split; [split; cbn; congruence|done].
Qed.

Lemma app_step_wedged base a a' :
  wedged a -> app_step base a a' -> wedged a' /\ app_isRunning a' = app_isRunning a.
Proof.
  intros Hw Hs. destruct Hs as [e c a a' Hf|e a a' Hf|ev h data ml st a a' ml' Hh Hf].
  - unfold key_read in Hf. destruct (_ || _)%bool; [by injection Hf as <-|].
    apply bind_ok in Hf as (a1 & H1 & Hf). unfold OnKey in H1. cbn [uiState a_armed] in H1.
    rewrite (proj1 Hw) in H1. apply offer_key_wedged in H1 as [Hw1 Hr1]; [|exact Hw].
    assert (Ha : a' = StartStdinRead a1 \/ a' = a1)
      by (destruct (app_isRunning a1); injection Hf as <-; auto).
    destruct Ha as [-> | ->]; split; done.
  - by eapply posted_wedged.
  - apply (wedged_same a); [|done]. by eapply console_callback_quiet.
Qed.

End UI.

(** ** Lemmas on the pure helpers *)

(** How a terminal writes a dragged-in path: spaces are escaped. *)
Definition escape (l : list ascii) : list ascii :=
  concat (map (fun c => if Ascii.eqb c " " then [BACKSLASH; c] else [c]) l).

Lemma escape_cons c l :
  escape (c :: l) = (if Ascii.eqb c " " then [BACKSLASH; c] else [c]) ++ escape l.
Proof. done. Qed.

Lemma head_escape l : (forall c, l !! 0%nat = Some c -> isSpace c = false) -> escape l !! 0%nat = l !! 0%nat.
Proof.
  intros Hh. destruct l as [|c l]; [done|]. specialize (Hh c eq_refl). rewrite escape_cons.
  unfold isSpace in Hh. apply orb_false_iff in Hh as [Hh _]. by rewrite Hh.
Qed.

Lemma unescape_escape l : unescape (escape l) = l.
Proof.
  induction l as [|c l IH]; [done|]. rewrite escape_cons. destruct (Ascii.eqb_spec c " ") as [->|Hne].
  - cbn [app]. cbn [unescape]. rewrite !Ascii.eqb_refl. cbn [andb].
    destruct (escape l) as [|x m] eqn:E; [rewrite <- IH; done|]. rewrite <- IH. done.
  - cbn [app]. destruct l as [|d l]; [done|]. rewrite escape_cons in *. cbn [unescape].
    destruct (Ascii.eqb_spec d " ") as [->|Hd]; cbn [app] in *.
    + replace (Ascii.eqb BACKSLASH " ") with false by done. rewrite andb_false_r. by rewrite IH.
    + replace (Ascii.eqb d " ") with false by (symmetry; by apply Ascii.eqb_neq).
      rewrite andb_false_r. by rewrite IH.
Qed.

Lemma trim_front_id l : (forall c, l !! 0%nat = Some c -> isSpace c = false) -> trim_front l = l.
Proof. intros Hh. destruct l as [|c l]; [done|]. cbn [trim_front]. by rewrite (Hh c eq_refl). Qed.

Lemma trim_front_app ws l : Forall (fun c => isSpace c = true) ws -> trim_front (ws ++ l) = trim_front l.
Proof. induction 1 as [|c ws Hc _ IH]; [done|]. cbn [app trim_front]. by rewrite Hc. Qed.

Lemma trim_back_app l ws :
  Forall (fun c => isSpace c = true) ws -> (forall c, last l = Some c -> isSpace c = false) ->
  trim_back (l ++ ws) = l.
Proof.
  intros Hws Hl. unfold trim_back. rewrite rev_app_distr, trim_front_app.
  - rewrite trim_front_id; [apply rev_involutive|]. intros c Hc. apply Hl.
    rewrite <- (rev_involutive l). destruct (rev l) as [|x m]; [done|]. cbn [rev]. injection Hc as ->.
    by rewrite last_snoc.
  - by apply List.Forall_rev.
Qed.

Lemma last_escape l : last (escape l) = last l.
Proof.
  induction l as [|c l IH] using rev_ind; [done|]. unfold escape. rewrite map_app, concat_app. cbn [map concat].
  rewrite app_nil_r, last_snoc. destruct (Ascii.eqb c " ").
  - change [BACKSLASH; c] with ([BACKSLASH] ++ [c]). by rewrite (assoc_L (++)), last_snoc.
  - by rewrite last_snoc.
Qed.

Lemma unquote_none l :
  (forall q, q = SQUOTE \/ q = DQUOTE -> ~ (l !! 0%nat = Some q /\ last l = Some q)) -> unquote l = l.
Proof.
  intros Hq. unfold unquote.
  assert (Hb : forall q, q = SQUOTE \/ q = DQUOTE ->
    (bool_decide (l !! 0%nat = Some q) && bool_decide (l !! (length l - 1)%nat = Some q))%bool = false).
  { intros q Hq'. apply not_true_iff_false. intros [H1 H2]%andb_true_iff.
    apply bool_decide_eq_true in H1, H2. apply (Hq q Hq'). split; [done|].
    rewrite last_lookup. by replace (Nat.pred (length l)) with (length l - 1)%nat by lia. }
  rewrite !Hb by auto. by rewrite andb_false_r.
Qed.

Lemma unquote_quoted q p : q = SQUOTE \/ q = DQUOTE -> unquote (q :: p ++ [q]) = p.
Proof.
  intros Hq. unfold unquote. cbn [length]. rewrite length_app. cbn [length].
  replace (S (length p + 1) - 1)%nat with (S (length p)) by lia.
  replace (S (length p + 1) - 2)%nat with (length p) by lia.
  assert (Hl : (q :: p ++ [q]) !! S (length p) = Some q).
  { by apply (list_lookup_middle (q :: p) [] q). }
  rewrite Hl. change ((q :: p ++ [q]) !! 0%nat) with (Some q).
  replace (2 <=? S (length p + 1))%nat with true by (symmetry; apply Nat.leb_le; lia).
  assert (Hb : (bool_decide (Some q = Some SQUOTE) && bool_decide (Some q = Some SQUOTE) ||
    bool_decide (Some q = Some DQUOTE) && bool_decide (Some q = Some DQUOTE))%bool = true).
  { destruct Hq as [-> | ->]; reflexivity. }
  rewrite Hb. cbn [andb drop]. apply take_app_length.
Qed.

Lemma print_lines_ok ctime t ms :
  (4 <= length (ctime t))%nat ->
  exists date, print_lines ctime t ms = Ok (map (fun m => (date, cm_sender m, cm_textData m)) ms).
Proof.
  intros Hc.
  assert (Hd : exists d, FormatDate (ctime t) = Ok d)
    by (unfold FormatDate; rewrite decide_False by lia; by eexists).
  destruct Hd as [d Hd]. exists d. induction ms as [|m ms IH]; [done|].
  cbn [print_lines map]. unfold print_line. rewrite Hd. cbn [mbind result_bind]. by rewrite IH.
Qed.

Lemma last_in_tail l m n : (0 < n)%nat -> exists pre, ReturnNLastMessages
    {| log_serviceName := l.1; logV := l.2 ++ [m] |} n = pre ++ [m].
Proof.
  intros Hn. unfold ReturnNLastMessages. cbn [logV]. rewrite length_app. cbn [length].
  eexists. rewrite drop_app_le; [done|]. lia.
Qed.

(** ** Lemmas on the services *)

Lemma find_service_spec l x : find_service l x = true <-> x ∈ l.
Proof.
  unfold find_service. rewrite existsb_exists. split.
  - intros (y & Hy & E%bi_eqb_spec). subst. by apply list_elem_of_In.
  - intros Hx. exists x. split; [by apply list_elem_of_In|by apply bi_eqb_spec].
Qed.

Lemma add_services_spec own news : forall v v' r,
  NoDup v -> add_services own news v = (v', r) ->
  v' = v ++ r /\ NoDup v' /\
  (forall x, x ∈ r <-> x ∈ news /\ bi_serviceName x <> own /\ x ∉ v).
Proof.
  induction news as [|y news IH]; cbn [add_services]; intros v v' r Hnd Ha.
  - injection Ha as <- <-. rewrite app_nil_r. split; [done|]. split; [done|]. set_solver.
  - destruct (find_service v y) eqn:Ef; [|destruct (String.eqb_spec (bi_serviceName y) own) as [Eo|Eo]].
    + apply find_service_spec in Ef. destruct (IH v v' r Hnd Ha) as (H1 & H2 & H3).
      split; [done|]. split; [done|]. intros x. rewrite H3. set_solver.
    + destruct (IH v v' r Hnd Ha) as (H1 & H2 & H3).
      split; [done|]. split; [done|]. intros x. rewrite H3, elem_of_cons. naive_solver.
    + assert (Hy : y ∉ v) by (intros Hy; apply find_service_spec in Hy; congruence).
      destruct (add_services own news (v ++ [y])) as [w s] eqn:E. injection Ha as <- <-.
      assert (Hnd' : NoDup (v ++ [y])) by (apply NoDup_app; split; [done|]; split; [set_solver|apply NoDup_singleton]).
      destruct (IH (v ++ [y]) w s Hnd' E) as (H1 & H2 & H3).
      split; [by rewrite H1, <- (assoc_L (++))|]. split; [done|]. intros x. rewrite !elem_of_cons, H3.
      rewrite elem_of_app, list_elem_of_singleton. split.
      * intros [->|(? & ? & Hn)]; [by split; [left|]|]. split; [by right|]. tauto.
      * intros ([->|Hx] & Hne & Hv); [by left|].
        destruct (bi_eqb x y) eqn:Exy; [left; by apply bi_eqb_spec|right].
        split; [done|]. split; [done|]. intros [?|Hxy]; [done|]. apply bi_eqb_spec in Hxy. congruence.
Qed.

End ConsoleClient.
Arguments App Q : clear implicits.

(** ** Properties *)

Section ConsoleProperties.
Context {Q : Type -> Type} `{FifoQueueLaws Q}.
Context (ctime : Z -> list ascii) (P : asio) (resolve : string -> Z -> nat -> bool * nat).

(** C32.  A second file offer that arrives while the first is being asked about
    replaces it unanswered and makes the prompt its own return state: from
    then on no key, message or posted action ever leaves the prompt, and no
    key can quit the program. *)
Theorem second_offer_wedges_ui base e (a : App Q) o1 o2 l :
  io_stopped a = false -> posted_q a = Post_Offer o1 :: Post_Offer o2 :: l ->
  exists a1 a2, run_posted ctime e a = Ok a1 /\ pendingOffer a1 = Some o1 /\
    run_posted ctime e a1 = Ok a2 /\ pendingOffer a2 = Some o2 /\
    forall a3, star (app_step ctime P resolve base) a2 a3 ->
      uiState a3 = FileOffer /\ app_isRunning a3 = app_isRunning a.
Proof.
  intros Hio Hq. unfold run_posted at 1. rewrite Hio, Hq.
  eexists _, _. split; [reflexivity|]. split; [done|]. set (a1 := RenderFileOffer _).
  assert (Hio1 : io_stopped a1 = false) by exact Hio.
  assert (Hq1 : posted_q a1 = Post_Offer o2 :: l) by reflexivity.
  unfold run_posted. rewrite Hio1, Hq1. split; [reflexivity|]. split; [done|]. intros a3 Hs.
  assert (Hi : wedged a3 /\ app_isRunning a3 = app_isRunning a); [|by destruct Hi as [[? ?] ?]].
  refine (star_invariant (app_step ctime P resolve base)
    (fun x => wedged x /\ app_isRunning x = app_isRunning a) _ _ _ _ Hs); [|split; [split|]; reflexivity].
  intros x y [Hw Hr] Hxy. apply app_step_wedged in Hxy as [Hw' Hr']; [|done]. split; [done|congruence].
Qed.

Lemma request_resolve_ok l : forall (b : App Q) q,
  mail_holds (mgr_mail (manager b)) (outMailBox_p (app_base b)) q ->
  exists b', request_resolve b l = Ok b' /\ serviceV b' = serviceV b /\
    manager b' = m_mail (manager b) (mgr_mail (manager b')) /\
    mail_holds (mgr_mail (manager b')) (outMailBox_p (app_base b)) (q ++
      map (fun x => MkBVMessage BVEVENTTYPE_DISCOVERY_REQUEST_RESOLVE (Some (any_BrowseInstance x))) l).
Proof.
  induction l as [|x l IH]; cbn [request_resolve map]; intros b q Hb.
  - rewrite app_nil_r. exists b. by destruct b as [[] ? ? ? ? ? ? ? ? ? ? ? ? ? ? ? ? ? ?].
  - destruct (push_msg_holds _ _ _ (MkBVMessage BVEVENTTYPE_DISCOVERY_REQUEST_RESOLVE
      (Some (any_BrowseInstance x))) Hb) as (ml & Hp & Hm & _).
    unfold app_SendMessage. rewrite Hp. cbn [mbind result_bind].
    destruct (IH (a_manager b (m_mail (manager b) ml)) _ Hm) as (b' & Hr & Hs & Hmg & Hb').
    exists b'. split; [done|]. split; [done|]. split; [exact Hmg|]. by rewrite <- (assoc_L (++)) in Hb'.
Qed.

(** The published services, as the handler leaves application and mail. *)
Lemma published_ok (a : App Q) m news q0 :
  NoDup (serviceV a) -> mail_holds m (outMailBox_p (app_base a)) q0 ->
  exists a' m' added,
    as_handler HandlePublishedServices (Some (any_BrowseList news)) a m = Ok (BVSTATUS_OK, a', m') /\
    serviceV a' = serviceV a ++ added /\ NoDup (serviceV a') /\
    (forall x, x ∈ added <-> x ∈ news /\
       bi_serviceName x <> sd_hostname (thisMachineServiceData (manager a)) /\ x ∉ serviceV a) /\
    mail_holds m' (outMailBox_p (app_base a)) (q0 ++
      map (fun x => MkBVMessage BVEVENTTYPE_DISCOVERY_REQUEST_RESOLVE (Some (any_BrowseInstance x))) added) /\
    manager a' = m_mail (manager a) m'.
Proof.
  intros Hnd Hq. unfold as_handler, HandlePublishedServices.
  destruct (add_services _ news _) as [v added] eqn:E.
  apply add_services_spec in E as (Hv & Hnd' & Hin); [|exact Hnd].
  destruct (request_resolve_ok added (a_services (a_manager a (m_mail (manager a) m)) v) q0 Hq) as (b & Hr & Hs & Hmg & Hb).
  rewrite Hr. cbn [mbind result_bind]. eexists _, _, added. split; [reflexivity|].
  cbn [PrintAll print a_cout serviceV manager]. rewrite Hs. cbn [a_services serviceV].
  split; [exact Hv|]. split; [exact Hnd'|]. split; [exact Hin|]. split; [exact Hb|exact Hmg].
Qed.

(** C31.  Published services: every reported service that is neither known nor
    our own is added once, duplicates in the report included, and for each
    added one exactly one resolve request goes to the broker, in order. *)
Theorem published_services_resolved_once (a : App Q) m news q0 :
  NoDup (serviceV a) -> mail_holds m (outMailBox_p (app_base a)) q0 ->
  exists a' m' added,
    as_handler HandlePublishedServices (Some (any_BrowseList news)) a m = Ok (BVSTATUS_OK, a', m') /\
    serviceV a' = serviceV a ++ added /\ NoDup (serviceV a') /\
    (forall x, x ∈ added <-> x ∈ news /\
       bi_serviceName x <> sd_hostname (thisMachineServiceData (manager a)) /\ x ∉ serviceV a) /\
    mail_holds m' (outMailBox_p (app_base a)) (q0 ++
      map (fun x => MkBVMessage BVEVENTTYPE_DISCOVERY_REQUEST_RESOLVE (Some (any_BrowseInstance x))) added).
Proof.
  intros Hnd Hq. destruct (published_ok a m news q0 Hnd Hq) as (a' & m' & added & H1 & H2 & H3 & H4 & H5 & _).
  by exists a', m', added.
Qed.

(** C40.  The mailbox thread dies on what a peer can cause: a [BEGIN] whose
    destination the operating system refuses, or a chunk or an end whose key
    names no transfer, is answered with an error status, and the loop turns
    that into an exception nobody catches, whatever mail is still waiting. *)
Theorem transfer_error_kills_mailbox base (a : App Q) m ev key csize fsize data l fuel :
  mail_holds m (inMailBox_p base) (file_event ev key csize fsize data :: l) ->
  (ev = BVEVENTTYPE_APP_FILE_TRANSFER_BEGIN /\
   (can_mkdir (app_fs a) (DirFor (rootdir a) (split_name data).1) = false \/
    can_open (app_fs a) (PathFor (rootdir a) (split_name data).1 (split_name data).2) = false)) \/
  ((ev = BVEVENTTYPE_APP_FILE_TRANSFER_CHUNK_SENT \/ ev = BVEVENTTYPE_APP_FILE_TRANSFER_END) /\
   fileTransferData a !! key = None) ->
  ListenToMail (S fuel) (SetIsListeningToMail (console_component resolve base) true) a m =
    Err Std_runtime_error.
Proof.
  intros Hm Hc.
  destruct (ListenToMail_next (SetIsListeningToMail (console_component resolve base) true) m _ l
    eq_refl Hm) as (m1 & _ & HL).
  destruct (console_callbacks resolve base) as (Hb & Hs & He & _).
  destruct Hc as [[-> Hr]|[[-> | ->] Hk]].
  - rewrite (HL _ a fuel Hb). unfold as_handler, HandleFileTransferBegin, file_event. cbn [data_p fd_fdata].
    destruct (split_name data) as [svc fname]. cbn [fst snd] in Hr. unfold Begin.
    cbn [a_manager app_fs rootdir].
    destruct (can_mkdir (app_fs a) (DirFor (rootdir a) svc)); cbn [negb]; [|done].
    destruct Hr as [Hr|Hr]; [done|]. by rewrite Hr.
  - rewrite (HL _ a fuel Hs). unfold as_handler, HandleFileChunkSent, file_event.
    cbn [data_p fd_correlationKey a_manager fileTransferData]. by rewrite Hk.
  - rewrite (HL _ a fuel He). unfold as_handler, HandleFileTransferEnd, file_event.
    cbn [data_p fd_correlationKey a_manager fileTransferData]. by rewrite Hk.
Qed.

(** A dragged-in path is understood however the terminal writes it: with
    its spaces escaped or in one pair of quotes, and with spaces around it,
    "|f " is followed by exactly the file's path. *)
Theorem dropped_path_recovered before after p :
  Forall (fun c => isSpace c = true) before -> Forall (fun c => isSpace c = true) after ->
  (forall c, p !! 0%nat = Some c -> isSpace c = false) ->
  (forall c, last p = Some c -> isSpace c = false) ->
  (forall q, q = SQUOTE \/ q = DQUOTE -> ~ (p !! 0%nat = Some q /\ last p = Some q)) ->
  file_argument (chars "|f " ++ before ++ escape p ++ after) = p /\
  (unescape p = p -> forall q, q = SQUOTE \/ q = DQUOTE ->
     file_argument (chars "|f " ++ before ++ (q :: p ++ [q]) ++ after) = p).
Proof.
  intros Hb Ha Hf Hl Hq. unfold file_argument. split.
  - change (drop 3 (chars "|f " ++ before ++ escape p ++ after)) with (before ++ escape p ++ after).
    rewrite trim_front_app by done. destruct p as [|c p'].
    { cbn [escape map concat app]. rewrite <- (app_nil_r after), trim_front_app by done. reflexivity. }
    rewrite trim_front_id.
    + rewrite trim_back_app by (rewrite ?last_escape; done). rewrite unquote_none; [apply unescape_escape|].
      intros q Hq'. rewrite head_escape, last_escape by done. by apply Hq.
    + intros x Hx. apply Hf. rewrite <- head_escape by done.
      by rewrite lookup_app_l in Hx by (rewrite escape_cons, length_app; destruct (Ascii.eqb c " "); cbn; lia).
  - intros Hu q Hq'. change (drop 3 (chars "|f " ++ before ++ (q :: p ++ [q]) ++ after))
      with (before ++ (q :: p ++ [q]) ++ after).
    assert (Hsp : isSpace q = false) by (destruct Hq' as [-> | ->]; reflexivity).
    rewrite trim_front_app, trim_front_id by (done || by intros x [= <-]).
    rewrite trim_back_app; [by rewrite unquote_quoted|done|].
    intros x. rewrite (app_comm_cons p [q] q), last_snoc. by intros [= <-].
Qed.

End ConsoleProperties.

Section IncomingMessages.
Context {Q : Type -> Type} `{FifoQueue Q}.
Context (ctime : Z -> list ascii).

(** The pieces occur, next to each other, in what is written. *)
Definition contains (pieces l : list string) : Prop := exists pre post, l = pre ++ pieces ++ post.

Lemma contains_here p post : contains p (p ++ post).
Proof. by exists [], post. Qed.

Lemma contains_r p l1 l2 : contains p l2 -> contains p (l1 ++ l2).
Proof. intros (pre & post & ->). exists (l1 ++ pre), post. by rewrite (assoc_L (++) l1). Qed.

Lemma contains_l p l1 l2 : contains p l1 -> contains p (l1 ++ l2).
Proof.
  intros (pre & post & ->). exists pre, (post ++ l2).
  by rewrite <- (assoc_L (++) pre), <- (assoc_L (++) p).
Qed.

(** What has been written to the console since. *)
Definition shown (a a' : App Q) (pieces : list string) : Prop :=
  exists more, cout a' = cout a ++ more /\ contains pieces more.

Lemma shown_earlier (a b c : App Q) pieces more :
  cout b = cout a ++ more -> shown b c pieces -> shown a c pieces.
Proof.
  intros Hb (more' & Hc & Hp). exists (more ++ more'). split; [|by apply contains_r].
  by rewrite Hc, Hb, <- (assoc_L (++)).
Qed.

Lemma shown_later (a b c : App Q) pieces more :
  shown a b pieces -> cout c = cout b ++ more -> shown a c pieces.
Proof.
  intros (more' & Hb & Hp) Hc. exists (more' ++ more). split; [|by apply contains_l].
  by rewrite Hc, Hb, <- (assoc_L (++)).
Qed.

Lemma PrintAll_notification (a : App Q) :
  lastNotification a <> EmptyString -> shown a (PrintAll a) [">> "; lastNotification a; NL].
Proof.
  intros Hn. exists (PrintAll_text a). split; [done|]. unfold PrintAll_text.
  replace (String.eqb (lastNotification a) EmptyString) with false by (symmetry; by apply String.eqb_neq).
  do 5 apply contains_r. apply contains_l.
  apply (contains_r _ ["-----------------------------"; NL]). exact (contains_here _ []).
Qed.

Lemma RenderChat_ok e (a : App Q) :
  (4 <= length (ctime (now e / 1000)%Z))%nat ->
  exists a' more, RenderChat ctime e a = Ok a' /\ cout a' = cout (PrintAll a) ++ more /\
    posted_q a' = posted_q a /\ chatLogsM a' = chatLogsM a /\
    forall log pre m, chatLogsM a !! activeChatService a = Some log -> logV log = pre ++ [m] ->
      exists date, contains [date; " ["; cm_sender m; "]: "; cm_textData m; NL] more.
Proof.
  intros Hc. unfold RenderChat. cbn [PrintAll print a_cout chatLogsM activeChatService].
  destruct (chatLogsM a !! activeChatService a) as [log|] eqn:El.
  - unfold PrintNLastMessages. destruct (print_lines_ok ctime (now e / 1000) (ReturnNLastMessages log TEN_LAST_MESSAGES) Hc)
      as [date Hp]. rewrite Hp. cbn [mbind result_bind]. eexists _, _. split; [reflexivity|].
    split; [unfold print; cbn [a_cout cout]; by rewrite <- (assoc_L (++))|].
    do 2 (split; [done|]). intros log' pre m [= <-] Hm.
    destruct (last_in_tail (log_serviceName log, pre) m TEN_LAST_MESSAGES) as [pre' Hl];
      [unfold TEN_LAST_MESSAGES; lia|]. cbn [fst snd] in Hl. rewrite <- Hm in Hl.
    replace {| log_serviceName := log_serviceName log; logV := logV log |} with log in Hl by by destruct log.
    exists (str date). apply contains_l, contains_r. unfold log_text. apply contains_r, contains_l.
    rewrite Hl, !map_app, concat_app. apply contains_r. exact (contains_here _ []).
  - cbn [mbind result_bind]. eexists _, _. split; [reflexivity|].
    split; [unfold print; cbn [a_cout cout]; by rewrite <- (assoc_L (++))|].
    do 2 (split; [done|]). done.
Qed.

(** What the posted action of a message shows. *)
Definition message_shown (a a2 : App Q) (res : BVChatMessage) : Prop :=
  let note := "New message from " +:+ cm_sender res +:+ ": " +:+ cm_textData res in
  match uiState a with
  | FileOffer => lastNotification a2 = note
  | Chat =>
      if decide (activeChatService a = cm_sender res)
      then exists date, shown a a2 [date; " ["; cm_sender res; "]: "; cm_textData res; NL]
      else shown a a2 [">> "; note; NL]
  | MainMenu => shown a a2 [">> "; note; NL]
  end.

Lemma posted_message_shown e (a : App Q) res log pre :
  (4 <= length (ctime (now e / 1000)%Z))%nat -> io_stopped a = false ->
  posted_q a = [Post_Message (cm_sender res) (cm_textData res)] ->
  chatLogsM a !! cm_sender res = Some log -> logV log = pre ++ [res] ->
  exists a2, run_posted ctime e a = Ok a2 /\ posted_q a2 = [] /\ chatLogsM a2 = chatLogsM a /\
    message_shown a a2 res.
Proof.
  intros Hc Hio Hq Hlog Hl. unfold run_posted, message_shown. rewrite Hio, Hq.
  set (note := "New message from " +:+ _). assert (Hn : note <> EmptyString) by done. clearbody note.
  change (activeChatService (a_posted a [])) with (activeChatService a).
  unfold Render. cbn [a_notification uiState]. change (uiState (a_posted a [])) with (uiState a).
  destruct (uiState a) eqn:Eu.
  - rewrite decide_False by (intros [? _]; done). eexists. split; [reflexivity|]. split; [done|]. split; [done|].
    by apply (PrintAll_notification (a_notification (a_posted a []) note)).
  - destruct (decide (activeChatService a = cm_sender res)) as [Es|Es].
    + rewrite decide_True by done.
      destruct (RenderChat_ok e (a_notification (a_posted a []) EmptyString) Hc)
        as (a2 & more & Hr & Hco & Hq2 & Hl2 & Hsh). exists a2. split; [exact Hr|]. split; [done|]. split; [done|].
      destruct (Hsh log pre res) as [date Hd]; [|done|].
      { cbn [a_notification a_posted chatLogsM activeChatService]. by rewrite Es. }
      exists date. eexists. split; [rewrite Hco; cbn [PrintAll print a_cout cout a_notification a_posted];
        rewrite <- (assoc_L (++)); reflexivity|]. by apply contains_r.
    + rewrite decide_False by (intros [_ ?]; done).
      destruct (RenderChat_ok e (a_notification (a_posted a []) note) Hc)
        as (a2 & more & Hr & Hco & Hq2 & Hl2 & _). exists a2. split; [exact Hr|]. split; [done|]. split; [done|].
      eapply shown_later; [|exact Hco].
      by apply (PrintAll_notification (a_notification (a_posted a []) note)).
  - rewrite decide_False by (intros [? _]; done). eexists. split; [reflexivity|].
    unfold RenderFileOffer. by destruct (pendingOffer _).
Qed.

(** An incoming chat message is logged under its sender, every other log
    unchanged, and, when its posted action runs, it is put on the screen
    without a key: as the last line of the open chat with that sender, or as
    a notification in the main menu and in any other chat; only the file
    offer prompt hides it. *)
Theorem incoming_message_logged_and_shown e (a : App Q) m res :
  (4 <= length (ctime (now e / 1000)%Z))%nat -> io_stopped a = false -> posted_q a = [] ->
  exists a1 a2 log, as_handler HandleMessageIncoming (Some (any_ChatMessage res)) a m = Ok (BVSTATUS_OK, a1, m) /\
    chatLogsM a1 = <[ cm_sender res := log ]> (chatLogsM a) /\
    logV log = default [] (logV <$> chatLogsM a !! cm_sender res) ++ [res] /\
    run_posted ctime e a1 = Ok a2 /\ posted_q a2 = [] /\ chatLogsM a2 = chatLogsM a1 /\
    message_shown a a2 res.
Proof.
  intros Hc Hio Hq.
  set (log := match chatLogsM a !! cm_sender res with
              | Some l => AddMessage l res | None => BVChatMessageLog_make (cm_sender res) res end).
  set (a1 := post (log_message (a_manager a (m_mail (manager a) m)) (cm_sender res) res)
    (Post_Message (cm_sender res) (cm_textData res))).
  assert (Hlogs : chatLogsM a1 = <[ cm_sender res := log ]> (chatLogsM a)).
  { unfold a1, log, log_message. cbn. by destruct (chatLogsM a !! cm_sender res). }
  assert (Hlog : logV log = default [] (logV <$> chatLogsM a !! cm_sender res) ++ [res]).
  { unfold log. by destruct (chatLogsM a !! cm_sender res). }
  destruct (posted_message_shown e a1 res log
    (default [] (logV <$> chatLogsM a !! cm_sender res)) Hc Hio) as (a2 & Hr & Hq2 & Hl2 & Hs);
    [|by rewrite Hlogs, lookup_insert_eq|exact Hlog|by exists a1, a2, log].
  unfold a1, post. cbn [a_posted posted_q log_message a_logs a_manager]. by rewrite Hq.
Qed.

End IncomingMessages.

(** ** Concrete instances *)

Section ConsoleWitnesses.

Definition ex_ctime (t : Z) : list ascii := chars "Wed Jun 30 21:49:08 1993" ++ [char_of 10].
Definition ex_resolve (host : string) (port : Z) (attempt : nat) : bool * nat := (false, 1%nat).

(** [ann]'s application; the broker's inbox and its own mailbox are queues
    0 and 1 of the store. *)
Definition ex_base : BVComponent := MkComponent 0 1 0.
Definition ex_store : mail threadsafe_queue := (make_box (make_box (Mail ∅ ∅)).2).2.
Definition ex_app : App threadsafe_queue := App_make (ex_machine "ann") ex_base ex_os "/srv".
Definition ex_offer (n : Z) : PendingOffer := MkPendingOffer n "bob" "x.txt" 12.

Lemma second_offer_wedges_ui_witness :
  exists a2 : App threadsafe_queue, uiState a2 = FileOffer /\ pendingOffer a2 = Some (ex_offer 2).
Proof.
  destruct (second_offer_wedges_ui ex_ctime ex_lazy ex_resolve ex_base ex_env
    (a_posted ex_app [Post_Offer (ex_offer 1); Post_Offer (ex_offer 2)]) (ex_offer 1) (ex_offer 2) []
    eq_refl eq_refl) as (a1 & a2 & _ & _ & _ & Ho & Hs).
  exists a2. split; [|exact Ho]. apply (Hs a2). apply star_refl.
Defined.

Lemma ex_store_holds q : q = 0%nat \/ q = 1%nat -> mail_holds ex_store q [].
Proof.
  intros Hq. exists []. split; [constructor|]. split; [|constructor].
  exists q_new. split; [destruct Hq as [-> | ->]; reflexivity|]. apply q_new_repr.
Qed.

Definition ex_service (name : string) : BVServiceBrowseInstance :=
  {| bi_serviceName := name; bi_regType := SERVICETYPE_STR; bi_replyDomain := "local." |}.

Lemma published_services_resolved_once_witness :
  exists (a' : App threadsafe_queue) m', as_handler HandlePublishedServices
      (Some (any_BrowseList [ex_service "ann"; ex_service "bob"; ex_service "bob"])) ex_app ex_store =
      Ok (BVSTATUS_OK, a', m') /\ NoDup (serviceV a') /\ ex_service "bob" ∈ serviceV a'.
Proof.
  destruct (published_services_resolved_once ex_app ex_store
    [ex_service "ann"; ex_service "bob"; ex_service "bob"] []) as (a' & m' & added & Ha & Hv & Hnd & Hin & _).
  - constructor.
  - apply ex_store_holds. by left.
  - exists a', m'. split; [exact Ha|]. split; [exact Hnd|]. rewrite Hv. apply Hin.
    split; [set_solver|]. split; [intros Hx; discriminate Hx|]. intros Hx. inversion Hx.
Defined.

Lemma transfer_error_kills_mailbox_witness :
  exists m, push_msg ex_store 1 (file_event BVEVENTTYPE_APP_FILE_TRANSFER_CHUNK_SENT 9 4 6 (chars "abcd")) = Ok m /\
    ListenToMail 3 (SetIsListeningToMail (console_component ex_resolve ex_base) true) ex_app m =
      Err Std_runtime_error.
Proof.
  destruct (push_msg_holds ex_store 1 []
    (file_event BVEVENTTYPE_APP_FILE_TRANSFER_CHUNK_SENT 9 4 6 (chars "abcd"))
    (ex_store_holds 1 (or_intror eq_refl))) as (m & Hp & Hm & _).
  exists m. split; [exact Hp|].
  apply (transfer_error_kills_mailbox ex_resolve ex_base ex_app m
    BVEVENTTYPE_APP_FILE_TRANSFER_CHUNK_SENT 9 4 6 (chars "abcd") [] 2 Hm).
  right. split; [by left|reflexivity].
Defined.

Lemma dropped_path_recovered_witness :
  file_argument (chars "|f /tmp/my\ file.txt ") = chars "/tmp/my file.txt" /\
  file_argument (chars "|f '/tmp/my file.txt' ") = chars "/tmp/my file.txt".
Proof.
  destruct (dropped_path_recovered [] (chars " ") (chars "/tmp/my file.txt")) as [H1 H2].
  - constructor.
  - repeat constructor.
  - by intros c [= <-].
  - by intros c [= <-].
  - intros q Hq [[= <-] _]. destruct Hq as [Hq|Hq]; discriminate Hq.
  - split; [exact H1|]. exact (H2 eq_refl SQUOTE (or_introl eq_refl)).
Defined.

Lemma incoming_message_logged_and_shown_witness :
  exists a1 a2 : App threadsafe_queue, as_handler HandleMessageIncoming
      (Some (any_ChatMessage {| cm_textData := "hi"; cm_sender := "bob"; cm_timestamp := 5 |})) ex_app ex_store =
      Ok (BVSTATUS_OK, a1, ex_store) /\
    run_posted ex_ctime ex_env a1 = Ok a2 /\ shown ex_app a2 [">> "; "New message from bob: hi"; NL].
Proof.
  destruct (incoming_message_logged_and_shown ex_ctime ex_env ex_app ex_store
    {| cm_textData := "hi"; cm_sender := "bob"; cm_timestamp := 5 |} ltac:(vm_compute; lia) eq_refl eq_refl)
    as (a1 & a2 & log & H1 & _ & _ & H2 & _ & _ & Hs).
  exists a1, a2. split; [exact H1|]. split; [exact H2|exact Hs].
Defined.

End ConsoleWitnesses.
