(* ===== verification/Peers.v ===== *)
(** * Two peers ([src/BVTCPSession.cpp], [include/BVTCPConnectionManager.hpp],
    [src/BVApp_ConsoleClient.cpp])

    The composition: two connection managers joined by a TCP connection that
    delivers what is sent, complete and in order, and what the handshake, a
    chat line and a file sent on one machine become on the other.  The
    connection is not part of the repository: a step moves the bytes one
    session has sent to the other session's received bytes. *)

From Stdlib Require Import ZArith Lia Ascii String.
From S2P Require Import Prelude TSQueue Common Broker Component Frames Session FileTransfer.
From S2P Require Import ReceivedFile ConnectionManager ConsoleClient.

Section Peers.
Context {Q : Type -> Type} `{FifoQueueLaws Q} (P : asio).

(** Two managers and the session each has for the connection. *)
Record net : Type := Net {
  left : Manager Q;
  lref : nat;
  right : Manager Q;
  rref : nat
}.

(** The session whose sent bytes have left. *)
Definition sent_off (s : BVTCPSession) : BVTCPSession :=
  set_sock s (Socket (rx (sock s)) [] (reads (sock s)) (writes (sock s))).

(** Either machine does something, or sent bytes arrive. *)
Inductive net_step : net -> net -> Prop :=
  | ns_left n m : mstep P (left n) m -> net_step n (Net m (lref n) (right n) (rref n))
  | ns_right n m : mstep P (right n) m -> net_step n (Net (left n) (lref n) m (rref n))
  | ns_to_right n sl sr :
      objs (left n) !! lref n = Some sl -> objs (right n) !! rref n = Some sr ->
      net_step n (Net (put_back (left n) (sent_off sl)) (lref n)
                    (put_back (right n) (receive sr (tx (sock sl)))) (rref n))
  | ns_to_left n sl sr :
      objs (left n) !! lref n = Some sl -> objs (right n) !! rref n = Some sr ->
      net_step n (Net (put_back (left n) (receive sl (tx (sock sr)))) (lref n)
                    (put_back (right n) (sent_off sr)) (rref n)).

(** ** The handshake, frame by frame *)

Definition fresh_session (ref : nat) (node : BVNode) (sid : Z) (name : string) (f c : Z) : BVTCPSession :=
  MkSession ref BVSESSIONSTATE_UNPREPARED None sid node false true
    (zeros MESSAGE_FRAME_SIZE_BYTES) MESSAGE_FRAME_SIZE_BYTES
    (Some (zeros MESSAGE_FRAME_SIZE_BYTES)) (zeros 1) f c 0 0 name (Socket [] [] [] []).

Lemma make_ok ref node sid name f c :
  BVTCPSession_make ref node sid name f c = Ok (fresh_session ref node sid name f c).
Proof. reflexivity. Qed.

Lemma fresh_writable ref node sid name f c : writable (fresh_session ref node sid name f c).
Proof. by split. Qed.

Lemma fresh_calm ref node sid name f c : calm P (fresh_session ref node sid name f c).
Proof. right. done. Qed.

Lemma fresh_buf ref node sid name f c :
  readBuf (fresh_session ref node sid name f c) = Some (zeros MESSAGE_FRAME_SIZE_BYTES) /\
  totalBytesRead (fresh_session ref node sid name f c) = 0%nat.
Proof. done. Qed.

(** The dialer's session once connected, the acceptor's once accepted. *)
Definition dialled (e : env) (m : Manager Q) (sid : Z) (node : BVNode) : BVTCPSession :=
  let s := fresh_session (fresh_obj m) node sid (thisName m) (heap32 e) (heap32 e) in
  reading (set_origin (set_state (set_inMailbox (set_nodeData s (with_id node (static_node_id m))) true)
    BVSESSIONSTATE_UNPREPARED) (Some BVSESSIONORIGIN_OUTGOING))
    (ReadOp FrameBuffer 0 MESSAGE_FRAME_SIZE_BYTES 0).

Definition hello_frame (e : env) : list ascii :=
  message_bytes (control_message e BVSESSIONCONTROLMESSAGETYPE_HELLO).

Definition accepted (e : env) (m : Manager Q) (sid : Z) : BVTCPSession :=
  let s := fresh_session (fresh_obj m) BVNode_default sid (thisName m) (heap32 e) (heap32 e) in
  reading (set_origin (writing P (set_state s BVSESSIONSTATE_UNPREPARED) (hello_frame e))
    (Some BVSESSIONORIGIN_INGOING)) (ReadOp FrameBuffer 0 MESSAGE_FRAME_SIZE_BYTES 0).

Lemma dial_ok e (m : Manager Q) sid node k :
  mgr_inv m -> connecting m !! k = Some (sid, node) -> nd_serviceName node ∉ session_names m ->
  exists m', ConnectHandler P e k false m = Ok m' /\ objs m' = <[ fresh_obj m := dialled e m sid node ]> (objs m) /\
    sessions_m m' = smap_insert sid (fresh_obj m) (sessions_m m) /\
    service_sessionid_m m' = <[ nd_serviceName node := sid ]> (service_sessionid_m m) /\ mgr_mail m' = mgr_mail m.
Proof.
  intros Hi Hc Hn. unfold ConnectHandler. rewrite Hc.
  destruct (IsSessionAlreadyPresent _ _) eqn:E; [by apply IsSessionAlreadyPresent_spec in E|].
  change (fresh_obj (m_connecting m (delete k (connecting m)))) with (fresh_obj m). change (thisName (m_connecting m (delete k (connecting m)))) with (thisName m).
  rewrite make_ok. unfold dialled. set (s0 := fresh_session _ _ _ _ _ _).
  pose proof (fresh_calm (fresh_obj m) node sid (thisName m) (heap32 e) (heap32 e)) as Hcm.
  destruct (fresh_buf (fresh_obj m) node sid (thisName m) (heap32 e) (heap32 e)) as [Hb Ht].
  assert (Hnd : nodeData s0 = node) by done. fold s0 in Hcm, Hb, Ht. clearbody s0. sess.
  rewrite StartCommunication_ok by apply Hi. sess. rewrite Hnd.
  unfold RequestReadingFrames. rewrite (StartReadingFrames_calm P _ (zeros MESSAGE_FRAME_SIZE_BYTES)); [|exact Hcm|exact Hb|exact Ht].
  sess. eexists. split; [reflexivity|]. done.
Qed.

Lemma accept_ok e (m : Manager Q) sid :
  accepting m = Some sid ->
  exists m', Accept_handler P e false m = Ok m' /\ objs m' = <[ fresh_obj m := accepted e m sid ]> (objs m) /\
    sessions_m m' = sessions_m m /\ service_sessionid_m m' = service_sessionid_m m /\ mgr_mail m' = mgr_mail m.
Proof.
  intros Ha. unfold Accept_handler. rewrite Ha.
  change (fresh_obj (m_accepting m None)) with (fresh_obj m). change (thisName (m_accepting m None)) with (thisName m).
  rewrite make_ok. unfold accepted. set (s0 := fresh_session _ _ _ _ _ _).
  pose proof (fresh_writable (fresh_obj m) BVNode_default sid (thisName m) (heap32 e) (heap32 e)) as Hw.
  pose proof (fresh_calm (fresh_obj m) BVNode_default sid (thisName m) (heap32 e) (heap32 e)) as Hc.
  destruct (fresh_buf (fresh_obj m) BVNode_default sid (thisName m) (heap32 e) (heap32 e)) as [Hb Ht].
  fold s0 in Hw, Hc, Hb, Ht. clearbody s0. sess. unfold hello_frame.
  rewrite WriteMessageFrame_ok; [|destruct Hw; by split|by apply length_zeros]. sess.
  unfold RequestReadingFrames. rewrite (StartReadingFrames_calm P _ (zeros MESSAGE_FRAME_SIZE_BYTES)); [|exact Hc|exact Hb|exact Ht].
  sess. eexists. split; [reflexivity|]. done.
Qed.


(** The callback's session: its frame in the buffer, nothing more received. *)
Definition holding (s : BVTCPSession) (frame : list ascii) : BVTCPSession :=
  set_read (set_sock (set_readBuf s (Some frame)) (with_reads (sock s) [] [])) 0.

Lemma control_frame_read e s (m : Manager Q) msg :
  listening s -> s_state s = BVSESSIONSTATE_UNPREPARED -> rx (sock s) = message_bytes msg ->
  header_ok (msg_header msg) -> length (msg_payload msg) = PAYLOAD_SIZE_BYTES ->
  complete_read P e s m =
    (let! '(s, m) := handle_unprepared P e (msg_header msg) (holding s (message_bytes msg)) m in
     let! '(s, m) := (if decide (s_state s <> BVSESSIONSTATE_CLOSED)
                      then let! s := ClearReadBuffer s in Ok (s, m) else Ok (s, m)) in
     Ok (Some (s, m))).
Proof.
  intros Hli Hst Hrx Hh Hp. rewrite <- (app_nil_r (message_bytes _)) in Hrx.
  rewrite (complete_read_frame P e s m _ [] Hli (length_message_frame _ Hp) Hrx).
  rewrite (ReadMessageFrameCallback_frame _ _ _ _ (message_bytes msg)) by (sess; done || apply Hli).
  rewrite GetMsgHeader_message by done. sess. rewrite Hst, decide_True by done.
  change (set_read (set_sock _ _) 0) with (holding s (message_bytes msg)).
  destruct (handle_unprepared P e (msg_header msg) (holding s (message_bytes msg)) m) as [[s1 m1]|]; [|done].
  sess. destruct (decide (s_state s1 <> BVSESSIONSTATE_CLOSED)); [|done].
  by destruct (ClearReadBuffer s1).
Qed.

Lemma confirm_handled e s (m : Manager Q) :
  listening s -> s_state s = BVSESSIONSTATE_UNPREPARED -> rx (sock s) = confirm_frame e ->
  exists s', complete_read P e s m = Ok (Some (s', m)) /\ same_id s s' /\ listening s' /\
    s_state s' = BVSESSIONSTATE_ESTABLISHED /\ rx (sock s') = [] /\ tx (sock s') = tx (sock s) /\
    (writable s -> writable s').
Proof.
  intros Hli Hst Hrx.
  destruct (control_message_ok e BVSESSIONCONTROLMESSAGETYPE_CONFIRM_ESTABLISHED) as [Hh Hp]; [done|].
  rewrite (control_frame_read e s m _ Hli Hst Hrx Hh Hp). unfold handle_unprepared.
  cbn [control_message ConstructMessage ConstructMessageHeader msg_header
    mh_msgType Z.eqb Pos.eqb BVSESSIONCONTROLMESSAGETYPE_HELLO BVSESSIONCONTROLMESSAGETYPE_HELLOBACK
    BVSESSIONCONTROLMESSAGETYPE_CONFIRM_ESTABLISHED]. sess.
  unfold OnReceiveConfirmEstablished. fold (confirm_frame e). set (h := holding s (confirm_frame e)).
  rewrite (StartReadingFrames_calm P _ (confirm_frame e)); [|right; split; reflexivity|reflexivity|reflexivity]. sess.
  rewrite decide_True by done. unfold reading. sess.
  erewrite ClearReadBuffer_ok; [|sess; reflexivity|by apply length_message_frame]. sess.
  eexists. split; [reflexivity|]. split; [by split|]. split; [|split; [done|split; [done|split; [done|]]]].
  - split; sess; [by eexists; split; [reflexivity|apply length_zeros]|done|done].
  - intros []. by split.
Qed.

Lemma read_payload_part msg n :
  (n <= length (msg_payload msg))%nat -> read_payload (message_bytes msg) n = Ok (take n (msg_payload msg)).
Proof.
  intros Hn. unfold read_payload, message_bytes. rewrite <- (take_drop n (msg_payload msg)) at 1.
  rewrite !(assoc_L (++)), <- (assoc_L (++) _ (take n _)).
  apply load_at; [by rewrite !length_app, !length_le_bytes|]. rewrite length_take. lia.
Qed.

(** A [HELLOBACK]: what the acceptor learns is the length's worth of the
    payload. *)
Lemma helloback_handled e name s (m : Manager Q) msg :
  listening s -> s_state s = BVSESSIONSTATE_UNPREPARED -> rx (sock s) = message_bytes msg ->
  header_ok (msg_header msg) -> length (msg_payload msg) = PAYLOAD_SIZE_BYTES ->
  mh_msgType (msg_header msg) = BVSESSIONCONTROLMESSAGETYPE_HELLOBACK ->
  0 <= mh_dataLen (msg_header msg) <= 128 ->
  name = str (take (Z.to_nat (mh_dataLen (msg_header msg))) (msg_payload msg)) ->
  objs m !! self s = Some s -> mgr_inv m -> writable s -> name ∉ session_names m -> no_endpoint e = false ->
  exists s' m', complete_read P e s m = Ok (Some (s', m')) /\ self s' = self s /\
    identified m (put_back m' s') s name /\
    s_state s' = BVSESSIONSTATE_ESTABLISHED /\ listening s' /\ rx (sock s') = [] /\
    tx (sock (complete_write P s')) = tx (sock s) ++ confirm_frame e /\ mgr_mail m' = mgr_mail m /\
    writable (complete_write P s').
Proof.
  intros Hli Hst Hrx Hh Hp Ht Hd Hname Ho Hi Hw Hn Hne.
  rewrite (control_frame_read e s m _ Hli Hst Hrx Hh Hp). unfold handle_unprepared. rewrite Ht.
  cbn [Z.eqb Pos.eqb BVSESSIONCONTROLMESSAGETYPE_HELLO BVSESSIONCONTROLMESSAGETYPE_HELLOBACK
    BVSESSIONCONTROLMESSAGETYPE_CONFIRM_ESTABLISHED]. sess.
  set (h := holding s (message_bytes msg)).
  assert (Hid : same_id s h) by by split.
  assert (Hbh : readBuf h = Some (message_bytes msg)) by done.
  assert (Hrd : reads (sock h) = [] /\ rx (sock h) = [] /\ tx (sock h) = tx (sock s)) by done.
  assert (Hwh : writable h) by (destruct Hw; by split). assert (Hth : totalBytesRead h = 0%nat) by done.
  clearbody h. destruct Hrd as (Hrd & Hrxh & Htx). pose proof Hid as [Hself Hsid Hnode].
  unfold OnReceiveHelloBackFrame, the_readBuf. rewrite Hbh. sess.
  rewrite GetMsgHeader_message by done. sess. rewrite Ht.
  cbn [Z.eqb Pos.eqb BVSESSIONCONTROLMESSAGETYPE_HELLOBACK negb].
  replace (128 <? mh_dataLen (msg_header msg)) with false by (symmetry; apply Z.ltb_ge; lia).
  rewrite read_payload_part by (rewrite Hp; unfold PAYLOAD_SIZE_BYTES; lia). sess. rewrite <- Hname.
  cbn [HandleSessionIdentification manager_interface].
  assert (Hih : mgr_inv (put_back m h)) by by apply (mgr_inv_put m (self s) s).
  destruct (identify_new P e name h m (message_bytes msg)) as
    (s1 & m1 & He & Ho1 & Hident & Hst1 & Hli1 & Hrx1 & Htx1 & Hwr1 & Hws1 & Htw1 & Hml & _);
    [done|by rewrite (names_put_back_id m h s) by (rewrite ?Hself; done)
    |done|by right|done|done|by apply length_message_frame|done|exact Hne|].
  rewrite He. sess. rewrite decide_True by (rewrite Hst1; done). pose proof Hli1 as [(buf & Hb1 & Hl1) Ht1 Hr1].
  rewrite (ClearReadBuffer_ok s1 buf Hb1 Hl1). sess.
  assert (Hself1 : self s1 = self h) by exact (proj2 (identify_inv _ _ _ _ _ _ _ Hih He)).
  eexists _, _. split; [reflexivity|]. sess. split; [congruence|]. split; [|split; [done|split]].
  - destruct Hident as (Hf & Hsv & Hnm & Hot & Hob & Hnd). rewrite Hself, Hsid in *.
    split; [done|]. split; [done|]. split; [|split; [done|split; [|done]]].
    2:{ intros r Hr. cbn [put_back m_objs objs self set_read set_readBuf]. by rewrite Hself1, lookup_insert_ne, Hob. }
    unfold session_name in *. cbn [put_back m_objs objs self set_read set_readBuf]. rewrite Hself1, lookup_insert_eq.
    by rewrite Ho1 in Hnm.
  - split; sess; [by eexists; split; [reflexivity|apply length_zeros]|done|done].
  - split; [congruence|]. rewrite (complete_writing P _ (eager_write P)); [|done|done|sess; by rewrite Hst1].
    assert (Hlc : length (confirm_frame e) = MESSAGE_FRAME_SIZE_BYTES) by apply length_message_frame, length_zeros.
    split; [|split; [done|split; [|done|done]]]; unfold ClearWriteBuffer; sess; rewrite Hws1;
      [|by rewrite length_app, length_zeros, length_drop, Hlc]. rewrite Htx1, Htx. rewrite <- (assoc_L (++)). f_equal.
    destruct (eager_write P); [by rewrite app_nil_r|].
    apply take_frame, length_message_frame, length_zeros.
Qed.

(** ** The managers during the handshake *)

(** The manager [m0] with the session [s] at [ref] and with the tables [l] and
    [sv]. *)
Record at_session (m0 : Manager Q) (l : list (Z * nat)) (sv : gmap string Z) (m : Manager Q) (ref : nat)
    (s : BVTCPSession) : Prop := {
  at_objs : objs m = <[ ref := s ]> (objs m0);
  at_sessions : sessions_m m = l;
  at_services : service_sessionid_m m = sv;
  at_mail : mgr_mail m = mgr_mail m0;
  at_self : self s = ref;
  at_inv : mgr_inv m
}.

Lemma at_lookup m0 l sv m ref s : at_session m0 l sv m ref s -> objs m !! ref = Some s.
Proof. intros [Ho _ _ _ _ _]. by rewrite Ho, lookup_insert_eq. Qed.

Lemma at_put m0 l sv m ref s s' : at_session m0 l sv m ref s -> same_id s s' -> at_session m0 l sv (put_back m s') ref s'.
Proof.
  intros Ha Hid. pose proof (at_lookup _ _ _ _ _ _ Ha) as Hl. destruct Ha as [Ho Hs Hv Hm Hse Hi].
  split; [|done|done|done| |by apply (mgr_inv_put m ref s)].
  - cbn [put_back m_objs objs]. rewrite Ho, (sm_self _ _ Hid), Hse. apply insert_insert_eq.
  - by rewrite (sm_self _ _ Hid).
Qed.

Lemma at_named m0 l sv m ref s name :
  at_session m0 l sv m ref s -> nd_serviceName (nodeData s) = name -> session_name m ref = Some name.
Proof. intros Ha <-. unfold session_name. by rewrite (at_lookup _ _ _ _ _ _ Ha). Qed.

Lemma read_step e m ref s s' m' :
  objs m !! ref = Some s -> complete_read P e s m = Ok (Some (s', m')) -> mstep P m (put_back m' s').
Proof.
  intros Ho Hc. apply (ms_readable P e ref). unfold on_readable. rewrite Ho. sess. rewrite Hc. done.
Qed.

(** A session no table mentions has no name. *)
Lemma names_unregistered (m0 m : Manager Q) sv ref s :
  mgr_inv m0 -> objs m0 !! ref = None -> at_session m0 (sessions_m m0) sv m ref s ->
  session_names m = session_names m0.
Proof.
  intros Hi Hn [Ho Hs _ _ _ _]. unfold session_names. rewrite Hs. apply omap_ext_in. intros [k r] Hin. cbn.
  unfold session_name. rewrite Ho, lookup_insert_ne; [done|]. intros <-.
  destruct (mi_ref m0 Hi k ref Hin) as (x & Hx & _). congruence.
Qed.

Lemma at_dialled e (m : Manager Q) sid node k :
  mgr_inv m -> connecting m !! k = Some (sid, node) -> nd_serviceName node ∉ session_names m ->
  exists m', mstep P m m' /\
    at_session m (smap_insert sid (fresh_obj m) (sessions_m m)) (<[ nd_serviceName node := sid ]> (service_sessionid_m m)) m' (fresh_obj m) (dialled e m sid node).
Proof.
  intros Hi Hc Hn. destruct (dial_ok e m sid node k Hi Hc Hn) as (m' & Hd & Ho & Hs & Hv & Hm).
  exists m'. split; [by eapply ms_connected|]. split; [done|done|done|done|done|].
  eapply mstep_inv; [exact Hi|by eapply ms_connected].
Qed.

Lemma at_accepted e (m : Manager Q) sid :
  mgr_inv m -> accepting m = Some sid ->
  exists m', mstep P m m' /\ at_session m (sessions_m m) (service_sessionid_m m) m' (fresh_obj m) (accepted e m sid).
Proof.
  intros Hi Ha. destruct (accept_ok e m sid Ha) as (m' & Hd & Ho & Hs & Hv & Hm).
  exists m'. split; [by eapply ms_accepted|]. split; [done|done|done|done|done|].
  eapply mstep_inv; [exact Hi|by eapply ms_accepted].
Qed.

Lemma dialled_ready e m sid node :
  let s := dialled e m sid node in
  listening s /\ writable s /\ s_state s = BVSESSIONSTATE_UNPREPARED /\ rx (sock s) = [] /\
  tx (sock s) = [] /\ thisMachineServiceName s = thisName m.
Proof.
  intros s. split; [|split; [by split|done]]. split; [|done|done].
  exists (zeros MESSAGE_FRAME_SIZE_BYTES). split; [done|apply length_zeros].
Qed.

(** What a completed write leaves of a session. *)
Lemma complete_write_keeps s :
  same_id s (complete_write P s) /\ (listening s -> listening (complete_write P s)) /\
  rx (sock (complete_write P s)) = rx (sock s).
Proof.
  split; [apply complete_write_same|]. unfold complete_write. destruct (writes (sock s)) as [|op ops]; [by split|].
  destruct (wo_kind op); cbn [WriteMessageFrameCallback WriteFileChunkCallback].
  - unfold WriteMessageFrameCallback. destruct (_ || _)%bool; [case_decide; by split; [intros []|]|].
    unfold async_write. destruct (_ && _)%bool; (split; [intros []; by split|done]).
  - split; [intros []; by split|done].
Qed.

Lemma complete_write_state s : s_state (complete_write P s) = s_state s.
Proof.
  unfold complete_write. destruct (writes (sock s)) as [|op ops]; [done|].
  destruct (wo_kind op); [|done]. unfold WriteMessageFrameCallback. destruct (_ || _)%bool; [by case_decide|].
  unfold async_write. by destruct (_ && _)%bool.
Qed.

Lemma accepted_written e m sid :
  let s := complete_write P (accepted e m sid) in
  tx (sock s) = hello_frame e /\ writable s /\ listening s /\ rx (sock s) = [] /\
  s_state s = BVSESSIONSTATE_UNPREPARED.
Proof.
  intros s. assert (Hf : length (hello_frame e) = MESSAGE_FRAME_SIZE_BYTES)
    by apply length_message_frame, length_zeros.
  unfold s, accepted. destruct (fresh_buf (fresh_obj m) BVNode_default sid (thisName m) (heap32 e) (heap32 e)) as [Hb Ht].
  set (f := hello_frame e) in *. clearbody f. set (s0 := fresh_session _ _ _ _ _ _) in *.
  assert (Hk : sock s0 = Socket [] [] [] []) by done. clearbody s0.
  rewrite (complete_writing P _ (eager_write P)); [|unfold reading, writing; sess; done|done|done].
  unfold ClearWriteBuffer, reading, writing. sess. rewrite Hk. cbn [tx rx reads app].
  split; [destruct (eager_write P); [by rewrite app_nil_r|by rewrite take_frame]|].
  split; [split; sess; [rewrite length_app, length_zeros, length_drop; lia|done|done]|].
  split; [|by split]. split; sess; [|done|done]. exists (zeros MESSAGE_FRAME_SIZE_BYTES).
  split; [done|apply length_zeros].
Qed.

(** The [HELLOBACK] as it reaches the acceptor: deferred, it has lost its
    length. *)
Definition wire_helloback (e : env) (name : string) : BVTCPMessage :=
  let msg := HELLOBACK_message e name in
  {| msg_header := {| mh_dataLen := if eager_write P then mh_dataLen (msg_header msg) else 0;
                      mh_timestamp := mh_timestamp (msg_header msg);
                      mh_msgType := mh_msgType (msg_header msg) |};
     msg_payload := msg_payload msg |}.

(** The name the acceptor gets to know. *)
Definition heard_name (name : string) : string := if eager_write P then name else EmptyString.

Lemma wire_helloback_ok e name :
  env_ok e -> (String.length name <= 128)%nat ->
  let f := message_bytes (HELLOBACK_message e name) in
  (if eager_write P then f else zap_first f) = message_bytes (wire_helloback e name) /\
  header_ok (msg_header (wire_helloback e name)) /\
  length (msg_payload (wire_helloback e name)) = PAYLOAD_SIZE_BYTES /\
  0 <= mh_dataLen (msg_header (wire_helloback e name)) <= 128 /\
  heard_name name = str (take (Z.to_nat (mh_dataLen (msg_header (wire_helloback e name))))
                          (msg_payload (wire_helloback e name))).
Proof.
  intros He Hn f. destruct (HELLOBACK_ok e name He Hn) as [[Hd Ht Hm] Hp].
  assert (Hlen : u8 (Z.of_nat (String.length name)) = Z.of_nat (String.length name)) by wrap_lia.
  unfold wire_helloback, heard_name. destruct (eager_write P) eqn:E; cbn [msg_header msg_payload mh_dataLen].
  - split; [done|]. split; [by split|]. split; [done|]. cbn [HELLOBACK_message msg_header mh_dataLen].
    rewrite Hlen. split; [lia|]. rewrite Nat2Z.id. cbn [HELLOBACK_message msg_payload].
    rewrite take_app_length' by by rewrite length_chars. by rewrite str_chars.
  - split; [done|]. split; [split; cbn; done|]. split; [done|]. split; [lia|done].
Qed.

Lemma receive_same s bytes : same_id s (receive s bytes).
Proof. by split. Qed.

Lemma sent_off_same s : same_id s (sent_off s).
Proof. by split. Qed.

Lemma sent_off_writable s : writable s -> writable (sent_off s).
Proof. intros []. by split. Qed.

Lemma sent_off_listening s : listening s -> listening (sent_off s).
Proof. intros []. by split. Qed.

(** What each machine does by itself. *)
Lemma star_left n m : star (mstep P) (left n) m -> star net_step n (Net m (lref n) (right n) (rref n)).
Proof.
  intros Hs. remember (left n) as m0 eqn:E. revert n E. induction Hs as [m|m1 m2 m3 Hm Hs IH]; intros n ->.
  - destruct n. apply star_refl.
  - eapply star_step; [by apply ns_left|]. exact (IH (Net m2 (lref n) (right n) (rref n)) eq_refl).
Qed.

Lemma star_right n m : star (mstep P) (right n) m -> star net_step n (Net (left n) (lref n) m (rref n)).
Proof.
  intros Hs. remember (right n) as m0 eqn:E. revert n E. induction Hs as [m|m1 m2 m3 Hm Hs IH]; intros n ->.
  - destruct n. apply star_refl.
  - eapply star_step; [by apply ns_right|]. exact (IH (Net (left n) (lref n) m2 (rref n)) eq_refl).
Qed.

Lemma dialer_ready e (m : Manager Q) sid node k :
  mgr_inv m -> connecting m !! k = Some (sid, node) -> nd_serviceName node ∉ session_names m ->
  exists m' s, star (mstep P) m m' /\
    at_session m (smap_insert sid (fresh_obj m) (sessions_m m)) (<[ nd_serviceName node := sid ]> (service_sessionid_m m)) m' (fresh_obj m) s /\
    same_id (dialled e m sid node) s /\ listening s /\ writable s /\ s_state s = BVSESSIONSTATE_UNPREPARED /\
    rx (sock s) = [] /\ tx (sock s) = [] /\ thisMachineServiceName s = thisName m.
Proof.
  intros Hi Hc Hn. destruct (at_dialled e m sid node k Hi Hc Hn) as (m1 & Hs & Hat).
  exists m1, (dialled e m sid node). split; [eapply star_step; [exact Hs|apply star_refl]|].
  split; [exact Hat|]. split; [reflexivity|apply dialled_ready].
Qed.

Lemma acceptor_ready e (m : Manager Q) sid :
  mgr_inv m -> accepting m = Some sid ->
  exists m' s, star (mstep P) m m' /\ at_session m (sessions_m m) (service_sessionid_m m) m' (fresh_obj m) s /\
    same_id (accepted e m sid) s /\ tx (sock s) = hello_frame e /\ writable s /\ listening s /\
    rx (sock s) = [] /\ s_state s = BVSESSIONSTATE_UNPREPARED.
Proof.
  intros Hi Ha. destruct (at_accepted e m sid Hi Ha) as (m1 & Hs & Hat).
  pose proof (complete_write_same P (accepted e m sid)) as Hid.
  exists (put_back m1 (complete_write P (accepted e m sid))), (complete_write P (accepted e m sid)).
  split; [|split; [exact (at_put _ _ _ _ _ _ _ Hat Hid)|split; [exact Hid|apply accepted_written]]].
  eapply star_step; [exact Hs|]. eapply star_step; [|apply star_refl].
  exact (ms_written P _ _ _ (at_lookup _ _ _ _ _ _ Hat)).
Qed.

(** The first half: both sides are connected, the acceptor has said [HELLO],
    the dialer has answered. *)
Lemma hello_exchanged e (mA mB : Manager Q) sidA nodeB k sidB :
  mgr_inv mA -> mgr_inv mB -> env_ok e -> (String.length (thisName mA) <= 128)%nat ->
  connecting mA !! k = Some (sidA, nodeB) -> nd_serviceName nodeB ∉ session_names mA ->
  accepting mB = Some sidB ->
  exists mA' mB' sA sB,
    star net_step (Net mA (fresh_obj mA) mB (fresh_obj mB)) (Net mA' (fresh_obj mA) mB' (fresh_obj mB)) /\
    at_session mA (smap_insert sidA (fresh_obj mA) (sessions_m mA))
      (<[ nd_serviceName nodeB := sidA ]> (service_sessionid_m mA)) mA' (fresh_obj mA) sA /\
    at_session mB (sessions_m mB) (service_sessionid_m mB) mB' (fresh_obj mB) sB /\
    same_id (dialled e mA sidA nodeB) sA /\ listening sA /\ rx (sock sA) = [] /\
    s_state sA = BVSESSIONSTATE_UNPREPARED /\
    tx (sock sA) = message_bytes (wire_helloback e (thisName mA)) /\ writable sA /\
    same_id (accepted e mB sidB) sB /\ listening sB /\ writable sB /\ rx (sock sB) = [] /\
    tx (sock sB) = [] /\ s_state sB = BVSESSIONSTATE_UNPREPARED.
Proof.
  intros HiA HiB He Hname Hc Hn Ha.
  destruct (dialer_ready e mA sidA nodeB k HiA Hc Hn)
    as (mA1 & sA0 & HA1 & HatA1 & HidA & HliA & HwA & HstA & HrxA & HtxA & HnmA).
  destruct (acceptor_ready e mB sidB HiB Ha) as (mB1 & sB & HB1 & HatB1 & HidB & Htx & Hw & Hli & Hrx & Hst).
  set (sA := receive sA0 (tx (sock sB))).
  assert (Hrcv : same_id sA0 sA /\ listening sA /\ s_state sA = BVSESSIONSTATE_UNPREPARED /\ writable sA /\
    thisMachineServiceName sA = thisName mA /\ rx (sock sA) = hello_frame e /\ tx (sock sA) = []).
  { split; [apply receive_same|]. split; [by apply receive_listening|]. split; [exact HstA|].
    split; [destruct HwA; by split|]. split; [exact HnmA|]. split; [|exact HtxA].
    unfold sA. cbn [receive set_sock sock with_reads rx]. by rewrite HrxA, Htx. }
  pose proof (ns_to_left (Net mA1 (fresh_obj mA) mB1 (fresh_obj mB)) sA0 sB
    (at_lookup _ _ _ _ _ _ HatA1) (at_lookup _ _ _ _ _ _ HatB1)) as Hcross.
  cbn [left right lref rref] in Hcross. fold sA in Hcross. clearbody sA.
  destruct Hrcv as (HidA' & HliA' & HstA' & HwA' & HnmA' & HrxA' & HtxA').
  pose proof (at_put _ _ _ _ _ _ _ HatA1 HidA') as HatA2.
  destruct (hello_handled P e sA (put_back mA1 sA))
    as (sA1 & Hr & HliA1 & HstA1 & HtxA1 & HwA1 & HrxA1 & Hs1 & Hs2 & Hs3);
    [exact HliA'|exact HstA'|exact HwA'|exact He|by rewrite HnmA'|exact HrxA'|].
  assert (HidA1 : same_id sA sA1) by by split.
  pose proof (at_put _ _ _ _ _ _ _ HatA2 HidA1) as HatA3.
  destruct (complete_write_keeps sA1) as (HidA2 & HliA2 & HrxA2).
  exists (put_back (put_back (put_back mA1 sA) sA1) (complete_write P sA1)), (put_back mB1 (sent_off sB)),
    (complete_write P sA1), (sent_off sB).
  split.
  { eapply star_trans; [exact (star_left (Net mA _ mB _) _ HA1)|].
    eapply star_trans; [exact (star_right (Net mA1 _ mB _) _ HB1)|].
    eapply star_step; [exact Hcross|]. apply (star_left (Net (put_back mA1 sA) _ _ _)).
    eapply star_step; [exact (read_step e _ _ _ _ _ (at_lookup _ _ _ _ _ _ HatA2) Hr)|].
    eapply star_step; [|apply star_refl]. exact (ms_written P _ _ _ (at_lookup _ _ _ _ _ _ HatA3)). }
  split; [exact (at_put _ _ _ _ _ _ _ HatA3 HidA2)|]. split; [exact (at_put _ _ _ _ _ _ _ HatB1 (sent_off_same sB))|].
  split; [etransitivity; [exact HidA|]; etransitivity; [exact HidA'|]; by etransitivity|].
  split; [by apply HliA2|]. split; [congruence|]. split; [by rewrite complete_write_state|].
  split; [rewrite HtxA1, HtxA', HnmA'; exact (proj1 (wire_helloback_ok e (thisName mA) He Hname))|].
  split; [exact HwA1|]. split; [etransitivity; [exact HidB|apply sent_off_same]|]. split; [by apply sent_off_listening|].
  split; [by apply sent_off_writable|]. split; [exact Hrx|]. split; [reflexivity|exact Hst].
Qed.

Lemma identified_put (m m' : Manager Q) caller name s s' :
  identified m m' caller name -> objs m' !! self caller = Some s -> self s = self caller -> same_id s s' ->
  identified m (put_back m' s') caller name.
Proof.
  intros (Hf & Hsv & Hnm & Hot & Hob & Hnd) Ho Hse [Hself _ Hnode].
  split; [exact Hf|]. split; [exact Hsv|]. split; [|split; [exact Hot|split; [|exact Hnd]]].
  - unfold session_name in *. cbn [put_back m_objs objs]. rewrite Ho in Hnm.
    rewrite Hself, Hse, lookup_insert_eq. cbn in *. congruence.
  - intros r Hr. cbn [put_back m_objs objs]. rewrite Hself, Hse, lookup_insert_ne by done. by apply Hob.
Qed.

Lemma identified_as (m0 m m' : Manager Q) ref s c0 c name :
  identified m m' c name -> at_session m0 (sessions_m m0) (service_sessionid_m m0) m ref s -> self c = ref -> same_id c0 c ->
  identified m0 m' c0 name.
Proof.
  intros (Hf & Hsv & Hnm & Hot & Hob & Hnd) [Ho Hs Hv _ _ _] Hr [Hself Hid _]. rewrite Hself, Hid, Hs, Hv in *.
  split; [done|]. split; [done|]. split; [done|]. split; [done|]. split; [|done].
  intros r Hne. rewrite <- Hself in *. rewrite Hob, Ho by done. apply lookup_insert_ne. congruence.
Qed.

(** The acceptor reads the dialer's answer and confirms. *)
Lemma acceptor_confirms e name (m0 m : Manager Q) sid s msg :
  mgr_inv m0 -> at_session m0 (sessions_m m0) (service_sessionid_m m0) m (fresh_obj m0) s -> same_id (accepted e m0 sid) s ->
  listening s -> writable s -> s_state s = BVSESSIONSTATE_UNPREPARED -> rx (sock s) = message_bytes msg ->
  tx (sock s) = [] ->
  header_ok (msg_header msg) -> length (msg_payload msg) = PAYLOAD_SIZE_BYTES ->
  mh_msgType (msg_header msg) = BVSESSIONCONTROLMESSAGETYPE_HELLOBACK ->
  0 <= mh_dataLen (msg_header msg) <= 128 ->
  name = str (take (Z.to_nat (mh_dataLen (msg_header msg))) (msg_payload msg)) ->
  name ∉ session_names m0 -> no_endpoint e = false ->
  exists m' s', star (mstep P) m m' /\ objs m' !! fresh_obj m0 = Some s' /\ self s' = fresh_obj m0 /\
    s_state s' = BVSESSIONSTATE_ESTABLISHED /\ listening s' /\ tx (sock s') = confirm_frame e /\
    identified m0 m' (accepted e m0 sid) name /\ rx (sock s') = [] /\ writable s' /\
    mgr_mail m' = mgr_mail m0.
Proof.
  intros Hi0 Hat Hid Hli Hw Hst Hrx Htx Hh Hp Ht Hd Hname Hn Hne.
  pose proof (at_lookup _ _ _ _ _ _ Hat) as Ho.
  pose proof (names_unregistered m0 m _ _ s Hi0 (fresh_obj_lookup m0) Hat) as Hnames.
  pose proof (at_sessions _ _ _ _ _ _ Hat) as Hs. pose proof (at_self _ _ _ _ _ _ Hat) as Hself.
  destruct (helloback_handled e name s m msg) as (s1 & m1 & Hr & Hs1 & Hident & Hst1 & Hli1 & Hrx1 & Htx1 & Hml1 & Hw1);
    [exact Hli|exact Hst|exact Hrx|exact Hh|exact Hp|exact Ht|exact Hd|exact Hname|by rewrite Hself
    |apply (at_inv _ _ _ _ _ _ Hat)|exact Hw|by rewrite Hnames|exact Hne|].
  assert (Ho1 : objs (put_back m1 s1) !! self s = Some s1).
  { cbn [put_back m_objs objs]. by rewrite Hs1, lookup_insert_eq. }
  destruct (complete_write_keeps s1) as ([Hse Hsi Hnd] & Hli2 & Hrx2).
  exists (put_back (put_back m1 s1) (complete_write P s1)), (complete_write P s1).
  split; [|split; [|split; [congruence|split; [rewrite complete_write_state; exact Hst1|split; [by apply Hli2|split; [|split]]]]]].
  - eapply star_step; [exact (read_step e _ _ _ _ _ Ho Hr)|]. eapply star_step; [|apply star_refl].
    exact (ms_written P _ _ _ Ho1).
  - cbn [put_back m_objs objs]. rewrite Hse, Hs1, Hself. apply lookup_insert_eq.
  - by rewrite Htx1, Htx.
  - eapply identified_as; [|exact Hat|exact Hself|exact Hid]. eapply identified_put; [exact Hident|exact Ho1|exact Hs1|by split].
  - split; [congruence|]. split; [exact Hw1|]. cbn. by rewrite Hml1, (at_mail _ _ _ _ _ _ Hat).
Qed.

(** The dialer reads the acceptor's confirmation. *)
Lemma dialer_confirmed e m0 l sv m ref s :
  at_session m0 l sv m ref s -> listening s -> s_state s = BVSESSIONSTATE_UNPREPARED -> rx (sock s) = [] ->
  exists m' s', mstep P (put_back m (receive s (confirm_frame e))) m' /\ at_session m0 l sv m' ref s' /\
    same_id s s' /\ listening s' /\ s_state s' = BVSESSIONSTATE_ESTABLISHED /\ rx (sock s') = [] /\
    tx (sock s') = tx (sock s) /\ (writable s -> writable s').
Proof.
  intros Hat Hli Hst Hrx. set (s1 := receive s (confirm_frame e)).
  pose proof (at_put _ _ _ _ _ _ _ Hat (receive_same s (confirm_frame e))) as Hat1. fold s1 in Hat1.
  assert (Hrx1 : rx (sock s1) = confirm_frame e).
  { unfold s1. cbn [receive set_sock sock with_reads rx]. by rewrite Hrx. }
  destruct (confirm_handled e s1 (put_back m s1)) as (s2 & Hr & Hid & Hli2 & Hst2 & Hrx2 & Htx2 & Hw2);
    [by apply receive_listening|exact Hst|exact Hrx1|].
  exists (put_back (put_back m s1) s2), s2.
  split; [exact (read_step e _ _ _ _ _ (at_lookup _ _ _ _ _ _ Hat1) Hr)|].
  split; [exact (at_put _ _ _ _ _ _ _ Hat1 Hid)|]. split; [etransitivity; [apply receive_same|exact Hid]|].
  repeat (split; [done|]). intros []. apply Hw2. by split.
Qed.

(** Both sessions after the handshake. *)
Record shaken (e : env) (mA mB : Manager Q) (sidA : Z) (nodeB : BVNode) (sidB : Z) (mA' mB' : Manager Q)
    (sA sB : BVTCPSession) : Prop := {
  sh_dialer : at_session mA (smap_insert sidA (fresh_obj mA) (sessions_m mA))
    (<[ nd_serviceName nodeB := sidA ]> (service_sessionid_m mA)) mA' (fresh_obj mA) sA;
  sh_dialled : same_id (dialled e mA sidA nodeB) sA;
  sh_ready_A : s_state sA = BVSESSIONSTATE_ESTABLISHED /\ listening sA /\ writable sA;
  sh_quiet_A : rx (sock sA) = [] /\ tx (sock sA) = [];
  sh_acceptor : objs mB' !! fresh_obj mB = Some sB /\ self sB = fresh_obj mB /\ mgr_mail mB' = mgr_mail mB;
  sh_identified : identified mB mB' (accepted e mB sidB) (heard_name (thisName mA));
  sh_ready_B : s_state sB = BVSESSIONSTATE_ESTABLISHED /\ listening sB /\ writable sB;
  sh_quiet_B : rx (sock sB) = [] /\ tx (sock sB) = []
}.

Lemma handshake_run e (mA mB : Manager Q) sidA nodeB k sidB :
  mgr_inv mA -> mgr_inv mB -> env_ok e -> (String.length (thisName mA) <= 128)%nat ->
  connecting mA !! k = Some (sidA, nodeB) -> nd_serviceName nodeB ∉ session_names mA ->
  accepting mB = Some sidB -> heard_name (thisName mA) ∉ session_names mB ->
  exists mA' mB' sA sB, shaken e mA mB sidA nodeB sidB mA' mB' sA sB /\
    star net_step (Net mA (fresh_obj mA) mB (fresh_obj mB)) (Net mA' (fresh_obj mA) mB' (fresh_obj mB)).
Proof.
  intros HiA HiB He Hname Hc Hn Ha Hfresh.
  destruct (hello_exchanged e mA mB sidA nodeB k sidB HiA HiB He Hname Hc Hn Ha)
    as (mA1 & mB1 & sA & sB & Hstar & HatA & HatB & HidA & HliA & HrxA & HstA & HtxA & HwA & HidB & HliB &
        HwB & HrxB & HtxB & HstB).
  destruct (wire_helloback_ok e (thisName mA) He Hname) as (_ & Hho & Hpl & Hdl & Hheard).
  set (sB1 := receive sB (tx (sock sA))).
  assert (Hrcv : same_id sB sB1 /\ listening sB1 /\ writable sB1 /\ s_state sB1 = BVSESSIONSTATE_UNPREPARED /\
    rx (sock sB1) = message_bytes (wire_helloback e (thisName mA)) /\ tx (sock sB1) = []).
  { split; [apply receive_same|]. split; [by apply receive_listening|]. split; [destruct HwB; by split|].
    split; [exact HstB|]. split; [|exact HtxB]. unfold sB1. cbn [receive set_sock sock with_reads rx].
    by rewrite HrxB, HtxA. }
  pose proof (ns_to_right (Net mA1 (fresh_obj mA) mB1 (fresh_obj mB)) sA sB
    (at_lookup _ _ _ _ _ _ HatA) (at_lookup _ _ _ _ _ _ HatB)) as Hcross.
  cbn [left right lref rref] in Hcross. fold sB1 in Hcross. clearbody sB1.
  destruct Hrcv as (HidB1 & HliB1 & HwB1 & HstB1 & HrxB1 & HtxB1).
  pose proof (at_put _ _ _ _ _ _ _ HatB HidB1) as HatB1.
  destruct (acceptor_confirms e (heard_name (thisName mA)) mB (put_back mB1 sB1) sidB sB1
    (wire_helloback e (thisName mA))) as
    (mB2 & sB2 & HB & HoB & HsB & HstB2 & HliB2 & HtxB2 & Hident & HrxB2 & HwB2 & HmlB);
    [exact HiB|exact HatB1|by etransitivity|exact HliB1|exact HwB1|exact HstB1|exact HrxB1|exact HtxB1
    |exact Hho|exact Hpl|reflexivity|exact Hdl|exact Hheard|exact Hfresh|exact (eo_endpoint e He)|].
  pose proof (at_put _ _ _ _ _ _ _ HatA (sent_off_same sA)) as HatA1.
  destruct (dialer_confirmed e _ _ _ _ _ _ HatA1) as (mA2 & sA2 & Hr & HatA2 & HidA2 & HliA2 & HstA2 & HrxA2 & HtxA2 & HwA2);
    [by apply sent_off_listening|exact HstA|exact HrxA|].
  exists mA2, (put_back mB2 (sent_off sB2)), sA2, (sent_off sB2). split.
  { split; [exact HatA2|by etransitivity; [exact HidA|]; etransitivity; [apply sent_off_same|]| | | | | |].
    - split; [exact HstA2|]. split; [exact HliA2|]. by apply HwA2, sent_off_writable.
    - by rewrite HtxA2.
    - split; [|split; [exact HsB|exact HmlB]].
      cbn [put_back m_objs objs]. rewrite (sm_self _ _ (sent_off_same sB2)), HsB. apply lookup_insert_eq.
    - eapply identified_put; [exact Hident|exact HoB|exact HsB|apply sent_off_same].
    - split; [exact HstB2|]. split; [by apply sent_off_listening|by apply sent_off_writable].
    - by split. }
  eapply star_trans; [exact Hstar|]. eapply star_step; [exact Hcross|].
  eapply star_trans; [exact (star_right (Net (put_back mA1 (sent_off sA)) _ (put_back mB1 sB1) _) _ HB)|].
  eapply star_step; [exact (ns_to_left (Net _ _ mB2 _) _ sB2 (at_lookup _ _ _ _ _ _ HatA1) HoB)|].
  cbn [left right lref rref]. rewrite HtxB2.
  eapply star_step; [|apply star_refl]. exact (ns_left (Net _ _ _ _) _ Hr).
Qed.

(** C6.  The handshake completes, as long as the connection holds: once one
    machine has dialled and the other accepted, the frames [HELLO], [HELLOBACK] and [CONFIRM_ESTABLISHED] cross
    the connection and both sessions are established and listening, each
    manager with the session in its table.  The dialer knows the service it
    dialled; the acceptor knows the dialer's name if the connection takes a
    write at once, and an empty name if the write is deferred. *)
Theorem handshake_completes e (mA mB : Manager Q) sidA nodeB k sidB :
  mgr_inv mA -> mgr_inv mB -> env_ok e -> (String.length (thisName mA) <= 128)%nat ->
  connecting mA !! k = Some (sidA, nodeB) -> nd_serviceName nodeB ∉ session_names mA ->
  accepting mB = Some sidB -> heard_name (thisName mA) ∉ session_names mB ->
  exists n sA sB,
    star net_step (Net mA (fresh_obj mA) mB (fresh_obj mB)) n /\
    objs (left n) !! lref n = Some sA /\ s_state sA = BVSESSIONSTATE_ESTABLISHED /\ listening sA /\
    smap_find sidA (sessions_m (left n)) = Some (lref n) /\
    session_name (left n) (lref n) = Some (nd_serviceName nodeB) /\
    objs (right n) !! rref n = Some sB /\ s_state sB = BVSESSIONSTATE_ESTABLISHED /\ listening sB /\
    identified mB (right n) (accepted e mB sidB) (heard_name (thisName mA)).
Proof.
  intros HiA HiB He Hname Hc Hn Ha Hfresh.
  destruct (handshake_run e mA mB sidA nodeB k sidB HiA HiB He Hname Hc Hn Ha Hfresh)
    as (mA' & mB' & sA & sB & [Hat Hid (HstA & HliA & _) _ (HoB & _) Hident (HstB & HliB & _) _] & Hs).
  exists (Net mA' (fresh_obj mA) mB' (fresh_obj mB)), sA, sB. cbn [left right lref rref].
  split; [exact Hs|]. split; [exact (at_lookup _ _ _ _ _ _ Hat)|]. split; [exact HstA|]. split; [exact HliA|].
  split; [rewrite (at_sessions _ _ _ _ _ _ Hat); apply smap_find_insert|].
  split; [apply (at_named _ _ _ _ _ _ _ Hat); by rewrite (sm_node _ _ Hid)|]. by split_and!.
Qed.

(** ** A chat line *)

(** A printable line makes a chat frame that is no file frame. *)
Lemma typed_chat_ok t line :
  Forall (fun c => isprint c = true) line -> chat_ok (ConstructChatMessageFromInput t line).
Proof.
  intros Hp. assert (Hn : (Nat.min (length line) 128 <= 128)%nat) by lia.
  unfold ConstructChatMessageFromInput. split; cbn [msg_header msg_payload mh_dataLen mh_timestamp mh_msgType].
  - split; cbn; [wrap_lia|wrap_lia|done].
  - rewrite length_app, length_take, length_zeros. unfold PAYLOAD_SIZE_BYTES. lia.
  - done.
  - wrap_lia.
  - unfold file_type_of. cbn [msg_payload]. destruct (_ !! 2%nat) as [c|] eqn:E; [|done]. cbn.
    apply lookup_app_Some in E as [E|[_ E]].
    + rewrite lookup_take_Some in E. destruct E as [E _]. apply (Forall_lookup_1 _ _ _ _ Hp) in E.
      unfold isprint in E. apply andb_prop in E as [E _]. apply Z.leb_le in E. unfold is_file_type,
        BVSESSIONREGULARMESSAGETYPE_FILE_TRANSFER_BEGIN, BVSESSIONREGULARMESSAGETYPE_FILE_OFFER,
        BVSESSIONREGULARMESSAGETYPE_FILE_ACCEPT, BVSESSIONREGULARMESSAGETYPE_FILE_REJECT.
      rewrite !orb_false_iff, !Z.eqb_neq. lia.
    + apply lookup_replicate in E as [-> _]. reflexivity.
Qed.

Lemma typed_chat_event t line sender :
  0 <= t < 2 ^ 64 ->
  chat_event sender (ConstructChatMessageFromInput t line) =
    MkBVMessage BVEVENTTYPE_APP_MESSAGE_INCOMING (Some (any_ChatMessage
      {| cm_textData := str (take 128 line); cm_sender := sender; cm_timestamp := t |})).
Proof.
  intros Ht. unfold chat_event, ConstructChatMessageFromInput. cbn [msg_header msg_payload mh_dataLen mh_timestamp].
  replace (u64 t) with t by wrap_lia.
  replace (Z.to_nat (u8 (Z.of_nat (Nat.min (length line) 128)))) with (Nat.min (length line) 128)
    by (rewrite (wrap_small 8) by lia; lia).
  rewrite take_app_length' by (rewrite length_take; lia).
  destruct (decide (length line <= 128)%nat).
  - by rewrite !take_ge by lia.
  - by rewrite Nat.min_r by lia.
Qed.

(** What the application writes for a line, and what it remembers. *)
Lemma SendChatLine_line e (a : App Q) peer line sid ref s :
  service_sessionid_m (manager a) !! peer = Some sid -> smap_find sid (sessions_m (manager a)) = Some ref ->
  objs (manager a) !! ref = Some s -> writable s -> take 3 line <> chars "|f " ->
  let cm := ConstructChatMessageFromInput (now e) line in
  length (msg_payload cm) = PAYLOAD_SIZE_BYTES ->
  SendChatLine P e a peer line =
    Ok (log_message (a_manager a (m_objs (manager a) (<[ ref := writing P s (message_bytes cm) ]> (objs (manager a))))) peer
          {| cm_textData := str line; cm_sender := sd_hostname (thisMachineServiceData (manager a));
             cm_timestamp := u64 (now e) |}).
Proof.
  intros Hsv Hf Ho Hw Hfile cm Hp. unfold SendChatLine, GetSessionIDFromServiceName. rewrite Hsv.
  rewrite bool_decide_false by done. unfold SendDataToNode. rewrite Hf. unfold write_to. rewrite Ho. sess.
  fold cm. by rewrite WriteMessageFrame_ok by done.
Qed.

Lemma SendChatLine_ok e (a : App Q) peer line sid ref s :
  service_sessionid_m (manager a) !! peer = Some sid -> smap_find sid (sessions_m (manager a)) = Some ref ->
  objs (manager a) !! ref = Some s -> writable s -> s_state s <> BVSESSIONSTATE_CLOSED ->
  take 3 line <> chars "|f " ->
  let cm := ConstructChatMessageFromInput (now e) line in
  length (msg_payload cm) = PAYLOAD_SIZE_BYTES ->
  exists a' s', SendChatLine P e a peer line = Ok a' /\ objs (manager a') !! ref = Some s' /\
    tx (sock (complete_write P s')) = tx (sock s) ++ message_bytes cm /\
    chatLogsM a' = chatLogsM (log_message a peer
      {| cm_textData := str line; cm_sender := sd_hostname (thisMachineServiceData (manager a));
         cm_timestamp := u64 (now e) |}).
Proof.
  intros Hsv Hf Ho Hw Hst Hfile cm Hp. rewrite (SendChatLine_line e a peer line sid ref s) by done. fold cm.
  eexists _, (writing P s (message_bytes cm)). split; [reflexivity|].
  split; [cbn [log_message a_logs a_manager manager m_objs objs]; apply lookup_insert_eq|]. split; [|done].
  rewrite (complete_writing P _ (eager_write P)); [|done|done|done].
  unfold ClearWriteBuffer, writing. sess. rewrite <- (assoc_L (++)). f_equal.
  destruct (eager_write P); [by rewrite app_nil_r|]. apply take_frame. by apply length_message_frame.
Qed.

(** C4.  A chat line, end to end: a printable line that is not a file command
    is remembered in the sender's log, and the bytes its session sends, when
    they reach the other machine's session, put into that machine's mailbox one
    incoming message with the line's first 128 characters, the name that
    machine has for the sender and the sender's time; the session then listens
    for more. *)
Theorem chat_line_end_to_end e e2 (a : App Q) (m2 : Manager Q) peer line sid ref s s2 l fuel :
  service_sessionid_m (manager a) !! peer = Some sid -> smap_find sid (sessions_m (manager a)) = Some ref ->
  objs (manager a) !! ref = Some s -> writable s -> s_state s <> BVSESSIONSTATE_CLOSED ->
  take 3 line <> chars "|f " -> Forall (fun c => isprint c = true) line -> 0 <= now e < 2 ^ 64 ->
  eager_read P = false -> listening s2 -> s_state s2 = BVSESSIONSTATE_ESTABLISHED -> rx (sock s2) = [] ->
  mgr_app_mail m2 l -> (1 < fuel)%nat ->
  exists a' s' bytes, SendChatLine P e a peer line = Ok a' /\ objs (manager a') !! ref = Some s' /\
    tx (sock (complete_write P s')) = tx (sock s) ++ bytes /\
    chatLogsM a' = chatLogsM (log_message a peer
      {| cm_textData := str line; cm_sender := sd_hostname (thisMachineServiceData (manager a));
         cm_timestamp := now e |}) /\
    exists s2' m2', pump P e2 fuel (receive s2 bytes) m2 = Ok (Blocked, s2', m2') /\
      listening s2' /\ s_state s2' = BVSESSIONSTATE_ESTABLISHED /\
      mgr_app_mail m2' (l ++ [MkBVMessage BVEVENTTYPE_APP_MESSAGE_INCOMING (Some (any_ChatMessage
        {| cm_textData := str (take 128 line); cm_sender := nd_serviceName (nodeData s2);
           cm_timestamp := now e |}))]).
Proof.
  intros Hsv Hf Ho Hw Hst Hfile Hp Ht HP Hli2 Hst2 Hrx2 Hm Hfu.
  pose proof (typed_chat_ok (now e) line Hp) as Hok.
  destruct (SendChatLine_ok e a peer line sid ref s Hsv Hf Ho Hw Hst Hfile (co_payload _ Hok))
    as (a' & s' & Hs & Ho' & Htx & Hlog).
  exists a', s', (message_bytes (ConstructChatMessageFromInput (now e) line)).
  split; [exact Hs|]. split; [exact Ho'|]. split; [exact Htx|].
  split; [rewrite Hlog; unfold u64; by rewrite wrap_small by done|].
  destruct (chat_stream P e2 (receive s2 (message_bytes (ConstructChatMessageFromInput (now e) line))) m2 l
    [ConstructChatMessageFromInput (now e) line] [] fuel) as (s2' & m2' & Hpu & Hli' & Hst' & _ & Hm');
    [exact HP|by apply receive_listening|exact Hst2|by apply Forall_singleton| |by apply Nat.ltb_lt|exact Hm|exact Hfu|].
  { cbn [receive set_sock sock with_reads rx frames_of map concat]. by rewrite Hrx2, !app_nil_r. }
  exists s2', m2'. split; [exact Hpu|]. split; [exact Hli'|]. split; [exact Hst'|].
  cbn [map] in Hm'. by rewrite typed_chat_event in Hm' by done.
Qed.

Lemma made_csize fs ref path id c :
  BVFileTransferContext_make true fs ref path id = Ok c -> 0 <= ft_csize c <= MAX_FILE_CHUNK_SIZE_BYTES_1MB.
Proof.
  unfold BVFileTransferContext_make. intros (data & _ & Hf)%bind_ok. injection Hf as <-. cbn [ft_csize].
  pose proof (DetermineChunkSize_bounds (u32 (Z.of_nat (length data)))). lia.
Qed.

(** ** A file *)

Section Saving.
Context (resolve : string -> Z -> nat -> bool * nat) (base : BVComponent).

Definition listening_app : Component Q (App Q) := SetIsListeningToMail (console_component resolve base) true.

(** The chunks of a transfer in the mailbox are appended to its file. *)
Lemma chunks_saved key csize fsize svc fname : forall chunks (a : App Q) ml l rest fuel,
  Forall (fun x => fh_correlationKey x.1 = key) chunks ->
  receiving_file a key svc fname l ->
  mail_holds ml (inMailBox_p base)
    (map (chunk_event BVEVENTTYPE_APP_FILE_TRANSFER_CHUNK_SENT csize fsize) chunks ++ rest) ->
  exists a' ml', ListenToMail (length chunks + fuel) listening_app a ml = ListenToMail fuel listening_app a' ml' /\
    mail_holds ml' (inMailBox_p base) rest /\
    receiving_file a' key svc fname (l ++ concat (map snd chunks)) /\ rootdir a' = rootdir a.
Proof.
  destruct (console_callbacks resolve base) as (_ & Hs & _).
  induction chunks as [|[h d] chunks IH]; intros a ml l rest fuel Hk Hr Hm.
  - exists a, ml. cbn [length map concat app Nat.add]. by rewrite app_nil_r.
  - apply Forall_cons in Hk as [Hk1 Hk]. cbn [fst] in Hk1. cbn [map app] in Hm.
    destruct (ListenToMail_next listening_app ml _ _ eq_refl Hm) as (ml1 & Hm1 & HL).
    destruct (chunk_event_ok resolve a ml1 key csize fsize svc fname l d Hr) as (a1 & H1 & Hr1 & Hd1).
    destruct (IH a1 ml1 (l ++ d) rest fuel Hk Hr1 Hm1) as (a' & ml' & HI & Hm' & Hr' & Hd').
    exists a', ml'. split; [|split; [done|split; [|congruence]]].
    + cbn [length Nat.add]. rewrite (HL _ a (length chunks + fuel)%nat Hs).
      unfold chunk_event. cbn [fst snd]. rewrite Hk1, H1. exact HI.
    + cbn [map concat snd]. by rewrite (assoc_L (++)).
Qed.

(** A whole transfer in the mailbox is a saved file. *)
Lemma transfer_saved key csize fsize svc fname chunks last (a : App Q) ml fuel :
  "|"%char ∉ chars svc -> receivable (app_fs a) (rootdir a) svc fname ->
  Forall (fun x => fh_correlationKey x.1 = key) (chunks ++ [last]) ->
  (Z.to_nat fsize <= length (concat (map snd chunks) ++ last.2))%nat ->
  mail_holds ml (inMailBox_p base)
    ([file_event BVEVENTTYPE_APP_FILE_TRANSFER_BEGIN key csize fsize (chars (svc +:+ "|" +:+ fname))] ++
     map (chunk_event BVEVENTTYPE_APP_FILE_TRANSFER_CHUNK_SENT csize fsize) chunks ++
     [chunk_event BVEVENTTYPE_APP_FILE_TRANSFER_END csize fsize last]) ->
  (length chunks + 2 < fuel)%nat ->
  exists a' ml', ListenToMail fuel listening_app a ml = Ok (Blocked, a', ml') /\
    fileTransferData a' !! key = None /\
    files (app_fs a') !! PathFor (rootdir a) svc fname =
      Some (take (Z.to_nat fsize) (concat (map snd chunks) ++ last.2)).
Proof.
  intros Hn Hr Hk Hlen Hm Hf. destruct (console_callbacks resolve base) as (Hb & _ & He & _).
  apply Forall_app in Hk as [Hk [Hkl _]%Forall_cons].
  replace fuel with (S (length chunks + S (S (fuel - length chunks - 3)))) by lia.
  destruct (ListenToMail_next listening_app ml _ _ eq_refl Hm) as (ml1 & Hm1 & HL).
  destruct (begin_event_ok resolve a ml1 key csize fsize svc fname Hn Hr) as (a1 & H1 & Hr1 & Hd1).
  rewrite (HL _ a _ Hb), H1. cbn [mbind result_bind]. rewrite decide_False by tauto.
  change (stops_listening _) with false. cbn iota.
  destruct (chunks_saved key csize fsize svc fname chunks a1 ml1 [] _ (S (S (fuel - length chunks - 3)))
    Hk Hr1 Hm1) as (a2 & ml2 & HL2 & Hm2 & Hr2 & Hd2).
  rewrite HL2. destruct (ListenToMail_next listening_app ml2 _ _ eq_refl Hm2) as (ml3 & Hm3 & HL3).
  destruct (end_event_ok resolve a2 ml3 key csize fsize svc fname _ last.2 Hr2 Hlen) as (a3 & H3 & Hx & Hfile).
  exists a3, ml3. rewrite (HL3 _ a2 _ He). unfold chunk_event. cbn [fst snd]. rewrite Hkl, H3.
  cbn [mbind result_bind]. rewrite decide_False by tauto. change (stops_listening _) with false. cbn iota.
  split; [by apply ListenToMail_empty|]. split; [exact Hx|]. rewrite Hd2, Hd1 in Hfile. exact Hfile.
Qed.

(** C5.  A file, end to end: the worker of one machine reads the file and
    writes its frames; when they reach the other machine's session, that
    machine's application saves, under the directory of the sender's service, a
    file with exactly the sent file's bytes, forgets the transfer, and its
    session listens for the next message.  For a file that can be opened, is not
    empty, whose frames are written without error, and that is small enough for the 32-bit counters, and a name that fits the frame. *)
Theorem file_transfer_end_to_end fs ref path id c data s1 clock fuel e2 s2 (m2 : Manager Q) (a : App Q) :
  BVFileTransferContext_make true fs ref path id = Ok c -> fs !! path = Some data ->
  0 < Z.of_nat (length data) < 2 ^ 32 - MAX_FILE_CHUNK_SIZE_BYTES_1MB -> 0 <= id < 2 ^ 32 ->
  transfer_clock_ok clock -> (length data + 1 < fuel)%nat ->
  let svc := thisMachineServiceName s1 in
  "|"%char ∉ chars svc -> NUL ∉ chars (svc +:+ "|" +:+ filename path) ->
  (length (chars (svc +:+ "|" +:+ filename path)) <= 116)%nat ->
  eager_read P = false -> listening s2 -> s_state s2 = BVSESSIONSTATE_ESTABLISHED -> rx (sock s2) = [] ->
  mgr_app_mail m2 [] -> mailbox m2 = inMailBox_p base ->
  receivable (app_fs a) (rootdir a) svc (filename path) ->
  exists c' bytes n, LaunchFileTransfer fuel clock (fun _ => None) c s1 = Ok (Returned, c', sent_on s1 bytes) /\
    forall fuel2 fuel3, (n < fuel2)%nat -> (n < fuel3)%nat ->
    exists s2' m2' a' ml', pump P e2 fuel2 (receive s2 bytes) m2 = Ok (Blocked, s2', m2') /\ listening s2' /\
      ListenToMail fuel3 listening_app a (mgr_mail m2') = Ok (Blocked, a', ml') /\
      files (app_fs a') !! PathFor (rootdir a) svc (filename path) = Some data /\
      fileTransferData a' !! id = None.
Proof.
  intros Hmk Hfs Hsz Hid Hclk Hfu svc Hbar Hnul Hlen HP Hli Hst Hrx Hm Hbox Hrecv.
  destruct (worker_sends_file fs ref path id c data s1 clock fuel Hmk Hfs Hsz Hid Hclk) as
    (c' & hb & chunks & last & HL & Hff & Ht & Hmd & Hch & Hla & Hk & Hks & Hdata & _).
  { pose proof (made_iterations fs ref path id c data Hmk Hfs Hsz Hid). lia. }
  fold svc in HL. set (text := chars (svc +:+ "|" +:+ filename path)) in *.
  exists c', (transfer_bytes hb text chunks last), (length chunks + 2)%nat. split; [exact HL|].
  intros fuel2 fuel3 H2 H3.
  pose proof (made_csize fs ref path id c Hmk) as Hc. unfold MAX_FILE_CHUNK_SIZE_BYTES_1MB in Hc, Hsz.
  destruct (transfer_received P e2 (receive s2 (transfer_bytes hb text chunks last)) m2 [] hb text (ft_csize c)
    (Z.of_nat (length data)) chunks last fuel2) as (s2' & m2' & Hp & Hli' & _ & _ & Hm');
    [exact HP|by apply receive_listening|exact Hst|exact Hff|exact Hnul|exact Hlen|exact Ht|exact Hmd
    |lia|lia|lia|exact Hch|exact Hla| |exact Hm|exact H2|].
  { cbn [receive set_sock sock with_reads rx]. by rewrite Hrx. }
  cbn [app app_mail manager_laws] in Hm'. unfold mgr_app_mail in Hm'.
  rewrite (pump_mailbox _ _ _ _ _ _ _ _ Hp), Hbox, Hk in Hm'.
  assert (Hl : (Z.to_nat (Z.of_nat (length data)) <= length (concat (map snd chunks) ++ last.2))%nat).
  { rewrite Nat2Z.id. rewrite <- Hdata at 1. rewrite length_take. lia. }
  destruct (transfer_saved id (ft_csize c) (Z.of_nat (length data)) svc (filename path) chunks last a
    (mgr_mail m2') fuel3 Hbar Hrecv Hks Hl Hm' H3) as (a' & ml' & HLm & Hx & Hfile).
  exists s2', m2', a', ml'. split; [exact Hp|]. split; [exact Hli'|]. split; [exact HLm|]. split; [|exact Hx].
  rewrite Hfile, Nat2Z.id. by rewrite Hdata.
Qed.

End Saving.

End Peers.

(** ** Concrete peers *)

Section PeerWitnesses.

Lemma ex_ann1_inv : mgr_inv ex_ann1.
Proof.
  apply (mstep_inv ex_lazy (ex_machine "ann")); [apply ex_machine_inv|].
  eapply (ms_initiate _ (ex_peer "bob") BVSTATUS_OK). vm_compute. reflexivity.
Qed.

Lemma ex_env_ok : env_ok ex_env.
Proof. split; [reflexivity|vm_compute; split; [discriminate|reflexivity]|reflexivity]. Qed.

Definition ex_bob : Manager threadsafe_queue := Accept (ex_machine "bob").

Lemma ex_bob_inv : mgr_inv ex_bob.
Proof. apply (mgr_inv_same (ex_machine "bob")); [done|apply ex_machine_inv]. Qed.

Lemma handshake_completes_witness :
  exists n sA sB, star (net_step ex_lazy) (Net ex_ann1 0 ex_bob 0) n /\
    objs (left n) !! lref n = Some sA /\ s_state sA = BVSESSIONSTATE_ESTABLISHED /\
    objs (right n) !! rref n = Some sB /\ s_state sB = BVSESSIONSTATE_ESTABLISHED /\
    session_name (left n) (lref n) = Some "bob"%string /\ service_sessionid_m (right n) !! "ann"%string = Some 0.
Proof.
  destruct (handshake_completes ex_lazy ex_env ex_ann1 ex_bob 0 (with_id (ex_peer "bob") 0) 0 0)
    as (n & sA & sB & Hs & H1 & H2 & _ & _ & H3 & H4 & H5 & _ & _ & H6 & _).
  - exact ex_ann1_inv.
  - exact ex_bob_inv.
  - exact ex_env_ok.
  - vm_compute. lia.
  - vm_compute. reflexivity.
  - vm_compute. intros Hx. inversion Hx.
  - reflexivity.
  - vm_compute. intros Hx. inversion Hx.
  - exists n, sA, sB. split; [exact Hs|]. repeat (split; [assumption|]).
    assert (Hh : heard_name ex_lazy (thisName ex_ann1) = "ann"%string) by (vm_compute; reflexivity).
    rewrite Hh in H6. rewrite H6. apply lookup_insert_eq.
Defined.

(** [ann]'s application with the connection made, [bob]'s machine. *)
Definition ex_ann_app : App threadsafe_queue := App_make ex_ann2 ex_base ex_os "/srv".
Definition ex_bob_machine : Manager threadsafe_queue :=
  BVTCPConnectionManager_make (BVService_host_data "bob" "local." PORT) 1 ex_store ex_fs.

Lemma chat_line_end_to_end_witness :
  exists (a' : App threadsafe_queue) bytes s2' m2', SendChatLine ex_lazy ex_env ex_ann_app "bob" (chars "hi") = Ok a' /\
    pump ex_lazy ex_env 2 (receive (ex_session BVSESSIONSTATE_ESTABLISHED []) bytes) ex_bob_machine =
      Ok (Blocked, s2', m2') /\
    mgr_app_mail m2' [MkBVMessage BVEVENTTYPE_APP_MESSAGE_INCOMING (Some (any_ChatMessage
      {| cm_textData := "hi"; cm_sender := "bob"; cm_timestamp := 1700000000000 |}))].
Proof.
  destruct (objs ex_ann2 !! 0%nat) as [s|] eqn:Hs; [|vm_compute in Hs; discriminate Hs].
  destruct (chat_line_end_to_end ex_lazy ex_env ex_env ex_ann_app ex_bob_machine "bob" (chars "hi") 0 0 s
    (ex_session BVSESSIONSTATE_ESTABLISHED []) [] 2) as (a' & s' & bytes & H1 & _ & _ & _ & s2' & m2' & Hp & _ & _ & Hm).
  - vm_compute. reflexivity.
  - vm_compute. reflexivity.
  - exact Hs.
  - vm_compute in Hs. injection Hs as <-. by split.
  - vm_compute in Hs. injection Hs as <-. discriminate.
  - discriminate.
  - repeat constructor.
  - vm_compute. split; [discriminate|reflexivity].
  - reflexivity.
  - apply ex_session_listening.
  - reflexivity.
  - reflexivity.
  - apply (ex_store_holds 1). by right.
  - lia.
  - exists a', bytes, s2', m2'. split; [exact H1|]. split; [exact Hp|exact Hm].
Defined.

Definition ex_bob_app : App threadsafe_queue := App_make ex_bob_machine ex_base ex_os "/srv".

Lemma file_transfer_end_to_end_witness :
  exists c' bytes n, LaunchFileTransfer 14 ex_clock (fun _ => None) ex_ctx ex_sender =
      Ok (Returned, c', sent_on ex_sender bytes) /\
    exists s2' m2' (a' : App threadsafe_queue) ml',
      pump ex_lazy ex_env (S n) (receive (ex_session BVSESSIONSTATE_ESTABLISHED []) bytes) ex_bob_machine =
        Ok (Blocked, s2', m2') /\
      ListenToMail (S n) (listening_app ex_resolve ex_base) ex_bob_app (mgr_mail m2') = Ok (Blocked, a', ml') /\
      files (app_fs a') !! PathFor "/srv" "ann" "x.txt" = Some (chars "hello, world").
Proof.
  destruct (file_transfer_end_to_end ex_lazy ex_resolve ex_base ex_fs 0 "/tmp/x.txt" 7 ex_ctx
    (chars "hello, world") ex_sender ex_clock 14 ex_env (ex_session BVSESSIONSTATE_ESTABLISHED [])
    ex_bob_machine ex_bob_app ltac:(vm_compute; reflexivity) ltac:(vm_compute; reflexivity)
    ltac:(vm_compute; split; reflexivity) ltac:(lia) ex_clock_ok ltac:(simpl; lia))
    as (c' & bytes & n & HL & Hrest).
  - apply (bool_decide_unpack _). vm_compute. exact I.
  - apply (bool_decide_unpack _). vm_compute. exact I.
  - vm_compute. lia.
  - reflexivity.
  - apply ex_session_listening.
  - reflexivity.
  - reflexivity.
  - apply (ex_store_holds 1). by right.
  - reflexivity.
  - by split.
  - exists c', bytes, n. split; [exact HL|].
    destruct (Hrest (S n) (S n)) as (s2' & m2' & a' & ml' & Hp & _ & Hm & Hf & _); [lia|lia|].
    exists s2', m2', a', ml'. split; [exact Hp|]. split; [exact Hm|exact Hf].
Defined.

End PeerWitnesses.
