(* ===== verification/Links.v ===== *)
(** * Links between machines ([src/BVApp_ConsoleClient.cpp],
    [src/BVTCPSession.cpp], [include/BVTCPConnectionManager.hpp],
    [include/BVComponent.hpp])

    A console application with any number of established sessions, its user at
    the keyboard, its event loop and its mailbox loop.  Each operation of it is
    one event: nothing seen from outside, something said to one peer, something
    heard from one, or the connection to one lost.  What an event does to the link it concerns, and
    that it leaves the machine's other links alone, is what the files on groups
    and on conversations are built from. *)

From Stdlib Require Import ZArith Lia Ascii String.
From S2P Require Import Prelude TSQueue Common Broker Component Frames Session FileTransfer.
From S2P Require Import ReceivedFile ConnectionManager ConsoleClient Peers.

(** ** The specification of one link *)

(** One end: what its log of the conversation holds, what is on its way to it,
    and whether it still reads. *)
Record endpoint : Type := MkEnd {
  e_log : list BVChatMessage;
  e_in : list BVChatMessage;
  e_open : bool
}.

Definition nothing_said : endpoint := MkEnd [] [] true.

(** A message sets out for an end that reads. *)
Definition coming (msg : BVChatMessage) (e : endpoint) : endpoint :=
  if e_open e then MkEnd (e_log e) (e_in e ++ [msg]) true else e.

(** A line as its author's log has it, and as the other end gets to see it. *)
Definition said (own : string) (t : Z) (line : list ascii) : BVChatMessage :=
  {| cm_textData := str line; cm_sender := own; cm_timestamp := t |}.
Definition as_heard (name : string) (msg : BVChatMessage) : BVChatMessage :=
  {| cm_textData := str (take 128 (chars (cm_textData msg))); cm_sender := name; cm_timestamp := cm_timestamp msg |}.

(** [x] says something, which the other end knows as [name]'s; or hears; or
    stops reading, and has [k] of the messages on their way to it. *)
Inductive talks (own name : string) : endpoint -> endpoint -> endpoint -> endpoint -> Prop :=
  | t_says t line x y :
      talks own name x y (MkEnd (e_log x ++ [said own t line]) (e_in x) (e_open x)) (coming (as_heard name (said own t line)) y)
  | t_hears msg l x y :
      e_in x = msg :: l -> talks own name x y (MkEnd (e_log x ++ [msg]) l (e_open x)) y
  | t_lost k x y :
      e_open x = true -> talks own name x y (MkEnd (e_log x) (take k (e_in x)) false) y.

(** The lines with one author. *)
Definition lines_of (name : string) (l : list BVChatMessage) : list BVChatMessage :=
  filter (fun m => cm_sender m = name) l.

Lemma lines_of_app name l1 l2 : lines_of name (l1 ++ l2) = lines_of name l1 ++ lines_of name l2.
Proof. apply filter_app. Qed.

Lemma lines_of_one name m : lines_of name [m] = if decide (cm_sender m = name) then [m] else [].
Proof. unfold lines_of. rewrite filter_cons, filter_nil. by case_decide. Qed.

Lemma lines_of_cons name m l : lines_of name (m :: l) = lines_of name [m] ++ lines_of name l.
Proof. apply (lines_of_app name [m]). Qed.

Lemma lines_of_absent name l : Forall (fun m => cm_sender m <> name) l -> lines_of name l = [].
Proof. induction 1 as [|m l Hm _ IH]; [done|]. by rewrite lines_of_cons, lines_of_one, IH, decide_False. Qed.

Lemma lines_of_none own name l : own <> name -> Forall (fun m => cm_sender m = name) l -> lines_of own l = [].
Proof. intros Hne Hl. apply lines_of_absent. apply (Forall_impl _ _ _ Hl). congruence. Qed.

Lemma lines_of_all name l : Forall (fun m => cm_sender m = name) l -> lines_of name l = l.
Proof. induction 1 as [|m l Hm _ IH]; [done|]. by rewrite lines_of_cons, lines_of_one, IH, decide_True. Qed.

(** What an operation of a machine amounts to. *)
Inductive event : Type :=
  | Silent
  | Says (peer : string) (msg : BVChatMessage)
  | Hears (msg : BVChatMessage)
  | Lost (peer : string) (k : nat).

(** The machine's end of its link with [p], and [p]'s end, where the machine is
    known as [name], after the event. *)
Definition own_end (ev : event) (p : string) (e : endpoint) : endpoint :=
  match ev with
  | Silent => e
  | Says q msg => if decide (q = p) then MkEnd (e_log e ++ [msg]) (e_in e) (e_open e) else e
  | Hears msg => if decide (cm_sender msg = p) then MkEnd (e_log e ++ [msg]) (drop 1 (e_in e)) (e_open e) else e
  | Lost q k => if decide (q = p) then MkEnd (e_log e) (take k (e_in e)) false else e
  end.
Definition peer_end (ev : event) (p name : string) (e : endpoint) : endpoint :=
  match ev with
  | Says q msg => if decide (q = p) then coming (as_heard name msg) e else e
  | _ => e
  end.

(** Only what is on its way can be heard, and a connection is lost once. *)
Definition possible (ev : event) (p : string) (e : endpoint) : Prop :=
  match ev with
  | Hears msg => cm_sender msg = p -> exists l, e_in e = msg :: l
  | Lost q _ => q = p -> e_open e = true
  | _ => True
  end.

(** Who the event is with. *)
Definition concerns (ps : string -> Prop) (own : string) (ev : event) : Prop :=
  match ev with
  | Silent => True
  | Says q msg => ps q /\ exists t line, msg = said own t line
  | Hears msg => ps (cm_sender msg)
  | Lost q _ => ps q
  end.

(** ** The program *)

Section Links.
Context {Q : Type -> Type} `{FifoQueueLaws Q} (ctime : Z -> list ascii) (P : asio)
  (resolve : string -> Z -> nat -> bool * nat).

(** A machine's end of a link: its application, the session's object, and the
    name it has for the other machine. *)
Record side : Type := MkSide {
  s_app : App Q;
  s_ref : nat;
  s_peer : string
}.

Definition mgr_of (x : side) : Manager Q := manager (s_app x).
Definition own (x : side) : string := thisName (mgr_of x).
Definition session_of (x : side) : option BVTCPSession := objs (mgr_of x) !! s_ref x.
Definition with_app (x : side) (a : App Q) : side := MkSide a (s_ref x) (s_peer x).
Definition with_mgr (x : side) (m : Manager Q) : side := with_app x (a_manager (s_app x) m).
Definition with_session (x : side) (s : BVTCPSession) : side := with_mgr x (put_back (mgr_of x) s).

Definition is_enter (c : ascii) : bool := ((uchar c =? 10) || (uchar c =? 13))%bool.

(** The session of the service the user is chatting with. *)
Definition active_session (a : App Q) : option BVTCPSession :=
  sid ← service_sessionid_m (manager a) !! activeChatService a;
  ref ← smap_find sid (sessions_m (manager a));
  objs (manager a) !! ref.

(** What Enter sends, and does not take for a command of the screen. *)
Definition is_line (line : list ascii) : Prop := line <> chars "|q" /\ line <> [] /\ line <> chars "|r".

(** Keys that stay in the conversation: in the menu not those that quit or
    speak to discovery; in the chat no file command, and no line while the
    one before is still being written. *)
Definition key_allowed (a : App Q) (c : ascii) : Prop :=
  match uiState a with
  | MainMenu => forall r, ParseConsoleActionFromKey c = Some r ->
      pr_type r = BVCONSOLEACTION_REPRINT \/ pr_type r = BVCONSOLEACTION_SENDMSG \/ pr_type r = BVCONSOLEACTION_BLOCKHOST
  | Chat => is_enter c = true -> is_line (inputLine a) -> take 3 (inputLine a) <> chars "|f " /\
      forall s, active_session a = Some s -> writes (sock s) = []
  | FileOffer => True
  end.

(** The first [n] sent bytes leave. *)
Definition carry (n : nat) (s : BVTCPSession) : BVTCPSession :=
  set_sock s (Socket (rx (sock s)) (drop n (tx (sock s))) (reads (sock s)) (writes (sock s))).

Definition app_loop (a : App Q) : Component Q (App Q) :=
  SetIsListeningToMail (console_component resolve (app_base a)) true.

(** The machine at [x] does something on the link to [y], or something that
    concerns no link in particular; only the last touches [y]. *)
Inductive quiet : side -> side -> side -> side -> Prop :=
  | q_written x y s : session_of x = Some s -> quiet x y (with_session x (complete_write P s)) y
  | q_read e x y m : on_readable P e (s_ref x) (mgr_of x) = Ok (Some m) -> quiet x y (with_mgr x m) y
  | q_mail x y a ml : ListenToMail 1 (app_loop (s_app x)) (s_app x) (mgr_mail (mgr_of x)) = Ok (OutOfFuel, a, ml) ->
      quiet x y (with_app x a) y
  | q_posted e x y a : run_posted ctime e (s_app x) = Ok a -> quiet x y (with_app x a) y
  | q_cross n x y sx sy : session_of x = Some sx -> session_of y = Some sy ->
      quiet x y (with_session x (carry n sx)) (with_session y (receive sy (take n (tx (sock sx))))).

Inductive acts : side -> side -> side -> side -> Prop :=
  | ac_quiet x y x' y' : quiet x y x' y' -> acts x y x' y'
  | ac_key e c x y a : key_allowed (s_app x) c -> 0 <= now e < 2 ^ 64 -> key_read ctime P e (s_app x) c = Ok a ->
      acts x y (with_app x a) y
  | ac_lost e x y m : on_read_error P e (s_ref x) (mgr_of x) = Ok m -> acts x y (with_mgr x m) y.

(** ** The relation between the program and the specification *)

(** What a write in flight still owes the connection. *)
Definition pending (s : BVTCPSession) : list ascii :=
  match writes (sock s) with
  | [op] => if wo_sent op then [] else take (wo_len op) (writeStore s)
  | _ => []
  end.

Definition between_lines (s : BVTCPSession) : Prop :=
  length (writeStore s) = MESSAGE_FRAME_SIZE_BYTES /\ writeSize s = MESSAGE_FRAME_SIZE_BYTES /\
  (writes (sock s) = [] \/
   totalBytesWritten s = 0%nat /\ exists b, writes (sock s) = [WriteOp MessageFrame MESSAGE_FRAME_SIZE_BYTES b]).

Definition is_post_message (p : posted) : bool := match p with Post_Message _ _ => true | Post_Offer _ => false end.

(** The session reads, or nothing is going to be read from it again. *)
Definition ear (open : bool) (s : BVTCPSession) : Prop := if open then listening s else deaf s.

(** The session of one link. *)
Record in_talk (x : side) (s : BVTCPSession) : Prop := {
  it_found : smap_find (sessionID s) (sessions_m (mgr_of x)) = Some (s_ref x);
  it_service : service_sessionid_m (mgr_of x) !! s_peer x = Some (sessionID s);
  it_obj : session_of x = Some s;
  it_self : self s = s_ref x;
  it_state : s_state s = BVSESSIONSTATE_ESTABLISHED;
  it_node : nd_serviceName (nodeData s) = s_peer x;
  it_write : between_lines s
}.

Definition incoming (msg : BVChatMessage) : BVMessage :=
  MkBVMessage BVEVENTTYPE_APP_MESSAGE_INCOMING (Some (any_ChatMessage msg)).

(** The messages waiting for the application. *)
Definition waiting (m : Manager Q) (ms : list BVChatMessage) : Prop := mgr_app_mail m (map incoming ms).

(** A machine whose sessions are its links with the peers [ps], at the
    keyboard's menu or in the chat with one of them. *)
Record desk (ps : string -> Prop) (a : App Q) : Prop := {
  dk_inv : mgr_inv (manager a);
  dk_box : mailbox (manager a) = inMailBox_p (app_base a);
  dk_mail : exists ms, waiting (manager a) ms /\ Forall (fun m => ps (cm_sender m)) ms;
  dk_ui : uiState a <> FileOffer /\ (uiState a = Chat -> ps (activeChatService a));
  dk_input : Forall (fun c => isprint c = true) (inputLine a);
  dk_posted : forallb is_post_message (posted_q a) = true;
  dk_names : forall q, q ∈ session_names (manager a) -> ps q;
  dk_talks : forall q, ps q -> exists ref s, in_talk (MkSide a ref q) s
}.

(** The message in a chat frame. *)
Definition chat_of (sender : string) (cm : BVTCPMessage) : BVChatMessage :=
  {| cm_textData := str (take (Z.to_nat (mh_dataLen (msg_header cm))) (msg_payload cm));
     cm_sender := sender; cm_timestamp := mh_timestamp (msg_header cm) |}.

(** [x]'s end of the specification: its log, what its mailbox holds from the
    peer and, as long as its session reads, what is in its socket, in [y]'s
    socket and in [y]'s write buffer. *)
Record reflects (x : side) (sx sy : BVTCPSession) (e : endpoint) : Prop := {
  rf_log : e_log e = default [] (logV <$> chatLogsM (s_app x) !! s_peer x);
  rf_in : exists ms cms, waiting (mgr_of x) ms /\ Forall chat_ok cms /\
    rx (sock sx) ++ tx (sock sy) ++ pending sy = frames_of cms /\
    e_in e = lines_of (s_peer x) ms ++ if e_open e then map (chat_of (s_peer x)) cms else [];
  rf_ear : ear (e_open e) sx
}.

Definition link (x y : side) (ex ey : endpoint) : Prop :=
  exists sx sy, in_talk x sx /\ in_talk y sy /\ reflects x sx sy ex /\ reflects y sy sx ey.

Lemma link_sym x y ex ey : link x y ex ey -> link y x ey ex.
Proof. intros (sx & sy & ? & ? & ? & ?). by exists sy, sx. Qed.

(** ** One session per link *)

Lemma in_talk_fun x s s' : in_talk x s -> in_talk x s' -> s = s'.
Proof. intros Hs Hs'. pose proof (it_obj _ _ Hs) as Ho. rewrite (it_obj _ _ Hs') in Ho. congruence. Qed.

Lemma ear_fun b b' s : ear b s -> ear b' s -> b = b'.
Proof. destruct b, b'; try done; cbn; unfold deaf; [intros [_ _ Hr] Hd|intros Hd [_ _ Hr]]; congruence. Qed.

(** What reading is about. *)
Definition same_reading (s s' : BVTCPSession) : Prop :=
  readBuf s' = readBuf s /\ totalBytesRead s' = totalBytesRead s /\ reads (sock s') = reads (sock s).

Lemma ear_same b s s' : same_reading s s' -> ear b s -> ear b s'.
Proof.
  intros (Hb & Ht & Hr). destruct b; cbn; unfold deaf; [|by rewrite Hr].
  intros [Hbuf Htot Hrd]. by split; rewrite ?Hb, ?Ht, ?Hr.
Qed.

Lemma complete_write_reading s : same_reading s (complete_write P s).
Proof.
  unfold complete_write. destruct (writes (sock s)) as [|op ops]; [by split|]. destruct (wo_kind op); [|by split].
  unfold WriteMessageFrameCallback. destruct (_ || _)%bool; [case_decide; by split|].
  unfold async_write. destruct (_ && _)%bool; by split.
Qed.

Lemma in_talk_same_peer a r r' q s s' : in_talk (MkSide a r q) s -> in_talk (MkSide a r' q) s' -> r = r'.
Proof.
  intros Hs Hs'. pose proof (it_service _ _ Hs) as Hv. pose proof (it_service _ _ Hs') as Hv'. unfold mgr_of in Hv, Hv'. cbn in Hv, Hv'.
  rewrite Hv in Hv'. injection Hv' as Hid. pose proof (it_found _ _ Hs) as Hf. pose proof (it_found _ _ Hs') as Hf'.
  unfold mgr_of in Hf, Hf'. cbn in Hf, Hf'. rewrite Hid, Hf' in Hf. by injection Hf.
Qed.

Lemma in_talk_same_ref a r q q' s s' : in_talk (MkSide a r q) s -> in_talk (MkSide a r q') s' -> q = q'.
Proof.
  intros Hs Hs'. pose proof (it_obj _ _ Hs) as Ho. pose proof (it_obj _ _ Hs') as Ho'. unfold session_of, mgr_of in Ho, Ho'.
  cbn in Ho, Ho'. rewrite Ho in Ho'. injection Ho' as <-. exact (eq_trans (eq_sym (it_node _ _ Hs)) (it_node _ _ Hs')).
Qed.

Lemma waiting_fun m ms ms' : waiting m ms -> waiting m ms' -> ms = ms'.
Proof.
  intros Hm Hm'. apply (mail_holds_fun _ _ _ _ Hm) in Hm'. revert ms' Hm'. clear Hm.
  induction ms as [|x ms IH]; intros [|y ms'] He; try done. injection He as -> He. f_equal. by apply IH.
Qed.

(** ** What leaves a link alone *)

(** [x'] differs from [x] in nothing that matters to their link. *)
Record elsewhere (x x' : side) : Prop := {
  ew_ref : s_ref x' = s_ref x;
  ew_peer : s_peer x' = s_peer x;
  ew_found : forall k r, smap_find k (sessions_m (mgr_of x)) = Some r -> smap_find k (sessions_m (mgr_of x')) = Some r;
  ew_service : service_sessionid_m (mgr_of x') !! s_peer x = service_sessionid_m (mgr_of x) !! s_peer x;
  ew_obj : session_of x' = session_of x;
  ew_log : chatLogsM (s_app x') !! s_peer x = chatLogsM (s_app x) !! s_peer x;
  ew_mail : forall ms, waiting (mgr_of x) ms ->
    exists ms', waiting (mgr_of x') ms' /\ lines_of (s_peer x) ms' = lines_of (s_peer x) ms
}.

Lemma elsewhere_trans x1 x2 x3 : elsewhere x1 x2 -> elsewhere x2 x3 -> elsewhere x1 x3.
Proof.
  intros [R1 P1 S1 V1 O1 L1 M1] [R2 P2 S2 V2 O2 L2 M2]. split; try congruence; [by intros k r Hk; apply S2, S1|].
  intros ms Hm. destruct (M1 ms Hm) as (ms1 & Hm1 & E1), (M2 ms1 Hm1) as (ms2 & Hm2 & E2).
  exists ms2. split; [done|]. by rewrite <- E1, <- P1.
Qed.

Lemma in_talk_elsewhere x x' s : elsewhere x x' -> in_talk x s -> in_talk x' s.
Proof. intros [R1 P1 S1 V1 O1 _ _] []. split; rewrite ?R1, ?P1, ?V1, ?O1; auto. Qed.

Lemma reflects_elsewhere x x' s s2 e : elsewhere x x' -> reflects x s s2 e -> reflects x' s s2 e.
Proof.
  intros [R1 P1 S1 V1 O1 L1 M1] [Hl (ms & cms & Hm & Hc & Hf & He) Hear]. split; [by rewrite P1, L1| |done].
  destruct (M1 ms Hm) as (ms' & Hm' & El). exists ms', cms. rewrite P1, El. done.
Qed.

Lemma link_elsewhere x x' y ex ey : elsewhere x x' -> link x y ex ey -> link x' y ex ey.
Proof.
  intros Hw (sx & sy & Hx & Hy & Hrx & Hry). exists sx, sy. split; [by eapply in_talk_elsewhere|]. split; [done|].
  split; [by eapply reflects_elsewhere|done].
Qed.

(** The application changed, but neither its manager nor its logs. *)
Lemma elsewhere_view x a : manager a = mgr_of x -> chatLogsM a = chatLogsM (s_app x) -> elsewhere x (with_app x a).
Proof.
  intros Hm Hl. split; unfold session_of, mgr_of in *; cbn [with_app s_app s_ref s_peer]; rewrite ?Hm, ?Hl; try done.
  intros ms. by exists ms.
Qed.

(** Another session of the machine changed. *)
Lemma elsewhere_session x s : self s <> s_ref x -> elsewhere x (with_session x s).
Proof.
  intros Hs. split; try done; [|intros ms; by exists ms].
  unfold session_of, with_session, put_back, mgr_of. cbn. by apply lookup_insert_ne.
Qed.

(** The mailbox changed, but not what it has from the peer. *)
Lemma elsewhere_mail x ml ms ms' :
  waiting (mgr_of x) ms -> waiting (m_mail (mgr_of x) ml) ms' -> lines_of (s_peer x) ms' = lines_of (s_peer x) ms ->
  elsewhere x (with_mgr x (m_mail (mgr_of x) ml)).
Proof.
  intros Hm Hm' He. split; try done. intros ms0 Hms. rewrite (waiting_fun _ _ _ Hms Hm). by exists ms'.
Qed.

(** Another peer's log grew. *)
Lemma elsewhere_log x peer msg : peer <> s_peer x -> elsewhere x (with_app x (log_message (s_app x) peer msg)).
Proof.
  intros Hp. split; try done; [|intros ms; by exists ms].
  cbn. destruct (_ !! peer); by rewrite lookup_insert_ne.
Qed.

(** ** What keeps a machine at its desk *)

Lemma desk_view ps a a' :
  desk ps a -> manager a' = manager a -> app_base a' = app_base a ->
  uiState a' <> FileOffer -> (uiState a' = Chat -> ps (activeChatService a')) ->
  Forall (fun c => isprint c = true) (inputLine a') -> forallb is_post_message (posted_q a') = true -> desk ps a'.
Proof.
  intros [Hi Hb Hm Hu Hin Hp Hn Ht] Em Eb Hu1 Hu2 Hin' Hp'. split; rewrite ?Em, ?Eb; try done.
  intros q Hq. destruct (Ht q Hq) as (ref & s & Hs). exists ref, s.
  destruct Hs. by split; unfold session_of, mgr_of in *; cbn in *; rewrite ?Em.
Qed.

Lemma desk_mail ps a ml ms :
  desk ps a -> waiting (m_mail (manager a) ml) ms -> Forall (fun m => ps (cm_sender m)) ms ->
  desk ps (a_manager a (m_mail (manager a) ml)).
Proof.
  intros [Hi Hb Hm Hu Hin Hp Hn Ht] Hm' Hs. split; try done.
  - by apply (mgr_inv_same (manager a)).
  - by exists ms.
  - intros q Hq. destruct (Ht q Hq) as (ref & s & Hs0). exists ref, s. by destruct Hs0.
Qed.

Lemma desk_ext (ps ps' : string -> Prop) a : (forall q, ps' q <-> ps q) -> desk ps a -> desk ps' a.
Proof.
  intros He [Hi Hb (ms & Hm & Hs) [Hu Hc] Hin Hp Hn Ht]. split; try done.
  - exists ms. split; [done|]. apply (Forall_impl _ _ _ Hs). intros m. apply He.
  - split; [done|]. intros Hch. by apply He, Hc.
  - intros q Hq. by apply He, Hn.
  - intros q Hq. by apply Ht, He.
Qed.

Lemma elsewhere_refl x : elsewhere x x.
Proof. split; try done. intros ms. by exists ms. Qed.

Lemma desk_logs ps a l : desk ps a -> desk ps (a_logs a l).
Proof. intros Hd. pose proof (dk_ui _ _ Hd) as [Hu Hc]. apply (desk_view ps a); try done; apply Hd. Qed.

Lemma session_of_with x s : self s = s_ref x -> session_of (with_session x s) = Some s.
Proof. intros Hs. unfold session_of, with_session, put_back, mgr_of. cbn. rewrite Hs. apply lookup_insert_eq. Qed.

Lemma in_talk_session x s s' :
  in_talk x s -> same_id s s' -> s_state s' = BVSESSIONSTATE_ESTABLISHED -> between_lines s' ->
  in_talk (with_session x s') s'.
Proof.
  intros [Hf Hv Ho Hse Hst Hn Hw] [Hself Hsid Hnode] Hst' Hw'. split; try done; cbn.
  - by rewrite Hsid.
  - by rewrite Hsid.
  - apply session_of_with. by rewrite Hself.
  - by rewrite Hself.
  - by rewrite Hnode.
Qed.

Lemma desk_session ps x s s' :
  desk ps (s_app x) -> in_talk x s -> same_id s s' -> s_state s' = BVSESSIONSTATE_ESTABLISHED ->
  between_lines s' -> desk ps (s_app (with_session x s')).
Proof.
  intros [Hi Hb Hm Hu Hin Hp Hn Ht] Hx Hid Hst Hw. pose proof (it_obj _ _ Hx) as Ho. unfold session_of in Ho.
  assert (Hse : self s' = s_ref x) by (rewrite (sm_self _ _ Hid); apply (it_self _ _ Hx)).
  split; try done.
  - by apply (mgr_inv_put (mgr_of x) (s_ref x) s).
  - intros q Hq. apply Hn. change (q ∈ session_names (put_back (mgr_of x) s')) in Hq. rewrite (names_put_back_id _ _ s) in Hq; [done|by rewrite Hse|].
    by rewrite (sm_node _ _ Hid).
  - intros q Hq. destruct (Ht q Hq) as (r & s0 & Hs0). destruct x as [a r0 p]. cbn [s_app s_ref mgr_of] in *.
    destruct (decide (r = r0)) as [->|Hne].
    + exists r0, s'. rewrite (in_talk_same_ref _ _ _ _ _ _ Hs0 Hx). by apply (in_talk_session (MkSide a r0 p) s).
    + exists r, s0. apply (in_talk_elsewhere (MkSide a r q)); [|done].
      apply (elsewhere_session (MkSide a r q)). cbn. congruence.
Qed.

(** What happens to one session of a machine is seen on its link alone. *)
Lemma link_session x s s' y ex ey :
  in_talk x s -> self s' = self s -> forall x1, s_app x1 = s_app x -> link x1 y ex ey ->
  (s_ref x1 = s_ref x -> s_peer x1 = s_peer x -> link (with_session x s') y ex ey) ->
  link (with_app x1 (s_app (with_session x s'))) y ex ey.
Proof.
  intros Hx Hs [a1 r1 p1] Ha Hl Hsame. destruct x as [a r p]. cbn [s_app s_ref s_peer] in *. subst a1.
  destruct (decide (r1 = r)) as [->|Hne].
  - destruct Hl as (s1 & sy & Hs1 & Hrest). pose proof (in_talk_same_ref _ _ _ _ _ _ Hs1 Hx) as ->. by apply Hsame.
  - apply (link_elsewhere (MkSide a r1 p1)); [|exact Hl]. apply (elsewhere_session (MkSide a r1 p1)).
    cbn. rewrite Hs, (it_self _ _ Hx). cbn. congruence.
Qed.

(** ** Events *)

(** From [a] to [a'] the machine does what [ev] says, on every link it has. *)
Definition performs (ps : string -> Prop) (a a' : App Q) (ev : event) : Prop :=
  desk ps a' /\ thisName (manager a') = thisName (manager a) /\ concerns ps (thisName (manager a)) ev /\
  forall x y ex ey, s_app x = a -> link x y ex ey ->
    possible ev (s_peer x) ex /\
    link (with_app x a') y (own_end ev (s_peer x) ex) (peer_end ev (s_peer x) (s_peer y) ey).

Lemma performs_silent ps a a' :
  desk ps a' -> thisName (manager a') = thisName (manager a) ->
  (forall x y ex ey, s_app x = a -> link x y ex ey -> link (with_app x a') y ex ey) -> performs ps a a' Silent.
Proof. intros Hd Hn Hl. split; [done|]. split; [done|]. split; [exact I|]. intros x y ex ey Hx Hxy. split; [done|by apply Hl]. Qed.

(** The screen and the line being typed are nothing to the links. *)
Lemma performs_view ps a a' :
  desk ps a -> manager a' = manager a -> app_base a' = app_base a -> chatLogsM a' = chatLogsM a ->
  uiState a' <> FileOffer -> (uiState a' = Chat -> ps (activeChatService a')) ->
  Forall (fun c => isprint c = true) (inputLine a') -> forallb is_post_message (posted_q a') = true ->
  performs ps a a' Silent.
Proof.
  intros Hd Hm Hb Hl Hu Hc Hi Hp. apply performs_silent; [by apply (desk_view ps a)|by rewrite Hm|].
  intros x y ex ey <- Hxy. apply (link_elsewhere x); [by apply elsewhere_view|done].
Qed.

(** What drawing leaves alone. *)
Record kept (a a' : App Q) : Prop := {
  kp_mgr : manager a' = manager a;
  kp_base : app_base a' = app_base a;
  kp_logs : chatLogsM a' = chatLogsM a;
  kp_ui : uiState a' = uiState a /\ activeChatService a' = activeChatService a;
  kp_input : inputLine a' = inputLine a;
  kp_posted : posted_q a' = posted_q a
}.

Lemma RenderChat_kept e (a a' : App Q) : RenderChat ctime e a = Ok a' -> kept a a'.
Proof. unfold RenderChat. intros Hf. ok_steps; by split. Qed.

Lemma Render_kept e (a a' : App Q) : Render ctime e a = Ok a' -> kept a a'.
Proof.
  unfold Render. destruct (uiState a); intros Hf; [by injection Hf as <-|by apply RenderChat_kept in Hf|].
  injection Hf as <-. unfold RenderFileOffer. destruct (pendingOffer a); by split.
Qed.

Lemma desk_kept ps a a' : kept a a' -> desk ps a -> desk ps a'.
Proof.
  intros [Hm Hb Hl [Hu Hc] Hi Hp] Hd. pose proof (dk_ui _ _ Hd) as [Hu0 Hc0].
  apply (desk_view ps a); rewrite ?Hm, ?Hb, ?Hu, ?Hc, ?Hi, ?Hp; try done; apply Hd.
Qed.

(** Drawing after an event does not change what the event was. *)
Lemma performs_kept ps a a1 a' ev : kept a1 a' -> performs ps a a1 ev -> performs ps a a' ev.
Proof.
  intros Hk (Hd & Hn & Hc & Hl). pose proof Hk as [Hm _ Hlog _ _ _].
  split; [by apply (desk_kept ps a1)|]. split; [by rewrite Hm|]. split; [done|].
  intros x y ex ey Hx Hxy. destruct (Hl x y ex ey Hx Hxy) as [Hp Hxy1]. split; [done|].
  apply (link_elsewhere (with_app x a1)); [|done]. by apply (elsewhere_view (with_app x a1)).
Qed.

(** The specification's end depends on the log, the mail and the bytes. *)
Lemma reflects_same x sx sy e x' sx' sy' :
  reflects x sx sy e -> s_peer x' = s_peer x -> chatLogsM (s_app x') = chatLogsM (s_app x) ->
  mgr_mail (mgr_of x') = mgr_mail (mgr_of x) -> mailbox (mgr_of x') = mailbox (mgr_of x) ->
  rx (sock sx') ++ tx (sock sy') ++ pending sy' = rx (sock sx) ++ tx (sock sy) ++ pending sy ->
  same_reading sx sx' -> reflects x' sx' sy' e.
Proof.
  intros [Hl (ms & cms & Hm & Hc & Hf & Hi) He] Hp Hlog Hml Hbox Hb Hr. split; [by rewrite Hlog, Hp| |by apply (ear_same _ sx)].
  exists ms, cms. unfold waiting, mgr_app_mail in *. rewrite Hml, Hbox, Hb, Hp. done.
Qed.

(** A write completes. *)
Lemma between_lines_written s :
  between_lines s -> s_state s = BVSESSIONSTATE_ESTABLISHED ->
  between_lines (complete_write P s) /\ rx (sock (complete_write P s)) = rx (sock s) /\
  tx (sock (complete_write P s)) ++ pending (complete_write P s) = tx (sock s) ++ pending s.
Proof.
  intros (Hl & Hsz & [Hw|(Ht & b & Hw)]) Hst.
  - unfold complete_write. rewrite Hw. by repeat split; try left.
  - rewrite (complete_writing P s b) by (done || by rewrite Hst). unfold ClearWriteBuffer, pending. sess. rewrite Hw.
    cbn [wo_sent wo_len]. split; [|split; [done|by rewrite app_nil_r]].
    split; [|split; [done|by left]]. sess. rewrite length_app, length_drop, Hl. reflexivity.
Qed.

Lemma written_event ps x s :
  desk ps (s_app x) -> in_talk x s -> performs ps (s_app x) (s_app (with_session x (complete_write P s))) Silent.
Proof.
  intros Hd Hx. destruct (between_lines_written s (it_write _ _ Hx) (it_state _ _ Hx)) as (Hb & Hr & Ht).
  pose proof (complete_write_same P s) as Hid.
  assert (Hst : s_state (complete_write P s) = BVSESSIONSTATE_ESTABLISHED)
    by (rewrite complete_write_state; apply (it_state _ _ Hx)).
  apply performs_silent; [by apply (desk_session ps x s)|done|]. intros x1 y ex ey Ha Hl.
  apply (link_session x s); try done; [apply (sm_self _ _ Hid)|]. intros Hr1 Hp1.
  assert (x1 = x) as -> by (destruct x, x1; cbn in *; congruence).
  destruct Hl as (s1 & sy & Hx1 & Hy & Hrx & Hry). pose proof (in_talk_fun _ _ _ Hx1 Hx) as ->.
  exists (complete_write P s), sy. split; [by apply (in_talk_session x s)|]. split; [done|]. split.
  - apply (reflects_same x s sy ex); try done; [by rewrite Hr|apply complete_write_reading].
  - apply (reflects_same y sy s ey); try done. by rewrite Ht.
Qed.

(** A read completes: a frame in the socket becomes mail. *)
Lemma frames_split cms r rest :
  Forall chat_ok cms -> r ++ rest = frames_of cms -> (MESSAGE_FRAME_SIZE_BYTES <= length r)%nat ->
  exists cm cms' r', cms = cm :: cms' /\ chat_ok cm /\ Forall chat_ok cms' /\ r = message_bytes cm ++ r' /\
    r' ++ rest = frames_of cms'.
Proof.
  intros Hc Hf Hl. destruct cms as [|cm cms].
  { apply (f_equal length) in Hf. rewrite length_app in Hf. cbn in Hf. unfold MESSAGE_FRAME_SIZE_BYTES in Hl. lia. }
  apply Forall_cons in Hc as [Hcm Hc]. exists cm, cms, (drop MESSAGE_FRAME_SIZE_BYTES r).
  pose proof (length_message_frame cm (co_payload cm Hcm)) as Hlen.
  change (frames_of (cm :: cms)) with (message_bytes cm ++ frames_of cms) in Hf.
  rewrite <- (take_drop MESSAGE_FRAME_SIZE_BYTES r), <- (assoc_L (++)) in Hf.
  apply app_inj_1 in Hf as [Hr Hf]; [|rewrite length_take; lia].
  split; [done|]. split; [done|]. split; [done|]. split; [|exact Hf]. rewrite <- Hr. symmetry. apply take_drop.
Qed.

Lemma frame_read e x s ms cm r :
  eager_read P = false -> in_talk x s -> listening s -> waiting (mgr_of x) ms -> chat_ok cm -> rx (sock s) = message_bytes cm ++ r ->
  exists ml, waiting (m_mail (mgr_of x) ml) (ms ++ [chat_of (s_peer x) cm]) /\
    on_readable P e (s_ref x) (mgr_of x) = Ok (Some (put_back (m_mail (mgr_of x) ml) (rearmed s r))).
Proof.
  intros HP Hx Hli Hm Hcm Hrx. destruct (push_msg_holds _ _ _ (chat_event (s_peer x) cm) Hm) as (ml & Hpush & Hm' & _).
  exists ml. split; [unfold waiting; rewrite map_app; exact Hm'|].
  pose proof (it_obj _ _ Hx) as Ho. unfold on_readable. unfold session_of in Ho. rewrite Ho.
  cbn [from_option_err mbind result_bind].
  rewrite (chat_frame_read P e s (mgr_of x) (m_mail (mgr_of x) ml) cm r); [done|by left|
    exact Hli|apply (it_state _ _ Hx)|done|exact Hrx|].
  cbn. unfold mgr_PutMessageIntoAppMailbox. by rewrite (it_node _ _ Hx), Hpush.
Qed.

Lemma frame_not_read e x s :
  in_talk x s -> listening s -> (length (rx (sock s)) < MESSAGE_FRAME_SIZE_BYTES)%nat ->
  on_readable P e (s_ref x) (mgr_of x) = Ok None.
Proof.
  intros Hx Hli Hlen. pose proof (it_obj _ _ Hx) as Ho. unfold on_readable. unfold session_of in Ho. rewrite Ho.
  cbn [from_option_err mbind result_bind]. by rewrite (complete_read_short P e s (mgr_of x) Hli Hlen).
Qed.

Lemma deaf_not_read e x s : in_talk x s -> deaf s -> on_readable P e (s_ref x) (mgr_of x) = Ok None.
Proof.
  intros Hx Hde. pose proof (it_obj _ _ Hx) as Ho. unfold on_readable. unfold session_of in Ho. rewrite Ho.
  cbn [from_option_err mbind result_bind]. unfold complete_read. by rewrite Hde.
Qed.

(** A read of an end whose link is in order: nothing yet, or the first frame. *)
Lemma in_talk_read x s ms r ml :
  in_talk x s -> waiting (m_mail (mgr_of x) ml) ms ->
  in_talk (with_mgr x (put_back (m_mail (mgr_of x) ml) (rearmed s r))) (rearmed s r).
Proof.
  intros Hx Hm. assert (Hx1 : in_talk (with_mgr x (m_mail (mgr_of x) ml)) s) by (destruct Hx; by split).
  apply (in_talk_session (with_mgr x (m_mail (mgr_of x) ml)) s);
    [done|by split|apply (it_state _ _ Hx)|apply (it_write _ _ Hx)].
Qed.

Lemma link_read e x y ex ey :
  eager_read P = false -> link x y ex ey ->
  on_readable P e (s_ref x) (mgr_of x) = Ok None \/
  exists sx ms cm r ml, in_talk x sx /\ waiting (mgr_of x) ms /\
    waiting (m_mail (mgr_of x) ml) (ms ++ [chat_of (s_peer x) cm]) /\
    on_readable P e (s_ref x) (mgr_of x) = Ok (Some (put_back (m_mail (mgr_of x) ml) (rearmed sx r))) /\
    link (with_mgr x (put_back (m_mail (mgr_of x) ml) (rearmed sx r))) y ex ey.
Proof.
  intros HP (sx & sy & Hx & Hy & [Hl (ms & cms & Hm & Hc & Hf & Hi) Hear] & Hry).
  destruct (e_open ex) eqn:Hopen; [|left; by apply (deaf_not_read e x sx)]. cbn [ear] in Hear.
  destruct (le_lt_dec MESSAGE_FRAME_SIZE_BYTES (length (rx (sock sx)))) as [Hlen|Hlen].
  2:{ left. by apply (frame_not_read e x sx). }
  destruct (frames_split cms _ _ Hc Hf Hlen) as (cm & cms' & r & -> & Hcm & Hc' & Hrx & Hf'). right.
  destruct (frame_read e x sx ms cm r HP Hx Hear Hm Hcm Hrx) as (ml & Hm' & Hr). exists sx, ms, cm, r, ml.
  split; [done|]. split; [done|]. split; [done|]. split; [done|].
  exists (rearmed sx r), sy. split; [by eapply in_talk_read|]. split; [done|]. split; [|by apply (reflects_same y sy sx ey)].
  split; [exact Hl| |rewrite Hopen; apply listening_rearmed].
  exists (ms ++ [chat_of (s_peer x) cm]), cms'. split; [exact Hm'|]. split; [done|]. split; [exact Hf'|].
  cbn [with_mgr with_app s_peer]. rewrite Hopen, Hi, lines_of_app, lines_of_one, decide_True by done.
  by rewrite <- (assoc_L (++)).
Qed.

Lemma read_event ps e x y m ex ey :
  eager_read P = false -> desk ps (s_app x) -> ps (s_peer x) -> link x y ex ey ->
  on_readable P e (s_ref x) (mgr_of x) = Ok (Some m) -> performs ps (s_app x) (a_manager (s_app x) m) Silent.
Proof.
  intros HP Hd Hpx Hxy Hr. destruct (link_read e x y ex ey HP Hxy) as [Hn|(sx & ms & cm & r & ml & Hx & Hm & Hm' & Hr' & _)];
    [by rewrite Hn in Hr|]. rewrite Hr' in Hr. injection Hr as <-.
  set (x1 := with_mgr x (m_mail (mgr_of x) ml)).
  assert (Hx1 : in_talk x1 sx) by (destruct Hx; by split).
  destruct (dk_mail _ _ Hd) as (ms0 & Hm0 & Hs). pose proof (waiting_fun _ _ _ Hm0 Hm) as ->.
  assert (Hd1 : desk ps (s_app x1)).
  { apply (desk_mail ps (s_app x) ml (ms ++ [chat_of (s_peer x) cm])); [done|done|].
    apply Forall_app. split; [done|]. by apply Forall_singleton. }
  apply performs_silent; [|done|].
  { apply (desk_session ps x1 sx); [done|done|by split|apply (it_state _ _ Hx)|apply (it_write _ _ Hx)]. }
  intros x2 y2 ex2 ey2 Ha Hl2. destruct (decide (s_ref x2 = s_ref x)) as [Hre|Hre].
  - assert (x2 = x) as ->.
    { destruct x as [a r0 p], x2 as [a2 r2 p2]. cbn in *. subst. f_equal. destruct Hl2 as (s2 & _ & Hs2 & _).
      by apply (in_talk_same_ref a r0 _ _ s2 sx). }
    destruct (link_read e x y2 ex2 ey2 HP Hl2) as [Hn|(s2 & _ & _ & r2 & ml2 & _ & _ & _ & Hr2 & Hl')];
      [by rewrite Hn in Hr'|]. rewrite Hr' in Hr2.
    assert (He : forall m1 m2 : Manager Q, Ok (Some m1) = Ok (Some m2) -> m1 = m2) by (by intros m1 m2 [=]).
    apply He in Hr2. by rewrite <- Hr2 in Hl'.
  - assert (Hpe : s_peer x2 <> s_peer x).
    { intros He. apply Hre. destruct x as [a r0 p], x2 as [a2 r2 p2]. cbn in *. subst. destruct Hl2 as (s2 & _ & Hs2 & _).
      by apply (in_talk_same_peer a _ _ p s2 sx). }
    destruct x as [a r0 p], x2 as [a2 r2 p2]. cbn [s_app] in Ha. subst a2. apply (link_elsewhere (MkSide a r2 p2)); [|exact Hl2].
    eapply elsewhere_trans.
    + apply (elsewhere_mail (MkSide a r2 p2) ml ms (ms ++ [chat_of p cm])); [done|done|].
      rewrite lines_of_app, lines_of_one, decide_False by (cbn in *; congruence). apply app_nil_r.
    + apply (elsewhere_session (MkSide (s_app x1) r2 p2)). cbn. rewrite (it_self _ _ Hx). cbn in *. congruence.
Qed.

(** Handled mail is heard. *)
Lemma mail_handled ps a :
  desk ps a ->
  waiting (manager a) [] /\ ListenToMail 1 (app_loop a) a (mgr_mail (manager a)) = Ok (Blocked, a, mgr_mail (manager a)) \/
  exists msg ms m1, waiting (manager a) (msg :: ms) /\ ps (cm_sender msg) /\ Forall (fun m => ps (cm_sender m)) ms /\
    waiting (m_mail (manager a) m1) ms /\
    ListenToMail 1 (app_loop a) a (mgr_mail (manager a)) =
      Ok (OutOfFuel, post (log_message (a_manager a (m_mail (manager a) m1)) (cm_sender msg) msg)
            (Post_Message (cm_sender msg) (cm_textData msg)), m1).
Proof.
  intros Hd. destruct (dk_mail _ _ Hd) as (ms & Hm & Hs). pose proof (dk_box _ _ Hd) as Hb.
  pose proof Hm as Hm0. unfold waiting, mgr_app_mail in Hm0. rewrite Hb in Hm0.
  change (inMailBox_p (app_base a)) with (inMailBox_p (comp_base (app_loop a))) in Hm0.
  destruct ms as [|msg ms]; [left; split; [done|by apply (ListenToMail_empty (app_loop a) _ _ 0 eq_refl Hm0)]|right].
  destruct (ListenToMail_next (app_loop a) _ _ _ eq_refl Hm0) as (m1 & Hm1 & Hn).
  destruct (console_callbacks resolve (app_base a)) as (_ & _ & _ & _ & Hcb).
  apply Forall_cons in Hs as [Hs1 Hs]. exists msg, ms, m1. split; [done|]. split; [done|]. split; [done|]. split.
  { unfold waiting, mgr_app_mail. cbn [mailbox mgr_mail m_mail]. rewrite Hb. exact Hm1. }
  rewrite (Hn _ a 0%nat Hcb). cbn [incoming data_p event_t].
  unfold as_handler, HandleMessageIncoming. cbn [mbind result_bind]. rewrite decide_False by tauto.
  change (stops_listening _) with false. cbn [ListenToMail]. by change (isListeningToMail (app_loop a)) with true.
Qed.

Lemma logged_as x peer msg :
  default [] (logV <$> chatLogsM (log_message (s_app x) peer msg) !! peer) =
  default [] (logV <$> chatLogsM (s_app x) !! peer) ++ [msg].
Proof. cbn. destruct (chatLogsM (s_app x) !! peer); by rewrite lookup_insert_eq. Qed.

Lemma logged_end x msg :
  s_peer x = cm_sender msg ->
  default [] (logV <$> chatLogsM (log_message (s_app x) (cm_sender msg) msg) !! s_peer x) =
  default [] (logV <$> chatLogsM (s_app x) !! s_peer x) ++ [msg].
Proof. intros ->. apply logged_as. Qed.

Lemma mail_event ps a a' ml :
  desk ps a -> ListenToMail 1 (app_loop a) a (mgr_mail (manager a)) = Ok (OutOfFuel, a', ml) ->
  exists msg, performs ps a a' (Hears msg).
Proof.
  intros Hd HL. destruct (mail_handled ps a Hd) as [[_ HB]|(msg & ms & m1 & Hm & Hps & Hs & Hm1 & HB)]; rewrite HB in HL; [done|].
  injection HL as <- _. exists msg. set (a1 := a_manager a (m_mail (manager a) m1)).
  assert (Hd1 : desk ps a1) by by apply (desk_mail ps a m1 ms).
  pose proof (dk_ui _ _ Hd1) as [Hu Hc]. split; [|split; [done|split; [exact Hps|]]].
  { apply (desk_view ps a1); try done; [apply Hd1|]. cbn. rewrite forallb_app, andb_true_iff. split; [apply (dk_posted _ _ Hd)|done]. }
  intros x y ex ey Hx Hxy. cbn [own_end peer_end]. destruct x as [a0 r p]. cbn [s_app] in Hx. subst a0. cbn [s_peer].
  destruct (decide (cm_sender msg = p)) as [Hp|Hp].
  2:{ split; [by intros ?|]. apply (link_elsewhere (MkSide a r p)); [|done].
    apply (elsewhere_trans _ (MkSide a1 r p)).
    - apply (elsewhere_mail (MkSide a r p) m1 (msg :: ms) ms); [done|done|].
      by rewrite lines_of_cons, lines_of_one, decide_False.
    - apply (elsewhere_trans _ (MkSide (log_message a1 (cm_sender msg) msg) r p)).
      + by apply (elsewhere_log (MkSide a1 r p)).
      + by apply (elsewhere_view (MkSide (log_message a1 (cm_sender msg) msg) r p)). }
  destruct Hxy as (sx & sy & Hx & Hy & [Hl (ms0 & cms & Hm0 & Hcm & Hf & Hi) Hear] & Hry).
  pose proof (waiting_fun _ _ _ Hm0 Hm) as ->. rewrite lines_of_cons, lines_of_one, decide_True in Hi by done.
  split; [intros _; eexists; exact Hi|].
  exists sx, sy. split; [by destruct Hx; split|]. split; [done|]. split; [|by apply (reflects_same y sy sx ey)].
  split; [rewrite Hl; symmetry; apply (logged_end (MkSide a1 r p)); by rewrite <- Hp| |exact Hear].
  exists ms, cms. split; [exact Hm1|]. split; [done|]. split; [done|]. cbn. by rewrite Hi.
Qed.

(** The event loop draws what was posted. *)
Lemma posted_event ps e a a' : desk ps a -> run_posted ctime e a = Ok a' -> performs ps a a' Silent.
Proof.
  intros Hd Hr. pose proof (dk_ui _ _ Hd) as [Hu Hc]. pose proof (dk_posted _ _ Hd) as Hp.
  assert (Hsame : performs ps a a Silent) by (apply performs_view; try done; apply Hd).
  unfold run_posted in Hr. destruct (io_stopped a); [by injection Hr as <-|].
  destruct (posted_q a) as [|[sender text|o] l]; [by injection Hr as <-| |done].
  case_decide; [apply RenderChat_kept in Hr|apply Render_kept in Hr]; eapply performs_kept; try exact Hr.
  all: apply performs_view; try done; try apply Hd.
Qed.

(** Bytes cross. *)
Lemma session_changes ps x s s' :
  desk ps (s_app x) -> in_talk x s -> same_id s s' -> s_state s' = s_state s -> between_lines s' ->
  desk ps (s_app (with_session x s')) /\ in_talk (with_session x s') s' /\
  forall x1 y ex ey, s_app x1 = s_app x -> s_ref x1 <> s_ref x -> link x1 y ex ey ->
    link (with_app x1 (s_app (with_session x s'))) y ex ey.
Proof.
  intros Hd Hx Hid Hst Hw. rewrite (it_state _ _ Hx) in Hst.
  split; [by apply (desk_session ps x s)|]. split; [by apply (in_talk_session x s)|].
  intros x1 y ex ey Ha Hr Hl. apply (link_session x s); try done. apply (sm_self _ _ Hid).
Qed.

Lemma cross_link n x y sx sy ex ey :
  in_talk x sx -> in_talk y sy -> link x y ex ey ->
  in_talk (with_session x (carry n sx)) (carry n sx) ->
  in_talk (with_session y (receive sy (take n (tx (sock sx))))) (receive sy (take n (tx (sock sx)))) ->
  link (with_session x (carry n sx)) (with_session y (receive sy (take n (tx (sock sx))))) ex ey.
Proof.
  intros Hsx Hsy (sx' & sy' & Hx & Hy & Hrx & Hry) Hx' Hy'.
  pose proof (in_talk_fun _ _ _ Hx Hsx) as ->. pose proof (in_talk_fun _ _ _ Hy Hsy) as ->.
  exists (carry n sx), (receive sy (take n (tx (sock sx)))). split; [done|]. split; [done|].
  split; [by apply (reflects_same x sx sy ex)|].
  apply (reflects_same y sy sx ey); try done. cbn. change (pending (carry n sx)) with (pending sx).
  rewrite <- (assoc_L (++)). f_equal. rewrite (assoc_L (++)). by rewrite take_drop.
Qed.

(** ** Keys *)

(** An event from an application that differs only on the screen. *)
Lemma performs_from ps a a0 a1 ev :
  manager a0 = manager a -> chatLogsM a0 = chatLogsM a -> performs ps a0 a1 ev -> performs ps a a1 ev.
Proof.
  intros Hm Hlog (Hd & Hn & Hc & Hl). split; [done|]. split; [by rewrite Hn, Hm|]. split; [by rewrite <- Hm|].
  intros [b r q] y ex ey Hx Hxy. cbn [s_app] in Hx. subst b. apply (Hl (MkSide a0 r q) y ex ey eq_refl).
  apply (link_elsewhere (MkSide a r q)); [by apply (elsewhere_view (MkSide a r q))|done].
Qed.

Lemma performs_same ps a : desk ps a -> performs ps a a Silent.
Proof. intros Hd. pose proof (dk_ui _ _ Hd) as [Hu Hc]. apply performs_view; try done; apply Hd. Qed.

Lemma frames_of_snoc cms cm : frames_of (cms ++ [cm]) = frames_of cms ++ message_bytes cm.
Proof. unfold frames_of. rewrite map_app, concat_app. cbn. by rewrite app_nil_r. Qed.

Lemma chat_of_line name own0 t line :
  0 <= t < 2 ^ 64 -> chat_of name (ConstructChatMessageFromInput t line) = as_heard name (said own0 t line).
Proof.
  intros Ht. pose proof (typed_chat_event t line name Ht) as He.
  change (chat_event name ?cm) with (incoming (chat_of name cm)) in He. injection He as H1 H2.
  unfold chat_of, as_heard, said. cbn [cm_textData cm_sender cm_timestamp]. rewrite chars_str. by f_equal.
Qed.

(** What the session of a link sends, its other end is going to hear. *)
Lemma written_link e x y s line ex ey :
  0 <= now e < 2 ^ 64 -> Forall (fun c => isprint c = true) line -> in_talk x s -> writes (sock s) = [] ->
  let cm := ConstructChatMessageFromInput (now e) line in
  let s' := writing P s (message_bytes cm) in
  let msg := said (own x) (now e) line in
  in_talk (with_session x s') s' -> link x y ex ey ->
  link (with_app x (log_message (s_app (with_session x s')) (s_peer x) msg)) y
    (MkEnd (e_log ex ++ [msg]) (e_in ex) (e_open ex)) (coming (as_heard (s_peer y) msg) ey).
Proof.
  intros Ht Hp Hs Hwr cm s' msg Hs' (sx & sy & Hx & Hy & [Hl Hin Hear] & [Hly (ms & cms & Hm & Hc & Hf & Hi) Heary]).
  pose proof (in_talk_fun _ _ _ Hx Hs) as ->. pose proof (typed_chat_ok (now e) line Hp) as Hok. fold cm in Hok.
  exists s', sy. split; [by destruct Hs'; split|]. split; [done|]. split.
  - split; [|exact Hin|by apply (ear_same _ s)]. cbn [e_log]. rewrite Hl. symmetry. apply (logged_as (with_session x s')).
  - assert (Hcom : e_log (coming (as_heard (s_peer y) msg) ey) = e_log ey /\
      e_open (coming (as_heard (s_peer y) msg) ey) = e_open ey) by (unfold coming; by destruct (e_open ey) eqn:?).
    destruct Hcom as [Hc1 Hc2]. split; [by rewrite Hc1| |by rewrite Hc2]. exists ms, (cms ++ [cm]). split; [done|]. split; [by apply Forall_app; split; [|apply Forall_singleton]|].
    split.
    + rewrite frames_of_snoc, <- Hf. unfold s', writing, pending. sess. rewrite Hwr. cbn [wo_sent wo_len].
      rewrite app_nil_r, <- !(assoc_L (++)). do 2 f_equal.
      destruct (eager_write P); [by rewrite app_nil_r|]. apply take_frame. by apply length_message_frame, co_payload.
    + unfold coming. destruct (e_open ey) eqn:Ho; [|by rewrite Ho]. cbn [e_in e_open]. rewrite Hi, map_app. cbn [map]. unfold cm, msg.
      rewrite (chat_of_line _ (own x)) by done. by rewrite (assoc_L (++)).
Qed.

(** The line that Enter sends. *)
Lemma line_sent ps e a q line :
  desk ps a -> ps q -> 0 <= now e < 2 ^ 64 -> Forall (fun c => isprint c = true) line -> take 3 line <> chars "|f " ->
  (forall r s, in_talk (MkSide a r q) s -> writes (sock s) = []) ->
  exists r s, let x := MkSide a r q in let s' := writing P s (message_bytes (ConstructChatMessageFromInput (now e) line)) in
    in_talk x s /\ writes (sock s) = [] /\ same_id s s' /\ s_state s' = s_state s /\ between_lines s' /\
    SendChatLine P e a q line = Ok (log_message (s_app (with_session x s')) q (said (own x) (now e) line)).
Proof.
  intros Hd Hq Ht Hp Hfile Hidle. destruct (dk_talks _ _ Hd q Hq) as (r & s & Hs). exists r, s. intros x s'.
  pose proof (Hidle r s Hs) as Hwr. pose proof (it_write _ _ Hs) as (Hws & Hwz & _). assert (Hw : writable s) by by split.
  pose proof (typed_chat_ok (now e) line Hp) as Hok. pose proof (length_message_frame _ (co_payload _ Hok)) as Hlen.
  split; [done|]. split; [done|]. split; [by split|]. split; [done|].
  split; [split; [exact Hlen|]; split; [done|]; right; split; [done|]; by eexists|].
  rewrite (SendChatLine_line P e a q line (sessionID s) r s); [|apply (it_service _ _ Hs)|apply (it_found _ _ Hs)|
    apply (it_obj _ _ Hs)|done|done|apply (co_payload _ Hok)].
  unfold said, own, thisName, u64. rewrite wrap_small by done. fold s'. cbn [with_session with_mgr with_app s_app].
  unfold put_back, mgr_of. cbn [s_app x]. by change (self s') with (self s); rewrite (it_self _ _ Hs).
Qed.

Lemma line_event ps e a q line a' :
  desk ps a -> ps q -> 0 <= now e < 2 ^ 64 -> Forall (fun c => isprint c = true) line -> take 3 line <> chars "|f " ->
  (forall r s, in_talk (MkSide a r q) s -> writes (sock s) = []) ->
  SendChatLine P e a q line = Ok a' -> performs ps a a' (Says q (said (thisName (manager a)) (now e) line)).
Proof.
  intros Hd Hq Ht Hp Hfile Hidle Hsend.
  destruct (line_sent ps e a q line Hd Hq Ht Hp Hfile Hidle) as (r & s & Hs & Hwr & Hid & Hst & Hw & Hok).
  rewrite Hok in Hsend. injection Hsend as <-. clear Hok. set (x := MkSide a r q) in *. set (s' := writing _ _ _) in *.
  destruct (session_changes ps x s s' Hd Hs Hid Hst Hw) as (Hd1 & Hs' & Hoth).
  split; [by apply (desk_logs ps (s_app (with_session x s')))|]. split; [done|]. split; [split; [done|by eexists _, _]|].
  intros [a1 r1 q1] y ex ey Ha Hl. cbn [s_app] in Ha. subst a1. split; [done|]. cbn [own_end peer_end s_peer].
  destruct (decide (q = q1)) as [<-|Hne].
  - assert (r1 = r) as ->.
    { destruct Hl as (s1 & _ & Hs1 & _). by apply (in_talk_same_peer a r1 r q s1 s). }
    by apply (written_link e x y s line ex ey).
  - apply (link_elsewhere (MkSide (s_app (with_session x s')) r1 q1)); [exact (elsewhere_log (MkSide (s_app (with_session x s')) r1 q1) q _ Hne)|].
    apply (Hoth (MkSide a r1 q1) y ex ey eq_refl); [|done]. cbn. intros ->.
    destruct Hl as (s1 & _ & Hs1 & _). apply Hne. by apply (in_talk_same_ref a r q q1 s s1).
Qed.

Lemma menu_key_event ps e c a a' :
  desk ps a -> uiState a = MainMenu -> key_allowed a c -> HandleMainMenuKey ctime e a c = Ok a' -> performs ps a a' Silent.
Proof.
  intros Hd Hui Hk Ha. unfold key_allowed in Hk. rewrite Hui in Hk. pose proof (performs_same ps a Hd) as Hsame.
  unfold HandleMainMenuKey in Ha. destruct (ParseConsoleActionFromKey c) as [r|]; [|by injection Ha as <-].
  destruct (Hk r eq_refl) as [Hr|[Hr|Hr]]; rewrite Hr in Ha.
  - apply Render_kept in Ha. by apply (performs_kept ps a a).
  - destruct (pr_num r) as [n|]; [|by injection Ha as <-]. unfold EnterChat in Ha.
    destruct (_ || _)%bool; [by injection Ha as <-|].
    apply bind_ok in Ha as (name & Hn & Ha). apply RenderChat_kept in Ha. eapply performs_kept; [exact Ha|].
    apply performs_view; try done; [|apply (dk_posted _ _ Hd)]. intros _. apply (dk_names _ _ Hd).
    cbn. destruct (session_names (manager a) !! Z.to_nat (n - 1)) as [q|] eqn:E; [|done]. injection Hn as <-.
    by apply list_elem_of_lookup_2 in E.
  - by injection Ha as <-.
Qed.

Lemma active_in_talk a r s : in_talk (MkSide a r (activeChatService a)) s -> active_session a = Some s.
Proof.
  intros Hs. unfold active_session. pose proof (it_service _ _ Hs) as Hsv. pose proof (it_found _ _ Hs) as Hf.
  unfold mgr_of in Hsv, Hf. cbn in Hsv, Hf. rewrite Hsv. cbn. rewrite Hf. apply (it_obj _ _ Hs).
Qed.

(** In the chat: a line is said, everything else stays on the screen. *)
Lemma chat_key_event ps e c a a' :
  desk ps a -> uiState a = Chat -> key_allowed a c -> 0 <= now e < 2 ^ 64 -> HandleChatKey ctime P e a c = Ok a' ->
  exists ev, performs ps a a' ev.
Proof.
  intros Hd Hui Hk Ht Ha. unfold key_allowed in Hk. rewrite Hui in Hk.
  pose proof (dk_ui _ _ Hd) as [_ Hac]. specialize (Hac Hui). pose proof (dk_input _ _ Hd) as Hin.
  assert (Hstay : forall b, manager b = manager a -> app_base b = app_base a -> chatLogsM b = chatLogsM a ->
    uiState b <> FileOffer -> (uiState b = Chat -> activeChatService b = activeChatService a) ->
    Forall (fun c => isprint c = true) (inputLine b) -> posted_q b = posted_q a -> performs ps a b Silent).
  { intros b Hm Hb Hl Hu Hc Hi Hpo. apply performs_view; try done; [|rewrite Hpo; apply (dk_posted _ _ Hd)].
    intros Hcb. by rewrite (Hc Hcb). }
  unfold HandleChatKey in Ha. fold (is_enter c) in Ha. destruct (is_enter c) eqn:Hent.
  - specialize (Hk eq_refl). set (b := a_input (print a [NL]) []) in *.
    assert (Hb : performs ps a b Silent) by (apply Hstay; try done; cbn; by rewrite Hui).
    cbn [print a_cout inputLine a_input] in Ha. case_bool_decide as Hq.
    { exists Silent. apply Render_kept in Ha. eapply performs_kept; [exact Ha|]. by apply Hstay. }
    destruct (_ || _)%bool eqn:Hr; [exists Silent; apply RenderChat_kept in Ha; by eapply performs_kept|].
    apply orb_false_iff in Hr as [Hr1%bool_decide_eq_false Hr2%bool_decide_eq_false].
    destruct (Hk (conj Hq (conj Hr1 Hr2))) as [Hfile Hidle].
    apply bind_ok in Ha as (a1 & Ha1 & Ha). apply RenderChat_kept in Ha.
    change (activeChatService b) with (activeChatService a) in Ha1.
    eexists. eapply performs_kept; [exact Ha|]. apply (performs_from ps a b); [done|done|].
    apply (line_event ps e b (activeChatService a) (inputLine a)); try done; [apply Hb|].
    intros r s Hs. apply Hidle. exact (active_in_talk b r s Hs).
  - exists Silent. destruct (_ || _)%bool.
    { destruct (inputLine a) as [|c0 l] eqn:Hl; injection Ha as <-; apply Hstay; try done; try (cbn; by rewrite ?Hui, ?Hl).
      by apply Forall_take. }
    destruct (isprint c) eqn:Hpr; injection Ha as <-; apply Hstay; try done; try (cbn; by rewrite Hui).
    apply Forall_app. split; [done|]. by apply Forall_singleton.
Qed.

Lemma key_event ps e c a a' :
  desk ps a -> key_allowed a c -> 0 <= now e < 2 ^ 64 -> key_read ctime P e a c = Ok a' -> exists ev, performs ps a a' ev.
Proof.
  intros Hd Hk Ht Ha. pose proof (dk_ui _ _ Hd) as [Hu Hc]. unfold key_read in Ha. destruct (_ || _)%bool.
  { injection Ha as <-. exists Silent. by apply performs_same. }
  apply bind_ok in Ha as (a1 & Ha1 & Ha). set (a0 := a_armed a false) in *.
  assert (Hk1 : kept a1 a') by (injection Ha as <-; destruct (app_isRunning a1); by split).
  assert (Hd0 : desk ps a0) by (apply (desk_view ps a); try done; apply Hd).
  assert (Hev : exists ev, performs ps a0 a1 ev).
  { unfold OnKey in Ha1. destruct (uiState a0) eqn:E; [exists Silent; by apply (menu_key_event ps e c)|
      by apply (chat_key_event ps e c)|by cbn in E]. }
  destruct Hev as [ev Hev]. exists ev. apply (performs_kept ps a a1); [done|].
  by apply (performs_from ps a a0).
Qed.

(** ** A connection is lost *)

(** The session without its pending read. *)
Definition hung_up (s : BVTCPSession) : BVTCPSession :=
  set_sock s (with_reads (sock s) (rx (sock s)) (drop 1 (reads (sock s)))).

Lemma hung_up_deaf b s : ear b s -> deaf (hung_up s).
Proof. unfold deaf, hung_up. sess. destruct b; cbn; [intros [_ _ ->]|intros ->]; done. Qed.

Lemma read_error e x s : in_talk x s -> on_read_error P e (s_ref x) (mgr_of x) = Ok (put_back (mgr_of x) (hung_up s)).
Proof.
  intros Hx. pose proof (it_obj _ _ Hx) as Ho. unfold session_of in Ho. unfold on_read_error. rewrite Ho.
  cbn [from_option_err mbind result_bind]. by rewrite fail_read_ok.
Qed.

(** What the link is without its reads: what had reached the mailbox. *)
Lemma hung_up_link x y s ms ex ey :
  in_talk x s -> in_talk (with_session x (hung_up s)) (hung_up s) -> waiting (mgr_of x) ms -> link x y ex ey ->
  link (with_session x (hung_up s)) y (MkEnd (e_log ex) (take (length (lines_of (s_peer x) ms)) (e_in ex)) false) ey.
Proof.
  intros Hs Hs' Hm (s1 & sy & Hx & Hy & [Hl (ms1 & cms & Hm1 & Hc & Hf & Hi) Hear] & Hry).
  pose proof (in_talk_fun _ _ _ Hx Hs) as ->. pose proof (waiting_fun _ _ _ Hm1 Hm) as ->. exists (hung_up s), sy.
  split; [done|]. split; [done|]. split; [|by apply (reflects_same y sy s ey)]. split; [exact Hl| |by apply (hung_up_deaf (e_open ex))].
  exists ms, cms. split; [done|]. split; [done|]. split; [done|]. cbn [e_in e_open with_session with_mgr with_app s_peer].
  by rewrite Hi, take_app_length, app_nil_r.
Qed.

Lemma closed_end x y ms ex ey :
  waiting (mgr_of x) ms -> link x y ex ey -> e_open ex = false ->
  MkEnd (e_log ex) (take (length (lines_of (s_peer x) ms)) (e_in ex)) false = ex.
Proof.
  intros Hm (s & sy & _ & _ & [_ (ms1 & cms & Hm1 & _ & _ & Hi) _] & _) Ho. rewrite (waiting_fun _ _ _ Hm1 Hm), Ho, app_nil_r in Hi.
  rewrite <- Hi, take_ge by done. destruct ex. cbn in *. by rewrite Ho.
Qed.

(** Losing the connection, with the messages [ms] in the mailbox. *)
Definition loses (peer : string) (ms : list BVChatMessage) (e : endpoint) : event :=
  if e_open e then Lost peer (length (lines_of peer ms)) else Silent.

Lemma loses_end x y ms ex ey :
  waiting (mgr_of x) ms -> link x y ex ey ->
  own_end (loses (s_peer x) ms ex) (s_peer x) ex = MkEnd (e_log ex) (lines_of (s_peer x) ms) false.
Proof.
  intros Hm Hl. unfold loses. destruct (e_open ex) eqn:Ho; cbn [own_end].
  - rewrite decide_True by done. f_equal. destruct Hl as (s & sy & _ & _ & [_ (ms1 & cms & Hm1 & _ & _ & Hi) _] & _).
    by rewrite Hi, (waiting_fun _ _ _ Hm1 Hm), take_app_length.
  - rewrite <- (closed_end x y ms ex ey Hm Hl Ho) at 1. f_equal.
    destruct Hl as (s & sy & _ & _ & [_ (ms1 & cms & Hm1 & _ & _ & Hi) _] & _).
    by rewrite Hi, (waiting_fun _ _ _ Hm1 Hm), take_app_length.
Qed.

Lemma lost_event ps e x y m ex ey ms :
  desk ps (s_app x) -> ps (s_peer x) -> link x y ex ey -> on_read_error P e (s_ref x) (mgr_of x) = Ok m ->
  waiting (mgr_of x) ms -> performs ps (s_app x) (a_manager (s_app x) m) (loses (s_peer x) ms ex).
Proof.
  intros Hd Hps (s & _ & Hx & _ & [_ _ Hear] & _) Hm Hms. unfold loses. rewrite (read_error e x s Hx) in Hm. injection Hm as <-.
  destruct (session_changes ps x s (hung_up s) Hd Hx (ltac:(by split)) eq_refl (it_write _ _ Hx)) as (Hd' & Hx' & Hoth).
  assert (Hsame : forall x1 y1 ex1 ey1, s_app x1 = s_app x -> link x1 y1 ex1 ey1 -> s_ref x1 = s_ref x \/ s_peer x1 = s_peer x ->
    x1 = x /\ e_open ex1 = e_open ex).
  { intros [a r p] y1 ex1 ey1 Ha (s1 & _ & Hs1 & _ & [_ _ He1] & _) Hor. destruct x as [a0 r0 p0]. cbn in Ha, Hor. subst a.
    assert (r = r0 /\ p = p0) as [-> ->].
    { destruct Hor as [->| ->]; [by rewrite (in_talk_same_ref _ _ _ _ _ _ Hs1 Hx)|by rewrite (in_talk_same_peer _ _ _ _ _ _ Hs1 Hx)]. }
    split; [done|]. rewrite (in_talk_fun _ _ _ Hs1 Hx) in He1. by apply (ear_fun _ _ s). }
  split; [exact Hd'|]. split; [done|]. split; [by destruct (e_open ex)|]. intros x1 y1 ex1 ey1 Ha Hl.
  destruct (decide (s_peer x1 = s_peer x)) as [Hp|Hp].
  - destruct (Hsame x1 y1 ex1 ey1 Ha Hl) as [-> Ho]; [by right|].
    pose proof (hung_up_link x y1 s ms ex1 ey1 Hx Hx' Hms Hl) as Hl'. destruct (e_open ex) eqn:Hopen.
    + split; [by intros _|]. cbn [own_end peer_end]. by rewrite decide_True.
    + split; [done|]. rewrite (closed_end x y1 ms ex1 ey1 Hms Hl Ho) in Hl'. exact Hl'.
  - assert (Hl1 : link (with_app x1 (s_app (with_session x (hung_up s)))) y1 ex1 ey1).
    { apply Hoth; [done| |done]. intros Hr. apply Hp. destruct (Hsame x1 y1 ex1 ey1 Ha Hl) as [-> _]; [by left|done]. }
    destruct (e_open ex); [|done]. split; [by intros Hq|]. cbn [own_end peer_end]. by rewrite decide_False by congruence.
Qed.

(** ** Every operation is an event *)

(** Nothing is said and no connection is lost. *)
Definition uneventful (ev : event) : Prop := match ev with Silent | Hears _ => True | _ => False end.

(** Bytes crossing concern both machines; all else is an event of one. *)
Definition crosses (x y x' y' : side) : Prop :=
  exists n sx sy, session_of x = Some sx /\ session_of y = Some sy /\
    x' = with_session x (carry n sx) /\ y' = with_session y (receive sy (take n (tx (sock sx)))).

Lemma quiet_event ps x y x' y' ex ey :
  eager_read P = false -> desk ps (s_app x) -> ps (s_peer x) -> link x y ex ey -> quiet x y x' y' ->
  (exists ev, performs ps (s_app x) (s_app x') ev /\ uneventful ev /\ x' = with_app x (s_app x') /\ y' = y) \/
  crosses x y x' y'.
Proof.
  intros HP Hd Hps Hxy Hq. pose proof Hxy as (sx0 & sy0 & Hx & _).
  destruct Hq as [x y s Hs|e x y m Hr|x y a ml HL|e x y a Hr|n x y sx sy Hsx Hsy]; [left..|right; by exists n, sx, sy].
  - rewrite (it_obj _ _ Hx) in Hs. injection Hs as ->. exists Silent. split; [by apply written_event|done].
  - exists Silent. split; [by apply (read_event ps e x y m ex ey)|done].
  - destruct (mail_event ps _ _ _ Hd HL) as [msg Hm]. by exists (Hears msg).
  - exists Silent. split; [by apply (posted_event ps e)|done].
Qed.

Lemma acts_event ps x y x' y' ex ey :
  eager_read P = false -> desk ps (s_app x) -> ps (s_peer x) -> link x y ex ey -> acts x y x' y' ->
  (exists ev, performs ps (s_app x) (s_app x') ev /\ x' = with_app x (s_app x') /\ y' = y) \/ crosses x y x' y'.
Proof.
  intros HP Hd Hps Hxy Ha. destruct Ha as [x y x' y' Hq|e c x y a Hk Ht Hr|e x y m Hm].
  - destruct (quiet_event ps x y x' y' ex ey HP Hd Hps Hxy Hq) as [(ev & Hev & _ & Hx & Hy)|Hc]; [left; by exists ev|by right].
  - left. destruct (key_event ps e c _ a Hd Hk Ht Hr) as [ev Hev]. by exists ev.
  - left. destruct (dk_mail _ _ Hd) as (ms & Hms & _). eexists. split; [by apply (lost_event ps e x y m ex ey ms)|done].
Qed.

(** ** No operation faults *)

Definition never_faults (x : side) : Prop :=
  (forall e, is_Ok (on_readable P e (s_ref x) (mgr_of x)) = true) /\
  (forall e, is_Ok (on_read_error P e (s_ref x) (mgr_of x)) = true) /\
  is_Ok (ListenToMail 1 (app_loop (s_app x)) (s_app x) (mgr_mail (mgr_of x))) = true /\
  (forall e, is_Ok (run_posted ctime e (s_app x)) = true) /\
  (forall e c, key_allowed (s_app x) c -> 0 <= now e < 2 ^ 64 -> is_Ok (key_read ctime P e (s_app x) c) = true).

Section NoFault.
Context (Hctime : forall t, (4 <= length (ctime t))%nat).

Lemma RenderChat_no_fault e (a : App Q) : is_Ok (RenderChat ctime e a) = true.
Proof. by destruct (RenderChat_ok ctime e a (Hctime _)) as (a' & more & -> & _). Qed.

Lemma Render_no_fault e (a : App Q) : is_Ok (Render ctime e a) = true.
Proof. unfold Render. destruct (uiState a); [done|apply RenderChat_no_fault|done]. Qed.

Lemma bind_no_fault {A B} (r : result A) (f : A -> result B) :
  is_Ok r = true -> (forall a, r = Ok a -> is_Ok (f a) = true) -> is_Ok (r ≫= f) = true.
Proof. destruct r as [a|]; [|done]. intros _ Hf. by apply Hf. Qed.

Lemma EnterChat_no_fault e (a : App Q) n : is_Ok (EnterChat ctime e a n) = true.
Proof.
  unfold EnterChat. destruct (_ || _)%bool eqn:E; [done|]. apply orb_false_iff in E as [E1 E2].
  apply Z.ltb_ge in E1. rewrite Z.geb_leb in E2. apply Z.leb_gt in E2.
  destruct (lookup_lt_is_Some_2 (session_names (manager a)) (Z.to_nat (n - 1))) as [q Hq]; [lia|].
  rewrite Hq. apply RenderChat_no_fault.
Qed.

Lemma key_no_fault ps e a c :
  desk ps a -> key_allowed a c -> 0 <= now e < 2 ^ 64 -> is_Ok (OnKey ctime P e a c) = true.
Proof.
  intros Hd Hk Ht. unfold OnKey, key_allowed in *. pose proof (dk_ui _ _ Hd) as [Hu Hac].
  destruct (uiState a) eqn:Hui; [| |done].
  - unfold HandleMainMenuKey. destruct (ParseConsoleActionFromKey c) as [r|]; [|done].
    destruct (Hk r eq_refl) as [Hr|[Hr|Hr]]; rewrite Hr; [apply Render_no_fault| |done].
    destruct (pr_num r) as [n|]; [|done]. apply EnterChat_no_fault.
  - unfold HandleChatKey. fold (is_enter c). destruct (is_enter c) eqn:Hent.
    + specialize (Hk eq_refl). set (b := a_input (print a [NL]) []). cbn [print a_cout inputLine a_input].
      case_bool_decide as Hq; [apply Render_no_fault|].
      destruct (_ || _)%bool eqn:Hr; [apply RenderChat_no_fault|].
      apply orb_false_iff in Hr as [Hr1%bool_decide_eq_false Hr2%bool_decide_eq_false].
      destruct (Hk (conj Hq (conj Hr1 Hr2))) as [Hfile Hidle]. apply bind_no_fault; [|intros; apply RenderChat_no_fault].
      change (activeChatService b) with (activeChatService a).
      destruct (line_sent ps e b (activeChatService a) (inputLine a)) as (r & s & _ & _ & _ & _ & _ & Hok);
        [|by apply Hac|done|apply Hd|done| |by rewrite Hok].
      { apply (desk_view ps a); try done; [cbn; by rewrite Hui|by intros _; apply Hac|apply (dk_posted _ _ Hd)]. }
      intros r s Hs. apply Hidle. exact (active_in_talk b r s Hs).
    + destruct (_ || _)%bool; [by destruct (inputLine a)|]. by destruct (isprint c).
Qed.

Lemma no_fault ps x y ex ey : eager_read P = false -> desk ps (s_app x) -> link x y ex ey -> never_faults x.
Proof.
  intros HP Hd Hxy. split; [|split; [|split; [|split]]].
  - intros e. by destruct (link_read e x y ex ey HP Hxy) as [->|(sx & ms & cm & r & ml & _ & _ & _ & -> & _)].
  - intros e. destruct Hxy as (s & _ & Hs & _). by rewrite (read_error e x s Hs).
  - unfold mgr_of. by destruct (mail_handled ps (s_app x) Hd) as [[_ ->]|(msg & ms & m1 & _ & _ & _ & _ & ->)].
  - intros e. unfold run_posted. destruct (io_stopped (s_app x)); [done|]. destruct (posted_q (s_app x)) as [|[] l]; [done| |done].
    case_decide; [apply RenderChat_no_fault|apply Render_no_fault].
  - intros e c Hk Ht. unfold key_read. destruct (_ || _)%bool; [done|]. apply bind_no_fault; [|done].
    apply (key_no_fault ps); [|done|done]. pose proof (dk_ui _ _ Hd) as [Hu Hc]. apply (desk_view ps (s_app x)); try done; apply Hd.
Qed.

End NoFault.

End Links.
