(* ===== verification/Group.v ===== *)
(** * A group of machines ([src/BVApp_ConsoleClient.cpp],
    [src/BVTCPSession.cpp], [include/BVTCPConnectionManager.hpp],
    [include/BVComponent.hpp])

    Any number of console applications on one network, each with an established
    session for every machine it is linked with.  Keys, completed writes,
    completed and failed reads, bytes crossing the connections, mail and redraws
    of all the machines interleave freely.  The specification has a pair of FIFO
    channels for every link, whose ends may stop reading, and each step is a
    step of one of them. *)

From Stdlib Require Import ZArith Lia Ascii String.
From stdpp Require Import functions.
From S2P Require Import Prelude TSQueue Common Broker Component Frames Session FileTransfer.
From S2P Require Import ReceivedFile ConnectionManager ConsoleClient Peers Links.

(** ** The specification *)

(** Who is linked with whom: for machine [i] and machine [j], the object of
    [i]'s session with [j] and the name [i] has for [j]. *)
Abbreviation lan := (gmap (nat * nat) (nat * string)) (only parsing).

Record lan_ok (L : lan) : Prop := {
  lk_sym : forall i j, is_Some (L !! (i, j)) -> is_Some (L !! (j, i));
  lk_irrefl : forall i, L !! (i, i) = None;
  lk_names : forall i j k l l', L !! (i, j) = Some l -> L !! (i, k) = Some l' -> l.2 = l'.2 -> j = k
}.

Definition knows (L : lan) (i : nat) (q : string) : Prop := exists j l, L !! (i, j) = Some l /\ l.2 = q.

(** For each pair of machines the first one's end of the link. *)
Abbreviation ends := (nat * nat -> endpoint) (only parsing).

(** A step on one link; [names i] is what machine [i] calls itself. *)
Inductive group_talks (L : lan) (names : nat -> string) : ends -> ends -> Prop :=
  | gt_step i j li lj (E : ends) ei ej :
      L !! (i, j) = Some li -> L !! (j, i) = Some lj ->
      talks (names i) lj.2 (E (i, j)) (E (j, i)) ei ej ->
      group_talks L names E (<[ (i, j) := ei ]> (<[ (j, i) := ej ]> E)).

(** ** The program *)

Section Group.
Context {Q : Type -> Type} `{FifoQueueLaws Q} (ctime : Z -> list ascii) (P : asio)
  (resolve : string -> Z -> nat -> bool * nat).

Abbreviation machines := (nat -> App Q) (only parsing).

Definition end_of (n : machines) (i : nat) (l : nat * string) : side := MkSide (n i) l.1 l.2.

Definition names_of (n : machines) (i : nat) : string := thisName (manager (n i)).

(** Some machine does something. *)
Inductive group_step (step : side -> side -> side -> side -> Prop) (L : lan) : machines -> machines -> Prop :=
  | gs_step i j li lj (n : machines) x' y' :
      L !! (i, j) = Some li -> L !! (j, i) = Some lj -> step (end_of n i li) (end_of n j lj) x' y' ->
      group_step step L n (<[ i := s_app x' ]> (<[ j := s_app y' ]> n)).

(** Every linked machine is at its desk, every link carries what its ends
    say. *)
Record group (L : lan) (n : machines) (E : ends) : Prop := {
  gr_desk : forall i j l, L !! (i, j) = Some l -> desk (knows L i) (n i);
  gr_link : forall i j li lj, L !! (i, j) = Some li -> L !! (j, i) = Some lj ->
    link (end_of n i li) (end_of n j lj) (E (i, j)) (E (j, i))
}.

(** ** One machine's event *)

(** The peer an event is about. *)
Definition about (ev : event) : option string :=
  match ev with Silent => None | Says q _ => Some q | Hears msg => Some (cm_sender msg) | Lost q _ => Some q end.

Lemma own_end_other ev p e : about ev <> Some p -> own_end ev p e = e.
Proof. destruct ev; cbn; intros Hp; [done|..]; by rewrite decide_False by congruence. Qed.

Lemma peer_end_other ev p name e : about ev <> Some p -> peer_end ev p name e = e.
Proof. destruct ev; cbn; intros Hp; [done| |done|done]. by rewrite decide_False by congruence. Qed.

Lemma lan_other L i j li : lan_ok L -> L !! (i, j) = Some li -> i <> j.
Proof. intros Hok Hl ->. by rewrite (lk_irrefl L Hok) in Hl. Qed.

Lemma group_performs L n E E' i a ev :
  lan_ok L -> group L n E -> performs (knows L i) (n i) a ev ->
  (forall j li lj, L !! (i, j) = Some li -> L !! (j, i) = Some lj ->
     E' (i, j) = own_end ev li.2 (E (i, j)) /\ E' (j, i) = peer_end ev li.2 lj.2 (E (j, i))) ->
  (forall k l, k <> i -> l <> i -> E' (k, l) = E (k, l)) -> group L (<[ i := a ]> n) E'.
Proof.
  intros Hok [Hd Hl] (Hda & _ & _ & Hlink) Hi Ho.
  assert (Hil : forall j li lj, L !! (i, j) = Some li -> L !! (j, i) = Some lj ->
    link (end_of (<[ i := a ]> n) i li) (end_of (<[ i := a ]> n) j lj) (E' (i, j)) (E' (j, i))).
  { intros j li lj Hij Hji. destruct (Hi j li lj Hij Hji) as [-> ->]. pose proof (lan_other L i j li Hok Hij) as Hne.
    unfold end_of. rewrite fn_lookup_insert, fn_lookup_insert_ne by done.
    by apply (Hlink (end_of n i li) (end_of n j lj) _ _ eq_refl), Hl. }
  split.
  - intros k l lk Hkl. destruct (decide (k = i)) as [->|Hk]; [by rewrite fn_lookup_insert|].
    rewrite fn_lookup_insert_ne by done. by apply (Hd k l lk).
  - intros k l lk ll Hkl Hlk. destruct (decide (k = i)) as [->|Hk]; [by apply Hil|].
    destruct (decide (l = i)) as [->|Hli]; [by apply link_sym, Hil|].
    unfold end_of. rewrite !fn_lookup_insert_ne by done. rewrite !Ho by done. by apply Hl.
Qed.

Lemma names_performs L (n : machines) i a ev k :
  performs (knows L i) (n i) a ev -> names_of (<[ i := a ]> n) k = names_of n k.
Proof.
  intros (_ & Hn & _). unfold names_of. destruct (decide (i = k)) as [->|Hk]; [by rewrite fn_lookup_insert|].
  by rewrite fn_lookup_insert_ne.
Qed.

(** On every link the group has heard more, or the same. *)
Definition heard (E E' : ends) : Prop :=
  forall k, exists pre suf, e_in (E k) = pre ++ suf /\ E' k = MkEnd (e_log (E k) ++ pre) suf (e_open (E k)).

Lemma heard_one (E : ends) k : exists pre suf, e_in (E k) = pre ++ suf /\ E k = MkEnd (e_log (E k) ++ pre) suf (e_open (E k)).
Proof. exists [], (e_in (E k)). rewrite app_nil_r. by destruct (E k). Qed.

Lemma heard_refl E : heard E E.
Proof. intros k. apply heard_one. Qed.

Lemma heard_trans E1 E2 E3 : heard E1 E2 -> heard E2 E3 -> heard E1 E3.
Proof.
  intros H1 H2 k. destruct (H1 k) as (p1 & s1 & Hs1 & He1), (H2 k) as (p2 & s2 & Hs2 & He2).
  rewrite He1 in Hs2, He2. cbn in Hs2, He2. exists (p1 ++ p2), s2. by rewrite Hs1, Hs2, He2, !(assoc_L (++)).
Qed.

(** The event is a step of the specification on the link it is about. *)
Lemma group_event L n E i a ev :
  lan_ok L -> group L n E -> performs (knows L i) (n i) a ev ->
  exists E', group L (<[ i := a ]> n) E' /\ (E' = E \/ group_talks L (names_of n) E E') /\
    (uneventful ev -> heard E E') /\
    (forall msg, ev = Hears msg -> exists j li, L !! (i, j) = Some li /\
       (length (e_in (E' (i, j))) < length (e_in (E (i, j))))%nat).
Proof.
  intros Hok Hg Hev. pose proof Hev as (_ & _ & Hc & Hlink). destruct (about ev) as [q|] eqn:Hab.
  2:{ assert (ev = Silent) as -> by by destruct ev. exists E. split; [|split; [by left|split; [intros _; apply heard_refl|done]]].
    by apply (group_performs L n E E i a Silent). }
  assert (exists j li, L !! (i, j) = Some li /\ li.2 = q) as (j & li & Hij & Hq).
  { destruct ev as [|q' msg|msg|q' k]; [done|..]; injection Hab as <-; [exact (proj1 Hc)|exact Hc|exact Hc]. }
  destruct (lk_sym L Hok i j) as [lj Hji]; [by rewrite Hij|]. pose proof (lan_other L i j li Hok Hij) as Hne.
  destruct (Hlink (end_of n i li) (end_of n j lj) _ _ eq_refl (gr_link _ _ _ Hg _ _ _ _ Hij Hji)) as [Hpos _].
  cbn [end_of s_peer] in Hpos. rewrite Hq in Hpos.
  set (ei := own_end ev q (E (i, j))). set (ej := peer_end ev q lj.2 (E (j, i))).
  exists (<[ (i, j) := ei ]> (<[ (j, i) := ej ]> E)).
  assert (Hoth : forall k l, (k, l) <> (i, j) -> (k, l) <> (j, i) -> (<[ (i, j) := ei ]> (<[ (j, i) := ej ]> E)) (k, l) = E (k, l))
    by (intros k l H1 H2; by rewrite !fn_lookup_insert_ne by done).
  split; [|split; [|split]].
  - apply (group_performs L n E _ i a ev); try done.
    + intros k lk lk' Hik Hki. destruct (decide (j = k)) as [<-|Hk].
      * rewrite Hij in Hik. rewrite Hji in Hki. injection Hik as <-. injection Hki as <-. rewrite Hq.
        rewrite fn_lookup_insert, fn_lookup_insert_ne, fn_lookup_insert by congruence. done.
      * assert (lk.2 <> q) by (intros He; apply Hk, (lk_names L Hok i j k li lk); congruence).
        rewrite own_end_other, peer_end_other by congruence. split; apply Hoth; congruence.
    + intros k l Hk Hl. apply Hoth; congruence.
  - right. apply (gt_step L (names_of n) i j li lj); [done|done|]. subst ei ej. destruct ev as [|q' msg|msg|q' k]; [done|..].
    + injection Hab as ->. destruct Hc as [_ (t & line & ->)]. cbn. rewrite !decide_True by done. constructor.
    + injection Hab as Hs. cbn. rewrite decide_True by done. destruct (Hpos Hs) as [l Hl].
      rewrite Hl. cbn. rewrite drop_0. by constructor.
    + injection Hab as Hs. cbn. rewrite decide_True by done. constructor. by apply Hpos.
  - intros Hq0. destruct ev as [|q' msg|msg|q' k0]; [done|done| |done]. injection Hab as Hs.
    destruct (Hpos Hs) as [l Hl]. intros [k k']. destruct (decide ((i, j) = (k, k'))) as [<-|Hk].
    { rewrite fn_lookup_insert. subst ei. cbn. rewrite decide_True by done. rewrite Hl. by exists [msg], l. }
    rewrite fn_lookup_insert_ne by done. destruct (decide ((j, i) = (k, k'))) as [<-|Hk'].
    + rewrite fn_lookup_insert. apply heard_one.
    + rewrite fn_lookup_insert_ne by done. apply heard_one.
  - intros msg ->. injection Hab as Hs. destruct (Hpos Hs) as [l Hl]. exists j, li. split; [done|].
    rewrite fn_lookup_insert. subst ei. cbn. rewrite decide_True by done. rewrite Hl. cbn. rewrite drop_0. lia.
Qed.

(** ** Bytes crossing from one machine to another *)

(** Distinct links of a machine have distinct sessions. *)
Lemma group_refs L n E a b c la lc :
  lan_ok L -> group L n E -> L !! (a, b) = Some la -> L !! (a, c) = Some lc -> b <> c -> lc.1 <> la.1.
Proof.
  intros Hok [_ Hl] Hab Hac Hbc He. apply Hbc, (lk_names L Hok a b c la lc Hab Hac).
  destruct (lk_sym L Hok a b) as [lb Hba]; [by rewrite Hab|]. destruct (lk_sym L Hok a c) as [lc' Hca]; [by rewrite Hac|].
  destruct (Hl a b la lb Hab Hba) as (s1 & _ & Hs1 & _), (Hl a c lc lc' Hac Hca) as (s2 & _ & Hs2 & _).
  unfold end_of in Hs1, Hs2. rewrite He in Hs2. by apply (in_talk_same_ref _ _ _ _ _ _ Hs1 Hs2).
Qed.

(** Two linked machines change, each on its end of their link alone. *)
Lemma group_two L n n' E i j li lj :
  lan_ok L -> group L n E -> L !! (i, j) = Some li -> L !! (j, i) = Some lj ->
  (forall l, l <> i -> l <> j -> n' l = n l) -> desk (knows L i) (n' i) -> desk (knows L j) (n' j) ->
  link (end_of n' i li) (end_of n' j lj) (E (i, j)) (E (j, i)) ->
  (forall l y ex ey, l.1 <> li.1 -> link (end_of n i l) y ex ey -> link (end_of n' i l) y ex ey) ->
  (forall l y ex ey, l.1 <> lj.1 -> link (end_of n j l) y ex ey -> link (end_of n' j l) y ex ey) -> group L n' E.
Proof.
  intros Hok Hg Hij Hji Hnk Hdi Hdj Hxy Hothi Hothj.
  assert (Heq : forall l la, l <> i -> l <> j -> end_of n' l la = end_of n l la) by (intros l la H1 H2; unfold end_of; by rewrite Hnk).
  assert (Hmain : forall a b la lb, L !! (a, b) = Some la -> L !! (b, a) = Some lb -> (b = i \/ b = j -> a = i \/ a = j) ->
    link (end_of n' a la) (end_of n' b lb) (E (a, b)) (E (b, a))).
  { intros a b la lb Hab Hba Hor. pose proof (lan_other L a b la Hok Hab) as Hab'.
    pose proof (gr_link L n E Hg a b la lb Hab Hba) as Hl.
    destruct (decide (a = i)) as [->|Hai]; [destruct (decide (b = j)) as [->|Hbj]|
      destruct (decide (a = j)) as [->|Haj]; [destruct (decide (b = i)) as [->|Hbi]|]].
    - by simplify_eq.
    - rewrite (Heq b) by done. apply Hothi; [|done]. by apply (group_refs L n E i j b).
    - simplify_eq. by apply link_sym.
    - rewrite (Heq b) by done. apply Hothj; [|done]. by apply (group_refs L n E j i b).
    - by rewrite !Heq by tauto. }
  split.
  - intros l b lb Hlb. destruct (decide (l = i)) as [->|Hli]; [done|]. destruct (decide (l = j)) as [->|Hlj]; [done|].
    rewrite Hnk by done. by apply (gr_desk _ _ _ Hg l b lb).
  - intros a b la lb Hab Hba. destruct (decide (a = i \/ a = j)); [by apply Hmain; [..|tauto]|].
    destruct (decide (b = i \/ b = j)); [apply link_sym; by apply Hmain; [..|tauto]|]. by apply Hmain; [..|tauto].
Qed.

Lemma insert_two (n : machines) i j (a b : App Q) :
  i <> j -> (<[ i := a ]> (<[ j := b ]> n)) i = a /\ (<[ i := a ]> (<[ j := b ]> n)) j = b /\
    forall l, l <> i -> l <> j -> (<[ i := a ]> (<[ j := b ]> n)) l = n l.
Proof.
  intros Hne. split; [apply fn_lookup_insert|]. split; [rewrite fn_lookup_insert_ne by done; apply fn_lookup_insert|].
  intros l H1 H2. by rewrite !fn_lookup_insert_ne by done.
Qed.

Lemma group_crosses L n E i j li lj x' y' :
  lan_ok L -> group L n E -> L !! (i, j) = Some li -> L !! (j, i) = Some lj ->
  crosses (end_of n i li) (end_of n j lj) x' y' -> group L (<[ i := s_app x' ]> (<[ j := s_app y' ]> n)) E.
Proof.
  intros Hok Hg Hij Hji (k & sx & sy & Hsx & Hsy & -> & ->). pose proof (lan_other L i j li Hok Hij) as Hne.
  pose proof (gr_link L n E Hg i j li lj Hij Hji) as Hxy. pose proof Hxy as (sx0 & sy0 & Hx & Hy & _).
  rewrite (it_obj _ _ Hx) in Hsx. injection Hsx as ->. rewrite (it_obj _ _ Hy) in Hsy. injection Hsy as ->.
  destruct (session_changes (knows L i) (end_of n i li) sx (carry k sx) (gr_desk _ _ _ Hg i j li Hij) Hx (ltac:(by split)) eq_refl (it_write _ _ Hx))
    as (Hdi & Hx' & Hothi).
  set (bytes := take k (tx (sock sx))) in *.
  destruct (session_changes (knows L j) (end_of n j lj) sy (receive sy bytes) (gr_desk _ _ _ Hg j i lj Hji) Hy (receive_same sy bytes) eq_refl
    (it_write _ _ Hy)) as (Hdj & Hy' & Hothj).
  pose proof (cross_link k _ _ sx sy _ _ Hx Hy Hxy Hx' Hy') as Hxy'. fold bytes in Hxy'.
  set (ai := s_app (with_session (end_of n i li) (carry k sx))) in *.
  set (aj := s_app (with_session (end_of n j lj) (receive sy bytes))) in *.
  destruct (insert_two n i j ai aj Hne) as (Hni & Hnj & Hnk).
  apply (group_two L n _ E i j li lj); [done|done|done|done|done|by rewrite Hni|by rewrite Hnj| | |];
    unfold end_of; rewrite ?Hni, ?Hnj; [exact Hxy'|..].
  - intros l y ex ey Hr Hl. by apply (Hothi (end_of n i l)).
  - intros l y ex ey Hr Hl. by apply (Hothj (end_of n j l)).
Qed.

(** ** The simulation *)

Lemma group_ext L n n' E : (forall k, n' k = n k) -> group L n E -> group L n' E.
Proof.
  intros Hn [Hd Hl]. split; [intros i j l Hij; rewrite Hn; by apply (Hd i j l)|].
  intros i j li lj Hij Hji. unfold end_of. rewrite !Hn. by apply Hl.
Qed.

Lemma same_insert (n : machines) i j (a : App Q) : i <> j -> forall k, (<[ i := a ]> (<[ j := n j ]> n)) k = (<[ i := a ]> n) k.
Proof.
  intros Hne k. destruct (decide (i = k)) as [<-|Hi]; [by rewrite !fn_lookup_insert|]. rewrite !(fn_lookup_insert_ne _ i) by done.
  destruct (decide (j = k)) as [<-|Hj]; [by rewrite fn_lookup_insert|]. by rewrite fn_lookup_insert_ne.
Qed.

Lemma names_crosses n i j li lj x' y' k :
  i <> j -> crosses (end_of n i li) (end_of n j lj) x' y' ->
  names_of (<[ i := s_app x' ]> (<[ j := s_app y' ]> n)) k = names_of n k.
Proof.
  intros Hne (b & sx & sy & _ & _ & -> & ->). unfold names_of.
  destruct (decide (i = k)) as [<-|Hi]; [by rewrite fn_lookup_insert|]. rewrite (fn_lookup_insert_ne _ i) by done.
  destruct (decide (j = k)) as [<-|Hj]; [by rewrite fn_lookup_insert|]. by rewrite fn_lookup_insert_ne.
Qed.

(** What one machine's operation, or bytes crossing, does to the group. *)
Lemma group_outcome (R : event -> Prop) L n E i j li lj x' y' :
  R Silent -> lan_ok L -> group L n E -> L !! (i, j) = Some li -> L !! (j, i) = Some lj ->
  (exists ev, performs (knows L i) (n i) (s_app x') ev /\ R ev /\ x' = with_app (end_of n i li) (s_app x') /\ y' = end_of n j lj) \/
  crosses (end_of n i li) (end_of n j lj) x' y' ->
  let n' := <[ i := s_app x' ]> (<[ j := s_app y' ]> n) in
  (forall k, names_of n' k = names_of n k) /\
  exists E' ev, R ev /\ group L n' E' /\ (E' = E \/ group_talks L (names_of n) E E') /\ (uneventful ev -> heard E E').
Proof.
  intros HR Hok Hg Hij Hji Hor n'. pose proof (lan_other L i j li Hok Hij) as Hne.
  destruct Hor as [(ev & Hev & HRev & _ & ->)|Hc].
  - destruct (group_event L n E i (s_app x') ev Hok Hg Hev) as (E' & Hg' & Hor & Hh & _).
    pose proof (same_insert n i j (s_app x') Hne) as He. split.
    + intros k. unfold names_of, n'. cbn [end_of s_app]. rewrite He. by apply (names_performs L n i (s_app x') ev).
    + exists E', ev. split; [done|]. split; [by apply (group_ext L (<[ i := s_app x' ]> n))|done].
  - split; [intros k; by apply (names_crosses n i j li lj)|]. exists E, Silent. split; [done|].
    split; [by apply (group_crosses L n E i j li lj)|]. split; [by left|]. intros _. apply heard_refl.
Qed.

Lemma knows_linked L i j l : L !! (i, j) = Some l -> knows L i l.2.
Proof. intros Hl. by exists j, l. Qed.

Lemma group_acts L n n' E :
  eager_read P = false -> lan_ok L -> group L n E -> group_step (acts ctime P resolve) L n n' ->
  (forall k, names_of n' k = names_of n k) /\
  exists E', group L n' E' /\ (E' = E \/ group_talks L (names_of n) E E').
Proof.
  intros HP Hok Hg Hs. destruct Hs as [i j li lj n x' y' Hij Hji Ha].
  destruct (group_outcome (fun _ => True) L n E i j li lj x' y') as (Hn & E' & _ & _ & Hg' & Hor & _); try done.
  - destruct (acts_event ctime P resolve (knows L i) (end_of n i li) (end_of n j lj) x' y' _ _ HP (gr_desk _ _ _ Hg i j li Hij)
      (knows_linked L i j li Hij) (gr_link _ _ _ Hg i j li lj Hij Hji) Ha) as [(ev & Hev & Hx & Hy)|Hc]; [left|by right].
    by exists ev.
  - split; [done|]. by exists E'.
Qed.

Lemma group_quiet L n n' E :
  eager_read P = false -> lan_ok L -> group L n E -> group_step (quiet ctime P resolve) L n n' ->
  (forall k, names_of n' k = names_of n k) /\ exists E', group L n' E' /\ heard E E'.
Proof.
  intros HP Hok Hg Hs. destruct Hs as [i j li lj n x' y' Hij Hji Ha].
  destruct (group_outcome uneventful L n E i j li lj x' y') as (Hn & E' & ev & Hev & Hg' & _ & Hh); try done.
  - exact (quiet_event ctime P resolve (knows L i) (end_of n i li) (end_of n j lj) x' y' _ _ HP (gr_desk _ _ _ Hg i j li Hij)
      (knows_linked L i j li Hij) (gr_link _ _ _ Hg i j li lj Hij Hji) Ha).
  - split; [done|]. exists E'. split; [done|by apply Hh].
Qed.

Lemma group_talks_names L f g E E' : (forall k, f k = g k) -> group_talks L f E E' -> group_talks L g E E'.
Proof. intros Hf Ht. destruct Ht as [i j li lj E ei ej Hij Hji Ht]. apply (gt_step L g i j li lj); [done|done|]. by rewrite <- Hf. Qed.

Lemma group_run L n n' E :
  eager_read P = false -> lan_ok L -> group L n E -> star (group_step (acts ctime P resolve) L) n n' ->
  (forall k, names_of n' k = names_of n k) /\
  exists E', star (group_talks L (names_of n)) E E' /\ group L n' E'.
Proof.
  intros HP Hok Hg Hs. revert E Hg. induction Hs as [n|n1 n2 n3 Hst _ IH]; intros E Hg.
  - split; [done|]. exists E. split; [constructor|done].
  - destruct (group_acts L n1 n2 E HP Hok Hg Hst) as (Hn & E1 & Hg1 & Hor). destruct (IH E1 Hg1) as (Hn' & E2 & Hs2 & Hg2).
    split; [intros k; by rewrite Hn', Hn|]. exists E2. split; [|done].
    assert (Hs3 : star (group_talks L (names_of n1)) E1 E2).
    { clear -Hs2 Hn. induction Hs2 as [E|Ea Eb Ec Ht _ IH]; [constructor|]. eapply star_step; [|exact IH].
      by apply (group_talks_names L (names_of n2)). }
    destruct Hor as [->|Ht]; [done|]. by eapply star_step.
Qed.

(** ** Nothing stays on its way *)

(** How many messages are on their way. *)
Definition total (L : lan) (E : ends) : nat := sum_list_with (fun kl => length (e_in (E kl.1))) (map_to_list L).

Lemma sum_less {A} (f g : A -> nat) l x :
  (forall y, f y <= g y)%nat -> x ∈ l -> (f x < g x)%nat -> (sum_list_with f l < sum_list_with g l)%nat.
Proof.
  intros Hle Hx Hlt. assert (Hall : forall l, (sum_list_with f l <= sum_list_with g l)%nat).
  { intros l0. induction l0 as [|y l0 IH]; cbn; [lia|]. specialize (Hle y). lia. }
  induction l as [|y l IH]; [by apply elem_of_nil in Hx|]. cbn. apply elem_of_cons in Hx as [<-|Hx].
  - specialize (Hall l). lia.
  - specialize (IH Hx). specialize (Hle y). lia.
Qed.

Lemma heard_less L E E' k l :
  heard E E' -> L !! k = Some l -> (length (e_in (E' k)) < length (e_in (E k)))%nat -> (total L E' < total L E)%nat.
Proof.
  intros Hh Hk Hlt. apply (sum_less _ _ _ (k, l)); [|by apply elem_of_map_to_list|done].
  intros [k' l']. cbn. destruct (Hh k') as (pre & suf & Hs & ->). rewrite Hs, length_app. cbn. lia.
Qed.

Definition quiet_run (L : lan) : machines -> machines -> Prop := star (group_step (quiet ctime P resolve) L).

(** Waiting mail is heard. *)
Lemma hear_waiting L n E i j0 l0 msg ms :
  eager_read P = false -> lan_ok L -> group L n E -> L !! (i, j0) = Some l0 -> waiting (manager (n i)) (msg :: ms) ->
  exists n' E', quiet_run L n n' /\ group L n' E' /\ heard E E' /\ (total L E' < total L E)%nat.
Proof.
  intros HP Hok Hg Hi0 Hm. pose proof (gr_desk _ _ _ Hg i j0 l0 Hi0) as Hd.
  destruct (mail_handled resolve (knows L i) (n i) Hd) as [[Hm0 _]|(msg' & ms' & m1 & _ & (j & li & Hij & _) & _ & _ & HL)].
  { pose proof (waiting_fun _ _ _ Hm Hm0). done. }
  destruct (mail_event resolve _ _ _ _ Hd HL) as [msg0 Hev]. set (a := post _ _) in *.
  destruct (group_event L n E i a _ Hok Hg Hev) as (E' & Hg' & _ & Hh & Hlt). destruct (lk_sym L Hok i j) as [lj Hji]; [by rewrite Hij|].
  assert (Hq : uneventful (Hears msg0)) by done. specialize (Hh Hq). destruct (Hlt msg0 eq_refl) as (k & lk & Hik & Hlt').
  exists (<[ i := a ]> (<[ j := n j ]> n)), E'. split; [|split; [|split; [done|by apply (heard_less L E E' (i, k) lk)]]].
  - eapply star_step; [|constructor].
    apply (gs_step _ L i j li lj n (with_app (end_of n i li) a) (end_of n j lj)); [done|done|]. by eapply q_mail.
  - apply (group_ext L (<[ i := a ]> n)); [|done]. apply same_insert. by apply (lan_other L i j li).
Qed.

Lemma session_written_none s : between_lines s -> s_state s = BVSESSIONSTATE_ESTABLISHED -> pending (complete_write P s) = [].
Proof.
  intros (Hl & Hsz & [Hw|(Ht & b & Hw)]) Hst.
  - unfold complete_write, pending. by rewrite Hw, Hw.
  - rewrite (complete_writing P s b) by (done || by rewrite Hst). done.
Qed.

(** All that is on its way to machine [i] from [j] is brought to its socket. *)
Lemma all_carried L n E i j li lj :
  eager_read P = false -> lan_ok L -> group L n E -> L !! (i, j) = Some li -> L !! (j, i) = Some lj ->
  exists n', quiet_run L n n' /\ group L n' E /\ (forall ms, waiting (manager (n i)) ms -> waiting (manager (n' i)) ms) /\
    exists sy, in_talk (end_of n' j lj) sy /\ tx (sock sy) = [] /\ pending sy = [].
Proof.
  intros HP Hok Hg Hij Hji. pose proof (lan_other L j i lj Hok Hji) as Hne.
  destruct (gr_link _ _ _ Hg j i lj li Hji Hij) as (sy & sx & Hy & Hx & _).
  set (sy1 := complete_write P sy). set (a1 := s_app (with_session (end_of n j lj) sy1)). set (n1 := <[ j := a1 ]> (<[ i := n i ]> n)).
  assert (Hg1 : group L n1 E).
  { apply (group_ext L (<[ j := a1 ]> n)); [by apply same_insert|].
    apply (group_performs L n E E j a1 Silent); try done. apply (written_event P (knows L j) (end_of n j lj) sy); [by apply (gr_desk _ _ _ Hg j i lj)|done]. }
  assert (Hj1 : end_of n1 j lj = with_session (end_of n j lj) sy1) by (unfold end_of at 1, n1; by rewrite fn_lookup_insert).
  assert (Hi1 : n1 i = n i) by (unfold n1; rewrite fn_lookup_insert_ne, fn_lookup_insert by done; done).
  assert (Hy1 : session_of (end_of n1 j lj) = Some sy1).
  { rewrite Hj1. apply session_of_with. etransitivity; [apply (sm_self _ _ (complete_write_same P sy))|apply (it_self _ _ Hy)]. }
  assert (Hx1 : session_of (end_of n1 i li) = Some sx) by (unfold end_of; rewrite Hi1; apply (it_obj _ _ Hx)).
  set (k := length (tx (sock sy1))). set (y2 := with_session (end_of n1 j lj) (carry k sy1)).
  set (x2 := with_session (end_of n1 i li) (receive sx (take k (tx (sock sy1))))). set (n2 := <[ j := s_app y2 ]> (<[ i := s_app x2 ]> n1)).
  assert (Hc : crosses (end_of n1 j lj) (end_of n1 i li) y2 x2) by by exists k, sy1, sx.
  assert (Hg2 : group L n2 E) by by apply (group_crosses L n1 E j i lj li).
  exists n2. split; [|split; [done|split]].
  - eapply star_step; [apply (gs_step _ L j i lj li n (with_session (end_of n j lj) sy1) (end_of n i li)); [done|done|]|].
    { constructor. apply (it_obj _ _ Hy). }
    eapply star_step; [apply (gs_step _ L j i lj li n1 y2 x2); [done|done|]|constructor]. by constructor.
  - intros ms Hm. unfold n2. rewrite fn_lookup_insert_ne, fn_lookup_insert by done. cbn [x2 with_session with_mgr with_app s_app].
    unfold mgr_of. cbn [end_of s_app]. rewrite Hi1. exact Hm.
  - destruct (gr_link _ _ _ Hg2 j i lj li Hji Hij) as (sy2 & _ & Hy2 & _). exists sy2. split; [done|].
    pose proof (it_obj _ _ Hy2) as Ho. unfold end_of, n2 in Ho. rewrite fn_lookup_insert in Ho.
    change (session_of y2 = Some sy2) in Ho. unfold y2 in Ho. rewrite session_of_with in Ho.
    2:{ cbn. etransitivity; [apply (sm_self _ _ (complete_write_same P sy))|apply (it_self _ _ Hy)]. }
    injection Ho as <-. split; [cbn; unfold k; apply drop_all|]. apply (session_written_none sy (it_write _ _ Hy) (it_state _ _ Hy)).
Qed.

(** As long as something is on its way, something gets heard. *)
Lemma some_progress L n E i j li :
  eager_read P = false -> lan_ok L -> group L n E -> L !! (i, j) = Some li -> e_in (E (i, j)) <> [] ->
  exists n' E', quiet_run L n n' /\ group L n' E' /\ heard E E' /\ (total L E' < total L E)%nat.
Proof.
  intros HP Hok Hg Hij Hin. destruct (lk_sym L Hok i j) as [lj Hji]; [by rewrite Hij|].
  destruct (dk_mail _ _ (gr_desk _ _ _ Hg i j li Hij)) as ([|msg ms] & Hm & _); [|by apply (hear_waiting L n E i j li msg ms)].
  destruct (all_carried L n E i j li lj HP Hok Hg Hij Hji) as (n1 & Hr1 & Hg1 & Hm1 & sy & Hy & Htx & Hpe). specialize (Hm1 _ Hm).
  destruct (gr_link _ _ _ Hg1 i j li lj Hij Hji) as (sx & sy' & Hx & Hy' & [_ (ms & cms & Hms & Hc & Hf & He) Hear] & _).
  pose proof (in_talk_fun _ _ _ Hy' Hy) as ->. rewrite Htx, Hpe, !app_nil_r in Hf.
  rewrite (waiting_fun _ _ _ Hms Hm1) in He. destruct (e_open (E (i, j))); [|done]. cbn [ear] in Hear. destruct cms as [|cm cms]; [done|]. apply Forall_cons in Hc as [Hcm _].
  set (e := Env 0 [] 0 None true false). change (frames_of (cm :: cms)) with (message_bytes cm ++ frames_of cms) in Hf.
  destruct (frame_read P e _ sx [] cm _ HP Hx Hear Hm1 Hcm Hf) as (ml & Hml & Hr).
  set (x2 := with_mgr (end_of n1 i li) (put_back (m_mail (manager (n1 i)) ml) (rearmed sx (frames_of cms)))).
  pose proof (lan_other L i j li Hok Hij) as Hne. set (n2 := <[ i := s_app x2 ]> (<[ j := n1 j ]> n1)).
  assert (Hg2 : group L n2 E).
  { apply (group_ext L (<[ i := s_app x2 ]> n1)); [by apply same_insert|].
    apply (group_performs L n1 E E i (s_app x2) Silent); try done.
    apply (read_event P (knows L i) e (end_of n1 i li) (end_of n1 j lj) _ (E (i, j)) (E (j, i)) HP);
      [by apply (gr_desk _ _ _ Hg1 i j li)|by eapply knows_linked|by apply (gr_link _ _ _ Hg1)|exact Hr]. }
  assert (Hm2 : waiting (manager (n2 i)) [chat_of li.2 cm]) by (unfold n2; rewrite fn_lookup_insert; exact Hml).
  destruct (hear_waiting L n2 E i j li _ _ HP Hok Hg2 Hij Hm2) as (n3 & E3 & Hr3 & Hg3 & Hh3 & Hlt).
  exists n3, E3. split; [|by split_and!]. eapply star_trans; [exact Hr1|]. eapply star_step; [|exact Hr3].
  apply (gs_step _ L i j li lj n1 x2 (end_of n1 j lj)); [done|done|]. eapply q_read. exact Hr.
Qed.

Definition all_heard (L : lan) (E : ends) : Prop := forall i j l, L !! (i, j) = Some l -> e_in (E (i, j)) = [].

Lemma something_left L E : all_heard L E \/ exists i j l, L !! (i, j) = Some l /\ e_in (E (i, j)) <> [].
Proof.
  destruct (decide (map_Exists (fun k (_ : nat * string) => e_in (E k) <> []) L)) as [Hx|Hx].
  - destruct Hx as ([i j] & l & Hl & Hin). right. by exists i, j, l.
  - left. intros i j l Hl. destruct (e_in (E (i, j))) eqn:He; [done|]. exfalso. apply Hx. exists (i, j), l. by rewrite He.
Qed.

Lemma all_delivered L n E :
  eager_read P = false -> lan_ok L -> group L n E ->
  exists n' E', quiet_run L n n' /\ group L n' E' /\ heard E E' /\ all_heard L E'.
Proof.
  intros HP Hok. remember (total L E) as t eqn:Ht. revert n E Ht. induction (lt_wf t) as [t _ IH]. intros n E -> Hg.
  destruct (something_left L E) as [Hall|(i & j & l & Hl & Hin)].
  - exists n, E. split; [constructor|]. split; [done|]. split; [apply heard_refl|done].
  - destruct (some_progress L n E i j l HP Hok Hg Hl Hin) as (n1 & E1 & Hr1 & Hg1 & Hh1 & Hlt).
    destruct (IH _ Hlt n1 E1 eq_refl Hg1) as (n2 & E2 & Hr2 & Hg2 & Hh2 & Hall).
    exists n2, E2. split; [by eapply star_trans|]. split; [done|]. split; [by eapply heard_trans|done].
Qed.

Lemma names_quiet L n n' E :
  eager_read P = false -> lan_ok L -> group L n E -> quiet_run L n n' -> forall k, names_of n' k = names_of n k.
Proof.
  intros HP Hok Hg Hr. revert E Hg. induction Hr as [n|n1 n2 n3 Hst _ IH]; intros E Hg k; [done|].
  destruct (group_quiet L n1 n2 E HP Hok Hg Hst) as (Hn & E2 & Hg2 & _). by rewrite (IH E2 Hg2 k).
Qed.

End Group.

(** ** What the specification says about the logs *)

(** What [x] has said is what [y] has heard and what is on its way to [y]; and
    when [y] no longer reads, what [y] is never going to hear. *)
Definition in_order (ownx namex : string) (x y : endpoint) : Prop :=
  (exists gone, map (as_heard namex) (lines_of ownx (e_log x)) = lines_of namex (e_log y) ++ e_in y ++ gone /\
     (e_open y = true -> gone = [])) /\
  Forall (fun m => cm_sender m = namex) (e_in y).

Lemma nothing_in_order own name : in_order own name nothing_said nothing_said.
Proof. split; [by exists []|constructor]. Qed.

Lemma says_in_order own name t line x y :
  in_order own name x y ->
  in_order own name (MkEnd (e_log x ++ [said own t line]) (e_in x) (e_open x)) (coming (as_heard name (said own t line)) y).
Proof.
  intros [(gone & Hxy & Hg) Hy]. unfold coming. destruct (e_open y) eqn:Ho; split; cbn [e_log e_in e_open].
  - exists []. split; [|done]. rewrite lines_of_app, lines_of_one. cbn [cm_sender said]. rewrite decide_True by done.
    rewrite map_app, Hxy, (Hg eq_refl), !app_nil_r, <- (assoc_L (++)). done.
  - apply Forall_app. split; [done|]. by apply Forall_singleton.
  - exists (gone ++ [as_heard name (said own t line)]). split; [|by rewrite Ho].
    rewrite lines_of_app, lines_of_one. cbn [cm_sender said]. rewrite decide_True by done. by rewrite map_app, Hxy, !(assoc_L (++)).
  - done.
Qed.

(** What is on its way to the speaker is no concern of what it says. *)
Lemma in_order_speaker own name x x' y :
  lines_of own (e_log x') = lines_of own (e_log x) -> in_order own name x y -> in_order own name x' y.
Proof. unfold in_order. by intros ->. Qed.

Lemma in_order_hearer own name x y y' :
  lines_of name (e_log y') = lines_of name (e_log y) -> e_in y' = e_in y -> e_open y' = e_open y ->
  in_order own name x y -> in_order own name x y'.
Proof. unfold in_order. by intros -> -> ->. Qed.

Lemma coming_log msg y : e_log (coming msg y) = e_log y.
Proof. unfold coming. by destruct (e_open y). Qed.

Lemma talks_in_order ownA nameA ownB nameB x y x' y' :
  ownA <> nameB -> ownB <> nameA -> talks ownA nameA x y x' y' ->
  in_order ownA nameA x y -> in_order ownB nameB y x -> in_order ownA nameA x' y' /\ in_order ownB nameB y' x'.
Proof.
  intros HA HB Ht Hxy Hyx. destruct Ht as [t line x y|msg l x y He|k x y Ho].
  - split; [by apply says_in_order|]. apply (in_order_speaker _ _ y); [by rewrite coming_log|].
    apply (in_order_hearer _ _ y x); try done. cbn [e_log]. rewrite lines_of_app, lines_of_one. cbn [cm_sender said]. by rewrite decide_False, app_nil_r by done.
  - destruct Hyx as [(gone & Hyx & Hg) Hx]. rewrite He in Hyx, Hx. apply Forall_cons in Hx as [Hm Hx]. split.
    + apply (in_order_speaker _ _ x); [|done]. cbn [e_log]. rewrite lines_of_app, lines_of_one, Hm, decide_False by done. apply app_nil_r.
    + split; [|done]. exists gone. split; [|done]. cbn [e_log e_in]. rewrite lines_of_app, lines_of_one, decide_True by done.
      by rewrite Hyx, <- !(assoc_L (++)).
  - split; [by apply (in_order_speaker _ _ x)|]. destruct Hyx as [(gone & Hyx & Hg) Hx]. split; cbn [e_log e_in e_open].
    + exists (drop k (e_in x) ++ gone). split; [|done]. by rewrite Hyx, !(assoc_L (++)), <- (assoc_L (++) _ (take k _)), take_drop.
    + by apply Forall_take.
Qed.

Definition links_in_order (L : lan) (names : nat -> string) (E : ends) : Prop :=
  forall i j li lj, L !! (i, j) = Some li -> L !! (j, i) = Some lj -> in_order (names i) lj.2 (E (i, j)) (E (j, i)).

(** No machine has its own name for another one. *)
Definition names_apart (L : lan) (names : nat -> string) : Prop := forall i j l, L !! (i, j) = Some l -> names i <> l.2.

Lemma group_talks_in_order L names E E' :
  lan_ok L -> names_apart L names -> group_talks L names E E' -> links_in_order L names E -> links_in_order L names E'.
Proof.
  intros Hok Hn Ht Ho. destruct Ht as [i j li lj E ei ej Hij Hji Ht].
  destruct (talks_in_order _ _ (names j) li.2 _ _ _ _ (Hn i j li Hij) (Hn j i lj Hji) Ht (Ho i j li lj Hij Hji) (Ho j i lj li Hji Hij))
    as [Hoi Hoj]. pose proof (lan_other L i j li Hok Hij) as Hne.
  assert (Ei : (<[ (i, j) := ei ]> (<[ (j, i) := ej ]> E)) (i, j) = ei) by apply fn_lookup_insert.
  assert (Ej : (<[ (i, j) := ei ]> (<[ (j, i) := ej ]> E)) (j, i) = ej)
    by (rewrite fn_lookup_insert_ne by congruence; apply fn_lookup_insert).
  intros a b la lb Hab Hba. destruct (decide ((a, b) = (i, j))) as [[= -> ->]|H1]; [simplify_eq; by rewrite Ei, Ej|].
  destruct (decide ((a, b) = (j, i))) as [[= -> ->]|H2]; [simplify_eq; by rewrite Ei, Ej|].
  rewrite !fn_lookup_insert_ne by congruence. by apply (Ho a b la lb).
Qed.

Lemma group_talks_run_in_order L names E E' :
  lan_ok L -> names_apart L names -> star (group_talks L names) E E' -> links_in_order L names E -> links_in_order L names E'.
Proof.
  intros Hok Hn Hs Ho. revert Hs. apply (star_invariant _ (links_in_order L names)); [|exact Ho].
  intros E1 E2 H1 Ht. by apply (group_talks_in_order L names E1 E2).
Qed.

(** ** What is said and what is heard *)

Section Talk.
Context {Q : Type -> Type} `{FifoQueueLaws Q} (ctime : Z -> list ascii) (P : asio)
  (resolve : string -> Z -> nat -> bool * nat).

Definition log_of (x : @side Q) : list BVChatMessage := default [] (logV <$> chatLogsM (s_app x) !! s_peer x).
Definition said_by (x : @side Q) : list BVChatMessage := lines_of (own x) (log_of x).
Definition heard_by (x : @side Q) : list BVChatMessage := lines_of (s_peer x) (log_of x).

(** The two ends of the specification in terms of the machines' logs. *)
Lemma link_logs x y ex ey : link x y ex ey -> e_log ex = log_of x /\ e_log ey = log_of y.
Proof. intros (sx & sy & _ & _ & Hx & Hy). split; [apply (rf_log _ _ _ _ Hx)|apply (rf_log _ _ _ _ Hy)]. Qed.

Lemma group_log L n E i j l : lan_ok L -> group L n E -> L !! (i, j) = Some l -> e_log (E (i, j)) = log_of (end_of n i l).
Proof.
  intros Hok Hg Hl. destruct (lk_sym L Hok i j) as [l' Hl']; [by rewrite Hl|].
  apply (link_logs _ _ _ _ (gr_link _ _ _ Hg i j l l' Hl Hl')).
Qed.

(** C1.  Any interleaving of keys, completed writes, completed and failed reads,
    bytes crossing, mail and redraws on any number of machines, each chatting
    over its sessions with any of the others, is an interleaving of saying,
    hearing and closing an end on two FIFO channels for every two linked
    machines; and no operation of any machine faults on the way.  For reads that are filled when they complete
    (see [eager_read_loses_second_message]) and keys that [key_allowed]
    describes: no line while another is being written on the same session (see
    [overlapping_lines_lost]), no file command, no key for discovery or to
    quit. *)
Theorem group_refines_channels L n n' E :
  eager_read P = false -> (forall t, (4 <= length (ctime t))%nat) -> lan_ok L -> group L n E ->
  star (group_step (acts ctime P resolve) L) n n' ->
  exists E', star (group_talks L (names_of n)) E E' /\ group L n' E' /\
    forall i j l, L !! (i, j) = Some l ->
      e_log (E' (i, j)) = log_of (end_of n' i l) /\ never_faults ctime P resolve (end_of n' i l).
Proof.
  intros HP Hct Hok Hg Hs. destruct (group_run ctime P resolve L n n' E HP Hok Hg Hs) as (_ & E' & Hs' & Hg').
  exists E'. split; [done|]. split; [done|]. intros i j l Hl. split; [by apply (group_log L n' E')|].
  destruct (lk_sym L Hok i j) as [l' Hl']; [by rewrite Hl|].
  by apply (no_fault ctime P resolve Hct (knows L i) (end_of n' i l) (end_of n' j l') _ _ HP (gr_desk _ _ _ Hg' i j l Hl) (gr_link _ _ _ Hg' i j l l' Hl Hl')).
Qed.

(** The invariant from a state where nothing has been said, as logs. *)
Lemma order_logs L n E i j li lj :
  lan_ok L -> group L n E -> links_in_order L (names_of n) E -> L !! (i, j) = Some li -> L !! (j, i) = Some lj ->
  (exists gone, map (as_heard lj.2) (said_by (end_of n i li)) = heard_by (end_of n j lj) ++ e_in (E (j, i)) ++ gone /\
     (e_open (E (j, i)) = true -> gone = [])) /\
  Forall (fun m => cm_sender m = lj.2) (e_in (E (j, i))).
Proof.
  intros Hok Hg Ho Hij Hji. destruct (Ho i j li lj Hij Hji) as [H1 H2].
  rewrite (group_log L n E i j li), (group_log L n E j i lj) in H1 by done. done.
Qed.

(** What has been heard meanwhile is nobody's own line. *)
Lemma heard_said L n n' E E' i j li lj :
  lan_ok L -> group L n E -> group L n' E' -> links_in_order L (names_of n) E -> heard E E' ->
  (forall k, names_of n' k = names_of n k) -> names_apart L (names_of n) -> L !! (i, j) = Some li -> L !! (j, i) = Some lj ->
  said_by (end_of n' i li) = said_by (end_of n i li).
Proof.
  intros Hok Hg Hg' Ho Hh Hn Hap Hij Hji. unfold said_by. rewrite <- (group_log L n' E' i j li), <- (group_log L n E i j li) by done.
  destruct (Hh (i, j)) as (pre & suf & Hin & ->). cbn [e_log]. change (own (end_of n' i li)) with (names_of n' i).
  change (own (end_of n i li)) with (names_of n i). rewrite Hn, lines_of_app.
  destruct (order_logs L n E j i lj li Hok Hg Ho Hji Hij) as [_ Hall]. rewrite Hin in Hall. apply Forall_app in Hall as [Hpre _].
  rewrite (lines_of_none _ li.2 pre); [apply app_nil_r|by apply (Hap i j)|done].
Qed.

(** The session at this end has a read pending. *)
Definition hearing (x : @side Q) : Prop := exists s, session_of x = Some s /\ listening s.

Lemma hearing_open x y ex ey : link x y ex ey -> hearing x -> e_open ex = true.
Proof.
  intros (s & _ & Hs & _ & [_ _ He] & _) (s' & Hs' & Hl). rewrite (it_obj _ _ Hs) in Hs'. injection Hs' as ->.
  by apply (ear_fun _ true s').
Qed.

(** C2.  In every reachable state of the group, whatever connections have been
    lost, what machine [j]'s log has of machine [i] is a prefix of what [i]
    said to [j] (to [j] and to nobody else), in order and each line once; and
    without another key the machines can get to where everything said has been
    heard by everyone it was said to and whose session still reads. *)
Theorem group_delivers L n n' E :
  eager_read P = false -> lan_ok L -> names_apart L (names_of n) -> group L n E -> links_in_order L (names_of n) E ->
  star (group_step (acts ctime P resolve) L) n n' ->
  (forall i j li lj, L !! (i, j) = Some li -> L !! (j, i) = Some lj ->
     heard_by (end_of n' j lj) `prefix_of` map (as_heard lj.2) (said_by (end_of n' i li))) /\
  exists n'', star (group_step (quiet ctime P resolve) L) n' n'' /\
    forall i j li lj, L !! (i, j) = Some li -> L !! (j, i) = Some lj ->
      said_by (end_of n'' i li) = said_by (end_of n' i li) /\
      (hearing (end_of n' j lj) -> heard_by (end_of n'' j lj) = map (as_heard lj.2) (said_by (end_of n' i li))).
Proof.
  intros HP Hok Hap Hg Ho Hs. destruct (group_run ctime P resolve L n n' E HP Hok Hg Hs) as (Hn & E' & Hs' & Hg').
  pose proof (group_talks_run_in_order L _ E E' Hok Hap Hs' Ho) as Ho'.
  assert (Hap' : names_apart L (names_of n')) by (intros i j l Hl; rewrite Hn; by apply (Hap i j)).
  assert (Ho2 : links_in_order L (names_of n') E') by (intros i j li lj Hij Hji; rewrite Hn; by apply (Ho' i j li lj)).
  split.
  { intros i j li lj Hij Hji. destruct (order_logs L n' E' i j li lj Hok Hg' Ho2 Hij Hji) as [(gone & -> & _) _]. by eexists. }
  destruct (all_delivered ctime P resolve L n' E' HP Hok Hg') as (n2 & E2 & Hr & Hg2 & Hh & Hall).
  pose proof (names_quiet ctime P resolve L n' n2 E' HP Hok Hg' Hr) as Hn2.
  exists n2. split; [exact Hr|]. intros i j li lj Hij Hji.
  assert (Hsaid : said_by (end_of n2 i li) = said_by (end_of n' i li)) by by apply (heard_said L n' n2 E' E2 i j li lj).
  split; [done|]. intros Hear. destruct (order_logs L n' E' i j li lj Hok Hg' Ho2 Hij Hji) as [(gone & -> & Hgone) Hse].
  rewrite (Hgone (hearing_open _ _ _ _ (gr_link _ _ _ Hg' j i lj li Hji Hij) Hear)), app_nil_r.
  unfold heard_by. rewrite <- (group_log L n2 E2 j i lj), <- (group_log L n' E' j i lj) by done.
  destruct (Hh (j, i)) as (pre & suf & Hin & He). pose proof (Hall j i lj Hji) as Hnil. rewrite He in Hnil |- *. cbn in Hnil. subst suf.
  rewrite app_nil_r in Hin. rewrite <- Hin. cbn [e_log]. change (s_peer (end_of ?m j lj)) with lj.2.
  by rewrite lines_of_app, (lines_of_all _ _ Hse).
Qed.

End Talk.

(** ** How a group grows *)

Section Growth.
Context {Q : Type -> Type} `{FifoQueueLaws Q} (P : asio).

(** [m'] has what [m] has, and the session [s] with [name] at [ref]. *)
Record gained (m m' : Manager Q) (ref : nat) (s : BVTCPSession) (name : string) : Prop := {
  gn_place : same_place m m';
  gn_mail : mgr_mail m' = mgr_mail m;
  gn_inv : mgr_inv m';
  gn_obj : objs m' !! ref = Some s;
  gn_objs : forall r, r <> ref -> objs m' !! r = objs m !! r;
  gn_found : smap_find (sessionID s) (sessions_m m') = Some ref;
  gn_finds : forall k, k <> sessionID s -> smap_find k (sessions_m m') = smap_find k (sessions_m m);
  gn_services : service_sessionid_m m' = <[ name := sessionID s ]> (service_sessionid_m m);
  gn_self : self s = ref;
  gn_node : nd_serviceName (nodeData s) = name;
  gn_ready : s_state s = BVSESSIONSTATE_ESTABLISHED /\ listening s /\ writable s
}.

(** The object, the identifier and the name are new to [m]. *)
Definition new_to (m : Manager Q) (ref : nat) (s : BVTCPSession) (name : string) : Prop :=
  objs m !! ref = None /\ smap_find (sessionID s) (sessions_m m) = None /\ name ∉ session_names m.

Lemma talk_named x s : in_talk (Q := Q) x s -> s_peer x ∈ session_names (mgr_of x).
Proof.
  intros Hx. unfold session_names. apply list_elem_of_omap. exists (sessionID s, s_ref x).
  split; [apply smap_find_elem, (it_found _ _ Hx)|]. unfold session_name. cbn. pose proof (it_obj _ _ Hx) as Ho.
  unfold session_of in Ho. rewrite Ho. cbn. by rewrite (it_node _ _ Hx).
Qed.

Lemma gained_talk a m' ref s name :
  gained (manager a) m' ref s name -> in_talk (MkSide (a_manager a m') ref name) s.
Proof.
  intros Hg. destruct (gn_ready _ _ _ _ _ Hg) as (Hst & Hli & [Hw1 Hw2 Hw3]). split; unfold session_of, mgr_of; cbn;
    [apply (gn_found _ _ _ _ _ Hg)| |apply (gn_obj _ _ _ _ _ Hg)|apply (gn_self _ _ _ _ _ Hg)|done|apply (gn_node _ _ _ _ _ Hg)|].
  - rewrite (gn_services _ _ _ _ _ Hg). apply lookup_insert_eq.
  - split; [done|]. split; [done|by left].
Qed.

Lemma gained_elsewhere x m' ref s s1 name :
  new_to (mgr_of x) ref s name -> in_talk x s1 -> gained (mgr_of x) m' ref s name -> elsewhere x (with_mgr x m').
Proof.
  intros (Hr & Hk & Hn) Hx Hg. pose proof (it_obj _ _ Hx) as Ho. split; try done; cbn.
  - intros k r Hf. rewrite (gn_finds _ _ _ _ _ Hg); [done|]. intros ->. congruence.
  - rewrite (gn_services _ _ _ _ _ Hg). apply lookup_insert_ne. intros ->. by apply Hn, (talk_named x s1).
  - unfold session_of. cbn. apply (gn_objs _ _ _ _ _ Hg). intros He. unfold session_of in Ho. rewrite He in Ho. congruence.
  - intros ms Hm. exists ms. split; [|done]. unfold waiting, mgr_app_mail in *. cbn.
    by rewrite (gn_mail _ _ _ _ _ Hg), (proj1 (gn_place _ _ _ _ _ Hg)).
Qed.

Lemma gained_names m m' ref s name q :
  mgr_inv m -> new_to m ref s name -> gained m m' ref s name -> q ∈ session_names m' -> q = name \/ q ∈ session_names m.
Proof.
  intros Hi (Hr & Hk & Hn) Hg Hq. apply list_elem_of_omap in Hq as ([k r] & Hin & Hq). cbn in Hq.
  pose proof (smap_elem_find _ _ _ (mi_sorted _ (gn_inv _ _ _ _ _ Hg)) Hin) as Hf.
  destruct (decide (k = sessionID s)) as [->|Hne].
  - left. rewrite (gn_found _ _ _ _ _ Hg) in Hf. injection Hf as <-. unfold session_name in Hq.
    rewrite (gn_obj _ _ _ _ _ Hg) in Hq. injection Hq as <-. apply Hg.
  - right. rewrite (gn_finds _ _ _ _ _ Hg k Hne) in Hf. apply smap_find_elem in Hf. apply list_elem_of_omap.
    exists (k, r). split; [done|]. cbn. destruct (mi_ref m Hi k r Hf) as (s0 & Hs0 & _).
    rewrite <- Hq. unfold session_name. rewrite (gn_objs _ _ _ _ _ Hg); [done|]. congruence.
Qed.

Lemma gained_desk (ps ps' : string -> Prop) a m' ref s name :
  desk ps a -> new_to (manager a) ref s name -> gained (manager a) m' ref s name ->
  (forall q, ps' q <-> ps q \/ q = name) -> desk ps' (a_manager a m').
Proof.
  intros Hd Hnew Hg Hps. assert (Hsub : forall q, ps q -> ps' q) by (intros q Hq; apply Hps; by left).
  pose proof (dk_ui _ _ Hd) as [Hu Hc]. destruct (dk_mail _ _ Hd) as (ms & Hm & Hs). split; cbn; try apply Hd; try apply Hg.
  - rewrite (proj1 (gn_place _ _ _ _ _ Hg)). apply Hd.
  - exists ms. split; [|apply (Forall_impl _ _ _ Hs); intros m1; apply Hsub]. unfold waiting, mgr_app_mail in *.
    by rewrite (gn_mail _ _ _ _ _ Hg), (proj1 (gn_place _ _ _ _ _ Hg)).
  - split; [done|]. intros Hch. by apply Hsub, Hc.
  - intros q Hq. apply Hps. destruct (gained_names _ _ _ _ _ q (dk_inv _ _ Hd) Hnew Hg Hq) as [->|Hq']; [by right|left].
    by apply (dk_names _ _ Hd).
  - intros q [Hq| ->]%Hps; [|by exists ref, s; apply gained_talk]. destruct (dk_talks _ _ Hd q Hq) as (r & s1 & Hs1).
    exists r, s1. apply (in_talk_elsewhere (MkSide a r q)); [|done]. by apply (gained_elsewhere (MkSide a r q) m' ref s s1 name).
Qed.

(** What the new link has to show. *)
Definition new_end (a : App Q) (name : string) : endpoint := MkEnd (default [] (logV <$> chatLogsM a !! name)) [] true.

Lemma gained_reflects ps a m' ref s s2 name :
  desk ps a -> (forall q, ps q -> q ∈ session_names (manager a)) -> new_to (manager a) ref s name -> gained (manager a) m' ref s name ->
  rx (sock s) = [] -> tx (sock s2) = [] -> writable s2 ->
  reflects (MkSide (a_manager a m') ref name) s s2 (new_end a name).
Proof.
  intros Hd Hps (_ & _ & Hn) Hg Hrx Htx Hw. split; [done| |apply (gn_ready _ _ _ _ _ Hg)]. destruct (dk_mail _ _ Hd) as (ms & Hm & Hs). exists ms, [].
  split; [|split; [constructor|split]].
  - unfold waiting, mgr_app_mail, mgr_of in *. cbn. by rewrite (gn_mail _ _ _ _ _ Hg), (proj1 (gn_place _ _ _ _ _ Hg)).
  - unfold pending. by rewrite Hrx, Htx, (wr_none _ Hw).
  - cbn. rewrite app_nil_r. symmetry. apply lines_of_absent. apply (Forall_impl _ _ _ Hs).
    intros m Hm1 <-. by apply Hn, Hps.
Qed.

(** An application nobody has talked to yet. *)
Record alone (a : App Q) : Prop := {
  al_inv : mgr_inv (manager a);
  al_sessions : sessions_m (manager a) = [];
  al_mail : mgr_app_mail (manager a) [];
  al_box : mailbox (manager a) = inMailBox_p (app_base a);
  al_ui : uiState a = MainMenu;
  al_input : inputLine a = [];
  al_posted : posted_q a = []
}.

Lemma alone_desk (a : App Q) : alone a -> desk (fun _ => False) a.
Proof.
  intros [Hi Hs Hm Hb Hu Hin Hpo]. split; try done.
  - exists []. split; [exact Hm|constructor].
  - by rewrite Hu.
  - by rewrite Hin.
  - by rewrite Hpo.
  - intros q. unfold session_names. rewrite Hs. by intros ?%elem_of_nil.
Qed.

Lemma group_empty (n : nat -> App Q) E : lan_ok ∅ /\ group ∅ n E.
Proof. by split; split. Qed.

(** Two machines of a group gain a session with each other. *)
Lemma desk_named ps (a : App Q) q : desk ps a -> ps q -> q ∈ session_names (manager a).
Proof. intros Hd Hq. destruct (dk_talks _ _ Hd q Hq) as (r & s & Hs). apply (talk_named _ s Hs). Qed.

Definition linked_up (L : lan) (i j : nat) (li lj : nat * string) : lan := <[ (i, j) := li ]> (<[ (j, i) := lj ]> L).

Lemma linked_up_cases L i j li lj a b l :
  i <> j -> linked_up L i j li lj !! (a, b) = Some l ->
  (a, b) = (i, j) /\ l = li \/ (a, b) = (j, i) /\ l = lj \/ (a, b) <> (i, j) /\ (a, b) <> (j, i) /\ L !! (a, b) = Some l.
Proof.
  intros Hne Hl. unfold linked_up in Hl. destruct (decide ((a, b) = (i, j))) as [He|Hn1].
  { left. rewrite He, lookup_insert_eq in Hl. by injection Hl as <-. }
  rewrite lookup_insert_ne in Hl by done. right. destruct (decide ((a, b) = (j, i))) as [He|Hn2].
  { left. rewrite He, lookup_insert_eq in Hl. by injection Hl as <-. }
  rewrite lookup_insert_ne in Hl by done. by right.
Qed.

Lemma linked_up_ok L (n : nat -> App Q) i j li lj :
  lan_ok L -> desk (knows L i) (n i) -> desk (knows L j) (n j) -> i <> j -> li.2 ∉ session_names (manager (n i)) -> lj.2 ∉ session_names (manager (n j)) ->
  lan_ok (linked_up L i j li lj).
Proof.
  intros Hok HdA HdB Hne Hi Hj.
  assert (Hnew : forall a b c l l', linked_up L i j li lj !! (a, b) = Some l -> L !! (a, c) = Some l' -> (a, b) <> (a, c) ->
    l.2 = l'.2 -> L !! (a, b) = Some l).
  { intros a b c l l' Hab Hac Hbc He. destruct (linked_up_cases _ _ _ _ _ _ _ _ Hne Hab) as [[[= -> ->] ->]|[[[= -> ->] ->]|(_ & _ & ?)]];
      [| |done]; exfalso; [apply Hi|apply Hj]; rewrite He; eapply desk_named; [exact HdA|by exists c, l'|exact HdB|by exists c, l']. }
  split.
  - intros a b [l Hl]. unfold linked_up. destruct (linked_up_cases _ _ _ _ _ _ _ _ Hne Hl) as [[[= -> ->] _]|[[[= -> ->] _]|(_ & _ & Hab)]].
    + rewrite lookup_insert_ne, lookup_insert_eq by congruence. by eexists.
    + rewrite lookup_insert_eq. by eexists.
    + apply lookup_insert_is_Some'. right. apply lookup_insert_is_Some'. right. apply (lk_sym L Hok). by exists l.
  - intros a. unfold linked_up. rewrite !lookup_insert_ne by congruence. apply (lk_irrefl L Hok).
  - intros a b c l l' Hab Hac He. destruct (decide (b = c)) as [|Hbc]; [done|]. exfalso.
    assert (Hd : (a, b) <> (a, c)) by congruence.
    destruct (linked_up_cases _ _ _ _ _ _ _ _ Hne Hab) as [[Eab Hl]|[[Eab Hl]|(_ & _ & Hab')]].
    all: destruct (linked_up_cases _ _ _ _ _ _ _ _ Hne Hac) as [[Eac Hl']|[[Eac Hl']|(_ & _ & Hac')]]; try congruence.
    all: apply Hbc, (lk_names L Hok a b c l l'); try done.
    + by apply (Hnew a b c l l').
    + by apply (Hnew a b c l l').
    + by apply (Hnew a c b l' l).
    + by apply (Hnew a c b l' l).
Qed.

Lemma knows_linked_up L i j li lj k q :
  lan_ok L -> L !! (i, j) = None -> i <> j ->
  knows (linked_up L i j li lj) k q <-> knows L k q \/ (k = i /\ q = li.2) \/ (k = j /\ q = lj.2).
Proof.
  intros Hok Hij Hne. split.
  - intros (b & l & Hl & <-). destruct (linked_up_cases _ _ _ _ _ _ _ _ Hne Hl) as [[[= -> ->] ->]|[[[= -> ->] ->]|(_ & _ & Hb)]];
      [by right; left|by right; right|left; by exists b, l].
  - unfold linked_up. intros [(b & l & Hl & <-)|[[-> ->]|[-> ->]]].
    + exists b. destruct (decide ((k, b) = (i, j))) as [[= -> ->]|H1]; [congruence|].
      destruct (decide ((k, b) = (j, i))) as [[= -> ->]|H2]; [|exists l; by rewrite !lookup_insert_ne by congruence].
      destruct (lk_sym L Hok j i) as [l' Hl']; [by rewrite Hl|]. congruence.
    + exists j, li. by rewrite lookup_insert_eq.
    + exists i, lj. by rewrite lookup_insert_ne, lookup_insert_eq by congruence.
Qed.

(** The group with the new link. *)
Lemma group_gains L n E i j mA mB refA refB sA sB nameA nameB :
  let li := (refA, nameB) in let lj := (refB, nameA) in
  lan_ok L -> group L n E -> desk (knows L i) (n i) -> desk (knows L j) (n j) -> i <> j -> L !! (i, j) = None ->
  new_to (manager (n i)) refA sA nameB -> new_to (manager (n j)) refB sB nameA ->
  gained (manager (n i)) mA refA sA nameB -> gained (manager (n j)) mB refB sB nameA ->
  rx (sock sA) = [] /\ tx (sock sA) = [] -> rx (sock sB) = [] /\ tx (sock sB) = [] ->
  group (linked_up L i j li lj) (<[ i := a_manager (n i) mA ]> (<[ j := a_manager (n j) mB ]> n))
    (<[ (i, j) := new_end (n i) nameB ]> (<[ (j, i) := new_end (n j) nameA ]> E)).
Proof.
  intros li lj Hok Hg HdA HdB Hne Hij HnA HnB HA HB [HrA HtA] [HrB HtB].
  destruct (insert_two n i j (a_manager (n i) mA) (a_manager (n j) mB) Hne) as (Hni & Hnj & Hnk). set (n' := <[ i := _ ]> (<[ j := _ ]> n)) in *.
  assert (Hkn := fun k q => knows_linked_up L i j li lj k q Hok Hij Hne).
  assert (Hew : forall a b la, L !! (a, b) = Some la -> elsewhere (end_of n a la) (end_of n' a la)).
  { intros a b la Hab. destruct (lk_sym L Hok a b) as [lb Hba]; [by rewrite Hab|].
    destruct (gr_link _ _ _ Hg a b la lb Hab Hba) as (s1 & _ & Hs1 & _).
    unfold end_of at 2. destruct (decide (a = i)) as [->|Hai]; [rewrite Hni|destruct (decide (a = j)) as [->|Haj]; [rewrite Hnj|]].
    - by apply (gained_elsewhere (end_of n i la) mA refA sA s1 nameB).
    - by apply (gained_elsewhere (end_of n j la) mB refB sB s1 nameA).
    - rewrite Hnk by done. apply elsewhere_refl. }
  assert (Hnew : link (end_of n' i li) (end_of n' j lj) (new_end (n i) nameB) (new_end (n j) nameA)).
  { unfold end_of. rewrite Hni, Hnj. exists sA, sB. split; [by apply gained_talk|]. split; [by apply gained_talk|].
    split; [apply (gained_reflects (knows L i))|apply (gained_reflects (knows L j))]; try done; try (intros q; by apply desk_named).
    - apply (gn_ready _ _ _ _ _ HB).
    - apply (gn_ready _ _ _ _ _ HA). }
  split.
  - intros k b lk Hkb. destruct (decide (k = i)) as [->|Hki]; [|destruct (decide (k = j)) as [->|Hkj]].
    + rewrite Hni. apply (gained_desk (knows L i) _ _ mA refA sA nameB); try done. intros q. rewrite Hkn. tauto.
    + rewrite Hnj. apply (gained_desk (knows L j) _ _ mB refB sB nameA); try done. intros q. rewrite Hkn. cbn. intuition congruence.
    + rewrite Hnk by done. apply (desk_ext (knows L k)); [intros q; rewrite Hkn; tauto|].
      destruct (linked_up_cases _ _ _ _ _ _ _ _ Hne Hkb) as [[? _]|[[? _]|(_ & _ & Hkb')]]; [congruence..|].
      by apply (gr_desk _ _ _ Hg k b lk).
  - intros a b la lb Hab Hba.
    assert (Hlj : linked_up L i j li lj !! (j, i) = Some lj) by (unfold linked_up; by rewrite lookup_insert_ne, lookup_insert_eq by congruence).
    assert (Hli : linked_up L i j li lj !! (i, j) = Some li) by (unfold linked_up; by rewrite lookup_insert_eq).
    destruct (linked_up_cases _ _ _ _ _ _ _ _ Hne Hab) as [[[= -> ->] ->]|[[[= -> ->] ->]|(H1 & H2 & Hab')]].
    + rewrite Hlj in Hba. injection Hba as <-. rewrite fn_lookup_insert, fn_lookup_insert_ne, fn_lookup_insert by congruence. done.
    + rewrite Hli in Hba. injection Hba as <-. rewrite fn_lookup_insert, fn_lookup_insert_ne, fn_lookup_insert by congruence. by apply link_sym.
    + rewrite !fn_lookup_insert_ne by congruence.
      destruct (linked_up_cases _ _ _ _ _ _ _ _ Hne Hba) as [[? _]|[[? _]|(_ & _ & Hba')]]; [congruence..|].
      apply (link_elsewhere (end_of n a la)); [by apply (Hew a b)|]. apply link_sym.
      apply (link_elsewhere (end_of n b lb)); [by apply (Hew b a)|]. apply link_sym. by apply (gr_link _ _ _ Hg).
Qed.

(** Both machines after the handshake have gained a session. *)
Lemma shaken_gained e (mA mB : Manager Q) sidA nodeB sidB mA' mB' sA sB :
  shaken P e mA mB sidA nodeB sidB mA' mB' sA sB -> same_place mA mA' -> same_place mB mB' -> mgr_inv mB' ->
  gained mA mA' (fresh_obj mA) sA (nd_serviceName nodeB) /\ sessionID sA = sidA /\
  gained mB mB' (fresh_obj mB) sB (heard_name P (thisName mA)) /\ sessionID sB = sidB.
Proof.
  intros [[Ho Hs Hv Hm Hse Hi] [_ Hid Hnode] Hrdy _ (HoB & HsB & HmB) (Hf & Hsv & Hnm & Hot & Hob & _) HrdyB _] HpA HpB HiB.
  change (sessionID (dialled e mA sidA nodeB)) with sidA in Hid.
  change (self (accepted P e mB sidB)) with (fresh_obj mB) in *. change (sessionID (accepted P e mB sidB)) with sidB in *.
  split; [|split; [done|]].
  - split; rewrite ?Ho, ?Hs, ?Hv, ?Hid; try done.
    + apply lookup_insert_eq.
    + intros r Hr. by apply lookup_insert_ne.
    + apply smap_find_insert.
    + intros k Hk. by apply smap_find_insert_ne.
    + by rewrite Hnode.
  - destruct (mi_ref mB' HiB _ _ (smap_find_elem _ _ _ Hf)) as (s & Hos & Hsid). rewrite HoB in Hos. injection Hos as <-.
    split; [|done]. split; rewrite ?Hsid; try done. unfold session_name in Hnm. rewrite HoB in Hnm. by injection Hnm.
Qed.

Lemma net_step_kept n n' : star (net_step P) n n' ->
  same_place (Q := Q) (left n) (left n') /\ same_place (right n) (right n').
Proof.
  unfold same_place. induction 1 as [n|n1 n2 n3 Hs _ [[-> ->] [-> ->]]]; [done|].
  destruct Hs as [n m Hm|n m Hm|n sl sr _ _|n sl sr _ _]; cbn [left right]; try (by split); split; try done;
    exact (mstep_place P _ _ Hm).
Qed.

Lemma net_step_inv_right n n' : mgr_inv (Q := Q) (right n) -> star (net_step P) n n' -> mgr_inv (right n').
Proof.
  intros Hi. apply (star_invariant (net_step P) (fun n => mgr_inv (right n))); [|exact Hi].
  intros n1 n2 Hi1 Hst. destruct Hst as [n1 m Hm|n1 m Hm|n1 sl sr _ Hr|n1 sl sr _ Hr]; cbn [right];
    [done|by eapply mstep_inv| |]; by apply (mgr_inv_put (right n1) (rref n1) sr).
Qed.

(** C3.  A group grows by the handshake: when one machine of it has dialled and
    another accepted, the frames that cross their connection take the two to
    where they are linked, each under the name the other has for it, with
    nothing yet on its way; all other links are as they were, and the theorems
    on groups apply to the larger group.  Machines without any link are a group
    to start from ([group_empty], [alone_desk]).  The new sessions' identifiers
    must not be in use (see [session_id_for_one_session]). *)
Theorem group_grows e L n E i j sidA nodeB k sidB :
  let nameA := heard_name P (names_of n i) in let nameB := nd_serviceName nodeB in
  let mA := manager (n i) in let mB := manager (n j) in
  lan_ok L -> group L n E -> desk (knows L i) (n i) -> desk (knows L j) (n j) -> i <> j -> L !! (i, j) = None -> env_ok e -> (String.length (names_of n i) <= 128)%nat ->
  connecting mA !! k = Some (sidA, nodeB) -> accepting mB = Some sidB ->
  nameB ∉ session_names mA -> nameA ∉ session_names mB ->
  smap_find sidA (sessions_m mA) = None -> smap_find sidB (sessions_m mB) = None ->
  exists mA' mB',
    star (net_step P) (Net mA (fresh_obj mA) mB (fresh_obj mB)) (Net mA' (fresh_obj mA) mB' (fresh_obj mB)) /\
    let L' := linked_up L i j (fresh_obj mA, nameB) (fresh_obj mB, nameA) in
    let n' := <[ i := a_manager (n i) mA' ]> (<[ j := a_manager (n j) mB' ]> n) in
    lan_ok L' /\ group L' n' (<[ (i, j) := new_end (n i) nameB ]> (<[ (j, i) := new_end (n j) nameA ]> E)) /\
    forall l, names_of n' l = names_of n l.
Proof.
  intros nameA nameB mA mB Hok Hg HdA HdB Hne Hij He Hlen Hc Ha HnB HnA HsA HsB.
  pose proof (dk_inv _ _ HdA) as HiA. pose proof (dk_inv _ _ HdB) as HiB.
  destruct (handshake_run P e mA mB sidA nodeB k sidB HiA HiB He Hlen Hc HnB Ha HnA) as (mA' & mB' & sA & sB & Hsh & Hs).
  exists mA', mB'. split; [exact Hs|]. intros L' n'. destruct (net_step_kept _ _ Hs) as [HpA HpB]. cbn [left right] in HpA, HpB.
  pose proof (net_step_inv_right (Net _ _ mB _) (Net _ _ mB' _) HiB Hs) as HiB'. cbn [right] in HiB'.
  destruct (shaken_gained e mA mB sidA nodeB sidB mA' mB' sA sB Hsh HpA HpB HiB') as (HgA & HidA & HgB & HidB).
  destruct Hsh as [_ _ _ HqA _ _ _ HqB]. split; [by apply (linked_up_ok L n)|]. split.
  - apply (group_gains L n E i j mA' mB' _ _ sA sB nameA nameB); try done.
    + split; [apply fresh_obj_lookup|]. by rewrite HidA.
    + split; [apply fresh_obj_lookup|]. by rewrite HidB.
  - intros l. unfold names_of, n'. destruct (insert_two n i j (a_manager (n i) mA') (a_manager (n j) mB') Hne) as (Hni & Hnj & Hnl).
    destruct (decide (l = i)) as [->|Hli]; [rewrite Hni; apply HpA|].
    destruct (decide (l = j)) as [->|Hlj]; [rewrite Hnj; apply HpB|]. by rewrite Hnl.
Qed.

End Growth.

(** ** A concrete group *)

Section GroupWitnesses.

Abbreviation machine := (Manager threadsafe_queue) (only parsing).

Definition ex_start (name : string) : machine :=
  BVTCPConnectionManager_make (BVService_host_data name "local." PORT) 1 ex_store ex_fs.
Definition ex_ok (d : machine) (r : result machine) : machine := match r with Ok m => m | Err _ => d end.

(** What one machine's session has sent reaches the other, which reads it. *)
Definition ex_written (m : machine) (r : nat) : machine :=
  match objs m !! r with Some s => put_back m (complete_write ex_lazy s) | None => m end.
Definition ex_cross (r1 r2 : nat) (n : machine * machine) : machine * machine :=
  match objs n.1 !! r1, objs n.2 !! r2 with
  | Some s1, Some s2 =>
      let m2 := put_back n.2 (receive s2 (tx (sock s1))) in
      (put_back n.1 (sent_off s1),
       match on_readable ex_lazy ex_env r2 m2 with Ok (Some m) => ex_written m r2 | _ => m2 end)
  | _, _ => n
  end.

(** [a] dials [b]: [HELLO], [HELLOBACK], [CONFIRM_ESTABLISHED]. *)
Definition ex_dialled (a : machine) (peer : string) : machine :=
  match InitiateSessionWithNode a (ex_peer peer) with
  | Ok (_, m) => ex_ok m (ConnectHandler ex_lazy ex_env 0 false m) | Err _ => a end.
Definition ex_answered (b : machine) : machine :=
  ex_written (ex_ok b (Accept_handler ex_lazy ex_env false (Accept b))) 0.
Definition ex_shake (a : machine) (ra : nat) (peer : string) : machine * machine :=
  let '(b1, a1) := ex_cross 0 ra (ex_answered (ex_start peer), ex_dialled a peer) in
  let '(a2, b2) := ex_cross ra 0 (a1, b1) in
  let '(b3, a3) := ex_cross 0 ra (b2, a2) in (a3, b3).

(** [ann] is linked with [bob], then with [cat]. *)
Definition ex_pair : machine * machine := ex_shake (ex_start "ann") 0 "bob".
Definition ex_hub : machine * machine := ex_shake ex_pair.1 1 "cat".

Definition ex_desk (m : machine) : App threadsafe_queue :=
  StartStdinRead (a_running (App_make m ex_base ex_os "/srv") true).

(** [bob] has also begun to dial [cat]. *)
Definition ex_dials (m : machine) (peer : string) : machine :=
  match InitiateSessionWithNode m (ex_peer peer) with Ok (_, m') => m' | Err _ => m end.
Definition ex_calling : machine := ex_dials ex_pair.2 "cat".

Definition ex_lan : gmap (nat * nat) (nat * string) :=
  linked_up (linked_up ∅ 0 1 (0%nat, "bob"%string) (0%nat, "ann"%string)) 0 2 (1%nat, "cat"%string) (0%nat, "ann"%string).
Definition ex_machines (i : nat) : App threadsafe_queue :=
  ex_desk (match i with 0%nat => ex_hub.1 | 1%nat => ex_calling | _ => ex_hub.2 end).

(** The invariants of a concrete manager, by evaluation. *)
Lemma mgr_inv_check (m : machine) :
  bool_decide (map_Forall (fun ref s => self s = ref) (objs m)) = true ->
  bool_decide (Forall (fun kr => sessionID <$> objs m !! kr.2 = Some kr.1) (sessions_m m)) = true ->
  bool_decide (NoDup (session_names m)) = true -> smap_sorted (sessions_m m) -> outMailboxes_p m !! 0 = Some None -> mgr_inv m.
Proof.
  intros Ho%bool_decide_eq_true Hs%bool_decide_eq_true Hn%bool_decide_eq_true Hso Hm. split; [done|exact Ho| |done|done].
  intros k ref Hin. pose proof (proj1 (Forall_forall _ _) Hs _ Hin) as He. cbn in He.
  destruct (objs m !! ref) as [s|]; [|done]. injection He as He. by exists s.
Qed.

Lemma desk_check (m : machine) (names : list string) :
  mgr_inv m -> mgr_mail m = ex_store -> mailbox m = 1%nat -> session_names m = names ->
  Forall (fun q => exists ref s, in_talk (MkSide (ex_desk m) ref q) s) names -> desk (fun q => q ∈ names) (ex_desk m).
Proof.
  intros Hi Hm Hb Hn Ht. split; try done.
  - by apply (mgr_inv_same m).
  - exists []. split; [|constructor]. unfold waiting, mgr_app_mail. cbn. rewrite Hm, Hb. apply ex_store_holds. by right.
  - intros q Hq. by rewrite <- Hn.
  - intros q Hq. exact (proj1 (Forall_forall _ _) Ht q Hq).
Qed.

(** An end of a link over which nothing has gone yet. *)
Definition ex_quiet (s : BVTCPSession) : Prop := listening s /\ rx (sock s) = [] /\ tx (sock s) = [] /\ writes (sock s) = [].

Lemma end_check (x : side) sock0 :
  match session_of x with
  | Some s => smap_find (sessionID s) (sessions_m (mgr_of x)) = Some (s_ref x) /\
      service_sessionid_m (mgr_of x) !! s_peer x = Some (sessionID s) /\ self s = s_ref x /\
      s_state s = BVSESSIONSTATE_ESTABLISHED /\ nd_serviceName (nodeData s) = s_peer x /\
      length (writeStore s) = MESSAGE_FRAME_SIZE_BYTES /\ writeSize s = MESSAGE_FRAME_SIZE_BYTES /\
      readBuf s = Some (zeros 138) /\ totalBytesRead s = 0%nat /\ sock s = sock0
  | None => False
  end ->
  sock0 = Socket [] [] [ReadOp FrameBuffer 0 MESSAGE_FRAME_SIZE_BYTES 0] [] -> exists s, in_talk (Q := threadsafe_queue) x s /\ ex_quiet s.
Proof.
  destruct (session_of x) as [s|] eqn:Ho; [|done]. intros (Hf & Hv & Hse & Hst & Hn & Hw1 & Hw2 & Hb & Ht & Hk) ->.
  exists s. split; [|split; [split; [by exists (zeros 138)|done|by rewrite Hk]|by rewrite Hk]]. split; try done.
  split; [done|]. split; [done|]. left. by rewrite Hk.
Qed.

Lemma hearing_check (x : side) :
  session_of x ≫= (fun s => Some (readBuf s, totalBytesRead s, reads (sock s))) =
    Some (Some (zeros 138), 0%nat, [ReadOp FrameBuffer 0 MESSAGE_FRAME_SIZE_BYTES 0]) -> hearing (Q := threadsafe_queue) x.
Proof.
  destruct (session_of x) as [s|] eqn:Hs; [|done]. cbn. intros He. exists s. split; [done|]. injection He as Hb Ht Hr.
  by split; [exists (zeros 138)|..].
Qed.

Definition ex_sock : socket := Socket [] [] [ReadOp FrameBuffer 0 MESSAGE_FRAME_SIZE_BYTES 0] [].

Lemma ex_end_bob : exists s, in_talk (end_of ex_machines 0 (0%nat, "bob"%string)) s /\ ex_quiet s.
Proof. apply (end_check _ ex_sock); [vm_compute; repeat split; reflexivity|reflexivity]. Qed.
Lemma ex_end_cat : exists s, in_talk (end_of ex_machines 0 (1%nat, "cat"%string)) s /\ ex_quiet s.
Proof. apply (end_check _ ex_sock); [vm_compute; repeat split; reflexivity|reflexivity]. Qed.
Lemma ex_end_ann1 : exists s, in_talk (end_of ex_machines 1 (0%nat, "ann"%string)) s /\ ex_quiet s.
Proof. apply (end_check _ ex_sock); [vm_compute; repeat split; reflexivity|reflexivity]. Qed.
Lemma ex_end_ann2 : exists s, in_talk (end_of ex_machines 2 (0%nat, "ann"%string)) s /\ ex_quiet s.
Proof. apply (end_check _ ex_sock); [vm_compute; repeat split; reflexivity|reflexivity]. Qed.

Lemma ex_lan_cases i j l :
  ex_lan !! (i, j) = Some l ->
  (i, j, l) = (0, 1, (0, "bob"%string))%nat \/ (i, j, l) = (1, 0, (0, "ann"%string))%nat \/
  (i, j, l) = (0, 2, (1, "cat"%string))%nat \/ (i, j, l) = (2, 0, (0, "ann"%string))%nat.
Proof.
  intros Hl. assert (H01 : 0%nat <> 1%nat) by lia. assert (H02 : 0%nat <> 2%nat) by lia.
  destruct (linked_up_cases _ _ _ _ _ _ _ _ H02 Hl) as [[[= -> ->] ->]|[[[= -> ->] ->]|(_ & _ & Hl')]]; [tauto..|].
  destruct (linked_up_cases _ _ _ _ _ _ _ _ H01 Hl') as [[[= -> ->] ->]|[[[= -> ->] ->]|(_ & _ & Hn)]]; [tauto..|done].
Qed.

Lemma ex_lan_ok : lan_ok ex_lan.
Proof.
  split.
  - intros i j [l Hl]. destruct (ex_lan_cases _ _ _ Hl) as [[= -> -> ->]|[[= -> -> ->]|[[= -> -> ->]|[= -> -> ->]]]]; by eexists.
  - intros i. destruct (ex_lan !! (i, i)) as [l|] eqn:Hl; [|done].
    destruct (ex_lan_cases _ _ _ Hl) as [He|[He|[He|He]]]; congruence.
  - intros i j k l l' Hl Hl' Hll.
    destruct (ex_lan_cases _ _ _ Hl) as [He|[He|[He|He]]]; injection He as -> -> ->;
      destruct (ex_lan_cases _ _ _ Hl') as [He'|[He'|[He'|He']]]; try congruence; injection He' as -> ->; cbn in Hll; congruence.
Qed.

(** A machine of the group, from what evaluation finds out about it. *)
Lemma ex_desks i names :
  Forall (fun q => exists j r s, ex_lan !! (i, j) = Some (r, q) /\ in_talk (MkSide (ex_machines i) r q) s) names ->
  (forall j l, ex_lan !! (i, j) = Some l -> l.2 ∈ names) ->
  mgr_inv (manager (ex_machines i)) -> mgr_mail (manager (ex_machines i)) = ex_store -> mailbox (manager (ex_machines i)) = 1%nat ->
  session_names (manager (ex_machines i)) = names -> desk (knows ex_lan i) (ex_machines i).
Proof.
  intros Hin Hout Hi Hm Hb Hn. apply (desk_ext (fun q => q ∈ names)).
  - intros q. split; [by intros (j & l & Hl & <-); apply (Hout j)|]. intros Hq.
    destruct (proj1 (Forall_forall _ _) Hin q Hq) as (j & r & _ & Hl & _). by exists j, (r, q).
  - unfold ex_machines in *. set (m := match i with 0%nat => _ | _ => _ end) in *. clearbody m.
    apply desk_check; try done; [by apply (mgr_inv_same (manager (ex_desk m)))|].
    apply (Forall_impl _ _ _ Hin). intros q (_ & r & s & _ & Hs). by exists r, s.
Qed.

Lemma ex_mgr_inv (m : machine) :
  m = ex_hub.1 \/ m = ex_calling \/ m = ex_hub.2 -> mgr_inv (manager (ex_desk m)).
Proof.
  intros Hm. apply (mgr_inv_same m); [done|].
  destruct Hm as [->|[->| ->]]; (apply mgr_inv_check; [vm_compute; reflexivity..| |vm_compute; reflexivity]).
  all: vm_compute; repeat constructor.
Qed.

Lemma ex_desk_ok i j l : ex_lan !! (i, j) = Some l -> desk (knows ex_lan i) (ex_machines i).
Proof.
  destruct ex_end_bob as (s1 & H1 & _), ex_end_cat as (s2 & H2 & _), ex_end_ann1 as (s3 & H3 & _), ex_end_ann2 as (s4 & H4 & _).
  assert (Hout : forall k names, (k = 0%nat -> names = ["bob"%string; "cat"%string]) -> (k = 1%nat \/ k = 2%nat -> names = ["ann"%string]) ->
    forall j' l', ex_lan !! (k, j') = Some l' -> l'.2 ∈ names).
  { intros k names H0 H12 j' l' Hl'. destruct (ex_lan_cases _ _ _ Hl') as [He|[He|[He|He]]]; injection He as -> -> ->;
      rewrite ?H0, ?H12 by tauto; cbn; set_solver. }
  assert (Hi : forall k, k = 0%nat \/ k = 1%nat \/ k = 2%nat -> desk (knows ex_lan k) (ex_machines k)).
  { intros k [->|[->| ->]].
    - apply (ex_desks 0 ["bob"%string; "cat"%string]); [|by apply Hout; [|lia]|apply ex_mgr_inv; by left|vm_compute; reflexivity..].
      repeat constructor; [by exists 1%nat, 0%nat, s1|by exists 2%nat, 1%nat, s2].
    - apply (ex_desks 1 ["ann"%string]); [|by apply Hout; [lia|]|apply ex_mgr_inv; by right; left|vm_compute; reflexivity..].
      repeat constructor. by exists 0%nat, 0%nat, s3.
    - apply (ex_desks 2 ["ann"%string]); [|by apply Hout; [lia|]|apply ex_mgr_inv; by right; right|vm_compute; reflexivity..].
      repeat constructor. by exists 0%nat, 0%nat, s4. }
  intros Hl. apply Hi. destruct (ex_lan_cases _ _ _ Hl) as [He|[He|[He|He]]]; injection He as -> -> ->; tauto.
Qed.

Lemma ex_silent_end (x : side) s s2 :
  ex_quiet s -> ex_quiet s2 -> waiting (mgr_of x) [] -> chatLogsM (s_app x) = ∅ ->
  reflects (Q := threadsafe_queue) x s s2 nothing_said.
Proof.
  intros (Hli & Hr & _ & _) (_ & _ & Ht & Hw) Hm Hl. split; [by rewrite Hl, lookup_empty| |exact Hli]. exists [], []. split; [exact Hm|].
  split; [constructor|]. unfold pending. by rewrite Hr, Ht, Hw.
Qed.

Lemma ex_link (x y : side) :
  (exists s, in_talk x s /\ ex_quiet s) -> (exists s, in_talk y s /\ ex_quiet s) ->
  (forall z, z = x \/ z = y -> waiting (mgr_of z) [] /\ chatLogsM (s_app z) = ∅) ->
  link (Q := threadsafe_queue) x y nothing_said nothing_said.
Proof.
  intros (sx & Hx & Hqx) (sy & Hy & Hqy) Hz. exists sx, sy. split; [done|]. split; [done|].
  split; apply ex_silent_end; try done; apply Hz; tauto.
Qed.

Lemma ex_group : group ex_lan ex_machines (fun _ => nothing_said).
Proof.
  split; [exact ex_desk_ok|]. intros i j li lj Hij Hji.
  assert (Hw : forall m : machine, mgr_mail m = ex_store -> mailbox m = 1%nat -> waiting (manager (ex_desk m)) []).
  { intros m Hm Hb. unfold waiting, mgr_app_mail. cbn. rewrite Hm, Hb. apply ex_store_holds. by right. }
  assert (Hz : forall k l, waiting (mgr_of (end_of ex_machines k l)) [] /\ chatLogsM (s_app (end_of ex_machines k l)) = ∅).
  { intros k l. split; [|done]. unfold end_of, ex_machines, mgr_of. cbn [s_app].
    destruct k as [|[|k]]; apply Hw; vm_compute; reflexivity. }
  pose proof ex_end_bob as H1. pose proof ex_end_cat as H2. pose proof ex_end_ann1 as H3. pose proof ex_end_ann2 as H4.
  assert (Hp : forall k l k' l', (exists s, in_talk (end_of ex_machines k l) s /\ ex_quiet s) ->
    (exists s, in_talk (end_of ex_machines k' l') s /\ ex_quiet s) -> link (end_of ex_machines k l) (end_of ex_machines k' l') nothing_said nothing_said).
  { intros k l k' l' Hk Hk'. apply ex_link; [exact Hk|exact Hk'|]. intros z [->| ->]; apply Hz. }
  destruct (ex_lan_cases _ _ _ Hij) as [He|[He|[He|He]]]; injection He as -> -> ->;
    destruct (ex_lan_cases _ _ _ Hji) as [He|[He|[He|He]]]; try congruence; injection He as ->; apply Hp; assumption.
Qed.

(** [key_allowed], by evaluation. *)
Definition allowed_check (a : App threadsafe_queue) (c : ascii) : bool :=
  match uiState a with
  | MainMenu =>
      match ParseConsoleActionFromKey c with
      | Some r => match pr_type r with
          BVCONSOLEACTION_REPRINT | BVCONSOLEACTION_SENDMSG | BVCONSOLEACTION_BLOCKHOST => true | _ => false end
      | None => true
      end
  | Chat => if is_enter c then
      bool_decide (inputLine a = chars "|q") ||
        (bool_decide (take 3 (inputLine a) <> chars "|f ") &&
         match active_session a with Some s => bool_decide (length (writes (sock s)) = 0%nat) | None => true end)
      else true
  | FileOffer => true
  end.

Lemma allowed_check_ok a c : allowed_check a c = true -> key_allowed a c.
Proof.
  unfold allowed_check, key_allowed. destruct (uiState a); [| |done].
  - intros Hc r Hr. rewrite Hr in Hc. destruct (pr_type r); try done; tauto.
  - intros Hc He (Hq & _). rewrite He in Hc. apply orb_true_iff in Hc as [Hc%bool_decide_eq_true|Hc]; [done|].
    apply andb_true_iff in Hc as [Hf%bool_decide_eq_true Hs]. split; [done|]. intros s Hs'. rewrite Hs' in Hs.
    apply bool_decide_eq_true in Hs. by apply nil_length_inv.
Qed.

(** [ann] says [hi] to [bob], leaves the chat and says [yo] to [cat]. *)
Definition ex_keys : list ascii := chars "1hi" ++ [char_of 10] ++ chars "|q" ++ [char_of 10] ++ chars "2yo" ++ [char_of 10].

Fixpoint ex_typing (a : App threadsafe_queue) (l : list ascii) : option (App threadsafe_queue) :=
  match l with
  | [] => Some a
  | c :: l =>
      match key_read ex_ctime ex_lazy ex_env a c with
      | Ok a' => if allowed_check a c then ex_typing a' l else None
      | Err _ => None
      end
  end.

Lemma ex_types l n a :
  ex_typing (n 0%nat) l = Some a ->
  exists n', star (group_step (acts ex_ctime ex_lazy ex_resolve) ex_lan) n n' /\ n' 0%nat = a /\ forall k, k <> 0%nat -> n' k = n k.
Proof.
  revert n. induction l as [|c l IH]; intros n Ht; cbn [ex_typing] in Ht; [injection Ht as <-; by exists n; split; [constructor|]|].
  destruct (key_read _ _ _ _ _) as [a1|f] eqn:E; [|done]. destruct (allowed_check (n 0%nat) c) eqn:Ha; [|done].
  destruct (insert_two n 0 1 a1 (n 1%nat)) as (H0 & H1 & Hk); [lia|]. set (n1 := <[ 0%nat := a1 ]> (<[ 1%nat := n 1%nat ]> n)) in *.
  destruct (IH n1) as (n' & Hs & Hn' & Hk'); [by rewrite H0|]. exists n'. split; [|split; [done|]].
  - eapply star_step; [|exact Hs].
    apply (gs_step _ ex_lan 0 1 (0%nat, "bob"%string) (0%nat, "ann"%string) n (with_app (end_of n 0 (0%nat, "bob"%string)) a1)
      (end_of n 1 (0%nat, "ann"%string))); [done|done|].
    apply (ac_key ex_ctime ex_lazy ex_resolve ex_env c); [by apply allowed_check_ok| |exact E]. vm_compute. split; [discriminate|reflexivity].
  - intros k Hk0. rewrite Hk' by done. destruct (decide (k = 1%nat)) as [->|Hk1]; [done|by apply Hk].
Qed.

Definition ex_typed : App threadsafe_queue := default (ex_machines 0) (ex_typing (ex_machines 0) ex_keys).

Lemma ex_typed_ok : ex_typing (ex_machines 0) ex_keys = Some ex_typed.
Proof.
  unfold ex_typed. destruct (ex_typing (ex_machines 0) ex_keys) as [a|] eqn:E; [done|].
  exfalso. assert (Hs : is_Some (ex_typing (ex_machines 0) ex_keys)) by (vm_compute; by eexists). rewrite E in Hs. by destruct Hs.
Qed.

Lemma ex_run : exists n', star (group_step (acts ex_ctime ex_lazy ex_resolve) ex_lan) ex_machines n' /\
  n' 0%nat = ex_typed /\ forall k, k <> 0%nat -> n' k = ex_machines k.
Proof. exact (ex_types ex_keys ex_machines ex_typed ex_typed_ok). Qed.

Definition ex_line (text sender : string) : BVChatMessage :=
  {| cm_textData := text; cm_sender := sender; cm_timestamp := 1700000000000 |}.

Lemma ex_ctime_long t : (4 <= length (ex_ctime t))%nat.
Proof. unfold ex_ctime. cbn. lia. Qed.

Lemma group_refines_channels_witness :
  exists n' E', star (group_talks ex_lan (names_of ex_machines)) (fun _ => nothing_said) E' /\
    e_log (E' (0, 1)%nat) = [ex_line "hi" "ann"] /\ e_log (E' (0, 2)%nat) = [ex_line "yo" "ann"] /\
    never_faults ex_ctime ex_lazy ex_resolve (end_of n' 0 (1%nat, "cat"%string)).
Proof.
  destruct ex_run as (n' & Hs & H0 & _).
  destruct (group_refines_channels ex_ctime ex_lazy ex_resolve ex_lan ex_machines n' (fun _ => nothing_said) eq_refl ex_ctime_long
    ex_lan_ok ex_group Hs) as (E' & Ht & _ & Hl). exists n', E'. split; [exact Ht|].
  destruct (Hl 0%nat 1%nat (0%nat, "bob"%string) eq_refl) as [-> _]. destruct (Hl 0%nat 2%nat (1%nat, "cat"%string) eq_refl) as [-> Hnf].
  unfold end_of at 1 2. rewrite H0. split; [vm_compute; reflexivity|]. split; [vm_compute; reflexivity|exact Hnf].
Defined.

Lemma ex_names_apart : names_apart ex_lan (names_of ex_machines).
Proof.
  intros i j l Hl. destruct (ex_lan_cases _ _ _ Hl) as [He|[He|[He|He]]]; injection He as -> -> ->; vm_compute; discriminate.
Qed.

Lemma group_delivers_witness :
  exists n' n'', star (group_step (quiet ex_ctime ex_lazy ex_resolve) ex_lan) n' n'' /\
    n' 0%nat = ex_typed /\ (forall k, k <> 0%nat -> n' k = ex_machines k) /\
    heard_by (end_of n'' 1 (0%nat, "ann"%string)) = [ex_line "hi" "ann"] /\
    heard_by (end_of n'' 2 (0%nat, "ann"%string)) = [ex_line "yo" "ann"].
Proof.
  destruct ex_run as (n' & Hs & H0 & Hk).
  destruct (group_delivers ex_ctime ex_lazy ex_resolve ex_lan ex_machines n' (fun _ => nothing_said) eq_refl ex_lan_ok ex_names_apart
    ex_group) as (_ & n'' & Hq & Hl); [by intros i j li lj _ _; apply nothing_in_order|exact Hs|].
  exists n', n''. split; [exact Hq|]. split; [exact H0|]. split; [exact Hk|].
  assert (Hear : forall k l, k <> 0%nat -> (exists s, in_talk (end_of ex_machines k l) s /\ ex_quiet s) -> hearing (end_of n' k l)).
  { intros k l Hne (s & Hin & Hsq & _). exists s. split; [|exact Hsq]. unfold end_of. rewrite (Hk k Hne). exact (it_obj _ _ Hin). }
  destruct (Hl 0%nat 1%nat (0%nat, "bob"%string) (0%nat, "ann"%string) eq_refl eq_refl) as [_ ->]; [|apply (Hear 1%nat); [lia|exact ex_end_ann1]].
  destruct (Hl 0%nat 2%nat (1%nat, "cat"%string) (0%nat, "ann"%string) eq_refl eq_refl) as [_ ->]; [|apply (Hear 2%nat); [lia|exact ex_end_ann2]].
  unfold end_of. rewrite H0. vm_compute. split; reflexivity.
Defined.

(** [bob]'s dial reaches [cat]: the triangle is closed. *)
Lemma group_grows_witness :
  exists mB mC : machine,
    star (net_step ex_lazy) (Net (manager (ex_machines 1)) 1 (manager (ex_machines 2)) 1) (Net mB 1 mC 1) /\
    let L' := linked_up ex_lan 1 2 (1%nat, "cat"%string) (1%nat, "bob"%string) in
    lan_ok L' /\ group L' (<[ 1%nat := a_manager (ex_machines 1) mB ]> (<[ 2%nat := a_manager (ex_machines 2) mC ]> ex_machines))
      (<[ (1, 2)%nat := nothing_said ]> (<[ (2, 1)%nat := nothing_said ]> (fun _ => nothing_said))).
Proof.
  assert (Hc : connecting (manager (ex_machines 1)) !! 0%nat = Some (2, with_id (ex_peer "cat") 1)) by (vm_compute; reflexivity).
  assert (Ha : accepting (manager (ex_machines 2)) = Some 1) by (vm_compute; reflexivity).
  destruct (group_grows ex_lazy ex_env ex_lan ex_machines (fun _ => nothing_said) 1 2 2 (with_id (ex_peer "cat") 1) 0 1)
    as (mB & mC & Hs & Hok & Hg & _).
  - exact ex_lan_ok.
  - exact ex_group.
  - exact (ex_desk_ok 1 0 (0%nat, "ann"%string) eq_refl).
  - exact (ex_desk_ok 2 0 (0%nat, "ann"%string) eq_refl).
  - lia.
  - reflexivity.
  - exact ex_env_ok.
  - vm_compute. lia.
  - exact Hc.
  - exact Ha.
  - apply (bool_decide_unpack _). vm_compute. exact I.
  - apply (bool_decide_unpack _). vm_compute. exact I.
  - vm_compute. reflexivity.
  - vm_compute. reflexivity.
  - exists mB, mC. split; [exact Hs|]. split; [exact Hok|exact Hg].
Defined.

End GroupWitnesses.
