(* ===== verification/LostConnection.v ===== *)
(** * A lost connection ([include/BVTCPSession.hpp],
    [include/BVTCPConnectionManager.hpp], [src/BVApp_ConsoleClient.cpp])

    When a read fails the callback logs the error and returns
    ([ReadMessageFrameCallback]): nothing is read on the session any more, and
    nobody is told.  The session stays in the manager's tables, so the peer is
    still listed, is neither dialled again nor let in again, and whatever it
    says is lost. *)

From Stdlib Require Import ZArith Lia Ascii String.
From stdpp Require Import functions.
From S2P Require Import Prelude TSQueue Common Broker Component Frames Session FileTransfer.
From S2P Require Import ReceivedFile ConnectionManager ConsoleClient Peers Links Group.

(** ** The specification: a closed end *)

Lemma lines_of_author name l : Forall (fun m => cm_sender m = name) (lines_of name l).
Proof. apply Forall_forall. intros m Hm. by apply list_elem_of_filter in Hm as [? _]. Qed.

(** The end is closed, and [known] is what it has heard or is going to hear. *)
Definition closed_with (name : string) (known : list BVChatMessage) (e : endpoint) : Prop :=
  e_open e = false /\ Forall (fun m => cm_sender m = name) (e_in e) /\ lines_of name (e_log e) ++ e_in e = known.

Lemma talks_closed own name name' x y x' y' known :
  own <> name' -> talks own name x y x' y' -> closed_with name' known x -> closed_with name' known x'.
Proof.
  intros Hne Ht (Ho & Hs & Hk). destruct Ht as [t line x y|msg l x y He|k x y Hop]; [| |congruence]; unfold closed_with; cbn [e_log e_in e_open].
  - split; [done|]. split; [done|]. rewrite lines_of_app, lines_of_one. cbn [cm_sender said]. by rewrite decide_False, app_nil_r.
  - rewrite He in Hs, Hk. apply Forall_cons in Hs as [Hm Hs]. split; [done|]. split; [done|].
    rewrite lines_of_app, lines_of_one, decide_True by done. by rewrite <- Hk, <- (assoc_L (++)).
Qed.

Lemma talks_closed_peer own name name' x y x' y' known :
  talks own name x y x' y' -> closed_with name' known y -> closed_with name' known y'.
Proof. intros Ht (Ho & Hk). destruct Ht; [|done..]. unfold coming. rewrite Ho. by split. Qed.

Lemma group_talks_closed L names E E' i j li known :
  lan_ok L -> names_apart L names -> L !! (i, j) = Some li -> group_talks L names E E' ->
  closed_with li.2 known (E (i, j)) -> closed_with li.2 known (E' (i, j)).
Proof.
  intros Hok Hap Hij Ht Hc. destruct Ht as [a b la lb E ea eb Hab Hba Ht].
  destruct (decide ((a, b) = (i, j))) as [[= -> ->]|H1].
  { rewrite fn_lookup_insert. exact (talks_closed _ _ li.2 _ _ _ _ known (Hap i j li Hij) Ht Hc). }
  rewrite fn_lookup_insert_ne by done. destruct (decide ((b, a) = (i, j))) as [[= -> ->]|H2].
  - rewrite fn_lookup_insert. exact (talks_closed_peer _ _ li.2 _ _ _ _ known Ht Hc).
  - by rewrite fn_lookup_insert_ne.
Qed.

(** ** The program *)

Section LostConnection.
Context {Q : Type -> Type} `{FifoQueueLaws Q} (ctime : Z -> list ascii) (P : asio)
  (resolve : string -> Z -> nat -> bool * nat).

Lemma group_read_fails L n E i j li lj e m ms :
  lan_ok L -> group L n E -> L !! (i, j) = Some li -> L !! (j, i) = Some lj ->
  on_read_error P e li.1 (manager (n i)) = Ok m -> waiting (manager (n i)) ms ->
  group L (<[ i := a_manager (n i) m ]> n) (<[ (i, j) := MkEnd (e_log (E (i, j))) (lines_of li.2 ms) false ]> E) /\
    forall k, names_of (<[ i := a_manager (n i) m ]> n) k = names_of n k.
Proof.
  intros Hok Hg Hij Hji Hm Hms. pose proof (gr_link _ _ _ Hg i j li lj Hij Hji) as Hl. pose proof (lan_other L i j li Hok Hij) as Hne.
  pose proof (lost_event P (knows L i) e (end_of n i li) (end_of n j lj) m _ _ ms (gr_desk _ _ _ Hg i j li Hij)
    (knows_linked L i j li Hij) Hl Hm Hms) as Hev.
  pose proof (loses_end (end_of n i li) (end_of n j lj) ms _ _ Hms Hl) as Hend. cbn [end_of s_peer s_app] in Hev, Hend.
  split; [|intros k; by apply (names_performs L n i _ _ k Hev)]. apply (group_performs L n E _ i _ _ Hok Hg Hev).
  - intros k lk lk' Hik Hki. destruct (decide (j = k)) as [<-|Hk].
    + rewrite Hij in Hik. injection Hik as <-. rewrite fn_lookup_insert, fn_lookup_insert_ne by congruence. split; [done|].
      unfold loses. by destruct (e_open _).
    + rewrite !fn_lookup_insert_ne by congruence.
      assert (lk.2 <> li.2) by (intros He; apply Hk, (lk_names L Hok i j k li lk); congruence).
      unfold loses. destruct (e_open _); [|done]. by rewrite own_end_other by (cbn; congruence).
  - intros k l Hk Hl'. by rewrite fn_lookup_insert_ne by congruence.
Qed.

(** What an end of a link that is in order means for its manager. *)
Lemma peer_not_dialled ps (a : App Q) e q node k sid :
  desk ps a -> ps q -> nd_serviceName node = q ->
  InitiateSessionWithNode (manager a) node = Ok (BVSTATUS_OK, manager a) /\
  (connecting (manager a) !! k = Some (sid, node) -> ConnectHandler P e k false (manager a) = Ok (m_connecting (manager a) (delete k (connecting (manager a))))).
Proof.
  intros Hd Hq Hn. pose proof (desk_named ps a q Hd Hq) as Hin. apply IsSessionAlreadyPresent_spec in Hin.
  unfold InitiateSessionWithNode, ConnectHandler. rewrite Hn, Hin. split; [by destruct (negb _)|].
  intros ->. change (IsSessionAlreadyPresent (m_connecting (manager a) (delete k (connecting (manager a))))) with (IsSessionAlreadyPresent (manager a)).
  by rewrite Hn, Hin.
Qed.

(** A line to a peer is accepted, whatever has become of the connection. *)
Lemma line_logged ps (n : nat -> App Q) j lj s0 e line :
  in_talk (end_of n j lj) s0 -> desk ps (n j) -> ps lj.2 -> 0 <= now e < 2 ^ 64 -> Forall (fun c => isprint c = true) line -> take 3 line <> chars "|f " ->
  (forall s, session_of (end_of n j lj) = Some s -> writes (sock s) = []) ->
  exists a, SendChatLine P e (n j) lj.2 line = Ok a /\
    log_of (MkSide a lj.1 lj.2) = log_of (end_of n j lj) ++ [said (names_of n j) (now e) line].
Proof.
  intros Hj Hd Hps Hn Hp Hf Hidle. destruct (line_sent P ps e (n j) lj.2 line Hd Hps Hn Hp Hf) as (r & s & Hs & _ & _ & _ & _ & Hok).
  - intros r s Hs. apply Hidle. rewrite <- (it_obj _ _ Hs). unfold end_of.
    by rewrite (in_talk_same_peer (n j) lj.1 r lj.2 s0 s Hj Hs).
  - eexists. split; [exact Hok|]. unfold log_of. cbn [end_of s_app s_peer].
    apply (logged_as (with_session (MkSide (n j) r lj.2) _) lj.2).
Qed.

(** The announcement that a peer is gone takes its session off the tables. *)
Lemma deregistered_unlisted ps (a : App Q) q bI :
  desk ps a -> ps q -> bi_serviceName bI = q -> bI ∈ serviceV a ->
  exists a', HandleServiceDeregistration (Some (any_BrowseList [bI])) a = Ok (BVSTATUS_OK, a') /\
    q ∉ session_names (manager a').
Proof.
  intros Hd Hq <- Hin. destruct (dk_talks _ _ Hd _ Hq) as (ref & s & Hs). pose proof (it_obj _ _ Hs) as Ho.
  unfold session_of, mgr_of in Ho. cbn [s_ref s_app] in Ho.
  eexists. split; [reflexivity|]. cbn [deregister]. set (v := filter _ (serviceV a)).
  assert (Hlt : (length v < length (serviceV a))%nat).
  { apply length_filter_lt with bI; [exact Hin|]. intros Hx. by apply Hx. }
  rewrite (proj2 (Nat.ltb_lt _ _) Hlt). cbn [a_services manager].
  set (m0 := m_nodes _ _). destruct (RemoveSession m0 (bi_serviceName bI)) as [st m'] eqn:Hr.
  assert (Hi0 : mgr_inv m0) by (apply (mgr_inv_same (manager a)); [done|apply (dk_inv _ _ Hd)]).
  destruct (RemoveSession_frees_peer m0 _ _ _ Hi0 Hr) as [_ Hf].
  change (service_sessionid_m m0) with (service_sessionid_m (manager a)) in Hf.
  change (sessions_m m0) with (sessions_m (manager a)) in Hf.
  pose proof (it_service _ _ Hs) as Hsv. pose proof (it_found _ _ Hs) as Hfd.
  unfold mgr_of in Hsv, Hfd. cbn [s_app s_peer s_ref] in Hsv, Hfd. rewrite Hsv, Hfd in Hf.
  destruct Hf as (_ & _ & _ & Hf). intros Hx. change (bi_serviceName bI ∈ session_names m') in Hx.
  apply IsSessionAlreadyPresent_spec in Hx. rewrite Hf in Hx; [done|].
  unfold session_name. change (objs m0) with (objs (manager a)). cbn [s_ref]. rewrite Ho. cbn. by rewrite (it_node _ _ Hs).
Qed.

(** C34.  A connection that is lost is not noticed.  In a group of machines whose
    reads are filled when they complete, none of which carries the name by which
    it knows a peer, let a read of machine [i]'s session with [j] fail.  Whatever the machines then do of what
    they do in a group (the steps of [group_refines_channels]: sockets, mailboxes,
    keys, further losses; no announcement of the discovery), [i] never hears
    more of [j] than what was in its mailbox by then; yet [i] still lists [j],
    announcing [j] does not make it dial, a dial to [j] that succeeds is
    dropped, and every line that [j] sends to [i] is accepted and logged as
    said.  The announcement that [j]'s service is gone is what makes [i] forget
    the session. *)
Theorem lost_connection_unnoticed L n n' E i j li lj e m ms :
  eager_read P = false -> lan_ok L -> names_apart L (names_of n) -> group L n E ->
  L !! (i, j) = Some li -> L !! (j, i) = Some lj ->
  on_read_error P e li.1 (manager (n i)) = Ok m -> waiting (manager (n i)) ms ->
  star (group_step (acts ctime P resolve) L) (<[ i := a_manager (n i) m ]> n) n' ->
  heard_by (end_of n' i li) `prefix_of` heard_by (end_of n i li) ++ lines_of li.2 ms /\
  li.2 ∈ session_names (manager (n' i)) /\
  (forall e' node sid k, nd_serviceName node = li.2 ->
     InitiateSessionWithNode (manager (n' i)) node = Ok (BVSTATUS_OK, manager (n' i)) /\
     (connecting (manager (n' i)) !! k = Some (sid, node) ->
        ConnectHandler P e' k false (manager (n' i)) = Ok (m_connecting (manager (n' i)) (delete k (connecting (manager (n' i))))))) /\
  (forall e' line, 0 <= now e' < 2 ^ 64 -> Forall (fun c => isprint c = true) line -> take 3 line <> chars "|f " ->
     (forall s, session_of (end_of n' j lj) = Some s -> writes (sock s) = []) ->
     exists a, SendChatLine P e' (n' j) lj.2 line = Ok a /\
       log_of (MkSide a lj.1 lj.2) = log_of (end_of n' j lj) ++ [said (names_of n' j) (now e') line]) /\
  (forall bI, bi_serviceName bI = li.2 -> bI ∈ serviceV (n' i) ->
     exists a, HandleServiceDeregistration (Some (any_BrowseList [bI])) (n' i) = Ok (BVSTATUS_OK, a) /\
       li.2 ∉ session_names (manager a)).
Proof.
  intros HP Hok Hap Hg Hij Hji Hm Hms Hs. set (n1 := <[ i := _ ]> n) in *.
  destruct (group_read_fails L n E i j li lj e m ms Hok Hg Hij Hji Hm Hms) as [Hg1 Hn1]. fold n1 in Hg1, Hn1.
  set (E1 := <[ (i, j) := _ ]> E) in *. destruct (group_run ctime P resolve L n1 n' E1 HP Hok Hg1 Hs) as (_ & E' & Ht & Hg').
  assert (Hap1 : names_apart L (names_of n1)) by (intros a b l Hl; rewrite Hn1; by apply (Hap a b)).
  pose proof (gr_desk _ _ _ Hg' i j li Hij) as Hd. pose proof (knows_linked L i j li Hij) as Hkn.
  split; [|split; [by apply (desk_named (knows L i))|
    split; [intros e' node sid k; by apply (peer_not_dialled (knows L i) (n' i) e' li.2)|split]]].
  - assert (Hc : closed_with li.2 (heard_by (end_of n i li) ++ lines_of li.2 ms) (E' (i, j))).
    { revert Ht. apply (star_invariant _ (fun E => closed_with li.2 (heard_by (end_of n i li) ++ lines_of li.2 ms) (E (i, j)))).
      - intros Ea Eb Hc Hst. exact (group_talks_closed L _ Ea Eb i j li _ Hok Hap1 Hij Hst Hc).
      - unfold E1. rewrite fn_lookup_insert. split; [done|]. split; [apply lines_of_author|]. cbn [e_log e_in].
        by rewrite (group_log L n E i j li Hok Hg Hij). }
    destruct Hc as (_ & _ & <-). rewrite (group_log L n' E' i j li Hok Hg' Hij). by apply prefix_app_r.
  - intros e' line. destruct (gr_link _ _ _ Hg' j i lj li Hji Hij) as (sj & _ & Hsj & _).
    apply (line_logged (knows L j) n' j lj sj); [done|by apply (gr_desk _ _ _ Hg' j i lj)|by apply (knows_linked L j i)].
  - intros bI. by apply (deregistered_unlisted (knows L i)).
Qed.
End LostConnection.

(** ** Concrete machines *)

Section LostConnectionWitnesses.

(** [bob] loses the connection to [ann]; [ann] then says [hi] to [bob]. *)
Definition ex_bob_lost : Manager threadsafe_queue :=
  match on_read_error ex_lazy ex_env 0 (manager (ex_machines 1)) with Ok m => m | Err _ => manager (ex_machines 1) end.
Definition ex_torn (i : nat) : App threadsafe_queue := (<[ 1%nat := a_manager (ex_machines 1) ex_bob_lost ]> ex_machines) i.

Lemma lost_connection_unnoticed_witness :
  exists n', star (group_step (acts ex_ctime ex_lazy ex_resolve) ex_lan) ex_torn n' /\
    said_by (end_of n' 0 (0%nat, "bob"%string)) = [ex_line "hi" "ann"] /\
    forall n'', star (group_step (acts ex_ctime ex_lazy ex_resolve) ex_lan) n' n'' ->
      heard_by (end_of n'' 1 (0%nat, "ann"%string)) = [] /\ "ann"%string ∈ session_names (manager (n'' 1%nat)).
Proof.
  destruct (ex_types ex_keys ex_torn ex_typed ex_typed_ok) as (n' & Hs & H0 & _). exists n'. split; [exact Hs|]. split.
  { unfold end_of. rewrite H0. vm_compute. reflexivity. }
  intros n'' Hs'. assert (Hm : on_read_error ex_lazy ex_env 0 (manager (ex_machines 1)) = Ok ex_bob_lost).
  { unfold ex_bob_lost. destruct (on_read_error _ _ _ _) as [m|] eqn:E; [done|]. exfalso. revert E. vm_compute. discriminate. }
  assert (Hw : waiting (manager (ex_machines 1)) []).
  { unfold waiting, mgr_app_mail. change (mgr_mail (manager (ex_machines 1))) with ex_store. apply ex_store_holds. by right. }
  destruct (lost_connection_unnoticed ex_ctime ex_lazy ex_resolve ex_lan ex_machines n'' (fun _ => nothing_said) 1 0
    (0%nat, "ann"%string) (0%nat, "bob"%string) ex_env ex_bob_lost [] eq_refl ex_lan_ok ex_names_apart ex_group eq_refl eq_refl Hm Hw)
    as (Hh & Hn & _); [exact (star_trans _ _ _ _ Hs Hs')|].
  split; [|exact Hn]. apply prefix_nil_inv. exact Hh.
Defined.

End LostConnectionWitnesses.
