(* ===== verification/Conversation.v ===== *)
(** * A conversation ([src/BVApp_ConsoleClient.cpp], [src/BVTCPSession.cpp],
    [include/BVTCPConnectionManager.hpp], [include/BVComponent.hpp])

    Two machines, the smallest group: two console applications joined by one
    established session.  The specification is two chat logs and two FIFO
    channels; what is shown of groups is carried over to it, and the handshake
    is shown to begin such a conversation. *)

From Stdlib Require Import ZArith Lia Ascii String.
From stdpp Require Import functions.
From S2P Require Import Prelude TSQueue Common Broker Component Frames Session FileTransfer.
From S2P Require Import ReceivedFile ConnectionManager ConsoleClient Peers Links Group.

(** ** The specification *)

Inductive channel_step (ownA nameA ownB nameB : string) : endpoint * endpoint -> endpoint * endpoint -> Prop :=
  | ch_a a b a' b' : talks ownA nameA a b a' b' -> channel_step ownA nameA ownB nameB (a, b) (a', b')
  | ch_b a b a' b' : talks ownB nameB b a b' a' -> channel_step ownA nameA ownB nameB (a, b) (a', b').

(** ** The program *)

Section Conversation.
Context {Q : Type -> Type} `{FifoQueueLaws Q} (ctime : Z -> list ascii) (P : asio)
  (resolve : string -> Z -> nat -> bool * nat).

Inductive both (step : @side Q -> @side Q -> @side Q -> @side Q -> Prop) : @side Q * @side Q -> @side Q * @side Q -> Prop :=
  | b_left a b a' b' : step a b a' b' -> both step (a, b) (a', b')
  | b_right a b a' b' : step b a b' a' -> both step (a, b) (a', b').

(** Two machines linked with each other and with nobody else. *)
Definition paired (x y : @side Q) (ex ey : endpoint) : Prop :=
  desk (eq (s_peer x)) (s_app x) /\ desk (eq (s_peer y)) (s_app y) /\ link x y ex ey.

Lemma paired_sym x y ex ey : paired x y ex ey -> paired y x ey ex.
Proof. intros (Hx & Hy & Hl). split; [done|]. split; [done|by apply link_sym]. Qed.

Definition same_names (x x' : @side Q) : Prop := own x' = own x /\ s_peer x' = s_peer x.

(** ** As a group of two *)

Definition two (la lb : nat * string) : gmap (nat * nat) (nat * string) := linked_up ∅ 0 1 la lb.
Definition two_apps (a b : App Q) (i : nat) : App Q := match i with 0%nat => a | _ => b end.
Definition two_ends (ea eb : endpoint) (k : nat * nat) : endpoint := if decide (k = (0, 1)%nat) then ea else eb.
Definition sides (n : nat -> App Q) (la lb : nat * string) : @side Q * @side Q := (end_of n 0 la, end_of n 1 lb).

Lemma two_cases la lb i j l :
  two la lb !! (i, j) = Some l -> i = 0%nat /\ j = 1%nat /\ l = la \/ i = 1%nat /\ j = 0%nat /\ l = lb.
Proof.
  intros Hl. assert (Hne : 0%nat <> 1%nat) by lia.
  destruct (linked_up_cases _ _ _ _ _ _ _ _ Hne Hl) as [[[= -> ->] ->]|[[[= -> ->] ->]|(_ & _ & Hn)]]; [by left|by right|done].
Qed.

Lemma two_ok la lb : lan_ok (two la lb).
Proof.
  split.
  - intros i j [l Hl]. destruct (two_cases _ _ _ _ _ Hl) as [(-> & -> & _)|(-> & -> & _)]; by eexists.
  - intros i. destruct (two la lb !! (i, i)) as [l|] eqn:Hl; [|done].
    by destruct (two_cases _ _ _ _ _ Hl) as [(-> & ? & _)|(-> & ? & _)].
  - intros i j k l l' Hl Hl' _.
    destruct (two_cases _ _ _ _ _ Hl) as [(-> & -> & _)|(-> & -> & _)], (two_cases _ _ _ _ _ Hl') as [(? & -> & _)|(? & -> & _)]; done.
Qed.

Lemma knows_two la lb i q :
  knows (two la lb) i q <-> i = 0%nat /\ la.2 = q \/ i = 1%nat /\ lb.2 = q.
Proof.
  split.
  - intros (j & l & Hl & <-). destruct (two_cases _ _ _ _ _ Hl) as [(-> & -> & ->)|(-> & -> & ->)]; [by left|by right].
  - intros [[-> <-]|[-> <-]]; [exists 1%nat, la|exists 0%nat, lb]; done.
Qed.

(** The link of a side. *)
Definition link_of (x : @side Q) : nat * string := (s_ref x, s_peer x).

Lemma paired_group A B n eA eB :
  sides n (link_of A) (link_of B) = (A, B) -> paired A B eA eB -> group (two (link_of A) (link_of B)) n (two_ends eA eB).
Proof.
  intros Hn (HdA & HdB & Hl). injection Hn as HA HB.
  assert (Hdesk : forall (x : @side Q) i, end_of n i (link_of x) = x -> n i = s_app x) by (by intros x i <-).
  split.
  - intros i j l Hij. destruct (two_cases _ _ _ _ _ Hij) as [(-> & -> & _)|(-> & -> & _)].
    + rewrite (Hdesk A) by done. apply (desk_ext (eq (s_peer A))); [|done]. intros q. rewrite knows_two. cbn. intuition lia.
    + rewrite (Hdesk B) by done. apply (desk_ext (eq (s_peer B))); [|done]. intros q. rewrite knows_two. cbn. intuition lia.
  - intros i j li lj Hij Hji. destruct (two_cases _ _ _ _ _ Hij) as [(-> & -> & ->)|(-> & -> & ->)].
    + destruct (two_cases _ _ _ _ _ Hji) as [(? & _ & _)|(_ & _ & ->)]; [done|]. by rewrite HA, HB.
    + destruct (two_cases _ _ _ _ _ Hji) as [(_ & _ & ->)|(? & _ & _)]; [|done]. rewrite HA, HB. by apply link_sym.
Qed.

Lemma group_paired la lb n E :
  group (two la lb) n E -> paired (end_of n 0 la) (end_of n 1 lb) (E (0, 1)%nat) (E (1, 0)%nat).
Proof.
  intros Hg. split; [|split].
  - apply (desk_ext (knows (two la lb) 0)); [|by apply (gr_desk _ _ _ Hg 0 1 la)]. intros q. rewrite knows_two. cbn. intuition lia.
  - apply (desk_ext (knows (two la lb) 1)); [|by apply (gr_desk _ _ _ Hg 1 0 lb)]. intros q. rewrite knows_two. cbn. intuition lia.
  - by apply (gr_link _ _ _ Hg 0 1).
Qed.

(** Steps keep the ends of the link where they are. *)
Definition keeps_ends (step : @side Q -> @side Q -> @side Q -> @side Q -> Prop) : Prop :=
  forall x y x' y', step x y x' y' -> link_of x' = link_of x /\ link_of y' = link_of y.

Lemma quiet_keeps_ends : keeps_ends (quiet ctime P resolve).
Proof. intros x y x' y' Hq. by destruct Hq. Qed.

Lemma acts_keeps_ends : keeps_ends (acts ctime P resolve).
Proof. intros x y x' y' Ha. destruct Ha as [x y x' y' Hq| |]; [by apply quiet_keeps_ends in Hq|done..]. Qed.

Lemma sides_insert n la lb x y :
  link_of x = la -> link_of y = lb ->
  sides (<[ 0%nat := s_app x ]> (<[ 1%nat := s_app y ]> n)) la lb = (x, y) /\
  sides (<[ 1%nat := s_app y ]> (<[ 0%nat := s_app x ]> n)) la lb = (x, y).
Proof.
  intros <- <-. destruct x, y. unfold sides, end_of.
  rewrite !fn_lookup_insert, !(fn_lookup_insert_ne _ 0%nat 1%nat), !(fn_lookup_insert_ne _ 1%nat 0%nat), !fn_lookup_insert by done. done.
Qed.

Lemma both_group step la lb n c :
  keeps_ends step -> both step (sides n la lb) c -> exists n', group_step step (two la lb) n n' /\ sides n' la lb = c.
Proof.
  intros Hk Hb. remember (sides n la lb) as c0 eqn:Hc. destruct Hb as [a b a' b' Hs|a b a' b' Hs]; injection Hc as -> ->.
  - destruct (Hk _ _ _ _ Hs) as [Hla Hlb]. exists (<[ 0%nat := s_app a' ]> (<[ 1%nat := s_app b' ]> n)).
    split; [by apply (gs_step step _ 0 1 la lb)|]. apply (sides_insert n); [rewrite Hla|rewrite Hlb]; by destruct la, lb.
  - destruct (Hk _ _ _ _ Hs) as [Hlb Hla]. exists (<[ 1%nat := s_app b' ]> (<[ 0%nat := s_app a' ]> n)).
    split; [by apply (gs_step step _ 1 0 lb la)|]. apply (sides_insert n); [rewrite Hla|rewrite Hlb]; by destruct la, lb.
Qed.

Lemma both_group_run step la lb n c :
  keeps_ends step -> star (both step) (sides n la lb) c -> exists n', star (group_step step (two la lb)) n n' /\ sides n' la lb = c.
Proof.
  intros Hk Hs. remember (sides n la lb) as c0 eqn:Hc. revert n Hc. induction Hs as [c|c1 c2 c3 Hb _ IH]; intros n ->.
  - exists n. split; [constructor|done].
  - destruct (both_group step la lb n c2 Hk Hb) as (n2 & Hs2 & Hc2). destruct (IH n2 (eq_sym Hc2)) as (n3 & Hs3 & Hc3).
    exists n3. split; [by eapply star_step|done].
Qed.

Lemma group_both_run step la lb n n' :
  keeps_ends step -> star (group_step step (two la lb)) n n' -> star (both step) (sides n la lb) (sides n' la lb).
Proof.
  intros Hk Hs. induction Hs as [n|n1 n2 n3 Hst _ IH]; [constructor|]. eapply star_step; [|exact IH]. clear IH n3.
  destruct Hst as [i j li lj n x' y' Hij Hji Hs]. destruct (Hk _ _ _ _ Hs) as [Hx Hy].
  assert (He : forall m i (l : nat * string), link_of (end_of m i l) = l) by (by intros m k []). rewrite He in Hx, Hy.
  destruct (two_cases _ _ _ _ _ Hij) as [(-> & -> & ->)|(-> & -> & ->)];
    destruct (two_cases _ _ _ _ _ Hji) as [(? & ? & ->)|(? & ? & ->)]; try done.
  - rewrite (proj1 (sides_insert n la lb x' y' Hx Hy)). by apply b_left.
  - rewrite (proj2 (sides_insert n la lb y' x' Hy Hx)). by apply b_right.
Qed.

(** ** What is shown of groups, for two *)

Lemma two_talks la lb names E E' :
  group_talks (two la lb) names E E' ->
  channel_step (names 0%nat) lb.2 (names 1%nat) la.2 (E (0, 1)%nat, E (1, 0)%nat) (E' (0, 1)%nat, E' (1, 0)%nat).
Proof.
  intros [i j li lj E0 ei ej Hij Hji Ht].
  destruct (two_cases _ _ _ _ _ Hij) as [(-> & -> & ->)|(-> & -> & ->)];
    destruct (two_cases _ _ _ _ _ Hji) as [(? & ? & ->)|(? & ? & ->)]; try done.
  all: rewrite fn_lookup_insert, fn_lookup_insert_ne, fn_lookup_insert by done.
  - by apply ch_a.
  - by apply ch_b.
Qed.

Lemma own_sides n A B : sides n (link_of A) (link_of B) = (A, B) -> names_of n 0 = own A /\ names_of n 1 = own B.
Proof. by intros [= <- <-]. Qed.

Lemma run_sim x y x' y' ex ey :
  eager_read P = false -> star (both (acts ctime P resolve)) (x, y) (x', y') -> paired x y ex ey ->
  same_names x x' /\ same_names y y' /\
  exists ex' ey', star (channel_step (own x) (s_peer y) (own y) (s_peer x)) (ex, ey) (ex', ey') /\ paired x' y' ex' ey'.
Proof.
  intros HP Hs Hp. set (la := link_of x). set (lb := link_of y). set (n := two_apps (s_app x) (s_app y)).
  assert (Hn : sides n la lb = (x, y)) by by destruct x, y. pose proof (own_sides n x y Hn) as [Hox Hoy].
  rewrite <- Hn in Hs. destruct (both_group_run _ la lb n _ acts_keeps_ends Hs) as (n' & Hs' & Hn').
  destruct (group_run ctime P resolve (two la lb) n n' _ HP (two_ok la lb) (paired_group x y n ex ey Hn Hp) Hs') as (Hnm & E' & Ht & Hg).
  apply group_paired in Hg. injection Hn' as Hx' Hy'. rewrite Hx', Hy' in Hg.
  assert (Hsn : forall i l z z', end_of n i l = z -> end_of n' i l = z' -> same_names z z') by (intros i l z z' <- <-; split; [exact (Hnm i)|done]).
  injection Hn as Hx Hy. split; [by apply (Hsn 0%nat la)|]. split; [by apply (Hsn 1%nat lb)|].
  eexists _, _. split; [|exact Hg]. change (ex, ey) with (two_ends ex ey (0, 1)%nat, two_ends ex ey (1, 0)%nat).
  rewrite <- Hox, <- Hoy. change (s_peer y) with lb.2. change (s_peer x) with la.2. clear -Ht.
  induction Ht as [E|E1 E2 E3 Ht _ IH]; [constructor|]. eapply star_step; [|exact IH]. by apply two_talks.
Qed.

Lemma hear_both x y ex ey :
  eager_read P = false -> paired x y ex ey ->
  exists x' y', star (both (quiet ctime P resolve)) (x, y) (x', y') /\ same_names x x' /\ same_names y y' /\
    paired x' y' (MkEnd (e_log ex ++ e_in ex) [] (e_open ex)) (MkEnd (e_log ey ++ e_in ey) [] (e_open ey)).
Proof.
  intros HP Hp. set (la := link_of x). set (lb := link_of y). set (n := two_apps (s_app x) (s_app y)).
  assert (Hn : sides n la lb = (x, y)) by by destruct x, y. pose proof (paired_group x y n ex ey Hn Hp) as Hg.
  destruct (all_delivered ctime P resolve (two la lb) n _ HP (two_ok la lb) Hg) as (n' & E' & Hr & Hg' & Hh & Hall).
  pose proof (names_quiet ctime P resolve _ n n' _ HP (two_ok la lb) Hg Hr) as Hnm.
  exists (end_of n' 0 la), (end_of n' 1 lb). apply group_both_run in Hr; [|apply quiet_keeps_ends]. rewrite Hn in Hr.
  injection Hn as Hx Hy. split; [exact Hr|].
  split; [rewrite <- Hx; split; [exact (Hnm 0%nat)|done]|]. split; [rewrite <- Hy; split; [exact (Hnm 1%nat)|done]|].
  assert (Hend : forall i j l, two la lb !! (i, j) = Some l -> E' (i, j) =
    MkEnd (e_log (two_ends ex ey (i, j)) ++ e_in (two_ends ex ey (i, j))) [] (e_open (two_ends ex ey (i, j)))).
  { intros i j l Hl. pose proof (Hall i j l Hl) as Hin. destruct (Hh (i, j)) as (pre & suf & Hs & He). rewrite He in Hin |- *. cbn in Hin.
    subst suf. by rewrite Hs, app_nil_r. }
  apply group_paired in Hg'. by rewrite (Hend 0%nat 1%nat la), (Hend 1%nat 0%nat lb) in Hg' by done.
Qed.

End Conversation.

(** ** What the specification says about the logs *)

Lemma channels_in_order ownA nameA ownB nameB c c' :
  ownA <> nameB -> ownB <> nameA -> star (channel_step ownA nameA ownB nameB) c c' ->
  in_order ownA nameA c.1 c.2 /\ in_order ownB nameB c.2 c.1 -> in_order ownA nameA c'.1 c'.2 /\ in_order ownB nameB c'.2 c'.1.
Proof.
  intros HA HB Hs Hc. revert Hs. apply (star_invariant _ (fun c => in_order ownA nameA c.1 c.2 /\ in_order ownB nameB c.2 c.1));
    [|exact Hc]. intros s s' [H1 H2] Hst.
  destruct Hst as [a b a' b' Ht|a b a' b' Ht]; cbn [fst snd] in *.
  - by apply (talks_in_order _ _ _ _ a b).
  - apply and_comm. by apply (talks_in_order _ _ _ _ b a).
Qed.

(** ** What is said and what is heard *)

Section Talk.
Context {Q : Type -> Type} `{FifoQueueLaws Q} (ctime : Z -> list ascii) (P : asio)
  (resolve : string -> Z -> nat -> bool * nat).

Lemma paired_logs x y ex ey : paired (Q := Q) x y ex ey -> e_log ex = log_of x /\ e_log ey = log_of y.
Proof. intros (_ & _ & Hl). by apply link_logs. Qed.

Lemma reached_in_order A B A' B' :
  eager_read P = false -> own A <> s_peer A -> own B <> s_peer B -> paired A B nothing_said nothing_said ->
  star (both (acts ctime P resolve)) (A, B) (A', B') ->
  own A' <> s_peer A' /\ own B' <> s_peer B' /\ exists eA eB, paired A' B' eA eB /\
    in_order (own A') (s_peer B') eA eB /\ in_order (own B') (s_peer A') eB eA.
Proof.
  intros HP HA HB Hp Hs.
  destruct (run_sim ctime P resolve A B A' B' _ _ HP Hs Hp) as ([H1 H2] & [H3 H4] & eA & eB & Hc & Hp').
  rewrite H1, H2, H3, H4. split; [done|]. split; [done|]. exists eA, eB. split; [done|].
  apply (channels_in_order (own A) (s_peer B) (own B) (s_peer A) (nothing_said, nothing_said) (eA, eB) HA HB Hc).
  split; apply nothing_in_order.
Qed.

(** Any interleaving of keys, completed writes, completed and failed reads,
    bytes crossing, mail and redraws on the two machines of a conversation is
    an interleaving of saying, hearing and closing an end on two FIFO channels,
    one in each direction; and no operation of either machine faults on the
    way.  For reads that are filled
    when they complete (see [eager_read_loses_second_message]) and keys that
    [key_allowed] describes: no line while another is being written (see
    [overlapping_lines_lost]), no file command, no key for discovery or to
    quit. *)
Theorem conversation_refines_channels A B A' B' eA eB :
  eager_read P = false -> (forall t, (4 <= length (ctime t))%nat) -> paired A B eA eB ->
  star (both (acts ctime P resolve)) (A, B) (A', B') ->
  exists eA' eB',
    star (channel_step (own A) (s_peer B) (own B) (s_peer A)) (eA, eB) (eA', eB') /\
    e_log eA' = log_of A' /\ e_log eB' = log_of B' /\ paired A' B' eA' eB' /\
    never_faults ctime P resolve A' /\ never_faults ctime P resolve B'.
Proof.
  intros HP Hct Hp Hs. destruct (run_sim ctime P resolve A B A' B' eA eB HP Hs Hp) as (_ & _ & eA' & eB' & Hc & Hp').
  destruct (paired_logs _ _ _ _ Hp') as [HlA HlB]. exists eA', eB'.
  split; [exact Hc|]. split; [exact HlA|]. split; [exact HlB|]. split; [exact Hp'|].
  destruct Hp' as (HdA & HdB & Hl). split.
  - by apply (no_fault ctime P resolve Hct _ A' B' _ _ HP HdA Hl).
  - by apply (no_fault ctime P resolve Hct _ B' A' _ _ HP HdB (link_sym _ _ _ _ Hl)).
Qed.

(** In every reachable state of a conversation what a machine's log has
    of the other is a prefix of what the other said, in order and each line
    once; and without another key the machines can get to where everything
    said has been heard by the end that still reads. *)
Theorem conversation_delivers A B A' B' :
  eager_read P = false -> own A <> s_peer A -> own B <> s_peer B -> paired A B nothing_said nothing_said ->
  star (both (acts ctime P resolve)) (A, B) (A', B') ->
  heard_by B' `prefix_of` map (as_heard (s_peer B')) (said_by A') /\
  heard_by A' `prefix_of` map (as_heard (s_peer A')) (said_by B') /\
  exists C D, star (both (quiet ctime P resolve)) (A', B') (C, D) /\
    said_by C = said_by A' /\ said_by D = said_by B' /\
    (hearing B' -> heard_by D = map (as_heard (s_peer B')) (said_by A')) /\
    (hearing A' -> heard_by C = map (as_heard (s_peer A')) (said_by B')).
Proof.
  intros HP HA HB Hp Hs.
  destruct (reached_in_order A B A' B' HP HA HB Hp Hs) as (HA' & HB' & eA & eB & Hp' & [(g1 & E1 & G1) F1] & [(g2 & E2 & G2) F2]).
  destruct (paired_logs _ _ _ _ Hp') as [HlA HlB]. rewrite HlA, HlB in E1, E2.
  unfold heard_by, said_by. split; [by eexists|]. split; [by eexists|].
  destruct (hear_both ctime P resolve A' B' eA eB HP Hp') as (C & D & Hr & [H3 H4] & [H5 H6] & Hp2).
  destruct (paired_logs _ _ _ _ Hp2) as [HlC HlD]. cbn [e_log] in HlC, HlD.
  exists C, D. split; [exact Hr|]. rewrite <- HlC, <- HlD, H3, H4, H5, H6, HlA, HlB, !lines_of_app.
  rewrite (lines_of_none _ _ (e_in eA) HA' F2), (lines_of_none _ _ (e_in eB) HB' F1), !app_nil_r.
  rewrite (lines_of_all _ _ F1), (lines_of_all _ _ F2), E1, E2. destruct Hp' as (_ & _ & Hl).
  split; [done|]. split; [done|]. split; intros Hear.
  - by rewrite (G1 (hearing_open _ _ _ _ (link_sym _ _ _ _ Hl) Hear)), app_nil_r.
  - by rewrite (G2 (hearing_open _ _ _ _ Hl Hear)), app_nil_r.
Qed.

(** ** How a conversation begins *)

(** A machine whose only session is the one it has gained. *)
Lemma alone_gained (a : App Q) m' ref s peer :
  alone a -> chatLogsM a !! peer = None -> gained (manager a) m' ref s peer -> objs (manager a) !! ref = None ->
  new_to (manager a) ref s peer /\ desk (eq peer) (a_manager a m') /\ new_end a peer = nothing_said.
Proof.
  intros Ha Hlog Hg Hr. assert (Hnew : new_to (manager a) ref s peer).
  { split; [done|]. unfold session_names. rewrite (al_sessions _ Ha). split; [done|apply not_elem_of_nil]. }
  split; [done|]. split; [|unfold new_end; by rewrite Hlog].
  apply (gained_desk (fun _ => False) _ a m' ref s peer); [by apply alone_desk|done|done|].
  intros q. split; [by right|by intros [?|?]].
Qed.

(** The handshake begins a conversation: two machines without a session,
    one with a dial in flight and one accepting, get, by the frames that cross
    the connection, to where each has the other as its only session and the
    theorems on conversations apply. *)
Theorem handshake_starts_conversation e (a b : App Q) sidA nodeB k sidB :
  let nameA := heard_name P (thisName (manager a)) in
  alone a -> chatLogsM a !! nd_serviceName nodeB = None -> alone b -> chatLogsM b !! nameA = None -> env_ok e -> (String.length (thisName (manager a)) <= 128)%nat ->
  connecting (manager a) !! k = Some (sidA, nodeB) -> accepting (manager b) = Some sidB ->
  exists mA mB,
    let refA := fresh_obj (manager a) in let refB := fresh_obj (manager b) in
    star (net_step P) (Net (manager a) refA (manager b) refB) (Net mA refA mB refB) /\
    let A := MkSide (a_manager a mA) refA (nd_serviceName nodeB) in
    let B := MkSide (a_manager b mB) refB nameA in
    own A = thisName (manager a) /\ own B = thisName (manager b) /\ paired A B nothing_said nothing_said.
Proof.
  intros nameA Ha HlA Hb HlB He Hname Hc Hacc. set (mA := manager a) in *. set (mB := manager b) in *.
  assert (Hnone : forall (m : Manager Q) q, sessions_m m = [] -> q ∉ session_names m).
  { intros m q Hs. unfold session_names. rewrite Hs. apply not_elem_of_nil. }
  destruct (handshake_run P e mA mB sidA nodeB k sidB (al_inv _ Ha) (al_inv _ Hb) He Hname Hc
    (Hnone _ _ (al_sessions _ Ha)) Hacc (Hnone _ _ (al_sessions _ Hb))) as (mA' & mB' & sA & sB & Hsh & Hs).
  exists mA', mB'. intros refA refB. split; [exact Hs|]. destruct (net_step_kept P _ _ Hs) as [HkA HkB]. cbn [left right] in HkA, HkB.
  pose proof (net_step_inv_right P (Net _ _ mB _) (Net _ _ mB' _) (al_inv _ Hb) Hs) as HiB'. cbn [right] in HiB'.
  destruct (shaken_gained P e mA mB sidA nodeB sidB mA' mB' sA sB Hsh HkA HkB HiB') as (HgA & _ & HgB & _).
  destruct (alone_gained a mA' refA sA _ Ha HlA HgA (fresh_obj_lookup mA)) as (HnA & HdA & HeA).
  destruct (alone_gained b mB' refB sB _ Hb HlB HgB (fresh_obj_lookup mB)) as (HnB & HdB & HeB).
  destruct Hsh as [_ _ _ [HrA HtA] _ _ _ [HrB HtB]].
  split; [exact (proj2 HkA)|]. split; [exact (proj2 HkB)|]. split; [exact HdA|]. split; [exact HdB|].
  exists sA, sB. split; [by apply gained_talk|]. split; [by apply gained_talk|]. rewrite <- HeA at 1. rewrite <- HeB.
  split; [apply (gained_reflects (fun _ => False))|apply (gained_reflects (fun _ => False))]; try done.
  - by apply alone_desk.
  - apply (gn_ready _ _ _ _ _ HgB).
  - by apply alone_desk.
  - apply (gn_ready _ _ _ _ _ HgA).
Qed.

End Talk.

(** ** A concrete conversation *)

Section ConversationWitnesses.

Definition ex_ann_side : @side threadsafe_queue := MkSide (ex_desk ex_pair.1) 0 "bob".
Definition ex_bob_side : @side threadsafe_queue := MkSide (ex_desk ex_pair.2) 0 "ann".

Lemma ex_pair_ends :
  (exists s, in_talk ex_ann_side s /\ ex_quiet s) /\ (exists s, in_talk ex_bob_side s /\ ex_quiet s).
Proof. split; (apply (end_check _ ex_sock); [vm_compute; repeat split; reflexivity|reflexivity]). Qed.

Lemma ex_pair_desk (m : Manager threadsafe_queue) peer :
  mgr_inv m -> mgr_mail m = ex_store -> mailbox m = 1%nat -> session_names m = [peer] ->
  (exists s, in_talk (MkSide (ex_desk m) 0 peer) s /\ ex_quiet s) -> desk (eq peer) (ex_desk m).
Proof.
  intros Hi Hm Hb Hn (s & Hs & _). apply (desk_ext (fun q => q ∈ [peer])).
  - intros q. split; [intros <-; by apply list_elem_of_here|by intros ->%list_elem_of_singleton].
  - apply desk_check; try done. repeat constructor. by exists 0%nat, s.
Qed.

Lemma ex_pair_inv : mgr_inv ex_pair.1 /\ mgr_inv ex_pair.2.
Proof. split; (apply mgr_inv_check; [vm_compute; reflexivity..| |vm_compute; reflexivity]); vm_compute; repeat constructor. Qed.

Lemma ex_paired : paired ex_ann_side ex_bob_side nothing_said nothing_said.
Proof.
  destruct ex_pair_ends as [Ha Hb], ex_pair_inv as [Hia Hib].
  split; [apply ex_pair_desk; [exact Hia|vm_compute; reflexivity..|exact Ha]|].
  split; [apply ex_pair_desk; [exact Hib|vm_compute; reflexivity..|exact Hb]|].
  assert (Hw : forall m : Manager threadsafe_queue, mgr_mail m = ex_store -> mailbox m = 1%nat -> waiting (manager (ex_desk m)) []).
  { intros m Hm Hbx. unfold waiting, mgr_app_mail. cbn. rewrite Hm, Hbx. apply ex_store_holds. by right. }
  apply ex_link; [exact Ha|exact Hb|]. intros z [->| ->]; (split; [|reflexivity]); apply Hw; vm_compute; reflexivity.
Qed.

(** [ann] opens the chat and types [hi]. *)
Definition ex_said_keys : list ascii := chars "1hi" ++ [char_of 10].
Definition ex_said : @side threadsafe_queue :=
  with_app ex_ann_side (default (ex_desk ex_pair.1) (ex_typing (ex_desk ex_pair.1) ex_said_keys)).

Lemma ex_both_types l x y a :
  ex_typing (s_app x) l = Some a -> star (both (acts ex_ctime ex_lazy ex_resolve)) (x, y) (with_app x a, y).
Proof.
  revert x. induction l as [|c l IH]; intros x Ht; cbn [ex_typing] in Ht; [injection Ht as <-; destruct x; constructor|].
  destruct (key_read _ _ _ _ _) as [a1|f] eqn:E; [|done]. destruct (allowed_check (s_app x) c) eqn:Ha; [|done].
  eapply star_step; [|exact (IH (with_app x a1) Ht)]. apply b_left.
  apply (ac_key ex_ctime ex_lazy ex_resolve ex_env c); [by apply allowed_check_ok| |exact E]. vm_compute. split; [discriminate|reflexivity].
Qed.

Lemma ex_said_run : star (both (acts ex_ctime ex_lazy ex_resolve)) (ex_ann_side, ex_bob_side) (ex_said, ex_bob_side).
Proof.
  apply (ex_both_types ex_said_keys). change (s_app ex_ann_side) with (ex_desk ex_pair.1).
  destruct (ex_typing (ex_desk ex_pair.1) ex_said_keys) as [a|] eqn:E; [done|].
  exfalso. assert (Hs : is_Some (ex_typing (ex_desk ex_pair.1) ex_said_keys)) by (vm_compute; by eexists). rewrite E in Hs. by destruct Hs.
Qed.

Lemma conversation_refines_channels_witness :
  exists eA eB, star (channel_step "ann" "ann" "bob" "bob") (nothing_said, nothing_said) (eA, eB) /\
    e_log eA = [ex_line "hi" "ann"] /\ e_log eB = [] /\ never_faults ex_ctime ex_lazy ex_resolve ex_said.
Proof.
  destruct (conversation_refines_channels ex_ctime ex_lazy ex_resolve ex_ann_side ex_bob_side ex_said ex_bob_side
    nothing_said nothing_said eq_refl ex_ctime_long ex_paired ex_said_run) as (eA & eB & Hs & HA & HB & _ & Hf & _).
  exists eA, eB. split; [|split; [|split]].
  - assert (Hn : own ex_ann_side = "ann"%string /\ s_peer ex_bob_side = "ann"%string /\ own ex_bob_side = "bob"%string /\
      s_peer ex_ann_side = "bob"%string) by (vm_compute; repeat split).
    destruct Hn as (H1 & H2 & H3 & H4). rewrite H1, H2, H3, H4 in Hs. exact Hs.
  - rewrite HA. vm_compute. reflexivity.
  - rewrite HB. vm_compute. reflexivity.
  - exact Hf.
Defined.

Lemma conversation_delivers_witness :
  said_by ex_said = [ex_line "hi" "ann"] /\
  exists C D, star (both (quiet ex_ctime ex_lazy ex_resolve)) (ex_said, ex_bob_side) (C, D) /\
    heard_by D = [ex_line "hi" "ann"] /\ heard_by C = [].
Proof.
  assert (Hsaid : said_by ex_said = [ex_line "hi" "ann"]) by (vm_compute; reflexivity). split; [exact Hsaid|].
  destruct (conversation_delivers ex_ctime ex_lazy ex_resolve ex_ann_side ex_bob_side ex_said ex_bob_side eq_refl)
    as (_ & _ & C & D & Hr & _ & _ & HD & HC); [vm_compute; discriminate|vm_compute; discriminate|exact ex_paired|
    exact ex_said_run|].
  assert (Hears : hearing ex_said /\ hearing ex_bob_side) by (split; apply hearing_check; vm_compute; reflexivity).
  exists C, D. split; [exact Hr|]. split; [rewrite (HD (proj2 Hears)), Hsaid|rewrite (HC (proj1 Hears))]; vm_compute; reflexivity.
Defined.

(** The same from the theorem: [ann] has dialled, [bob] accepts. *)
Definition ex_app_of (m : Manager threadsafe_queue) : App threadsafe_queue := App_make m ex_base ex_os "/srv".

Lemma ex_alone m :
  mgr_inv m -> sessions_m m = [] -> mgr_mail m = ex_store -> mailbox m = 1%nat -> alone (ex_app_of m).
Proof.
  intros Hi Hs Hm Hb. split; [by apply (mgr_inv_same m)|exact Hs| |exact Hb|done..]. unfold mgr_app_mail. cbn. rewrite Hm, Hb.
  apply ex_store_holds. by right.
Qed.

Lemma handshake_starts_conversation_witness :
  exists mA mB : Manager threadsafe_queue,
    star (net_step ex_lazy) (Net (manager (ex_app_of (ex_dials (ex_start "ann") "bob"))) 0
      (manager (ex_app_of (Accept (ex_start "bob")))) 0) (Net mA 0 mB 0) /\
    paired (MkSide (a_manager (ex_app_of (ex_dials (ex_start "ann") "bob")) mA) 0 "bob")
      (MkSide (a_manager (ex_app_of (Accept (ex_start "bob"))) mB) 0 "ann") nothing_said nothing_said.
Proof.
  assert (Hb : mgr_inv (Accept (ex_start "bob"))) by (apply (mgr_inv_same (ex_start "bob")); [done|apply mgr_inv_make]).
  assert (Ha : mgr_inv (ex_dials (ex_start "ann") "bob")).
  { apply (mstep_inv ex_lazy (ex_start "ann")); [apply mgr_inv_make|].
    eapply (ms_initiate _ (ex_peer "bob") BVSTATUS_OK). vm_compute. reflexivity. }
  destruct (handshake_starts_conversation ex_lazy ex_env (ex_app_of (ex_dials (ex_start "ann") "bob")) (ex_app_of (Accept (ex_start "bob")))
    0 (with_id (ex_peer "bob") 0) 0 0) as (mA & mB & Hs & _ & _ & Hp).
  - by apply ex_alone.
  - reflexivity.
  - by apply ex_alone.
  - reflexivity.
  - exact ex_env_ok.
  - vm_compute. lia.
  - vm_compute. reflexivity.
  - reflexivity.
  - exists mA, mB. split; [exact Hs|exact Hp].
Defined.

End ConversationWitnesses.
