(* ===== verification/Redial.v ===== *)
(** * Dialling a peer again ([include/BVTCPConnectionManager.hpp],
    [src/BVApp_ConsoleClient.cpp], [src/BVTCPSession.cpp])

    When a service disappears from discovery, the application drops its session
    from the tables but leaves the connection open; when it is announced again it
    is dialled again.  The other machine, which may have noticed nothing, closes
    the second connection as a duplicate of the first. *)

From Stdlib Require Import ZArith Lia Ascii String.
From S2P Require Import Prelude TSQueue Common Broker Component Frames Session FileTransfer.
From S2P Require Import ReceivedFile ConnectionManager ConsoleClient Peers Links Group Conversation.

Section Redial.
Context {Q : Type -> Type} `{FifoQueueLaws Q} (P : asio).

(** A [HELLOBACK] from a peer there is a session with already. *)
Lemma helloback_duplicate e name s (m : Manager Q) msg :
  listening s -> s_state s = BVSESSIONSTATE_UNPREPARED -> rx (sock s) = message_bytes msg ->
  header_ok (msg_header msg) -> length (msg_payload msg) = PAYLOAD_SIZE_BYTES ->
  mh_msgType (msg_header msg) = BVSESSIONCONTROLMESSAGETYPE_HELLOBACK ->
  0 <= mh_dataLen (msg_header msg) <= 128 ->
  name = str (take (Z.to_nat (mh_dataLen (msg_header msg))) (msg_payload msg)) ->
  objs m !! self s = Some s -> name ∈ session_names m ->
  let h := holding s (message_bytes msg) in
  complete_read P e s m = Ok (Some (Close h, put_back (put_back m h) (Close h))).
Proof.
  intros Hli Hst Hrx Hh Hp Ht Hd Hname Ho Hn h.
  rewrite (control_frame_read P e s m _ Hli Hst Hrx Hh Hp). unfold handle_unprepared. rewrite Ht.
  cbn [Z.eqb Pos.eqb BVSESSIONCONTROLMESSAGETYPE_HELLO BVSESSIONCONTROLMESSAGETYPE_HELLOBACK
    BVSESSIONCONTROLMESSAGETYPE_CONFIRM_ESTABLISHED]. fold h.
  assert (Hbh : readBuf h = Some (message_bytes msg)) by done.
  assert (Hpres : IsSessionAlreadyPresent (put_back m h) name = true).
  { apply IsSessionAlreadyPresent_spec. by rewrite (names_put_back_id m h s). }
  clearbody h. unfold OnReceiveHelloBackFrame, the_readBuf. cbn [mbind result_bind]. rewrite Hbh.
  cbn [from_option_err mbind result_bind]. rewrite GetMsgHeader_message by done. cbn [mbind result_bind]. rewrite Ht.
  cbn [Z.eqb Pos.eqb BVSESSIONCONTROLMESSAGETYPE_HELLOBACK negb].
  replace (128 <? mh_dataLen (msg_header msg)) with false by (symmetry; apply Z.ltb_ge; lia).
  rewrite read_payload_part by (rewrite Hp; unfold PAYLOAD_SIZE_BYTES; lia). cbn [mbind result_bind]. rewrite <- Hname.
  cbn [HandleSessionIdentification manager_interface]. unfold mgr_HandleSessionIdentification. rewrite Hpres.
  cbn [negb mbind result_bind]. rewrite decide_False by (intros Hc; by apply Hc). done.
Qed.

(** C35.  A peer that is dialled again while it still has the first connection
    in its table: it closes the new one and keeps the old.  The dialer's table
    leads to the new one, on which everything it sends is accepted and none of
    it is ever read; the session of the old connection is untouched. *)
Theorem reannounced_peer_unheard e (mA mB : Manager Q) sidA nodeB k sidB :
  mgr_inv mA -> mgr_inv mB -> env_ok e -> (String.length (thisName mA) <= 128)%nat ->
  connecting mA !! k = Some (sidA, nodeB) -> nd_serviceName nodeB ∉ session_names mA ->
  accepting mB = Some sidB -> heard_name P (thisName mA) ∈ session_names mB ->
  let refA := fresh_obj mA in let refB := fresh_obj mB in
  exists mA' mB' sB, star (net_step P) (Net mA refA mB refB) (Net mA' refA mB' refB) /\
    GetSessionIDFromServiceName mA' (nd_serviceName nodeB) = (BVSTATUS_OK, Some sidA) /\
    smap_find sidA (sessions_m mA') = Some refA /\
    (forall msg, length (msg_payload msg) = PAYLOAD_SIZE_BYTES ->
       exists m, SendDataToNode P mA' msg sidA = Ok (BVSTATUS_OK, m)) /\
    (forall r, r <> refA -> objs mA' !! r = objs mA !! r) /\
    objs mB' !! refB = Some sB /\ s_state sB = BVSESSIONSTATE_CLOSED /\
    sessions_m mB' = sessions_m mB /\ service_sessionid_m mB' = service_sessionid_m mB /\
    forall e2 bytes, on_readable P e2 refB (put_back mB' (receive sB bytes)) = Ok None.
Proof.
  intros HiA HiB He Hname Hc Hn Ha Hdup refA refB.
  destruct (hello_exchanged P e mA mB sidA nodeB k sidB HiA HiB He Hname Hc Hn Ha)
    as (mA1 & mB1 & sA & sB & Hstar & HatA & HatB & HidA & HliA & HrxA & HstA & HtxA & HwA & HidB & HliB &
        HwB & HrxB & HtxB & HstB).
  destruct (wire_helloback_ok P e (thisName mA) He Hname) as (_ & Hho & Hpl & Hdl & Hheard).
  set (sB1 := receive sB (tx (sock sA))).
  pose proof (at_put _ _ _ _ _ _ _ HatB (receive_same sB (tx (sock sA)))) as HatB1. fold sB1 in HatB1.
  pose proof (at_put _ _ _ _ _ _ _ HatA (sent_off_same sA)) as HatA1.
  pose proof (ns_to_right P (Net mA1 refA mB1 refB) sA sB (at_lookup _ _ _ _ _ _ HatA) (at_lookup _ _ _ _ _ _ HatB)) as Hcross.
  cbn [left right lref rref] in Hcross. fold sB1 in Hcross.
  assert (HrxB1 : rx (sock sB1) = message_bytes (wire_helloback P e (thisName mA))).
  { unfold sB1. cbn [receive set_sock sock with_reads rx]. by rewrite HrxB, HtxA. }
  pose proof (at_lookup _ _ _ _ _ _ HatB1) as HoB1. pose proof (at_self _ _ _ _ _ _ HatB1) as HseB1.
  pose proof (helloback_duplicate e (heard_name P (thisName mA)) sB1 (put_back mB1 sB1) (wire_helloback P e (thisName mA))
    (receive_listening _ _ HliB) HstB HrxB1 Hho Hpl eq_refl Hdl Hheard) as Hread.
  rewrite HseB1 in Hread. specialize (Hread HoB1).
  rewrite (names_unregistered mB _ _ _ sB1 HiB (fresh_obj_lookup mB) HatB1) in Hread. specialize (Hread Hdup).
  cbv zeta in Hread. set (sC := Close (holding sB1 _)) in *. set (mB2 := put_back (put_back (put_back mB1 sB1) _) sC) in Hread.
  assert (HseC : self sC = refB) by exact HseB1.
  assert (HoC : objs (put_back mB2 sC) !! refB = Some sC).
  { cbn [put_back m_objs objs]. rewrite HseC. apply lookup_insert_eq. }
  exists (put_back mA1 (sent_off sA)), (put_back mB2 sC), sC.
  split; [|split; [|split; [|split; [|split; [|split; [exact HoC|split; [done|split; [|split]]]]]]]].
  - eapply star_trans; [exact Hstar|]. eapply star_step; [exact Hcross|]. eapply star_step; [|apply star_refl].
    exact (ns_right P (Net _ _ (put_back mB1 sB1) refB) _ (read_step P e _ _ _ _ _ HoB1 Hread)).
  - unfold GetSessionIDFromServiceName. by rewrite (at_services _ _ _ _ _ _ HatA1), lookup_insert_eq.
  - rewrite (at_sessions _ _ _ _ _ _ HatA1). apply smap_find_insert.
  - intros msg Hp. unfold SendDataToNode, write_to.
    rewrite (at_sessions _ _ _ _ _ _ HatA1), smap_find_insert, (at_lookup _ _ _ _ _ _ HatA1).
    cbn [from_option_err mbind result_bind]. rewrite WriteMessageFrame_ok by (done || by apply sent_off_writable).
    by eexists.
  - intros r Hr. by rewrite (at_objs _ _ _ _ _ _ HatA1), lookup_insert_ne.
  - exact (at_sessions _ _ _ _ _ _ HatB1).
  - exact (at_services _ _ _ _ _ _ HatB1).
  - intros e2 bytes. unfold on_readable. cbn [put_back m_objs objs receive set_sock self]. rewrite HseC, lookup_insert_eq. done.
Qed.

End Redial.

(** ** Concrete machines *)

Section RedialWitnesses.

(** [ann] loses sight of [bob], and dials again. *)
Definition ex_lost : Manager threadsafe_queue := (RemoveSession ex_pair.1 "bob").2.
Definition ex_redial : Manager threadsafe_queue :=
  match InitiateSessionWithNode ex_lost (ex_peer "bob") with Ok (_, m) => m | Err _ => ex_lost end.

Lemma removed_inv (m : Manager threadsafe_queue) name : mgr_inv m -> mgr_inv (RemoveSession m name).2.
Proof. intros Hi. destruct (RemoveSession m name) as [st m'] eqn:E. by eapply mgr_inv_remove. Qed.

Lemma redialled_inv (m : Manager threadsafe_queue) node :
  mgr_inv m -> mgr_inv (match InitiateSessionWithNode m node with Ok (_, m) => m | Err _ => m end).
Proof. intros Hi. destruct (InitiateSessionWithNode m node) as [[st m']|] eqn:E; [by eapply mgr_inv_initiate|done]. Qed.

Lemma ex_redial_inv : mgr_inv ex_redial.
Proof.
  unfold ex_redial. assert (Hl : mgr_inv ex_lost) by (unfold ex_lost; apply removed_inv; exact (proj1 ex_pair_inv)).
  generalize dependent ex_lost. intros m Hl. by apply redialled_inv.
Qed.

Lemma reannounced_peer_unheard_witness :
  exists (mA mB : Manager threadsafe_queue) sB,
    star (net_step ex_lazy) (Net ex_redial 1 ex_pair.2 1) (Net mA 1 mB 1) /\
    GetSessionIDFromServiceName mA "bob" = (BVSTATUS_OK, Some 1) /\
    objs mB !! 1%nat = Some sB /\ s_state sB = BVSESSIONSTATE_CLOSED /\
    session_names ex_pair.2 = ["ann"%string].
Proof.
  assert (Hn : session_names ex_redial = [] /\ session_names ex_pair.2 = ["ann"%string]) by (vm_compute; repeat split).
  assert (Hf : fresh_obj ex_redial = 1%nat /\ fresh_obj ex_pair.2 = 1%nat) by (vm_compute; repeat split).
  destruct Hn as [Hn1 Hn2]. destruct Hf as [Hf1 Hf2].
  destruct (reannounced_peer_unheard ex_lazy ex_env ex_redial ex_pair.2 1 (with_id (ex_peer "bob") 2) 0 1)
    as (mA & mB & sB & Hs & Hg & _ & _ & _ & Ho & Hst & _).
  - exact ex_redial_inv.
  - exact (proj2 ex_pair_inv).
  - exact ex_env_ok.
  - vm_compute. lia.
  - vm_compute. reflexivity.
  - rewrite Hn1. apply not_elem_of_nil.
  - vm_compute. reflexivity.
  - rewrite Hn2. assert (Hh : heard_name ex_lazy (thisName ex_redial) = "ann"%string) by (vm_compute; reflexivity).
    rewrite Hh. left.
  - rewrite Hf1, Hf2 in Hs. rewrite Hf2 in Ho. exists mA, mB, sB. split; [exact Hs|]. split; [exact Hg|].
    split; [exact Ho|]. split; [exact Hst|exact Hn2].
Defined.

End RedialWitnesses.
