(* ===== verification/LinkedList.v ===== *)
(** * The C linked list ([src/linked_list.c], [include/linked_list.h])

    Discovery collects what the daemon reports in a singly linked list of
    256-byte strings on the C heap.  The heap is explicit: [malloc] takes a
    fresh address, [free] removes it, and a freed or null pointer faults when
    it is followed.  A loop takes fuel; [Ok None] says that it has not ended. *)

From Stdlib Require Import ZArith Lia Ascii String.
From S2P Require Import Prelude.

Definition MAX_DATA_SIZE : nat := 256.

Record LinkedListElement_str : Type := MkElement {
  next_p : option nat;
  el_data : list ascii        (* char[MAX_DATA_SIZE] *)
}.

(** The C heap, as far as elements are concerned. *)
Abbreviation memory := (gmap nat LinkedListElement_str) (only parsing).

Record LinkedList_str : Type := MkList {
  head_p : option nat;
  didRegister : Z             (* uint8_t *)
}.

Definition follow (h : memory) (p : option nat) : result LinkedListElement_str :=
  match p with
  | None => Err NullDereference
  | Some r => from_option_err UseAfterFree (h !! r)
  end.

Definition free (h : memory) (p : option nat) : result memory :=
  match p with
  | None => Ok h
  | Some r => let! _ := follow h p in Ok (delete r h)
  end.

(** [strncpy (dst, src, MAX_DATA_SIZE)]: padded with zeros. *)
Definition strncpy_data (src : list ascii) : result (list ascii) :=
  match until_nul (take MAX_DATA_SIZE src) with
  | Some s => Ok (s ++ zeros (MAX_DATA_SIZE - length s))
  | None => load src 0 MAX_DATA_SIZE
  end.

Definition LinkedList_str_Constructor (head : option nat) : LinkedList_str := MkList head 0.

Definition LinkedListElement_str_Constructor (h : memory) (data : option (list ascii))
    (next : option nat) : result (memory * nat) :=
  let r := fresh (dom h) in
  let! d := (match data with
             | Some src => strncpy_data src
             | None => Ok (zeros MAX_DATA_SIZE)
             end) in
  Ok (<[ r := MkElement next d ]> h, r).

Definition LinkedListElement_str_Destructor (h : memory) (p : option nat) : result memory := free h p.

Fixpoint FindTail_loop (fuel : nat) (h : memory) (prev cur : option nat)
    : result (option (option nat)) :=
  match cur with
  | None => Ok (Some prev)
  | Some _ =>
      match fuel with
      | O => Ok None
      | S fuel => let! e := follow h cur in FindTail_loop fuel h cur (next_p e)
      end
  end.

Definition LinkedList_str_FindTail (fuel : nat) (h : memory) (ll : LinkedList_str)
    : result (option (option nat)) :=
  match head_p ll with
  | None => Ok (Some None)
  | Some _ => FindTail_loop fuel h (head_p ll) (head_p ll)
  end.

Definition set_next (h : memory) (p next : option nat) : result memory :=
  let! e := follow h p in
  Ok (match p with Some r => <[ r := MkElement next (el_data e) ]> h | None => h end).

Definition LinkedList_str_AddElement (fuel : nat) (h : memory) (ll : LinkedList_str)
    (element : option nat) : result (option (memory * LinkedList_str)) :=
  match head_p ll with
  | None => Ok (Some (h, MkList element (didRegister ll)))
  | Some _ =>
      let! tail := LinkedList_str_FindTail fuel h ll in
      match tail with
      | None => Ok None
      | Some None => Ok (Some (h, ll))
      | Some tail_p => let! h := set_next h tail_p element in Ok (Some (h, ll))
      end
  end.

(** The loop condition is [head_p != NULL || head_p == element]. *)
Fixpoint RemoveElement_loop (fuel : nat) (h : memory) (prev cur element : option nat)
    : result (option memory) :=
  if decide (cur = None /\ cur <> element) then Ok (Some h)
  else
    match fuel with
    | O => Ok None
    | S fuel =>
        let! e := follow h cur in
        if decide (cur = element) then
          let! h := set_next h prev (next_p e) in
          let! h := LinkedListElement_str_Destructor h cur in
          Ok (Some h)
        else RemoveElement_loop fuel h cur (next_p e) element
    end.

Definition LinkedList_str_RemoveElement (fuel : nat) (h : memory) (ll : LinkedList_str)
    (element : option nat) : result (option (memory * LinkedList_str)) :=
  match head_p ll with
  | None => Ok (Some (h, ll))
  | Some _ =>
      let! e := follow h (head_p ll) in
      if decide (element = head_p ll /\ next_p e = None) then
        let! h := LinkedListElement_str_Destructor h (head_p ll) in
        Ok (Some (h, MkList None (didRegister ll)))
      else if decide (element = head_p ll /\ next_p e <> None) then
        let next_p_copy := next_p e in
        let! h := LinkedListElement_str_Destructor h (head_p ll) in
        Ok (Some (h, MkList next_p_copy (didRegister ll)))
      else
        let! o := RemoveElement_loop fuel h (head_p ll) (head_p ll) element in
        Ok ((fun h => (h, ll)) <$> o)
  end.

(** [do ... while (prev_p != NULL)] *)
Fixpoint ClearList_loop (fuel : nat) (h : memory) (ll : LinkedList_str) (prev : option nat)
    : result (option (memory * LinkedList_str)) :=
  match fuel with
  | O => Ok None
  | S fuel =>
      let! e := follow h prev in
      let! o := LinkedList_str_RemoveElement fuel h ll prev in
      match o with
      | None => Ok None
      | Some (h, ll) =>
          match next_p e with
          | None => Ok (Some (h, ll))
          | next => ClearList_loop fuel h ll next
          end
      end
  end.

Definition LinkedList_str_ClearList (fuel : nat) (h : memory) (ll : LinkedList_str)
    : result (option (memory * LinkedList_str)) :=
  let ll := MkList (head_p ll) 0 in
  match head_p ll with
  | None => Ok (Some (h, ll))
  | Some _ => ClearList_loop fuel h ll (head_p ll)
  end.

(** ** The list a chain of elements stands for *)

(** From [p] to [q], the elements at these addresses with these strings. *)
Fixpoint seg (h : memory) (p : option nat) (l : list (nat * list ascii)) (q : option nat) : Prop :=
  match l with
  | [] => p = q
  | (r, d) :: l => p = Some r /\ exists next, h !! r = Some (MkElement next d) /\ seg h next l q
  end.

Record holds_list (h : memory) (ll : LinkedList_str) (l : list (nat * list ascii)) : Prop := {
  hl_seg : seg h (head_p ll) l None;
  hl_nodup : NoDup l.*1
}.

Lemma seg_ext h h' l : forall p q,
  (forall r, r ∈ l.*1 -> h' !! r = h !! r) -> seg h p l q -> seg h' p l q.
Proof.
  induction l as [|[r d] l IH]; intros p q Hh Hs; [done|]. destruct Hs as (-> & next & Hr & Hs).
  split; [done|]. exists next. split; [by rewrite Hh by set_solver|]. apply IH; [|done]. set_solver.
Qed.

Lemma seg_snoc h l : forall p r d q,
  seg h p (l ++ [(r, d)]) q <-> seg h p l (Some r) /\ h !! r = Some (MkElement q d).
Proof.
  induction l as [|[r' d'] l IH]; intros p r d q; cbn [app seg].
  - split; [intros (-> & next & Hr & ->); done|intros [-> Hr]; split; [done|by exists q]].
  - split.
    + intros (-> & next & Hr & Hs). apply IH in Hs as [Hs Hr']. split; [|done]. split; [done|by exists next].
    + intros [(-> & next & Hr & Hs) Hr']. split; [done|]. exists next. split; [done|]. by apply IH.
Qed.

(** The tail's [next] redirected: the chain now ends elsewhere. *)
Lemma seg_redirect h l r d p q q' :
  r ∉ l.*1 -> seg h p (l ++ [(r, d)]) q ->
  seg (<[ r := MkElement q' d ]> h) p (l ++ [(r, d)]) q'.
Proof.
  intros Hn Hs. apply seg_snoc in Hs as [Hs Hr]. apply seg_snoc. split; [|by rewrite lookup_insert_eq].
  eapply seg_ext; [|exact Hs]. intros r' Hr'. rewrite lookup_insert_ne; [done|]. intros ->. done.
Qed.

Lemma seg_app h l1 : forall l2 p q,
  seg h p (l1 ++ l2) q <-> exists m, seg h p l1 m /\ seg h m l2 q.
Proof.
  induction l1 as [|[r d] l1 IH]; intros l2 p q; cbn [app seg].
  - split; [by exists p|by intros (m & -> & Hs)].
  - split.
    + intros (-> & next & Hr & (m & H1 & H2)%IH). exists m. split; [|done]. split; [done|by exists next].
    + intros (m & (-> & next & Hr & H1) & H2). split; [done|]. exists next. split; [done|].
      apply IH. by exists m.
Qed.

Lemma follow_seg h p r d l q : seg h p ((r, d) :: l) q -> exists e, follow h p = Ok e /\
  h !! r = Some e /\ el_data e = d /\ seg h (next_p e) l q.
Proof. intros (-> & next & Hr & Hs). exists (MkElement next d). cbn. by rewrite Hr. Qed.

Lemma FindTail_loop_ok h l : forall fuel prev p,
  seg h p l None -> (length l < fuel)%nat ->
  FindTail_loop fuel h prev p = Ok (Some (default prev (Some <$> last l.*1))).
Proof.
  induction l as [|[r d] l IH]; intros fuel prev p Hs Hf.
  - cbn in Hs. subst p. by destruct fuel.
  - destruct fuel as [|fuel]; [cbn in Hf; lia|]. destruct (follow_seg _ _ _ _ _ _ Hs) as (e & He & _ & _ & Hs').
    destruct Hs as [-> _]. cbn [FindTail_loop]. rewrite He. cbn [mbind result_bind].
    rewrite (IH fuel (Some r) (next_p e) Hs') by (cbn in Hf; lia).
    do 2 f_equal. destruct l as [|[r' d'] l]; [done|]. cbn [fmap list_fmap]. rewrite last_cons_cons. cbn.
    by destruct (last (r' :: l.*1)) eqn:E; [|apply last_None in E].
Qed.

Lemma FindTail_ok h ll l fuel :
  holds_list h ll l -> (length l < fuel)%nat ->
  LinkedList_str_FindTail fuel h ll = Ok (Some (last l.*1)).
Proof.
  intros [Hs _] Hf. unfold LinkedList_str_FindTail. destruct l as [|[r d] l].
  - cbn in Hs. by rewrite Hs.
  - destruct (head_p ll) as [r'|] eqn:E; [|by destruct Hs]. rewrite (FindTail_loop_ok h ((r, d) :: l)) by done.
    do 2 f_equal. destruct (last _) eqn:E'; [done|]. by apply last_None in E'.
Qed.

Lemma last_ref (l : list (nat * list ascii)) t :
  last l.*1 = Some t -> exists l0 d, l = l0 ++ [(t, d)].
Proof.
  destruct l as [|x l _] using rev_ind; [done|]. rewrite fmap_app. cbn [fmap list_fmap].
  rewrite last_snoc. intros [= <-].
  destruct x as [r d]. by exists l, d.
Qed.

Lemma seg_live h l : forall p q, seg h p l q -> forall r, r ∈ l.*1 -> is_Some (h !! r).
Proof.
  induction l as [|[r d] l IH]; intros p q Hs r' Hr; [by apply not_elem_of_nil in Hr|].
  destruct Hs as (-> & next & Hx & Hs). cbn in Hr. apply elem_of_cons in Hr as [->|Hr]; [by eexists|].
  by apply (IH next q).
Qed.

Lemma alloc_ok h data next d :
  (match data with Some src => strncpy_data src | None => Ok (zeros MAX_DATA_SIZE) end) = Ok d ->
  exists h' r, LinkedListElement_str_Constructor h data next = Ok (h', r) /\ h !! r = None /\
    h' !! r = Some (MkElement next d) /\ (forall r', r' <> r -> h' !! r' = h !! r').
Proof.
  intros Hd. unfold LinkedListElement_str_Constructor. rewrite Hd. cbn [mbind result_bind].
  eexists _, _. split; [reflexivity|]. split; [apply not_elem_of_dom, is_fresh|].
  split; [apply lookup_insert_eq|]. intros r' Hr'. by rewrite lookup_insert_ne.
Qed.

(** [AddElement] appends. *)
Lemma AddElement_ok h ll l r d fuel :
  holds_list h ll l -> h !! r = Some (MkElement None d) -> r ∉ l.*1 -> (length l < fuel)%nat ->
  exists h' ll', LinkedList_str_AddElement fuel h ll (Some r) = Ok (Some (h', ll')) /\
    holds_list h' ll' (l ++ [(r, d)]) /\ dom h' = dom h /\ didRegister ll' = didRegister ll.
Proof.
  intros Hl Hr Hn Hf. pose proof Hl as [Hs Hnd].
  assert (Hnd' : NoDup (l ++ [(r, d)]).*1).
  { rewrite fmap_app. apply NoDup_app. split; [done|]. split; [set_solver|]. apply NoDup_singleton. }
  unfold LinkedList_str_AddElement. destruct (head_p ll) as [hd|] eqn:E.
  - rewrite (FindTail_ok h ll l fuel Hl Hf). cbn [mbind result_bind].
    destruct (last l.*1) as [t|] eqn:Et.
    + destruct (last_ref l t Et) as (l0 & d0 & ->). pose proof Hs as Hs0.
      apply seg_snoc in Hs0 as [_ Ht]. rewrite fmap_app in Hnd. apply NoDup_app in Hnd as (_ & Ht0 & _).
      unfold set_next, follow. rewrite Ht. cbn [from_option_err mbind result_bind el_data].
      eexists _, ll. split; [reflexivity|]. split; [|split; [|done]].
      * split; [|done]. rewrite E. apply seg_snoc. split.
        -- apply (seg_redirect h l0 t d0 (Some hd) None (Some r)); [|done]. intros Hin. apply (Ht0 t Hin). set_solver.
        -- rewrite lookup_insert_ne; [done|]. intros ->. apply Hn. rewrite fmap_app. set_solver.
      * apply dom_insert_lookup_L. by eexists.
    + apply last_None in Et. apply fmap_nil_inv in Et. subst l. by cbn in Hs.
  - eexists h, (MkList (Some r) (didRegister ll)). split; [done|]. split; [|done]. split; [|done].
    destruct l as [|[r0 d0] l]; [|by destruct Hs]. cbn. split; [done|]. by exists None.
Qed.

(** What a removal leaves in the heap: the element is gone, every other
    string is where it was. *)
Record removed (h h' : memory) (r : nat) : Prop := {
  rm_gone : h' !! r = None;
  rm_data : forall r', r' <> r -> el_data <$> h' !! r' = el_data <$> h !! r'
}.

Lemma RemoveElement_loop_ok h r d l2 : forall l1 fuel r0 d0 p,
  NoDup (r0 :: (l1 ++ (r, d) :: l2).*1) ->
  h !! r0 = Some (MkElement p d0) -> seg h p (l1 ++ (r, d) :: l2) None ->
  (length l1 < fuel)%nat ->
  exists h', RemoveElement_loop fuel h (Some r0) p (Some r) = Ok (Some h') /\
    seg h' (Some r0) ((r0, d0) :: l1 ++ l2) None /\ removed h h' r /\
    (forall r', r' ∉ r0 :: l1.*1 -> r' <> r -> h' !! r' = h !! r').
Proof.
  induction l1 as [|[r1 d1] l1 IH]; intros [|fuel] r0 d0 p Hnd H0 Hs Hf; try (cbn in Hf; lia).
  - cbn [app] in *. destruct Hs as (-> & next & Hr & Hs). cbn [RemoveElement_loop].
    rewrite decide_False by naive_solver. unfold follow at 1. rewrite Hr. cbn [from_option_err mbind result_bind].
    rewrite decide_True by done. cbn [next_p]. cbn [fmap list_fmap fst] in Hnd.
    apply NoDup_cons in Hnd as [H0n Hnd]. apply NoDup_cons in Hnd as [Hrn _].
    assert (Hne : r0 <> r) by set_solver.
    unfold set_next, follow. rewrite H0. cbn [from_option_err mbind result_bind el_data].
    unfold LinkedListElement_str_Destructor, free, follow. rewrite lookup_insert_ne, Hr by done.
    cbn [from_option_err mbind result_bind]. eexists. split; [reflexivity|].
    split; [|split; [split|]].
    + cbn [seg]. split; [done|]. exists next. split; [by rewrite lookup_delete_ne, lookup_insert_eq|].
      eapply seg_ext; [|exact Hs]. intros r' Hr'.
      rewrite lookup_delete_ne, lookup_insert_ne by set_solver. done.
    + apply lookup_delete_eq.
    + intros r' Hr'. rewrite lookup_delete_ne by done.
      destruct (decide (r' = r0)) as [->|]; [by rewrite lookup_insert_eq, H0|by rewrite lookup_insert_ne].
    + intros r' Hr' Hx. by rewrite lookup_delete_ne, lookup_insert_ne by set_solver.
  - cbn [app] in *. destruct Hs as (-> & next & Hr1 & Hs). cbn [RemoveElement_loop].
    rewrite decide_False by naive_solver. unfold follow at 1. rewrite Hr1. cbn [from_option_err mbind result_bind].
    cbn [fmap list_fmap fst] in Hnd. apply NoDup_cons in Hnd as [H0n Hnd]. pose proof Hnd as Hnd1.
    apply NoDup_cons in Hnd1 as [H1n _]. assert (Hin : r ∈ (l1 ++ (r, d) :: l2).*1) by (rewrite fmap_app; set_solver).
    rewrite decide_False by (intros [= ->]; done).
    destruct (IH fuel r1 d1 next Hnd Hr1 Hs ltac:(cbn in Hf; lia)) as (h' & Hx & Hs' & Hrm & Ho).
    assert (Hne : r0 <> r) by set_solver.
    assert (H0n' : r0 ∉ r1 :: l1.*1) by (rewrite fmap_app in H0n; set_solver).
    exists h'. split; [exact Hx|]. split; [|split; [exact Hrm|]].
    + cbn [seg]. split; [done|]. exists (Some r1). split; [|exact Hs']. by rewrite Ho, H0.
    + intros r' Hr' Hr. apply Ho; [|done]. set_solver.
Qed.

Lemma RemoveElement_head h ll r d l fuel :
  holds_list h ll ((r, d) :: l) ->
  exists next, h !! r = Some (MkElement next d) /\
    LinkedList_str_RemoveElement fuel h ll (Some r) = Ok (Some (delete r h, MkList next (didRegister ll))) /\
    holds_list (delete r h) (MkList next (didRegister ll)) l.
Proof.
  intros [(Hh & next & Hr & Hs) Hnd]. apply NoDup_cons in Hnd as [Hrn Hnd].
  exists next. split; [done|]. split.
  - unfold LinkedList_str_RemoveElement, LinkedListElement_str_Destructor, free. rewrite Hh. unfold follow.
    rewrite Hr. cbn [from_option_err mbind result_bind next_p]. destruct next as [n|].
    + rewrite decide_False by naive_solver. by rewrite decide_True.
    + by rewrite decide_True.
  - split; [|done]. eapply seg_ext; [|exact Hs]. intros r' Hr'. rewrite lookup_delete_ne; [done|]. intros ->. done.
Qed.

(** [RemoveElement] takes one element out. *)
Lemma RemoveElement_ok h ll l1 r d l2 fuel :
  holds_list h ll (l1 ++ (r, d) :: l2) -> (length l1 < fuel)%nat ->
  exists h' ll', LinkedList_str_RemoveElement fuel h ll (Some r) = Ok (Some (h', ll')) /\
    holds_list h' ll' (l1 ++ l2) /\ removed h h' r /\ didRegister ll' = didRegister ll.
Proof.
  intros Hl Hf. destruct l1 as [|[r1 d1] l1].
  - destruct (RemoveElement_head h ll r d l2 fuel Hl) as (next & _ & Hx & Hl').
    exists (delete r h), (MkList next (didRegister ll)). split; [done|]. split; [done|]. split; [|done].
    split; [apply lookup_delete_eq|]. intros r' Hr'. by rewrite lookup_delete_ne.
  - destruct Hl as [(Hh & next & Hr & Hs) Hnd]. cbn [app fmap list_fmap fst] in Hnd.
    assert (Hnd' : NoDup ((r1, d1) :: l1 ++ l2).*1).
    { eapply sublist_NoDup; [exact Hnd|]. cbn [fmap list_fmap fst]. apply sublist_skip. rewrite !fmap_app.
      apply sublist_app; [done|]. by apply sublist_cons. }
    assert (Hne : r <> r1).
    { apply NoDup_cons in Hnd as [Hn _]. rewrite fmap_app in Hn. set_solver. }
    unfold LinkedList_str_RemoveElement. rewrite Hh. unfold follow. rewrite Hr.
    cbn [from_option_err mbind result_bind next_p]. rewrite !decide_False by naive_solver.
    destruct fuel as [|fuel]; [cbn in Hf; lia|]. cbn [RemoveElement_loop].
    rewrite decide_False by naive_solver. unfold follow. rewrite Hr. cbn [from_option_err mbind result_bind next_p].
    rewrite decide_False by congruence.
    destruct (RemoveElement_loop_ok h r d l2 l1 fuel r1 d1 next) as (h' & Hx & Hs' & Hrm & _);
      [exact Hnd|exact Hr|exact Hs|cbn in Hf; lia|].
    rewrite Hx. cbn [mbind result_bind]. exists h', ll. split; [done|]. split; [|done]. split; [by rewrite Hh|done].
Qed.

(** [ClearList] frees every element and nothing else. *)
Lemma ClearList_loop_ok : forall l h ll r d fuel,
  holds_list h ll ((r, d) :: l) -> (length l < fuel)%nat ->
  exists h', ClearList_loop fuel h ll (Some r) = Ok (Some (h', MkList None (didRegister ll))) /\
    (forall r', r' ∈ r :: l.*1 -> h' !! r' = None) /\
    (forall r', r' ∉ r :: l.*1 -> h' !! r' = h !! r').
Proof.
  induction l as [|[r1 d1] l IH]; intros h ll r d [|fuel] Hl Hf; try (cbn in Hf; lia).
  - destruct (RemoveElement_head h ll r d _ fuel Hl) as (next & Hr & Hx & [Hs _]). cbn in Hs. subst next.
    cbn [ClearList_loop follow]. rewrite Hr. cbn [from_option_err mbind result_bind]. rewrite Hx.
    cbn [mbind result_bind next_p]. eexists. split; [reflexivity|]. split; intros r' Hr'.
    + apply list_elem_of_singleton in Hr' as ->. apply lookup_delete_eq.
    + rewrite lookup_delete_ne; [done|]. set_solver.
  - destruct (RemoveElement_head h ll r d _ fuel Hl) as (next & Hr & Hx & Hl').
    cbn [ClearList_loop follow]. rewrite Hr. cbn [from_option_err mbind result_bind]. rewrite Hx.
    cbn [mbind result_bind next_p]. pose proof Hl' as [(Hn & _) _]. cbn [head_p] in Hn. subst next.
    destruct (IH _ _ _ _ fuel Hl' ltac:(cbn in Hf; lia)) as (h' & Hc & Hin & Hout).
    exists h'. split; [exact Hc|]. destruct Hl as [_ Hnd]. apply NoDup_cons in Hnd as [Hrn _].
    cbn [fmap list_fmap fst] in *. split; intros r' Hr'.
    + apply elem_of_cons in Hr' as [->|Hr']; [|by apply Hin]. rewrite Hout by done. apply lookup_delete_eq.
    + rewrite Hout by set_solver. rewrite lookup_delete_ne; [done|]. set_solver.
Qed.

Lemma ClearList_ok h ll l fuel :
  holds_list h ll l -> (length l < fuel)%nat ->
  exists h', LinkedList_str_ClearList fuel h ll = Ok (Some (h', MkList None 0)) /\
    (forall r, r ∈ l.*1 -> h' !! r = None) /\ (forall r, r ∉ l.*1 -> h' !! r = h !! r).
Proof.
  intros [Hs Hnd] Hf. unfold LinkedList_str_ClearList. cbn [head_p]. destruct l as [|[r d] l].
  - cbn in Hs. rewrite Hs. exists h. split; [done|]. split; [set_solver|done].
  - pose proof Hs as (Hh & _). rewrite Hh.
    apply (ClearList_loop_ok l h (MkList (Some r) 0) r d fuel); [|cbn in Hf; lia].
    split; [by rewrite <- Hh|done].
Qed.

(** ** Properties *)

(** C29.  The linked list is a list: on a well-formed chain, with fuel for its
    length, [FindTail] gives the last element, adding a newly allocated string
    appends it, removing an element removes it and frees that element alone,
    and clearing frees all the elements and nothing else.  No operation
    follows a null or freed pointer. *)
Theorem linked_list_is_a_list h ll l fuel :
  holds_list h ll l -> (length l < fuel)%nat ->
  LinkedList_str_FindTail fuel h ll = Ok (Some (last l.*1)) /\
  (forall src d, strncpy_data src = Ok d ->
     exists h1 r h2 ll2, LinkedListElement_str_Constructor h (Some src) None = Ok (h1, r) /\
       h !! r = None /\ LinkedList_str_AddElement fuel h1 ll (Some r) = Ok (Some (h2, ll2)) /\
       holds_list h2 ll2 (l ++ [(r, d)])) /\
  (forall l1 r d l2, l = l1 ++ (r, d) :: l2 ->
     exists h' ll', LinkedList_str_RemoveElement fuel h ll (Some r) = Ok (Some (h', ll')) /\
       holds_list h' ll' (l1 ++ l2) /\ removed h h' r) /\
  (exists h', LinkedList_str_ClearList fuel h ll = Ok (Some (h', MkList None 0)) /\
     (forall r, r ∈ l.*1 -> h' !! r = None) /\ (forall r, r ∉ l.*1 -> h' !! r = h !! r)).
Proof.
  intros Hl Hf. split; [by apply FindTail_ok|]. split; [|split].
  - intros src d Hd. destruct (alloc_ok h (Some src) None d) as (h1 & r & Hc & Hn & Hr & Ho); [exact Hd|].
    assert (Hrl : r ∉ l.*1) by (intros Hin; apply (seg_live h _ _ _ (hl_seg _ _ _ Hl)) in Hin as [x Hx]; congruence).
    destruct (AddElement_ok h1 ll l r d fuel) as (h2 & ll2 & Ha & Hl2 & _); [|done|done|done|].
    + destruct Hl as [Hs Hnd]. split; [|done]. eapply seg_ext; [|exact Hs]. intros r' Hr'. apply Ho. by intros ->.
    + by exists h1, r, h2, ll2.
  - intros l1 r d l2 ->. destruct (RemoveElement_ok h ll l1 r d l2 fuel) as (h' & ll' & Hx & Hl' & Hrm & _);
      [done|rewrite length_app in Hf; lia|]. by exists h', ll'.
  - by apply ClearList_ok.
Qed.

(** ** Concrete instance *)

Section LinkedListWitnesses.

Definition ex_list : LinkedList_str := LinkedList_str_Constructor None.

Lemma linked_list_is_a_list_witness :
  exists h1 r h2 ll2,
    LinkedListElement_str_Constructor ∅ (Some (chars "bob" ++ [NUL])) None = Ok (h1, r) /\
    LinkedList_str_AddElement 1 h1 ex_list (Some r) = Ok (Some (h2, ll2)) /\
    holds_list h2 ll2 [(r, chars "bob" ++ zeros 253)].
Proof.
  destruct (linked_list_is_a_list ∅ ex_list [] 1) as (_ & Ha & _).
  - split; [reflexivity|constructor].
  - cbn; lia.
  - destruct (Ha (chars "bob" ++ [NUL]) (chars "bob" ++ zeros 253)) as (h1 & r & h2 & ll2 & H1 & _ & H2 & H3).
    + vm_compute. reflexivity.
    + exists h1, r, h2, ll2. split; [exact H1|]. split; [exact H2|exact H3].
Defined.

End LinkedListWitnesses.
