(* ===== verification/Discovery.v ===== *)
(** * Discovery, the common part ([include/BVDiscovery.hpp], and the record
    that [src/bonjour_api.c] and [src/avahi_api.c] both build)

    The daemon's callbacks put fixed-width records on the linked list, and
    discovery turns the list into browse instances for the application. *)

From Stdlib Require Import ZArith Lia Ascii String.
From S2P Require Import Prelude TSQueue Common Broker Component LinkedList.

Definition SPACE : ascii := " ".

(** [struct BVDiscovery] and the heap its list lives in. *)
Record BVDiscovery : Type := MkDiscovery {
  d_status : BVStatus;
  isBrowsingActive : bool;
  d_heap : gmap nat LinkedListElement_str;
  c_ll_p : LinkedList_str;
  hostData : BVServiceData
}.

Definition BVDiscovery_make (_hostData : BVServiceData) : BVDiscovery :=
  MkDiscovery BVSTATUS_IN_PROGRESS false ∅ (LinkedList_str_Constructor None) _hostData.

Definition SetIsBrowsingActive (d : BVDiscovery) (f : bool) : BVDiscovery :=
  MkDiscovery (d_status d) f (d_heap d) (c_ll_p d) (hostData d).
Definition SetStatus (d : BVDiscovery) (s : BVStatus) : BVDiscovery :=
  MkDiscovery s (isBrowsingActive d) (d_heap d) (c_ll_p d) (hostData d).
Definition set_list (d : BVDiscovery) (h : gmap nat LinkedListElement_str) (ll : LinkedList_str) : BVDiscovery :=
  MkDiscovery (d_status d) (isBrowsingActive d) h ll (hostData d).

(** A traversal that takes more steps than there are elements is in a cycle. *)
Definition list_fuel (h : gmap nat LinkedListElement_str) : nat := S (size h).
Definition finished {A} (r : result (option A)) : result A :=
  let! o := r in from_option_err Nontermination o.

(** The record for one reported service: name, type and domain in columns of
    24, 24 and 16 characters, blank when they do not fit. *)
Definition put_column (buff : list ascii) (off width : nat) (s : string) : result (list ascii) :=
  if (String.length s <? width)%nat then memcpy_to buff off (chars s) else Ok buff.

Definition browse_buff (name type domain : string) : result (list ascii) :=
  let buff := replicate N_BYTES_SERVICE_STR_TOTAL SPACE in
  let! buff := put_column buff 0 N_BYTES_SERVNAME_MAX name in
  let! buff := put_column buff N_BYTES_SERVNAME_MAX N_BYTES_REGTYPE_MAX type in
  let! buff := put_column buff (N_BYTES_SERVNAME_MAX + N_BYTES_REGTYPE_MAX) N_BYTES_REPLDOMN_MAX domain in
  memcpy_to buff (N_BYTES_SERVICE_STR_TOTAL - 1) [NUL].

(** The record goes on the heap and to the end of the list. *)
Definition add_record (d : BVDiscovery) (name type domain : string) : result BVDiscovery :=
  let! buff := browse_buff name type domain in
  let! '(h, lle_p) := LinkedListElement_str_Constructor (d_heap d) (Some buff) None in
  let! '(h, ll) := finished (LinkedList_str_AddElement (list_fuel h) h (c_ll_p d) (Some lle_p)) in
  Ok (set_list d h ll).

(** [erase (remove (' ')); erase (remove ('\0'))] on a column of the record. *)
Definition column (data : list ascii) (off width : nat) : result string :=
  let! s := load data off width in
  Ok (str (filter (fun c => c <> NUL) (filter (fun c => c <> SPACE) s))).

Definition browse_instance (data : list ascii) : result BVServiceBrowseInstance :=
  let! regType := column data N_BYTES_SERVNAME_MAX N_BYTES_REGTYPE_MAX in
  let! replyDomain := column data (N_BYTES_SERVNAME_MAX + N_BYTES_REGTYPE_MAX) N_BYTES_REPLDOMN_MAX in
  let! serviceName := column data 0 N_BYTES_SERVNAME_MAX in
  Ok {| bi_serviceName := serviceName; bi_regType := regType; bi_replyDomain := replyDomain |}.

Fixpoint ReturnListFromBrowseResults_loop (fuel : nat) (h : gmap nat LinkedListElement_str)
    (lle_p : option nat) : result (option (list BVServiceBrowseInstance)) :=
  match lle_p with
  | None => Ok (Some [])
  | Some _ =>
      match fuel with
      | O => Ok None
      | S fuel =>
          let! e := follow h lle_p in
          let! bI := browse_instance (el_data e) in
          let! l := ReturnListFromBrowseResults_loop fuel h (next_p e) in
          Ok (cons bI <$> l)
      end
  end.

Definition ReturnListFromBrowseResults (d : BVDiscovery) : result (list BVServiceBrowseInstance) :=
  finished (ReturnListFromBrowseResults_loop (list_fuel (d_heap d)) (d_heap d) (head_p (c_ll_p d))).

Definition GetDidServiceRegister (d : BVDiscovery) : Z := didRegister (c_ll_p d).

Definition clear_list (d : BVDiscovery) : result BVDiscovery :=
  let! '(h, ll) := finished (LinkedList_str_ClearList (list_fuel (d_heap d)) (d_heap d) (c_ll_p d)) in
  Ok (set_list d h ll).

(** [OnResolveRequest]: what it hands to the implementation's
    [ResolveService]. *)
Definition OnResolveRequest {W} (ResolveService : BVServiceBrowseInstance -> W -> result (BVStatus * W))
    (dp : option any) (d : W) : result (BVStatus * W) :=
  match dp with
  | Some (any_BrowseInstance bI) => ResolveService bI d
  | _ => Ok (BVSTATUS_FATAL_ERROR, d)
  end.

(** ** What a record says *)

(** A column as the application reads it: nothing if the text was too long,
    and never a space. *)
Definition shown_column (width : nat) (s : string) : string :=
  if (String.length s <? width)%nat then str (filter (fun c => c <> SPACE) (chars s)) else EmptyString.

Definition shown_instance (name type domain : string) : BVServiceBrowseInstance :=
  {| bi_serviceName := shown_column N_BYTES_SERVNAME_MAX name;
     bi_regType := shown_column N_BYTES_REGTYPE_MAX type;
     bi_replyDomain := shown_column N_BYTES_REPLDOMN_MAX domain |}.

(** A text column and the blanks after it. *)
Definition padded_column (width : nat) (s : string) : list ascii :=
  if (String.length s <? width)%nat then chars s ++ replicate (width - String.length s) SPACE
  else replicate width SPACE.

Definition record_text (name type domain : string) : list ascii :=
  padded_column 24 name ++ padded_column 24 type ++ take 15 (padded_column 16 domain).

Lemma length_padded_column width s : length (padded_column width s) = width.
Proof.
  unfold padded_column. destruct (_ <? _)%nat eqn:E; autorewrite with bv_len; [|done].
  apply Nat.ltb_lt in E. lia.
Qed.
#[export] Hint Rewrite length_padded_column : bv_len.

Lemma put_column_ok pre width post s :
  put_column (pre ++ replicate width SPACE ++ post) (length pre) width s =
    Ok (pre ++ padded_column width s ++ post).
Proof.
  unfold put_column, padded_column. destruct (_ <? _)%nat eqn:E; [|done]. apply Nat.ltb_lt in E.
  rewrite memcpy_to_ok by (autorewrite with bv_len; lia).
  rewrite take_app_length. rewrite drop_app_ge by lia. do 2 f_equal. rewrite <- (assoc_L (++)). f_equal.
  rewrite length_chars. replace (length pre + String.length s - length pre)%nat with (String.length s) by lia.
  rewrite drop_app_le by (autorewrite with bv_len; lia). f_equal. rewrite drop_replicate. done.
Qed.

Lemma browse_buff_ok name type domain :
  browse_buff name type domain = Ok (record_text name type domain ++ [NUL]).
Proof.
  unfold browse_buff.
  change (replicate N_BYTES_SERVICE_STR_TOTAL SPACE) with
    ([] ++ replicate 24 SPACE ++ (replicate 24 SPACE ++ replicate 16 SPACE)).
  rewrite (put_column_ok [] 24). cbn [mbind result_bind app].
  pose proof (put_column_ok (padded_column 24 name) 24 (replicate 16 SPACE) type) as H2.
  rewrite length_padded_column in H2. change N_BYTES_SERVNAME_MAX with 24%nat. change N_BYTES_REGTYPE_MAX with 24%nat.
  rewrite H2. cbn [mbind result_bind].
  pose proof (put_column_ok (padded_column 24 name ++ padded_column 24 type) 16 [] domain) as H3.
  rewrite !app_nil_r, length_app, !length_padded_column, <- !(assoc_L (++)) in H3.
  change N_BYTES_REPLDOMN_MAX with 16%nat. rewrite H3. cbn [mbind result_bind].
  rewrite memcpy_to_ok by (autorewrite with bv_len; done). do 2 f_equal.
  - unfold record_text. change (N_BYTES_SERVICE_STR_TOTAL - 1)%nat with 63%nat.
    rewrite !(assoc_L (++)). rewrite take_app_ge by (autorewrite with bv_len; lia).
    autorewrite with bv_len. done.
  - rewrite drop_ge by (autorewrite with bv_len; cbn; lia). done.
Qed.

Definition no_nul (s : string) : Prop := NUL ∉ chars s.

Lemma nul_padded width s : no_nul s -> NUL ∉ padded_column width s.
Proof.
  intros Hs Hin. unfold padded_column in Hin.
  assert (Hr : forall n, NUL ∉ replicate n SPACE) by (intros n Hx; by apply elem_of_replicate in Hx as [Hx _]).
  destruct (_ <? _)%nat; [apply elem_of_app in Hin as [Hin|Hin]; [done|]|]; by apply Hr in Hin.
Qed.

Lemma length_record name type domain : length (record_text name type domain) = 63%nat.
Proof. unfold record_text. by autorewrite with bv_len. Qed.

(** The element's data once the record is on the list. *)
Definition record_data (name type domain : string) : list ascii :=
  record_text name type domain ++ zeros (MAX_DATA_SIZE - 63).

Lemma record_strncpy name type domain :
  no_nul name -> no_nul type -> no_nul domain ->
  strncpy_data (record_text name type domain ++ [NUL]) = Ok (record_data name type domain).
Proof.
  intros Hn Ht Hd. unfold strncpy_data.
  rewrite take_ge by (rewrite length_app, length_record; cbn; unfold MAX_DATA_SIZE; lia).
  rewrite until_nul_app; [by rewrite length_record|]. unfold record_text.
  pose proof (nul_padded 24 name Hn). pose proof (nul_padded 24 type Ht). pose proof (nul_padded 16 domain Hd).
  rewrite !elem_of_app. intros [?|[?|Hx]]; [done|done|]. apply elem_of_take in Hx as (i & Hi & _).
  by apply list_elem_of_lookup_2 in Hi.
Qed.

Lemma filter_replicate (c : ascii) n : filter (fun d => d <> c) (replicate n c) = [].
Proof. induction n as [|n IH]; [done|]. cbn [replicate]. by rewrite filter_cons_False by tauto. Qed.

Lemma filter_nul (l : list ascii) : NUL ∉ l -> filter (fun c => c <> NUL) l = l.
Proof.
  induction l as [|c l IH]; intros Hn; [done|].
  rewrite filter_cons_True by set_solver. by rewrite IH by set_solver.
Qed.

Lemma shown_padded width s :
  no_nul s -> str (filter (fun c => c <> NUL) (filter (fun c => c <> SPACE) (padded_column width s))) = shown_column width s.
Proof.
  intros Hs. unfold shown_column, padded_column. destruct (_ <? _)%nat.
  - rewrite !filter_app, !filter_replicate, app_nil_r. f_equal. apply filter_nul.
    intros Hin. by apply list_elem_of_filter in Hin as [_ Hin].
  - by rewrite filter_replicate.
Qed.

Lemma column_at pre s width post off :
  off = length pre -> no_nul s -> column (pre ++ padded_column width s ++ post) off width = Ok (shown_column width s).
Proof.
  intros -> Hs. unfold column. rewrite load_ok by (autorewrite with bv_len; lia).
  rewrite drop_app_length, take_app_length' by (by rewrite length_padded_column). cbn [mbind result_bind].
  by rewrite shown_padded.
Qed.

(** The last column ends with the terminator. *)
Lemma column_last pre s post :
  no_nul s -> column (pre ++ take 15 (padded_column 16 s) ++ NUL :: post) (length pre) 16 = Ok (shown_column 16 s).
Proof.
  intros Hs. unfold column. rewrite load_ok by (rewrite !length_app, length_take, length_padded_column; cbn; lia).
  rewrite drop_app_length. cbn [mbind result_bind]. f_equal.
  assert (Hc : exists c, padded_column 16 s = take 15 (padded_column 16 s) ++ [c] /\ c = SPACE).
  { unfold padded_column. destruct (_ <? _)%nat eqn:E; [|by exists SPACE]. apply Nat.ltb_lt in E. exists SPACE.
    split; [|done]. replace (16 - String.length s)%nat with (15 - String.length s + 1)%nat by lia.
    rewrite replicate_add, (assoc_L (++)). f_equal. symmetry. apply take_app_length'. autorewrite with bv_len. lia. }
  destruct Hc as (c & Hp & ->). rewrite <- (shown_padded 16 s Hs). set (t := take 15 (padded_column 16 s)) in *.
  assert (Ht : length t = 15%nat) by (unfold t; by rewrite length_take, length_padded_column). rewrite Hp.
  change (t ++ NUL :: post) with (t ++ [NUL] ++ post). rewrite (assoc_L (++)), take_app_length' by (rewrite length_app, Ht; done).
  by rewrite !filter_app.
Qed.

(** What was put on the list is what the application sees. *)
Lemma browse_instance_record name type domain :
  no_nul name -> no_nul type -> no_nul domain ->
  browse_instance (record_data name type domain) = Ok (shown_instance name type domain).
Proof.
  intros Hn Ht Hd. unfold browse_instance, record_data, record_text.
  change (MAX_DATA_SIZE - 63)%nat with (S 192). change (zeros (S 192)) with (NUL :: zeros 192).
  change N_BYTES_SERVNAME_MAX with 24%nat. change N_BYTES_REGTYPE_MAX with 24%nat. change N_BYTES_REPLDOMN_MAX with 16%nat.
  rewrite <- !(assoc_L (++)). rewrite (column_at (padded_column 24 name) type 24 _ 24); [|symmetry; apply length_padded_column|done].
  cbn [mbind result_bind]. rewrite (assoc_L (++)).
  pose proof (column_last (padded_column 24 name ++ padded_column 24 type) domain (zeros 192) Hd) as Hc.
  rewrite length_app, !length_padded_column in Hc. rewrite Hc. cbn [mbind result_bind]. rewrite <- (assoc_L (++)).
  match goal with |- context [column (padded_column 24 name ++ ?r) 0 24] =>
    change (padded_column 24 name ++ r) with ([] ++ padded_column 24 name ++ r) end.
  by rewrite (column_at [] name 24 _ 0).
Qed.

Lemma filter_length_id (l : list ascii) : filter (fun c => c <> SPACE) l = l <-> SPACE ∉ l.
Proof.
  split.
  - intros Hf Hin. rewrite <- Hf in Hin. by apply list_elem_of_filter in Hin as [Hx _].
  - induction l as [|c l IH]; intros Hn; [done|]. rewrite filter_cons_True by set_solver.
    by rewrite IH by set_solver.
Qed.

Lemma shown_column_id width s :
  shown_column width s = s <-> s = EmptyString \/ ((String.length s < width)%nat /\ SPACE ∉ chars s).
Proof.
  unfold shown_column. destruct (_ <? _)%nat eqn:E.
  - apply Nat.ltb_lt in E. rewrite <- filter_length_id. split.
    + intros Hs. right. split; [done|]. rewrite <- Hs at 2. by rewrite chars_str.
    + intros [->|[_ Hf]]; [done|]. by rewrite Hf, str_chars.
  - apply Nat.ltb_ge in E. split; [by left|]. intros [->|[? _]]; [done|lia].
Qed.

(** ** The list of a discovery *)

Definition record_of (x : string * string * string) : list ascii := record_data x.1.1 x.1.2 x.2.
Definition text_ok (x : string * string * string) : Prop := no_nul x.1.1 /\ no_nul x.1.2 /\ no_nul x.2.

(** The heap holds exactly the records of these services, in this order. *)
Definition discovered (d : BVDiscovery) (services : list (string * string * string)) : Prop :=
  Forall text_ok services /\
  exists refs, length refs = length services /\ dom (d_heap d) = list_to_set refs /\
    holds_list (d_heap d) (c_ll_p d) (zip refs (record_of <$> services)).

(** Everything but the list. *)
Definition same_discovery (d d' : BVDiscovery) : Prop :=
  d_status d' = d_status d /\ isBrowsingActive d' = isBrowsingActive d /\ hostData d' = hostData d.

Lemma fst_zip_records (refs : list nat) (l : list (string * string * string)) :
  length refs = length l -> (zip refs (record_of <$> l)).*1 = refs.
Proof. intros Hl. apply fst_zip. by rewrite length_fmap, Hl. Qed.

Lemma list_fuel_ok d services refs :
  length refs = length services -> dom (d_heap d) = list_to_set refs ->
  holds_list (d_heap d) (c_ll_p d) (zip refs (record_of <$> services)) ->
  (length (zip refs (record_of <$> services)) < list_fuel (d_heap d))%nat.
Proof.
  intros Hl Hd [_ Hnd]. rewrite fst_zip_records in Hnd by done. unfold list_fuel.
  rewrite <- size_dom, Hd, size_list_to_set by done. rewrite length_zip_with, length_fmap. lia.
Qed.

Lemma discovered_make data : discovered (BVDiscovery_make data) [].
Proof. split; [constructor|]. exists []. split; [done|]. split; [apply dom_empty_L|]. split; [done|constructor]. Qed.

Lemma add_record_ok d l name type domain :
  discovered d l -> text_ok (name, type, domain) ->
  exists d', add_record d name type domain = Ok d' /\ discovered d' (l ++ [(name, type, domain)]) /\
    same_discovery d d' /\ GetDidServiceRegister d' = GetDidServiceRegister d.
Proof.
  intros [Ht (refs & Hl & Hd & Hh)] Hx. pose proof Hx as (Hn & Hty & Hdm). unfold add_record.
  rewrite browse_buff_ok. cbn [mbind result_bind].
  destruct (alloc_ok (d_heap d) (Some (record_text name type domain ++ [NUL])) None (record_data name type domain))
    as (h1 & r & Hc & Hr & Hr1 & Ho); [by apply record_strncpy|].
  rewrite Hc. cbn [mbind result_bind]. pose proof (fst_zip_records refs l Hl) as Hz.
  assert (Hrn : r ∉ refs).
  { intros Hin. apply (not_elem_of_dom_2 (d_heap d) r Hr). rewrite Hd. by apply elem_of_list_to_set. }
  assert (Hd1 : dom h1 = list_to_set (refs ++ [r])).
  { apply set_eq. intros r'. rewrite elem_of_list_to_set, elem_of_app, list_elem_of_singleton, elem_of_dom.
    destruct (decide (r' = r)) as [->|Hne]; [rewrite Hr1; naive_solver|].
    rewrite Ho by done. rewrite <- elem_of_dom, Hd, elem_of_list_to_set. naive_solver. }
  assert (Hsz : (length (zip refs (record_of <$> l)) < list_fuel h1)%nat).
  { unfold list_fuel. rewrite <- size_dom, Hd1, size_list_to_set.
    - rewrite length_zip_with, length_fmap, length_app. cbn. lia.
    - destruct Hh as [_ Hnd]. rewrite Hz in Hnd. apply NoDup_app. split; [done|]. split; [set_solver|apply NoDup_singleton]. }
  destruct (AddElement_ok h1 (c_ll_p d) (zip refs (record_of <$> l)) r (record_data name type domain) (list_fuel h1))
    as (h2 & ll2 & Ha & Hl2 & Hdom & Hreg); [|done|by rewrite Hz|done|].
  { destruct Hh as [Hs Hnd]. split; [|done]. eapply seg_ext; [|exact Hs]. intros r' Hr'. apply Ho. intros ->. by rewrite Hz in Hr'. }
  rewrite Ha. cbn [finished mbind result_bind from_option_err]. eexists. split; [reflexivity|].
  split; [|split; [done|exact Hreg]]. split; [by apply Forall_app; split; [|apply Forall_singleton]|].
  exists (refs ++ [r]). rewrite !length_app, Hl. split; [done|]. split; [cbn [set_list d_heap]; congruence|].
  rewrite fmap_app, zip_with_app by by rewrite length_fmap. exact Hl2.
Qed.

Lemma return_loop_ok h : forall l refs p fuel,
  Forall text_ok l -> length refs = length l -> seg h p (zip refs (record_of <$> l)) None -> (length l < fuel)%nat ->
  ReturnListFromBrowseResults_loop fuel h p = Ok (Some ((fun x => shown_instance x.1.1 x.1.2 x.2) <$> l)).
Proof.
  induction l as [|x l IH]; intros [|r refs] p [|fuel] Ht Hl Hs Hf; try (cbn in *; lia).
  - cbn in Hs. by subst p.
  - apply Forall_cons in Ht as [(Hn & Hty & Hd) Ht]. cbn [fmap list_fmap] in Hs. change (zip (r :: refs) (record_of x :: (record_of <$> l)))
      with ((r, record_of x) :: zip refs (record_of <$> l)) in Hs.
    destruct (follow_seg _ _ _ _ _ _ Hs) as (e & He & _ & Hde & Hs'). destruct Hs as [-> _].
    cbn [ReturnListFromBrowseResults_loop]. rewrite He. cbn [mbind result_bind]. rewrite Hde. unfold record_of.
    rewrite browse_instance_record by done. cbn [mbind result_bind].
    rewrite (IH refs (next_p e) fuel) by (cbn in *; done || lia). done.
Qed.

Lemma return_list_ok d l :
  discovered d l -> ReturnListFromBrowseResults d = Ok ((fun x => shown_instance x.1.1 x.1.2 x.2) <$> l).
Proof.
  intros [Ht (refs & Hl & Hd & Hh)]. unfold ReturnListFromBrowseResults.
  pose proof (list_fuel_ok d l refs Hl Hd Hh) as Hf. rewrite length_zip_with, length_fmap in Hf.
  by rewrite (return_loop_ok (d_heap d) l refs) by (done || apply Hh || lia).
Qed.

Lemma clear_list_ok d l :
  discovered d l -> exists d', clear_list d = Ok d' /\ discovered d' [] /\ same_discovery d d' /\
    GetDidServiceRegister d' = 0 /\ d_heap d' = ∅.
Proof.
  intros [Ht (refs & Hl & Hd & Hh)]. unfold clear_list.
  destruct (ClearList_ok _ _ _ _ Hh (list_fuel_ok d l refs Hl Hd Hh)) as (h' & Hc & Hin & Hout).
  rewrite fst_zip_records in Hin, Hout by done. rewrite Hc. cbn [finished mbind result_bind from_option_err].
  assert (Hempty : h' = ∅).
  { apply map_empty. intros r. destruct (decide (r ∈ refs)) as [Hr|Hr]; [by apply Hin|]. rewrite Hout by done.
    apply not_elem_of_dom. rewrite Hd. by rewrite elem_of_list_to_set. }
  subst h'. eexists. split; [reflexivity|]. split; [|done]. split; [constructor|]. exists [].
  split; [done|]. split; [apply dom_empty_L|]. split; [done|constructor].
Qed.

(** ** Properties *)

(** C30.  What is announced and what the application gets to see: a service
    put on the list comes out as announced exactly when each of its texts fits
    its column (23, 23 and 15 characters) and has no space; a longer text comes
    out empty and spaces are dropped. *)
Theorem browse_record_roundtrip d name type domain :
  discovered d [] -> text_ok (name, type, domain) ->
  exists d', add_record d name type domain = Ok d' /\
    ReturnListFromBrowseResults d' = Ok [shown_instance name type domain] /\
    (shown_instance name type domain =
       {| bi_serviceName := name; bi_regType := type; bi_replyDomain := domain |} <->
     Forall (fun x => x.1 = EmptyString \/ ((String.length x.1 < x.2)%nat /\ SPACE ∉ chars x.1))
       [(name, 24%nat); (type, 24%nat); (domain, 16%nat)]).
Proof.
  intros Hd Ht. destruct (add_record_ok d [] name type domain Hd Ht) as (d' & Ha & Hd' & _).
  exists d'. split; [exact Ha|]. split; [by rewrite (return_list_ok _ _ Hd')|].
  rewrite !Forall_cons, Forall_nil. cbn [fst snd]. unfold shown_instance.
  rewrite <- (shown_column_id 24 name), <- (shown_column_id 24 type), <- (shown_column_id 16 domain).
  change N_BYTES_SERVNAME_MAX with 24%nat. change N_BYTES_REGTYPE_MAX with 24%nat. change N_BYTES_REPLDOMN_MAX with 16%nat.
  split; [by intros [= -> -> ->]|by intros (-> & -> & -> & _)].
Qed.

(** ** Concrete instance *)

Section DiscoveryWitnesses.

Definition ex_discovery : BVDiscovery := BVDiscovery_make (BVService_host_data "ann" "local." PORT).

Lemma ex_service_text_ok name : bool_decide (NUL ∉ chars name) = true -> text_ok (name, SERVICETYPE_STR, "local."%string).
Proof. intros Hn. apply bool_decide_eq_true in Hn. split; [exact Hn|]. split; apply (bool_decide_unpack _); vm_compute; exact I. Qed.

Lemma browse_record_roundtrip_witness :
  exists d', add_record ex_discovery "bob" SERVICETYPE_STR "local." = Ok d' /\
    ReturnListFromBrowseResults d' = Ok [BrowseInstance "bob" SERVICETYPE_STR "local."].
Proof.
  destruct (browse_record_roundtrip ex_discovery "bob" SERVICETYPE_STR "local.") as (d' & Ha & Hr & _).
  - apply discovered_make.
  - by apply ex_service_text_ok.
  - exists d'. split; [exact Ha|exact Hr].
Defined.

End DiscoveryWitnesses.
