(* ===== verification/Bonjour.v ===== *)
(** * Discovery with Bonjour ([src/BVDiscovery_Bonjour.cpp],
    [src/bonjour_api.c])

    The DNS-SD library and the descriptor's readiness come from outside: what
    [DNSServiceProcessResult] reports is an argument of the handler that calls
    it.  A pending operation of the io_context is [Pending] until it has
    completed, [Ready] until its handler has run; [cancel] reaches only the
    pending ones, whose handlers then do nothing. *)

From Stdlib Require Import ZArith Lia Ascii String.
From S2P Require Import Prelude TSQueue Common Broker Component LinkedList Discovery.

Definition kDNSServiceErr_NoError : Z := 0.
Definition kDNSServiceFlagsAdd : Z := 2.

Inductive operation : Type := Pending | Ready.
#[export] Instance operation_eq_dec : EqDecision operation.
Proof. solve_decision. Defined.

Definition cancel (l : list operation) : list operation := filter (fun o => o = Ready) l.

(** [struct ResolveCallbackContext]; [discovery_p] is this object. *)
Record ResolveCallbackContext : Type := MkResolveContext {
  rc_serviceName : list ascii;   (* char[N_BYTES_SERVNAME_MAX] *)
  rc_regType : list ascii;       (* char[N_BYTES_REGTYPE_MAX] *)
  rc_replyDomain : list ascii    (* char[N_BYTES_REPLDOMN_MAX] *)
}.

Record BVDiscovery_Bonjour : Type := MkBonjour {
  b_disc : BVDiscovery;
  b_base : BVComponent;
  dnsRef : bool;                           (* not null *)
  browseFD : list operation;               (* waits on the descriptor *)
  fd_open : bool;                          (* the descriptor has been assigned; nothing closes it *)
  pauseTimer : list operation;
  ioContext_stopped : bool;
  resolving : list ResolveCallbackContext; (* waits on resolve descriptors *)
  replyError : bool                        (* the global of the C callbacks *)
}.

Definition b_set (b : BVDiscovery_Bonjour) (d : BVDiscovery) : BVDiscovery_Bonjour :=
  MkBonjour d (b_base b) (dnsRef b) (browseFD b) (fd_open b) (pauseTimer b) (ioContext_stopped b) (resolving b) (replyError b).
Definition b_fd (b : BVDiscovery_Bonjour) (w : list operation) : BVDiscovery_Bonjour :=
  MkBonjour (b_disc b) (b_base b) (dnsRef b) w (fd_open b) (pauseTimer b) (ioContext_stopped b) (resolving b) (replyError b).
Definition b_timer (b : BVDiscovery_Bonjour) (w : list operation) : BVDiscovery_Bonjour :=
  MkBonjour (b_disc b) (b_base b) (dnsRef b) (browseFD b) (fd_open b) w (ioContext_stopped b) (resolving b) (replyError b).
Definition b_ref (b : BVDiscovery_Bonjour) (r : bool) : BVDiscovery_Bonjour :=
  MkBonjour (b_disc b) (b_base b) r (browseFD b) (fd_open b) (pauseTimer b) (ioContext_stopped b) (resolving b) (replyError b).
Definition b_resolving (b : BVDiscovery_Bonjour) (l : list ResolveCallbackContext) : BVDiscovery_Bonjour :=
  MkBonjour (b_disc b) (b_base b) (dnsRef b) (browseFD b) (fd_open b) (pauseTimer b) (ioContext_stopped b) l (replyError b).
Definition b_stop (b : BVDiscovery_Bonjour) : BVDiscovery_Bonjour :=
  MkBonjour (b_disc b) (b_base b) (dnsRef b) (browseFD b) (fd_open b) (pauseTimer b) true (resolving b) (replyError b).
Definition b_error (b : BVDiscovery_Bonjour) : BVDiscovery_Bonjour :=
  MkBonjour (b_disc b) (b_base b) (dnsRef b) (browseFD b) (fd_open b) (pauseTimer b) (ioContext_stopped b) (resolving b) true.

Definition b_assigned (b : BVDiscovery_Bonjour) : BVDiscovery_Bonjour :=
  MkBonjour (b_disc b) (b_base b) (dnsRef b) (browseFD b) true (pauseTimer b) (ioContext_stopped b) (resolving b) (replyError b).

Definition b_active (b : BVDiscovery_Bonjour) (f : bool) : BVDiscovery_Bonjour :=
  b_set b (SetIsBrowsingActive (b_disc b) f).
Definition browsing (b : BVDiscovery_Bonjour) : bool := isBrowsingActive (b_disc b).

(** ** The daemon's callbacks *)

(** One call of the browse callback. *)
Record browse_reply : Type := MkReply {
  br_flags : Z;
  br_errorCode : Z;
  br_serviceName : string;
  br_regtype : string;
  br_replyDomain : string
}.

(** The texts of a reply are C strings. *)
Definition reply_ok (r : browse_reply) : Prop :=
  text_ok (br_serviceName r, br_regtype r, br_replyDomain r).

Definition C_ServiceBrowseReply (r : browse_reply) (d : BVDiscovery) : result BVDiscovery :=
  if br_errorCode r =? kDNSServiceErr_NoError then
    let didReg := if Z.land (br_flags r) kDNSServiceFlagsAdd =? 0 then 0 else 1 in
    let d := set_list d (d_heap d) (MkList (head_p (c_ll_p d)) didReg) in
    add_record d (br_serviceName r) (br_regtype r) (br_replyDomain r)
  else Ok d.

(** [DNSServiceProcessResult]: the callback for each waiting reply. *)
Fixpoint process_replies (l : list browse_reply) (d : BVDiscovery) : result BVDiscovery :=
  match l with
  | [] => Ok d
  | r :: l => let! d := C_ServiceBrowseReply r d in process_replies l d
  end.

(** One call of the resolve callback; a null pointer is [None]. *)
Record resolve_reply : Type := MkResolveReply {
  rr_errorCode : Z;
  rr_fullname : option string;
  rr_hosttarget : option string;
  rr_port : Z;              (* uint16_t, network byte order *)
  rr_txtLen : Z;            (* uint16_t *)
  rr_txtRecord : option (list ascii)
}.

(** A field of the zeroed result: at most [n - 1] characters and a NUL. *)
Definition bounded_field (n : nat) (s : list ascii) : result (list ascii) :=
  let len := if (n <=? length s)%nat then (n - 1)%nat else length s in
  let! field := memcpy_to (zeros n) 0 (take len s) in memcpy_to field len [NUL].

Definition option_field (n : nat) (s : option string) : result (list ascii) :=
  match s with Some s => bounded_field n (chars s) | None => Ok (zeros n) end.

(** [strlen] on a field of the context, then the bounded copy. *)
Definition context_field (n : nat) (field : list ascii) : result (list ascii) :=
  let! s := from_option_err OutOfBounds (until_nul field) in bounded_field n s.

Definition MAX_DNS_RESOLUTION_FIELD_SIZE : nat := 256.

(** At most 256 bytes of the TXT record. *)
Definition txt_field (r : resolve_reply) : result (list ascii) :=
  match rr_txtRecord r with
  | Some txt =>
      if 0 <? rr_txtLen r then
        let copy_len := Nat.min (Z.to_nat (rr_txtLen r)) MAX_DNS_RESOLUTION_FIELD_SIZE in
        let! src := load txt 0 copy_len in memcpy_to (zeros MAX_DNS_RESOLUTION_FIELD_SIZE) 0 src
      else Ok (zeros MAX_DNS_RESOLUTION_FIELD_SIZE)
  | None => Ok (zeros MAX_DNS_RESOLUTION_FIELD_SIZE)
  end.

Definition resolution_of (r : resolve_reply) (ctx : ResolveCallbackContext) : result DNSResolutionResult :=
  let! fullname := option_field MAX_DNS_RESOLUTION_FIELD_SIZE (rr_fullname r) in
  let! hosttarget := option_field MAX_DNS_RESOLUTION_FIELD_SIZE (rr_hosttarget r) in
  let! serviceName := context_field N_BYTES_SERVNAME_MAX (rc_serviceName ctx) in
  let! regType := context_field N_BYTES_REGTYPE_MAX (rc_regType ctx) in
  let! replyDomain := context_field N_BYTES_REPLDOMN_MAX (rc_replyDomain ctx) in
  let! txtRecord := txt_field r in
  Ok {| res_fullname := fullname; res_hosttarget := hosttarget; res_port := ntohs (rr_port r);
        res_txtLen := rr_txtLen r; res_txtRecord := txtRecord; res_serviceName := serviceName;
        res_regType := regType; res_replyDomain := replyDomain |}.

Section Bonjour.
Context {Q : Type -> Type} `{FifoQueue Q}.

(** [SendMessage] *)
Definition b_SendMessage (b : BVDiscovery_Bonjour) (msg : BVMessage) (m : mail Q) : result (mail Q) :=
  push_msg m (outMailBox_p (b_base b)) msg.

(** [C_ResolveReply] and [SendServiceResolvedMessageToApp]. *)
Definition C_ResolveReply (r : resolve_reply) (ctx : ResolveCallbackContext) (b : BVDiscovery_Bonjour) (m : mail Q)
    : result (BVDiscovery_Bonjour * mail Q) :=
  if negb (rr_errorCode r =? kDNSServiceErr_NoError) then Ok (b_error b, m)
  else
    let! res := resolution_of r ctx in
    let! m := b_SendMessage b (MkBVMessage BVEVENTTYPE_APP_DISCOVERY_SERVICE_RESOLVED (Some (any_Resolution res))) m in
    Ok (b, m).

(** ** The object *)

Definition AwaitFDForProcessingBrowseResult (b : BVDiscovery_Bonjour) : BVDiscovery_Bonjour :=
  if (negb (browsing b) || negb (dnsRef b))%bool then b else b_fd b (browseFD b ++ [Pending]).

Definition OnStart (b : BVDiscovery_Bonjour) : BVStatus * BVDiscovery_Bonjour := (BVSTATUS_OK, b).

Definition OnPause (b : BVDiscovery_Bonjour) : BVStatus * BVDiscovery_Bonjour :=
  if negb (browsing b) then (BVSTATUS_OK, b)
  else
    let b := b_active b false in
    let b := b_fd b (cancel (browseFD b)) in
    let b := b_timer b (cancel (pauseTimer b)) in
    (BVSTATUS_OK, b_timer b (pauseTimer b ++ [Pending])).

Definition OnResume (b : BVDiscovery_Bonjour) : BVStatus * BVDiscovery_Bonjour :=
  let b := b_timer b (cancel (pauseTimer b)) in
  let b := b_active b true in
  (BVSTATUS_OK, AwaitFDForProcessingBrowseResult b).

Definition OnRestart (b : BVDiscovery_Bonjour) : BVStatus * BVDiscovery_Bonjour := (BVSTATUS_OK, b).

(** [browseFD.cancel ()] throws a [boost::system::system_error], a
    [std::runtime_error], when no descriptor has been assigned. *)
Definition OnShutdown (b : BVDiscovery_Bonjour) : result (BVStatus * BVDiscovery_Bonjour) :=
  let b := b_active b false in
  if negb (fd_open b) then Err Std_runtime_error
  else
    let b := b_fd b (cancel (browseFD b)) in
    let b := b_timer b (cancel (pauseTimer b)) in
    Ok (BVSTATUS_OK, b_stop b).

(** [DNSServiceBrowse] answers with [error] and, without one, a reference;
    [Setup] then overwrites the status. *)
Definition CreateConnectionContext (error : Z) (b : BVDiscovery_Bonjour) : BVDiscovery_Bonjour :=
  if negb (error =? kDNSServiceErr_NoError) then b_set b (SetStatus (b_disc b) BVSTATUS_FATAL_ERROR)
  else b_ref b true.

Definition Setup (error : Z) (b : BVDiscovery_Bonjour) : BVDiscovery_Bonjour :=
  let b := CreateConnectionContext error b in b_set b (SetStatus (b_disc b) BVSTATUS_OK).

Definition BVDiscovery_Bonjour_make (_hostData : BVServiceData) (base : BVComponent) (error : Z)
    : BVDiscovery_Bonjour :=
  Setup error (MkBonjour (BVDiscovery_make _hostData) base false [] false [] false [] false).

(** [Browse]: the worker thread. *)
Definition Browse (fd : Z) (ec : bool) (b : BVDiscovery_Bonjour) : BVDiscovery_Bonjour :=
  if fd <? 0 then b_ref b false
  else if ec then b_ref b false
  else AwaitFDForProcessingBrowseResult (b_active (b_assigned b) true).

(** [ProcessDNSServiceBrowseResult]: the daemon reports [replies] and [error]. *)
Definition ProcessDNSServiceBrowseResult (replies : list browse_reply) (error : Z)
    (b : BVDiscovery_Bonjour) (m : mail Q) : result (BVStatus * BVDiscovery_Bonjour * mail Q) :=
  if (negb (browsing b) || negb (dnsRef b))%bool then Ok (BVSTATUS_OK, b, m)
  else
    let! d := process_replies replies (b_disc b) in
    let b := b_set b d in
    if negb (error =? kDNSServiceErr_NoError) then Ok (BVSTATUS_NOK, b_active b false, m)
    else
      let! browseInstanceList := ReturnListFromBrowseResults (b_disc b) in
      let! m :=
        (if GetDidServiceRegister (b_disc b) =? 1 then
           b_SendMessage b (MkBVMessage BVEVENTTYPE_APP_PUBLISHED_SERVICE (Some (any_BrowseList browseInstanceList))) m
         else if GetDidServiceRegister (b_disc b) =? 0 then
           b_SendMessage b (MkBVMessage BVEVENTTYPE_APP_DEREGISTERED_SERVICE (Some (any_BrowseList browseInstanceList))) m
         else Ok m) in
      let! d := clear_list (b_disc b) in
      Ok (BVSTATUS_OK, AwaitFDForProcessingBrowseResult (b_set b d), m).

(** The handler of the wait; an error other than [operation_aborted]. *)
Definition browse_handler (e : bool) (replies : list browse_reply) (error : Z)
    (b : BVDiscovery_Bonjour) (m : mail Q) : result (BVDiscovery_Bonjour * mail Q) :=
  if e then Ok (b_active b false, m)
  else let! '(_, b, m) := ProcessDNSServiceBrowseResult replies error b m in Ok (b, m).

(** What the library and the operating system answer to a resolve request:
    the error, the descriptor, the error of [assign], and what lies in memory
    behind a name. *)
Record resolve_answer : Type := MkAnswer {
  ra_error : Z;
  ra_fd : Z;
  ra_ec : bool;
  ra_behind : list ascii
}.

(** [memcpy (field, s.c_str (), n)]: reads on behind a shorter name. *)
Definition name_field (n : nat) (s : string) (behind : list ascii) : list ascii :=
  take n (chars s ++ [NUL] ++ behind).

Definition CreateResolveContext (a : resolve_answer) (bI : BVServiceBrowseInstance) (b : BVDiscovery_Bonjour)
    : option ResolveCallbackContext * BVDiscovery_Bonjour :=
  let ctx := MkResolveContext (name_field N_BYTES_SERVNAME_MAX (bi_serviceName bI) (ra_behind a))
               (name_field N_BYTES_REGTYPE_MAX (bi_regType bI) (ra_behind a))
               (name_field N_BYTES_REPLDOMN_MAX (bi_replyDomain bI) (ra_behind a)) in
  if negb (ra_error a =? kDNSServiceErr_NoError) then (None, b_set b (SetStatus (b_disc b) BVSTATUS_FATAL_ERROR))
  else (Some ctx, b).

(** When the descriptor cannot be assigned it is the browse reference that is
    deallocated. *)
Definition ResolveService (a : resolve_answer) (bI : BVServiceBrowseInstance) (b : BVDiscovery_Bonjour)
    : result (BVStatus * BVDiscovery_Bonjour) :=
  match CreateResolveContext a bI b with
  | (None, b) => Ok (BVSTATUS_FATAL_ERROR, b)
  | (Some ctx, b) =>
      if ra_fd a <? 0 then Ok (BVSTATUS_FATAL_ERROR, b)
      else if ra_ec a then Ok (BVSTATUS_FATAL_ERROR, b_ref b false)
      else Ok (BVSTATUS_OK, b_resolving b (resolving b ++ [ctx]))
  end.

(** [DNSServiceProcessResult] on a resolve reference. *)
Fixpoint resolve_replies (l : list resolve_reply) (ctx : ResolveCallbackContext)
    (b : BVDiscovery_Bonjour) (m : mail Q) : result (BVDiscovery_Bonjour * mail Q) :=
  match l with
  | [] => Ok (b, m)
  | r :: l => let! '(b, m) := C_ResolveReply r ctx b m in resolve_replies l ctx b m
  end.

(** The handler of the wait on a resolve descriptor. *)
Definition resolve_handler (r : list resolve_reply) (error : Z) (ctx : ResolveCallbackContext)
    (b : BVDiscovery_Bonjour) (m : mail Q) : result (BVDiscovery_Bonjour * mail Q) :=
  let! '(b, m) := resolve_replies r ctx b m in
  if negb (error =? kDNSServiceErr_NoError) then Ok (b_active b false, m) else Ok (b, m).

(** The constructor's registrations. *)
Definition simple_handler (f : BVDiscovery_Bonjour -> BVStatus * BVDiscovery_Bonjour)
    : MessageHandler Q BVDiscovery_Bonjour := fun _ b m => let '(st, b) := f b in Ok (st, b, m).
Definition shutdown_handler : MessageHandler Q BVDiscovery_Bonjour :=
  fun _ b m => let! '(st, b) := OnShutdown b in Ok (st, b, m).
Definition resolve_request (a : resolve_answer) : MessageHandler Q BVDiscovery_Bonjour :=
  fun data b m => let! '(st, b) := OnResolveRequest (ResolveService a) data b in Ok (st, b, m).

Definition bonjour_component (a : resolve_answer) (base : BVComponent) : Component Q BVDiscovery_Bonjour :=
  let c := Component_make (outMailBox_p base) (inMailBox_p base) (comp_id base) in
  let c := RegisterCallback c BVEVENTTYPE_DISCOVERY_REQUEST_START (simple_handler OnStart) in
  let c := RegisterCallback c BVEVENTTYPE_DISCOVERY_REQUEST_PAUSE (simple_handler OnPause) in
  let c := RegisterCallback c BVEVENTTYPE_DISCOVERY_REQUEST_RESUME (simple_handler OnResume) in
  let c := RegisterCallback c BVEVENTTYPE_TERMINATE_ALL shutdown_handler in
  let c := RegisterCallback c BVEVENTTYPE_DISCOVERY_REQUEST_SHUTDOWN shutdown_handler in
  let c := RegisterCallback c BVEVENTTYPE_DISCOVERY_REQUEST_RESTART (simple_handler OnRestart) in
  RegisterCallback c BVEVENTTYPE_DISCOVERY_REQUEST_RESOLVE (resolve_request a).

(** ** The object over time *)

(** A message, the worker thread's start, or what the io_context does. *)
Inductive bonjour_step : BVDiscovery_Bonjour -> BVDiscovery_Bonjour -> Prop :=
  | bs_message a ev h data st b b' m m' :
      callback_m (bonjour_component a (b_base b)) !! ev = Some h -> h data b m = Ok (st, b', m') -> bonjour_step b b'
  | bs_browse fd ec b : bonjour_step b (Browse fd ec b)
  | bs_ready b l1 l2 : browseFD b = l1 ++ Pending :: l2 -> bonjour_step b (b_fd b (l1 ++ Ready :: l2))
  | bs_wait b l1 l2 e replies error m b' m' :
      Forall reply_ok replies ->
      browseFD b = l1 ++ Ready :: l2 -> browse_handler e replies error (b_fd b (l1 ++ l2)) m = Ok (b', m') ->
      bonjour_step b b'
  | bs_expired b l1 l2 : pauseTimer b = l1 ++ Pending :: l2 -> bonjour_step b (b_timer b (l1 ++ Ready :: l2))
  | bs_timer b l1 l2 : pauseTimer b = l1 ++ Ready :: l2 -> bonjour_step b (OnResume (b_timer b (l1 ++ l2))).2
  | bs_resolved b l1 ctx l2 r error m b' m' :
      resolving b = l1 ++ ctx :: l2 -> resolve_handler r error ctx (b_resolving b (l1 ++ l2)) m = Ok (b', m') ->
      bonjour_step b b'.

End Bonjour.

(** ** What a batch of replies leaves *)

Definition reported (r : browse_reply) : bool := br_errorCode r =? kDNSServiceErr_NoError.
Definition reply_triple (r : browse_reply) : string * string * string :=
  (br_serviceName r, br_regtype r, br_replyDomain r).
Definition is_add (r : browse_reply) : bool := negb (Z.land (br_flags r) kDNSServiceFlagsAdd =? 0).

(** The flag a batch leaves: that of its last reply. *)
Definition batch_flag (l : list browse_reply) (old : Z) : Z :=
  match last (filter (fun r => reported r = true) l) with
  | Some r => if is_add r then 1 else 0
  | None => old
  end.

Lemma C_ServiceBrowseReply_ok r d l :
  discovered d l -> reply_ok r ->
  exists d', C_ServiceBrowseReply r d = Ok d' /\
    discovered d' (l ++ if reported r then [reply_triple r] else []) /\ same_discovery d d' /\
    GetDidServiceRegister d' = (if reported r then if is_add r then 1 else 0 else GetDidServiceRegister d).
Proof.
  intros Hd Hr. unfold C_ServiceBrowseReply, reported. destruct (_ =? _).
  - set (d0 := set_list _ _ _).
    assert (Hd0 : discovered d0 l).
    { destruct Hd as (Ht & refs & Hl & Hdm & [Hs Hnd]). split; [done|]. exists refs. split; [done|]. split; [done|]. by split. }
    destruct (add_record_ok d0 l (br_serviceName r) (br_regtype r) (br_replyDomain r) Hd0 Hr)
      as (d' & Ha & Hd' & Hs & Hg).
    exists d'. split; [exact Ha|]. split; [exact Hd'|]. split; [exact Hs|]. rewrite Hg. unfold is_add.
    cbn. by destruct (Z.land _ _ =? 0).
  - exists d. rewrite app_nil_r. done.
Qed.

Lemma batch_flag_cons r l old :
  batch_flag (r :: l) old = batch_flag l (if reported r then if is_add r then 1 else 0 else old).
Proof.
  unfold batch_flag. rewrite filter_cons. destruct (decide (reported r = true)) as [E|E].
  - rewrite E. destruct (filter _ l) as [|x t]; [done|]. rewrite last_cons_cons.
    destruct (last (x :: t)) eqn:Hx; [done|by apply last_None in Hx].
  - apply not_true_is_false in E. by rewrite E.
Qed.

Lemma process_replies_ok replies : forall d l,
  discovered d l -> Forall reply_ok replies ->
  exists d', process_replies replies d = Ok d' /\
    discovered d' (l ++ (reply_triple <$> filter (fun r => reported r = true) replies)) /\ same_discovery d d' /\
    GetDidServiceRegister d' = batch_flag replies (GetDidServiceRegister d).
Proof.
  induction replies as [|r replies IH]; intros d l Hd Hr; cbn [process_replies].
  - exists d. rewrite app_nil_r. done.
  - apply Forall_cons in Hr as [Hr Hrs].
    destruct (C_ServiceBrowseReply_ok r d l Hd Hr) as (d1 & H1 & Hd1 & (Ha1 & Hb1 & Hc1) & Hg1).
    destruct (IH d1 _ Hd1 Hrs) as (d2 & H2 & Hd2 & (Ha2 & Hb2 & Hc2) & Hg2).
    exists d2. rewrite H1. cbn [mbind result_bind]. split; [exact H2|].
    split; [|split; [split; [congruence|split; congruence]|]].
    + rewrite <- (assoc_L (++)) in Hd2. rewrite filter_cons.
      destruct (reported r) eqn:E; [by rewrite decide_True|rewrite decide_False by done; exact Hd2].
    + by rewrite Hg2, Hg1, batch_flag_cons.
Qed.

Section BonjourLaws.
Context {Q : Type -> Type} `{FifoQueueLaws Q}.

(** The message a batch becomes. *)
Definition batch_message (flag : Z) (l : list (string * string * string)) : BVMessage :=
  MkBVMessage (if flag =? 1 then BVEVENTTYPE_APP_PUBLISHED_SERVICE else BVEVENTTYPE_APP_DEREGISTERED_SERVICE)
    (Some (any_BrowseList ((fun x => shown_instance x.1.1 x.1.2 x.2) <$> l))).

Lemma batch_flag_bit l old : old = 0 \/ old = 1 -> batch_flag l old = 0 \/ batch_flag l old = 1.
Proof. unfold batch_flag. destruct (last _) as [r|]; [|done]. destruct (is_add r); auto. Qed.

Lemma browse_processed b (m : mail Q) l0 replies q0 :
  browsing b = true -> dnsRef b = true -> discovered (b_disc b) l0 -> Forall reply_ok replies ->
  GetDidServiceRegister (b_disc b) = 0 \/ GetDidServiceRegister (b_disc b) = 1 ->
  mail_holds m (outMailBox_p (b_base b)) q0 ->
  exists d' m',
    ProcessDNSServiceBrowseResult replies kDNSServiceErr_NoError b m =
      Ok (BVSTATUS_OK, b_fd (b_set b d') (browseFD b ++ [Pending]), m') /\
    mail_holds m' (outMailBox_p (b_base b))
      (q0 ++ [batch_message (batch_flag replies (GetDidServiceRegister (b_disc b)))
                (l0 ++ (reply_triple <$> filter (fun r => reported r = true) replies))]) /\
    discovered d' [] /\ same_discovery (b_disc b) d' /\ d_heap d' = ∅ /\ GetDidServiceRegister d' = 0.
Proof.
  intros Hb Hr Hd Hok Hbit Hm. unfold ProcessDNSServiceBrowseResult. rewrite Hb, Hr. cbn [negb orb].
  destruct (process_replies_ok replies (b_disc b) l0 Hd Hok) as (d1 & H1 & Hd1 & (Hs1 & Hs2 & Hs3) & Hg1).
  rewrite H1. cbn [mbind result_bind b_set b_disc Z.eqb kDNSServiceErr_NoError negb].
  rewrite (return_list_ok _ _ Hd1). cbn [mbind result_bind]. rewrite Hg1.
  destruct (clear_list_ok _ _ Hd1) as (d2 & H2 & Hd2 & (Ht1 & Ht2 & Ht3) & Hg2 & Hh2).
  set (l := l0 ++ _) in *. set (flag := batch_flag _ _) in *.
  destruct (push_msg_holds m _ q0 (batch_message flag l) Hm) as (m' & Hp & Hm' & _).
  assert (Hsend : (if flag =? 1 then b_SendMessage (b_set b d1) (MkBVMessage BVEVENTTYPE_APP_PUBLISHED_SERVICE
      (Some (any_BrowseList ((fun x => shown_instance x.1.1 x.1.2 x.2) <$> l)))) m
    else if flag =? 0 then b_SendMessage (b_set b d1) (MkBVMessage BVEVENTTYPE_APP_DEREGISTERED_SERVICE
      (Some (any_BrowseList ((fun x => shown_instance x.1.1 x.1.2 x.2) <$> l)))) m else Ok m) = Ok m').
  { unfold b_SendMessage. cbn [b_set b_base]. unfold batch_message in Hp.
    destruct (batch_flag_bit replies (GetDidServiceRegister (b_disc b)) Hbit) as [E|E]; fold flag in E;
      rewrite E in *; exact Hp. }
  unfold b_set in Hsend |- *. rewrite Hsend. cbn [mbind result_bind b_disc]. rewrite H2. cbn [mbind result_bind].
  exists d2, m'. split; [|split; [exact Hm'|split; [exact Hd2|split; [split; [congruence|split; congruence]|done]]]].
  unfold AwaitFDForProcessingBrowseResult, browsing. cbn [b_disc dnsRef]. unfold browsing in Hb.
  rewrite Ht2, Hs2, Hb, Hr. done.
Qed.

(** ** Browsing over time *)

Lemma bonjour_callbacks a base ev h :
  callback_m (bonjour_component (Q := Q) a base) !! ev = Some h ->
  (exists f, h = simple_handler f /\ (f = OnStart \/ f = OnPause \/ f = OnResume \/ f = OnRestart)) \/
  h = shutdown_handler \/ h = resolve_request a.
Proof.
  unfold bonjour_component, RegisterCallback. cbn [callback_m]. intros Hh.
  repeat (apply lookup_insert_Some in Hh as [[_ <-]|[_ Hh]]; [by eauto 10|]).
  exfalso. apply (lookup_empty_Some (M := gmap BVEventType) ev h). exact Hh.
Qed.

(** Shutting down, when it does not throw. *)
Lemma shutdown_ok data b st b' (m m' : mail Q) :
  shutdown_handler data b m = Ok (st, b', m') ->
  d_heap (b_disc b') = d_heap (b_disc b) /\ c_ll_p (b_disc b') = c_ll_p (b_disc b) /\
  browsing b' = false /\ dnsRef b' = dnsRef b.
Proof. unfold shutdown_handler, OnShutdown. intros Hf. by ok_steps. Qed.

(** A request to resolve leaves browsing alone, or ends it for good. *)
Lemma ResolveService_keeps a bI b st b' :
  ResolveService a bI b = Ok (st, b') ->
  browseFD b' = browseFD b /\ browsing b' = browsing b /\ d_heap (b_disc b') = d_heap (b_disc b) /\
  c_ll_p (b_disc b') = c_ll_p (b_disc b) /\ (dnsRef b' = dnsRef b \/ dnsRef b' = false).
Proof.
  unfold ResolveService, CreateResolveContext. destruct (negb _); [intros [= _ <-]; repeat split; auto|].
  cbn beta zeta iota. destruct (ra_fd a <? 0); [intros [= _ <-]; repeat split; auto|]. destruct (ra_ec a); intros [= _ <-]; repeat split; auto.
Qed.

Lemma C_ResolveReply_keeps r ctx b (m : mail Q) b' m' :
  C_ResolveReply r ctx b m = Ok (b', m') ->
  browseFD b' = browseFD b /\ b_disc b' = b_disc b /\ dnsRef b' = dnsRef b.
Proof.
  unfold C_ResolveReply. destruct (negb _); [by intros [= <- <-]|]. intros Hf. ok_steps; done.
Qed.

Lemma resolve_replies_keeps ctx r : forall b (m : mail Q) b' m',
  resolve_replies r ctx b m = Ok (b', m') ->
  browseFD b' = browseFD b /\ b_disc b' = b_disc b /\ dnsRef b' = dnsRef b.
Proof.
  induction r as [|x r IH]; cbn [resolve_replies]; intros b m b' m' Hf; [by injection Hf as <- _|].
  apply bind_ok in Hf as ([b1 m1] & (E1 & E2 & E3)%C_ResolveReply_keeps & Hf).
  apply IH in Hf as (F1 & F2 & F3). split; [congruence|]. split; congruence.
Qed.

Lemma resolve_handler_keeps r error ctx b (m : mail Q) b' m' :
  resolve_handler r error ctx b m = Ok (b', m') ->
  browseFD b' = browseFD b /\ dnsRef b' = dnsRef b /\ d_heap (b_disc b') = d_heap (b_disc b) /\
  c_ll_p (b_disc b') = c_ll_p (b_disc b) /\ (browsing b' = browsing b \/ browsing b' = false).
Proof.
  unfold resolve_handler. intros ([b1 m1] & (E1 & E2 & E3)%resolve_replies_keeps & Hf)%bind_ok.
  unfold browsing. destruct (negb _); injection Hf as <- _; cbn; rewrite ?E1, ?E2, ?E3; repeat split; auto.
Qed.

(** What holds of the object at all times: it waits for the daemon whenever it
    is browsing, and its list is well formed. *)
Record bonjour_inv (b : BVDiscovery_Bonjour) : Prop := {
  bi_waits : browsing b = true -> dnsRef b = true -> browseFD b <> [];
  bi_list : exists l, discovered (b_disc b) l;
  bi_flag : GetDidServiceRegister (b_disc b) = 0 \/ GetDidServiceRegister (b_disc b) = 1
}.

Lemma discovered_same d d' l :
  d_heap d' = d_heap d -> c_ll_p d' = c_ll_p d -> discovered d l -> discovered d' l.
Proof. intros Hh Hl [Ht (refs & H1 & H2 & H3)]. split; [done|]. exists refs. by rewrite Hh, Hl. Qed.

Lemma bonjour_inv_same b b' :
  d_heap (b_disc b') = d_heap (b_disc b) -> c_ll_p (b_disc b') = c_ll_p (b_disc b) ->
  (browsing b' = true -> dnsRef b' = true -> browseFD b' <> []) -> bonjour_inv b -> bonjour_inv b'.
Proof.
  intros Hh Hl Hw [_ (l & Hd) Hf]. split; [exact Hw|exists l; by apply (discovered_same (b_disc b))|].
  unfold GetDidServiceRegister in *. by rewrite Hl.
Qed.

Lemma AwaitFD_inv b : (exists l, discovered (b_disc b) l) ->
  (GetDidServiceRegister (b_disc b) = 0 \/ GetDidServiceRegister (b_disc b) = 1) ->
  bonjour_inv (AwaitFDForProcessingBrowseResult b).
Proof.
  intros Hl Hf. unfold AwaitFDForProcessingBrowseResult. destruct (negb (browsing b) || negb (dnsRef b))%bool eqn:E.
  - split; [|done|done]. intros Hb Hd. by rewrite Hb, Hd in E.
  - split; [|done|done]. intros _ _ Hx. by apply app_nil in Hx as [_ Hx].
Qed.

Lemma bonjour_inv_message a ev h data st b b' (m m' : mail Q) :
  callback_m (bonjour_component a (b_base b)) !! ev = Some h -> h data b m = Ok (st, b', m') ->
  bonjour_inv b -> bonjour_inv b'.
Proof.
  intros Hh Hf Hi. apply bonjour_callbacks in Hh as [(f & -> & Hc)|[-> | ->]].
  - unfold simple_handler in Hf. destruct (f b) as [st1 b1] eqn:E. injection Hf as _ -> _.
    pose proof Hi as [Hw Hl Hg].
    destruct Hc as [-> |[-> |[-> | ->]]]; cbn in E.
    + by injection E as _ <-.
    + unfold OnPause in E. destruct (negb (browsing b)); injection E as _ <-; [done|].
      by apply (bonjour_inv_same b).
    + injection E as _ <-. by apply AwaitFD_inv.
    + by injection E as _ <-.
  - apply shutdown_ok in Hf as (E1 & E2 & E3 & _). apply (bonjour_inv_same b); [done|done| |done]. by rewrite E3.
  - unfold resolve_request, OnResolveRequest in Hf. destruct data as [[]|]; try (by injection Hf as _ <- _).
    apply bind_ok in Hf as ([st1 b1] & E & Hf). injection Hf as _ <- _.
    apply ResolveService_keeps in E as (E1 & E2 & E3 & E4 & E5). apply (bonjour_inv_same b); [done|done| |done].
    rewrite E1, E2. destruct E5 as [-> | ->]; [apply Hi|done].
Qed.

Lemma bonjour_inv_wait e replies error b (m : mail Q) b' m' :
  browse_handler e replies error b m = Ok (b', m') -> Forall reply_ok replies ->
  (exists l, discovered (b_disc b) l) ->
  (GetDidServiceRegister (b_disc b) = 0 \/ GetDidServiceRegister (b_disc b) = 1) -> bonjour_inv b'.
Proof.
  intros Hf Hok Hl Hg. unfold browse_handler in Hf. destruct e.
  { injection Hf as <- _. by split. }
  apply bind_ok in Hf as ([[st b1] m1] & Hp & Hf). injection Hf as <- _.
  unfold ProcessDNSServiceBrowseResult in Hp. destruct (negb (browsing b) || negb (dnsRef b))%bool eqn:E.
  { injection Hp as _ <- _. split; [|done|done]. intros Hb Hd. by rewrite Hb, Hd in E. }
  destruct Hl as (l & Hd). destruct (process_replies_ok replies (b_disc b) l Hd Hok) as (d1 & H1 & Hd1 & _ & Hg1).
  rewrite H1 in Hp. cbn [mbind result_bind] in Hp. destruct (negb (error =? _)).
  { injection Hp as _ <- _. split; [done|by eexists|].
    change (GetDidServiceRegister d1 = 0 \/ GetDidServiceRegister d1 = 1). rewrite Hg1. by apply batch_flag_bit. }
  apply bind_ok in Hp as (lst & _ & Hp). apply bind_ok in Hp as (m2 & _ & Hp).
  apply bind_ok in Hp as (d2 & Hc & Hp). injection Hp as _ <- _.
  destruct (clear_list_ok d1 _ Hd1) as (d2' & Hc' & Hd2 & _ & Hg2 & _). cbn in Hc. rewrite Hc' in Hc. injection Hc as <-.
  apply AwaitFD_inv; [by exists []|by left].
Qed.

Lemma bonjour_step_inv b b' : bonjour_step (Q := Q) b b' -> bonjour_inv b -> bonjour_inv b'.
Proof.
  intros Hs Hi. pose proof Hi as [Hw Hl Hg].
  destruct Hs as [a ev h data st b b' m m' Hh Hf|fd ec b|b l1 l2 E|b l1 l2 e replies error m b' m' E Hok Hf
    |b l1 l2 E|b l1 l2 E|b l1 ctx l2 r error m b' m' E Hf].
  - by eapply bonjour_inv_message.
  - unfold Browse. destruct (fd <? 0); [by apply (bonjour_inv_same b)|].
    destruct ec; [by apply (bonjour_inv_same b)|]. by apply AwaitFD_inv.
  - apply (bonjour_inv_same b); [done|done| |done]. intros _ _ Hx. by apply app_nil in Hx as [_ Hx].
  - by eapply bonjour_inv_wait.
  - by apply (bonjour_inv_same b).
  - by apply AwaitFD_inv.
  - apply resolve_handler_keeps in Hf as (E1 & E2 & E3 & E4 & E5).
    apply (bonjour_inv_same (b_resolving b (l1 ++ l2))); [done|done| |by apply (bonjour_inv_same b)].
    rewrite E1, E2. destruct E5 as [-> | ->]; [exact Hw|done].
Qed.

Lemma bonjour_inv_make data base error : bonjour_inv (BVDiscovery_Bonjour_make data base error).
Proof.
  unfold BVDiscovery_Bonjour_make, Setup, CreateConnectionContext.
  destruct (negb _); (split; [done|exists []; apply (discovered_same (BVDiscovery_make data)), discovered_make; done|by left]).
Qed.

(** Only [Browse] assigns the descriptor. *)
Lemma make_unassigned data base error : fd_open (BVDiscovery_Bonjour_make data base error) = false.
Proof. unfold BVDiscovery_Bonjour_make, Setup, CreateConnectionContext. by destruct (negb _). Qed.

Lemma Browse_assigns fd b : 0 <= fd -> fd_open (Browse fd false b) = true.
Proof.
  intros Hfd. unfold Browse. rewrite (proj2 (Z.ltb_ge fd 0) Hfd). unfold AwaitFDForProcessingBrowseResult.
  by destruct (_ || _)%bool.
Qed.

Lemma Browse_keeps fd ec b :
  b_base (Browse fd ec b) = b_base b /\ replyError (Browse fd ec b) = replyError b.
Proof.
  unfold Browse, AwaitFDForProcessingBrowseResult. destruct (fd <? 0); [done|]. destruct ec; [done|].
  by destruct (_ || _)%bool.
Qed.

(** Whatever the daemon reports, its report is processed. *)
Lemma processing_ok b (m : mail Q) replies error q0 :
  bonjour_inv b -> Forall reply_ok replies -> mail_holds m (outMailBox_p (b_base b)) q0 ->
  exists st b' m', ProcessDNSServiceBrowseResult replies error b m = Ok (st, b', m').
Proof.
  intros [_ (l & Hd) Hg] Hok Hm.
  destruct (browsing b) eqn:Eb; [destruct (dnsRef b) eqn:Er|].
  - destruct (decide (error = kDNSServiceErr_NoError)) as [->|Hne].
    + destruct (browse_processed b m l replies q0 Eb Er Hd Hok Hg Hm) as (d' & m' & Hp & _). eauto.
    + unfold ProcessDNSServiceBrowseResult. rewrite Eb, Er. cbn [negb orb].
      destruct (process_replies_ok replies (b_disc b) l Hd Hok) as (d1 & H1 & _). rewrite H1. cbn [mbind result_bind].
      rewrite (proj2 (Z.eqb_neq _ _) Hne). cbn [negb]. eauto.
  - unfold ProcessDNSServiceBrowseResult. rewrite Eb, Er. cbn [negb orb]. eauto.
  - unfold ProcessDNSServiceBrowseResult. rewrite Eb. cbn [negb orb]. eauto.
Qed.

(** The browse reference, once gone, does not come back. *)
Lemma AwaitFD_ref b : dnsRef (AwaitFDForProcessingBrowseResult b) = dnsRef b.
Proof. unfold AwaitFDForProcessingBrowseResult. by destruct (_ || _)%bool. Qed.

Lemma no_ref_step b b' : bonjour_step (Q := Q) b b' -> dnsRef b = false -> dnsRef b' = false.
Proof.
  intros Hs Hr.
  destruct Hs as [a ev h data st b b' m m' Hh Hf|fd ec b|b l1 l2 E|b l1 l2 e replies error m b' m' E Hok Hf
    |b l1 l2 E|b l1 l2 E|b l1 ctx l2 r error m b' m' E Hf]; try done.
  - apply bonjour_callbacks in Hh as [(f & -> & Hc)|[-> | ->]].
    + unfold simple_handler in Hf. destruct (f b) as [st1 b1] eqn:Ef. injection Hf as _ -> _.
      destruct Hc as [-> |[-> |[-> | ->]]]; cbn in Ef; try (by injection Ef as _ <-).
      * unfold OnPause in Ef. by destruct (negb (browsing b)); injection Ef as _ <-.
      * injection Ef as _ <-. by rewrite AwaitFD_ref.
    + apply shutdown_ok in Hf as (_ & _ & _ & ->). done.
    + unfold resolve_request, OnResolveRequest in Hf. destruct data as [[]|]; try (by injection Hf as _ <- _).
      apply bind_ok in Hf as ([st1 b1] & Ef & Hf). injection Hf as _ <- _.
      apply ResolveService_keeps in Ef as (_ & _ & _ & _ & [-> | ->]); done.
  - unfold Browse. destruct (fd <? 0); [done|]. destruct ec; [done|]. by rewrite AwaitFD_ref.
  - unfold browse_handler in Hf. destruct e; [by injection Hf as <- _|].
    apply bind_ok in Hf as ([[st b1] m1] & Hp & Hf). injection Hf as <- _.
    unfold ProcessDNSServiceBrowseResult in Hp. cbn [b_fd dnsRef] in Hp. rewrite Hr, orb_true_r in Hp. by injection Hp as _ <- _.
  - cbn [OnResume snd]. by rewrite AwaitFD_ref.
  - apply resolve_handler_keeps in Hf as (_ & -> & _). done.
Qed.

(** ** Resolving *)

Lemma bounded_field_ok n s :
  (length s < n)%nat -> bounded_field n s = Ok (s ++ NUL :: zeros (n - length s - 1)).
Proof.
  intros Hl. unfold bounded_field. rewrite (proj2 (Nat.leb_gt _ _)) by lia. rewrite take_ge by lia.
  rewrite memcpy_to_ok by (rewrite length_zeros; lia). cbn [mbind result_bind take app Nat.add].
  assert (Hz : drop (length s) (zeros n) = [NUL] ++ zeros (n - length s - 1)).
  { unfold zeros. rewrite drop_replicate. by replace (n - length s)%nat with (S (n - length s - 1)) at 1 by lia. }
  rewrite Hz. change (take 0 (zeros n)) with (@nil ascii). cbn [app]. set (z := zeros (n - length s - 1)).
  change (NUL :: z) with ([NUL] ++ z). rewrite memcpy_to_ok by (rewrite !length_app; cbn; lia).
  rewrite take_app_length. assert (Hd : drop (length s + length [NUL]) (s ++ [NUL] ++ z) = z).
  { rewrite (assoc_L (++)), drop_app_length'; [done|]. by rewrite length_app. }
  by rewrite Hd.
Qed.

Lemma bounded_field_total n s : (0 < n)%nat -> exists f, bounded_field n s = Ok f.
Proof.
  intros Hn. unfold bounded_field. set (len := if (n <=? length s)%nat then (n - 1)%nat else length s).
  assert (Hl : (len < n)%nat) by (unfold len; destruct (n <=? length s)%nat eqn:E; [|apply Nat.leb_gt in E]; lia).
  clearbody len. rewrite memcpy_to_ok by (rewrite length_take, length_zeros; lia). cbn [mbind result_bind].
  rewrite memcpy_to_ok; [by eexists|]. rewrite !length_app, !length_take, length_drop, length_zeros. cbn. lia.
Qed.

Lemma until_nul_field s n : NUL ∉ s -> until_nul (s ++ NUL :: zeros n) = Some s.
Proof. apply until_nul_app. Qed.

(** A name in the context, whatever lies behind it in memory. *)
Lemma context_field_ok n s behind :
  no_nul s -> (String.length s < n)%nat ->
  context_field n (name_field n s behind) = Ok (chars s ++ NUL :: zeros (n - String.length s - 1)).
Proof.
  intros Hs Hl. unfold context_field, name_field. rewrite (assoc_L (++)).
  assert (Hu : until_nul (take n ((chars s ++ [NUL]) ++ behind)) = Some (chars s)).
  { rewrite take_app_ge by (rewrite length_app, length_chars; cbn; lia). rewrite <- (assoc_L (++)). by apply until_nul_app. }
  rewrite Hu. cbn [from_option_err mbind result_bind]. rewrite bounded_field_ok by (rewrite length_chars; done).
  by rewrite length_chars.
Qed.

(** What the context must hold for the answer to name the service. *)
Definition resolvable (bI : BVServiceBrowseInstance) : Prop :=
  text_ok (bi_serviceName bI, bi_regType bI, bi_replyDomain bI) /\
  (String.length (bi_serviceName bI) < 24)%nat /\ (String.length (bi_regType bI) < 24)%nat /\
  (String.length (bi_replyDomain bI) < 16)%nat.

Lemma resolution_ok a bI b r host :
  resolvable bI -> ra_error a = kDNSServiceErr_NoError ->
  rr_hosttarget r = Some host -> no_nul host -> (String.length host < 256)%nat ->
  (match rr_txtRecord r with Some t => (Z.to_nat (rr_txtLen r) <= length t)%nat | None => True end) ->
  exists ctx res, CreateResolveContext a bI b = (Some ctx, b) /\ resolution_of r ctx = Ok res /\
    until_nul (res_serviceName res) = Some (chars (bi_serviceName bI)) /\
    until_nul (res_hosttarget res) = Some (chars host) /\ res_port res = ntohs (rr_port r).
Proof.
  intros ((Hn & Ht & Hd) & Hln & Hlt & Hld) Ha Hh Hnul Hlh Htx. unfold CreateResolveContext. rewrite Ha. cbn [Z.eqb kDNSServiceErr_NoError negb].
  assert (Hfull : exists f, option_field MAX_DNS_RESOLUTION_FIELD_SIZE (rr_fullname r) = Ok f).
  { destruct (rr_fullname r) as [s|]; cbn [option_field]; [apply bounded_field_total; apply Nat.ltb_lt; done|by eexists]. }
  assert (Htxt : exists t, txt_field r = Ok t).
  { unfold txt_field. destruct (rr_txtRecord r) as [t|]; [|by eexists]. destruct (0 <? rr_txtLen r); [|by eexists]. cbv zeta.
    rewrite load_ok by lia. cbn [mbind result_bind]. rewrite memcpy_to_ok; [by eexists|].
    rewrite length_zeros, length_take. unfold MAX_DNS_RESOLUTION_FIELD_SIZE. lia. }
  destruct Hfull as (f & Hf). destruct Htxt as (t & Ht').
  eexists. eexists. split; [reflexivity|]. unfold resolution_of. cbn [rc_serviceName rc_regType rc_replyDomain].
  rewrite Hf, Hh. cbn [option_field mbind result_bind].
  rewrite bounded_field_ok by (rewrite length_chars; done). cbn [mbind result_bind].
  rewrite !context_field_ok by done. cbn [mbind result_bind].
  rewrite Ht'. cbn [mbind result_bind]. split; [reflexivity|]. cbn [res_serviceName res_hosttarget res_port].
  split; [by apply until_nul_field|]. split; [by apply until_nul_field|done].
Qed.

(** ** Properties *)

(** C28.  A batch of browse replies becomes one message: with browsing active,
    the services of all the replies without an error are sent to the
    application in order, as published if the last of them is an addition and
    as deregistered if it is a removal, whatever the others are; the list is
    emptied and its memory freed, and the next readiness is waited for. *)
Theorem browse_batch_is_one_message b (m : mail Q) replies q0 :
  browsing b = true -> dnsRef b = true -> discovered (b_disc b) [] -> Forall reply_ok replies ->
  GetDidServiceRegister (b_disc b) = 0 ->
  mail_holds m (outMailBox_p (b_base b)) q0 ->
  exists b' m',
    ProcessDNSServiceBrowseResult replies kDNSServiceErr_NoError b m = Ok (BVSTATUS_OK, b', m') /\
    browseFD b' = browseFD b ++ [Pending] /\ d_heap (b_disc b') = ∅ /\ discovered (b_disc b') [] /\
    mail_holds m' (outMailBox_p (b_base b)) (q0 ++
      [MkBVMessage
         (match last (filter (fun r => reported r = true) replies) with
          | Some r => if is_add r then BVEVENTTYPE_APP_PUBLISHED_SERVICE else BVEVENTTYPE_APP_DEREGISTERED_SERVICE
          | None => BVEVENTTYPE_APP_DEREGISTERED_SERVICE
          end)
         (Some (any_BrowseList ((fun r => shown_instance (br_serviceName r) (br_regtype r) (br_replyDomain r))
                                  <$> filter (fun r => reported r = true) replies)))]).
Proof.
  intros Hb Hr Hd Hok Hg Hm.
  destruct (browse_processed b m [] replies q0 Hb Hr Hd Hok (or_introl Hg) Hm) as (d' & m' & Hp & Hm' & Hd' & _ & Hh & _).
  eexists _, m'. split; [exact Hp|]. split; [done|]. split; [exact Hh|]. split; [exact Hd'|].
  rewrite Hg in Hm'. unfold batch_message, batch_flag in Hm'. cbn [app] in Hm'. rewrite <- list_fmap_compose in Hm'.
  destruct (last _) as [r|]; [destruct (is_add r)|]; exact Hm'.
Qed.

(** C27.  Browsing does not stall: in every state discovery reaches, through
    requests, pauses, resumptions, the daemon's reports and errors, it is
    waiting for the daemon's descriptor whenever browsing is active and the
    daemon's reference exists, and whatever the daemon then reports is
    processed without a fault. *)
Theorem bonjour_keeps_browsing data base error b :
  star (bonjour_step (Q := Q)) (BVDiscovery_Bonjour_make data base error) b ->
  (browsing b = true -> dnsRef b = true -> browseFD b <> []) /\
  (forall replies code (m : mail Q) l, Forall reply_ok replies -> mail_holds m (outMailBox_p (b_base b)) l ->
     exists r, ProcessDNSServiceBrowseResult replies code b m = Ok r).
Proof.
  intros Hs. assert (Hi : bonjour_inv b).
  { refine (star_invariant bonjour_step bonjour_inv _ _ _ (bonjour_inv_make data base error) Hs).
    intros x y Hx Hy. by apply (bonjour_step_inv x). }
  split; [apply Hi|]. intros replies code m l Hok Hm.
  destruct (processing_ok b m replies code l Hi Hok Hm) as (st & b' & m' & Hp). by exists (st, b', m').
Qed.

(** One resolve that the operating system refuses ends browsing for good:
    when the resolve descriptor cannot be assigned, it is the browse reference
    that is deallocated, the request fails with a fatal status, and from then
    on no report of the daemon is looked at again. *)
Theorem failed_resolve_ends_browsing a bI b :
  ra_error a = kDNSServiceErr_NoError -> 0 <= ra_fd a -> ra_ec a = true ->
  exists b', ResolveService a bI b = Ok (BVSTATUS_FATAL_ERROR, b') /\ browsing b' = browsing b /\
    forall b2, star (bonjour_step (Q := Q)) b' b2 -> dnsRef b2 = false /\
      forall replies code (m : mail Q), ProcessDNSServiceBrowseResult replies code b2 m = Ok (BVSTATUS_OK, b2, m).
Proof.
  intros He Hfd Hec. unfold ResolveService, CreateResolveContext. rewrite He. cbn [Z.eqb kDNSServiceErr_NoError negb].
  rewrite (proj2 (Z.ltb_ge _ _) Hfd), Hec. eexists. split; [reflexivity|]. split; [done|]. intros b2 Hs.
  assert (Hr : dnsRef b2 = false).
  { refine (star_invariant bonjour_step (fun b => dnsRef b = false) _ _ _ _ Hs); [|done].
    intros x y Hx Hy. by apply (no_ref_step x). }
  split; [exact Hr|]. intros replies code m. unfold ProcessDNSServiceBrowseResult. by rewrite Hr, orb_true_r.
Qed.

End BonjourLaws.

(** ** Concrete instance *)

Section BonjourWitnesses.

(** Queues 0 and 1 of the store: the broker's inbox and the own mailbox. *)
Definition ex_bonjour_store : mail threadsafe_queue := (make_box (make_box (Mail ∅ ∅)).2).2.

Lemma ex_bonjour_store_holds q : q = 0%nat \/ q = 1%nat -> mail_holds ex_bonjour_store q [].
Proof.
  intros Hq. exists []. split; [constructor|]. split; [|constructor].
  exists q_new. split; [destruct Hq as [-> | ->]; reflexivity|]. apply q_new_repr.
Qed.

Definition ex_bonjour : BVDiscovery_Bonjour :=
  Browse 5 false (BVDiscovery_Bonjour_make (BVService_host_data "ann" "local." PORT) (MkComponent 0 1 0) 0).

Lemma ex_bonjour_list : discovered (b_disc ex_bonjour) [].
Proof. apply (discovered_same (BVDiscovery_make (BVService_host_data "ann" "local." PORT))); [done..|apply discovered_make]. Qed.

Definition ex_reply (flags : Z) (name : string) : browse_reply := MkReply flags 0 name SERVICETYPE_STR "local.".

Lemma ex_reply_ok flags name : bool_decide (NUL ∉ chars name) = true -> reply_ok (ex_reply flags name).
Proof. apply ex_service_text_ok. Qed.

Lemma browse_batch_is_one_message_witness :
  exists b' m', ProcessDNSServiceBrowseResult [ex_reply 0 "bob"; ex_reply 2 "eve"] 0 ex_bonjour ex_bonjour_store =
      Ok (BVSTATUS_OK, b', m') /\
    mail_holds m' 0 [MkBVMessage BVEVENTTYPE_APP_PUBLISHED_SERVICE (Some (any_BrowseList
      [BrowseInstance "bob" SERVICETYPE_STR "local."; BrowseInstance "eve" SERVICETYPE_STR "local."]))].
Proof.
  destruct (browse_batch_is_one_message ex_bonjour ex_bonjour_store [ex_reply 0 "bob"; ex_reply 2 "eve"] [])
    as (b' & m' & Hp & _ & _ & _ & Hm).
  - reflexivity.
  - reflexivity.
  - exact ex_bonjour_list.
  - repeat (apply Forall_cons; split); [by apply ex_reply_ok|by apply ex_reply_ok|apply Forall_nil_2].
  - reflexivity.
  - apply ex_bonjour_store_holds. by left.
  - exists b', m'. split; [exact Hp|exact Hm].
Defined.

Lemma bonjour_keeps_browsing_witness :
  browsing ex_bonjour = true /\ dnsRef ex_bonjour = true /\ browseFD ex_bonjour <> [].
Proof.
  split; [reflexivity|]. split; [reflexivity|].
  apply (bonjour_keeps_browsing (Q := threadsafe_queue) (BVService_host_data "ann" "local." PORT) (MkComponent 0 1 0) 0 ex_bonjour).
  - eapply star_step; [apply (bs_browse 5 false)|apply star_refl].
  - reflexivity.
  - reflexivity.
Defined.

Definition ex_refused : resolve_answer := MkAnswer 0 6 true [].

Lemma failed_resolve_ends_browsing_witness :
  exists b', ResolveService ex_refused (BrowseInstance "bob" SERVICETYPE_STR "local.") ex_bonjour = Ok (BVSTATUS_FATAL_ERROR, b') /\
    browsing b' = true /\ ProcessDNSServiceBrowseResult [ex_reply 2 "eve"] 0 b' ex_bonjour_store = Ok (BVSTATUS_OK, b', ex_bonjour_store).
Proof.
  destruct (failed_resolve_ends_browsing (Q := threadsafe_queue) ex_refused (BrowseInstance "bob" SERVICETYPE_STR "local.") ex_bonjour)
    as (b' & Hr & Hb & Hs).
  - reflexivity.
  - cbn. lia.
  - reflexivity.
  - exists b'. split; [exact Hr|]. split; [exact Hb|]. apply (proj2 (Hs b' (star_refl _ _))).
Defined.

End BonjourWitnesses.
