(* ===== verification/Avahi.v ===== *)
(** * Discovery with Avahi ([src/BVDiscovery_Avahi.cpp],
    [src/avahi_api.c])

    The Avahi client calls back from the worker thread's poll; a service found
    is resolved at once.  The worker thread and the mailbox thread share the
    two flags and a condition variable; their steps interleave. *)

From Stdlib Require Import ZArith Lia Ascii String.
From S2P Require Import Prelude TSQueue Common Broker Component LinkedList Discovery.

Inductive AvahiBrowserEvent : Type :=
  | AVAHI_BROWSER_NEW
  | AVAHI_BROWSER_REMOVE
  | AVAHI_BROWSER_CACHE_EXHAUSTED
  | AVAHI_BROWSER_ALL_FOR_NOW
  | AVAHI_BROWSER_FAILURE.

Inductive AvahiResolverEvent : Type :=
  | AVAHI_RESOLVER_FOUND
  | AVAHI_RESOLVER_FAILURE.

(** Where the worker thread is: at the loop condition, at the test of
    [isPaused], in [Pause] evaluating the predicate, between that and the
    condition variable, waiting on it, finished, or dead by an exception. *)
Inductive worker_at : Type :=
  | W_loop | W_test | W_predicate | W_falling_asleep | W_asleep | W_done | W_thrown.
#[export] Instance worker_at_eq_dec : EqDecision worker_at.
Proof. solve_decision. Defined.

Record BVDiscovery_Avahi : Type := MkAvahi {
  a_disc : BVDiscovery;
  a_base : BVComponent;
  isPaused : bool;
  poll_quit : bool;                            (* avahi_simple_poll_quit *)
  resolvers : list (string * string * string); (* avahi_service_resolver_new *)
  worker : worker_at
}.

Definition a_set (a : BVDiscovery_Avahi) (d : BVDiscovery) : BVDiscovery_Avahi :=
  MkAvahi d (a_base a) (isPaused a) (poll_quit a) (resolvers a) (worker a).
Definition SetIsPaused (a : BVDiscovery_Avahi) (p : bool) : BVDiscovery_Avahi :=
  MkAvahi (a_disc a) (a_base a) p (poll_quit a) (resolvers a) (worker a).
Definition a_quit (a : BVDiscovery_Avahi) : BVDiscovery_Avahi :=
  MkAvahi (a_disc a) (a_base a) (isPaused a) true (resolvers a) (worker a).
Definition a_resolvers (a : BVDiscovery_Avahi) (l : list (string * string * string)) : BVDiscovery_Avahi :=
  MkAvahi (a_disc a) (a_base a) (isPaused a) (poll_quit a) l (worker a).
Definition a_worker (a : BVDiscovery_Avahi) (w : worker_at) : BVDiscovery_Avahi :=
  MkAvahi (a_disc a) (a_base a) (isPaused a) (poll_quit a) (resolvers a) w.

Definition OnThisMachineHostNameRequest (a : BVDiscovery_Avahi) : string := sd_hostname (hostData (a_disc a)).

(** [strncmp (a, b, n) == 0] on the characters before the terminators. *)
Fixpoint strncmp_equal (a b : list ascii) (n : nat) : bool :=
  match n with
  | O => true
  | S n =>
      match a, b with
      | [], [] => true
      | c :: a, d :: b => if decide (c = d) then strncmp_equal a b n else false
      | _, _ => false
      end
  end.

(** A text used as a format: only [%%] and glibc's [%m] need no argument. *)
Fixpoint needs_no_argument (format : list ascii) : bool :=
  match format with
  | [] => true
  | c :: l =>
      if Ascii.eqb c "%" then
        match l with
        | d :: l => ((Ascii.eqb d "%" || Ascii.eqb d "m") && needs_no_argument l)%bool
        | [] => false
        end
      else needs_no_argument l
  end.

(** [fprintf (stderr, text)] without further arguments. *)
Definition fprintf_text (text : string) : result unit :=
  if needs_no_argument (chars text) then Ok tt else Err UninitialisedRead.

Section Avahi.
Context {Q : Type -> Type} `{FifoQueue Q}.

Definition a_SendMessage (a : BVDiscovery_Avahi) (msg : BVMessage) (m : mail Q) : result (mail Q) :=
  push_msg m (outMailBox_p (a_base a)) msg.

Definition OnServiceFound (a : BVDiscovery_Avahi) (m : mail Q) : result (BVDiscovery_Avahi * mail Q) :=
  let! browseInstanceList := ReturnListFromBrowseResults (a_disc a) in
  let! m := a_SendMessage a (MkBVMessage BVEVENTTYPE_APP_PUBLISHED_SERVICE (Some (any_BrowseList browseInstanceList))) m in
  let! d := clear_list (a_disc a) in
  Ok (a_set a d, m).

Definition OnServiceRemoved (a : BVDiscovery_Avahi) (m : mail Q) : result (BVDiscovery_Avahi * mail Q) :=
  let! browseInstanceList := ReturnListFromBrowseResults (a_disc a) in
  let! m := a_SendMessage a (MkBVMessage BVEVENTTYPE_APP_DEREGISTERED_SERVICE (Some (any_BrowseList browseInstanceList))) m in
  let! d := clear_list (a_disc a) in
  Ok (a_set a d, m).

(** [browse_callback]; [created] is whether the resolver could be created. *)
Definition browse_callback (created : bool) (event : AvahiBrowserEvent) (name type domain : string)
    (a : BVDiscovery_Avahi) (m : mail Q) : result (BVDiscovery_Avahi * mail Q) :=
  match event with
  | AVAHI_BROWSER_FAILURE => Ok (a_quit a, m)
  | AVAHI_BROWSER_NEW =>
      let! d := add_record (a_disc a) name type domain in
      let! '(a, m) := OnServiceFound (a_set a d) m in
      let! _ := fprintf_text (OnThisMachineHostNameRequest a) in
      let! _ := fprintf_text name in
      if strncmp_equal (chars (OnThisMachineHostNameRequest a)) (chars name) (String.length name) then Ok (a, m)
      else Ok (if (created : bool) then a_resolvers a (resolvers a ++ [(name, type, domain)]) else a, m)
  | AVAHI_BROWSER_REMOVE =>
      let! d := add_record (a_disc a) name type domain in
      OnServiceRemoved (a_set a d) m
  | AVAHI_BROWSER_ALL_FOR_NOW | AVAHI_BROWSER_CACHE_EXHAUSTED => Ok (a, m)
  end.

(** [resolve_callback]: the result is allocated with [malloc], so it starts
    with whatever [raw] holds; [behind] lies behind the three names. *)
Definition resolve_callback (raw : DNSResolutionResult) (behind : list ascii) (event : AvahiResolverEvent)
    (name type domain host_name address : string) (port : Z) (txt : list ascii)
    (a : BVDiscovery_Avahi) (m : mail Q) : result (BVDiscovery_Avahi * mail Q) :=
  match event with
  | AVAHI_RESOLVER_FAILURE => Ok (a, m)
  | AVAHI_RESOLVER_FOUND =>
      let serviceName := take N_BYTES_SERVNAME_MAX (chars name ++ [NUL] ++ behind) in
      let regType := take N_BYTES_REGTYPE_MAX (chars type ++ [NUL] ++ behind) in
      let replyDomain := take N_BYTES_REPLDOMN_MAX (chars domain ++ [NUL] ++ behind) in
      let! hosttarget := memcpy_to (res_hosttarget raw) 0 (chars host_name) in
      let! fullname := memcpy_to (res_fullname raw) 0 (chars address) in
      let! txtRecord := memcpy_to (res_txtRecord raw) 0 txt in
      let res := {| res_fullname := fullname; res_hosttarget := hosttarget; res_port := port;
                    res_txtLen := u16 (Z.of_nat (length txt)); res_txtRecord := txtRecord;
                    res_serviceName := serviceName; res_regType := regType; res_replyDomain := replyDomain |} in
      let! m := a_SendMessage a (MkBVMessage BVEVENTTYPE_APP_DISCOVERY_SERVICE_RESOLVED (Some (any_Resolution res))) m in
      Ok (a, m)
  end.

(** ** The object *)

Definition OnStart (a : BVDiscovery_Avahi) : BVStatus * BVDiscovery_Avahi := (BVSTATUS_OK, a).

Definition OnPause (a : BVDiscovery_Avahi) : BVStatus * BVDiscovery_Avahi := (BVSTATUS_OK, SetIsPaused a true).

(** [notify_all] wakes a worker that is waiting, and no other. *)
Definition notify_all (a : BVDiscovery_Avahi) : BVDiscovery_Avahi :=
  match worker a with W_asleep => a_worker a W_predicate | _ => a end.

Definition OnResume (a : BVDiscovery_Avahi) : BVStatus * BVDiscovery_Avahi :=
  (BVSTATUS_OK, notify_all (SetIsPaused a false)).

Definition OnRestart (a : BVDiscovery_Avahi) : BVStatus * BVDiscovery_Avahi := (BVSTATUS_OK, a).

Definition OnShutdown (a : BVDiscovery_Avahi) : BVStatus * BVDiscovery_Avahi :=
  (BVSTATUS_OK, a_set a (SetIsBrowsingActive (a_disc a) false)).

(** Resolution is done in the browse callback. *)
Definition ResolveService (bI : BVServiceBrowseInstance) (a : BVDiscovery_Avahi)
    : result (BVStatus * BVDiscovery_Avahi) := Ok (BVSTATUS_OK, a).

Definition simple_handler (f : BVDiscovery_Avahi -> BVStatus * BVDiscovery_Avahi)
    : MessageHandler Q BVDiscovery_Avahi := fun _ a m => let '(st, a) := f a in Ok (st, a, m).
Definition resolve_request : MessageHandler Q BVDiscovery_Avahi :=
  fun data a m => let! '(st, a) := OnResolveRequest ResolveService data a in Ok (st, a, m).

(** The constructor's registrations. *)
Definition avahi_component (base : BVComponent) : Component Q BVDiscovery_Avahi :=
  let c := Component_make (outMailBox_p base) (inMailBox_p base) (comp_id base) in
  let c := RegisterCallback c BVEVENTTYPE_DISCOVERY_REQUEST_START (simple_handler OnStart) in
  let c := RegisterCallback c BVEVENTTYPE_DISCOVERY_REQUEST_PAUSE (simple_handler OnPause) in
  let c := RegisterCallback c BVEVENTTYPE_DISCOVERY_REQUEST_RESUME (simple_handler OnResume) in
  let c := RegisterCallback c BVEVENTTYPE_TERMINATE_ALL (simple_handler OnShutdown) in
  let c := RegisterCallback c BVEVENTTYPE_DISCOVERY_REQUEST_SHUTDOWN (simple_handler OnShutdown) in
  let c := RegisterCallback c BVEVENTTYPE_DISCOVERY_REQUEST_RESTART (simple_handler OnRestart) in
  RegisterCallback c BVEVENTTYPE_DISCOVERY_REQUEST_RESOLVE resolve_request.

(** [Setup]: both contexts must exist. *)
Definition BVDiscovery_Avahi_make (client_p simple_poll_p : bool) (_hostData : BVServiceData)
    (base : BVComponent) : result BVDiscovery_Avahi :=
  if (negb client_p || negb simple_poll_p)%bool then Err Std_runtime_error
  else Ok (MkAvahi (BVDiscovery_make _hostData) base false false [] W_loop).

(** ** The worker thread *)

Definition Browse_start (a : BVDiscovery_Avahi) : BVDiscovery_Avahi :=
  a_worker (a_set a (SetIsBrowsingActive (a_disc a) true)) W_loop.

(** One step of [Browse] and [Pause]; [status] is what one iteration of the
    poll returns, [spurious] whether a waiting thread wakes without a
    notification. *)
Definition worker_step (status : Z) (spurious : bool) (a : BVDiscovery_Avahi) : BVDiscovery_Avahi :=
  match worker a with
  | W_loop => a_worker a (if isBrowsingActive (a_disc a) then W_test else W_done)
  | W_test =>
      if negb (isPaused a) then a_worker a (if status =? -1 then W_thrown else W_loop)
      else a_worker a W_predicate
  | W_predicate => a_worker a (if isPaused a then W_falling_asleep else W_loop)
  | W_falling_asleep => a_worker a W_asleep
  | W_asleep => if spurious then a_worker a W_predicate else a
  | W_done | W_thrown => a
  end.

(** The mailbox thread's handlers and the worker's steps, interleaved; the
    poll's callbacks run within the worker. *)
Inductive avahi_step : BVDiscovery_Avahi -> BVDiscovery_Avahi -> Prop :=
  | av_message ev h data st a a' m m' :
      callback_m (avahi_component (a_base a)) !! ev = Some h -> h data a m = Ok (st, a', m') -> avahi_step a a'
  | av_worker status spurious a : avahi_step a (worker_step status spurious a)
  | av_browse created event name type domain a a' m m' :
      worker a = W_test -> text_ok (name, type, domain) ->
      browse_callback created event name type domain a m = Ok (a', m') -> avahi_step a a'
  | av_resolve raw behind event name type domain host address port txt a a' m m' :
      worker a = W_test ->
      resolve_callback raw behind event name type domain host address port txt a m = Ok (a', m') -> avahi_step a a'.

(** What happens once the mailbox thread has returned. *)
Inductive alone_step : BVDiscovery_Avahi -> BVDiscovery_Avahi -> Prop :=
  | al_worker status spurious a : alone_step a (worker_step status spurious a).

End Avahi.

Section AvahiLaws.
Context {Q : Type -> Type} `{FifoQueueLaws Q}.

Lemma strncmp_prefix b : forall a, strncmp_equal a b (length b) = true <-> b `prefix_of` a.
Proof.
  induction b as [|d b IH]; intros a.
  - split; [intros _; apply prefix_nil|intros _; by destruct a].
  - destruct a as [|c a]; cbn [length strncmp_equal].
    + split; [done|]. intros [k Hk]. discriminate Hk.
    + destruct (decide (c = d)) as [->|Hne].
      * rewrite IH. split; [apply prefix_cons|apply prefix_cons_inv_2].
      * split; [done|]. intros [k Hk]. injection Hk as -> _. done.
Qed.

Lemma found_ok a (m : mail Q) l q0 :
  discovered (a_disc a) l -> mail_holds m (outMailBox_p (a_base a)) q0 ->
  exists d' m', OnServiceFound a m = Ok (a_set a d', m') /\ discovered d' [] /\ d_heap d' = ∅ /\
    hostData d' = hostData (a_disc a) /\
    mail_holds m' (outMailBox_p (a_base a)) (q0 ++ [MkBVMessage BVEVENTTYPE_APP_PUBLISHED_SERVICE
      (Some (any_BrowseList ((fun x => shown_instance x.1.1 x.1.2 x.2) <$> l)))]).
Proof.
  intros Hd Hm. unfold OnServiceFound, a_SendMessage. rewrite (return_list_ok _ _ Hd). cbn [mbind result_bind].
  destruct (push_msg_holds m _ q0 (MkBVMessage BVEVENTTYPE_APP_PUBLISHED_SERVICE
    (Some (any_BrowseList ((fun x => shown_instance x.1.1 x.1.2 x.2) <$> l)))) Hm) as (m' & Hp & Hm' & _).
  rewrite Hp. cbn [mbind result_bind]. destruct (clear_list_ok _ _ Hd) as (d' & Hc & Hd' & (_ & _ & Hh) & _ & He).
  rewrite Hc. cbn [mbind result_bind]. by exists d', m'.
Qed.

(** Paused, with nobody left to resume. *)
Definition paused_for_good (a : BVDiscovery_Avahi) : Prop :=
  isBrowsingActive (a_disc a) = false /\ isPaused a = true /\
  (worker a = W_predicate \/ worker a = W_falling_asleep \/ worker a = W_asleep).

Lemma alone_paused a a' : paused_for_good a -> alone_step a a' -> paused_for_good a'.
Proof.
  intros (Hb & Hp & Hw) Hs. destruct Hs as [status spurious a]. unfold worker_step, paused_for_good.
  destruct Hw as [Hw|[Hw|Hw]]; rewrite Hw, ?Hp; [|split; auto|destruct spurious]; cbn; rewrite ?Hp; auto.
Qed.

(** ** Properties *)

(** A service found: the application is told about it, the list is
    emptied, and then its name is printed as a format: a name with a conversion
    specification reads arguments that were not passed.  Otherwise it is
    resolved exactly when its name is not a prefix of this machine's own name:
    a peer whose name is a shorter form of ours is published but can never be
    dialled. *)
Theorem found_service_resolved_unless_prefix name type domain a (m : mail Q) q0 :
  discovered (a_disc a) [] -> text_ok (name, type, domain) ->
  mail_holds m (outMailBox_p (a_base a)) q0 ->
  needs_no_argument (chars (OnThisMachineHostNameRequest a)) = true ->
  exists d' m', discovered d' [] /\ d_heap d' = ∅ /\
    mail_holds m' (outMailBox_p (a_base a)) (q0 ++ [MkBVMessage BVEVENTTYPE_APP_PUBLISHED_SERVICE
      (Some (any_BrowseList [shown_instance name type domain]))]) /\
    browse_callback true AVAHI_BROWSER_NEW name type domain a m =
      (if needs_no_argument (chars name) then
         Ok (a_resolvers (a_set a d')
               (resolvers a ++ if bool_decide (chars name `prefix_of` chars (OnThisMachineHostNameRequest a))
                               then [] else [(name, type, domain)]), m')
       else Err UninitialisedRead).
Proof.
  intros Hd Ht Hm Hf. cbn [browse_callback].
  destruct (add_record_ok _ [] name type domain Hd Ht) as (d1 & Ha & Hd1 & (_ & _ & Hh1) & _).
  rewrite Ha. cbn [mbind result_bind app] in *.
  destruct (found_ok (a_set a d1) m _ q0 Hd1 Hm) as (d2 & m' & Ho & Hd2 & He & Hh2 & Hm').
  rewrite Ho. cbn [mbind result_bind]. exists d2, m'. split; [exact Hd2|]. split; [exact He|].
  split; [exact Hm'|]. assert (Hn : OnThisMachineHostNameRequest (a_set (a_set a d1) d2) = OnThisMachineHostNameRequest a).
  { unfold OnThisMachineHostNameRequest. cbn [a_set a_disc] in *. by rewrite Hh2, Hh1. }
  rewrite Hn. unfold fprintf_text. rewrite Hf. cbn [mbind result_bind].
  destruct (needs_no_argument (chars name)); [|done]. cbn [mbind result_bind].
  rewrite <- length_chars. pose proof (strncmp_prefix (chars name) (chars (OnThisMachineHostNameRequest a))) as Hp.
  destruct (strncmp_equal _ _ _) eqn:E.
  - rewrite bool_decide_true by by apply Hp. rewrite app_nil_r. done.
  - rewrite bool_decide_false; [done|]. intros Hx. apply Hp in Hx. congruence.
Qed.

(** C33.  The pause protocol loses events both ways.  A resumption that falls
    between the worker's test of the flag and its going to sleep wakes nobody:
    the worker then sleeps although discovery is not paused.  And a shutdown
    while the worker is paused notifies nobody: it can never finish, however
    often it wakes by itself. *)
Theorem pause_protocol_hangs a :
  worker a = W_predicate -> isPaused a = true ->
  (exists a', star (avahi_step (Q := Q)) a a' /\ isPaused a' = false /\ worker a' = W_asleep) /\
  (forall a', star alone_step (OnShutdown a).2 a' -> isBrowsingActive (a_disc a') = false /\ isPaused a' = true /\
     worker a' <> W_done).
Proof.
  intros Hw Hp. split.
  - exists (a_worker (SetIsPaused (a_worker a W_falling_asleep) false) W_asleep). split; [|done].
    assert (H1 : worker_step 0 false a = a_worker a W_falling_asleep) by (unfold worker_step; by rewrite Hw, Hp).
    eapply star_step; [apply (av_worker 0 false)|]. rewrite H1.
    apply (star_step _ _ (SetIsPaused (a_worker a W_falling_asleep) false)).
    + eapply (av_message BVEVENTTYPE_DISCOVERY_REQUEST_RESUME (simple_handler OnResume) None BVSTATUS_OK _ _ (Mail ∅ ∅)).
      * unfold avahi_component, RegisterCallback. cbn [callback_m].
        repeat (rewrite lookup_insert_ne by done). apply lookup_insert_eq.
      * reflexivity.
    + apply (star_step _ _ (worker_step 0 false (SetIsPaused (a_worker a W_falling_asleep) false)));
        [apply av_worker|apply star_refl].
  - intros a' Hs.
    assert (Hi : paused_for_good a').
    { refine (star_invariant alone_step paused_for_good _ _ _ _ Hs); [apply alone_paused|]. by split; [|split; [|left]]. }
    destruct Hi as (Hb & Hpa & Hwo). split; [exact Hb|]. split; [exact Hpa|].
    intros Hd. rewrite Hd in Hwo. by destruct Hwo as [?|[?|?]].
Qed.

End AvahiLaws.

(** ** Concrete instance *)

Section AvahiWitnesses.

Definition ex_avahi : BVDiscovery_Avahi :=
  MkAvahi (BVDiscovery_make (BVService_host_data "ann-laptop" "local." PORT)) (MkComponent 0 1 0) true false [] W_predicate.

Definition ex_avahi_store : mail threadsafe_queue := (make_box (make_box (Mail ∅ ∅)).2).2.

Lemma ex_avahi_store_holds : mail_holds ex_avahi_store 0 [].
Proof.
  exists []. split; [constructor|]. split; [|constructor]. exists q_new. split; [reflexivity|apply q_new_repr].
Qed.

Lemma found_service_resolved_unless_prefix_witness :
  exists d1 m1 d2 m2,
    browse_callback true AVAHI_BROWSER_NEW "ann" SERVICETYPE_STR "local." ex_avahi ex_avahi_store =
      Ok (a_resolvers (a_set ex_avahi d1) [], m1) /\
    browse_callback true AVAHI_BROWSER_NEW "bob" SERVICETYPE_STR "local." ex_avahi ex_avahi_store =
      Ok (a_resolvers (a_set ex_avahi d2) [("bob", SERVICETYPE_STR, "local.")]%string, m2) /\
    browse_callback true AVAHI_BROWSER_NEW "%s" SERVICETYPE_STR "local." ex_avahi ex_avahi_store = Err UninitialisedRead.
Proof.
  destruct (found_service_resolved_unless_prefix "ann" SERVICETYPE_STR "local." ex_avahi ex_avahi_store [])
    as (d1 & m1 & _ & _ & _ & H1); [apply discovered_make|by apply ex_service_text_ok|apply ex_avahi_store_holds|reflexivity|].
  destruct (found_service_resolved_unless_prefix "bob" SERVICETYPE_STR "local." ex_avahi ex_avahi_store [])
    as (d2 & m2 & _ & _ & _ & H2); [apply discovered_make|by apply ex_service_text_ok|apply ex_avahi_store_holds|reflexivity|].
  destruct (found_service_resolved_unless_prefix "%s" SERVICETYPE_STR "local." ex_avahi ex_avahi_store [])
    as (d3 & m3 & _ & _ & _ & H3); [apply discovered_make|by apply ex_service_text_ok|apply ex_avahi_store_holds|reflexivity|].
  exists d1, m1, d2, m2. split; [exact H1|]. split; [exact H2|exact H3].
Defined.

Lemma pause_protocol_hangs_witness :
  exists a', star (avahi_step (Q := threadsafe_queue)) ex_avahi a' /\ isPaused a' = false /\ worker a' = W_asleep.
Proof. exact (proj1 (pause_protocol_hangs (Q := threadsafe_queue) ex_avahi eq_refl eq_refl)). Defined.

End AvahiWitnesses.
