(* ===== verification/Service.v ===== *)
(** * Registering this machine's service ([include/BVService.hpp],
    [src/BVService_Bonjour.cpp], [src/BVService_Avahi.cpp] and the
    registration callbacks of [src/bonjour_api.c] and [src/avahi_api.c])

    What the daemons answer is an argument of the operations. *)

From Stdlib Require Import ZArith Lia Ascii String.
From S2P Require Import Prelude Common Bonjour.

(** ** The service object *)

Record BVService : Type := MkService {
  sv_data : BVServiceData;    (* host name, domain, type and port *)
  sv_isRegistered : bool
}.

Definition BVService_make (_hostname _domain : string) (_port : Z) : BVService :=
  MkService (BVService_host_data _hostname _domain _port) false.

Definition SetIsRegistered (s : BVService) (b : bool) : BVService := MkService (sv_data s) b.

(** ** Bonjour *)

(** The register callback, on the global [replyError]. *)
Definition C_RegisterReply (replyError : bool) (errorCode : Z) : bool :=
  if errorCode =? kDNSServiceErr_NoError then replyError else true.

(** The daemon's answers: to the registration, to processing its result, and
    the replies delivered while processing. *)
Record register_answer : Type := MkRegisterAnswer {
  reg_error : Z;
  reg_process : Z;
  reg_replies : list Z
}.

Definition ProcessDNSServiceRegisterResult (a : register_answer) (replyError : bool) : BVStatus * bool :=
  let replyError := fold_left C_RegisterReply (reg_replies a) replyError in
  if negb (reg_process a =? kDNSServiceErr_NoError) then (BVSTATUS_NOK, replyError)
  else if replyError then (BVSTATUS_NOK, replyError)
  else (BVSTATUS_OK, replyError).

Definition Bonjour_Register (a : register_answer) (s : BVService) (replyError : bool) : BVStatus * BVService * bool :=
  if negb (reg_error a =? kDNSServiceErr_NoError) then (BVSTATUS_NOK, s, replyError)
  else
    let '(status, replyError) := ProcessDNSServiceRegisterResult a replyError in
    (status, if decide (status = BVSTATUS_OK) then SetIsRegistered s true else s, replyError).

(** ** Avahi *)

Inductive AvahiClientState : Type :=
  | AVAHI_CLIENT_S_REGISTERING
  | AVAHI_CLIENT_S_RUNNING
  | AVAHI_CLIENT_S_COLLISION
  | AVAHI_CLIENT_FAILURE
  | AVAHI_CLIENT_CONNECTING.

Inductive AvahiEntryGroupState : Type :=
  | AVAHI_ENTRY_GROUP_UNCOMMITED
  | AVAHI_ENTRY_GROUP_REGISTERING
  | AVAHI_ENTRY_GROUP_ESTABLISHED
  | AVAHI_ENTRY_GROUP_COLLISION
  | AVAHI_ENTRY_GROUP_FAILURE.

(** The globals of the callbacks: the two flags, and the services added to
    the entry group (name, type, port). *)
Record registration : Type := MkRegistration {
  critical_failure : bool;
  register_success : bool;
  entries : list (string * string * Z)
}.

Definition registration_init : registration := MkRegistration false false [].

Definition entry_group_callback (state : AvahiEntryGroupState) (r : registration) : registration :=
  match state with
  | AVAHI_ENTRY_GROUP_FAILURE => MkRegistration true (register_success r) (entries r)
  | _ => r
  end.

(** [strtok (_, ",")]: separators are skipped, the token ends before the next
    one; the token and what follows it. *)
Fixpoint skip_commas (l : list ascii) : list ascii :=
  match l with
  | c :: l' => if Ascii.eqb c "," then skip_commas l' else l
  | [] => []
  end.

Definition strtok (l : list ascii) : option (list ascii * list ascii) :=
  match skip_commas l with
  | [] => None
  | l => match find_char "," l with
         | Some n => Some (take n l, drop (n + 1) l)
         | None => Some (l, [])
         end
  end.

(** The text [CreateAvahiClient] passes to the callback. *)
Definition userdata (s : BVService) : string := sd_hostname (sv_data s) +:+ "," +:+ sd_regtype (sv_data s).

Section Avahi.
(** The library's constant the result of adding a service is compared with. *)
Context (AVAHI_SERVER_COLLISION : Z).

(** [create_services]; [add] and [commit] are what the library returns.  A
    missing token is printed through a null pointer. *)
Definition create_services (add commit : Z) (hostname_regtype : string) (r : registration) : result registration :=
  match entries r with
  | [] =>
      let! '(hostname, rest) := from_option_err NullDereference (strtok (chars hostname_regtype)) in
      let! '(regtype, _) := from_option_err NullDereference (strtok rest) in
      if add =? AVAHI_SERVER_COLLISION then Ok r
      else
        let r := if add <? 0 then r
                 else MkRegistration (critical_failure r) (register_success r) [(str hostname, str regtype, PORT)] in
        if commit <? 0 then Ok r else Ok (MkRegistration (critical_failure r) true (entries r))
  | _ => Ok r
  end.

Definition client_callback (add commit : Z) (state : AvahiClientState) (hostname_regtype : string) (r : registration)
    : result registration :=
  match state with
  | AVAHI_CLIENT_S_RUNNING => create_services add commit hostname_regtype r
  | _ => Ok r
  end.

(** [Register], after the one poll that runs the callbacks. *)
Definition Avahi_Register (r : registration) : BVStatus :=
  if register_success r then BVSTATUS_OK
  else if critical_failure r then BVSTATUS_FATAL_ERROR
  else BVSTATUS_NOK.

(** ** Lemmas *)

Lemma skip_commas_id c l : c <> ","%char -> skip_commas (c :: l) = c :: l.
Proof. intros Hc. cbn [skip_commas]. by rewrite (proj2 (Ascii.eqb_neq _ _) Hc). Qed.

(** A token before a separator, and a last token. *)
Lemma strtok_token l rest :
  l <> [] -> ","%char ∉ l -> strtok (l ++ ","%char :: rest) = Some (l, rest).
Proof.
  intros Hne Hn. destruct l as [|c l]; [done|]. unfold strtok. cbn [app].
  rewrite skip_commas_id by set_solver. change (c :: l ++ ","%char :: rest) with ((c :: l) ++ ","%char :: rest).
  rewrite find_char_app by done. rewrite take_app_length.
  replace (length (c :: l) + 1)%nat with (length ((c :: l) ++ [","%char])) by (rewrite length_app; done).
  replace ((c :: l) ++ ","%char :: rest) with (((c :: l) ++ [","%char]) ++ rest) by (by rewrite <- (assoc_L (++))).
  by rewrite drop_app_length.
Qed.

Lemma strtok_last l : l <> [] -> ","%char ∉ l -> strtok l = Some (l, []).
Proof.
  intros Hne Hn. destruct l as [|c l]; [done|]. unfold strtok. rewrite skip_commas_id by set_solver.
  by rewrite find_char_None.
Qed.

(** ** Properties *)

(** What is registered with Avahi: a host name without a comma is
    registered as it is, with this program's service type and port, and
    registration succeeds; a host name with a comma is cut there and what
    follows is taken for the service type, so the service is announced under
    a type no peer browses for, while registration still reports success.
    An error in adding the service (the library's errors are negative, the
    constant they are compared with is a positive state) is not noticed: with
    a successful commit registration reports success with nothing announced. *)
Theorem avahi_registration (_hostname a b : string) (_domain : string) (_port add : Z) :
  0 < AVAHI_SERVER_COLLISION -> _hostname <> EmptyString -> ","%char ∉ chars _hostname ->
  a <> EmptyString -> b <> EmptyString -> ","%char ∉ chars a -> ","%char ∉ chars b -> add < 0 ->
  (exists r, client_callback 0 0 AVAHI_CLIENT_S_RUNNING (userdata (BVService_make _hostname _domain _port)) registration_init = Ok r /\
     entries r = [(_hostname, SERVICETYPE_STR, PORT)] /\ Avahi_Register r = BVSTATUS_OK) /\
  (exists r, client_callback 0 0 AVAHI_CLIENT_S_RUNNING (userdata (BVService_make (a +:+ "," +:+ b) _domain _port)) registration_init = Ok r /\
     entries r = [(a, b, PORT)] /\ Avahi_Register r = BVSTATUS_OK) /\
  (exists r, client_callback add 0 AVAHI_CLIENT_S_RUNNING (userdata (BVService_make _hostname _domain _port)) registration_init = Ok r /\
     entries r = [] /\ Avahi_Register r = BVSTATUS_OK).
Proof.
  intros Hc Hh Hhc Ha Hb Hac Hbc Hadd.
  assert (Hne : forall s, s <> EmptyString -> chars s <> []) by (intros [|? ?]; done).
  assert (Ht : strtok (chars SERVICETYPE_STR) = Some (chars SERVICETYPE_STR, [])) by (vm_compute; reflexivity).
  assert (H0 : (0 =? AVAHI_SERVER_COLLISION) = false) by lia.
  assert (H1 : (add =? AVAHI_SERVER_COLLISION) = false) by lia.
  cbn [client_callback]. unfold create_services, userdata. cbn [registration_init entries BVService_make sv_data].
  unfold BVService_host_data. cbn [sd_hostname sd_regtype]. rewrite !chars_app. change (chars ",") with [","%char].
  rewrite <- !(assoc_L (++)). cbn [app].
  rewrite !strtok_token by auto. cbn [from_option_err mbind result_bind]. rewrite H0, H1, (proj2 (Z.ltb_lt add 0)) by lia.
  rewrite Ht, (strtok_token (chars b)) by auto. cbn [from_option_err mbind result_bind Z.ltb Z.compare]. rewrite !str_chars.
  split; [|split]; eexists; repeat split.
Qed.

(** Registering with Bonjour succeeds, and the service counts as
    registered, exactly when the daemon took the request, its result could be
    processed, and neither the replies delivered with it nor any reply before
    carried an error. *)
Theorem bonjour_registration ans (s : BVService) replyError :
  let '(status, s', replyError') := Bonjour_Register ans s replyError in
  (status = BVSTATUS_OK <->
     reg_error ans = kDNSServiceErr_NoError /\ reg_process ans = kDNSServiceErr_NoError /\ replyError = false /\
     Forall (fun c => c = kDNSServiceErr_NoError) (reg_replies ans)) /\
  (status = BVSTATUS_OK -> s' = SetIsRegistered s true) /\ (status <> BVSTATUS_OK -> status = BVSTATUS_NOK /\ s' = s).
Proof.
  assert (Hf : forall l e, fold_left C_RegisterReply l e = false <-> e = false /\ Forall (fun c => c = kDNSServiceErr_NoError) l).
  { induction l as [|c l IH]; intros e; cbn [fold_left]; [by rewrite Forall_nil; tauto|].
    rewrite IH, Forall_cons. unfold C_RegisterReply. destruct (c =? kDNSServiceErr_NoError) eqn:E;
      [apply Z.eqb_eq in E; tauto|apply Z.eqb_neq in E; split; [by intros [? _]|tauto]]. }
  unfold Bonjour_Register, ProcessDNSServiceRegisterResult. specialize (Hf (reg_replies ans) replyError).
  destruct (reg_error ans =? _) eqn:E1; cbn [negb];
    [apply Z.eqb_eq in E1|apply Z.eqb_neq in E1; split; [|done]; split; [done|tauto]].
  destruct (reg_process ans =? _) eqn:E2; cbn [negb];
    [apply Z.eqb_eq in E2|apply Z.eqb_neq in E2; split; [|done]; split; [done|tauto]].
  destruct (fold_left _ _ _); (split; [|done]); split; try done; try tauto.
  intros (_ & _ & Hr & Hl). assert (Hx : true = false) by (apply Hf; by split). done.
Qed.

End Avahi.

(** ** Concrete instance *)

Section ServiceWitnesses.

Lemma avahi_registration_witness :
  exists r, client_callback 3 0 0 AVAHI_CLIENT_S_RUNNING (userdata (BVService_make "ann" "local." PORT)) registration_init = Ok r /\
    entries r = [("ann"%string, SERVICETYPE_STR, PORT)] /\ Avahi_Register r = BVSTATUS_OK.
Proof.
  refine (proj1 (avahi_registration 3 "ann" "an" "n" "local." PORT (-8) _ _ _ _ _ _ _ _)); try discriminate; try lia.
  - apply (bool_decide_unpack _). vm_compute. exact I.
  - apply (bool_decide_unpack _). vm_compute. exact I.
  - apply (bool_decide_unpack _). vm_compute. exact I.
Defined.

End ServiceWitnesses.
