(* ===== verification/GuiClient.v ===== *)
(** * The GUI application ([mac-gui/BVApp_GuiClient.hpp])

    A subclass of the console application: it calls the console's handlers and
    notifies an observer, keeps offers for the user to answer, tracks the
    progress of transfers, moves received files, and posts what the user does
    to the event loop. *)

From Stdlib Require Import ZArith Lia Ascii String.
From stdpp Require Import pretty.
From S2P Require Import Prelude TSQueue Common Broker Component Frames Session FileTransfer ReceivedFile ConnectionManager ConsoleClient.

Inductive BVGuiEvent : Type :=
  | ServicesChanged
  | SessionsChanged
  | MessagesChanged
  | FileProgress
  | FileOffered.

Record BVFileOffer : Type := MkFileOffer {
  fo_correlationKey : Z;
  fo_fileName : string;
  fo_sender : string;
  fo_size : Z
}.

(** What is posted to the event loop: an action of the console's handlers
    (kept by the console application), or one of the GUI's. *)
Inductive task : Type :=
  | Task_Console
  | Task_SendText (serviceName text : string)
  | Task_SendFile (serviceName path : string)
  | Task_Respond (sender : string) (key : Z) (accept : bool).

(** What the operating system does with paths: whether a rename stays on one
    volume and is allowed, and whether a file can be removed. *)
Record Volumes : Type := MkVolumes {
  can_rename : string -> string -> bool;
  can_remove : string -> bool
}.

(** ** Files *)

(** [std::filesystem::rename] of a regular file. *)
Definition rename_file (vol : Volumes) (fs : FileSystem) (src dst : string) : option FileSystem :=
  match files fs !! src with
  | Some l => if can_rename vol src dst
              then Some (MkFS (<[ dst := l ]> (delete src (files fs))) (can_open fs) (can_mkdir fs) (can_write fs))
              else None
  | None => None
  end.

(** [std::filesystem::copy_file], overwriting; copying onto itself fails. *)
Definition copy_file (fs : FileSystem) (src dst : string) : option FileSystem :=
  match files fs !! src with
  | Some l => if (can_open fs dst && can_write fs dst && negb (String.eqb src dst))%bool
              then Some (set_file fs dst l) else None
  | None => None
  end.

(** [std::filesystem::remove] *)
Definition remove_file (vol : Volumes) (fs : FileSystem) (p : string) : FileSystem :=
  if can_remove vol p then MkFS (delete p (files fs)) (can_open fs) (can_mkdir fs) (can_write fs) else fs.

(** Move a received file under [dir]: rename, or copy and remove; the path it
    ends up at. *)
Definition move_received (vol : Volumes) (fs : FileSystem) (src dir serviceName fileName : string)
    : string * FileSystem :=
  if String.eqb dir EmptyString then (src, fs)
  else
    let dst := path_div (path_div dir serviceName) fileName in
    match rename_file vol fs src dst with
    | Some fs => (dst, fs)
    | None =>
        match copy_file fs src dst with
        | Some fs => (dst, remove_file vol fs src)
        | None => (src, fs)
        end
    end.

Fixpoint drop_slashes (l : list ascii) : list ascii :=
  match l with
  | c :: l' => if Ascii.eqb c "/" then drop_slashes l' else l
  | [] => []
  end.

Fixpoint drop_name (l : list ascii) : list ascii :=
  match l with
  | c :: l' => if Ascii.eqb c "/" then l else drop_name l'
  | [] => []
  end.

(** [path::parent_path], on the reversed text. *)
Definition parent_path (p : string) : string :=
  match drop_slashes (drop_name (rev (chars p))) with
  | [] => if is_absolute p then "/" else EmptyString
  | l => str (rev l)
  end.

(** The offer's text up to the first NUL, and its two parts. *)
Definition cut_meta (fdata : list ascii) : list ascii :=
  match find_char NUL fdata with Some z => take z fdata | None => fdata end.

Definition meta_sender (meta : list ascii) : string :=
  match find_char "|" meta with Some bar => str (take bar meta) | None => EmptyString end.

Definition meta_name (meta : list ascii) : string :=
  match find_char "|" meta with Some bar => str (drop (bar + 1) meta) | None => str meta end.

Definition ELLIPSIS : string := str [char_of 226; char_of 128; char_of 166].
Definition PAPERCLIP : string := str [char_of 240; char_of 159; char_of 147; char_of 142].

Section GuiClient.
Context {Q : Type -> Type} `{FifoQueue Q}.

Record Gui : Type := MkGui {
  g_app : App Q;                   (* the base class *)
  g_observer : bool;               (* an observer is set *)
  g_events : list BVGuiEvent;      (* what it has been told *)
  pendingOffers : list BVFileOffer;
  offerSenders : gmap Z string;    (* key -> sender *)
  saveDir : string;
  xferStatus : string;
  xferName : string;
  xferTotal : Z;                   (* uint64_t *)
  xferReceived : Z;                (* uint64_t *)
  g_tasks : list task              (* posted to the ioContext *)
}.

Definition Gui_make (a : App Q) : Gui :=
  MkGui a false [] [] ∅ EmptyString EmptyString EmptyString 0 0 [].

(** The console part changes; each action it posts takes its place among the
    posted tasks. *)
Definition put_app (g : Gui) (a : App Q) : Gui :=
  MkGui a (g_observer g) (g_events g) (pendingOffers g) (offerSenders g) (saveDir g) (xferStatus g) (xferName g)
    (xferTotal g) (xferReceived g)
    (g_tasks g ++ replicate (length (posted_q a) - length (posted_q (g_app g))) Task_Console).
Definition SetObserver (g : Gui) : Gui :=
  MkGui (g_app g) true (g_events g) (pendingOffers g) (offerSenders g) (saveDir g) (xferStatus g) (xferName g)
    (xferTotal g) (xferReceived g) (g_tasks g).
Definition Notify (g : Gui) (e : BVGuiEvent) : Gui :=
  MkGui (g_app g) (g_observer g) (if g_observer g then g_events g ++ [e] else g_events g) (pendingOffers g)
    (offerSenders g) (saveDir g) (xferStatus g) (xferName g) (xferTotal g) (xferReceived g) (g_tasks g).
Definition g_offers (g : Gui) (l : list BVFileOffer) (s : gmap Z string) : Gui :=
  MkGui (g_app g) (g_observer g) (g_events g) l s (saveDir g) (xferStatus g) (xferName g)
    (xferTotal g) (xferReceived g) (g_tasks g).
Definition SetSaveDirectory (g : Gui) (dir : string) : Gui :=
  MkGui (g_app g) (g_observer g) (g_events g) (pendingOffers g) (offerSenders g) dir (xferStatus g) (xferName g)
    (xferTotal g) (xferReceived g) (g_tasks g).
Definition g_xfer (g : Gui) (status name : string) (total received : Z) : Gui :=
  MkGui (g_app g) (g_observer g) (g_events g) (pendingOffers g) (offerSenders g) (saveDir g) status name
    total received (g_tasks g).
Definition g_queue (g : Gui) (l : list task) : Gui :=
  MkGui (g_app g) (g_observer g) (g_events g) (pendingOffers g) (offerSenders g) (saveDir g) (xferStatus g)
    (xferName g) (xferTotal g) (xferReceived g) l.
Definition g_post (g : Gui) (t : task) : Gui := g_queue g (g_tasks g ++ [t]).

(** ** Accessors *)

Definition Services (g : Gui) : list BVServiceBrowseInstance := serviceV (g_app g).
Definition Sessions (g : Gui) : list string := session_names (manager (g_app g)).
Definition MessagesFor (g : Gui) (serviceName : string) : list BVChatMessage :=
  match chatLogsM (g_app g) !! serviceName with Some log => logV log | None => [] end.
Definition TransferStatus (g : Gui) : string :=
  let outgoing := CurrentOutgoingTransferStatus (manager (g_app g)) in
  if String.eqb outgoing EmptyString then xferStatus g else outgoing.

(** ** Actions *)

Definition Shutdown (g : Gui) : result Gui :=
  let! a := app_SendMessage (g_app g) (MkBVMessage BVEVENTTYPE_TERMINATE_ALL None) in
  Ok (put_app g (StopIOContext (a_running a false))).

Definition SendText (g : Gui) (serviceName text : string) : bool * Gui :=
  (true, g_post g (Task_SendText serviceName text)).

Definition SendFile (g : Gui) (serviceName path : string) : bool * Gui :=
  if is_regular_file (g_app g) path then (true, g_post g (Task_SendFile serviceName path)) else (false, g).

Definition AppendChatEntry (g : Gui) (serviceName text sender : string) : Gui :=
  put_app g (log_message (g_app g) serviceName {| cm_textData := text; cm_sender := sender; cm_timestamp := 0 |}).

Definition TakeFileOffers (g : Gui) : list BVFileOffer * Gui :=
  (pendingOffers g, g_offers g [] (offerSenders g)).

Definition RespondToOffer (g : Gui) (key : Z) (accept : bool) : Gui :=
  match offerSenders g !! key with
  | Some sender =>
      let g := g_offers g (pendingOffers g) (delete key (offerSenders g)) in
      if String.eqb sender EmptyString then g else g_post g (Task_Respond sender key accept)
  | None => g
  end.
Definition AcceptFile (g : Gui) (key : Z) : Gui := RespondToOffer g key true.
Definition RejectFile (g : Gui) (key : Z) : Gui := RespondToOffer g key false.

(** What [SendText] posts. *)
Definition send_text (P : asio) (e : env) (g : Gui) (serviceName text : string) : result Gui :=
  match GetSessionIDFromServiceName (manager (g_app g)) serviceName with
  | (BVSTATUS_OK, Some sid) =>
      let msg := ConstructChatMessageFromInput (now e) (chars text) in
      let! '(st, m) := SendDataToNode P (manager (g_app g)) msg sid in
      let g := put_app g (a_manager (g_app g) m) in
      if decide (st = BVSTATUS_FATAL_ERROR) then Ok g
      else
        let mine := {| cm_textData := text; cm_sender := sd_hostname (thisMachineServiceData (manager (g_app g)));
                       cm_timestamp := mh_timestamp (msg_header msg) |} in
        Ok (Notify (put_app g (log_message (g_app g) serviceName mine)) MessagesChanged)
  | _ => Ok g
  end.

(** What [SendFile] posts. *)
Definition send_file (e : env) (g : Gui) (serviceName path : string) : result Gui :=
  match GetSessionIDFromServiceName (manager (g_app g)) serviceName with
  | (BVSTATUS_OK, Some sid) =>
      let! '(_, m) := InitiateFileTransferWithSession e (manager (g_app g)) sid path in
      let g := put_app g (a_manager (g_app g) m) in
      let name := filename path in
      let g := AppendChatEntry g serviceName (PAPERCLIP +:+ " Sent file: " +:+ name)
                 (sd_hostname (thisMachineServiceData (manager (g_app g)))) in
      let g := g_xfer g ("Sent " +:+ name) (xferName g) (xferTotal g) (xferReceived g) in
      Ok (Notify (Notify g MessagesChanged) FileProgress)
  | _ => Ok g
  end.

(** The event loop runs the oldest posted task, until it is stopped. *)
Definition run_task (ctime : Z -> list ascii) (P : asio) (e : env) (g : Gui) : result Gui :=
  if io_stopped (g_app g) then Ok g
  else
    match g_tasks g with
    | [] => Ok g
    | t :: l =>
        let g := g_queue g l in
        match t with
        | Task_Console => let! a := run_posted ctime e (g_app g) in Ok (put_app g a)
        | Task_SendText serviceName text => send_text P e g serviceName text
        | Task_SendFile serviceName path => send_file e g serviceName path
        | Task_Respond sender key accept =>
            let! m := RespondToFileOffer e (manager (g_app g)) sender key accept in
            Ok (put_app g (a_manager (g_app g) m))
        end
    end.

(** ** Event handlers *)

(** A console handler called by the override. *)
Definition base_handler (f : option any -> App Q -> result (BVStatus * App Q)) (dp : option any) (g : Gui)
    : result (BVStatus * Gui) :=
  let! '(s, a) := f dp (g_app g) in Ok (s, put_app g a).

Definition notifying (f : option any -> App Q -> result (BVStatus * App Q)) (e : BVGuiEvent) (dp : option any) (g : Gui)
    : result (BVStatus * Gui) :=
  let! '(s, g) := base_handler f dp g in Ok (s, Notify g e).

Definition gui_HandlePublishedServices := notifying HandlePublishedServices ServicesChanged.
Definition gui_HandleResolvedServices (resolve : string -> Z -> nat -> bool * nat) :=
  notifying (HandleResolvedServices resolve) SessionsChanged.
Definition gui_HandleServiceDeregistration := notifying HandleServiceDeregistration ServicesChanged.
Definition gui_HandleMessageIncoming := notifying HandleMessageIncoming MessagesChanged.

Definition gui_HandleFileOffer (dp : option any) (g : Gui) : result (BVStatus * Gui) :=
  match dp with
  | Some (any_FileData fd) =>
      let meta := cut_meta (fd_fdata fd) in
      let offer := MkFileOffer (fd_correlationKey fd) (meta_name meta) (meta_sender meta) (fd_fsize fd) in
      let g := g_offers g (pendingOffers g ++ [offer]) (<[ fd_correlationKey fd := meta_sender meta ]> (offerSenders g)) in
      Ok (BVSTATUS_OK, Notify g FileOffered)
  | _ => Ok (BVSTATUS_OK, g)
  end.

Definition gui_HandleFileTransferBegin (dp : option any) (g : Gui) : result (BVStatus * Gui) :=
  let g := match dp with
           | Some (any_FileData fd) =>
               let name := meta_name (cut_meta (fd_fdata fd)) in
               g_xfer g ("Receiving " +:+ name +:+ ELLIPSIS +:+ " 0%") name (fd_fsize fd) 0
           | _ => g
           end in
  notifying HandleFileTransferBegin FileProgress dp g.

Definition gui_HandleFileChunkSent (dp : option any) (g : Gui) : result (BVStatus * Gui) :=
  let g := match dp with
           | Some (any_FileData fd) =>
               let received := u64 (xferReceived g + fd_csize fd) in
               let status :=
                 if xferTotal g >? 0 then
                   let pct := u64 (received * 100) / xferTotal g in
                   let pct := if pct >? 100 then 100 else pct in
                   "Receiving " +:+ xferName g +:+ ELLIPSIS +:+ " " +:+ pretty pct +:+ "%"
                 else xferStatus g in
               g_xfer g status (xferName g) (xferTotal g) received
           | _ => g
           end in
  notifying HandleFileChunkSent FileProgress dp g.

Definition gui_HandleFileTransferEnd (vol : Volumes) (dp : option any) (g : Gui) : result (BVStatus * Gui) :=
  let info := match dp with
              | Some (any_FileData fd) => fileTransferData (g_app g) !! fd_correlationKey fd
              | _ => None
              end in
  let! '(s, g) := base_handler HandleFileTransferEnd dp g in
  match info with
  | Some (serviceName, fileName) =>
      let src := PathFor (rootdir (g_app g)) serviceName fileName in
      let '(finalPath, fs) := move_received vol (app_fs (g_app g)) src (saveDir g) serviceName fileName in
      let g := put_app g (set_fs (g_app g) fs) in
      let g := AppendChatEntry g serviceName (PAPERCLIP +:+ " Received file: " +:+ fileName) serviceName in
      let g := g_xfer g ("Saved " +:+ fileName +:+ " to " +:+ parent_path finalPath) (xferName g) 0 0 in
      Ok (s, Notify g MessagesChanged)
  | None => Ok (s, Notify g MessagesChanged)
  end.

(** A handler as the mailbox loop calls it. *)
Definition as_gui_handler (f : option any -> Gui -> result (BVStatus * Gui)) : MessageHandler Q Gui :=
  fun data g m =>
    let! '(st, g) := f data (put_app g (a_manager (g_app g) (m_mail (manager (g_app g)) m))) in
    Ok (st, g, mgr_mail (manager (g_app g))).

(** The console's constructor registers virtual members, which the GUI
    overrides. *)
Definition gui_component (vol : Volumes) (resolve : string -> Z -> nat -> bool * nat) (base : BVComponent)
    : Component Q Gui :=
  let c := Component_make (outMailBox_p base) (inMailBox_p base) (comp_id base) in
  let c := RegisterCallback c BVEVENTTYPE_APP_PUBLISHED_SERVICE (as_gui_handler gui_HandlePublishedServices) in
  let c := RegisterCallback c BVEVENTTYPE_TERMINATE_ALL (as_gui_handler (base_handler OnShutdown)) in
  let c := RegisterCallback c BVEVENTTYPE_APP_DISCOVERY_SERVICE_RESOLVED
             (as_gui_handler (gui_HandleResolvedServices resolve)) in
  let c := RegisterCallback c BVEVENTTYPE_APP_DEREGISTERED_SERVICE (as_gui_handler gui_HandleServiceDeregistration) in
  let c := RegisterCallback c BVEVENTTYPE_APP_MESSAGE_INCOMING (as_gui_handler gui_HandleMessageIncoming) in
  let c := RegisterCallback c BVEVENTTYPE_APP_FILE_OFFER (as_gui_handler gui_HandleFileOffer) in
  let c := RegisterCallback c BVEVENTTYPE_APP_FILE_TRANSFER_BEGIN (as_gui_handler gui_HandleFileTransferBegin) in
  let c := RegisterCallback c BVEVENTTYPE_APP_FILE_TRANSFER_CHUNK_SENT (as_gui_handler gui_HandleFileChunkSent) in
  RegisterCallback c BVEVENTTYPE_APP_FILE_TRANSFER_END (as_gui_handler (gui_HandleFileTransferEnd vol)).

End GuiClient.
Arguments Gui Q : clear implicits.

(** ** Lemmas *)

Section GuiLaws.
Context {Q : Type -> Type} `{FifoQueueLaws Q}.

Lemma put_app_app (g : Gui Q) a : g_app (put_app g a) = a.
Proof. done. Qed.

Lemma Notify_app (g : Gui Q) e : g_app (Notify g e) = g_app g.
Proof. done. Qed.

(** The console part of an answer. *)
Definition console_part (r : result (BVStatus * Gui Q * mail Q)) : result (BVStatus * App Q * mail Q) :=
  let! '(st, g, m) := r in Ok (st, g_app g, m).

(** Preparing the GUI's own fields and notifying leave the console's handler
    as it is. *)
Lemma notifying_refines f e (prep : option any -> Gui Q -> Gui Q) data (g : Gui Q) m :
  (forall dp g', g_app (prep dp g') = g_app g') ->
  console_part (as_gui_handler (fun dp g => notifying f e dp (prep dp g)) data g m) =
  as_handler f data (g_app g) m.
Proof.
  intros Hp. unfold console_part, as_gui_handler, as_handler, notifying, base_handler.
  rewrite Hp. cbn [put_app g_app]. by destruct (f data _) as [[st a]|].
Qed.

Lemma meta_sender_ok svc fname rest :
  "|"%char ∉ chars svc -> NUL ∉ chars svc -> NUL ∉ chars fname ->
  cut_meta (chars (svc +:+ "|" +:+ fname) ++ NUL :: rest) = chars (svc +:+ "|" +:+ fname) /\
  meta_sender (chars (svc +:+ "|" +:+ fname)) = svc /\ meta_name (chars (svc +:+ "|" +:+ fname)) = fname.
Proof.
  intros Hb Hs Hf. assert (Hn : NUL ∉ chars (svc +:+ "|" +:+ fname)).
  { rewrite !chars_app, !elem_of_app. change (chars "|") with ["|"%char].
    intros [?|[Hx|?]]; try done. apply list_elem_of_singleton in Hx. discriminate. }
  split; [unfold cut_meta; rewrite find_char_app by done; apply take_app_length|].
  pose proof (split_name_ok svc fname Hb) as Hsp. unfold split_name in Hsp. unfold meta_sender, meta_name.
  revert Hsp. rewrite !chars_app. change (chars "|") with ["|"%char]. cbn [app]. rewrite find_char_app by done.
  by intros [= -> ->].
Qed.

(** Every handler but those of offers and ends of transfers. *)
Lemma handlers_refine vol resolve base ev hg hc data (g : Gui Q) m :
  ev <> BVEVENTTYPE_APP_FILE_OFFER -> ev <> BVEVENTTYPE_APP_FILE_TRANSFER_END ->
  callback_m (gui_component vol resolve base) !! ev = Some hg ->
  callback_m (console_component (Q := Q) resolve base) !! ev = Some hc ->
  console_part (hg data g m) = hc data (g_app g) m.
Proof.
  intros Ho He. unfold gui_component, console_component, RegisterCallback. cbn [callback_m Component_make].
  destruct ev; try done; repeat (first [rewrite lookup_insert_eq|rewrite lookup_insert_ne by done]); rewrite ?lookup_empty;
    try done; intros [= <-] [= <-].
  all: unfold console_part, as_gui_handler, as_handler, gui_HandlePublishedServices, gui_HandleResolvedServices,
    gui_HandleServiceDeregistration, gui_HandleMessageIncoming, gui_HandleFileTransferBegin, gui_HandleFileChunkSent,
    notifying, base_handler.
  all: destruct data as [[]|]; cbn [put_app g_app g_xfer].
  all: match goal with |- context [?f] => match type of f with result (BVStatus * App Q) => by destruct f as [[]|] end end.
Qed.

Lemma end_handler_mail vol data (g : Gui Q) m :
  (let! '(st, _, m') := as_gui_handler (gui_HandleFileTransferEnd vol) data g m in Ok (st, m')) =
  (let! '(st, _, m') := as_handler HandleFileTransferEnd data (g_app g) m in Ok (st, m')).
Proof.
  unfold as_gui_handler, as_handler, gui_HandleFileTransferEnd, base_handler. cbn [put_app g_app].
  destruct (HandleFileTransferEnd data _) as [[st a]|]; [|done]. cbn [mbind result_bind put_app g_app].
  destruct (match data with Some (any_FileData fd) => _ | _ => None end) as [[svc f]|]; [|done].
  by destruct (move_received vol _ _ _ svc f) as [p fs].
Qed.

(** A [BEGIN] and an [END], with what they do to the files. *)
Lemma begin_event_files (a : App Q) m key csize fsize svc fname :
  "|"%char ∉ chars svc -> receivable (app_fs a) (rootdir a) svc fname ->
  exists a', as_handler HandleFileTransferBegin
      (data_p (file_event BVEVENTTYPE_APP_FILE_TRANSFER_BEGIN key csize fsize (chars (svc +:+ "|" +:+ fname)))) a m =
      Ok (BVSTATUS_OK, a', m) /\
    fileTransferData a' !! key = Some (svc, fname) /\ rootdir a' = rootdir a /\
    app_fs a' = set_file (app_fs a) (PathFor (rootdir a) svc fname) [].
Proof.
  intros Hn Hr. unfold as_handler, HandleFileTransferBegin, file_event. cbn [data_p fd_fdata fd_correlationKey].
  rewrite split_name_ok by done. cbn [a_manager app_fs rootdir]. rewrite (Begin_ok _ _ _ _ Hr).
  rewrite decide_False by tauto. cbn [mbind result_bind]. eexists. split; [reflexivity|].
  split; [apply lookup_insert_eq|done].
Qed.

Lemma end_files (a : App Q) key csize fsize svc fname fs l data :
  fileTransferData a !! key = Some (svc, fname) -> receivable fs (rootdir a) svc fname ->
  app_fs a = set_file fs (PathFor (rootdir a) svc fname) l -> (Z.to_nat fsize <= length (l ++ data))%nat ->
  exists a', HandleFileTransferEnd
      (data_p (file_event BVEVENTTYPE_APP_FILE_TRANSFER_END key csize fsize data)) a = Ok (BVSTATUS_OK, a') /\
    fileTransferData a' = delete key (fileTransferData a) /\ rootdir a' = rootdir a /\
    mgr_mail (manager a') = mgr_mail (manager a) /\
    app_fs a' = set_file fs (PathFor (rootdir a) svc fname) (take (Z.to_nat fsize) (l ++ data)).
Proof.
  intros He Hos Hfs Hlen. unfold HandleFileTransferEnd, file_event.
  cbn [data_p fd_fdata fd_correlationKey fd_fsize].
  rewrite He, Hfs, Finish_ok by done. rewrite decide_False by tauto.
  replace (_ - _)%nat with 0%nat by lia. rewrite app_nil_r. eexists. by split; [reflexivity|].
Qed.

Lemma end_event_files (a : App Q) m key csize fsize svc fname fs l data :
  fileTransferData a !! key = Some (svc, fname) -> receivable fs (rootdir a) svc fname ->
  app_fs a = set_file fs (PathFor (rootdir a) svc fname) l -> (Z.to_nat fsize <= length (l ++ data))%nat ->
  exists a', as_handler HandleFileTransferEnd
      (data_p (file_event BVEVENTTYPE_APP_FILE_TRANSFER_END key csize fsize data)) a m = Ok (BVSTATUS_OK, a', m) /\
    fileTransferData a' = delete key (fileTransferData a) /\
    app_fs a' = set_file fs (PathFor (rootdir a) svc fname) (take (Z.to_nat fsize) (l ++ data)).
Proof.
  intros He Hos Hfs Hlen.
  destruct (end_files (a_manager a (m_mail (manager a) m)) key csize fsize svc fname fs l data He Hos Hfs Hlen)
    as (a' & Hh & Hd & _ & Hm & Hf).
  unfold as_handler. rewrite Hh. cbn [mbind result_bind]. rewrite Hm. by exists a'.
Qed.

(** Where [move_received] leaves a file. *)
Lemma move_received_ok vol fs src dir svc fname l :
  dir <> EmptyString -> files fs !! src = Some l ->
  let dst := path_div (path_div dir svc) fname in
  dst <> src ->
  let kept := if (can_rename vol src dst || (can_open fs dst && can_write fs dst))%bool then dst else src in
  exists fs', move_received vol fs src dir svc fname = (kept, fs') /\ files fs' !! kept = Some l.
Proof.
  intros Hd Hl dst Hne. unfold move_received. rewrite (proj2 (String.eqb_neq _ _) Hd). fold dst. cbn zeta.
  unfold rename_file, copy_file. rewrite Hl. destruct (can_rename vol src dst); cbn [orb].
  { eexists. split; [reflexivity|]. cbn [files]. apply lookup_insert_eq. }
  rewrite (proj2 (String.eqb_neq src dst)) by congruence. rewrite andb_true_r.
  destruct (can_open fs dst && can_write fs dst)%bool; [|by exists fs].
  eexists. split; [reflexivity|]. unfold remove_file.
  destruct (can_remove vol src); cbn [set_file files]; [rewrite lookup_delete_ne by congruence|]; apply lookup_insert_eq.
Qed.

(** A chunk or an end under a key that names no transfer. *)
Lemma unknown_key_fatal (a : App Q) m key csize n d :
  fileTransferData a !! key = None ->
  let b := a_manager a (m_mail (manager a) m) in
  as_handler HandleFileChunkSent (data_p (file_event BVEVENTTYPE_APP_FILE_TRANSFER_CHUNK_SENT key csize n d)) a m =
    Ok (BVSTATUS_FATAL_ERROR, b, m) /\
  as_handler HandleFileTransferEnd (data_p (file_event BVEVENTTYPE_APP_FILE_TRANSFER_END key csize n d)) a m =
    Ok (BVSTATUS_FATAL_ERROR, b, m).
Proof.
  intros Hk. unfold as_handler, HandleFileChunkSent, HandleFileTransferEnd, file_event.
  cbn [data_p fd_correlationKey a_manager fileTransferData]. by rewrite Hk.
Qed.

End GuiLaws.

(** ** Properties *)

Section GuiProperties.
Context {Q : Type -> Type} `{FifoQueueLaws Q}.

(** A text sent from the GUI is a chat line of the console: the posted
    task does to the application exactly what the console's [SendChatLine]
    does with a line that is not a file command, whatever the session's state,
    failures included.  Any text that the manager does not refuse, one that
    looks like a file command included, is the last of the messages shown for
    the peer, and the observer is told. *)
Theorem send_text_is_chat_line P e (g : Gui Q) serviceName text :
  take 3 (chars text) <> chars "|f " ->
  (let! g' := send_text P e g serviceName text in Ok (g_app g')) =
    SendChatLine P e (g_app g) serviceName (chars text) /\
  forall t sid st m, GetSessionIDFromServiceName (manager (g_app g)) serviceName = (BVSTATUS_OK, Some sid) ->
    SendDataToNode P (manager (g_app g)) (ConstructChatMessageFromInput (now e) (chars t)) sid = Ok (st, m) ->
    st <> BVSTATUS_FATAL_ERROR ->
    exists g', send_text P e g serviceName t = Ok g' /\ manager (g_app g') = m /\
      cm_textData <$> MessagesFor g' serviceName = (cm_textData <$> MessagesFor g serviceName) ++ [t] /\
      (g_observer g = true -> g_events g' = g_events g ++ [MessagesChanged]).
Proof.
  intros Hf. split.
  - unfold send_text, SendChatLine. destruct (GetSessionIDFromServiceName _ serviceName) as [[] [sid|]]; try done.
    rewrite bool_decide_false by done. cbn zeta.
    destruct (SendDataToNode P _ _ sid) as [[st m]|]; [|done]. cbn [mbind result_bind].
    rewrite put_app_app. destruct (decide (st = BVSTATUS_FATAL_ERROR)); [done|]. cbn [mbind result_bind].
    by rewrite Notify_app, put_app_app, str_chars.
  - intros t sid st m Hs Hd Hst. unfold send_text. rewrite Hs. cbn zeta. rewrite Hd. cbn [mbind result_bind].
    rewrite decide_False by done. eexists. split; [reflexivity|]. split; [done|].
    split; [|intros Ho; cbn [Notify put_app g_events g_observer]; by rewrite Ho].
    unfold MessagesFor. cbn [Notify put_app g_app log_message a_logs a_manager chatLogsM].
    destruct (chatLogsM (g_app g) !! serviceName) as [log|]; rewrite lookup_insert_eq;
      cbn [AddMessage BVChatMessageLog_make logV]; by rewrite ?fmap_app.
Qed.

(** C24.  The GUI refines the console: for every event but a file offer and
    the end of a transfer, its handler leaves the application and the mail as
    the console's handler does, status and errors included; at the end of a
    transfer the status and the mail are the console's. *)
Theorem gui_refines_console vol resolve base ev hg hc data (g : Gui Q) m :
  ev <> BVEVENTTYPE_APP_FILE_OFFER ->
  callback_m (gui_component vol resolve base) !! ev = Some hg ->
  callback_m (console_component (Q := Q) resolve base) !! ev = Some hc ->
  (ev <> BVEVENTTYPE_APP_FILE_TRANSFER_END -> console_part (hg data g m) = hc data (g_app g) m) /\
  (let! '(st, _, m') := hg data g m in Ok (st, m')) = (let! '(st, _, m') := hc data (g_app g) m in Ok (st, m')).
Proof.
  intros Hne Hg Hc. destruct (decide (ev = BVEVENTTYPE_APP_FILE_TRANSFER_END)) as [->|Hend].
  - destruct (console_callbacks (Q := Q) resolve base) as (_ & _ & HE & _). rewrite HE in Hc. injection Hc as <-.
    unfold gui_component, RegisterCallback in Hg. cbn [callback_m] in Hg.
    rewrite lookup_insert_eq in Hg. injection Hg as <-. split; [done|].
    apply end_handler_mail.
  - assert (Heq : console_part (hg data g m) = hc data (g_app g) m) by (by apply (handlers_refine vol resolve base ev)).
    split; [done|]. rewrite <- Heq. unfold console_part. by destruct (hg data g m) as [[[st g'] m']|].
Qed.

(** An incoming offer, as the session pushes it. *)
Definition offer_data (key fsize : Z) (svc fname : string) : option any :=
  data_p (file_event BVEVENTTYPE_APP_FILE_OFFER key 0 fsize (chars (svc +:+ "|" +:+ fname) ++ [NUL])).

(** Offers are answered by key alone: each offer is surfaced once, in
    order of arrival, and an answer goes, once, to the sender of the last
    offer with its key.  So when two peers offer under the same key, and every
    machine numbers its offers from 0, accepting the first offer accepts the
    second peer's and the first peer is never answered. *)
Theorem same_key_offers_misrouted key n1 n2 s1 f1 s2 f2 (g : Gui Q) :
  Forall (fun s => "|"%char ∉ chars s /\ NUL ∉ chars s) [s1; s2] -> NUL ∉ chars f1 -> NUL ∉ chars f2 ->
  s2 <> EmptyString -> pendingOffers g = [] ->
  exists g1 g2 g3,
    gui_HandleFileOffer (offer_data key n1 s1 f1) g = Ok (BVSTATUS_OK, g1) /\
    gui_HandleFileOffer (offer_data key n2 s2 f2) g1 = Ok (BVSTATUS_OK, g2) /\
    TakeFileOffers g2 = ([MkFileOffer key f1 s1 n1; MkFileOffer key f2 s2 n2], g3) /\ (TakeFileOffers g3).1 = [] /\
    g_tasks (AcceptFile g3 key) = g_tasks g ++ [Task_Respond s2 key true] /\
    (forall accept, RespondToOffer (AcceptFile g3 key) key accept = AcceptFile g3 key).
Proof.
  intros Hs Hf1 Hf2 Hne Hp. apply Forall_cons in Hs as [[Hb1 Hn1] [[Hb2 Hn2] _]%Forall_cons].
  destruct (meta_sender_ok s1 f1 [] Hb1 Hn1 Hf1) as (Hc1 & Hm1 & Hv1).
  destruct (meta_sender_ok s2 f2 [] Hb2 Hn2 Hf2) as (Hc2 & Hm2 & Hv2).
  eexists _, _, _. unfold gui_HandleFileOffer, offer_data, file_event. cbn [data_p fd_fdata fd_correlationKey fd_fsize].
  rewrite Hc1, Hm1, Hv1, Hc2, Hm2, Hv2. split; [reflexivity|]. split; [reflexivity|].
  unfold TakeFileOffers. cbn [Notify g_offers pendingOffers offerSenders g_tasks]. rewrite Hp. split; [reflexivity|].
  split; [done|]. unfold AcceptFile, RespondToOffer. cbn [g_offers offerSenders]. rewrite lookup_insert_eq.
  rewrite (proj2 (String.eqb_neq _ _) Hne). split; [done|]. intros accept.
  cbn [g_post g_queue g_offers offerSenders]. by rewrite lookup_delete_eq.
Qed.

(** Incoming transfers are told apart by key alone: when two peers send
    under the same key at the same time, the first one's chunks go into the
    second one's file, and its end finishes and forgets that transfer; the
    first one's own file stays empty, and the second one's next chunk or end
    is a fatal error. *)
Theorem same_key_transfers_mixed (a : App Q) (m : mail Q) key csize s1 f1 n1 s2 f2 n2 data :
  "|"%char ∉ chars s1 -> "|"%char ∉ chars s2 ->
  receivable (app_fs a) (rootdir a) s1 f1 -> receivable (app_fs a) (rootdir a) s2 f2 ->
  PathFor (rootdir a) s1 f1 <> PathFor (rootdir a) s2 f2 -> (Z.to_nat n1 <= length data)%nat ->
  exists a1 a2 a3,
    as_handler HandleFileTransferBegin (data_p (file_event BVEVENTTYPE_APP_FILE_TRANSFER_BEGIN key csize n1
      (chars (s1 +:+ "|" +:+ f1)))) a m = Ok (BVSTATUS_OK, a1, m) /\
    as_handler HandleFileTransferBegin (data_p (file_event BVEVENTTYPE_APP_FILE_TRANSFER_BEGIN key csize n2
      (chars (s2 +:+ "|" +:+ f2)))) a1 m = Ok (BVSTATUS_OK, a2, m) /\
    as_handler HandleFileTransferEnd (data_p (file_event BVEVENTTYPE_APP_FILE_TRANSFER_END key csize n1 data)) a2 m =
      Ok (BVSTATUS_OK, a3, m) /\
    files (app_fs a3) !! PathFor (rootdir a) s1 f1 = Some [] /\
    files (app_fs a3) !! PathFor (rootdir a) s2 f2 = Some (take (Z.to_nat n1) data) /\
    forall csize n d, exists a4,
      as_handler HandleFileChunkSent (data_p (file_event BVEVENTTYPE_APP_FILE_TRANSFER_CHUNK_SENT key csize n d)) a3 m =
        Ok (BVSTATUS_FATAL_ERROR, a4, m) /\
      as_handler HandleFileTransferEnd (data_p (file_event BVEVENTTYPE_APP_FILE_TRANSFER_END key csize n d)) a3 m =
        Ok (BVSTATUS_FATAL_ERROR, a4, m).
Proof.
  intros Hb1 Hb2 Hr1 Hr2 Hne Hlen.
  destruct (begin_event_files a m key csize n1 s1 f1 Hb1 Hr1) as (a1 & HB1 & _ & Hrt1 & Hfs1).
  destruct (begin_event_files a1 m key csize n2 s2 f2 Hb2) as (a2 & HB2 & Hk2 & Hrt2 & Hfs2).
  { rewrite Hrt1, Hfs1. by apply receivable_set. }
  destruct (end_event_files a2 m key csize n1 s2 f2 (app_fs a1) [] data Hk2) as (a3 & HE & Hdel & Hfs3).
  { rewrite Hrt2, Hrt1, Hfs1. by apply receivable_set. }
  { by rewrite Hfs2, Hrt2. }
  { done. }
  rewrite Hrt2, Hrt1, Hfs1 in Hfs3. exists a1, a2, a3. split; [exact HB1|]. split; [exact HB2|]. split; [exact HE|].
  rewrite Hfs3. split; [|split; [apply set_file_lookup|]].
  - cbn [set_file files]. rewrite lookup_insert_ne by done. apply lookup_insert_eq.
  - intros csz n d. eexists. apply unknown_key_fatal. rewrite Hdel. apply lookup_delete_eq.
Qed.

(** A received file is kept where the user asked: when the console's
    handler finishes a transfer and a save directory is set that the file can
    be renamed or copied into, the file is afterwards under the sender's
    directory there with the bytes received, the status line names that
    directory, the sender's log says so, and the transfer is forgotten; when
    it can be neither, it stays where it was. *)
Theorem received_file_kept vol (g : Gui Q) key csize fsize svc fname fs l data :
  fileTransferData (g_app g) !! key = Some (svc, fname) -> receivable fs (rootdir (g_app g)) svc fname ->
  app_fs (g_app g) = set_file fs (PathFor (rootdir (g_app g)) svc fname) l ->
  (Z.to_nat fsize <= length (l ++ data))%nat -> saveDir g <> EmptyString ->
  let src := PathFor (rootdir (g_app g)) svc fname in
  let dir := path_div (saveDir g) svc in
  let dst := path_div dir fname in
  dst <> src ->
  exists g', gui_HandleFileTransferEnd vol
      (data_p (file_event BVEVENTTYPE_APP_FILE_TRANSFER_END key csize fsize data)) g = Ok (BVSTATUS_OK, g') /\
    (fileTransferData (g_app g') = delete key (fileTransferData (g_app g))) /\
    (let kept := if (can_rename vol src dst || (can_open fs dst && can_write fs dst))%bool then dst else src in
     files (app_fs (g_app g')) !! kept = Some (take (Z.to_nat fsize) (l ++ data)) /\
     xferStatus g' = "Saved " +:+ fname +:+ " to " +:+ parent_path kept) /\
    cm_textData <$> last (MessagesFor g' svc) = Some (PAPERCLIP +:+ " Received file: " +:+ fname).
Proof.
  intros He Hos Hfs Hlen Hdir src dir dst Hne. unfold gui_HandleFileTransferEnd, base_handler.
  destruct (end_files (g_app g) key csize fsize svc fname fs l data He Hos Hfs Hlen) as (a' & Hh & Hd & Hrt & _ & Hf).
  rewrite Hh. cbn [mbind result_bind file_event data_p fd_correlationKey]. rewrite He.
  cbn [put_app g_app saveDir]. rewrite Hrt, Hf. fold src.
  destruct (move_received_ok vol (set_file fs src (take (Z.to_nat fsize) (l ++ data))) src (saveDir g) svc fname
    (take (Z.to_nat fsize) (l ++ data)) Hdir (set_file_lookup _ _ _) Hne) as (fs' & Hmv & Hk).
  fold dir in Hmv, Hk. fold dst in Hmv, Hk. rewrite Hmv. eexists. split; [reflexivity|]. split; [exact Hd|].
  split; [split; [exact Hk|reflexivity]|]. unfold MessagesFor.
  cbn [Notify g_xfer AppendChatEntry put_app g_app log_message a_logs chatLogsM].
  destruct (chatLogsM _ !! svc) as [log|]; rewrite lookup_insert_eq; cbn [AddMessage BVChatMessageLog_make logV app];
    [by rewrite last_snoc|done].
Qed.

End GuiProperties.

(** ** Concrete instances *)

Section GuiWitnesses.

Definition ex_gui : Gui threadsafe_queue := SetObserver (Gui_make ex_app).
Definition ex_volumes : Volumes := MkVolumes (fun _ _ => false) (fun _ => true).

Lemma send_text_is_chat_line_witness :
  (let! g' := send_text ex_lazy ex_env ex_gui "bob" "hi" in Ok (g_app g')) =
    SendChatLine ex_lazy ex_env (g_app ex_gui) "bob" (chars "hi").
Proof. apply (send_text_is_chat_line ex_lazy ex_env ex_gui "bob" "hi"). discriminate. Defined.

Lemma gui_refines_console_witness :
  console_part (as_gui_handler gui_HandleMessageIncoming None ex_gui ex_store) =
    as_handler HandleMessageIncoming None (g_app ex_gui) ex_store.
Proof.
  apply (gui_refines_console ex_volumes ex_resolve ex_base BVEVENTTYPE_APP_MESSAGE_INCOMING);
    [discriminate|reflexivity|reflexivity|discriminate].
Defined.

Lemma same_key_offers_misrouted_witness :
  exists g1 g2 g3,
    gui_HandleFileOffer (offer_data 0 5 "ann" "a.txt") ex_gui = Ok (BVSTATUS_OK, g1) /\
    gui_HandleFileOffer (offer_data 0 7 "bob" "b.txt") g1 = Ok (BVSTATUS_OK, g2) /\
    (TakeFileOffers g2).2 = g3 /\ g_tasks (AcceptFile g3 0) = [Task_Respond "bob" 0 true].
Proof.
  destruct (same_key_offers_misrouted 0 5 7 "ann" "a.txt" "bob" "b.txt" ex_gui)
    as (g1 & g2 & g3 & H1 & H2 & H3 & _ & H4 & _).
  - apply (bool_decide_unpack _). vm_compute. exact I.
  - apply (bool_decide_unpack _). vm_compute. exact I.
  - apply (bool_decide_unpack _). vm_compute. exact I.
  - discriminate.
  - reflexivity.
  - exists g1, g2, g3. split; [exact H1|]. split; [exact H2|]. split; [by rewrite H3|exact H4].
Defined.

Lemma same_key_transfers_mixed_witness :
  exists a3 : App threadsafe_queue,
    files (app_fs a3) !! PathFor "/srv" "ann" "a.txt" = Some [] /\
    files (app_fs a3) !! PathFor "/srv" "bob" "b.txt" = Some (chars "hello").
Proof.
  destruct (same_key_transfers_mixed ex_app ex_store 0 64 "ann" "a.txt" 5 "bob" "b.txt" 9 (chars "hello world"))
    as (a1 & a2 & a3 & _ & _ & _ & H1 & H2 & _).
  - apply (bool_decide_unpack _). vm_compute. exact I.
  - apply (bool_decide_unpack _). vm_compute. exact I.
  - by split.
  - by split.
  - discriminate.
  - cbn. lia.
  - exists a3. split; [exact H1|exact H2].
Defined.

(** A transfer under way: one chunk has been written. *)
Definition ex_path : string := PathFor "/srv" "bob" "b.txt".
Definition ex_receiving : Gui threadsafe_queue :=
  SetSaveDirectory (put_app ex_gui
    (a_transfers (set_fs ex_app (set_file ex_os ex_path (chars "hello "))) {[ 0 := ("bob"%string, "b.txt"%string) ]})) "/home/ann".

Lemma received_file_kept_witness :
  exists g', gui_HandleFileTransferEnd ex_volumes
      (data_p (file_event BVEVENTTYPE_APP_FILE_TRANSFER_END 0 6 11 (chars "world!"))) ex_receiving = Ok (BVSTATUS_OK, g') /\
    files (app_fs (g_app g')) !! "/home/ann/bob/b.txt"%string = Some (chars "hello world") /\
    xferStatus g' = "Saved b.txt to /home/ann/bob"%string.
Proof.
  destruct (received_file_kept ex_volumes ex_receiving 0 6 11 "bob" "b.txt" ex_os (chars "hello ") (chars "world!"))
    as (g' & H1 & _ & (H2 & H3) & _).
  - reflexivity.
  - by split.
  - reflexivity.
  - cbn. lia.
  - discriminate.
  - discriminate.
  - exists g'. split; [exact H1|]. split; [exact H2|exact H3].
Defined.

End GuiWitnesses.
