(* ===== verification/Wiring.v ===== *)
(** * The program put together ([src/main.cpp], [mac-gui/BVChatCore.hpp])

    [main] creates the broker and two components, attaches both and subscribes
    each to its events; [BVChatCore::start] does the same around the GUI
    client.  Quitting sends [TERMINATE_ALL], which every loop ends on. *)

From Stdlib Require Import ZArith Lia Ascii String.
From S2P Require Import Prelude TSQueue Common Broker Component Discovery Bonjour Session ReceivedFile ConnectionManager ConsoleClient.

(** The events discovery is subscribed to, in [main]'s order. *)
Definition discovery_events : list BVEventType :=
  [BVEVENTTYPE_DISCOVERY_REQUEST_START; BVEVENTTYPE_DISCOVERY_REQUEST_PAUSE; BVEVENTTYPE_DISCOVERY_REQUEST_RESUME;
   BVEVENTTYPE_TERMINATE_ALL; BVEVENTTYPE_DISCOVERY_REQUEST_SHUTDOWN; BVEVENTTYPE_DISCOVERY_REQUEST_RESTART;
   BVEVENTTYPE_DISCOVERY_REQUEST_RESOLVE].

(** The events the application is subscribed to. *)
Definition app_events : list BVEventType :=
  [BVEVENTTYPE_APP_PUBLISHED_SERVICE; BVEVENTTYPE_APP_DISCOVERY_SERVICE_RESOLVED; BVEVENTTYPE_TERMINATE_ALL;
   BVEVENTTYPE_APP_DEREGISTERED_SERVICE; BVEVENTTYPE_APP_MESSAGE_INCOMING; BVEVENTTYPE_APP_FILE_TRANSFER_BEGIN;
   BVEVENTTYPE_APP_FILE_TRANSFER_CHUNK_SENT; BVEVENTTYPE_APP_FILE_TRANSFER_END].

(** One [Subscribe] per event; every status is looked at in the end. *)
Fixpoint subscribe_each (sid : SubscriberID) (l : list BVEventType) (b : BVBroker) : bool * BVBroker :=
  match l with
  | [] => (true, b)
  | e :: l =>
      let '(st, b) := Subscribe b sid e in
      let '(ok, b) := subscribe_each sid l b in
      ((bool_decide (st = BVSTATUS_OK) && ok)%bool, b)
  end.

Section Wiring.
Context {Q : Type -> Type} `{FifoQueue Q}.

Record program : Type := MkProgram {
  p_broker : BVBroker;
  p_mail : mail Q;
  p_discovery : BVComponent;
  p_app : BVComponent
}.

(** The objects, each component with two mailboxes of its own. *)
Definition construct (m : mail Q) : program :=
  let '(inbox, m) := make_box m in
  let '(d_out, m) := make_box m in
  let '(d_in, m) := make_box m in
  let '(a_out, m) := make_box m in
  let '(a_in, m) := make_box m in
  MkProgram (BVBroker_make inbox) m (MkComponent d_out d_in 0) (MkComponent a_out a_in 0).

Definition subscribe_both (b : BVBroker) (m : mail Q) (discovery app : BVComponent) : option program :=
  let '(okd, b) := subscribe_each (comp_id discovery) discovery_events b in
  let '(oka, b) := subscribe_each (comp_id app) app_events b in
  if (okd && oka)%bool then Some (MkProgram b m discovery app) else None.

(** [main], up to the start of the threads; [None] is [exit (-1)]. *)
Definition main_setup (m : mail Q) : option program :=
  let p := construct m in
  let '(attachStatusDiscovery, b, m, discovery) := Attach (p_broker p) (p_discovery p) (p_mail p) in
  let '(attachStatusApp, b, m, consoleClient) := Attach b (p_app p) m in
  if decide (attachStatusDiscovery <> BVSTATUS_OK \/ attachStatusApp <> BVSTATUS_OK) then None
  else subscribe_both b m discovery consoleClient.

(** [BVChatCore::start], up to the start of the threads; [None] is [false].
    The second [Attach] is not tried when the first fails. *)
Definition core_start (m : mail Q) : option program :=
  let p := construct m in
  let '(st, b, m, discovery) := Attach (p_broker p) (p_discovery p) (p_mail p) in
  if decide (st <> BVSTATUS_OK) then None
  else
    let '(st, b, m, app) := Attach b (p_app p) m in
    if decide (st <> BVSTATUS_OK) then None else subscribe_both b m discovery app.

(** The end of [main], after the threads are joined; [false] is [exit (-1)]. *)
Definition main_end (b : BVBroker) (discovery app : BVComponent) : bool * BVBroker :=
  let '(dDiscoveryStatus, b) := Detach b (comp_id discovery) in
  let '(dAppStatus, b) := Detach b (comp_id app) in
  ((bool_decide (dDiscoveryStatus = BVSTATUS_OK) && bool_decide (dAppStatus = BVSTATUS_OK))%bool, b).

(** ** Specification vocabulary *)

(** Messages sent to the broker, in order. *)
Fixpoint send_all (q : qref) (l : list BVMessage) (m : mail Q) : result (mail Q) :=
  match l with
  | [] => Ok m
  | msg :: l => let! m := push_msg m q msg in send_all q l m
  end.

Fixpoint upto_terminate (l : list BVMessage) : list BVMessage :=
  match l with
  | [] => []
  | msg :: l => msg :: (if decide (event_t msg = BVEVENTTYPE_TERMINATE_ALL) then [] else upto_terminate l)
  end.

(** The messages for a component subscribed to [events]. *)
Definition mail_for (events : list BVEventType) (l : list BVMessage) : list BVMessage :=
  filter (fun msg => event_t msg ∈ events) (upto_terminate l).

(** The messages a component has a handler for. *)
Definition handled {W} (c : Component Q W) (l : list BVMessage) : list BVMessage :=
  filter (fun msg => is_Some (callback_m c !! event_t msg)) (upto_terminate l).

End Wiring.
Arguments program Q : clear implicits.

Section WiringLaws.
Context {Q : Type -> Type} `{FifoQueueLaws Q}.

(** ** What the set-up establishes *)

Record wired (p : program Q) : Prop := {
  wi_inv : broker_inv (p_broker p, p_mail p);
  wi_run : isRunning (p_broker p) = true;
  wi_ids : comp_id (p_discovery p) <> comp_id (p_app p);
  wi_live : forall sid q, live (p_broker p) sid q <->
    (sid = comp_id (p_discovery p) /\ q = inMailBox_p (p_discovery p)) \/
    (sid = comp_id (p_app p) /\ q = inMailBox_p (p_app p));
  wi_subs : forall sid e, subscribed (p_broker p) sid e <->
    (sid = comp_id (p_discovery p) /\ e ∈ discovery_events) \/ (sid = comp_id (p_app p) /\ e ∈ app_events);
  wi_out : outMailBox_p (p_discovery p) = broker_inMailBox_p (p_broker p) /\
           outMailBox_p (p_app p) = broker_inMailBox_p (p_broker p);
  wi_empty : forall q, q = broker_inMailBox_p (p_broker p) \/ q = inMailBox_p (p_discovery p) \/ q = inMailBox_p (p_app p) ->
    mail_holds (p_mail p) q []
}.

Lemma subscribed_each sid l (subs : gmap BVEventType (list SubscriberID)) s e :
  s ∈ default [] (fold_left (add_sub sid) l subs !! e) <-> s ∈ default [] (subs !! e) \/ (s = sid /\ e ∈ l).
Proof.
  revert subs. induction l as [|e0 l IH]; intros subs; cbn [fold_left]; [set_solver|].
  rewrite IH, add_sub_lookup. destruct (decide (e = e0)) as [->|Hne]; [|set_solver].
  cbn [default]. case_bool_decide; set_solver.
Qed.

Lemma subscribe_each_ok sid q l b :
  live b sid q -> subscribe_each sid l b = (true, set_subs_m b (fold_left (add_sub sid) l (subs_m b))).
Proof.
  revert b. induction l as [|e l IH]; intros b Hl; cbn [subscribe_each fold_left]; [by destruct b|].
  unfold Subscribe. rewrite Hl. by rewrite IH.
Qed.

Lemma Attach_running b c (m : mail Q) st b' m' c' :
  0 <= currentSubscriberId b < 256 -> Attach b c m = (st, b', m', c') -> isRunning b' = isRunning b.
Proof.
  intros Hc. assert (Hat : forall b1 b2 m2 st2 c2, 0 <= currentSubscriberId b1 < 256 ->
    attach_at b1 m = (st2, b2, m2, c2) -> isRunning b2 = isRunning b1).
  { intros b1 b2 m2 st2 c2 Hc1. unfold attach_at. destruct (make_box m) as [q m1].
    destruct (CycleCurrentSubscriberId _) as [f b3] eqn:E. intros [= _ <- _ _].
    destruct (Cycle_spec _ _ _ E Hc1) as (Hss & _). exact (ss_run _ _ Hss). }
  unfold Attach. destruct (_ >=? _); [by intros [= _ <- _ _]|].
  destruct (mailbox_m b !! currentSubscriberId b) as [[q|]|]; [|by apply Hat..].
  destruct (CycleCurrentSubscriberId b) as [f b1] eqn:E.
  destruct (Cycle_spec _ _ _ E Hc) as (Hss & Hc1 & _). rewrite <- (ss_run _ _ Hss).
  destruct f; [by apply Hat|by intros [= _ <- _ _]].
Qed.

(** A component attached to a broker with a free slot. *)
Lemma attach_ok b c (m : mail Q) sid :
  broker_inv (b, m) -> 0 <= sid < 256 -> (forall q, ~ live b sid q) ->
  exists b' m' c', Attach b c m = (BVSTATUS_OK, b', m', c') /\ attached b m b' m' c' /\
    broker_inv (b', m') /\ isRunning b' = isRunning b.
Proof.
  intros Hi Hs Hf. destruct (Attach b c m) as [[[st b'] m'] c'] eqn:E.
  pose proof Hi as (Hok & _ & Hn).
  destruct (Attach_spec _ _ _ _ _ _ _ Hok Hn E) as [[-> Ha]|(_ & _ & _ & _ & _ & Hall)].
  - exists b', m', c'. split; [done|]. split; [done|]. split; [by eapply attach_inv|].
    by eapply Attach_running; [apply (slots_current _ _ Hok)|].
  - destruct (Hall sid Hs) as [q Hq]. by apply Hf in Hq.
Qed.

Lemma construct_inv (m : mail Q) :
  let p := construct m in
  broker_inv (p_broker p, p_mail p) /\ (forall sid q, ~ live (p_broker p) sid q) /\ subs_m (p_broker p) = ∅ /\
  isRunning (p_broker p) = true /\ box_holds (p_mail p) (broker_inMailBox_p (p_broker p)) [].
Proof.
  unfold construct. destruct (make_box m) as [inbox m0] eqn:E0.
  destruct (make_box m0) as [d1 m1] eqn:E1. destruct (make_box m1) as [d2 m2] eqn:E2.
  destruct (make_box m2) as [a1 m3] eqn:E3. destruct (make_box m3) as [a2 m4] eqn:E4. cbn [p_broker p_mail].
  assert (Hb : box_holds m4 inbox []).
  { destruct (box_holds_make _ _ _ E0) as (_ & Hb & _).
    do 4 (match goal with E : make_box ?x = (_, ?y), Hb : box_holds ?x _ _ |- _ =>
      apply (box_holds_make _ _ _ E) in Hb as [_ Hb]; clear E end). exact Hb. }
  split; [by apply broker_make_inv|]. split; [|by repeat split].
  intros sid q Hq. unfold live in Hq. cbn [BVBroker_make mailbox_m] in Hq.
  apply elem_of_list_to_map_2, list_elem_of_fmap in Hq as (i & Hi' & _). discriminate.
Qed.

Lemma mail_holds_nil (m : mail Q) q : box_holds m q [] <-> mail_holds m q [].
Proof.
  split.
  - intros Hb. exists []. split; [constructor|]. by split; [|constructor].
  - intros (rs & _ & Hb & Hf). by inversion Hf; subst.
Qed.

(** Subscribing two attached components gives a wired program. *)
Lemma subscribe_both_wired b (m : mail Q) d a :
  broker_inv (b, m) -> isRunning b = true -> subs_m b = ∅ -> comp_id d <> comp_id a ->
  (forall sid q, live b sid q <-> (sid = comp_id d /\ q = inMailBox_p d) \/ (sid = comp_id a /\ q = inMailBox_p a)) ->
  outMailBox_p d = broker_inMailBox_p b -> outMailBox_p a = broker_inMailBox_p b ->
  (forall q, q = broker_inMailBox_p b \/ q = inMailBox_p d \/ q = inMailBox_p a -> box_holds m q []) ->
  exists p, subscribe_both b m d a = Some p /\ wired p.
Proof.
  intros Hi Hr Hs Hne Hl Hod Hoa Hb. unfold subscribe_both.
  assert (Hd : live b (comp_id d) (inMailBox_p d)) by (apply Hl; by left).
  assert (Ha : live b (comp_id a) (inMailBox_p a)) by (apply Hl; by right).
  rewrite (subscribe_each_ok _ _ _ _ Hd).
  set (b1 := set_subs_m b _). rewrite (subscribe_each_ok (comp_id a) (inMailBox_p a) app_events b1 Ha).
  eexists. split; [reflexivity|]. set (b2 := set_subs_m b1 _). constructor; cbn [p_broker p_mail p_discovery p_app]; try done.
  - apply (subscribe_all_inv b1 m _ _ _ Ha), (subscribe_all_inv b m _ _ _ Hd), Hi.
  - intros sid e. unfold subscribed, GetSubscriberIDVectorFromEventType. cbn [b2 b1 set_subs_m subs_m].
    rewrite !subscribed_each, Hs, lookup_empty. cbn [default].
    generalize discovery_events, app_events. intros D A. rewrite elem_of_nil. tauto.
  - intros q Hq. apply mail_holds_nil. by apply Hb.
Qed.

Lemma main_wired (m : mail Q) :
  exists p, main_setup m = Some p /\ core_start m = Some p /\ wired p.
Proof.
  destruct (construct_inv m) as (Hi & Hl & Hs & Hr & Hbi). unfold main_setup, core_start.
  set (p := construct m) in *.
  destruct (attach_ok (p_broker p) (p_discovery p) (p_mail p) 0 Hi) as (b1 & m1 & d & -> & Hat & Hi1 & Hr1);
    [lia|apply Hl|].
  assert (Hfree : exists sid, 0 <= sid < 256 /\ sid <> comp_id d).
  { exists (if decide (comp_id d = 0) then 1 else 0). case_decide; lia. }
  destruct Hfree as (sid & Hsid & Hne).
  destruct (attach_ok b1 (p_app p) m1 sid Hi1 Hsid) as (b2 & m2 & a & -> & Hat2 & Hi2 & Hr2).
  { intros q [[-> _]|[_ Hq]]%(att_live _ _ _ _ _ Hat); [done|]. by apply Hl in Hq. }
  assert (Hda : live b1 (comp_id d) (inMailBox_p d)) by (apply (att_live _ _ _ _ _ Hat); by left).
  assert (Hid : comp_id d <> comp_id a).
  { intros Heq. apply (att_free _ _ _ _ _ Hat2 (inMailBox_p d)). by rewrite <- Heq. }
  assert (Hin : broker_inMailBox_p b2 = broker_inMailBox_p (p_broker p))
    by (by rewrite (att_inbox _ _ _ _ _ Hat2), (att_inbox _ _ _ _ _ Hat)).
  destruct (subscribe_both_wired b2 m2 d a) as (p' & Hp & Hw); try done.
  - by rewrite Hr2, Hr1.
  - by rewrite (att_subs _ _ _ _ _ Hat2), (att_subs _ _ _ _ _ Hat).
  - intros s q. rewrite (att_live _ _ _ _ _ Hat2), (att_live _ _ _ _ _ Hat).
    split; [intros [?|[? [?|[? Hx]]]]; [by right|by left|by apply Hl in Hx]|].
    intros [[-> ->]|[-> ->]]; [right; split; [done|by left]|by left].
  - rewrite (att_out _ _ _ _ _ Hat). by rewrite Hin.
  - rewrite (att_out _ _ _ _ _ Hat2). by rewrite (att_inbox _ _ _ _ _ Hat2).
  - intros q [->|[->| ->]].
    + rewrite Hin. by apply (att_old _ _ _ _ _ Hat2), (att_old _ _ _ _ _ Hat).
    + apply (att_old _ _ _ _ _ Hat2), (att_box _ _ _ _ _ Hat).
    + apply (att_box _ _ _ _ _ Hat2).
  - exists p'. rewrite decide_False by (intros [?|?]; done). by rewrite decide_False, decide_False by (intros ?; done).
Qed.

(** ** What the broker delivers *)

Lemma send_all_ok q msgs l (m : mail Q) :
  mail_holds m q l ->
  exists m', send_all q msgs m = Ok m' /\ mail_holds m' q (l ++ msgs) /\
    (forall q' l', q' <> q -> mail_holds m q' l' -> mail_holds m' q' l').
Proof.
  revert m l. induction msgs as [|msg msgs IH]; intros m l Hm; cbn [send_all].
  - exists m. by rewrite app_nil_r.
  - destruct (push_msg_holds m q l msg Hm) as (m1 & Hp & Hm1 & Ho1). rewrite Hp. cbn [mbind result_bind].
    destruct (IH m1 _ Hm1) as (m2 & Hs & Hm2 & Ho2). exists m2. split; [done|].
    split; [by rewrite <- (assoc_L (++)) in Hm2|]. intros q' l' Hne Hq. by apply Ho2, Ho1.
Qed.

Lemma push_ref_msgs (m m' : mail Q) q r : push_ref m q r = Ok m' -> msgs m' = msgs m.
Proof.
  unfold push_ref. intros Hp. apply bind_ok in Hp as (box & _ & Hp). apply bind_ok in Hp as (box' & _ & Hp).
  by injection Hp as <-.
Qed.

Lemma pop_ref_msgs (m m' : mail Q) q r : pop_ref m q = Ok (Some (r, m')) -> msgs m' = msgs m.
Proof.
  unfold pop_ref. intros Hp. apply bind_ok in Hp as (box & _ & Hp). apply bind_ok in Hp as (o & _ & Hp).
  destruct o as [[r' box']|]; [|done]. by injection Hp as _ <-.
Qed.

Lemma Route_msgs b r (m m' : mail Q) st : Route b r m = Ok (st, m') -> msgs m' = msgs m.
Proof.
  assert (Hl : forall v (m m' : mail Q), route_loop b r v m = Ok m' -> msgs m' = msgs m).
  { induction v as [|sid v IH]; intros m1 m2 Hv; cbn [route_loop] in Hv; [by injection Hv as <-|].
    apply bind_ok in Hv as (m3 & Hv & Hv2). apply IH in Hv2 as ->. unfold route_to in Hv.
    destruct (mailbox_m b !! sid) as [[q|]|]; [by apply push_ref_msgs in Hv|by injection Hv as <-..]. }
  unfold Route. intros Hr. apply bind_ok in Hr as (msg & _ & Hr).
  destruct (subs_m b !! event_t msg) as [[|s v]|]; try (by injection Hr as _ <-).
  apply bind_ok in Hr as (m1 & Hr & Hr2). injection Hr2 as _ <-. by apply Hl in Hr.
Qed.

(** Routing changes neither the messages nor the broker's tables. *)
Lemma Run_keeps fuel b (m : mail Q) x b' m' :
  Run fuel b m = Ok (x, b', m') -> msgs m' = msgs m /\ mailbox_m b' = mailbox_m b /\ subs_m b' = subs_m b.
Proof.
  revert b m. induction fuel as [|fuel IH]; intros b m; cbn [Run];
    destruct (isRunning b); try (by intros [= _ <- <-]).
  intros Hr. apply bind_ok in Hr as (o & Hp & Hr). destruct o as [[r m1]|]; [|by injection Hr as _ <- <-].
  apply pop_ref_msgs in Hp. apply bind_ok in Hr as (msg & _ & Hr). apply bind_ok in Hr as ([st m2] & Hro & Hr).
  apply Route_msgs in Hro. apply IH in Hr as (H1 & H2 & H3). rewrite H1, Hro, Hp. split; [done|].
  rewrite H2, H3. by case_decide.
Qed.

(** References paired with the events of their messages. *)
Lemma events_paired (m : mail Q) rs l :
  Forall2 (fun r msg => msgs m !! r = Some msg) rs l ->
  exists es, es.*1 = rs /\ es.*2 = event_t <$> l /\ msgs_are m es /\
    forall b sid D, (forall e, subscribed b sid e <-> e ∈ D) ->
      Forall2 (fun r msg => msgs m !! r = Some msg) (routed b sid es) (mail_for D l).
Proof.
  induction 1 as [|r msg rs l Hr Hl (es & H1 & H2 & H3 & H4)].
  - exists []. split; [done|]. split; [done|]. split; [constructor|]. intros. constructor.
  - exists ((r, event_t msg) :: es). split; [by rewrite <- H1|]. split; [cbn; by rewrite H2|].
    split; [constructor; [cbn; by rewrite Hr|done]|]. intros b sid D Hs. rewrite routed_cons. unfold mail_for.
    cbn [upto_terminate]. rewrite filter_cons.
    assert (Ht : Forall2 (fun r msg => msgs m !! r = Some msg)
      (if decide (event_t msg = BVEVENTTYPE_TERMINATE_ALL) then [] else routed b sid es)
      (filter (fun msg => event_t msg ∈ D) (if decide (event_t msg = BVEVENTTYPE_TERMINATE_ALL) then [] else upto_terminate l))).
    { case_decide; [constructor|by apply H4]. }
    destruct (decide (subscribed b sid (event_t msg))) as [Hd|Hd], (decide (event_t msg ∈ D)) as [Hp|Hp];
      [by constructor|by apply Hs in Hd|by apply Hs in Hp|exact Ht].
Qed.

Lemma routed_sub b sid es r : r ∈ routed b sid es -> r ∈ es.*1.
Proof.
  induction es as [|[r' e] es IH]; [done|]. rewrite routed_cons. cbn [fmap list_fmap fst].
  rewrite elem_of_app, elem_of_cons. intros [Hr|Hr].
  - left. case_decide; [by apply list_elem_of_singleton in Hr|by apply elem_of_nil in Hr].
  - right. case_decide; [by apply elem_of_nil in Hr|by apply IH].
Qed.

Lemma routed_NoDup b sid es : NoDup es.*1 -> NoDup (routed b sid es).
Proof.
  induction es as [|[r e] es IH]; [constructor|]. intros [Hr Hnd]%NoDup_cons. rewrite routed_cons.
  assert (Ht : NoDup (if decide (e = BVEVENTTYPE_TERMINATE_ALL) then [] else routed b sid es)).
  { case_decide; [constructor|by apply IH]. }
  destruct (decide (subscribed b sid e)); [|exact Ht]. apply NoDup_cons. split; [|exact Ht].
  intros Hx. apply Hr. case_decide; [by apply elem_of_nil in Hx|by apply (routed_sub b sid)].
Qed.

(** The broker's loop on a wired program whose other mailboxes are empty. *)
Lemma wired_run p (m : mail Q) l fuel :
  wired p -> (length l < fuel)%nat -> mail_holds m (broker_inMailBox_p (p_broker p)) l ->
  mail_holds m (inMailBox_p (p_discovery p)) [] -> mail_holds m (inMailBox_p (p_app p)) [] ->
  exists b' m',
    Run fuel (p_broker p) m =
      Ok (if decide (BVEVENTTYPE_TERMINATE_ALL ∈ event_t <$> l) then Returned else Blocked, b', m') /\
    mail_holds m' (inMailBox_p (p_discovery p)) (mail_for discovery_events l) /\
    mail_holds m' (inMailBox_p (p_app p)) (mail_for app_events l) /\
    mailbox_m b' = mailbox_m (p_broker p) /\ subs_m b' = subs_m (p_broker p).
Proof.
  intros [(Hok & Hsok & _) Hrun Hids Hlive Hsubs _ _] Hf (rs & Hnd & Hb & Hl) Hd Ha.
  destruct (events_paired m rs l Hl) as (es & <- & He2 & Hms & Hpair).
  apply mail_holds_nil in Hd, Ha.
  assert (Hok' : slots_ok (p_broker p) m).
  { destruct Hok as [H1 H2 H3 H4 H5 H6]. constructor; try done; [|by exists es.*1].
    intros sid q [[-> ->]|[-> ->]]%Hlive; by exists []. }
  assert (Hlen : (length es < fuel)%nat).
  { apply Forall2_length in Hl. rewrite length_fmap in Hl. lia. }
  destruct (Run_spec (p_broker p) m es fuel Hok' Hsok Hrun Hms Hb Hlen) as (b' & m' & HR & Hdel & _).
  rewrite He2 in HR. exists b', m'. destruct (Run_keeps _ _ _ _ _ _ HR) as (Hmm & Hmb & Hsb).
  split; [exact HR|]. split; [|split; [|by split]].
  - exists (routed (p_broker p) (comp_id (p_discovery p)) es). split; [by apply routed_NoDup|].
    split; [apply (Hdel (comp_id (p_discovery p)) (inMailBox_p (p_discovery p)) []); [apply Hlive; by left|done]|].
    rewrite Hmm. apply Hpair. intros e. rewrite Hsubs.
    generalize discovery_events, app_events. intros D A. naive_solver.
  - exists (routed (p_broker p) (comp_id (p_app p)) es). split; [by apply routed_NoDup|].
    split; [apply (Hdel (comp_id (p_app p)) (inMailBox_p (p_app p)) []); [apply Hlive; by right|done]|].
    rewrite Hmm. apply Hpair. intros e. rewrite Hsubs.
    generalize discovery_events, app_events. intros D A. naive_solver.
Qed.

(** The subscriptions are the registered handlers, file offers apart. *)
Lemma bonjour_handles ans base e :
  is_Some (callback_m (bonjour_component (Q := Q) ans base) !! e) <-> e ∈ discovery_events.
Proof.
  unfold bonjour_component, RegisterCallback, discovery_events. cbn [callback_m Component_make].
  rewrite !lookup_insert_is_Some', lookup_empty, !elem_of_cons, elem_of_nil.
  split; [intros Hx; repeat destruct Hx as [<-|Hx]; [tauto..|by destruct Hx]|].
  intros Hx; repeat destruct Hx as [->|Hx]; tauto.
Qed.

Lemma console_handles resolve base e :
  is_Some (callback_m (console_component (Q := Q) resolve base) !! e) /\ e <> BVEVENTTYPE_APP_FILE_OFFER <->
  e ∈ app_events.
Proof.
  unfold console_component, RegisterCallback, app_events. cbn [callback_m Component_make].
  rewrite !lookup_insert_is_Some', lookup_empty, !elem_of_cons, elem_of_nil.
  split; [intros [Hx Hne]; repeat destruct Hx as [<-|Hx]; [tauto..|by destruct Hx]|].
  intros Hx; repeat destruct Hx as [->|Hx]; [split; [tauto|discriminate]..|done].
Qed.

Lemma mail_for_discovery ans base msgs :
  mail_for discovery_events msgs = handled (bonjour_component (Q := Q) ans base) msgs.
Proof. apply list_filter_iff. intros msg. symmetry. apply bonjour_handles. Qed.

Lemma mail_for_app resolve base msgs :
  mail_for app_events msgs =
  filter (fun msg => event_t msg <> BVEVENTTYPE_APP_FILE_OFFER) (handled (console_component (Q := Q) resolve base) msgs).
Proof.
  unfold handled. rewrite list_filter_filter. apply list_filter_iff. intros msg.
  rewrite <- (console_handles resolve base). tauto.
Qed.

(** A loop whose only waiting message stops it and carries no data: the other
    mailboxes are as they were, even when they hold the same message. *)
Lemma listen_last {W} (c : Component Q W) w (m : mail Q) msg h fuel :
  isListeningToMail c = true -> mail_holds m (inMailBox_p (comp_base c)) [msg] -> data_p msg = None ->
  callback_m c !! event_t msg = Some h -> stops_listening (event_t msg) = true ->
  exists m1, (forall q' l', q' <> inMailBox_p (comp_base c) -> mail_holds m q' l' -> mail_holds m1 q' l') /\
    ListenToMail (S fuel) c w m =
      (let! '(st, w, m2) := h None w m1 in
       if decide (st <> BVSTATUS_OK) then Err Std_runtime_error else Ok (Returned, w, m2)).
Proof.
  intros Hli (rs & Hnd & Hb & Hl) Hdata Hh Hstop.
  inversion Hl as [|r x rs0 l0 Hr Hl0 E1 E2]; subst. inversion Hl0; subst.
  destruct (pop_ref_cons m _ r _ Hb) as (m1 & Hp & _ & Hm1 & Ho1). exists m1. split.
  { intros q' l' Hne (rs' & Hnd' & Hb' & Hl'). exists rs'. split; [done|]. split; [by apply Ho1|by rewrite Hm1]. }
  cbn [ListenToMail]. rewrite Hli, Hp. cbn [mbind result_bind]. unfold dispatch, take_data.
  rewrite Hm1, Hr. cbn [from_option_err mbind result_bind]. rewrite Hh. cbn [mbind result_bind].
  assert (Hid : Mail (boxes m1) (<[r := MkBVMessage (event_t msg) None]> (msgs m)) = m1).
  { rewrite <- Hm1, insert_id; [by destruct m1|]. rewrite Hm1, Hr. f_equal. destruct msg. cbn in *. by subst. }
  rewrite Hid, Hdata. destruct (h None w m1) as [[[st w'] m2]|]; [|done]. cbn [mbind result_bind].
  case_decide; [done|]. cbn [mbind result_bind]. by rewrite Hstop.
Qed.

(** What the two components registered for [TERMINATE_ALL]. *)
Lemma bonjour_terminates ans base :
  callback_m (bonjour_component (Q := Q) ans base) !! BVEVENTTYPE_TERMINATE_ALL = Some Bonjour.shutdown_handler.
Proof.
  unfold bonjour_component, RegisterCallback. cbn [callback_m Component_make].
  rewrite !(lookup_insert_ne _ _ BVEVENTTYPE_TERMINATE_ALL) by done. apply lookup_insert_eq.
Qed.

Lemma console_terminates resolve base :
  callback_m (console_component (Q := Q) resolve base) !! BVEVENTTYPE_TERMINATE_ALL = Some (as_handler OnShutdown).
Proof.
  unfold console_component, RegisterCallback. cbn [callback_m Component_make].
  rewrite !(lookup_insert_ne _ _ BVEVENTTYPE_TERMINATE_ALL) by done. apply lookup_insert_eq.
Qed.

(** Pressing q in the main menu. *)
Lemma quit_key ctime P e (a : App Q) q0 :
  uiState a = MainMenu -> io_stopped a = false -> stdin_armed a = true ->
  mail_holds (mgr_mail (manager a)) (outMailBox_p (app_base a)) q0 ->
  exists a1, key_read ctime P e a "q" = Ok a1 /\ io_stopped a1 = true /\ app_isRunning a1 = false /\
    mail_holds (mgr_mail (manager a1)) (outMailBox_p (app_base a)) (q0 ++ [MkBVMessage BVEVENTTYPE_TERMINATE_ALL None]) /\
    (forall q' l', q' <> outMailBox_p (app_base a) -> mail_holds (mgr_mail (manager a)) q' l' ->
                   mail_holds (mgr_mail (manager a1)) q' l').
Proof.
  intros Hui Hio Harm Hq. unfold key_read. rewrite Hio, Harm. cbn [negb orb].
  destruct (push_msg_holds _ _ _ (MkBVMessage BVEVENTTYPE_TERMINATE_ALL None) Hq) as (m' & Hp & Hm' & Ho).
  unfold OnKey. cbn [a_armed uiState]. rewrite Hui. unfold HandleMainMenuKey, app_SendMessage. cbn [a_armed manager app_base].
  change (ParseConsoleActionFromKey "q") with (Some (MkParsingResult BVCONSOLEACTION_QUIT None)). cbn [pr_type].
  rewrite Hp. cbn [mbind result_bind]. eexists. split; [reflexivity|]. split; [done|]. split; [done|]. by split.
Qed.

(** Detaching both components of a wired program. *)
Lemma wired_end p b :
  wired p -> mailbox_m b = mailbox_m (p_broker p) -> subs_m b = subs_m (p_broker p) ->
  exists b', main_end b (p_discovery p) (p_app p) = (true, b') /\ subs_m b' = ∅.
Proof.
  intros [_ _ Hids Hlive Hsubs _ _] Hm Hs. unfold main_end.
  assert (Hd : mailbox_m b !! comp_id (p_discovery p) = Some (Some (inMailBox_p (p_discovery p)))).
  { rewrite Hm. apply Hlive. by left. }
  assert (Ha : mailbox_m b !! comp_id (p_app p) = Some (Some (inMailBox_p (p_app p)))).
  { rewrite Hm. apply Hlive. by right. }
  unfold Detach at 1. rewrite Hd. unfold Detach. cbn [set_subs_m set_num set_mailbox_m mailbox_m].
  rewrite lookup_insert_ne by done. rewrite Ha. eexists. split; [reflexivity|].
  cbn [set_subs_m set_num set_mailbox_m subs_m]. rewrite Hs. apply map_eq. intros e.
  rewrite !lookup_omap, lookup_empty. destruct (subs_m (p_broker p) !! e) as [v|] eqn:E; [|done]. cbn [mbind option_bind].
  assert (Hv : forall s, s ∈ v -> s = comp_id (p_discovery p) \/ s = comp_id (p_app p)).
  { intros s Hin. assert (Hsub : subscribed (p_broker p) s e)
      by (unfold subscribed, GetSubscriberIDVectorFromEventType; by rewrite E).
    apply Hsubs in Hsub. naive_solver. }
  destruct (erase_sid (comp_id (p_discovery p)) v) as [v1|] eqn:E1; [|done].
  apply erase_sid_Some in E1 as [_ ->]. cbn [mbind option_bind].
  destruct (erase_sid _ (remove_sid _ v)) as [v2|] eqn:E2; [|done].
  apply erase_sid_Some in E2 as [Hne ->]. exfalso. apply Hne.
  apply elem_of_nil_inv. intros s [Hs2 [Hs1 Hin]%remove_sid_elem]%remove_sid_elem.
  by destruct (Hv s Hin).
Qed.

(** The three mailboxes of a wired program are different. *)
Lemma wired_boxes p :
  wired p -> inMailBox_p (p_discovery p) <> outMailBox_p (p_app p) /\ inMailBox_p (p_app p) <> outMailBox_p (p_app p) /\
    inMailBox_p (p_app p) <> inMailBox_p (p_discovery p).
Proof.
  intros [(Hok & _) _ Hids Hlive _ [_ Hoa] _]. rewrite Hoa.
  assert (Hd : live (p_broker p) (comp_id (p_discovery p)) (inMailBox_p (p_discovery p))) by (apply Hlive; left; by split).
  assert (Ha : live (p_broker p) (comp_id (p_app p)) (inMailBox_p (p_app p))) by (apply Hlive; right; by split).
  split; [intros Heq; rewrite Heq in Hd; by apply (slots_inbox _ _ Hok) in Hd|].
  split; [intros Heq; rewrite Heq in Ha; by apply (slots_inbox _ _ Hok) in Ha|].
  intros Heq. apply Hids. symmetry. rewrite Heq in Ha. exact (slots_inj _ _ Hok _ _ _ Ha Hd).
Qed.

End WiringLaws.

(** ** Properties *)

Section WiringProperties.
Context {Q : Type -> Type} `{FifoQueueLaws Q}.

(** C8.  The program is wired as its components expect: [main] and
    [BVChatCore::start] set up the same program, and whatever messages the
    components then send, the broker's loop puts into discovery's mailbox
    exactly those discovery has a handler for, and into the application's
    exactly those the application has a handler for, file offers apart, which
    never pass the broker; in the order sent and up to the first
    [TERMINATE_ALL], which both get and on which the loop returns. *)
Theorem messages_reach_their_component (ans : resolve_answer) resolve msgs :
  exists (p : program Q) m b' m',
    main_setup (Mail ∅ ∅) = Some p /\ core_start (Mail ∅ ∅) = Some p /\
    send_all (outMailBox_p (p_app p)) msgs (p_mail p) = Ok m /\
    outMailBox_p (p_discovery p) = outMailBox_p (p_app p) /\
    Run (S (length msgs)) (p_broker p) m =
      Ok (if decide (BVEVENTTYPE_TERMINATE_ALL ∈ event_t <$> msgs) then Returned else Blocked, b', m') /\
    mail_holds m' (inMailBox_p (p_discovery p)) (handled (bonjour_component (Q := Q) ans (p_discovery p)) msgs) /\
    mail_holds m' (inMailBox_p (p_app p))
      (filter (fun msg => event_t msg <> BVEVENTTYPE_APP_FILE_OFFER) (handled (console_component (Q := Q) resolve (p_app p)) msgs)).
Proof.
  destruct (main_wired (Mail ∅ ∅)) as (p & Hp & Hc & Hw). pose proof Hw as [Hi _ _ Hlive _ [Hod Hoa] He].
  destruct (send_all_ok (outMailBox_p (p_app p)) msgs [] (p_mail p)) as (m & Hs & Hm & Ho);
    [apply He; by left|].
  assert (Hne : forall sid q, live (p_broker p) sid q -> q <> outMailBox_p (p_app p)).
  { intros sid q Hq Heq. destruct Hi as (Hok & _). apply (slots_inbox _ _ Hok sid). cbn [fst]. by rewrite <- Hoa, <- Heq. }
  destruct (wired_run p m msgs (S (length msgs)) Hw) as (b' & m' & HR & Hmd & Hma & _).
  - lia.
  - by rewrite <- Hoa.
  - apply Ho; [|by apply He; right; left]. apply (Hne (comp_id (p_discovery p))). apply Hlive. left. by split.
  - apply Ho; [|by apply He; right; right]. apply (Hne (comp_id (p_app p))). apply Hlive. right. by split.
  - exists p, m, b', m'. split; [exact Hp|]. split; [exact Hc|]. split; [exact Hs|].
    split; [by rewrite Hod, Hoa|]. split; [exact HR|]. split.
    + rewrite <- mail_for_discovery. exact Hmd.
    + rewrite <- mail_for_app. exact Hma.
Qed.

(** C19.  Quitting ends every loop, once browsing has started.  At a moment when
    no mail waits for the broker or either component, pressing q in the main
    menu sends [TERMINATE_ALL] and stops the event loop; the broker's loop then
    returns, the application's mailbox loop returns once it has handled the
    message, and both components can be detached, which leaves no subscription
    behind.  If [Browse] has assigned the daemon's descriptor by then,
    discovery's mailbox loop returns as well, no longer browsing and with its
    event loop stopped; if it has not, [OnShutdown] throws out of the loop, which
    nothing catches. *)
Theorem quit_ends_every_loop (ans : resolve_answer) resolve ctime P e (p : program Q) (a : App Q) bd :
  main_setup (Mail ∅ ∅) = Some p -> app_base a = p_app p ->
  (forall q, q = broker_inMailBox_p (p_broker p) \/ q = inMailBox_p (p_discovery p) \/ q = inMailBox_p (p_app p) ->
     mail_holds (mgr_mail (manager a)) q []) ->
  uiState a = MainMenu -> io_stopped a = false -> stdin_armed a = true ->
  exists a1 b1 m1 b2,
    key_read ctime P e a "q" = Ok a1 /\ io_stopped a1 = true /\ app_isRunning a1 = false /\
    Run 2 (p_broker p) (mgr_mail (manager a1)) = Ok (Returned, b1, m1) /\
    main_end b1 (p_discovery p) (p_app p) = (true, b2) /\ subs_m b2 = ∅ /\
    let listen := ListenToMail 1 (SetIsListeningToMail (bonjour_component ans (p_discovery p)) true) bd m1 in
    if fd_open bd
    then exists bd1 m2 a2 m3, listen = Ok (Returned, bd1, m2) /\ browsing bd1 = false /\ ioContext_stopped bd1 = true /\
      ListenToMail 1 (SetIsListeningToMail (console_component resolve (p_app p)) true) a1 m2 = Ok (Returned, a2, m3)
    else listen = Err Std_runtime_error.
Proof.
  intros Hp Hbase He Hui Hio Harm. destruct (main_wired (Mail ∅ ∅)) as (p' & Hp' & _ & Hw).
  rewrite Hp in Hp'. injection Hp' as <-. pose proof (wi_out p Hw) as [_ Hoa].
  destruct (wired_boxes p Hw) as (Hne1 & Hne2 & Hne3). set (term := MkBVMessage BVEVENTTYPE_TERMINATE_ALL None).
  destruct (quit_key ctime P e a [] Hui Hio Harm) as (a1 & Hk & Hst & Hrun & Hq1 & Ho1).
  { rewrite Hbase, Hoa. apply He. by left. }
  rewrite Hbase in Hq1, Ho1.
  destruct (wired_run p (mgr_mail (manager a1)) [term] 2 Hw) as (b1 & m1 & HR & Hmd & Hma & Hmb & Hsb).
  { cbn. lia. }
  { by rewrite <- Hoa. }
  { apply Ho1; [done|]. apply He. right; by left. }
  { apply Ho1; [done|]. apply He. right; by right. }
  destruct (listen_last (SetIsListeningToMail (bonjour_component ans (p_discovery p)) true) bd m1 term _ 0
    eq_refl Hmd eq_refl (bonjour_terminates ans _) eq_refl) as (m2 & Ho2 & HL1).
  destruct (listen_last (SetIsListeningToMail (console_component resolve (p_app p)) true) a1 m2 term _ 0
    eq_refl (Ho2 (inMailBox_p (p_app p)) [term] Hne3 Hma) eq_refl (console_terminates resolve _) eq_refl) as (m3 & _ & HL2).
  destruct (wired_end p b1 Hw Hmb Hsb) as (b2 & Hend & Hsub).
  exists a1, b1, m1, b2. do 6 (split; [done|]). rewrite HL1. unfold shutdown_handler, Bonjour.OnShutdown.
  change (fd_open (b_active bd false)) with (fd_open bd). destruct (fd_open bd); [|done].
  eexists _, m2, _, _. split; [reflexivity|]. split; [reflexivity|]. split; [reflexivity|exact HL2].
Qed.

End WiringProperties.

(** ** Concrete instance *)

Section WiringWitnesses.

Definition ex_console (p : program threadsafe_queue) : App threadsafe_queue :=
  StartStdinRead (App_make (m_mail (ex_machine "ann") (p_mail p)) (p_app p) ex_os "/srv").

Lemma quit_ends_every_loop_witness :
  exists p a1 b1 m1 b2, main_setup (Q := threadsafe_queue) (Mail ∅ ∅) = Some p /\
    key_read ex_ctime ex_lazy ex_env (ex_console p) "q" = Ok a1 /\
    Run 2 (p_broker p) (mgr_mail (manager a1)) = Ok (Returned, b1, m1) /\
    main_end b1 (p_discovery p) (p_app p) = (true, b2) /\
    (exists bd m2, ListenToMail 1 (SetIsListeningToMail (bonjour_component (MkAnswer 0 6 false []) (p_discovery p)) true)
       (Browse 5 false ex_bonjour) m1 = Ok (Returned, bd, m2)).
Proof.
  destruct (main_wired (Q := threadsafe_queue) (Mail ∅ ∅)) as (p & Hp & _ & Hw).
  destruct (quit_ends_every_loop (MkAnswer 0 6 false []) ex_resolve ex_ctime ex_lazy ex_env p (ex_console p)
    (Browse 5 false ex_bonjour) Hp eq_refl (wi_empty p Hw) eq_refl eq_refl eq_refl)
    as (a1 & b1 & m1 & b2 & Hk & _ & _ & HR & He & _ & bd1 & m2 & a2 & m3 & HL & _).
  exists p, a1, b1, m1, b2. split; [exact Hp|]. split; [exact Hk|]. split; [exact HR|]. split; [exact He|].
  exists bd1, m2. exact HL.
Defined.

End WiringWitnesses.
