(* ===== verification/ChatCore.v ===== *)
(** * The facade of the GUI ([mac-gui/BVChatCore.hpp])

    The one object the user interface owns: it starts the program, forwards
    queries and actions to the GUI application, and stops everything.  The
    event loop's [io_context] is a member of it and outlives the components,
    which every [start] makes anew.

    [stop] waits for the threads.  They run here one after the other, in an
    order in which each finds the message it ends on; the loops are those of
    [Broker] and [Component], with fuel. *)

From Stdlib Require Import ZArith Lia Ascii String.
From S2P Require Import Prelude TSQueue Common Broker Component Discovery Bonjour Service Session ReceivedFile ConnectionManager ConsoleClient GuiClient Terminal Wiring.

Section ChatCore.
Context {Q : Type -> Type} `{FifoQueue Q}.

(** What [start] makes: discovery and the application with the state they
    have as components. *)
Record parts : Type := MkParts {
  pt_broker : BVBroker;
  pt_discovery : BVDiscovery_Bonjour;
  pt_terminal : BVTerminal;
  pt_app : Gui Q;
  pt_worker : bool                (* discovery's worker thread has yet to run [Browse] *)
}.

Record BVChatCore : Type := MkCore {
  running : bool;
  core_stopped : bool;            (* the ioContext has been stopped *)
  core_replyError : bool;         (* the global of the C callbacks *)
  core_mail : mail Q;             (* the store of queues, while no application exists *)
  service : option BVService;
  core_parts : option parts
}.

Definition BVChatCore_make : BVChatCore := MkCore false false false (Mail ∅ ∅) None None.

(** What the system answers while starting. *)
Record sys_answers : Type := MkSys {
  sa_host_name : string;
  sa_register : register_answer;
  sa_browse : Z;
  sa_isatty : bool;
  sa_getattr_fails : bool;
  sa_termios : termios;
  sa_open : bool;
  sa_reuse : bool;
  sa_v6_only : bool;
  sa_bind : bool;
  sa_listen : bool;
  sa_fs : FileSystem;
  sa_cwd : string
}.

Definition mail_of (c : BVChatCore) : mail Q :=
  match core_parts c with Some pt => mgr_mail (manager (g_app (pt_app pt))) | None => core_mail c end.

(** ** Starting *)

(** [Attach] twice and the subscriptions, with what they leave behind when one
    of them fails. *)
Definition attach_parts (p : program Q) : bool * program Q :=
  let '(st, b, m, discovery) := Attach (p_broker p) (p_discovery p) (p_mail p) in
  if decide (st <> BVSTATUS_OK) then (false, MkProgram b m discovery (p_app p))
  else
    let '(st, b, m, app) := Attach b (p_app p) m in
    if decide (st <> BVSTATUS_OK) then (false, MkProgram b m discovery app)
    else
      let '(okd, b) := subscribe_each (comp_id discovery) discovery_events b in
      let '(oka, b) := subscribe_each (comp_id app) app_events b in
      ((okd && oka)%bool, MkProgram b m discovery app).

(** [Attach] gives a component its identifier and mailboxes; the getter the
    manager was given answers with the new one. *)
Definition m_mailbox (m : Manager Q) (q : qref) : Manager Q :=
  MkManager (currentSessionID m) (thisMachineServiceData m) (objs m) (sessions_m m) (service_sessionid_m m)
    (nodesM m) (outMailboxes_p m) (pendingOutgoing_m m) (fileTransferContext_m m) (outProgress m) (static_node_id m)
    (static_ftcid m) (accepting m) (connecting m) q (mgr_mail m) (mgr_files m).

Definition a_attached (a : App Q) (base : BVComponent) (ml : mail Q) : App Q :=
  MkApp (m_mail (m_mailbox (manager a) (inMailBox_p base)) ml) base (uiState a) (priorUiState a) (activeChatService a)
    (inputLine a) (lastNotification a) (pendingOffer a) (recvBytes a) (serviceV a) (chatLogsM a) (fileTransferData a)
    (app_isRunning a) (io_stopped a) (stdin_armed a) (posted_q a) (app_fs a) (rootdir a) (cout a).

Definition b_attached (b : BVDiscovery_Bonjour) (base : BVComponent) : BVDiscovery_Bonjour :=
  MkBonjour (b_disc b) base (dnsRef b) (browseFD b) (fd_open b) (pauseTimer b) (ioContext_stopped b) (resolving b) (replyError b).

(** Both components refer to the facade's [io_context]. *)
Definition make_discovery (c : BVChatCore) (s : sys_answers) (data : BVServiceData) (base : BVComponent)
    : BVDiscovery_Bonjour :=
  let b := BVDiscovery_Bonjour_make data base (sa_browse s) in
  MkBonjour (b_disc b) (b_base b) (dnsRef b) (browseFD b) (fd_open b) (pauseTimer b) (core_stopped c) (resolving b)
    (core_replyError c).

Definition make_gui (c : BVChatCore) (s : sys_answers) (data : BVServiceData) (base : BVComponent) (ml : mail Q) : Gui Q :=
  let m := BVTCPConnectionManager_make data (inMailBox_p base) ml (files (sa_fs s)) in
  Gui_make (a_stopped (App_make m base (sa_fs s) (sa_cwd s)) (core_stopped c)).

(** [start]: [false] when a step fails; the objects made so far stay.  In the
    end it launches the threads: among them discovery's worker
    ([LaunchWorkingThread]), which may run at any time from then on. *)
Definition start (s : sys_answers) (c : BVChatCore) : result (bool * BVChatCore) :=
  if running c then Ok (true, c)
  else
    let svc := BVService_make (sa_host_name s) "local." PORT in
    let '(st, svc, replyError) := Bonjour_Register (sa_register s) svc (core_replyError c) in
    let c := MkCore false (core_stopped c) replyError (core_mail c) (Some svc) (core_parts c) in
    if decide (st <> BVSTATUS_OK) then Ok (false, c)
    else
      let hostData := sv_data svc in
      let p := construct (mail_of c) in
      let bonjour := make_discovery c s hostData (p_discovery p) in
      let! terminal := BVTerminal_make (sa_isatty s) (sa_getattr_fails s) (sa_termios s) in
      let app := make_gui c s hostData (p_app p) (p_mail p) in
      let! '(_, _, m) := StartAcceptingConnections (sa_open s) (sa_reuse s) (sa_v6_only s) (sa_bind s) (sa_listen s)
                           (manager (g_app app)) in
      let app := SetObserver (put_app app (a_manager (g_app app) m)) in
      let '(ok, p) := attach_parts p in
      let bonjour := b_attached bonjour (p_discovery p) in
      let app := put_app app (a_attached (g_app app) (p_app p) (p_mail p)) in
      Ok (ok, MkCore ok (core_stopped c) replyError (p_mail p) (service c)
                (Some (MkParts (p_broker p) bonjour terminal app ok))).

(** Discovery's worker thread gets to run: [Browse], once. *)
Definition worker_browse (fd : Z) (ec : bool) (c : BVChatCore) : BVChatCore :=
  match core_parts c with
  | Some pt =>
      if pt_worker pt
      then MkCore (running c) (core_stopped c) (core_replyError c) (core_mail c) (service c)
             (Some (MkParts (pt_broker pt) (Browse fd ec (pt_discovery pt)) (pt_terminal pt) (pt_app pt) false))
      else c
  | None => c
  end.

(** ** Stopping *)

(** [None] when a loop has not returned, or the worker thread has not run:
    [stop] then waits for its thread.  An exception in a loop ends the
    program. *)
Definition stop (fuel : nat) (ans : resolve_answer) (vol : Volumes) (resolve : string -> Z -> nat -> bool * nat)
    (c : BVChatCore) : result (option BVChatCore) :=
  if negb (running c) then Ok (Some c)
  else
    match core_parts c with
    | None => Ok (Some (MkCore false (core_stopped c) (core_replyError c) (core_mail c) (service c) None))
    | Some pt =>
        let! app := Shutdown (pt_app pt) in
        let! '(e1, b, m) := Run fuel (pt_broker pt) (mgr_mail (manager (g_app app))) in
        let! '(e2, bonjour, m) := ListenToMail fuel
          (SetIsListeningToMail (bonjour_component ans (b_base (pt_discovery pt))) true) (pt_discovery pt) m in
        let! '(e3, app, m) := ListenToMail fuel
          (SetIsListeningToMail (gui_component vol resolve (app_base (g_app app))) true) app m in
        let app := put_app app (a_manager (g_app app) (m_mail (manager (g_app app)) m)) in
        match e1, e2, e3, pt_worker pt with
        | Returned, Returned, Returned, false =>
            let '(_, b) := main_end b (b_base bonjour) (app_base (g_app app)) in
            Ok (Some (MkCore false (io_stopped (g_app app)) (replyError bonjour) m (service c)
                        (Some (MkParts b bonjour (pt_terminal pt) app false))))
        | _, _, _, _ => Ok None
        end
    end.

(** ** Queries and actions: those of the application, if there is one *)

Definition query {A} (f : Gui Q -> A) (none : A) (c : BVChatCore) : A :=
  match core_parts c with Some pt => f (pt_app pt) | None => none end.

Definition with_app (c : BVChatCore) (g : Gui Q) : BVChatCore :=
  match core_parts c with
  | Some pt => MkCore (running c) (core_stopped c) (core_replyError c) (core_mail c) (service c)
                 (Some (MkParts (pt_broker pt) (pt_discovery pt) (pt_terminal pt) g (pt_worker pt)))
  | None => c
  end.

Definition services := query Services [].
Definition sessions := query Sessions [].
Definition messages (c : BVChatCore) (serviceName : string) := query (fun g => MessagesFor g serviceName) [] c.
Definition transferStatus := query TransferStatus EmptyString.
Definition thisHostname (c : BVChatCore) : string :=
  match service c with Some s => sd_hostname (sv_data s) | None => EmptyString end.

Definition sendText (c : BVChatCore) (serviceName text : string) : bool * BVChatCore :=
  match core_parts c with
  | Some pt => let '(ok, g) := SendText (pt_app pt) serviceName text in (ok, with_app c g)
  | None => (false, c)
  end.
Definition sendFile (c : BVChatCore) (serviceName path : string) : bool * BVChatCore :=
  match core_parts c with
  | Some pt => let '(ok, g) := SendFile (pt_app pt) serviceName path in (ok, with_app c g)
  | None => (false, c)
  end.
Definition takeFileOffers (c : BVChatCore) : list BVFileOffer * BVChatCore :=
  match core_parts c with
  | Some pt => let '(l, g) := TakeFileOffers (pt_app pt) in (l, with_app c g)
  | None => ([], c)
  end.
Definition on_app (f : Gui Q -> Gui Q) (c : BVChatCore) : BVChatCore :=
  match core_parts c with Some pt => with_app c (f (pt_app pt)) | None => c end.
Definition acceptFile (c : BVChatCore) (key : Z) : BVChatCore := on_app (fun g => AcceptFile g key) c.
Definition rejectFile (c : BVChatCore) (key : Z) : BVChatCore := on_app (fun g => RejectFile g key) c.
Definition setSaveDirectory (c : BVChatCore) (dir : string) : BVChatCore := on_app (fun g => SetSaveDirectory g dir) c.

(** The event loop's thread runs one posted task. *)
Definition core_run_task (ctime : Z -> list ascii) (P : asio) (e : env) (c : BVChatCore) : result BVChatCore :=
  match core_parts c with
  | Some pt => let! g := run_task ctime P e (pt_app pt) in Ok (with_app c g)
  | None => Ok c
  end.

End ChatCore.
Arguments parts Q : clear implicits.
Arguments BVChatCore Q : clear implicits.

Section ChatCoreLaws.
Context {Q : Type -> Type} `{FifoQueueLaws Q}.

(** Attaching keeps what has been done when it succeeds: it is [core_start]. *)
Lemma attach_parts_ok (m : mail Q) p : core_start m = Some p -> attach_parts (construct m) = (true, p).
Proof.
  unfold core_start, attach_parts. destruct (Attach (p_broker (construct m)) _ _) as [[[st b] m1] d].
  case_decide; [done|]. destruct (Attach b _ _) as [[[st2 b2] m2] a]. case_decide; [done|].
  unfold subscribe_both. destruct (subscribe_each (comp_id d) _ b2) as [okd b3].
  destruct (subscribe_each (comp_id a) _ b3) as [oka b4]. destruct (okd && oka)%bool; [|done]. by intros [= <-].
Qed.

(** Answers with which nothing fails. *)
Record all_well (s : sys_answers) : Prop := {
  aw_register : reg_error (sa_register s) = 0 /\ reg_process (sa_register s) = 0 /\
    Forall (fun e => e = 0) (reg_replies (sa_register s));
  aw_tty : sa_isatty s = true /\ sa_getattr_fails s = false;
  aw_socket : sa_open s = false /\ sa_reuse s = false /\ sa_v6_only s = false /\ sa_bind s = false /\ sa_listen s = false
}.

Lemma Bonjour_Register_ok s svc :
  all_well s -> Bonjour_Register (sa_register s) svc false = (BVSTATUS_OK, SetIsRegistered svc true, false).
Proof.
  intros [(Hr & Hp & Hf) _ _]. unfold Bonjour_Register, ProcessDNSServiceRegisterResult. rewrite Hr, Hp.
  assert (Hre : fold_left C_RegisterReply (reg_replies (sa_register s)) false = false).
  { induction Hf as [|e l -> Hf IH]; [done|]. exact IH. }
  by rewrite Hre.
Qed.

(** What [start] establishes. *)
Record started (s : sys_answers) (c c' : BVChatCore Q) : Prop := {
  sd_running : running c' = true;
  sd_stopped : core_stopped c' = core_stopped c;
  sd_parts : exists p pt, wired p /\ core_parts c' = Some pt /\ pt_broker pt = p_broker p /\
    b_base (pt_discovery pt) = p_discovery p /\ replyError (pt_discovery pt) = false /\
    app_base (g_app (pt_app pt)) = p_app p /\ mgr_mail (manager (g_app (pt_app pt))) = p_mail p /\
    mailbox (manager (g_app (pt_app pt))) = inMailBox_p (p_app p) /\ is_Some (accepting (manager (g_app (pt_app pt)))) /\
    service_sessionid_m (manager (g_app (pt_app pt))) = ∅ /\
    io_stopped (g_app (pt_app pt)) = core_stopped c /\ g_tasks (pt_app pt) = [] /\
    pt_worker pt = true /\ fd_open (pt_discovery pt) = false
}.

Lemma start_ok s (c : BVChatCore Q) :
  all_well s -> running c = false -> core_replyError c = false ->
  exists c', start s c = Ok (true, c') /\ started s c c' /\ core_replyError c' = false.
Proof.
  intros Hw Hr He. unfold start. rewrite Hr, He, (Bonjour_Register_ok s _ Hw). rewrite decide_False by (by intros ?).
  destruct Hw as [_ (Ht & Hg) (H1 & H2 & H3 & H4 & H5)]. cbn [core_stopped core_mail core_parts].
  unfold BVTerminal_make. rewrite Ht, Hg. cbn [negb mbind result_bind]. unfold StartAcceptingConnections.
  rewrite H1, H2, H3, H4, H5. cbn [mbind result_bind].
  match goal with |- context [construct ?x] => set (m0 := x) end.
  destruct (main_wired m0) as (p & _ & Hc & Hwi). rewrite (attach_parts_ok _ _ Hc).
  eexists. split; [reflexivity|]. split; [|done]. constructor; [done..|]. exists p. eexists. split; [exact Hwi|].
  split; [reflexivity|]. cbn [pt_broker pt_discovery pt_app pt_worker]. do 11 (split; [done|]). apply make_unassigned.
Qed.

Lemma gui_terminates vol resolve base :
  callback_m (gui_component (Q := Q) vol resolve base) !! BVEVENTTYPE_TERMINATE_ALL =
  Some (as_gui_handler (base_handler OnShutdown)).
Proof.
  unfold gui_component, RegisterCallback. cbn [callback_m Component_make].
  rewrite !(lookup_insert_ne _ _ BVEVENTTYPE_TERMINATE_ALL) by done. apply lookup_insert_eq.
Qed.

(** The components are those of a wired program with no mail waiting. *)
Record idle (p : program Q) (pt : parts Q) : Prop := {
  id_broker : pt_broker pt = p_broker p;
  id_discovery : b_base (pt_discovery pt) = p_discovery p;
  id_app : app_base (g_app (pt_app pt)) = p_app p;
  id_mail : forall q, q = broker_inMailBox_p (p_broker p) \/ q = inMailBox_p (p_discovery p) \/ q = inMailBox_p (p_app p) ->
    mail_holds (mgr_mail (manager (g_app (pt_app pt)))) q []
}.

(** [Shutdown] sends [TERMINATE_ALL] and stops the event loop. *)
Lemma Shutdown_ok (g : Gui Q) :
  mail_holds (mgr_mail (manager (g_app g))) (outMailBox_p (app_base (g_app g))) [] ->
  exists g', Shutdown g = Ok g' /\ io_stopped (g_app g') = true /\ app_base (g_app g') = app_base (g_app g) /\
    mail_holds (mgr_mail (manager (g_app g'))) (outMailBox_p (app_base (g_app g))) [MkBVMessage BVEVENTTYPE_TERMINATE_ALL None] /\
    (forall q l, q <> outMailBox_p (app_base (g_app g)) -> mail_holds (mgr_mail (manager (g_app g))) q l ->
                 mail_holds (mgr_mail (manager (g_app g'))) q l).
Proof.
  intros Hm. destruct (push_msg_holds _ _ _ (MkBVMessage BVEVENTTYPE_TERMINATE_ALL None) Hm) as (m & Hp & Hm' & Ho).
  unfold Shutdown, app_SendMessage. rewrite Hp. cbn [mbind result_bind]. eexists. split; [reflexivity|]. by split.
Qed.

Lemma stop_ok fuel ans vol resolve p pt (c : BVChatCore Q) :
  (2 <= fuel)%nat -> running c = true -> core_parts c = Some pt -> wired p -> idle p pt ->
  if fd_open (pt_discovery pt)
  then pt_worker pt = false -> exists c' pt', stop fuel ans vol resolve c = Ok (Some c') /\ running c' = false /\
    core_stopped c' = true /\ core_replyError c' = replyError (pt_discovery pt) /\ core_parts c' = Some pt' /\
    browsing (pt_discovery pt') = false /\ subs_m (pt_broker pt') = ∅
  else stop fuel ans vol resolve c = Err Std_runtime_error.
Proof.
  intros Hf Hr Hpt Hw [Hb Hd Ha Hm]. destruct fuel as [|fuel]; [lia|].
  destruct (wired_boxes p Hw) as (Hne1 & Hne2 & Hne3). pose proof (wi_out p Hw) as [_ Hoa].
  unfold stop. rewrite Hr, Hpt. cbn [negb].
  destruct (Shutdown_ok (pt_app pt)) as (g & -> & Hst & Hbase & Hq & Ho); [rewrite Ha, Hoa; apply Hm; by constructor|].
  cbn [mbind result_bind]. rewrite Ha in Hbase, Hq, Ho. rewrite Hb.
  destruct (wired_run p (mgr_mail (manager (g_app g))) [MkBVMessage BVEVENTTYPE_TERMINATE_ALL None] (S fuel) Hw)
    as (b1 & m1 & HR & Hmd & Hma & Hmb & Hsb).
  { cbn. lia. }
  { by rewrite <- Hoa. }
  { apply Ho; [done|]. apply Hm. right; by left. }
  { apply Ho; [done|]. apply Hm. right; by right. }
  rewrite decide_True in HR by (cbn; rewrite elem_of_cons; by left).
  rewrite HR. cbn [mbind result_bind]. rewrite Hd, Hbase.
  destruct (listen_last (SetIsListeningToMail (bonjour_component ans (p_discovery p)) true) (pt_discovery pt) m1 _ _ fuel
    eq_refl Hmd eq_refl (bonjour_terminates ans _) eq_refl) as (m2 & Ho2 & ->).
  destruct (listen_last (SetIsListeningToMail (gui_component vol resolve (p_app p)) true) g m2 _ _ fuel
    eq_refl (Ho2 (inMailBox_p (p_app p)) _ Hne3 Hma) eq_refl (gui_terminates vol resolve _) eq_refl) as (m3 & _ & HL).
  unfold shutdown_handler, Bonjour.OnShutdown. change (fd_open (b_active ?b false)) with (fd_open b).
  destruct (fd_open (pt_discovery pt)); [intros Hwk|done].
  cbn [negb mbind result_bind]. rewrite decide_False by (by intros ?).
  cbn [mbind result_bind]. rewrite HL. clear HL.
  unfold as_gui_handler, base_handler, OnShutdown. cbn [mbind result_bind]. rewrite decide_False by (by intros ?).
  cbn [mbind result_bind].
  destruct (wired_end p b1 Hw Hmb Hsb) as (b2 & Hend & Hsub). cbn [g_app put_app app_base a_manager a_stopped StopIOContext].
  change (b_base (b_stop _)) with (b_base (pt_discovery pt)). rewrite Hd, Hbase.
  rewrite Hwk, Hend. eexists _, _. split; [reflexivity|]. by repeat (split; [reflexivity|]).
Qed.

Lemma started_idle s (c c' : BVChatCore Q) :
  started s c c' -> exists p pt, wired p /\ core_parts c' = Some pt /\ idle p pt /\ replyError (pt_discovery pt) = false /\
    pt_worker pt = true /\ fd_open (pt_discovery pt) = false.
Proof.
  intros [_ _ (p & pt & Hw & Hpt & Hb & Hd & Hre & Ha & Hm & Hrest)]. exists p, pt. split; [done|]. split; [done|].
  split; [|by split_and!; [|apply Hrest..]]. constructor; [done..|]. rewrite Hm. apply (wi_empty p Hw).
Qed.

(** The worker gets its descriptor. *)
Lemma worker_browse_ok fd p pt (c : BVChatCore Q) :
  0 <= fd -> core_parts c = Some pt -> idle p pt -> pt_worker pt = true -> exists pt',
    core_parts (worker_browse fd false c) = Some pt' /\ idle p pt' /\ pt_worker pt' = false /\
    fd_open (pt_discovery pt') = true /\ replyError (pt_discovery pt') = replyError (pt_discovery pt) /\
    pt_app pt' = pt_app pt.
Proof.
  intros Hfd Hpt [Hb Hd Ha Hm] Hwk. unfold worker_browse. rewrite Hpt, Hwk. eexists. split; [reflexivity|].
  destruct (Browse_keeps fd false (pt_discovery pt)) as [Hbase Hre].
  split; [constructor; [done|by rewrite <- Hd|done|done]|]. split; [done|].
  split; [by apply Browse_assigns|]. by split.
Qed.

Lemma worker_browse_keeps fd ec (c : BVChatCore Q) :
  running (worker_browse fd ec c) = running c /\ (pt_app <$> core_parts (worker_browse fd ec c)) = (pt_app <$> core_parts c).
Proof. unfold worker_browse. destruct (core_parts c) as [pt|] eqn:E; [destruct (pt_worker pt)|]; by rewrite ?E. Qed.

(** Sending while the event loop is stopped: the text waits for ever. *)
Definition send_each (l : list (string * string)) (c : BVChatCore Q) : BVChatCore Q :=
  fold_left (fun c x => (sendText c x.1 x.2).2) l c.

Lemma send_each_waits l (c : BVChatCore Q) pt :
  core_parts c = Some pt -> io_stopped (g_app (pt_app pt)) = true ->
  exists pt', core_parts (send_each l c) = Some pt' /\ io_stopped (g_app (pt_app pt')) = true /\
    length (g_tasks (pt_app pt')) = (length (g_tasks (pt_app pt)) + length l)%nat.
Proof.
  revert c pt. induction l as [|[svc text] l IH]; intros c pt Hpt Hs; cbn [send_each fold_left fst snd].
  - exists pt. rewrite Nat.add_0_r. by repeat split.
  - unfold sendText. rewrite Hpt. cbn [SendText snd]. unfold with_app. rewrite Hpt.
    match goal with |- context [fold_left _ l ?x] =>
      destruct (IH x (MkParts (pt_broker pt) (pt_discovery pt) (pt_terminal pt) (g_post (pt_app pt) (Task_SendText svc text)) (pt_worker pt))
        eq_refl Hs) as (pt' & H1 & H2 & H3) end.
    exists pt'. split; [exact H1|]. split; [exact H2|]. rewrite H3. cbn [pt_app g_post g_queue g_tasks length].
    rewrite length_app. cbn [length]. lia.
Qed.

(** What is sent while the event loop is stopped is accepted, and never run. *)
Lemma stopped_runs_nothing l (c : BVChatCore Q) pt :
  core_parts c = Some pt -> io_stopped (g_app (pt_app pt)) = true -> g_tasks (pt_app pt) = [] ->
  length (query g_tasks [] (send_each l c)) = length l /\
  (forall svc text, (sendText (send_each l c) svc text).1 = true) /\
  forall ctime P e, core_run_task ctime P e (send_each l c) = Ok (send_each l c).
Proof.
  intros Hpt Hio Ht. destruct (send_each_waits l c pt Hpt Hio) as (pt' & Hp & Hs3 & Hl).
  rewrite Ht in Hl. cbn [length Nat.add] in Hl. unfold query, sendText, core_run_task, run_task. rewrite Hp, Hs3.
  cbn [mbind result_bind]. split; [exact Hl|]. split; [done|]. intros _ _ _. unfold with_app. rewrite Hp. f_equal.
  destruct (send_each l c). cbn in *. subst. by destruct pt'.
Qed.

(** The event loop runs what the user sends, when nothing waits before it. *)
Lemma sent_text_run ctime P e svc text (c : BVChatCore Q) pt :
  core_parts c = Some pt -> io_stopped (g_app (pt_app pt)) = false -> g_tasks (pt_app pt) = [] ->
  service_sessionid_m (manager (g_app (pt_app pt))) = ∅ ->
  exists c', core_run_task ctime P e (sendText c svc text).2 = Ok c' /\ query g_tasks [] c' = [].
Proof.
  intros Hpt Hio Ht Hss. unfold sendText. rewrite Hpt. cbn [SendText snd]. unfold with_app at 1. rewrite Hpt.
  unfold core_run_task. cbn [core_parts pt_app]. unfold run_task. cbn [g_post g_queue g_app g_tasks]. rewrite Hio, Ht. cbn [app].
  unfold send_text. cbn [g_post g_queue g_app]. unfold GetSessionIDFromServiceName. rewrite Hss, lookup_empty.
  cbn [mbind result_bind]. by eexists.
Qed.

(** Several attempts to start; what each returned. *)
Fixpoint starts (l : list sys_answers) (c : BVChatCore Q) : result (list bool * BVChatCore Q) :=
  match l with
  | [] => Ok ([], c)
  | s :: l =>
      let! '(ok, c) := start s c in
      let! '(oks, c) := starts l c in
      Ok (ok :: oks, c)
  end.

(** The callback never clears the flag. *)
Lemma replies_set l re : re = true \/ Exists (fun e => e <> 0) l -> fold_left C_RegisterReply l re = true.
Proof.
  revert re. induction l as [|e l IH]; intros re; cbn [fold_left]; [by intros [?|?%Exists_nil]|].
  intros Hre. apply IH. unfold C_RegisterReply. destruct (Z.eqb_spec e kDNSServiceErr_NoError) as [->|Hne]; [|by left].
  destruct Hre as [?|[Hx|?]%Exists_cons]; [by left|done|by right].
Qed.

Lemma Register_fails a (svc : BVService) re :
  re = true \/ (reg_error a = 0 /\ Exists (fun e => e <> 0) (reg_replies a)) ->
  exists st, Bonjour_Register a svc re = (st, svc, true) /\ st <> BVSTATUS_OK.
Proof.
  intros Hre. unfold Bonjour_Register, ProcessDNSServiceRegisterResult. exists BVSTATUS_NOK. split; [|done].
  destruct Hre as [->|[-> Hex]].
  - destruct (negb _); [done|]. rewrite replies_set by (by left). by destruct (negb _).
  - rewrite replies_set by (by right). by destruct (negb (reg_process a =? _)).
Qed.

Lemma starts_fail l (c : BVChatCore Q) :
  running c = false -> core_replyError c = true -> exists oks c', starts l c = Ok (oks, c') /\
    length oks = length l /\ Forall (eq false) oks.
Proof.
  revert c. induction l as [|s l IH]; intros c Hr He; cbn [starts]; [by exists [], c|].
  unfold start. rewrite Hr, He. destruct (Register_fails (sa_register s) (BVService_make (sa_host_name s) "local." PORT) true)
    as (st & -> & Hst); [by left|]. rewrite decide_True by done. cbn [mbind result_bind].
  match goal with |- context [starts l ?x] => destruct (IH x eq_refl eq_refl) as (oks & c' & -> & Hl & Hf) end.
  cbn [mbind result_bind]. exists (false :: oks), c'. split; [done|]. split; [cbn; by rewrite Hl|by constructor].
Qed.

End ChatCoreLaws.

(** ** Properties *)

Section ChatCoreProperties.
Context {Q : Type -> Type} `{FifoQueueLaws Q}.

(** C39.  The life of the facade, when every answer of the system is good (the
    service is registered without an error, standard input is a terminal, the
    listening socket opens and the daemon's descriptor can be assigned).  The
    first [start] succeeds and a second one changes nothing.  Stopping before
    discovery's worker thread has run [Browse] makes [OnShutdown] throw, which
    nothing catches.  Once it has, what the user sends is run by the event loop,
    and a [stop] right then, with no mail waiting, returns, with every loop ended
    and nothing subscribed; a second [stop] changes nothing.  But the event loop it stopped
    is the same one the next [start] uses and is never told to run again: that
    start succeeds, every text is accepted, and none is ever sent, whether or
    not the new worker thread has run. *)
Theorem restart_runs_nothing s s' fuel ans vol resolve fd :
  all_well s -> all_well s' -> (2 <= fuel)%nat -> 0 <= fd ->
  exists c0 c2 c3 : BVChatCore Q,
    start s BVChatCore_make = Ok (true, c0) /\ start s' c0 = Ok (true, c0) /\
    stop fuel ans vol resolve c0 = Err Std_runtime_error /\
    let c1 := worker_browse fd false c0 in
    start s' c1 = Ok (true, c1) /\
    (forall ctime P e svc text, exists c, core_run_task ctime P e (sendText c1 svc text).2 = Ok c /\
       query g_tasks [] c = []) /\
    stop fuel ans vol resolve c1 = Ok (Some c2) /\ running c2 = false /\
    (exists pt, core_parts c2 = Some pt /\ browsing (pt_discovery pt) = false /\ subs_m (pt_broker pt) = ∅) /\
    stop fuel ans vol resolve c2 = Ok (Some c2) /\
    start s' c2 = Ok (true, c3) /\ running c3 = true /\
    forall c4, c4 = c3 \/ (exists fd' ec, c4 = worker_browse fd' ec c3) -> forall l,
      length (query g_tasks [] (send_each l c4)) = length l /\
      (forall svc text, (sendText (send_each l c4) svc text).1 = true) /\
      forall ctime P e, core_run_task ctime P e (send_each l c4) = Ok (send_each l c4).
Proof.
  intros Hs Hs' Hf Hfd. destruct (start_ok s (BVChatCore_make (Q := Q)) Hs eq_refl eq_refl) as (c0 & Hc0 & Hst0 & He0).
  destruct (started_idle _ _ _ Hst0) as (p & pt & Hw & Hpt & Hid & Hre & Hwk & Hop). pose proof (sd_running _ _ _ Hst0) as Hr0.
  destruct (worker_browse_ok fd p pt c0 Hfd Hpt Hid Hwk) as (pt1 & Hpt1 & Hid1 & Hwk1 & Hop1 & Hre1 & Happ).
  destruct (worker_browse_keeps fd false c0) as [Hr1 _]. rewrite Hr0 in Hr1. set (c1 := worker_browse fd false c0) in *.
  pose proof (stop_ok fuel ans vol resolve p pt c0 Hf Hr0 Hpt Hw Hid) as Hthrow. rewrite Hop in Hthrow.
  pose proof (stop_ok fuel ans vol resolve p pt1 c1 Hf Hr1 Hpt1 Hw Hid1) as Hstop. rewrite Hop1 in Hstop.
  destruct (Hstop Hwk1) as (c2 & pt2 & H2 & Hr2 & Hs2 & He2 & Hpt2 & Hbr & Hsub).
  rewrite Hre1, Hre in He2. destruct (start_ok s' c2 Hs' Hr2 He2) as (c3 & H3 & Hst3 & _).
  exists c0, c2, c3. split; [exact Hc0|]. split; [unfold start; by rewrite Hr0|]. split; [exact Hthrow|].
  cbv zeta. fold c1. split; [unfold start; by rewrite Hr1|]. split.
  { intros ctime P e svc text. destruct (sd_parts _ _ _ Hst0) as (p' & pt' & _ & Hpt' & _ & _ & _ & _ & _ & _ & _ & Hss & Hio & Ht & _).
    rewrite Hpt in Hpt'. injection Hpt' as <-. by apply (sent_text_run ctime P e svc text c1 pt1 Hpt1); rewrite Happ. }
  split; [exact H2|]. split; [exact Hr2|]. split; [by exists pt2|]. split; [unfold stop; by rewrite Hr2|].
  split; [exact H3|]. split; [apply (sd_running _ _ _ Hst3)|]. intros c4 Hc4 l.
  destruct (sd_parts _ _ _ Hst3) as (p3 & pt3 & _ & Hpt3 & _ & _ & _ & _ & _ & _ & _ & _ & Hio & Ht & _). rewrite Hs2 in Hio.
  assert (Hc : exists pt4, core_parts c4 = Some pt4 /\ pt_app pt4 = pt_app pt3).
  { destruct Hc4 as [->|(fd' & ec & ->)]; [by exists pt3|]. destruct (worker_browse_keeps fd' ec c3) as [_ Hk].
    rewrite Hpt3 in Hk. by apply fmap_Some in Hk as (pt4 & ? & ->); exists pt4. }
  destruct Hc as (pt4 & Hpt4 & Ha). by apply (stopped_runs_nothing l c4 pt4 Hpt4); rewrite Ha.
Qed.

(** A failed registration is final: once the daemon has answered one with an
    error, this start and every later one returns [false], whatever the daemon
    answers then; the flag the callback sets is global and nothing clears it. *)
Theorem failed_registration_is_final s l (c : BVChatCore Q) :
  running c = false -> reg_error (sa_register s) = 0 -> Exists (fun e => e <> 0) (reg_replies (sa_register s)) ->
  exists oks c', starts (s :: l) c = Ok (oks, c') /\ length oks = S (length l) /\ Forall (eq false) oks.
Proof.
  intros Hr He Hex. cbn [starts]. unfold start at 1. rewrite Hr.
  destruct (Register_fails (sa_register s) (BVService_make (sa_host_name s) "local." PORT) (core_replyError c))
    as (st & -> & Hst); [by right|]. rewrite decide_True by done. cbn [mbind result_bind].
  match goal with |- context [starts l ?x] => destruct (starts_fail l x eq_refl eq_refl) as (oks & c' & -> & Hl & Hf) end.
  cbn [mbind result_bind]. exists (false :: oks), c'. split; [done|]. split; [cbn; by rewrite Hl|by constructor].
Qed.

End ChatCoreProperties.

(** ** Concrete instances *)

Section ChatCoreWitnesses.

Definition ex_sys (replies : list Z) : sys_answers :=
  MkSys "ann" (MkRegisterAnswer 0 0 replies) 0 true false (MkTermios 10 1 0 0) false false false false false ex_os "/srv".

Lemma ex_sys_well : all_well (ex_sys [0]).
Proof. constructor; repeat split; by repeat constructor. Qed.

Lemma restart_runs_nothing_witness :
  exists c0 c2 c3 : BVChatCore threadsafe_queue,
    start (ex_sys [0]) BVChatCore_make = Ok (true, c0) /\
    stop 2 (MkAnswer 0 6 false []) ex_volumes ex_resolve c0 = Err Std_runtime_error /\
    stop 2 (MkAnswer 0 6 false []) ex_volumes ex_resolve (worker_browse 5 false c0) = Ok (Some c2) /\
    start (ex_sys [0]) c2 = Ok (true, c3) /\ (sendText c3 "bob" "hello").1 = true.
Proof.
  destruct (restart_runs_nothing (Q := threadsafe_queue) (ex_sys [0]) (ex_sys [0]) 2 (MkAnswer 0 6 false []) ex_volumes ex_resolve
    5 ex_sys_well ex_sys_well (le_n 2)) as (c0 & c2 & c3 & H4 & _ & H1 & _ & _ & H2 & _ & _ & _ & H3 & _ & Hl).
  - lia.
  - exists c0, c2, c3. split; [exact H4|]. split; [exact H1|]. split; [exact H2|]. split; [exact H3|].
    apply (proj1 (proj2 (Hl c3 (or_introl eq_refl) [])) "bob" "hello").
Defined.

Lemma failed_registration_is_final_witness :
  exists oks c, starts [ex_sys [1]; ex_sys [0]] (BVChatCore_make (Q := threadsafe_queue)) = Ok (oks, c) /\ length oks = 2%nat /\
    Forall (eq false) oks.
Proof.
  apply (failed_registration_is_final (ex_sys [1]) [ex_sys [0]] (BVChatCore_make (Q := threadsafe_queue))); [done|done|].
  by repeat constructor.
Defined.

End ChatCoreWitnesses.
