(* ===== verification/Announcement.v ===== *)
(** * From an announcement to a dial ([src/BVDiscovery_Bonjour.cpp],
    [src/BVApp_ConsoleClient.cpp], [src/BVTCPConnectionManager.cpp])

    The composition of discovery, application and connection manager: a
    service the daemon announces is published to the application, which asks
    for its resolution; the answer makes the application dial.  Each message
    is followed from the outbox of the component that sends it to the handler
    of the component that is subscribed to it. *)

From Stdlib Require Import ZArith Lia Ascii String.
From S2P Require Import Prelude TSQueue Common Broker Component LinkedList Discovery Bonjour.
From S2P Require Import Session ConnectionManager ConsoleClient.

Lemma only_element {A} (l : list A) x : NoDup l -> (forall y, y ∈ l <-> y = x) -> l = [x].
Proof.
  intros Hnd Hin. destruct l as [|y l]; [exfalso; by apply (not_elem_of_nil x), Hin|].
  apply NoDup_cons in Hnd as [Hy _]. assert (y = x) as -> by (apply Hin; set_solver). f_equal.
  destruct l as [|z l]; [done|]. assert (z = x) as -> by (apply Hin; set_solver). set_solver.
Qed.

Section Announcement.
Context {Q : Type -> Type} `{FifoQueueLaws Q}.
Context (resolve : string -> Z -> nat -> bool * nat).

(** The reply and the answer that stand for one well-announced service. *)
Record announced (r : browse_reply) (bI : BVServiceBrowseInstance) : Prop := {
  an_flags : is_add r = true;
  an_error : br_errorCode r = kDNSServiceErr_NoError;
  an_shown : shown_instance (br_serviceName r) (br_regtype r) (br_replyDomain r) = bI;
  an_fits : resolvable bI;
  an_text : reply_ok r
}.

Record answered (a : resolve_answer) (rr : resolve_reply) (host : string) : Prop := {
  aw_error : ra_error a = kDNSServiceErr_NoError;
  aw_fd : 0 <= ra_fd a;
  aw_ec : ra_ec a = false;
  aw_reply : rr_errorCode rr = kDNSServiceErr_NoError;
  aw_host : rr_hosttarget rr = Some host;
  aw_nul : no_nul host;
  aw_len : (String.length host < 256)%nat;
  aw_txt : match rr_txtRecord rr with Some t => (Z.to_nat (rr_txtLen rr) <= length t)%nat | None => True end
}.

Definition published (bI : BVServiceBrowseInstance) : BVMessage :=
  MkBVMessage BVEVENTTYPE_APP_PUBLISHED_SERVICE (Some (any_BrowseList [bI])).
Definition resolve_wanted (bI : BVServiceBrowseInstance) : BVMessage :=
  MkBVMessage BVEVENTTYPE_DISCOVERY_REQUEST_RESOLVE (Some (any_BrowseInstance bI)).
Definition resolved (res : DNSResolutionResult) : BVMessage :=
  MkBVMessage BVEVENTTYPE_APP_DISCOVERY_SERVICE_RESOLVED (Some (any_Resolution res)).

(** The request and its answer, within discovery. *)
Lemma request_answered a rr host bI b (m : mail Q) q0 :
  resolvable bI -> answered a rr host -> mail_holds m (outMailBox_p (b_base b)) q0 ->
  exists ctx res m',
    OnResolveRequest (ResolveService a) (data_p (resolve_wanted bI)) b =
      Ok (BVSTATUS_OK, b_resolving b (resolving b ++ [ctx])) /\
    (forall l, resolve_handler [rr] kDNSServiceErr_NoError ctx (b_resolving b l) m = Ok (b_resolving b l, m')) /\
    mail_holds m' (outMailBox_p (b_base b)) (q0 ++ [resolved res]) /\
    until_nul (res_serviceName res) = Some (chars (bi_serviceName bI)) /\
    until_nul (res_hosttarget res) = Some (chars host) /\ res_port res = ntohs (rr_port rr).
Proof.
  intros Hr [He Hfd Hec Hrr Hh Hn Hl Ht] Hm.
  destruct (resolution_ok a bI b rr host Hr He Hh Hn Hl Ht) as (ctx & res & Hc & Hres & H1 & H2 & H3).
  destruct (push_msg_holds m _ q0 (resolved res) Hm) as (m' & Hp & Hm' & _).
  exists ctx, res, m'. split; [|split; [|split; [exact Hm'|by split]]].
  - cbn [OnResolveRequest resolve_wanted data_p]. unfold ResolveService. rewrite Hc.
    by rewrite (proj2 (Z.ltb_ge _ _) Hfd), Hec.
  - intros l. unfold resolve_handler. cbn [resolve_replies]. unfold C_ResolveReply. rewrite Hrr.
    cbn [Z.eqb kDNSServiceErr_NoError negb]. rewrite Hres. cbn [mbind result_bind].
    unfold b_SendMessage. cbn [b_resolving b_base]. unfold resolved in Hp. by rewrite Hp.
Qed.

Lemma endpoint_found host name port :
  (resolve host port 0).1 = false -> (resolve host port 0).2 <> 0%nat ->
  ResolveServiceToEndpoint resolve host name port = Ok (BVNode_make name host port).
Proof.
  intros Hec Hn0. unfold ResolveServiceToEndpoint. cbn [resolve_attempts].
  destruct (resolve host port 0) as [ec n]. cbn [fst snd] in Hec, Hn0. subst ec.
  rewrite (proj2 (Nat.eqb_neq n 0) Hn0). cbn [negb andb]. by rewrite (proj2 (Nat.eqb_neq n 0) Hn0).
Qed.

(** The application's answer to a resolved service it has not seen. *)
Lemma resolved_dialled (a : App Q) (m : mail Q) res name host :
  until_nul (res_serviceName res) = Some (chars name) -> until_nul (res_hosttarget res) = Some (chars host) ->
  (resolve host (res_port res) 0).1 = false -> (resolve host (res_port res) 0).2 <> 0%nat ->
  name <> "ERROR"%string -> nodesM (manager a) !! name = None -> mgr_inv (manager a) ->
  name ∉ session_names (manager a) -> str_lt (thisName (manager a)) name = true ->
  exists a' m', as_handler (HandleResolvedServices resolve) (data_p (resolved res)) a m = Ok (BVSTATUS_OK, a', m') /\
    connecting (manager a') = connecting (manager a) ++
      [(currentSessionID (manager a), with_id (BVNode_make name host (res_port res)) (static_node_id (manager a)))].
Proof.
  intros Hs Hh Hec Hn0 Hne Hnode Hi Hin Hlt. unfold as_handler, HandleResolvedServices, c_str.
  cbn [resolved data_p]. rewrite Hs, Hh. cbn [from_option_err mbind result_bind]. rewrite !str_chars.
  rewrite (endpoint_found host name (res_port res) Hec Hn0). cbn [mbind result_bind].
  assert (Hn : nd_serviceName (BVNode_make name host (res_port res)) = name) by done.
  set (node := BVNode_make _ _ _) in *. rewrite Hn. rewrite (proj2 (String.eqb_neq _ _) Hne).
  cbn [a_manager manager]. set (x := m_mail (manager a) m).
  assert (Hx : same_maps (manager a) x) by done. change (nodesM x) with (nodesM (manager a)). rewrite Hnode.
  unfold AddNodeToNodesM. change (nodesM x) with (nodesM (manager a)). rewrite Hnode.
  set (y := m_nodes x _). assert (Hy : same_maps (manager a) y) by done.
  destruct (initiate_ok y node) as (y' & Hi' & Hc).
  - by apply (mgr_inv_same (manager a)).
  - rewrite Hn. by rewrite (session_names_same _ _ Hy).
  - rewrite Hn in Hc. change (thisName y) with (thisName (manager a)) in Hc. rewrite Hlt in Hc.
    rewrite Hi'. cbn [mbind result_bind]. eexists _, _. split; [reflexivity|]. exact Hc.
Qed.

(** C18.  From an announcement to a dial: a batch with one added service whose
    texts fit is published to the application; the application, to which it is
    new, sends discovery one request to resolve it; the daemon's answer,
    whatever lies behind the names in memory, comes back to the application
    under the service's own name; and if the host name resolves and this
    machine is the one to dial, the connection manager has one more connection
    under way, to that service, host and port. *)
Theorem announced_service_is_dialled b (m1 m2 m3 m4 : mail Q) (a : App Q) r bI ra rr host name q1 q2 q3 :
  announced r bI -> answered ra rr host -> name = bi_serviceName bI ->
  browsing b = true -> dnsRef b = true -> discovered (b_disc b) [] -> GetDidServiceRegister (b_disc b) = 0 ->
  mail_holds m1 (outMailBox_p (b_base b)) q1 ->
  NoDup (serviceV a) -> bI ∉ serviceV a -> name <> sd_hostname (thisMachineServiceData (manager a)) ->
  mail_holds m2 (outMailBox_p (app_base a)) q2 -> mail_holds m3 (outMailBox_p (b_base b)) q3 ->
  (resolve host (ntohs (rr_port rr)) 0).1 = false -> (resolve host (ntohs (rr_port rr)) 0).2 <> 0%nat ->
  name <> "ERROR"%string -> nodesM (manager a) !! name = None -> mgr_inv (manager a) ->
  name ∉ session_names (manager a) -> str_lt (thisName (manager a)) name = true ->
  exists b1 m1' a1 m2' ctx res m3' a2 m4',
    ProcessDNSServiceBrowseResult [r] kDNSServiceErr_NoError b m1 = Ok (BVSTATUS_OK, b1, m1') /\
    mail_holds m1' (outMailBox_p (b_base b)) (q1 ++ [published bI]) /\
    as_handler HandlePublishedServices (data_p (published bI)) a m2 = Ok (BVSTATUS_OK, a1, m2') /\
    mail_holds m2' (outMailBox_p (app_base a)) (q2 ++ [resolve_wanted bI]) /\
    OnResolveRequest (ResolveService ra) (data_p (resolve_wanted bI)) b1 =
      Ok (BVSTATUS_OK, b_resolving b1 (resolving b1 ++ [ctx])) /\
    resolve_handler [rr] kDNSServiceErr_NoError ctx (b_resolving b1 (resolving b1)) m3 =
      Ok (b_resolving b1 (resolving b1), m3') /\
    mail_holds m3' (outMailBox_p (b_base b)) (q3 ++ [resolved res]) /\
    as_handler (HandleResolvedServices resolve) (data_p (resolved res)) a1 m4 = Ok (BVSTATUS_OK, a2, m4') /\
    connecting (manager a2) = connecting (manager a) ++
      [(currentSessionID (manager a),
        with_id (BVNode_make name host (ntohs (rr_port rr))) (static_node_id (manager a)))].
Proof.
  intros [Hadd Herr Hshown Hfits Htext] Haw Hname Hb Hr Hd Hg Hm1 Hnd Hnew Hown Hm2 Hm3 Hec Hn0 Hne Hnode Hi Hin Hlt.
  assert (Hrep : reported r = true) by (unfold reported; by rewrite Herr).
  destruct (browse_processed b m1 [] [r] q1 Hb Hr Hd) as (d' & m1' & Hp & Hm1' & _);
    [by apply Forall_singleton|by left|exact Hm1|].
  destruct (published_ok a m2 [bI] q2 Hnd Hm2) as (a1 & m2' & added & Ha & Hv & Hnd' & Hel & Hm2' & Hmg).
  assert (added = [bI]) as ->.
  { apply (only_element added bI); [rewrite Hv in Hnd'; by apply NoDup_app in Hnd' as (_ & _ & ?)|].
    intros x. rewrite Hel, list_elem_of_singleton. rewrite Hname in Hown. naive_solver. }
  set (b1 := b_fd (b_set b d') (browseFD b ++ [Pending])).
  destruct (request_answered ra rr host bI b1 m3 q3 Hfits Haw Hm3)
    as (ctx & res & m3' & Hreq & Hans & Hm3' & Hsn & Hht & Hport).
  rewrite <- Hname in Hsn. rewrite <- Hport in Hec, Hn0 |- *.
  assert (Hsame : same_maps (manager a) (manager a1)) by (by rewrite Hmg).
  destruct (resolved_dialled a1 m4 res name host Hsn Hht Hec Hn0 Hne) as (a2 & m4' & Hd2 & Hc2).
  { by rewrite Hmg. }
  { by apply (mgr_inv_same (manager a)). }
  { by rewrite (session_names_same _ _ Hsame). }
  { by rewrite Hmg. }
  exists b1, m1', a1, m2', ctx, res, m3', a2, m4'.
  split; [exact Hp|]. split.
  { rewrite Hg in Hm1'. unfold batch_flag in Hm1'. cbn [filter list_filter] in Hm1'.
    rewrite decide_True in Hm1' by done. cbn [last app fmap list_fmap] in Hm1'. rewrite Hadd in Hm1'.
    unfold published. rewrite <- Hshown. exact Hm1'. }
  split; [exact Ha|]. split; [exact Hm2'|]. split; [exact Hreq|]. split; [apply Hans|]. split; [exact Hm3'|].
  split; [exact Hd2|]. rewrite Hc2. by rewrite Hmg.
Qed.

(** A failed connection is never tried again: after the handler has been
    given an error nothing is under way to the peer, but the application still
    has it among its services and nodes; so neither its being published again
    nor its being resolved again makes anything be sent or dialled. *)
Theorem failed_dial_never_retried P e (a : App Q) sid node k bI n0 :
  connecting (manager a) !! k = Some (sid, node) -> bI ∈ serviceV a -> NoDup (serviceV a) ->
  nodesM (manager a) !! bi_serviceName bI = Some n0 ->
  exists mgr, ConnectHandler P e k true (manager a) = Ok mgr /\ connecting mgr = delete k (connecting (manager a)) /\
    (forall m q0, mail_holds m (outMailBox_p (app_base a)) q0 ->
       exists a2 m2, as_handler HandlePublishedServices (data_p (published bI)) (a_manager a mgr) m = Ok (BVSTATUS_OK, a2, m2) /\
         mail_holds m2 (outMailBox_p (app_base a)) q0 /\ connecting (manager a2) = delete k (connecting (manager a))) /\
    (forall m res host, until_nul (res_serviceName res) = Some (chars (bi_serviceName bI)) ->
       until_nul (res_hosttarget res) = Some (chars host) -> bi_serviceName bI <> "ERROR"%string ->
       (resolve host (res_port res) 0).1 = false -> (resolve host (res_port res) 0).2 <> 0%nat ->
       exists a2, as_handler (HandleResolvedServices resolve) (data_p (resolved res)) (a_manager a mgr) m = Ok (BVSTATUS_OK, a2, m) /\
         connecting (manager a2) = delete k (connecting (manager a))).
Proof.
  intros Hc Hin Hnd Hn. unfold ConnectHandler. rewrite Hc. eexists. split; [reflexivity|]. split; [done|].
  set (mgr := m_connecting (manager a) (delete k (connecting (manager a)))). split.
  - intros m q0 Hm. destruct (published_ok (a_manager a mgr) m [bI] q0 Hnd Hm) as (a2 & m2 & added & Ha & _ & _ & Hel & Hm2 & Hmg).
    assert (added = []) as ->.
    { destruct added as [|x l]; [done|]. assert (Hx : x ∈ x :: l) by set_solver. apply Hel in Hx as (Hx & _ & Hnx).
      apply list_elem_of_singleton in Hx as ->. done. }
    rewrite app_nil_r in Hm2. exists a2, m2. split; [exact Ha|]. split; [exact Hm2|]. by rewrite Hmg.
  - intros m res host Hs Hh Hne Hec Hn0. unfold as_handler, HandleResolvedServices, c_str.
    cbn [resolved data_p]. rewrite Hs, Hh. cbn [from_option_err mbind result_bind]. rewrite !str_chars.
    rewrite (endpoint_found host _ (res_port res) Hec Hn0). cbn [mbind result_bind BVNode_make nd_serviceName].
    rewrite (proj2 (String.eqb_neq _ _) Hne). cbn [a_manager manager m_mail nodesM m_connecting mgr]. rewrite Hn.
    cbn [mbind result_bind]. eexists. split; [reflexivity|]. done.
Qed.

(** The port dialled is the port listened on: for any port, the service data
    registered with Bonjour carries it in network byte order, the acceptor
    listens on it, and every resolution of that registration hands it to the
    dialling side. *)
Theorem dialled_port_is_listened_port (m : Manager Q) hostname domain port rr ctx res :
  0 <= port < 65536 -> thisMachineServiceData m = BVService_host_data hostname domain port ->
  rr_port rr = sd_port (thisMachineServiceData m) -> resolution_of rr ctx = Ok res ->
  StartAcceptingConnections false false false false false m = Ok (BVSTATUS_OK, port, Accept m) /\ res_port res = port.
Proof.
  intros Hp Hd Hr Hres. assert (Hport : ntohs (sd_port (thisMachineServiceData m)) = port).
  { rewrite Hd. cbn [BVService_host_data sd_port]. unfold u16. rewrite wrap_small by lia. by apply htons_htons. }
  split; [unfold StartAcceptingConnections, acceptor_port; by rewrite Hport|].
  unfold resolution_of in Hres.
  repeat (apply bind_ok in Hres as (? & _ & Hres)). injection Hres as <-. cbn [res_port]. by rewrite Hr.
Qed.

End Announcement.

(** ** Concrete instance *)

Section AnnouncementWitnesses.

Definition ex_answer : resolve_answer := MkAnswer 0 6 false (chars "leftovers of another name here").
Definition ex_host_reply : resolve_reply :=
  MkResolveReply 0 (Some "bob._localchathost._tcp.local."%string) (Some "bob.local."%string) (htons 50001) 0 None.
Definition ex_bob_service : BVServiceBrowseInstance := BrowseInstance "bob" SERVICETYPE_STR "local.".

Lemma ex_announced : announced (ex_reply 2 "bob") ex_bob_service.
Proof.
  split; [reflexivity|reflexivity|vm_compute; reflexivity| |by apply ex_reply_ok].
  split; [by apply (ex_service_text_ok "bob")|]. vm_compute. lia.
Qed.

Lemma ex_answered : answered ex_answer ex_host_reply "bob.local.".
Proof.
  split; [reflexivity|cbn; lia|reflexivity|reflexivity|reflexivity| |vm_compute; lia|exact I].
  apply (bool_decide_unpack _). vm_compute. exact I.
Qed.

Lemma announced_service_is_dialled_witness :
  exists b1 m1 a1 m2 a2 m4 res,
    ProcessDNSServiceBrowseResult [ex_reply 2 "bob"] 0 ex_bonjour ex_bonjour_store = Ok (BVSTATUS_OK, b1, m1) /\
    as_handler HandlePublishedServices (data_p (published ex_bob_service)) ex_app ex_store = Ok (BVSTATUS_OK, a1, m2) /\
    as_handler (HandleResolvedServices ex_resolve) (data_p (resolved res)) a1 ex_store = Ok (BVSTATUS_OK, a2, m4) /\
    connecting (manager a2) = [(0, with_id (BVNode_make "bob" "bob.local." 50001) 0)].
Proof.
  destruct (announced_service_is_dialled ex_resolve ex_bonjour ex_bonjour_store ex_store ex_bonjour_store ex_store
    ex_app (ex_reply 2 "bob") ex_bob_service ex_answer ex_host_reply "bob.local." "bob" [] [] []
    ex_announced ex_answered eq_refl eq_refl eq_refl ex_bonjour_list eq_refl
    (ex_bonjour_store_holds 0 (or_introl eq_refl)))
    as (b1 & m1 & a1 & m2 & ctx & res & m3 & a2 & m4 & H1 & _ & H2 & _ & _ & _ & _ & H3 & H4).
  - constructor.
  - intros Hx. inversion Hx.
  - discriminate.
  - apply ex_store_holds. by left.
  - apply (ex_bonjour_store_holds 0). by left.
  - reflexivity.
  - discriminate.
  - discriminate.
  - reflexivity.
  - apply (mgr_inv_same (ex_machine "ann")); [repeat split|exact (ex_machine_inv "ann")].
  - intros Hx. inversion Hx.
  - reflexivity.
  - exists b1, m1, a1, m2, a2, m4, res. split; [exact H1|]. split; [exact H2|]. split; [exact H3|].
    change (ntohs (rr_port ex_host_reply)) with 50001 in H4. exact H4.
Defined.

Definition ex_dialling : App threadsafe_queue :=
  a_services (a_manager ex_app (m_nodes ex_ann1 (<["bob"%string := ex_peer "bob"]> ∅))) [ex_bob_service].

Lemma failed_dial_never_retried_witness :
  exists mgr, ConnectHandler ex_lazy ex_env 0 true (manager ex_dialling) = Ok mgr /\ connecting mgr = [].
Proof.
  destruct (failed_dial_never_retried ex_resolve ex_lazy ex_env ex_dialling 0 (with_id (ex_peer "bob") 0) 0
    ex_bob_service (ex_peer "bob")) as (mgr & H1 & H2 & _).
  - vm_compute. reflexivity.
  - cbn. set_solver.
  - cbn. apply NoDup_singleton.
  - vm_compute. reflexivity.
  - exists mgr. split; [exact H1|exact H2].
Defined.

End AnnouncementWitnesses.
